(* ===== verification/_CoqProject ===== *)
-Q . S2P
Prelude.v
Models.v
Memory.v
Wire.v
Sizes.v
Platform.v
Printf.v
Serializers.v
SerializersSpec.v
Copy.v
Kms.v
KmsSpec.v
KmsProofs.v
Interfaces.v
KmsApp.v
Socket.v
Servlet.v
ServletProofs.v
Errors.v
Setup.v
Run.v
Answers.v
ServerMain.v
KeyFile.v
Uuid.v
Printing.v
Client.v
Remote.v
Network.v
ClientApi.v
ApiProofs.v
Kept.v
World.v
ClientExample.v
Scenario.v
CodecTheorems.v
KmsTheorems.v
ServerTheorems.v
SocketTheorems.v
FileTheorems.v
ClientTheorems.v
ApiTheorems.v
WorldTheorems.v
ExampleTheorems.v
PrintTheorems.v
