(* ===== verification/Prelude.v ===== *)
(** * Verification of the minimal ETSI GS QKD 004 implementation

    The program under [src/etsi-gs-qkd-004-c] is a key management server and its client
    library for the ETSI GS QKD 004 interface.  Applications open a key stream between
    two endpoints (OPEN_CONNECT), take keys from it (GET_KEY) and close it (CLOSE); the
    calls travel as binary messages over TLS.

    ** The parts and how they interact

    [interfaces.h] declares three calls.  Two files implement them: [server_example.c],
    the key management server itself, and [ssl_socket_client.c], which sends each call to
    a server as a request behind a header and reads the response.  The servlet of
    [ssl_socket_server.c] is the counterpart: it reads a request, runs the call on the
    server's implementation and sends the response.  Both ends use [serializers.c],
    [sizes.c] and [copy.c] for the messages and [ssl_socket.c] for the connection, its
    setup and the loop of the server.  [write_key_to_file.c] writes received keys down and
    [utils.c] prints the structs.

    On the client stand two programs: [client_api.c], a library that gives the calls to
    other languages with ids as text, and [client_example.c], which takes a key at both
    ends of a stream.  [main] of [server_example.c] starts the server.

    ** The files

    - [Prelude]: bytes, machine integers, the outcomes of C code and the monad [C].
    - [Models] ([models.h]): the structs and codes.
    - [Memory]: the heap, [malloc], [free], [memcpy], [strlen], [strcmp].
    - [Wire]: the wire format as codecs, a specification without counterpart in the code.
    - [Sizes] ([sizes.c]), [Serializers] ([serializers.c]), [Copy] ([copy.c] and
      [memory_free_utils.c]): one definition for each function, under its name.
      [SerializersSpec] relates them to the codecs.
    - [Platform]: the libraries as classes, with instances for the examples.
    - [Printf]: the conversions of [printf] that the code uses.
    - [Interfaces] ([interfaces.c]): the class [QkdApp] of the three calls, their forms on
      structs, and the classes [AppSpec] and [AppOk]: an abstract application, and the
      promise that an implementation behaves like it.
    - [Kms] ([server_example.c]); [KmsSpec], the abstract key management server: a list of
      streams; [KmsProofs]; [KmsApp], the instances that make it an application and
      discharge [AppOk].
    - [Socket] (the transfer half of [ssl_socket.c]), [Errors] (its reports of OpenSSL's
      errors), [Servlet] ([ssl_socket_server.c]), [Setup] (the other half of
      [ssl_socket.c]): the loop of the server is [serve_loop].
    - [ServletProofs]: the abstract server [abs_serve], from request to response over any
      abstract application, and the proof that the servlet implements it; [Run]: runs of
      the abstract server over sequences of clients; [Answers]: which requests are answered,
      and the form of the answers.
    - [ServerMain] ([main] of [server_example.c]).
    - [KeyFile] ([write_key_to_file.c]), [Printing] ([utils.c]); [Uuid]: ids as text, the
      functions of libuuid for it as a class.
    - [Client] ([ssl_socket_client.c]): the calls over the network, again a [QkdApp];
      [Remote]: what they return when the peer is the abstract server in a given state;
      [Network]: that the servlet is such a peer.
    - [ClientApi] ([client_api.c]) with [ApiProofs]; [ClientExample] ([client_example.c]);
      [Kept]: that a call of [getKey] leaves the caller's memory as it was, whatever its peer
      sends.
    - [World]: the whole system as a step relation.  Its states hold the server's and those
      of any number of programs that use [ClientApi]; a step is one connection, made by one
      of the programs or by some other client and served by the servlet, and a run the list
      of its connections, on which it is a run of [main] as well.  A program may tell
      another with the same applications the id of its stream, to open it with.  What a
      program receives is bound by [connected] only where the response fits one record.
    - [Scenario]: concrete states on which the theorems are instantiated.
    - [CodecTheorems], [KmsTheorems], [ServerTheorems], [SocketTheorems], [FileTheorems],
      [ClientTheorems], [ApiTheorems], [WorldTheorems], [ExampleTheorems],
      [PrintTheorems]: the properties, numbered in the order of importance, each with a
      concrete instance [.._witness] where it has hypotheses; theorems without a number are
      properties as well, mostly special cases of numbered ones.

    ** Modelling

    C code is a function on a program state that ends in an [outcome]: a result, [exit],
    [abort], a [fault] (undefined behaviour: an access out of bounds, after [free] or
    through a null pointer, the use of uninitialised bytes, a signed overflow, an array
    that does not fit the stack) or [NoFuel].  The heap maps block numbers to blocks of
    bytes, each initialised or not, or to nodes of the server's linked list; a pointer is
    a block and an offset, and block numbers are never used twice, so that a dangling
    pointer stays one.  Out parameters are results.  Integers are [Z], with the wrap-around
    of [uint32_t] and [size_t] and the conversions to [int] written out.

    OpenSSL, libuuid, the pseudorandom generator of the C library, the success of [malloc]
    and the calls of the operating system are parameters: the classes [Openssl], [Tls],
    [Libuuid], [UuidText], [Rand], [Malloc], [SslErrors] and [Stack].  What the proofs need
    of them is documented behaviour, stated in [OpensslOk], [TlsOk], [LibuuidOk],
    [UuidTextOk], [MallocTotal] and [SslErrorsOk]; [Platform], [Uuid], [Errors] and
    [Scenario] have instances that satisfy them.

    Memory is accounted for by [frame]: which blocks an operation owns before and after,
    which it returns or leaks, and that all others are unchanged.  Frames compose
    ([frame_trans]) and count ([frame_size]), which carries the accounts of one request to
    runs of the server.

    ** Bounds and fuel

    The loops over the linked list take [list_fuel], one more than the blocks in the heap,
    which is enough since the nodes of a list are distinct blocks (used in
    [open_connect_refines] and [get_key_refines], which have no fuel).  The reads of one
    message take a parameter [fuel]; two turns are enough for a message that one read
    delivers, and [socket_recv_terminates] and [socket_recv_parts] give the bound for
    messages that arrive in parts; two turns are enough for [log_ssl].

    A record of TLS holds 2 ^ 14 bytes, and a read gives at most one, so that a longer
    message comes in several reads, and the code stores each of them at the start of its
    buffer ([socket_recv_parts]).  The theorems on requests ask that the header and the
    payload come in one read each ([requests]), those on single calls that the answer does
    ([answer_arrives]).  The theorems on the whole system ask for this only of answers of one
    record ([connected]); of a larger one nothing is supposed, and they say what they say of
    keys under the condition that a stream's responses fit ([record_fits]), with a stack that
    has room for a record.

    Requests are limited to the stack of the server, by their delivery.  Responses are not: a
    message of 2 ^ 31 bytes or more does not fit the [int] of [SSL_write], and [transmit]
    says what is sent of it.  [modest], 2 ^ 30, bounds the keys of the example and the names
    of applications in [World].  That [malloc] succeeds is the class [MallocTotal], which the
    theorems on requests and calls suppose.

    The loop of the server takes a number of turns, one for each client: after them it is
    where the code waits in [accept].  The loop of the example makes two tests of its
    condition.  Digits take one unit of fuel more than the logarithm of the number.

    ** What the theorems show

    - Messages: readers and writers agree with one wire format on all inputs, malformed
      ones included; round trips; sizes are lengths; copies are deep.
    - The key management server: the handlers refine the abstract server; the two ends of
      a stream get one id and one key; oblivious keys; the hash and the seed.
    - The socket server: the servlet and the loop refine runs of the abstract server, for
      every application that keeps the promise [AppOk] and whatever the clients do (answers
      of any size, requests of any form, connections that are dropped: [Run.event]);
      well-formed requests are answered, and all answers can be read; streams stay unique;
      [main] runs from no streams; memory grows by four blocks for a stream and one, leaked,
      for a key.
    - The client: a call over the network gives what the specification of the server's
      application gives; with the servlet on the other end of the connection, a key goes
      from the key management server to the client.
    - The programs on the client: two users of the library get the same key; the example
      writes the keys of the two ends of one stream, with the server's servlet on the other
      end of its connections.
    - The whole system: whatever programs and other clients do, the programs of a pair agree
      on its id, and on its keys when the responses of its stream fit one record; the calls
      that the network carries are served, those of [getKey] with the same condition; all
      this is what the loop of [main] does on the connections of the run.
    - Texts: a key can be read back from its file and from the log.
    - Limits: the sizes up to which a key is sent; inputs on which the code aborts, exits,
      leaks, overflows or reads out of bounds, each with the condition under which it happens.

    ** Not modelled

    Messages to the terminal and the address of the peer, which is only printed: the build
    defines [QKD_LOG_INFO], under which some lines are printed, and not [QKD_LOG_DEBUG],
    under which the functions of [utils.c] would be called.  The reports of errors are
    modelled on their own, in [Errors]: the functions that call them leave the calls out,
    since they change neither the connection nor the memory.  [wrapper.c], a Python binding
    that is commented out in the build and written for an older interface: it uses fields
    and types of functions that the headers do not have.  TLS itself is a parameter: a
    connection delivers bytes. *)

From Stdlib Require Export ZArith Lia.
From Stdlib Require Export Strings.Byte.
From stdpp Require Export base list gmap.

#[global] Open Scope Z_scope.

(** ** Bytes and machine integers *)

(** Decidable equality of bytes, for [decide] and the list lemmas of stdpp. *)
#[export] Instance byte_eq_dec : EqDecision byte.
Proof. intros x y. destruct (Byte.byte_eq_dec x y); [by left | by right]. Defined.

(** The value of a byte, [0 .. 255], and the conversion [(uint8_t) z]. *)
Definition b2z (b : byte) : Z := Z.of_N (Byte.to_N b).

Definition z2b (z : Z) : byte :=
  match Byte.of_N (Z.to_N (z `mod` 256)) with Some b => b | None => x00 end.

#[global] Arguments b2z : simpl never.
#[global] Arguments z2b : simpl never.

(** Wrap-around of unsigned arithmetic at 32 and 64 bits. *)
Definition wrap32 (z : Z) : Z := z `mod` 2 ^ 32.
Definition wrap64 (z : Z) : Z := z `mod` 2 ^ 64.

(** Range predicates of the C integer types. *)
Definition u8 (z : Z) : Prop := 0 <= z < 2 ^ 8.
Definition u32 (z : Z) : Prop := 0 <= z < 2 ^ 32.
Definition i32 (z : Z) : Prop := - 2 ^ 31 <= z < 2 ^ 31.

#[export] Instance u8_dec z : Decision (u8 z).
Proof. unfold u8. apply _. Defined.
#[export] Instance u32_dec z : Decision (u32 z).
Proof. unfold u32. apply _. Defined.
#[export] Instance i32_dec z : Decision (i32 z).
Proof. unfold i32. apply _. Defined.

(** The [n] bytes of [z], least significant first, and the inverse. *)
Fixpoint le_bytes (n : nat) (z : Z) : list byte :=
  match n with
  | O => []
  | S n => z2b z :: le_bytes n (z `div` 256)
  end.

Fixpoint le_val (l : list byte) : Z :=
  match l with
  | [] => 0
  | b :: l => b2z b + 256 * le_val l
  end.

(** Most significant byte first: network order. *)
Definition be_bytes (n : nat) (z : Z) : list byte := rev (le_bytes n z).
Definition be_val (l : list byte) : Z := le_val (rev l).

#[global] Arguments le_bytes : simpl nomatch.
#[global] Arguments be_bytes : simpl never.
#[global] Arguments be_val : simpl never.

Lemma b2z_range b : 0 <= b2z b < 256.
Proof. unfold b2z. pose proof (Byte.to_N_bounded b). lia. Qed.

Lemma z2b_b2z b : z2b (b2z b) = b.
Proof.
  unfold z2b. rewrite Z.mod_small by apply b2z_range.
  unfold b2z. by rewrite N2Z.id, Byte.of_to_N.
Qed.

Lemma b2z_z2b z : b2z (z2b z) = z `mod` 256.
Proof.
  unfold z2b. pose proof (Z.mod_pos_bound z 256 ltac:(lia)).
  destruct (Byte.of_N _) as [b|] eqn:E.
  - apply Byte.to_of_N in E. unfold b2z. rewrite E. lia.
  - apply Byte.of_N_None_iff in E. lia.
Qed.

Lemma b2z_inj a b : b2z a = b2z b -> a = b.
Proof. intros H. by rewrite <- (z2b_b2z a), <- (z2b_b2z b), H. Qed.

Lemma length_le_bytes n z : length (le_bytes n z) = n.
Proof. revert z. induction n; intros; simpl; auto. Qed.

Lemma le_val_range l : 0 <= le_val l < 256 ^ Z.of_nat (length l).
Proof.
  induction l as [|b l IH]; [cbn; lia|].
  cbn [length le_val]. rewrite Nat2Z.inj_succ, Z.pow_succ_r by lia.
  pose proof (b2z_range b). lia.
Qed.

Lemma le_val_bytes n z : 0 <= z < 256 ^ Z.of_nat n -> le_val (le_bytes n z) = z.
Proof.
  revert z. induction n as [|n IH]; intros z Hz; [cbn in *; lia|].
  rewrite Nat2Z.inj_succ, Z.pow_succ_r in Hz by lia.
  cbn [le_bytes le_val]. rewrite b2z_z2b, IH.
  - pose proof (Z.div_mod z 256). lia.
  - split; [apply Z.div_pos; lia | apply Z.div_lt_upper_bound; lia].
Qed.

Lemma le_bytes_val l : le_bytes (length l) (le_val l) = l.
Proof.
  induction l as [|b l IH]; [done|]. cbn [length le_bytes le_val].
  pose proof (b2z_range b). f_equal.
  - apply b2z_inj. rewrite b2z_z2b, Z.mul_comm, Z.mod_add, Z.mod_small by lia. done.
  - rewrite Z.mul_comm, Z.div_add, Z.div_small by lia. by rewrite Z.add_0_l.
Qed.

Lemma length_be_bytes n z : length (be_bytes n z) = n.
Proof. unfold be_bytes. by rewrite length_rev, length_le_bytes. Qed.

Lemma be_val_bytes n z : 0 <= z < 256 ^ Z.of_nat n -> be_val (be_bytes n z) = z.
Proof. intros. unfold be_val, be_bytes. rewrite rev_involutive. by apply le_val_bytes. Qed.

Lemma be_bytes_val l : be_bytes (length l) (be_val l) = l.
Proof.
  unfold be_val, be_bytes. rewrite <- length_rev, le_bytes_val. apply rev_involutive.
Qed.

Lemma be_val_range l : 0 <= be_val l < 256 ^ Z.of_nat (length l).
Proof. unfold be_val. rewrite <- (length_rev l). apply le_val_range. Qed.

Lemma wrap32_small z : u32 z -> wrap32 z = z.
Proof. apply Z.mod_small. Qed.

Lemma wrap64_small z : 0 <= z < 2 ^ 64 -> wrap64 z = z.
Proof. apply Z.mod_small. Qed.

Lemma wrap32_u32 z : u32 (wrap32 z).
Proof. apply Z.mod_pos_bound. lia. Qed.

(** ** Outcomes of C code

    A piece of C code is a state transformer that returns a value, leaves the
    process through [exit] or [abort], runs into undefined behaviour, or uses up
    the fuel of a loop. *)
Inductive fault :=
  | NullDeref       (** access through a null pointer *)
  | OutOfBounds     (** access outside the object a pointer points into *)
  | UseAfterFree    (** access to an object that is not live *)
  | WrongType       (** access to an object as another type *)
  | Uninitialised   (** an indeterminate value is used *)
  | BadFree         (** [free] of something that is not a live allocation *)
  | SignedOverflow  (** signed arithmetic out of range *)
  | StackOverflow.  (** an automatic object that does not fit on the stack *)

#[export] Instance fault_eq_dec : EqDecision fault.
Proof. solve_decision. Defined.

Inductive outcome (S A : Type) :=
  | Ret (a : A) (s : S)
  | Exit (code : Z) (s : S)
  | Aborted (s : S)
  | Fault (f : fault)
  | NoFuel.
Arguments Ret {S A} _ _.
Arguments Exit {S A} _ _.
Arguments Aborted {S A} _.
Arguments Fault {S A} _.
Arguments NoFuel {S A}.

Definition C (S A : Type) : Type := S -> outcome S A.

Definition cret {S A} (a : A) : C S A := fun s => Ret a s.

Definition cbind {S A B} (e : C S A) (k : A -> C S B) : C S B := fun s =>
  match e s with
  | Ret a s => k a s
  | Exit n s => Exit n s
  | Aborted s => Aborted s
  | Fault f => Fault f
  | NoFuel => NoFuel
  end.

Definition cfault {S A} (f : fault) : C S A := fun _ => Fault f.
Definition cabort {S A} : C S A := fun s => Aborted s.
Definition cexit {S A} (code : Z) : C S A := fun s => Exit code s.
Definition cget {S} : C S S := fun s => Ret s s.
Definition cput {S} (s : S) : C S unit := fun _ => Ret tt s.

(** [zoom get set e] runs [e] on the part of the state that [get] and [set] give. *)
Definition zoom {S T A} (get : S -> T) (set : T -> S -> S) (e : C T A) : C S A := fun s =>
  match e (get s) with
  | Ret a t => Ret a (set t s)
  | Exit n t => Exit n (set t s)
  | Aborted t => Aborted (set t s)
  | Fault f => Fault f
  | NoFuel => NoFuel
  end.

Declare Scope c_scope.
Delimit Scope c_scope with c.
Notation "'let!' x := e 'in' k" := (cbind e (fun x => k))
  (at level 10, x binder, e at level 200, k at level 200,
   format "'[v' 'let!'  x  :=  e  'in' '/' k ']'") : c_scope.
Notation "e1 ';;;' e2" := (cbind e1 (fun _ => e2))
  (at level 199, e2 at level 200, right associativity,
   format "'[v' e1 ';;;' '/' e2 ']'") : c_scope.
#[global] Open Scope c_scope.

Section outcome_laws.
Context {S A B : Type}.

(** One step of a run: the first action returns. *)
Lemma cbind_ret (e : C S A) (k : A -> C S B) s a s' :
  e s = Ret a s' -> cbind e k s = k a s'.
Proof. unfold cbind. by intros ->. Qed.

Lemma cbind_fault (e : C S A) (k : A -> C S B) s f :
  e s = Fault f -> cbind e k s = Fault f.
Proof. unfold cbind. by intros ->. Qed.

Lemma cbind_aborted (e : C S A) (k : A -> C S B) s s' :
  e s = Aborted s' -> cbind e k s = Aborted s'.
Proof. unfold cbind. by intros ->. Qed.

Lemma cbind_exit (e : C S A) (k : A -> C S B) s n s' :
  e s = Exit n s' -> cbind e k s = Exit n s'.
Proof. unfold cbind. by intros ->. Qed.

(** Inversion: a run of a sequence that returns had a first part that returned. *)
Lemma cbind_inv (e : C S A) (k : A -> C S B) s b s'' :
  cbind e k s = Ret b s'' -> exists a s', e s = Ret a s' /\ k a s' = Ret b s''.
Proof. unfold cbind. destruct (e s); naive_solver. Qed.

Lemma cbind_assoc {D} (e : C S A) (k : A -> C S B) (h : B -> C S D) s :
  cbind (cbind e k) h s = cbind e (fun a => cbind (k a) h) s.
Proof. unfold cbind. by destruct (e s). Qed.
End outcome_laws.

(** A run that comes to no result: the process ends, the behaviour is undefined, or the fuel
    is used up. *)
Definition never_returns {S A} (o : outcome S A) : Prop := forall a s, o <> Ret a s.

(** [crun lem] runs the first action of the goal with [lem], an equation for it
    whose side conditions [eauto] discharges; [cstep] does it with an equation
    that [eauto] finds in the hint database [c_run]. *)
Create HintDb c_run.
Create HintDb c_mem.
#[export] Hint Extern 1 (cret _ _ = Ret _ _) => reflexivity : c_run.
#[export] Hint Extern 1 (cget _ = Ret _ _) => reflexivity : c_run.
#[export] Hint Extern 1 (cput _ _ = Ret _ _) => reflexivity : c_run.

Tactic Notation "crun" uconstr(lem) :=
  erewrite cbind_ret; [| eapply lem; eauto with c_run]; cbv beta.
Ltac cstep := erewrite cbind_ret; [| solve [eauto with c_run]]; cbv beta.

(** ** Lists *)

(** Bytes all of which have been written. *)
Lemma drop_prefix {A} (l k : list A) : drop (length l) (l ++ k) = k.
Proof. by rewrite drop_app_length. Qed.

Lemma take_prefix {A} (l k : list A) : take (length l) (l ++ k) = l.
Proof. by rewrite take_app_length. Qed.

Lemma fmap_Some_inj {A} (l k : list A) : Some <$> l = Some <$> k -> l = k.
Proof. apply list_fmap_eq_inj. by intros ?? [=]. Qed.

Lemma mapM_Some_fmap {A} (l : list A) : mapM (M:=option) id (Some <$> l) = Some l.
Proof. induction l as [|a l IH]; [done|]. cbn. by rewrite IH. Qed.

(** ** Evaluation *)

(** Evaluates a decidable proposition. *)
Ltac decided := refine (bool_decide_unpack _ _); vm_compute; exact I.

(** Evaluates the left-hand side of an equation. *)
Ltac evaluated := lazymatch goal with |- ?x = ?y => exact (@eq_refl _ y <: x = y) end.
