(* ===== verification/Models.v ===== *)
(** The data types of [include/qkd/models.h], [include/qkd/ssl_socket_client.h] and
    [src/server_example.c].

    A C struct that holds pointers to strings ([char *]) or to sized buffers
    ([qkd_bytes_t]) is a record with one parameter per kind of pointer.  The
    struct of the program is the record at [ptr] and [qkd_bytes_t]; the message
    it stands for is the same record at the byte strings pointed to. *)

From S2P Require Import Prelude.

(** ** Pointers *)

(** A null pointer, or a live or dead block and an offset into it. *)
Inductive ptr := Null | Ptr (b : nat) (off : nat).

#[export] Instance ptr_eq_dec : EqDecision ptr.
Proof. solve_decision. Defined.

(** [p += n] on a byte pointer. *)
Definition padd (p : ptr) (n : Z) : ptr :=
  match p with
  | Null => Null
  | Ptr b off => Ptr b (off + Z.to_nat n)
  end.

(** ** Byte buffers and strings *)

(** [qkd_bytes_t], also [qkd_metadata_t], [qkd_key_buffer_t] and [socket_data_t]. *)
Record qkd_bytes_t := { size : Z; data : ptr }.

Definition qkd_metadata_t := qkd_bytes_t.
Definition qkd_key_buffer_t := qkd_bytes_t.
Definition socket_data_t := qkd_bytes_t.

(** [char *] of C. *)
Definition qkd_uri_t := ptr.
Definition qkd_mimetype_t := ptr.

(** [uuid_t] is an array of 16 bytes, held by value. *)
Definition uuid_t := list byte.
Definition sizeof_uuid : Z := 16.
Definition uuid_nil : uuid_t := replicate 16 x00.
Definition uuid_ok (u : uuid_t) : Prop := length u = 16%nat.

Definition MIMETYPE_MAX : Z := 256.

(** ** Enumerations *)

Inductive qkd_status_code :=
  | qkd_status_code_successful
  | qkd_status_code_peer_not_connected
  | qkd_status_code_gk_insufficient_key_available
  | qkd_status_code_gk_peer_not_connected
  | qkd_status_code_no_qkd_connection_available
  | qkd_status_code_oc_ksid_already_in_use
  | qkd_status_code_timeout_error
  | qkd_status_code_oc_qos_not_satisfiable
  | qkd_status_code_gk_metadata_insufficient_size.

(** [qkd_status_t]: the code as an unsigned 32-bit integer. *)
Definition status_code (s : qkd_status_code) : Z :=
  match s with
  | qkd_status_code_successful => 0
  | qkd_status_code_peer_not_connected => 1
  | qkd_status_code_gk_insufficient_key_available => 2
  | qkd_status_code_gk_peer_not_connected => 3
  | qkd_status_code_no_qkd_connection_available => 4
  | qkd_status_code_oc_ksid_already_in_use => 5
  | qkd_status_code_timeout_error => 6
  | qkd_status_code_oc_qos_not_satisfiable => 7
  | qkd_status_code_gk_metadata_insufficient_size => 8
  end.

Inductive qkd_key_info_role :=
  | qkd_key_type_role_default
  | qkd_key_type_role_error
  | qkd_key_type_role_sender
  | qkd_key_type_role_receiver.

Definition key_role_code (r : qkd_key_info_role) : Z :=
  match r with
  | qkd_key_type_role_default => 0x00
  | qkd_key_type_role_error => 0x01
  | qkd_key_type_role_sender => 0x10
  | qkd_key_type_role_receiver => 0x11
  end.

Inductive qkd_key_info_type := qkd_key_type_symmetric | qkd_key_type_oblivious.

Definition key_type_code (t : qkd_key_info_type) : Z :=
  match t with
  | qkd_key_type_symmetric => 0x00
  | qkd_key_type_oblivious => 0x01
  end.

Inductive qkd_service :=
  | QKD_SERVICE_ERROR
  | QKD_SERVICE_OPEN_CONNECT_REQUEST
  | QKD_SERVICE_OPEN_CONNECT_RESPONSE
  | QKD_SERVICE_GET_KEY_REQUEST
  | QKD_SERVICE_GET_KEY_RESPONSE
  | QKD_SERVICE_CLOSE_REQUEST
  | QKD_SERVICE_CLOSE_RESPONSE
  | QKD_SERVICE_CLOSE_SERVER.

Definition service_code (s : qkd_service) : Z :=
  match s with
  | QKD_SERVICE_ERROR => 0x00
  | QKD_SERVICE_OPEN_CONNECT_REQUEST => 2
  | QKD_SERVICE_OPEN_CONNECT_RESPONSE => 3
  | QKD_SERVICE_GET_KEY_REQUEST => 4
  | QKD_SERVICE_GET_KEY_RESPONSE => 5
  | QKD_SERVICE_CLOSE_REQUEST => 8
  | QKD_SERVICE_CLOSE_RESPONSE => 9
  | QKD_SERVICE_CLOSE_SERVER => 0xFF
  end.

(** ** Structures *)

Record qos (Str : Type) := {
  key_chunk_size : Z;
  max_bps : Z;
  min_bps : Z;
  jitter : Z;
  priority : Z;
  timeout : Z;
  ttl : Z;
  metadata_mimetype : Str;
}.
Arguments Build_qos {Str} _ _ _ _ _ _ _ _.
Arguments key_chunk_size {Str} _.
Arguments max_bps {Str} _.
Arguments min_bps {Str} _.
Arguments jitter {Str} _.
Arguments priority {Str} _.
Arguments timeout {Str} _.
Arguments ttl {Str} _.
Arguments metadata_mimetype {Str} _.

Definition qkd_qos_t := qos ptr.

Record open_connect_request (Str : Type) := {
  ocq_source : Str;
  ocq_destination : Str;
  ocq_qos : qos Str;
  ocq_key_stream_id : uuid_t;
}.
Arguments Build_open_connect_request {Str} _ _ _ _.
Arguments ocq_source {Str} _.
Arguments ocq_destination {Str} _.
Arguments ocq_qos {Str} _.
Arguments ocq_key_stream_id {Str} _.

Definition qkd_open_connect_request_t := open_connect_request ptr.

Record open_connect_response (Str : Type) := {
  ocr_status : Z;
  ocr_qos : qos Str;
  ocr_key_stream_id : uuid_t;
}.
Arguments Build_open_connect_response {Str} _ _ _.
Arguments ocr_status {Str} _.
Arguments ocr_qos {Str} _.
Arguments ocr_key_stream_id {Str} _.

Definition qkd_open_connect_response_t := open_connect_response ptr.

Record get_key_request (Buf : Type) := {
  gkq_key_stream_id : uuid_t;
  gkq_index : Z;
  gkq_metadata : Buf;
}.
Arguments Build_get_key_request {Buf} _ _ _.
Arguments gkq_key_stream_id {Buf} _.
Arguments gkq_index {Buf} _.
Arguments gkq_metadata {Buf} _.

Definition qkd_get_key_request_t := get_key_request qkd_bytes_t.

Record get_key_response (Buf : Type) := {
  gkr_status : Z;
  gkr_index : Z;
  gkr_key_buffer : Buf;
  gkr_metadata : Buf;
}.
Arguments Build_get_key_response {Buf} _ _ _ _.
Arguments gkr_status {Buf} _.
Arguments gkr_index {Buf} _.
Arguments gkr_key_buffer {Buf} _.
Arguments gkr_metadata {Buf} _.

Definition qkd_get_key_response_t := get_key_response qkd_bytes_t.

Record qkd_close_request_t := { clq_key_stream_id : uuid_t }.

Record qkd_close_response_t := { clr_status : Z }.

Record version_t := { major : Z; minor : Z; micro : Z }.

Record qkd_header_t := {
  version : version_t;
  service : Z;
  payload_size : Z;
}.

(** [sizeof(qkd_header_t)]: four bytes, then an aligned [uint32_t]; no padding. *)
Definition sizeof_header : Z := 8.

Record qkd_key_info_t := { key_type : Z; key_role : Z }.

(** ** Records of the example server *)

Record qkd_ksid_info_t := {
  ksi_key_stream_id : uuid_t;
  ksi_qos : qkd_qos_t;
  ksi_source : qkd_uri_t;
  ksi_destination : qkd_uri_t;
  ksi_current_index : Z;
  ksid_info_next : ptr;
}.

(** A finite value of C's [float], [float_man * 2 ^ float_exp]. *)
Record float_t := { float_man : Z; float_exp : Z }.

Record server_context_data_example_t := {
  key_rate : Z;
  qber : float_t;
  example_db_name : ptr;
  node_uuid : uuid_t;
  ksid_info_linked_list : ptr;
}.

(** ** Well-formed messages

    The messages a struct of the program can stand for: strings hold no [NUL],
    buffers have a 32-bit size, integers are in the range of their C type. *)
Definition str_ok (s : list byte) : Prop := x00 ∉ s.
Definition blob_ok (s : list byte) : Prop := Z.of_nat (length s) < 2 ^ 32.

#[export] Instance str_ok_dec s : Decision (str_ok s).
Proof. unfold str_ok. apply _. Defined.
#[export] Instance uuid_ok_dec u : Decision (uuid_ok u).
Proof. unfold uuid_ok. apply _. Defined.
#[export] Instance blob_ok_dec s : Decision (blob_ok s).
Proof. unfold blob_ok. apply _. Defined.

Definition version_ok (v : version_t) : Prop := u8 (major v) /\ u8 (minor v) /\ u8 (micro v).

Definition header_ok (h : qkd_header_t) : Prop :=
  version_ok (version h) /\ u8 (service h) /\ u32 (payload_size h).

(** [const version_t QKD_004_VERSION = {2, 1, 1};] of [interfaces.c]. *)
Definition QKD_004_VERSION : version_t := {| major := 2; minor := 1; micro := 1 |}.

(** Structs initialised with [= {}]. *)
Definition qkd_bytes_zero : qkd_bytes_t := {| size := 0; data := Null |}.

Definition qkd_qos_zero : qkd_qos_t :=
  {| key_chunk_size := 0; max_bps := 0; min_bps := 0; jitter := 0; priority := 0;
     timeout := 0; ttl := 0; metadata_mimetype := Null |}.

(** Changing one field of a struct in place. *)
Definition set_metadata_mimetype (q : qkd_qos_t) (p : ptr) : qkd_qos_t :=
  {| key_chunk_size := key_chunk_size q; max_bps := max_bps q; min_bps := min_bps q;
     jitter := jitter q; priority := priority q; timeout := timeout q; ttl := ttl q;
     metadata_mimetype := p |}.

Definition set_ksid_info_next (n : qkd_ksid_info_t) (p : ptr) : qkd_ksid_info_t :=
  {| ksi_key_stream_id := ksi_key_stream_id n; ksi_qos := ksi_qos n;
     ksi_source := ksi_source n; ksi_destination := ksi_destination n;
     ksi_current_index := ksi_current_index n; ksid_info_next := p |}.

Definition set_current_index (n : qkd_ksid_info_t) (i : Z) : qkd_ksid_info_t :=
  {| ksi_key_stream_id := ksi_key_stream_id n; ksi_qos := ksi_qos n;
     ksi_source := ksi_source n; ksi_destination := ksi_destination n;
     ksi_current_index := i; ksid_info_next := ksid_info_next n |}.

Definition set_linked_list (c : server_context_data_example_t) (p : ptr) :
    server_context_data_example_t :=
  {| key_rate := key_rate c; qber := qber c; example_db_name := example_db_name c;
     node_uuid := node_uuid c; ksid_info_linked_list := p |}.

(** Abstract value of a [qos] under a reading of its string. *)
Definition qos_map {A B} (f : A -> B) (q : qos A) : qos B :=
  {| key_chunk_size := key_chunk_size q; max_bps := max_bps q; min_bps := min_bps q;
     jitter := jitter q; priority := priority q; timeout := timeout q; ttl := ttl q;
     metadata_mimetype := f (metadata_mimetype q) |}.
