(* ===== verification/Memory.v ===== *)
(** The part of the C memory the program uses: heap blocks of bytes and of
    [qkd_ksid_info_t] nodes, and the library functions [malloc], [calloc], [free],
    [memcpy], [strlen] and [strcmp] on them, with every access checked.

    A byte block holds [option byte]: [None] is an indeterminate byte, which may
    be copied but not used.  Blocks are numbered in the order of allocation and a
    number is not used again, so that an access to a freed block is always seen. *)

From S2P Require Import Prelude Models.

Abbreviation mbyte := (option byte).

Inductive cell :=
  | Bytes (l : list mbyte)
  | Node (n : qkd_ksid_info_t).

Record mem := { heap : gmap nat cell; next : nat }.

(** Whether the [k]-th allocation, of [n] bytes, succeeds. *)
Class Malloc := malloc_succeeds : nat -> Z -> bool.

(** Hypothesis of the theorems that say what happens when memory suffices. *)
Class MallocTotal {ML : Malloc} : Prop :=
  malloc_total : forall k n, malloc_succeeds k n = true.

(** ** Allocation *)

Definition bump (m : mem) : mem := {| heap := heap m; next := S (next m) |}.

Definition alloc (c : cell) (m : mem) : mem :=
  {| heap := <[next m := c]> (heap m); next := S (next m) |}.

Definition set_block (b : nat) (c : cell) (m : mem) : mem :=
  {| heap := <[b := c]> (heap m); next := next m |}.

Definition dealloc (b : nat) (m : mem) : mem :=
  {| heap := delete b (heap m); next := next m |}.

(** [malloc(n)]; the contents are indeterminate. *)
Definition malloc {ML : Malloc} (n : Z) : C mem ptr := fun m =>
  if malloc_succeeds (next m) n
  then Ret (Ptr (next m) 0) (alloc (Bytes (replicate (Z.to_nat n) None)) m)
  else Ret Null (bump m).

(** Allocation of an initialised node ([calloc(1, sizeof(qkd_ksid_info_t))]). *)
Definition sizeof_ksid_info : Z := 88.

Definition qkd_ksid_info_zero : qkd_ksid_info_t :=
  {| ksi_key_stream_id := uuid_nil; ksi_qos := qkd_qos_zero; ksi_source := Null;
     ksi_destination := Null; ksi_current_index := 0; ksid_info_next := Null |}.

Definition calloc_node {ML : Malloc} : C mem ptr := fun m =>
  if malloc_succeeds (next m) sizeof_ksid_info
  then Ret (Ptr (next m) 0) (alloc (Node qkd_ksid_info_zero) m)
  else Ret Null (bump m).

(** [free(p)]: of null, nothing; otherwise of the start of a live block. *)
Definition free (p : ptr) : C mem unit := fun m =>
  match p with
  | Null => Ret tt m
  | Ptr b off =>
      match off, heap m !! b with
      | O, Some _ => Ret tt (dealloc b m)
      | _, _ => Fault BadFree
      end
  end.

(** ** Access *)

(** The [n] bytes at [p].  Copying no bytes accesses nothing. *)
Definition load_bytes (p : ptr) (n : Z) : C mem (list mbyte) := fun m =>
  if n <=? 0 then Ret [] m else
  match p with
  | Null => Fault NullDeref
  | Ptr b off =>
      match heap m !! b with
      | None => Fault UseAfterFree
      | Some (Node _) => Fault WrongType
      | Some (Bytes l) =>
          if Z.of_nat off + n <=? Z.of_nat (length l)
          then Ret (take (Z.to_nat n) (drop off l)) m
          else Fault OutOfBounds
      end
  end.

(** [l] with [bs] written at [off]. *)
Definition overwrite (off : nat) (bs l : list mbyte) : list mbyte :=
  take off l ++ bs ++ drop (off + length bs) l.

Definition store_bytes (p : ptr) (bs : list mbyte) : C mem unit := fun m =>
  match bs with
  | [] => Ret tt m
  | _ :: _ =>
      match p with
      | Null => Fault NullDeref
      | Ptr b off =>
          match heap m !! b with
          | None => Fault UseAfterFree
          | Some (Node _) => Fault WrongType
          | Some (Bytes l) =>
              if Z.of_nat off + Z.of_nat (length bs) <=? Z.of_nat (length l)
              then Ret tt (set_block b (Bytes (overwrite off bs l)) m)
              else Fault OutOfBounds
          end
      end
  end.

(** [memcpy(dst, src, n)] *)
Definition memcpy (dst src : ptr) (n : Z) : C mem unit :=
  let! bs := load_bytes src n in
  store_bytes dst bs.

(** The bytes at [p] used as a value: none may be indeterminate. *)
Definition load_init (p : ptr) (n : Z) : C mem (list byte) :=
  let! bs := load_bytes p n in
  match mapM (M:=option) id bs with
  | Some l => cret l
  | None => cfault Uninitialised
  end.

Definition load_node (p : ptr) : C mem qkd_ksid_info_t := fun m =>
  match p with
  | Null => Fault NullDeref
  | Ptr b off =>
      match off, heap m !! b with
      | O, Some (Node n) => Ret n m
      | _, None => Fault UseAfterFree
      | _, _ => Fault WrongType
      end
  end.

Definition store_node (p : ptr) (n : qkd_ksid_info_t) : C mem unit := fun m =>
  match p with
  | Null => Fault NullDeref
  | Ptr b off =>
      match off, heap m !! b with
      | O, Some (Node _) => Ret tt (set_block b (Node n) m)
      | _, None => Fault UseAfterFree
      | _, _ => Fault WrongType
      end
  end.

(** ** Strings *)

(** The bytes from a pointer to the end of its block. *)
Definition suffix_at (p : ptr) : C mem (list mbyte) := fun m =>
  match p with
  | Null => Fault NullDeref
  | Ptr b off =>
      match heap m !! b with
      | None => Fault UseAfterFree
      | Some (Node _) => Fault WrongType
      | Some (Bytes l) => Ret (drop off l) m
      end
  end.

Fixpoint scan_nul (l : list mbyte) (n : nat) : nat + fault :=
  match l with
  | [] => inr OutOfBounds
  | None :: _ => inr Uninitialised
  | Some b :: l => if decide (b = x00) then inl n else scan_nul l (S n)
  end.

(** [strlen(p)] *)
Definition strlen (p : ptr) : C mem Z :=
  let! l := suffix_at p in
  match scan_nul l 0 with
  | inl n => cret (Z.of_nat n)
  | inr f => cfault f
  end.

Fixpoint compare_str (l k : list mbyte) : Z + fault :=
  match l, k with
  | Some a :: l, Some b :: k =>
      if decide (a = b) then (if decide (a = x00) then inl 0 else compare_str l k)
      else inl (b2z a - b2z b)
  | [], _ | _, [] => inr OutOfBounds
  | None :: _, _ | _, None :: _ => inr Uninitialised
  end.

(** [strcmp(p, q)] *)
Definition strcmp (p q : ptr) : C mem Z :=
  let! l := suffix_at p in
  let! k := suffix_at q in
  match compare_str l k with
  | inl n => cret n
  | inr f => cfault f
  end.

(** ** What memory represents *)

(** No block is live beyond the next one to be allocated. *)
Definition mem_wf (m : mem) : Prop := forall b, (next m <= b)%nat -> heap m !! b = None.

(** The string [s] is at [p]. *)
Definition str_at (m : mem) (p : ptr) (s : list byte) : Prop :=
  str_ok s /\
  exists b off l rest, p = Ptr b off /\ heap m !! b = Some (Bytes l) /\
    (off <= length l)%nat /\ drop off l = (Some <$> s ++ [x00]) ++ rest.

(** The [length s] initialised bytes [s] are at [p]; nothing is asked of an empty buffer. *)
Definition data_at (m : mem) (p : ptr) (s : list byte) : Prop :=
  s = [] \/
  exists b off l rest, p = Ptr b off /\ heap m !! b = Some (Bytes l) /\
    (off <= length l)%nat /\ drop off l = (Some <$> s) ++ rest.

(** The sized buffer [d] holds [s]. *)
Definition bytes_at (m : mem) (d : qkd_bytes_t) (s : list byte) : Prop :=
  blob_ok s /\ size d = Z.of_nat (length s) /\ data_at m (data d) s.

(** The pointer is not into block [b]. *)
Definition avoids (b : nat) (p : ptr) : Prop :=
  match p with Null => True | Ptr b' _ => b' <> b end.

(** [m'] has every block of [m], unchanged. *)
Definition extends (m m' : mem) : Prop :=
  heap m ⊆ heap m' /\ (next m <= next m')%nat.

(** What an operation that owns the blocks [F], and owns [F'] when it is done, may do
    to memory: other blocks are unchanged, and a new block is owned, or listed in
    [ret], or not live any more; those in [ret] are live. *)
Definition frame (m m' : mem) (F F' ret : list nat) : Prop :=
  (next m <= next m')%nat /\
  (forall b, (b < next m)%nat -> b ∉ F -> heap m' !! b = heap m !! b) /\
  (forall b, (next m <= b)%nat -> b ∉ F' -> b ∉ ret -> heap m' !! b = None) /\
  (forall b, b ∈ F' -> b ∈ F \/ (next m <= b)%nat) /\
  (forall b, b ∈ F -> b ∈ F') /\
  NoDup ret /\
  (forall b, b ∈ ret -> (next m <= b)%nat /\ (b ∉ F') /\ is_Some (heap m' !! b)).

(** Several blocks freed. *)
Definition deallocs (bs : list nat) (m : mem) : mem :=
  {| heap := foldr delete (heap m) bs; next := next m |}.

(** A predicate that does not depend on the contents of block [b]. *)
Definition stable_off (b : nat) (R : mem -> Prop) : Prop :=
  forall m c, R m -> R (set_block b c m).

(** ** Allocation lemmas *)

#[export] Instance extends_preorder : PreOrder extends.
Proof.
  split; [by intros m; split; [reflexivity | lia]|].
  intros m1 m2 m3 [H1 ?] [H2 ?]. split; [by etrans | lia].
Qed.

Lemma lookup_alloc c m : heap (alloc c m) !! next m = Some c.
Proof. apply lookup_insert_eq. Qed.

Lemma lookup_alloc_ne c m b : b <> next m -> heap (alloc c m) !! b = heap m !! b.
Proof. intros. by apply lookup_insert_ne. Qed.

Lemma lookup_set_block b c m : heap (set_block b c m) !! b = Some c.
Proof. apply lookup_insert_eq. Qed.

Lemma lookup_set_block_ne b b' c m : b' <> b -> heap (set_block b c m) !! b' = heap m !! b'.
Proof. intros. by apply lookup_insert_ne. Qed.

Lemma set_block_twice b c c' m : set_block b c' (set_block b c m) = set_block b c' m.
Proof. unfold set_block; simpl. by rewrite insert_insert_eq. Qed.

Lemma set_block_alloc c c' m : set_block (next m) c' (alloc c m) = alloc c' m.
Proof. unfold set_block, alloc; simpl. by rewrite insert_insert_eq. Qed.

Lemma dealloc_alloc c m : mem_wf m -> dealloc (next m) (alloc c m) = bump m.
Proof.
  intros Hwf. unfold dealloc, alloc, bump; simpl.
  rewrite delete_insert_id; [done | by apply Hwf].
Qed.

Lemma mem_wf_alloc c m : mem_wf m -> mem_wf (alloc c m).
Proof.
  intros Hwf b Hb. simpl in *. rewrite lookup_insert_ne by lia. apply Hwf. lia.
Qed.

Lemma mem_wf_bump m : mem_wf m -> mem_wf (bump m).
Proof. intros Hwf b Hb. apply Hwf. simpl in *. lia. Qed.

Lemma mem_wf_live m b : mem_wf m -> is_Some (heap m !! b) -> (b < next m)%nat.
Proof.
  intros Hwf [c Hc]. destruct (decide (b < next m)%nat); [done|].
  rewrite Hwf in Hc by lia. done.
Qed.

Lemma mem_wf_set_block b c m : mem_wf m -> is_Some (heap m !! b) -> mem_wf (set_block b c m).
Proof.
  intros Hwf Hb b' Hb'. simpl in *. pose proof (mem_wf_live _ _ Hwf Hb).
  rewrite lookup_insert_ne by lia. by apply Hwf.
Qed.

Lemma mem_wf_dealloc b m : mem_wf m -> mem_wf (dealloc b m).
Proof. intros Hwf b' Hb'. simpl. apply lookup_delete_None. right. by apply Hwf. Qed.

Lemma extends_alloc c m : mem_wf m -> extends m (alloc c m).
Proof.
  intros Hwf. split; simpl; [|lia]. apply insert_subseteq. by apply Hwf.
Qed.

Lemma extends_bump m : extends m (bump m).
Proof. split; simpl; [done | lia]. Qed.

Lemma extends_lookup m m' b c : extends m m' -> heap m !! b = Some c -> heap m' !! b = Some c.
Proof. intros [H _] ?. by eapply lookup_weaken. Qed.

Lemma lookup_deallocs bs m b :
  heap (deallocs bs m) !! b = if decide (b ∈ bs) then None else heap m !! b.
Proof.
  induction bs as [|b' bs IH]; [by rewrite decide_False by apply not_elem_of_nil|].
  cbn in *. rewrite lookup_delete, IH. destruct (decide (b' = b)) as [->|E].
  - by rewrite decide_True by left.
  - destruct (decide (b ∈ bs)) as [Hin|Hin].
    + by rewrite decide_True by by right.
    + rewrite decide_False; [done|]. rewrite elem_of_cons. intuition congruence.
Qed.

Lemma dealloc_deallocs b bs m : dealloc b (deallocs bs m) = deallocs (b :: bs) m.
Proof. done. Qed.

Lemma mem_wf_deallocs bs m : mem_wf m -> mem_wf (deallocs bs m).
Proof. intros Hm b Hb. rewrite lookup_deallocs. case_decide; [done|]. by apply Hm. Qed.

Lemma frame_refl m F : mem_wf m -> frame m m F F [].
Proof.
  intros Hm. split_and!; auto; [apply NoDup_nil_2|]. by intros b ?%elem_of_nil.
Qed.

(** One operation after the other. *)
Lemma frame_trans m0 m1 m2 F0 F1 F2 r1 r2 : mem_wf m1 ->
  frame m0 m1 F0 F1 r1 -> frame m1 m2 F1 F2 r2 -> frame m0 m2 F0 F2 (r1 ++ r2).
Proof.
  intros Hm (A1 & A2 & A3 & A4 & A5 & A6 & A7) (B1 & B2 & B3 & B4 & B5 & B6 & B7).
  assert (forall b, b ∈ r1 -> (b < next m1)%nat) as Hr1.
  { intros b Hb. eapply mem_wf_live; [done|]. by apply A7. }
  split_and!.
  - lia.
  - intros b Hb HF. rewrite B2; [by apply A2|lia|]. intros [?|?]%A4; [done|lia].
  - intros b Hb HF Hr. rewrite elem_of_app in Hr. destruct (decide (b < next m1)%nat).
    + rewrite B2 by (done || (intros ?%B5; done)).
      apply A3; [done|intros ?%B5; done|tauto].
    + apply B3; [lia|done|tauto].
  - intros b [[?|?]%A4|?]%B4; [by left|by right|right; lia].
  - intros b ?%A5. by apply B5.
  - apply NoDup_app. split_and!; [done| |done]. intros b ?%Hr1 ?%B7. lia.
  - intros b [Hb|Hb]%elem_of_app.
    + pose proof (Hr1 b Hb) as Hlt. apply A7 in Hb as (Hn & HF & Hl).
      split; [done|]. split; [intros [?|?]%B4; [done|lia]|]. by rewrite B2.
    + apply B7 in Hb as (Hn & HF & Hl). split; [lia|done].
Qed.

(** The live blocks that an operation leaves: those it does not own, its own, and those in
    [ret]. *)
Lemma frame_dom m m' F F' ret : mem_wf m -> frame m m' F F' ret ->
  (forall b, b ∈ F' -> is_Some (heap m' !! b)) ->
  dom (heap m') = (dom (heap m) ∖ list_to_set F) ∪ list_to_set (F' ++ ret).
Proof.
  intros Hm (H1 & H2 & H3 & H4 & H5 & H6 & H7) HF'. apply set_eq. intros b.
  rewrite elem_of_union, elem_of_difference, !elem_of_list_to_set, elem_of_app, !elem_of_dom. split.
  - intros Hb. destruct (decide (b ∈ F')) as [|HbF']; [by right; left|].
    destruct (decide (b ∈ ret)) as [|Hr]; [by right; right|]. left.
    destruct (decide (b < next m)%nat) as [Hlt|Hge].
    + assert (b ∉ F) as HbF by (intros ?%H5; done). by rewrite <- H2.
    + rewrite H3 in Hb by (done || lia). by destruct Hb.
  - intros [[Hb HF]|[?|Hr]]; [|by apply HF'|by apply H7].
    rewrite H2; [done|by apply mem_wf_live|done].
Qed.

Lemma frame_size m m' F F' ret : mem_wf m -> frame m m' F F' ret -> NoDup F -> NoDup F' ->
  (forall b, b ∈ F -> is_Some (heap m !! b)) -> (forall b, b ∈ F' -> is_Some (heap m' !! b)) ->
  (base.size (heap m') + length F = base.size (heap m) + length F' + length ret)%nat.
Proof.
  intros Hm Hfr HN HN' HF HF'. pose proof (frame_dom m m' F F' ret Hm Hfr HF') as Hd.
  destruct Hfr as (H1 & H2 & H3 & H4 & H5 & H6 & H7).
  assert (NoDup (F' ++ ret)) as Hnd.
  { apply NoDup_app. split_and!; [done| |done]. intros b Hb ?%H7. tauto. }
  rewrite <- (size_dom (heap m')), Hd, size_union.
  - assert (list_to_set F ⊆ dom (heap m)) as Hsub.
    { intros b Hb%elem_of_list_to_set. by apply elem_of_dom, HF. }
    rewrite size_difference, !size_list_to_set, size_dom, length_app by done.
    pose proof (subseteq_size _ _ Hsub) as Hle. rewrite size_list_to_set, size_dom in Hle by done. lia.
  - intros b. rewrite elem_of_difference, !elem_of_list_to_set, elem_of_app, elem_of_dom.
    intros [Hl HbF] [[?|?]%H4|[? _]%H7]; [done|..]; apply (mem_wf_live _ _ Hm) in Hl; lia.
Qed.

Lemma malloc_ok {ML : Malloc} {MT : MallocTotal} n m :
  malloc n m = Ret (Ptr (next m) 0) (alloc (Bytes (replicate (Z.to_nat n) None)) m).
Proof. unfold malloc. by rewrite malloc_total. Qed.

Lemma calloc_node_ok {ML : Malloc} {MT : MallocTotal} m :
  calloc_node m = Ret (Ptr (next m) 0) (alloc (Node qkd_ksid_info_zero) m).
Proof. unfold calloc_node. by rewrite malloc_total. Qed.

Lemma free_ok b m : is_Some (heap m !! b) -> free (Ptr b 0) m = Ret tt (dealloc b m).
Proof. intros [c Hc]. cbn. by rewrite Hc. Qed.

(** ** Access lemmas *)

Lemma load_zero p m : load_bytes p 0 m = Ret [] m.
Proof. done. Qed.

(** Reading [length s] bytes where [s] is. *)
Lemma load_bytes_at m b off l s rest :
  heap m !! b = Some (Bytes l) -> drop off l = s ++ rest -> (off <= length l)%nat ->
  load_bytes (Ptr b off) (Z.of_nat (length s)) m = Ret s m.
Proof.
  intros Hb Hd Ho. unfold load_bytes. case_match eqn:E.
  { apply Z.leb_le in E. destruct s; [done | simpl in E; lia]. }
  rewrite Hb. assert (length l - off = length s + length rest)%nat as Hlen
    by (rewrite <- length_drop, Hd; apply length_app).
  rewrite (proj2 (Z.leb_le _ _)) by lia.
  by rewrite Hd, Nat2Z.id, take_prefix.
Qed.

(** Reading past the end of a block. *)
Lemma load_bytes_oob m b off l n :
  heap m !! b = Some (Bytes l) -> 0 < n -> Z.of_nat (length (drop off l)) < n ->
  load_bytes (Ptr b off) n m = Fault OutOfBounds.
Proof.
  intros Hb Hn Hlen. rewrite length_drop in Hlen. unfold load_bytes.
  rewrite (proj2 (Z.leb_gt _ _)), Hb by lia. rewrite (proj2 (Z.leb_gt _ _)) by lia. done.
Qed.

Lemma load_bytes_data m p s :
  data_at m p s -> load_bytes p (Z.of_nat (length s)) m = Ret (Some <$> s) m.
Proof.
  intros [->|(b & off & l & rest & -> & Hb & Ho & Hd)]; [done|].
  rewrite <- (length_fmap Some s). by eapply load_bytes_at.
Qed.

(** Writing over the next bytes of a block of which [pre] has been written. *)
Lemma store_bytes_at m b pre mid post (bs : list mbyte) :
  heap m !! b = Some (Bytes (pre ++ mid ++ post)) -> length mid = length bs ->
  store_bytes (Ptr b (length pre)) bs m = Ret tt (set_block b (Bytes (pre ++ bs ++ post)) m).
Proof.
  intros Hb Hlen. destruct bs as [|x bs].
  - destruct mid; [|done]. cbn in *. unfold set_block. destruct m; simpl in *.
    by rewrite insert_id.
  - unfold store_bytes. rewrite Hb.
    rewrite (proj2 (Z.leb_le _ _)) by (rewrite !length_app; lia).
    unfold overwrite. rewrite take_prefix, <- drop_drop, drop_prefix.
    by rewrite <- Hlen, drop_prefix.
Qed.

Lemma load_node_ok m b n : heap m !! b = Some (Node n) -> load_node (Ptr b 0) m = Ret n m.
Proof. intros Hb. cbn. by rewrite Hb. Qed.

Lemma store_node_ok m b n n' :
  heap m !! b = Some (Node n) -> store_node (Ptr b 0) n' m = Ret tt (set_block b (Node n') m).
Proof. intros Hb. cbn. by rewrite Hb. Qed.

(** ** String lemmas *)

Lemma scan_nul_str s rest n :
  str_ok s -> scan_nul ((Some <$> s ++ [x00]) ++ rest) n = inl (n + length s)%nat.
Proof.
  revert n. induction s as [|a s IH]; intros n Hs; cbn.
  - f_equal. lia.
  - apply not_elem_of_cons in Hs as [Ha Hs].
    rewrite decide_False by congruence. rewrite IH by done. f_equal. lia.
Qed.

(** [scan_nul] runs off the end exactly when there is no terminator. *)
Lemma scan_nul_none l n : x00 ∉ l -> scan_nul (Some <$> l) n = inr OutOfBounds.
Proof.
  revert n. induction l as [|a l IH]; intros n Hl; [done|].
  apply not_elem_of_cons in Hl as [Ha Hl]. cbn.
  rewrite decide_False by congruence. by apply IH.
Qed.

Lemma str_at_ok m p s : str_at m p s -> str_ok s.
Proof. by intros [? _]. Qed.

Lemma str_at_data m p s : str_at m p s -> data_at m p (s ++ [x00]).
Proof. intros [_ H]. by right. Qed.

Lemma strlen_at m p s : str_at m p s -> strlen p m = Ret (Z.of_nat (length s)) m.
Proof.
  intros (Hs & b & off & l & rest & -> & Hb & Ho & Hd).
  unfold strlen. erewrite cbind_ret; [|unfold suffix_at; by rewrite Hb].
  by rewrite Hd, scan_nul_str.
Qed.

Lemma compare_str_eq s t r1 r2 :
  str_ok s -> str_ok t ->
  exists z, compare_str ((Some <$> s ++ [x00]) ++ r1) ((Some <$> t ++ [x00]) ++ r2) = inl z
            /\ (z = 0 <-> s = t).
Proof.
  revert t. induction s as [|a s IH]; intros [|c t] Hs Ht; cbn.
  - by exists 0.
  - apply not_elem_of_cons in Ht as [Hc _]. rewrite decide_False by congruence.
    eexists; split; [done|]. split; [|done]. intros Hz.
    destruct Hc. apply b2z_inj. lia.
  - apply not_elem_of_cons in Hs as [Ha _]. rewrite decide_False by congruence.
    eexists; split; [done|]. split; [|done]. intros Hz.
    destruct Ha. apply b2z_inj. lia.
  - apply not_elem_of_cons in Hs as [Ha Hs]. apply not_elem_of_cons in Ht as [Hc Ht].
    case_decide as E; [subst c | ].
    + rewrite decide_False by congruence.
      destruct (IH t Hs Ht) as (z & -> & Hz). exists z. split; [done|].
      rewrite Hz. split; congruence.
    + eexists; split; [done|]. split; intros Hz; [|congruence].
      destruct E. apply b2z_inj. lia.
Qed.

(** [strcmp] tells two strings apart. *)
Lemma strcmp_at m p q s t :
  str_at m p s -> str_at m q t -> exists z, strcmp p q m = Ret z m /\ (z = 0 <-> s = t).
Proof.
  intros (Hs & b & off & l & r1 & -> & Hb & Ho & Hd) (Ht & b' & off' & l' & r2 & -> & Hb' & Ho' & Hd').
  destruct (compare_str_eq s t r1 r2 Hs Ht) as (z & Hz & Hiff).
  exists z. split; [|done]. unfold strcmp.
  erewrite cbind_ret; [|unfold suffix_at; by rewrite Hb].
  erewrite cbind_ret; [|unfold suffix_at; by rewrite Hb'].
  by rewrite Hd, Hd', Hz.
Qed.

(** ** Monotonicity and stability of the representation *)

Lemma str_at_extends m m' p s : extends m m' -> str_at m p s -> str_at m' p s.
Proof.
  intros He (Hs & b & off & l & rest & -> & Hb & Ho & Hd).
  split; [done|]. exists b, off, l, rest. eauto using extends_lookup.
Qed.

Lemma data_at_extends m m' p s : extends m m' -> data_at m p s -> data_at m' p s.
Proof.
  intros He [->|(b & off & l & rest & -> & Hb & Ho & Hd)]; [by left|].
  right. exists b, off, l, rest. eauto using extends_lookup.
Qed.

Lemma bytes_at_extends m m' d s : extends m m' -> bytes_at m d s -> bytes_at m' d s.
Proof. intros ? (? & ? & ?). split_and!; eauto using data_at_extends. Qed.

Lemma str_at_stable b p s : avoids b p -> stable_off b (fun m => str_at m p s).
Proof.
  intros Ha m c (Hs & b' & off & l & rest & -> & Hb & Ho & Hd). split; [done|].
  exists b', off, l, rest. rewrite lookup_set_block_ne by done. done.
Qed.

Lemma data_at_stable b p s : avoids b p -> stable_off b (fun m => data_at m p s).
Proof.
  intros Ha m c [->|(b' & off & l & rest & -> & Hb & Ho & Hd)]; [by left|].
  right. exists b', off, l, rest. rewrite lookup_set_block_ne by done. done.
Qed.

Lemma bytes_at_stable b d s : avoids b (data d) -> stable_off b (fun m => bytes_at m d s).
Proof. intros Ha m c (? & ? & ?). split_and!; [done..|]. by apply data_at_stable. Qed.

(** A string or a buffer in memory is not in a block that is not live. *)
Lemma str_at_avoids m p s b : str_at m p s -> heap m !! b = None -> avoids b p.
Proof. intros (_ & b' & off & l & rest & -> & Hb & _) Hn. simpl. congruence. Qed.

(** Freshly written blocks. *)
Lemma str_at_block m b s : str_ok s -> heap m !! b = Some (Bytes (Some <$> s ++ [x00])) ->
  str_at m (Ptr b 0) s.
Proof.
  intros Hs Hb. split; [done|]. exists b, 0%nat, (Some <$> s ++ [x00]), [].
  rewrite app_nil_r. split_and!; [done..|lia|done].
Qed.

Lemma bytes_at_block m b s : blob_ok s -> heap m !! b = Some (Bytes (Some <$> s)) ->
  bytes_at m {| size := Z.of_nat (length s); data := Ptr b 0 |} s.
Proof.
  intros Hs Hb. split_and!; [done..|]. right. exists b, 0%nat, (Some <$> s), [].
  rewrite app_nil_r. split_and!; [done..|lia|done].
Qed.

#[export] Hint Resolve malloc_ok calloc_node_ok free_ok load_node_ok store_node_ok strlen_at : c_run.
#[export] Hint Resolve lookup_alloc lookup_set_block mem_wf_alloc mem_wf_bump mem_wf_dealloc
  extends_alloc extends_bump str_at_extends bytes_at_extends data_at_extends : c_mem.
