(* ===== verification/Wire.v ===== *)
(** The wire format: an abstract specification of what [src/qkd/serializers.c]
    promises, as pure encoders and decoders of messages.

    A [codec] is an encoder, a decoder of a prefix of the input and the set of
    values it is for, with two laws: decoding an encoding gives the value back and
    leaves the rest, and whatever is decoded is the encoding of the value found.
    Codecs of messages are built from those of integers, strings and buffers, so
    that both laws hold of every message by construction. *)

From S2P Require Import Prelude Models.

Record codec (A : Type) := Codec {
  enc : A -> list byte;
  dec : list byte -> option (A * list byte);
  valid : A -> Prop;
  dec_enc : forall x r, valid x -> dec (enc x ++ r) = Some (x, r);
  dec_sound : forall l x r, dec l = Some (x, r) -> l = enc x ++ r /\ valid x;
}.
Arguments Codec {A} _ _ _ _ _.
Arguments enc {A} _ _.
Arguments dec {A} _ _.
Arguments valid {A} _ _.
Arguments dec_enc {A} _ _ _ _.
Arguments dec_sound {A} _ _ _ _ _.

(** ** Primitive encodings *)

(** [n] bytes as they are. *)
Definition dec_fixed (n : nat) (l : list byte) : option (list byte * list byte) :=
  if decide (n <= length l)%nat then Some (take n l, drop n l) else None.

(** An unsigned integer in [n] bytes, network order. *)
Definition dec_uint (n : nat) (l : list byte) : option (Z * list byte) :=
  '(s, r) ← dec_fixed n l; Some (be_val s, r).

(** A string up to and including its terminator. *)
Fixpoint dec_cstr (l : list byte) : option (list byte * list byte) :=
  match l with
  | [] => None
  | b :: l =>
      if decide (b = x00) then Some ([], l)
      else '(s, r) ← dec_cstr l; Some (b :: s, r)
  end.

(** A 32-bit length, then that many bytes. *)
Definition dec_blob (l : list byte) : option (list byte * list byte) :=
  '(n, r) ← dec_uint 4 l;
  if decide (n <= Z.of_nat (length r)) then dec_fixed (Z.to_nat n) r else None.

Definition enc_cstr (s : list byte) : list byte := s ++ [x00].
Definition enc_blob (s : list byte) : list byte := be_bytes 4 (Z.of_nat (length s)) ++ s.

Lemma dec_fixed_app s r : dec_fixed (length s) (s ++ r) = Some (s, r).
Proof.
  unfold dec_fixed. rewrite decide_True by (rewrite length_app; lia).
  by rewrite take_prefix, drop_prefix.
Qed.

Lemma dec_fixed_sound n l s r : dec_fixed n l = Some (s, r) -> l = s ++ r /\ length s = n.
Proof.
  unfold dec_fixed. case_decide; [|done]. intros [= <- <-].
  rewrite take_drop, length_take. split; [done | lia].
Qed.

Lemma dec_uint_app n z r : 0 <= z < 256 ^ Z.of_nat n ->
  dec_uint n (be_bytes n z ++ r) = Some (z, r).
Proof.
  intros Hz. unfold dec_uint. rewrite <- (length_be_bytes n z) at 1.
  rewrite dec_fixed_app. cbn. by rewrite be_val_bytes.
Qed.

Lemma dec_uint_sound n l z r : dec_uint n l = Some (z, r) ->
  l = be_bytes n z ++ r /\ 0 <= z < 256 ^ Z.of_nat n.
Proof.
  unfold dec_uint. destruct (dec_fixed n l) as [[s r']|] eqn:E; [|done]. cbn.
  intros [= <- <-]. apply dec_fixed_sound in E as [-> <-].
  rewrite be_bytes_val. split; [done | apply be_val_range].
Qed.

Lemma dec_cstr_app s r : str_ok s -> dec_cstr (enc_cstr s ++ r) = Some (s, r).
Proof.
  unfold enc_cstr. induction s as [|a s IH]; intros Hs; [done|].
  apply not_elem_of_cons in Hs as [Ha Hs]. cbn.
  rewrite decide_False by congruence. by rewrite IH.
Qed.

Lemma dec_cstr_sound l s r : dec_cstr l = Some (s, r) -> l = enc_cstr s ++ r /\ str_ok s.
Proof.
  unfold enc_cstr, str_ok. revert s. induction l as [|b l IH]; intros s; [done|]. cbn.
  case_decide as Hb; [intros [= <- ->]; split; [by rewrite Hb | apply not_elem_of_nil]|].
  destruct (dec_cstr l) as [[s' r']|]; [|done]. cbn. intros [= <- <-].
  destruct (IH s' eq_refl) as [-> ?]. rewrite not_elem_of_cons. naive_solver.
Qed.

(** [dec_cstr] finds no string exactly when there is no terminator. *)
Lemma dec_cstr_None l : dec_cstr l = None -> x00 ∉ l.
Proof.
  induction l as [|b l IH]; [intros _; apply not_elem_of_nil|]. cbn.
  case_decide; [done|]. destruct (dec_cstr l) as [[s r]|]; [done|].
  rewrite not_elem_of_cons. naive_solver.
Qed.

Lemma dec_blob_app s r : blob_ok s -> dec_blob (enc_blob s ++ r) = Some (s, r).
Proof.
  unfold blob_ok, dec_blob, enc_blob. intros Hs. rewrite <- app_assoc.
  rewrite dec_uint_app by lia. cbn.
  rewrite decide_True by (rewrite length_app; lia). rewrite Nat2Z.id. apply dec_fixed_app.
Qed.

Lemma dec_blob_sound l s r : dec_blob l = Some (s, r) -> l = enc_blob s ++ r /\ blob_ok s.
Proof.
  unfold blob_ok, dec_blob, enc_blob.
  destruct (dec_uint 4 l) as [[n r']|] eqn:E; [|done]. cbn.
  apply dec_uint_sound in E as [-> Hn]. case_decide; [|done].
  intros [-> Hs]%dec_fixed_sound. rewrite Hs, <- app_assoc, Z2Nat.id by lia. split; [done | lia].
Qed.

(** ** Codecs *)

Definition uint_codec (n : nat) : codec Z :=
  Codec (be_bytes n) (dec_uint n) (fun z => 0 <= z < 256 ^ Z.of_nat n)
    (dec_uint_app n) (dec_uint_sound n).

Lemma fixed_codec_enc n s r : length s = n -> dec_fixed n (s ++ r) = Some (s, r).
Proof. intros <-. apply dec_fixed_app. Qed.

Definition fixed_codec (n : nat) : codec (list byte) :=
  Codec (fun s => s) (dec_fixed n) (fun s => length s = n)
    (fixed_codec_enc n) (dec_fixed_sound n).

Definition str_codec : codec (list byte) :=
  Codec enc_cstr dec_cstr str_ok dec_cstr_app dec_cstr_sound.

Definition blob_codec : codec (list byte) :=
  Codec enc_blob dec_blob blob_ok dec_blob_app dec_blob_sound.

Section combinators.
Context {A B : Type}.

Definition pair_dec (ca : codec A) (cb : codec B) (l : list byte) :
    option ((A * B) * list byte) :=
  '(x, r) ← dec ca l; '(y, r) ← dec cb r; Some ((x, y), r).

Lemma pair_dec_enc ca cb p r : valid ca p.1 /\ valid cb p.2 ->
  pair_dec ca cb ((enc ca p.1 ++ enc cb p.2) ++ r) = Some (p, r).
Proof.
  destruct p as [x y]. intros [Hx Hy]. unfold pair_dec. rewrite <- app_assoc.
  rewrite dec_enc by done. cbn. by rewrite dec_enc.
Qed.

Lemma pair_dec_sound ca cb l p r : pair_dec ca cb l = Some (p, r) ->
  l = (enc ca p.1 ++ enc cb p.2) ++ r /\ (valid ca p.1 /\ valid cb p.2).
Proof.
  unfold pair_dec. destruct (dec ca l) as [[x r1]|] eqn:Ex; [|done]. cbn.
  destruct (dec cb r1) as [[y r2]|] eqn:Ey; [|done]. cbn. intros [= <- <-].
  apply dec_sound in Ex as [-> ?], Ey as [-> ?]. by rewrite <- app_assoc.
Qed.

Definition pair_codec (ca : codec A) (cb : codec B) : codec (A * B) :=
  Codec (fun p => enc ca p.1 ++ enc cb p.2) (pair_dec ca cb)
    (fun p => valid ca p.1 /\ valid cb p.2) (pair_dec_enc ca cb) (pair_dec_sound ca cb).

(** A codec carried along a bijection. *)
Context (f : A -> B) (g : B -> A) (fg : forall y, f (g y) = y) (gf : forall x, g (f x) = x).

Definition iso_dec (c : codec A) (l : list byte) : option (B * list byte) :=
  '(x, r) ← dec c l; Some (f x, r).

Lemma iso_dec_enc c y r : valid c (g y) -> iso_dec c (enc c (g y) ++ r) = Some (y, r).
Proof. intros. unfold iso_dec. rewrite dec_enc by done. cbn. by rewrite fg. Qed.

Lemma iso_dec_sound c l y r : iso_dec c l = Some (y, r) ->
  l = enc c (g y) ++ r /\ valid c (g y).
Proof.
  unfold iso_dec. destruct (dec c l) as [[x r']|] eqn:E; [|done]. cbn.
  intros [= <- <-]. rewrite gf. by apply dec_sound.
Qed.

Definition iso_codec (c : codec A) : codec B :=
  Codec (fun y => enc c (g y)) (iso_dec c) (fun y => valid c (g y))
    (iso_dec_enc c) (iso_dec_sound c).
End combinators.

Arguments iso_codec {A B} f g fg gf c.

(** ** Messages *)

Local Notation "c '**' d" := (pair_codec c d) (at level 39, right associativity).

Definition version_codec : codec version_t :=
  iso_codec (fun '(a, (b, c)) => {| major := a; minor := b; micro := c |})
    (fun v => (major v, (minor v, micro v)))
    (fun v => match v with Build_version_t _ _ _ => eq_refl end)
    (fun '(_, (_, _)) => eq_refl)
    (uint_codec 1 ** uint_codec 1 ** uint_codec 1).

Definition header_codec : codec qkd_header_t :=
  iso_codec (fun '(v, (s, n)) => {| version := v; service := s; payload_size := n |})
    (fun h => (version h, (service h, payload_size h)))
    (fun h => match h with Build_qkd_header_t _ _ _ => eq_refl end)
    (fun '(_, (_, _)) => eq_refl)
    (version_codec ** uint_codec 1 ** uint_codec 4).

Definition qos_codec : codec (qos (list byte)) :=
  iso_codec
    (fun '(a, (b, (c, (d, (e, (f, (g, s))))))) => Build_qos a b c d e f g s)
    (fun q => (key_chunk_size q, (max_bps q, (min_bps q, (jitter q,
       (priority q, (timeout q, (ttl q, metadata_mimetype q))))))))
    (fun q => match q with Build_qos _ _ _ _ _ _ _ _ => eq_refl end)
    (fun '(_, (_, (_, (_, (_, (_, (_, _))))))) => eq_refl)
    (uint_codec 4 ** uint_codec 4 ** uint_codec 4 ** uint_codec 4 **
     uint_codec 4 ** uint_codec 4 ** uint_codec 4 ** str_codec).

Definition oc_request_codec : codec (open_connect_request (list byte)) :=
  iso_codec (fun '(a, (b, (c, d))) => Build_open_connect_request a b c d)
    (fun x => (ocq_source x, (ocq_destination x, (ocq_qos x, ocq_key_stream_id x))))
    (fun x => match x with Build_open_connect_request _ _ _ _ => eq_refl end)
    (fun '(_, (_, (_, _))) => eq_refl)
    (str_codec ** str_codec ** qos_codec ** fixed_codec 16).

Definition oc_response_codec : codec (open_connect_response (list byte)) :=
  iso_codec (fun '(a, (b, c)) => Build_open_connect_response a b c)
    (fun x => (ocr_status x, (ocr_qos x, ocr_key_stream_id x)))
    (fun x => match x with Build_open_connect_response _ _ _ => eq_refl end)
    (fun '(_, (_, _)) => eq_refl)
    (uint_codec 4 ** qos_codec ** fixed_codec 16).

Definition gk_request_codec : codec (get_key_request (list byte)) :=
  iso_codec (fun '(a, (b, c)) => Build_get_key_request a b c)
    (fun x => (gkq_key_stream_id x, (gkq_index x, gkq_metadata x)))
    (fun x => match x with Build_get_key_request _ _ _ => eq_refl end)
    (fun '(_, (_, _)) => eq_refl)
    (fixed_codec 16 ** uint_codec 4 ** blob_codec).

Definition gk_response_codec : codec (get_key_response (list byte)) :=
  iso_codec (fun '(a, (b, (c, d))) => Build_get_key_response a b c d)
    (fun x => (gkr_status x, (gkr_index x, (gkr_key_buffer x, gkr_metadata x))))
    (fun x => match x with Build_get_key_response _ _ _ _ => eq_refl end)
    (fun '(_, (_, (_, _))) => eq_refl)
    (uint_codec 4 ** uint_codec 4 ** blob_codec ** blob_codec).

Definition cl_request_codec : codec qkd_close_request_t :=
  iso_codec (fun a => {| clq_key_stream_id := a |}) clq_key_stream_id
    (fun x => match x with Build_qkd_close_request_t _ => eq_refl end)
    (fun _ => eq_refl) (fixed_codec 16).

Definition cl_response_codec : codec qkd_close_response_t :=
  iso_codec (fun a => {| clr_status := a |}) clr_status
    (fun x => match x with Build_qkd_close_response_t _ => eq_refl end)
    (fun _ => eq_refl) (uint_codec 4).

(** The messages of the protocol, well formed. *)
Definition qos_ok := valid qos_codec.
Definition oc_request_ok := valid oc_request_codec.
Definition oc_response_ok := valid oc_response_codec.
Definition gk_request_ok := valid gk_request_codec.
Definition gk_response_ok := valid gk_response_codec.
Definition cl_request_ok := valid cl_request_codec.
Definition cl_response_ok := valid cl_response_codec.

(** An encoding determines its value: no encoding is a proper prefix of another. *)
Lemma enc_inj {A} (c : codec A) x y r r' :
  valid c x -> valid c y -> enc c x ++ r = enc c y ++ r' -> x = y /\ r = r'.
Proof.
  intros Hx Hy E. apply (f_equal (dec c)) in E. rewrite !dec_enc in E by done. naive_solver.
Qed.

Lemma length_enc_header h : length (enc header_codec h) = 8%nat.
Proof. done. Qed.

(** The decoder never gives back more than it was given. *)
Lemma dec_length {A} (c : codec A) l x r : dec c l = Some (x, r) ->
  (length l = length (enc c x) + length r)%nat.
Proof. intros [-> _]%dec_sound. apply length_app. Qed.
