(* ===== verification/Sizes.v ===== *)
(** [src/qkd/sizes.c]: the number of bytes a value takes on the wire.

    Sums of [size_t] wrap at 64 bits, except in [qkd_sizeof_bytes], where the
    operands are an [int] and a [uint32_t] and the sum wraps at 32 bits.  The
    operands of a sum are evaluated from left to right.  The message printed before
    [abort] is not modelled. *)

From S2P Require Import Prelude Models Memory Wire.

(** [a + b] on [size_t]. *)
Definition size_add (a b : Z) : Z := wrap64 (a + b).
Local Infix "+s" := size_add (at level 50, left associativity).

Definition sizeof_uint32 : Z := 4.

Definition qkd_sizeof_bytes (d : qkd_bytes_t) : Z := wrap32 (sizeof_uint32 + size d).

Definition qkd_sizeof_str (str : ptr) : C mem Z :=
  let! n := strlen str in
  cret (n +s 1).

Definition qkd_sizeof_uri (uri : qkd_uri_t) : C mem Z := qkd_sizeof_str uri.

Definition qkd_sizeof_mimetype (mimetype : qkd_mimetype_t) : C mem Z :=
  let! len := qkd_sizeof_str mimetype in
  if MIMETYPE_MAX <? len then cabort else cret len.

Definition qkd_sizeof_qos (q : qkd_qos_t) : C mem Z :=
  let! n := qkd_sizeof_mimetype (metadata_mimetype q) in
  cret (sizeof_uint32 +s sizeof_uint32 +s sizeof_uint32 +s sizeof_uint32 +s
        sizeof_uint32 +s sizeof_uint32 +s sizeof_uint32 +s n).

Definition qkd_sizeof_metadata (metadata : qkd_metadata_t) : Z := qkd_sizeof_bytes metadata.

Definition qkd_sizeof_key_buffer (key_buffer : qkd_key_buffer_t) : Z :=
  qkd_sizeof_bytes key_buffer.

Definition qkd_sizeof_open_connect_request (r : qkd_open_connect_request_t) : C mem Z :=
  let! a := qkd_sizeof_uri (ocq_source r) in
  let! b := qkd_sizeof_uri (ocq_destination r) in
  let! c := qkd_sizeof_qos (ocq_qos r) in
  cret (a +s b +s c +s sizeof_uuid).

Definition qkd_sizeof_open_connect_response (r : qkd_open_connect_response_t) : C mem Z :=
  let! b := qkd_sizeof_qos (ocr_qos r) in
  cret (sizeof_uint32 +s b +s sizeof_uuid).

Definition qkd_sizeof_get_key_request (r : qkd_get_key_request_t) : Z :=
  sizeof_uuid +s sizeof_uint32 +s qkd_sizeof_metadata (gkq_metadata r).

Definition qkd_sizeof_get_key_response (r : qkd_get_key_response_t) : Z :=
  sizeof_uint32 +s sizeof_uint32 +s qkd_sizeof_key_buffer (gkr_key_buffer r)
    +s qkd_sizeof_metadata (gkr_metadata r).

Definition qkd_sizeof_close_request (r : qkd_close_request_t) : Z := sizeof_uuid.

Definition qkd_sizeof_close_response (r : qkd_close_response_t) : Z := sizeof_uint32.

(** ** What structs of the program represent *)

Definition qos_at (m : mem) (q : qkd_qos_t) (v : qos (list byte)) : Prop :=
  str_at m (metadata_mimetype q) (metadata_mimetype v) /\
  q = qos_map (fun _ => metadata_mimetype q) v.

Definition oc_request_at (m : mem) (r : qkd_open_connect_request_t)
    (v : open_connect_request (list byte)) : Prop :=
  str_at m (ocq_source r) (ocq_source v) /\
  str_at m (ocq_destination r) (ocq_destination v) /\
  qos_at m (ocq_qos r) (ocq_qos v) /\
  ocq_key_stream_id r = ocq_key_stream_id v.

Definition oc_response_at (m : mem) (r : qkd_open_connect_response_t)
    (v : open_connect_response (list byte)) : Prop :=
  ocr_status r = ocr_status v /\
  qos_at m (ocr_qos r) (ocr_qos v) /\
  ocr_key_stream_id r = ocr_key_stream_id v.

Definition gk_request_at (m : mem) (r : qkd_get_key_request_t)
    (v : get_key_request (list byte)) : Prop :=
  gkq_key_stream_id r = gkq_key_stream_id v /\
  gkq_index r = gkq_index v /\
  bytes_at m (gkq_metadata r) (gkq_metadata v).

Definition gk_response_at (m : mem) (r : qkd_get_key_response_t)
    (v : get_key_response (list byte)) : Prop :=
  gkr_status r = gkr_status v /\
  gkr_index r = gkr_index v /\
  bytes_at m (gkr_key_buffer r) (gkr_key_buffer v) /\
  bytes_at m (gkr_metadata r) (gkr_metadata v).

(** The strings of a message are short enough for [sizes.c]: a mimetype within
    [MIMETYPE_MAX], and a total that fits the 32-bit [payload_size]. *)
Definition mimetype_fits (q : qos (list byte)) : Prop :=
  Z.of_nat (length (metadata_mimetype q)) < MIMETYPE_MAX.

Definition payload_fits {A} (c : codec A) (x : A) : Prop :=
  Z.of_nat (length (enc c x)) < 2 ^ 32.

(** ** Lemmas *)

Lemma size_add_small a b : 0 <= a + b < 2 ^ 64 -> size_add a b = a + b.
Proof. apply wrap64_small. Qed.

(** Removes the sums of [size_t] that stay in range, the innermost first. *)
Ltac size_arith :=
  unfold sizeof_uuid, sizeof_uint32;
  repeat match goal with
         | |- context [size_add ?a ?b] => rewrite (size_add_small a b) by lia
         end.

Lemma length_enc_cstr s : length (enc_cstr s) = S (length s).
Proof. unfold enc_cstr. rewrite length_app. simpl. lia. Qed.

Lemma length_enc_blob s : length (enc_blob s) = (4 + length s)%nat.
Proof. unfold enc_blob. by rewrite length_app, length_be_bytes. Qed.

Lemma length_enc_qos v : length (enc qos_codec v) = (29 + length (metadata_mimetype v))%nat.
Proof.
  cbn [enc qos_codec iso_codec pair_codec uint_codec str_codec fst snd].
  rewrite !length_app, !length_be_bytes, length_enc_cstr. lia.
Qed.

Lemma length_enc_oc_request v : uuid_ok (ocq_key_stream_id v) ->
  length (enc oc_request_codec v) =
    (47 + length (ocq_source v) + length (ocq_destination v)
     + length (metadata_mimetype (ocq_qos v)))%nat.
Proof.
  unfold uuid_ok. cbn [enc oc_request_codec iso_codec pair_codec fixed_codec str_codec fst snd].
  rewrite !length_app, length_enc_qos, !length_enc_cstr. lia.
Qed.

Lemma length_enc_oc_response v : uuid_ok (ocr_key_stream_id v) ->
  length (enc oc_response_codec v) = (49 + length (metadata_mimetype (ocr_qos v)))%nat.
Proof.
  unfold uuid_ok. cbn [enc oc_response_codec iso_codec pair_codec uint_codec fixed_codec fst snd].
  rewrite !length_app, length_enc_qos, length_be_bytes. lia.
Qed.

Lemma length_enc_gk_request v : uuid_ok (gkq_key_stream_id v) ->
  length (enc gk_request_codec v) = (24 + length (gkq_metadata v))%nat.
Proof.
  unfold uuid_ok.
  cbn [enc gk_request_codec iso_codec pair_codec uint_codec fixed_codec blob_codec fst snd].
  rewrite !length_app, length_enc_blob, length_be_bytes. lia.
Qed.

Lemma length_enc_gk_response v :
  length (enc gk_response_codec v) =
    (16 + length (gkr_key_buffer v) + length (gkr_metadata v))%nat.
Proof.
  cbn [enc gk_response_codec iso_codec pair_codec uint_codec blob_codec fst snd].
  rewrite !length_app, !length_enc_blob, !length_be_bytes. lia.
Qed.

Lemma qkd_sizeof_str_run m p s : str_at m p s -> Z.of_nat (length s) < 2 ^ 63 ->
  qkd_sizeof_str p m = Ret (Z.of_nat (length (enc_cstr s))) m.
Proof.
  intros Hp Hs. unfold qkd_sizeof_str. crun strlen_at.
  unfold cret. rewrite size_add_small, length_enc_cstr by lia. f_equal. lia.
Qed.

(** Both branches of the limit on mimetypes. *)
Lemma qkd_sizeof_mimetype_run m p s : str_at m p s -> Z.of_nat (length s) < 2 ^ 63 ->
  qkd_sizeof_mimetype p m =
    if decide (Z.of_nat (length s) < MIMETYPE_MAX)
    then Ret (Z.of_nat (length (enc_cstr s))) m else Aborted m.
Proof.
  intros Hp Hs. unfold qkd_sizeof_mimetype. crun qkd_sizeof_str_run.
  rewrite length_enc_cstr. unfold MIMETYPE_MAX. case_decide.
  - by rewrite (proj2 (Z.ltb_ge _ _)) by lia.
  - by rewrite (proj2 (Z.ltb_lt _ _)) by lia.
Qed.

Lemma qkd_sizeof_bytes_run m d s : bytes_at m d s -> Z.of_nat (length (enc_blob s)) < 2 ^ 32 ->
  qkd_sizeof_bytes d = Z.of_nat (length (enc_blob s)).
Proof.
  intros (_ & Hd & _) Hs. rewrite length_enc_blob in *. unfold qkd_sizeof_bytes, sizeof_uint32.
  rewrite Hd, wrap32_small; unfold u32; lia.
Qed.

Lemma qkd_sizeof_qos_run m q v :
  qos_at m q v -> Z.of_nat (length (metadata_mimetype v)) < 2 ^ 62 ->
  qkd_sizeof_qos q m =
    if decide (mimetype_fits v)
    then Ret (Z.of_nat (length (enc qos_codec v))) m else Aborted m.
Proof.
  intros [Hm Hq] Hlen. unfold qkd_sizeof_qos, mimetype_fits.
  pose proof (qkd_sizeof_mimetype_run m _ _ Hm ltac:(lia)) as Hrun. case_decide.
  - erewrite cbind_ret by done. unfold cret.
    rewrite length_enc_qos, length_enc_cstr. size_arith. f_equal. lia.
  - by erewrite cbind_aborted.
Qed.

Lemma qkd_sizeof_open_connect_request_run m r v :
  oc_request_at m r v -> uuid_ok (ocq_key_stream_id v) -> payload_fits oc_request_codec v ->
  qkd_sizeof_open_connect_request r m =
    if decide (mimetype_fits (ocq_qos v))
    then Ret (Z.of_nat (length (enc oc_request_codec v))) m else Aborted m.
Proof.
  intros (Hs & Hd & Hq & _) Hu. unfold payload_fits, qkd_sizeof_open_connect_request, qkd_sizeof_uri.
  rewrite length_enc_oc_request by done. intros Hfit.
  do 2 (erewrite cbind_ret by (apply qkd_sizeof_str_run; [done | lia])).
  pose proof (qkd_sizeof_qos_run m _ _ Hq ltac:(lia)) as Hrun. case_decide.
  - erewrite cbind_ret by done. unfold cret.
    rewrite length_enc_qos, !length_enc_cstr. size_arith. f_equal. lia.
  - by erewrite cbind_aborted.
Qed.

Lemma qkd_sizeof_open_connect_response_run m r v :
  oc_response_at m r v -> uuid_ok (ocr_key_stream_id v) -> payload_fits oc_response_codec v ->
  qkd_sizeof_open_connect_response r m =
    if decide (mimetype_fits (ocr_qos v))
    then Ret (Z.of_nat (length (enc oc_response_codec v))) m else Aborted m.
Proof.
  intros (_ & Hq & _) Hu. unfold payload_fits, qkd_sizeof_open_connect_response.
  rewrite length_enc_oc_response by done. intros Hfit.
  pose proof (qkd_sizeof_qos_run m _ _ Hq ltac:(lia)) as Hrun. case_decide.
  - erewrite cbind_ret by done. unfold cret.
    rewrite length_enc_qos. size_arith. f_equal. lia.
  - by erewrite cbind_aborted.
Qed.

Lemma qkd_sizeof_get_key_request_run m r v :
  gk_request_at m r v -> uuid_ok (gkq_key_stream_id v) -> payload_fits gk_request_codec v ->
  qkd_sizeof_get_key_request r = Z.of_nat (length (enc gk_request_codec v)).
Proof.
  intros (_ & _ & Hb) Hu. unfold payload_fits, qkd_sizeof_get_key_request, qkd_sizeof_metadata.
  rewrite length_enc_gk_request by done. intros Hfit.
  rewrite (qkd_sizeof_bytes_run m _ _ Hb) by (rewrite length_enc_blob; lia).
  rewrite length_enc_blob. size_arith. lia.
Qed.

Lemma qkd_sizeof_get_key_response_run m r v :
  gk_response_at m r v -> payload_fits gk_response_codec v ->
  qkd_sizeof_get_key_response r = Z.of_nat (length (enc gk_response_codec v)).
Proof.
  intros (_ & _ & Hk & Hb). unfold payload_fits, qkd_sizeof_get_key_response,
    qkd_sizeof_metadata, qkd_sizeof_key_buffer.
  rewrite length_enc_gk_response. intros Hfit.
  rewrite (qkd_sizeof_bytes_run m _ _ Hb), (qkd_sizeof_bytes_run m _ _ Hk)
    by (rewrite length_enc_blob; lia).
  rewrite !length_enc_blob. size_arith. lia.
Qed.
