(* ===== verification/Platform.v ===== *)
(** The code the program calls and does not contain: libuuid, OpenSSL and the
    pseudo-random generator of the C library.  Each is a class of operations, a
    parameter of the definitions that use them, and a class of the documented
    facts the theorems rely on.  The instances at the end are used only to run the
    model on concrete inputs. *)

From S2P Require Import Prelude Models Memory.

(** ** libuuid *)
Class Libuuid := {
  (** the bytes [uuid_copy(dst, src)] puts at [dst] *)
  uuid_copy : uuid_t -> uuid_t;
  uuid_compare : uuid_t -> uuid_t -> Z;
  (** [uuid_generate_random] draws from a source of randomness *)
  uuid_source : Type;
  uuid_generate_random : uuid_source -> uuid_t * uuid_source;
}.

Class LibuuidOk {LU : Libuuid} : Prop := {
  uuid_copy_ok : forall u, uuid_ok u -> uuid_copy u = u;
  uuid_compare_ok : forall u v, uuid_ok u -> uuid_ok v -> (uuid_compare u v = 0 <-> u = v);
  uuid_generate_random_ok : forall g, uuid_ok (uuid_generate_random g).1;
}.

(** ** The generator behind [srand] and [rand] *)
Class Rand := {
  rng : Type;
  srand : Z -> rng;
  rand : rng -> Z * rng;
}.

(** ** A TLS connection of OpenSSL *)
Class Openssl := {
  ssl : Type;
  (** [SSL_read(ssl, buf, num)]: the value returned and the bytes put in [buf] *)
  SSL_read : ssl -> Z -> (Z * list byte) * ssl;
  (** [SSL_write(ssl, buf, num)] of the bytes of [buf] *)
  SSL_write : ssl -> list byte -> Z * ssl;
}.

(** The largest record: what one [SSL_write] sends up to this size arrives in one piece, and
    no [SSL_read] gives more. *)
Definition SSL3_RT_MAX_PLAIN_LENGTH : Z := 16384.

(** A successful read gives as many bytes as it returns, at most [num]; a failed
    one gives none and returns an [int] that is not positive. *)
Class OpensslOk {OS : Openssl} : Prop := {
  SSL_read_count : forall s n, 0 < n -> 0 < (SSL_read s n).1.1 ->
    Z.of_nat (length (SSL_read s n).1.2) = (SSL_read s n).1.1 /\ (SSL_read s n).1.1 <= n;
  SSL_read_failed : forall s n, (SSL_read s n).1.1 <= 0 ->
    (SSL_read s n).1.2 = [] /\ i32 (SSL_read s n).1.1;
}.

(** ** Instances to run the model with *)
Module Concrete.
(** Memory runs out at requests of 1 MiB and more. *)
Definition malloc_small : Malloc := fun _ n => n <? 2 ^ 20.

Definition malloc_all : Malloc := fun _ _ => true.

Lemma malloc_all_total : @MallocTotal malloc_all.
Proof. done. Qed.

Definition seq_uuid (n : nat) : uuid_t := take 16 (be_bytes 16 (Z.of_nat n + 1)).

Definition libuuid : Libuuid := {|
  uuid_copy u := u;
  uuid_compare u v := if decide (u = v) then 0 else 1;
  uuid_source := nat;
  uuid_generate_random n := (seq_uuid n, S n);
|}.

Lemma libuuid_ok : @LibuuidOk libuuid.
Proof.
  split; cbn.
  - done.
  - intros u v _ _. by case_decide.
  - intros g. unfold uuid_ok, seq_uuid. rewrite length_take, length_be_bytes. done.
Qed.

(** The generator the C standard gives as an example. *)
Definition lcg : Rand := {|
  rng := Z;
  srand s := s;
  rand g := let g := wrap32 (g * 1103515245 + 12345) in ((g / 65536) mod 32768, g);
|}.

(** A connection on which the peer's records arrive one per read (a read does not
    cross a record), and what is written is kept. *)
Record script := { incoming : list (list byte); outgoing : list (list byte) }.

Definition tls : Openssl := {|
  ssl := script;
  SSL_read s n :=
    match incoming s with
    | [] => ((0, []), s)
    | r :: rs =>
        let l := take (Z.to_nat n) r in
        let rest := drop (Z.to_nat n) r in
        ((Z.of_nat (length l), l),
         {| incoming := if decide (rest = []) then rs else rest :: rs; outgoing := outgoing s |})
    end;
  SSL_write s l := (Z.of_nat (length l), {| incoming := incoming s; outgoing := outgoing s ++ [l] |});
|}.

Lemma tls_ok : @OpensslOk tls.
Proof.
  split; intros s n; cbn; destruct (incoming s) as [|r rs]; cbn; rewrite ?length_take.
  - lia.
  - lia.
  - intros _. split; [done | unfold i32; lia].
  - intros H. split; [apply length_zero_iff_nil; rewrite length_take; lia | unfold i32; lia].
Qed.

(** A connection whose reads have given results, one after the other. *)
Definition scripted : Openssl := {|
  ssl := list (Z * list byte);
  SSL_read s n := match s with [] => ((0, []), []) | r :: s => (r, s) end;
  SSL_write s l := (Z.of_nat (length l), s);
|}.
End Concrete.
