(* ===== verification/Printf.v ===== *)
(** The conversions of [printf] the program uses: [%u], [%d], [%02X] and [%f], as
    functions to byte strings, and string literals. *)

From S2P Require Import Prelude Models.
From Stdlib Require Import Strings.String.
From Stdlib Require Import Lists.List.
Export String.StringSyntax.

(** A string literal; an apostrophe stands for a double quote. *)
Definition lit (s : string) : list byte :=
  (fun b => if decide (b = x27) then x22 else b) <$> list_byte_of_string s.

#[global] Arguments lit s%_string.

(** Decimal digits, most significant first. *)
Definition digit (n : Z) : byte := z2b (48 + n).

Fixpoint digits_aux (fuel : nat) (n : Z) (acc : list byte) : list byte :=
  match fuel with
  | O => acc
  | S fuel =>
      let acc := digit (n mod 10) :: acc in
      if n <? 10 then acc else digits_aux fuel (n / 10) acc
  end.

(** [%u] *)
Definition print_u (n : Z) : list byte := digits_aux (S (Z.to_nat (Z.log2 n))) n [].

(** [%d] *)
Definition print_d (n : Z) : list byte := if n <? 0 then x2d :: print_u (- n) else print_u n.

(** A value of type [unsigned] passed for [%d]. *)
Definition as_int (n : Z) : Z := if n <? 2 ^ 31 then n else n - 2 ^ 32.

(** The [k] last decimal digits of [n]. *)
Fixpoint last_digits (k : nat) (n : Z) (acc : list byte) : list byte :=
  match k with
  | O => acc
  | S k => last_digits k (n / 10) (digit (n mod 10) :: acc)
  end.

(** [|x| * 10 ^ 6] rounded to the nearest integer, ties to even. *)
Definition micros (x : float_t) : Z :=
  let a := Z.abs (float_man x) * 10 ^ 6 in
  if 0 <=? float_exp x then a * 2 ^ float_exp x
  else
    let d := 2 ^ (- float_exp x) in
    let q := a / d in
    let r := a mod d in
    if 2 * r <? d then q else if d <? 2 * r then q + 1 else q + q mod 2.

(** [%f] *)
Definition print_f (x : float_t) : list byte :=
  (if float_man x <? 0 then [x2d] else [])
  ++ print_u (micros x / 10 ^ 6) ++ [x2e] ++ last_digits 6 (micros x) [].

(** [%02X] *)
Definition hex_digit (n : Z) : byte := if n <? 10 then digit n else z2b (55 + n).
Definition print_02X (b : byte) : list byte := [hex_digit (b2z b / 16); hex_digit (b2z b mod 16)].

(** The number a string of decimal digits denotes. *)
Definition digit_value (b : byte) : Z := b2z b - 48.
Definition parse_u (l : list byte) : Z := fold_left (fun a b => 10 * a + digit_value b) l 0.

Definition is_digit (b : byte) : Prop := 48 <= b2z b < 58.

(** ** Lemmas *)

Lemma b2z_digit n : 0 <= n < 10 -> b2z (digit n) = 48 + n.
Proof. intros. unfold digit. rewrite b2z_z2b. apply Z.mod_small. lia. Qed.

Lemma digit_is_digit n : 0 <= n < 10 -> is_digit (digit n).
Proof. intros. unfold is_digit. rewrite b2z_digit; lia. Qed.

(** One more digit suffices for one more bit. *)
Lemma digits_aux_spec fuel n acc :
  0 <= n < 2 ^ Z.of_nat fuel -> (0 < fuel)%nat ->
  exists ds, digits_aux fuel n acc = ds ++ acc /\ Forall is_digit ds /\ ds <> [] /\
    forall a, fold_left (fun a b => 10 * a + digit_value b) ds a
              = a * 10 ^ Z.of_nat (length ds) + n.
Proof.
  revert n acc. induction fuel as [|fuel IH]; intros n acc Hn Hf; [lia|]. cbn [digits_aux].
  pose proof (Z.mod_pos_bound n 10). pose proof (Z.div_mod n 10).
  rewrite Nat2Z.inj_succ, Z.pow_succ_r in Hn by lia.
  destruct (Z.ltb_spec n 10) as [Hlt|Hge].
  - exists [digit (n mod 10)]. split_and!; [done| |done|].
    + repeat constructor; unfold is_digit; rewrite b2z_digit; lia.
    + intros a. cbn [fold_left length]. unfold digit_value. rewrite b2z_digit by lia.
      rewrite Z.mod_small by lia. lia.
  - assert (0 < fuel)%nat by (destruct fuel; [simpl in Hn; lia | lia]).
    assert (0 <= n / 10 < 2 ^ Z.of_nat fuel) by
      (split; [apply Z.div_pos; lia | apply Z.div_lt_upper_bound; lia]).
    destruct (IH (n / 10) (digit (n mod 10) :: acc)) as (ds & -> & Hd & Hne & Hv); [done..|].
    exists (ds ++ [digit (n mod 10)]). split_and!.
    + by rewrite <- app_assoc.
    + apply Forall_app. split; [done|]. constructor; [|constructor].
      apply digit_is_digit. lia.
    + by destruct ds.
    + intros a. rewrite fold_left_app, Hv. cbn [fold_left]. unfold digit_value.
      rewrite b2z_digit by lia. rewrite length_app, Nat2Z.inj_add. cbn [length].
      rewrite Z.pow_add_r by lia. lia.
Qed.

Lemma log2_fuel n : 0 <= n -> 0 <= n < 2 ^ Z.of_nat (S (Z.to_nat (Z.log2 n))).
Proof.
  intros Hn. split; [done|]. pose proof (Z.log2_nonneg n).
  rewrite Nat2Z.inj_succ, Z2Nat.id by done.
  destruct (decide (n = 0)) as [->|]; [done|]. apply Z.log2_spec. lia.
Qed.

Lemma print_u_spec n : 0 <= n ->
  Forall is_digit (print_u n) /\ print_u n <> [] /\ parse_u (print_u n) = n.
Proof.
  intros Hn. destruct (digits_aux_spec _ n [] (log2_fuel n Hn) ltac:(lia)) as (ds & E & Hd & Hne & Hv).
  unfold print_u, parse_u. rewrite E, app_nil_r. split_and!; [done..|]. by rewrite Hv.
Qed.

Lemma length_digits_aux fuel n acc k :
  0 <= n < 10 ^ Z.of_nat k -> (0 < k)%nat ->
  (length (digits_aux fuel n acc) <= k + length acc)%nat.
Proof.
  revert n acc k. induction fuel as [|fuel IH]; intros n acc k Hn Hk; [simpl; lia|].
  cbn [digits_aux]. destruct (Z.ltb_spec n 10) as [Hlt|Hge]; [simpl; lia|].
  destruct k as [|k]; [lia|]. rewrite Nat2Z.inj_succ, Z.pow_succ_r in Hn by lia.
  assert (0 < k)%nat by (destruct k; [simpl in Hn; lia | lia]).
  etrans; [apply (IH _ _ k)|simpl; lia]; [|done].
  split; [apply Z.div_pos; lia | apply Z.div_lt_upper_bound; lia].
Qed.

Lemma length_print_u n k : 0 <= n < 10 ^ Z.of_nat k -> (0 < k)%nat ->
  (length (print_u n) <= k)%nat.
Proof.
  intros Hn Hk. unfold print_u. etrans; [by apply length_digits_aux|]. simpl. lia.
Qed.

Lemma length_print_d n : i32 n -> (length (print_d n) <= 11)%nat.
Proof.
  unfold i32, print_d. intros Hn. case_match eqn:E.
  - apply Z.ltb_lt in E. simpl. pose proof (length_print_u (- n) 10). lia.
  - apply Z.ltb_ge in E. pose proof (length_print_u n 10). lia.
Qed.

Lemma length_last_digits k n acc : length (last_digits k n acc) = (k + length acc)%nat.
Proof. revert n acc. induction k as [|k IH]; intros; [done|]. cbn. rewrite IH. simpl. lia. Qed.

(** The finite values of [float]: 24 bits of significand. *)
Definition float_ok (x : float_t) : Prop :=
  Z.abs (float_man x) < 2 ^ 24 /\ -149 <= float_exp x <= 104.

Lemma micros_bound x : float_ok x -> 0 <= micros x < 10 ^ 46.
Proof.
  intros [Hm He]. unfold micros. set (a := Z.abs (float_man x) * 10 ^ 6).
  assert (0 <= a < 2 ^ 24 * 10 ^ 6) as Ha by (subst a; lia).
  destruct (Z.leb_spec 0 (float_exp x)) as [H0|H0].
  - pose proof (Z.pow_pos_nonneg 2 (float_exp x)). split; [nia|].
    apply Z.le_lt_trans with (a * 2 ^ 104).
    + apply Z.mul_le_mono_nonneg_l; [lia|]. apply Z.pow_le_mono_r; lia.
    + lia.
  - pose proof (Z.pow_pos_nonneg 2 (- float_exp x)) as Hd.
    pose proof (Z.div_pos a (2 ^ (- float_exp x))).
    pose proof (Z.div_le_upper_bound a (2 ^ (- float_exp x)) a).
    pose proof (Z.mod_pos_bound (a / 2 ^ (- float_exp x)) 2). cbv zeta.
    assert (a / 2 ^ (- float_exp x) <= a) by nia. repeat case_match; lia.
Qed.

Lemma length_print_f x : float_ok x -> (length (print_f x) <= 54)%nat.
Proof.
  intros Hx. pose proof (micros_bound x Hx) as Hb. unfold print_f.
  rewrite !length_app, length_last_digits.
  assert (length (if (float_man x <? 0)%Z then [x2d] else []) <= 1)%nat by (case_match; simpl; lia).
  pose proof (length_print_u (micros x / 10 ^ 6) 46) as Hu.
  assert (0 <= micros x / 10 ^ 6 < 10 ^ Z.of_nat 46).
  { split; [apply Z.div_pos; lia | apply Z.div_lt_upper_bound; lia]. }
  simpl length. lia.
Qed.
