(* ===== verification/Serializers.v ===== *)
(** [src/qkd/serializers.c]: reading and writing the fields of messages at a
    [stream_t], a pointer to a cursor into a buffer.

    A function [qkd_X_to_stream] takes the cursor [*stream] and returns the cursor
    it leaves there; [qkd_X_from_stream] also returns the value read.  Integers in
    memory are little-endian, as on the machines the program is built for. *)

From S2P Require Import Prelude Models Memory Wire Sizes Platform.

Section serializers.
Context {ML : Malloc} {LU : Libuuid}.

(** [htonl] and [ntohl]: the integer whose bytes in memory are those of the
    argument in network order, and back. *)
Definition htonl (n : Z) : Z := le_val (be_bytes 4 n).
Definition ntohl (n : Z) : Z := be_val (le_bytes 4 n).

Definition qkd_uint32_to_stream (number : Z) (stream : ptr) : C mem ptr :=
  let number := htonl number in
  let offset := sizeof_uint32 in
  store_bytes stream (Some <$> le_bytes 4 number);;;
  cret (padd stream offset).

Definition qkd_uint32_from_stream (stream : ptr) : C mem (Z * ptr) :=
  let offset := sizeof_uint32 in
  let! l := load_init stream offset in
  let number := le_val l in
  cret (ntohl number, padd stream offset).

Definition qkd_uuid_to_stream (id : uuid_t) (stream : ptr) : C mem ptr :=
  let offset := sizeof_uuid in
  store_bytes stream (Some <$> id);;;
  cret (padd stream offset).

Definition qkd_uuid_from_stream (stream : ptr) : C mem (ptr * ptr) :=
  let offset := sizeof_uuid in
  let! id := malloc offset in
  let! u := load_init stream offset in
  store_bytes id (Some <$> uuid_copy u);;;
  cret (id, padd stream offset).

Definition qkd_bytes_data_to_stream (d : qkd_bytes_t) (stream : ptr) : C mem ptr :=
  let! stream := qkd_uint32_to_stream (size d) stream in
  let offset := size d in
  memcpy stream (data d) offset;;;
  cret (padd stream offset).

Definition qkd_bytes_data_from_stream (stream : ptr) : C mem (qkd_bytes_t * ptr) :=
  let! '(sz, stream) := qkd_uint32_from_stream stream in
  let offset := sz in
  let! p := malloc offset in
  memcpy p stream offset;;;
  cret ({| size := sz; data := p |}, padd stream offset).

Definition qkd_str_to_stream (str : ptr) (stream : ptr) : C mem ptr :=
  let! offset := qkd_sizeof_str str in
  memcpy stream str offset;;;
  cret (padd stream offset).

Definition qkd_str_from_stream (stream : ptr) : C mem (ptr * ptr) :=
  let str_ := stream in
  let! offset := qkd_sizeof_str str_ in
  let! str := malloc offset in
  memcpy str stream offset;;;
  cret (str, padd stream offset).

Definition qkd_uri_to_stream (uri : qkd_uri_t) (stream : ptr) : C mem ptr :=
  qkd_str_to_stream uri stream.

Definition qkd_uri_from_stream (stream : ptr) : C mem (qkd_uri_t * ptr) :=
  qkd_str_from_stream stream.

Definition qkd_mimetype_to_stream (mime : qkd_mimetype_t) (stream : ptr) : C mem ptr :=
  qkd_str_to_stream mime stream.

Definition qkd_mimetype_from_stream (stream : ptr) : C mem (qkd_mimetype_t * ptr) :=
  qkd_str_from_stream stream.

Definition qkd_qos_to_stream (q : qkd_qos_t) (stream : ptr) : C mem ptr :=
  let! stream := qkd_uint32_to_stream (key_chunk_size q) stream in
  let! stream := qkd_uint32_to_stream (max_bps q) stream in
  let! stream := qkd_uint32_to_stream (min_bps q) stream in
  let! stream := qkd_uint32_to_stream (jitter q) stream in
  let! stream := qkd_uint32_to_stream (priority q) stream in
  let! stream := qkd_uint32_to_stream (timeout q) stream in
  let! stream := qkd_uint32_to_stream (ttl q) stream in
  qkd_mimetype_to_stream (metadata_mimetype q) stream.

Definition qkd_qos_from_stream (stream : ptr) : C mem (qkd_qos_t * ptr) :=
  let! '(f1, stream) := qkd_uint32_from_stream stream in
  let! '(f2, stream) := qkd_uint32_from_stream stream in
  let! '(f3, stream) := qkd_uint32_from_stream stream in
  let! '(f4, stream) := qkd_uint32_from_stream stream in
  let! '(f5, stream) := qkd_uint32_from_stream stream in
  let! '(f6, stream) := qkd_uint32_from_stream stream in
  let! '(f7, stream) := qkd_uint32_from_stream stream in
  let! '(f8, stream) := qkd_mimetype_from_stream stream in
  cret ({| key_chunk_size := f1; max_bps := f2; min_bps := f3; jitter := f4;
           priority := f5; timeout := f6; ttl := f7; metadata_mimetype := f8 |}, stream).

Definition qkd_key_buffer_to_stream (d : qkd_key_buffer_t) (stream : ptr) : C mem ptr :=
  qkd_bytes_data_to_stream d stream.

Definition qkd_key_buffer_from_stream (stream : ptr) : C mem (qkd_key_buffer_t * ptr) :=
  qkd_bytes_data_from_stream stream.

Definition qkd_metadata_to_stream (d : qkd_key_buffer_t) (stream : ptr) : C mem ptr :=
  qkd_bytes_data_to_stream d stream.

Definition qkd_metadata_from_stream (stream : ptr) : C mem (qkd_key_buffer_t * ptr) :=
  qkd_bytes_data_from_stream stream.

Definition qkd_open_connect_request_to_stream (r : qkd_open_connect_request_t) (stream : ptr) :
    C mem ptr :=
  let! stream := qkd_uri_to_stream (ocq_source r) stream in
  let! stream := qkd_uri_to_stream (ocq_destination r) stream in
  let! stream := qkd_qos_to_stream (ocq_qos r) stream in
  qkd_uuid_to_stream (ocq_key_stream_id r) stream.

Definition qkd_open_connect_request_from_stream (stream : ptr) :
    C mem (qkd_open_connect_request_t * ptr) :=
  let! '(source, stream) := qkd_uri_from_stream stream in
  let! '(destination, stream) := qkd_uri_from_stream stream in
  let! '(q, stream) := qkd_qos_from_stream stream in
  let! '(uuid_ptr, stream) := qkd_uuid_from_stream stream in
  let! u := load_init uuid_ptr sizeof_uuid in
  let key_stream_id := uuid_copy u in
  free uuid_ptr;;;
  cret ({| ocq_source := source; ocq_destination := destination; ocq_qos := q;
           ocq_key_stream_id := key_stream_id |}, stream).

Definition qkd_open_connect_response_to_stream (r : qkd_open_connect_response_t) (stream : ptr) :
    C mem ptr :=
  let! stream := qkd_uint32_to_stream (ocr_status r) stream in
  let! stream := qkd_qos_to_stream (ocr_qos r) stream in
  qkd_uuid_to_stream (ocr_key_stream_id r) stream.

Definition qkd_open_connect_response_from_stream (stream : ptr) :
    C mem (qkd_open_connect_response_t * ptr) :=
  let! '(status, stream) := qkd_uint32_from_stream stream in
  let! '(q, stream) := qkd_qos_from_stream stream in
  let! '(uuid_ptr, stream) := qkd_uuid_from_stream stream in
  let! u := load_init uuid_ptr sizeof_uuid in
  let key_stream_id := uuid_copy u in
  free uuid_ptr;;;
  cret ({| ocr_status := status; ocr_qos := q; ocr_key_stream_id := key_stream_id |}, stream).

Definition qkd_get_key_request_to_stream (r : qkd_get_key_request_t) (stream : ptr) : C mem ptr :=
  let! stream := qkd_uuid_to_stream (gkq_key_stream_id r) stream in
  let! stream := qkd_uint32_to_stream (gkq_index r) stream in
  qkd_metadata_to_stream (gkq_metadata r) stream.

Definition qkd_get_key_request_from_stream (stream : ptr) : C mem (qkd_get_key_request_t * ptr) :=
  let! '(uuid_ptr, stream) := qkd_uuid_from_stream stream in
  let! u := load_init uuid_ptr sizeof_uuid in
  let key_stream_id := uuid_copy u in
  free uuid_ptr;;;
  let! '(index, stream) := qkd_uint32_from_stream stream in
  let! '(metadata, stream) := qkd_metadata_from_stream stream in
  cret ({| gkq_key_stream_id := key_stream_id; gkq_index := index; gkq_metadata := metadata |},
        stream).

Definition qkd_get_key_response_to_stream (r : qkd_get_key_response_t) (stream : ptr) :
    C mem ptr :=
  let! stream := qkd_uint32_to_stream (gkr_status r) stream in
  let! stream := qkd_uint32_to_stream (gkr_index r) stream in
  let! stream := qkd_key_buffer_to_stream (gkr_key_buffer r) stream in
  qkd_metadata_to_stream (gkr_metadata r) stream.

Definition qkd_get_key_response_from_stream (stream : ptr) :
    C mem (qkd_get_key_response_t * ptr) :=
  let! '(status, stream) := qkd_uint32_from_stream stream in
  let! '(index, stream) := qkd_uint32_from_stream stream in
  let! '(key_buffer, stream) := qkd_key_buffer_from_stream stream in
  let! '(metadata, stream) := qkd_metadata_from_stream stream in
  cret ({| gkr_status := status; gkr_index := index; gkr_key_buffer := key_buffer;
           gkr_metadata := metadata |}, stream).

Definition qkd_close_request_to_stream (r : qkd_close_request_t) (stream : ptr) : C mem ptr :=
  qkd_uuid_to_stream (clq_key_stream_id r) stream.

Definition qkd_close_request_from_stream (stream : ptr) : C mem (qkd_close_request_t * ptr) :=
  let! '(uuid_ptr, stream) := qkd_uuid_from_stream stream in
  let! u := load_init uuid_ptr sizeof_uuid in
  let key_stream_id := uuid_copy u in
  free uuid_ptr;;;
  cret ({| clq_key_stream_id := key_stream_id |}, stream).

Definition qkd_close_response_to_stream (r : qkd_close_response_t) (stream : ptr) : C mem ptr :=
  qkd_uint32_to_stream (clr_status r) stream.

Definition qkd_close_response_from_stream (stream : ptr) : C mem (qkd_close_response_t * ptr) :=
  let! '(status, stream) := qkd_uint32_from_stream stream in
  cret ({| clr_status := status |}, stream).

(** The bytes of a [qkd_header_t] in memory, and the struct they make up. *)
Definition header_bytes (h : qkd_header_t) : list byte :=
  [z2b (major (version h)); z2b (minor (version h)); z2b (micro (version h)); z2b (service h)]
  ++ le_bytes 4 (payload_size h).

Definition header_of_bytes (l : list byte) : qkd_header_t :=
  let at_ i := b2z (nth i l x00) in
  {| version := {| major := at_ 0%nat; minor := at_ 1%nat; micro := at_ 2%nat |};
     service := at_ 3%nat; payload_size := le_val (drop 4 l) |}.

Definition qkd_header_to_stream (header : qkd_header_t) (stream : ptr) : C mem ptr :=
  let header := {| version := version header; service := service header;
                   payload_size := htonl (payload_size header) |} in
  let offset := sizeof_header in
  store_bytes stream (Some <$> header_bytes header);;;
  cret (padd stream offset).

Definition qkd_header_from_stream (stream : ptr) : C mem (qkd_header_t * ptr) :=
  let offset := sizeof_header in
  let! l := load_init stream offset in
  let header := header_of_bytes l in
  cret ({| version := version header; service := service header;
           payload_size := ntohl (payload_size header) |}, padd stream offset).

End serializers.
