(* ===== verification/SerializersSpec.v ===== *)
(** The serializers of [Serializers.v] implement the wire format of [Wire.v].

    [writes b R f bs]: in a memory where [R] holds, [f] puts the bytes [bs] at the
    cursor in block [b] if there is room for them, and writes out of bounds if not.
    [reads f c bl pl]: on any initialised bytes, [f] decodes with the codec [c],
    allocates the blocks [bl] and returns the struct [pl]; where [c] rejects the
    bytes, [f] reads out of bounds. *)

From S2P Require Import Prelude Models Memory Wire Sizes Platform Serializers.

(** Short enough to be an object of the address space. *)
Definition short (s : list byte) : Prop := Z.of_nat (length s) < 2 ^ 62.

(** ** Writers *)

Definition writes (b : nat) (R : mem -> Prop) (f : ptr -> C mem ptr) (bs : list byte) : Prop :=
  forall m pre rest, R m -> heap m !! b = Some (Bytes (pre ++ rest)) ->
  f (Ptr b (length pre)) m =
    if decide (length bs <= length rest)%nat
    then Ret (Ptr b (length pre + length bs))
             (set_block b (Bytes (pre ++ (Some <$> bs) ++ drop (length bs) rest)) m)
    else Fault OutOfBounds.

Lemma store_bytes_oob m b pre rest (bs : list mbyte) :
  heap m !! b = Some (Bytes (pre ++ rest)) -> (length rest < length bs)%nat ->
  store_bytes (Ptr b (length pre)) bs m = Fault OutOfBounds.
Proof.
  intros Hb Hlen. destruct bs as [|x bs]; [simpl in Hlen; lia|].
  unfold store_bytes. rewrite Hb.
  by rewrite (proj2 (Z.leb_gt _ _)) by (rewrite length_app; lia).
Qed.

(** The basic writer: bytes obtained without changing memory are stored. *)
Lemma writes_store b R bs k n :
  n = Z.of_nat (length bs) ->
  (forall p m, R m -> k p m = (store_bytes p (Some <$> bs);;; cret (padd p n)) m) ->
  writes b R k bs.
Proof.
  intros -> Hk m pre rest HR Hb. rewrite Hk by done. case_decide as Hlen.
  - rewrite <- (take_drop (length bs) rest) in Hb.
    erewrite cbind_ret.
    2: { apply (store_bytes_at m b pre (take (length bs) rest)); [done|].
         rewrite length_fmap, length_take. lia. }
    unfold cret, padd. by rewrite Nat2Z.id.
  - erewrite cbind_fault; [done|]. eapply store_bytes_oob; [done|]. rewrite length_fmap. lia.
Qed.

Lemma writes_seq b R f g bs cs :
  stable_off b R -> writes b R f bs -> writes b R g cs ->
  writes b R (fun p => let! p := f p in g p) (bs ++ cs).
Proof.
  intros HR Hf Hg m pre rest Hm Hb. pose proof (Hf m pre rest Hm Hb) as Hf'.
  rewrite length_app. destruct (decide (length bs <= length rest)%nat) as [Hl|Hl].
  2: { rewrite decide_False by lia. by erewrite cbind_fault. }
  erewrite cbind_ret by done.
  replace (length pre + length bs)%nat with (length (pre ++ (Some <$> bs)))
    by (rewrite length_app, length_fmap; lia).
  rewrite (Hg _ (pre ++ (Some <$> bs)) (drop (length bs) rest)).
  - rewrite length_drop. do 2 case_decide; try done; try lia.
    rewrite set_block_twice, drop_drop, length_app, length_fmap, fmap_app.
    by rewrite <- !app_assoc, !Nat.add_assoc.
  - by apply HR.
  - by rewrite lookup_set_block, <- app_assoc.
Qed.

Lemma writes_weaken b (R R' : mem -> Prop) f bs :
  (forall m, R' m -> R m) -> writes b R f bs -> writes b R' f bs.
Proof. intros HR Hf m pre rest Hm. by apply Hf, HR. Qed.

Lemma stable_off_and b (R R' : mem -> Prop) :
  stable_off b R -> stable_off b R' -> stable_off b (fun m => R m /\ R' m).
Proof. intros H H' m c [? ?]. split; [by apply H | by apply H']. Qed.

Lemma stable_off_const b (P : Prop) : stable_off b (fun _ => P).
Proof. by intros m c. Qed.

(** ** Readers *)

(** What a reader leaves in memory: one block per entry, in order; [None] is a
    block that the reader has freed again. *)
Fixpoint allocs (bl : list (option (list byte))) (m : mem) : mem :=
  match bl with
  | [] => m
  | None :: bl => allocs bl (bump m)
  | Some s :: bl => allocs bl (alloc (Bytes (Some <$> s)) m)
  end.

Definition reads {A T} (f : ptr -> C mem (T * ptr)) (c : codec A)
    (bl : A -> list (option (list byte))) (pl : nat -> A -> T) : Prop :=
  forall m b pre l, mem_wf m -> short l -> heap m !! b = Some (Bytes (Some <$> pre ++ l)) ->
  f (Ptr b (length pre)) m =
    match dec c l with
    | Some (x, r) => Ret (pl (next m) x, Ptr b (length pre + length (enc c x))) (allocs (bl x) m)
    | None => Fault OutOfBounds
    end.

Lemma next_allocs bl m : next (allocs bl m) = (next m + length bl)%nat.
Proof.
  revert m. induction bl as [|[s|] bl IH]; intros m; cbn; [lia|..]; rewrite IH; cbn; lia.
Qed.

Lemma mem_wf_allocs bl m : mem_wf m -> mem_wf (allocs bl m).
Proof. revert m. induction bl as [|[s|] bl IH]; intros m ?; cbn; auto with c_mem. Qed.

Lemma extends_allocs bl m : mem_wf m -> extends m (allocs bl m).
Proof.
  revert m. induction bl as [|[s|] bl IH]; intros m Hm; cbn; [done|..].
  - etrans; [by apply extends_alloc|]. auto with c_mem.
  - etrans; [apply extends_bump|]. auto with c_mem.
Qed.

Lemma allocs_app bl bl' m : allocs (bl ++ bl') m = allocs bl' (allocs bl m).
Proof. revert m. induction bl as [|[s|] bl IH]; intros m; cbn; auto. Qed.

Lemma lookup_allocs bl m i s :
  mem_wf m -> bl !! i = Some (Some s) ->
  heap (allocs bl m) !! (next m + i)%nat = Some (Bytes (Some <$> s)).
Proof.
  revert m i. induction bl as [|o bl IH]; intros m i Hm Hi; [done|].
  destruct i as [|i]; simpl in Hi.
  - injection Hi as ->. cbn. rewrite Nat.add_0_r. eapply extends_lookup.
    + by apply extends_allocs, mem_wf_alloc.
    + apply lookup_alloc.
  - destruct o as [t|]; cbn.
    + specialize (IH (alloc (Bytes (Some <$> t)) m) i). cbn in IH.
      rewrite Nat.add_succ_r. auto with c_mem.
    + specialize (IH (bump m) i). cbn in IH. rewrite Nat.add_succ_r. auto with c_mem.
Qed.

(** The basic step of a reader: continue behind the value read. *)
Lemma reads_step {A T U} f (c : codec A) bl pl (k : T * ptr -> C mem U) m b pre l :
  reads f c bl pl -> mem_wf m -> short l -> heap m !! b = Some (Bytes (Some <$> pre ++ l)) ->
  cbind (f (Ptr b (length pre))) k m =
    match dec c l with
    | Some (x, r) => k (pl (next m) x, Ptr b (length (pre ++ enc c x))) (allocs (bl x) m)
    | None => Fault OutOfBounds
    end.
Proof.
  intros Hf Hm Hl Hb. unfold cbind. rewrite (Hf _ _ _ _ Hm Hl Hb).
  destruct (dec c l) as [[x r]|]; [by rewrite length_app | done].
Qed.

Lemma reads_pair {A B T U} f g (ca : codec A) (cb : codec B) bla blb (pla : nat -> A -> T)
    (plb : nat -> B -> U) :
  reads f ca bla pla -> reads g cb blb plb ->
  reads (fun p => let! '(a, p) := f p in let! '(b, p) := g p in cret ((a, b), p))
    (pair_codec ca cb) (fun x => bla x.1 ++ blb x.2)
    (fun n x => (pla n x.1, plb (n + length (bla x.1))%nat x.2)).
Proof.
  intros Hf Hg m b pre l Hm Hl Hb. rewrite (reads_step _ _ _ _ _ _ _ _ _ Hf Hm Hl Hb).
  cbn [dec pair_codec]. unfold pair_dec.
  destruct (dec ca l) as [[x r]|] eqn:E; [|done]. cbn.
  pose proof (dec_length _ _ _ _ E). apply dec_sound in E as [-> _].
  erewrite (reads_step _ _ _ _ _ _ _ _ _ Hg); [|by apply mem_wf_allocs| |].
  3: { eapply extends_lookup; [by apply extends_allocs|]. rewrite <- app_assoc. apply Hb. }
  2: { unfold short in *. lia. }
  destruct (dec cb r) as [[y r']|]; [|done]. cbn. unfold cret.
  rewrite next_allocs, allocs_app, !length_app. do 3 f_equal. lia.
Qed.

(** A reader that builds a struct from the fields it has read. *)
Lemma reads_iso {A B T U} f (h : T -> U) (c : codec A) bl (pl : nat -> A -> T)
    (F : A -> B) (G : B -> A) FG GF :
  reads f c bl pl ->
  reads (fun p => let! '(a, p) := f p in cret (h a, p)) (iso_codec F G FG GF c)
    (fun y => bl (G y)) (fun n y => h (pl n (G y))).
Proof.
  intros Hf m b pre l Hm Hl Hb. rewrite (reads_step _ _ _ _ _ _ _ _ _ Hf Hm Hl Hb).
  cbn [dec iso_codec]. unfold iso_dec. destruct (dec c l) as [[x r]|]; [|done]. cbn.
  unfold cret. by rewrite GF, length_app.
Qed.

Lemma reads_ext {A T} f g (c : codec A) bl bl' (pl pl' : nat -> A -> T) :
  reads f c bl pl -> (forall p m, g p m = f p m) ->
  (forall x, bl' x = bl x) -> (forall n x, pl' n x = pl n x) -> reads g c bl' pl'.
Proof.
  intros Hf Hg Hbl Hpl m b pre l Hm Hl Hb. rewrite Hg, (Hf _ _ _ _ Hm Hl Hb).
  destruct (dec c l) as [[x r]|]; [|done]. by rewrite Hbl, Hpl.
Qed.

(** Reading the next [n] bytes of an initialised block. *)
Lemma load_bytes_reads m b pre l (n : nat) :
  heap m !! b = Some (Bytes (Some <$> pre ++ l)) ->
  load_bytes (Ptr b (length pre)) (Z.of_nat n) m =
    match dec_fixed n l with
    | Some (s, r) => Ret (Some <$> s) m
    | None => Fault OutOfBounds
    end.
Proof.
  intros Hb.
  assert (drop (length pre) (Some <$> pre ++ l) = Some <$> l) as Hd.
  { rewrite fmap_app, <- (length_fmap Some pre). apply drop_prefix. }
  unfold dec_fixed. case_decide as Hn.
  - replace (Z.of_nat n) with (Z.of_nat (length (Some <$> take n l)))
      by (rewrite length_fmap, length_take; lia).
    eapply (load_bytes_at _ _ _ _ _ (Some <$> drop n l)); [done|..].
    + by rewrite Hd, <- fmap_app, take_drop.
    + rewrite length_fmap, length_app. lia.
  - eapply load_bytes_oob; [done|lia|]. rewrite Hd, length_fmap. lia.
Qed.

Lemma load_init_reads m b pre l (n : nat) :
  heap m !! b = Some (Bytes (Some <$> pre ++ l)) ->
  load_init (Ptr b (length pre)) (Z.of_nat n) m =
    match dec_fixed n l with
    | Some (s, r) => Ret s m
    | None => Fault OutOfBounds
    end.
Proof.
  intros Hb. unfold load_init, cbind. rewrite (load_bytes_reads _ _ _ _ _ Hb).
  destruct (dec_fixed n l) as [[s r]|]; [|done]. by rewrite mapM_Some_fmap.
Qed.

(** ** The writers of the program *)

Definition qos_avoids (b : nat) (q : qkd_qos_t) : Prop := avoids b (metadata_mimetype q).

Definition oc_request_avoids (b : nat) (r : qkd_open_connect_request_t) : Prop :=
  avoids b (ocq_source r) /\ avoids b (ocq_destination r) /\ qos_avoids b (ocq_qos r).

Definition oc_request_short (v : open_connect_request (list byte)) : Prop :=
  short (ocq_source v) /\ short (ocq_destination v) /\ short (metadata_mimetype (ocq_qos v)).

Section program.
Context {ML : Malloc} {MT : MallocTotal} {LU : Libuuid} {LO : LibuuidOk}.

(** Conjunctions are split as they are written, without unfolding the conjuncts. *)
Ltac stable :=
  lazymatch goal with
  | |- stable_off ?b (fun m => @?P m /\ @?Q m) => apply (stable_off_and b P Q); stable
  | |- _ => eauto using str_at_stable, bytes_at_stable, stable_off_const
  end.

Lemma le_bytes_htonl n : le_bytes 4 (htonl n) = be_bytes 4 n.
Proof. unfold htonl. rewrite <- (length_be_bytes 4 n) at 1. apply le_bytes_val. Qed.

Lemma ntohl_le_val l : length l = 4%nat -> ntohl (le_val l) = be_val l.
Proof. intros Hl. unfold ntohl. rewrite <- Hl. by rewrite le_bytes_val. Qed.

Lemma writes_uint32 b R n : writes b R (qkd_uint32_to_stream n) (be_bytes 4 n).
Proof.
  eapply (writes_store _ _ _ _ 4); [by rewrite length_be_bytes|]. intros p m _.
  unfold qkd_uint32_to_stream. by rewrite le_bytes_htonl.
Qed.

Lemma writes_uuid b R u : uuid_ok u -> writes b R (qkd_uuid_to_stream u) u.
Proof. intros Hu. by eapply (writes_store _ _ _ _ 16); [rewrite Hu|]. Qed.

(** [memcpy] of an object at [d], then advancing the cursor. *)
Lemma writes_memcpy b d s n :
  n = Z.of_nat (length s) ->
  writes b (fun m => data_at m d s) (fun p => memcpy p d n;;; cret (padd p n)) s.
Proof.
  intros Hn. eapply (writes_store _ _ _ _ n); [done|]. intros p m Hd. unfold memcpy.
  rewrite cbind_assoc, Hn. by erewrite cbind_ret by by apply load_bytes_data.
Qed.

Lemma writes_str b p s :
  writes b (fun m => str_at m p s /\ short s) (qkd_str_to_stream p) (enc_cstr s).
Proof.
  intros m pre rest [Hp Hs] Hb. unfold qkd_str_to_stream, short in *.
  erewrite cbind_ret by (apply qkd_sizeof_str_run; [done | lia]).
  apply (writes_memcpy b p (enc_cstr s)); [done | by apply str_at_data | done].
Qed.

Lemma writes_bytes b d s : avoids b (data d) ->
  writes b (fun m => bytes_at m d s) (qkd_bytes_data_to_stream d) (enc_blob s).
Proof.
  intros Ha m pre rest Hm Hb. pose proof Hm as (Hok & Hsz & _).
  unfold qkd_bytes_data_to_stream, enc_blob. rewrite Hsz.
  apply (writes_seq b (fun m => bytes_at m d s)); [by apply bytes_at_stable| | |done..].
  - apply writes_uint32.
  - eapply writes_weaken; [|by apply writes_memcpy]. by intros ? (_ & _ & ?).
Qed.

Lemma qos_at_stable b q v : qos_avoids b q -> stable_off b (fun m => qos_at m q v).
Proof. intros Ha. unfold qos_at. stable. Qed.

Lemma oc_request_at_stable b r v :
  oc_request_avoids b r -> stable_off b (fun m => oc_request_at m r v).
Proof.
  intros (? & ? & ?). unfold oc_request_at.
  stable. by apply qos_at_stable.
Qed.

Lemma oc_response_at_stable b r v :
  qos_avoids b (ocr_qos r) -> stable_off b (fun m => oc_response_at m r v).
Proof.
  intros ?. unfold oc_response_at.
  stable. by apply qos_at_stable.
Qed.

Lemma gk_request_at_stable b r v :
  avoids b (data (gkq_metadata r)) -> stable_off b (fun m => gk_request_at m r v).
Proof.
  intros ?. unfold gk_request_at.
  stable.
Qed.

Lemma gk_response_at_stable b r v :
  avoids b (data (gkr_key_buffer r)) -> avoids b (data (gkr_metadata r)) ->
  stable_off b (fun m => gk_response_at m r v).
Proof.
  intros ??. unfold gk_response_at.
  stable.
Qed.

(** One field of a struct: the cursor moves on, the representation is kept. *)
Local Ltac field := apply writes_seq; [assumption| |].

Lemma writes_qos b q v : qos_avoids b q ->
  writes b (fun m => qos_at m q v /\ short (metadata_mimetype v))
    (qkd_qos_to_stream q) (enc qos_codec v).
Proof.
  intros Ha m pre rest [[Hm Hq] Hs] Hb. rewrite Hq.
  unfold qkd_qos_to_stream, qkd_mimetype_to_stream, qos_map.
  cbn [key_chunk_size max_bps min_bps jitter priority timeout ttl metadata_mimetype].
  refine (_ m pre rest (conj Hm Hs) Hb).
  pose proof (stable_off_and b _ _ (str_at_stable b _ (metadata_mimetype v) Ha)
                (stable_off_const b (short (metadata_mimetype v)))) as Hst.
  do 7 (field; [apply writes_uint32|]). apply writes_str.
Qed.

Lemma writes_oc_request b r v : oc_request_avoids b r -> uuid_ok (ocq_key_stream_id v) ->
  writes b (fun m => oc_request_at m r v /\ oc_request_short v)
    (qkd_open_connect_request_to_stream r) (enc oc_request_codec v).
Proof.
  intros Ha Hu. assert (stable_off b (fun m => oc_request_at m r v /\ oc_request_short v)) as Hst
    by (stable; by apply oc_request_at_stable).
  intros m pre rest Hm. pose proof Hm as [(_ & _ & _ & Hk) _].
  unfold qkd_open_connect_request_to_stream, qkd_uri_to_stream. rewrite Hk. revert m pre rest Hm.
  destruct Ha as (_ & _ & Ha).
  do 2 (field; [eapply writes_weaken; [|apply writes_str]; unfold oc_request_at, oc_request_short;
                tauto|]).
  field; [|by apply writes_uuid].
  eapply writes_weaken; [|by apply writes_qos]. unfold oc_request_at, oc_request_short. tauto.
Qed.

Lemma writes_oc_response b r v : qos_avoids b (ocr_qos r) -> uuid_ok (ocr_key_stream_id v) ->
  writes b (fun m => oc_response_at m r v /\ short (metadata_mimetype (ocr_qos v)))
    (qkd_open_connect_response_to_stream r) (enc oc_response_codec v).
Proof.
  intros Ha Hu.
  assert (stable_off b (fun m => oc_response_at m r v /\ short (metadata_mimetype (ocr_qos v))))
    as Hst by (stable; by apply oc_response_at_stable).
  intros m pre rest Hm. pose proof Hm as [(Hs & _ & Hk) _].
  unfold qkd_open_connect_response_to_stream. rewrite Hk, Hs. revert m pre rest Hm.
  field; [apply writes_uint32|]. field; [|by apply writes_uuid].
  eapply writes_weaken; [|by apply writes_qos]. unfold oc_response_at. tauto.
Qed.

Lemma writes_gk_request b r v : avoids b (data (gkq_metadata r)) -> uuid_ok (gkq_key_stream_id v) ->
  writes b (fun m => gk_request_at m r v)
    (qkd_get_key_request_to_stream r) (enc gk_request_codec v).
Proof.
  intros Ha Hu. pose proof (gk_request_at_stable b r v Ha) as Hst.
  intros m pre rest Hm. pose proof Hm as (Hk & Hi & _).
  unfold qkd_get_key_request_to_stream, qkd_metadata_to_stream. rewrite Hk, Hi. revert m pre rest Hm.
  field; [by apply writes_uuid|]. field; [apply writes_uint32|].
  eapply writes_weaken; [|by apply writes_bytes]. by intros m (_ & _ & ?).
Qed.

Lemma writes_gk_response b r v :
  avoids b (data (gkr_key_buffer r)) -> avoids b (data (gkr_metadata r)) ->
  writes b (fun m => gk_response_at m r v)
    (qkd_get_key_response_to_stream r) (enc gk_response_codec v).
Proof.
  intros Ha Ha'. pose proof (gk_response_at_stable b r v Ha Ha') as Hst.
  intros m pre rest Hm. pose proof Hm as (Hs & Hi & _).
  unfold qkd_get_key_response_to_stream, qkd_metadata_to_stream, qkd_key_buffer_to_stream.
  rewrite Hs, Hi. revert m pre rest Hm.
  do 2 (field; [apply writes_uint32|]).
  field; (eapply writes_weaken; [|by apply writes_bytes]); intros m; unfold gk_response_at;
    tauto.
Qed.

Lemma writes_cl_request b R v : cl_request_ok v ->
  writes b R (qkd_close_request_to_stream v) (enc cl_request_codec v).
Proof. intros Hv. by apply writes_uuid. Qed.

Lemma writes_cl_response b R v :
  writes b R (qkd_close_response_to_stream v) (enc cl_response_codec v).
Proof. apply writes_uint32. Qed.

Lemma writes_header b R h :
  writes b R (qkd_header_to_stream h) (enc header_codec h).
Proof.
  eapply (writes_store _ _ _ _ 8); [done|]. intros p m _.
  unfold qkd_header_to_stream, header_bytes. cbn [payload_size version service].
  by rewrite le_bytes_htonl.
Qed.

(** ** The readers of the program *)

(** Filling a block that has just been allocated. *)
Lemma store_fresh m n s : n = Z.of_nat (length s) ->
  store_bytes (Ptr (next m) 0) (Some <$> s) (alloc (Bytes (replicate (Z.to_nat n) None)) m)
  = Ret tt (alloc (Bytes (Some <$> s)) m).
Proof.
  intros ->. rewrite Nat2Z.id. erewrite (store_bytes_at _ _ [] (replicate _ None) []).
  - by rewrite set_block_alloc, app_nil_r.
  - by rewrite lookup_alloc, app_nil_r.
  - by rewrite length_replicate, length_fmap.
Qed.

(** Copying the next [n] bytes of an initialised block into a new block. *)
Lemma memcpy_fresh m b pre l n : mem_wf m ->
  heap m !! b = Some (Bytes (Some <$> pre ++ l)) ->
  memcpy (Ptr (next m) 0) (Ptr b (length pre)) (Z.of_nat n)
    (alloc (Bytes (replicate n None)) m) =
    match dec_fixed n l with
    | Some (s, r) => Ret tt (alloc (Bytes (Some <$> s)) m)
    | None => Fault OutOfBounds
    end.
Proof.
  intros Hm Hb. unfold memcpy, cbind. rewrite (load_bytes_reads _ b pre l).
  - destruct (dec_fixed n l) as [[s r]|] eqn:E; [|done].
    apply dec_fixed_sound in E as [_ <-]. rewrite <- (Nat2Z.id (length s)). by apply store_fresh.
  - eapply extends_lookup; [by apply extends_alloc | done].
Qed.

Lemma reads_uint32 : reads qkd_uint32_from_stream (uint_codec 4) (fun _ => []) (fun _ n => n).
Proof.
  intros m b pre l Hm Hl Hb. unfold qkd_uint32_from_stream, cbind.
  change sizeof_uint32 with (Z.of_nat 4). rewrite (load_init_reads _ _ _ _ 4 Hb).
  cbn [dec uint_codec]. unfold dec_uint.
  destruct (dec_fixed 4 l) as [[s r]|] eqn:E; [|done]. cbn.
  apply dec_fixed_sound in E as [_ Hs]. unfold cret. rewrite ntohl_le_val by done.
  by rewrite length_be_bytes.
Qed.

Lemma dec_cstr_fixed l s r : dec_cstr l = Some (s, r) ->
  dec_fixed (length (enc_cstr s)) l = Some (enc_cstr s, r).
Proof. intros [-> _]%dec_cstr_sound. apply dec_fixed_app. Qed.

Lemma reads_str :
  reads qkd_str_from_stream str_codec (fun s => [Some (enc_cstr s)]) (fun n _ => Ptr n 0).
Proof.
  intros m b pre l Hm Hl Hb. unfold qkd_str_from_stream, qkd_sizeof_str, strlen.
  assert (suffix_at (Ptr b (length pre)) m = Ret (Some <$> l) m) as Hsuf.
  { unfold suffix_at. rewrite Hb, fmap_app, <- (length_fmap Some pre). by rewrite drop_prefix. }
  rewrite !cbind_assoc. erewrite cbind_ret by apply Hsuf. cbn [dec str_codec].
  destruct (dec_cstr l) as [[s r]|] eqn:E.
  - pose proof (dec_cstr_fixed _ _ _ E) as Hfix. pose proof E as [-> Hs]%dec_cstr_sound.
    unfold enc_cstr. rewrite fmap_app, scan_nul_str by done.
    erewrite cbind_ret by done. erewrite cbind_ret by done.
    unfold short in Hl. rewrite length_app, length_enc_cstr in Hl.
    rewrite size_add_small by lia.
    replace (Z.of_nat (0 + length s) + 1) with (Z.of_nat (length (enc_cstr s)))
      by (rewrite length_enc_cstr; lia).
    crun malloc_ok. erewrite cbind_ret.
    2: { rewrite Nat2Z.id, (memcpy_fresh _ _ _ _ _ Hm Hb), Hfix. done. }
    unfold cret, padd. by rewrite Nat2Z.id.
  - rewrite scan_nul_none by by apply dec_cstr_None. done.
Qed.

Lemma reads_blob :
  reads qkd_bytes_data_from_stream blob_codec (fun s => [Some s])
    (fun n s => {| size := Z.of_nat (length s); data := Ptr n 0 |}).
Proof.
  intros m b pre l Hm Hl Hb. unfold qkd_bytes_data_from_stream.
  erewrite (reads_step _ _ _ _ _ _ _ _ _ reads_uint32) by done.
  cbn [dec uint_codec blob_codec enc]. unfold dec_blob.
  destruct (dec_uint 4 l) as [[n r]|] eqn:E; [|done]. cbn.
  apply dec_uint_sound in E as [-> Hn]. rewrite app_assoc in Hb.
  crun malloc_ok. rewrite <- (Z2Nat.id n) at 2 by lia. unfold cbind.
  rewrite (memcpy_fresh _ _ _ _ _ Hm Hb).
  destruct (dec_fixed (Z.to_nat n) r) as [[s r']|] eqn:E.
  - pose proof (dec_fixed_sound _ _ _ _ E) as [-> Hs].
    rewrite decide_True by (rewrite length_app; lia). cbn. unfold cret.
    rewrite length_app, length_be_bytes, length_enc_blob, Hs, Z2Nat.id by lia.
    do 3 f_equal. lia.
  - by case_decide.
Qed.

(** [qkd_uuid_from_stream] as its callers use it: the temporary copy is read and freed. *)
Definition uuid_field_from_stream (stream : ptr) : C mem (uuid_t * ptr) :=
  let! '(uuid_ptr, stream) := qkd_uuid_from_stream stream in
  let! u := load_init uuid_ptr sizeof_uuid in
  free uuid_ptr;;;
  cret (uuid_copy u, stream).

Lemma reads_uuid_field :
  reads uuid_field_from_stream (fixed_codec 16) (fun _ => [None]) (fun _ u => u).
Proof.
  intros m b pre l Hm Hl Hb. unfold uuid_field_from_stream, qkd_uuid_from_stream.
  change sizeof_uuid with (Z.of_nat 16).
  rewrite cbind_assoc. crun malloc_ok. rewrite cbind_assoc. unfold cbind at 1.
  rewrite (load_init_reads _ b pre l 16) by (eapply extends_lookup; [by apply extends_alloc | done]).
  cbn [dec fixed_codec]. destruct (dec_fixed 16 l) as [[u r]|] eqn:E; [|done].
  apply dec_fixed_sound in E as [-> Hu]. rewrite uuid_copy_ok by done.
  rewrite cbind_assoc. erewrite cbind_ret by (by apply (store_fresh m 16 u); rewrite Hu).
  erewrite cbind_ret by done.
  unfold cbind at 1.
  rewrite (load_init_reads _ (next m) [] u 16) by apply lookup_alloc.
  rewrite <- Hu at 1. rewrite <- (app_nil_r u) at 2. rewrite dec_fixed_app.
  erewrite cbind_ret by (apply free_ok; rewrite lookup_alloc; done).
  unfold cret. rewrite dealloc_alloc, uuid_copy_ok by done. cbn. by rewrite Hu.
Qed.

(** Two ways of nesting the same reads: compared result by result. *)
Local Ltac same_reads :=
  intros; unfold cbind, cret;
  repeat match goal with
         | |- context [match ?e with Ret _ _ => _ | _ => _ end] =>
             lazymatch e with
             | context [match _ with _ => _ end] => fail
             | _ =>
                 let r := fresh in
                 destruct e as [r| | | |]; [|reflexivity..];
                 lazymatch type of r with
                 | (_ * _)%type => destruct r
                 | _ => idtac
                 end; cbv beta iota
             end
         end; try reflexivity.

Lemma reads_qos :
  reads qkd_qos_from_stream qos_codec (fun v => [Some (enc_cstr (metadata_mimetype v))])
    (fun n v => qos_map (fun _ => Ptr n 0) v).
Proof.
  eapply reads_ext.
  - eapply (reads_iso _ (fun '(a, (b, (c, (d, (e, (f, (g, s))))))) => Build_qos a b c d e f g s)).
    do 7 (eapply reads_pair; [apply reads_uint32|]). apply reads_str.
  - unfold qkd_qos_from_stream, qkd_mimetype_from_stream. same_reads.
  - done.
  - intros n v. cbn. by rewrite !Nat.add_0_r.
Qed.

Lemma reads_oc_request :
  reads qkd_open_connect_request_from_stream oc_request_codec
    (fun v => [Some (enc_cstr (ocq_source v)); Some (enc_cstr (ocq_destination v));
               Some (enc_cstr (metadata_mimetype (ocq_qos v))); None])
    (fun n v => {| ocq_source := Ptr n 0; ocq_destination := Ptr (n + 1) 0;
                   ocq_qos := qos_map (fun _ => Ptr (n + 2) 0) (ocq_qos v);
                   ocq_key_stream_id := ocq_key_stream_id v |}).
Proof.
  eapply reads_ext.
  - eapply (reads_iso _ (fun '(a, (b, (c, d))) => Build_open_connect_request a b c d)).
    do 2 (eapply reads_pair; [apply reads_str|]).
    eapply reads_pair; [apply reads_qos | apply reads_uuid_field].
  - unfold qkd_open_connect_request_from_stream, qkd_uri_from_stream, uuid_field_from_stream.
    same_reads.
  - done.
  - intros n v. cbn. by rewrite <- Nat.add_assoc.
Qed.

Lemma reads_oc_response :
  reads qkd_open_connect_response_from_stream oc_response_codec
    (fun v => [Some (enc_cstr (metadata_mimetype (ocr_qos v))); None])
    (fun n v => {| ocr_status := ocr_status v;
                   ocr_qos := qos_map (fun _ => Ptr n 0) (ocr_qos v);
                   ocr_key_stream_id := ocr_key_stream_id v |}).
Proof.
  eapply reads_ext.
  - eapply (reads_iso _ (fun '(a, (b, c)) => Build_open_connect_response a b c)).
    eapply reads_pair; [apply reads_uint32|].
    eapply reads_pair; [apply reads_qos | apply reads_uuid_field].
  - unfold qkd_open_connect_response_from_stream, uuid_field_from_stream. same_reads.
  - done.
  - intros n v. cbn. by rewrite Nat.add_0_r.
Qed.

Lemma reads_gk_request :
  reads qkd_get_key_request_from_stream gk_request_codec
    (fun v => [None; Some (gkq_metadata v)])
    (fun n v => {| gkq_key_stream_id := gkq_key_stream_id v; gkq_index := gkq_index v;
                   gkq_metadata := {| size := Z.of_nat (length (gkq_metadata v));
                                      data := Ptr (n + 1) 0 |} |}).
Proof.
  eapply reads_ext.
  - eapply (reads_iso _ (fun '(a, (b, c)) => Build_get_key_request a b c)).
    eapply reads_pair; [apply reads_uuid_field|].
    eapply reads_pair; [apply reads_uint32 | apply reads_blob].
  - unfold qkd_get_key_request_from_stream, qkd_metadata_from_stream, uuid_field_from_stream.
    same_reads.
  - done.
  - intros n v. cbn. by rewrite Nat.add_0_r.
Qed.

Lemma reads_gk_response :
  reads qkd_get_key_response_from_stream gk_response_codec
    (fun v => [Some (gkr_key_buffer v); Some (gkr_metadata v)])
    (fun n v => {| gkr_status := gkr_status v; gkr_index := gkr_index v;
                   gkr_key_buffer := {| size := Z.of_nat (length (gkr_key_buffer v));
                                        data := Ptr n 0 |};
                   gkr_metadata := {| size := Z.of_nat (length (gkr_metadata v));
                                      data := Ptr (n + 1) 0 |} |}).
Proof.
  eapply reads_ext.
  - eapply (reads_iso _ (fun '(a, (b, (c, d))) => Build_get_key_response a b c d)).
    do 2 (eapply reads_pair; [apply reads_uint32|]).
    eapply reads_pair; apply reads_blob.
  - unfold qkd_get_key_response_from_stream, qkd_metadata_from_stream, qkd_key_buffer_from_stream.
    same_reads.
  - done.
  - intros n v. cbn. by rewrite !Nat.add_0_r.
Qed.

Lemma reads_cl_request :
  reads qkd_close_request_from_stream cl_request_codec (fun _ => [None]) (fun _ v => v).
Proof.
  eapply reads_ext.
  - eapply (reads_iso _ Build_qkd_close_request_t). apply reads_uuid_field.
  - unfold qkd_close_request_from_stream, uuid_field_from_stream. same_reads.
  - done.
  - by intros n [].
Qed.

Lemma reads_cl_response :
  reads qkd_close_response_from_stream cl_response_codec (fun _ => []) (fun _ v => v).
Proof.
  eapply reads_ext.
  - eapply (reads_iso _ Build_qkd_close_response_t). apply reads_uint32.
  - unfold qkd_close_response_from_stream. same_reads.
  - done.
  - by intros n [].
Qed.

Lemma dec_uint_cons1 b l : dec_uint 1 (b :: l) = Some (b2z b, l).
Proof.
  unfold dec_uint. rewrite (dec_fixed_app [b] l : dec_fixed 1 (b :: l) = _). cbn. do 2 f_equal.
  unfold be_val. cbn. lia.
Qed.

(** The header as one decoding of eight bytes. *)
Lemma dec_header l :
  dec header_codec l =
    match dec_fixed 8 l with
    | Some (s, r) =>
        Some ({| version := version (header_of_bytes s); service := service (header_of_bytes s);
                 payload_size := be_val (drop 4 s) |}, r)
    | None => None
    end.
Proof.
  do 8 (destruct l as [|? l]; [done|]).
  cbn -[be_val dec_uint dec_fixed].
  do 3 (rewrite dec_uint_cons1; cbn -[be_val dec_uint dec_fixed]).
  rewrite dec_uint_cons1. cbn -[be_val dec_uint dec_fixed].
  unfold dec_uint.
  rewrite (dec_fixed_app [b3; b4; b5; b6] l : dec_fixed 4 (b3 :: b4 :: b5 :: b6 :: l) = _).
  rewrite (dec_fixed_app [b; b0; b1; b2; b3; b4; b5; b6] l
    : dec_fixed 8 (b :: b0 :: b1 :: b2 :: b3 :: b4 :: b5 :: b6 :: l) = _).
  done.
Qed.

Lemma reads_header :
  reads qkd_header_from_stream header_codec (fun _ => []) (fun _ h => h).
Proof.
  intros m b pre l Hm Hl Hb. unfold qkd_header_from_stream, cbind.
  change sizeof_header with (Z.of_nat 8). rewrite (load_init_reads _ _ _ _ 8 Hb), dec_header.
  destruct (dec_fixed 8 l) as [[s r]|] eqn:E; [|done].
  apply dec_fixed_sound in E as [_ Hs]. cbn [payload_size header_of_bytes].
  rewrite ntohl_le_val by (rewrite length_drop; lia). by rewrite length_enc_header.
Qed.

(** ** Writing, then reading *)

(** A buffer of the size of the encoding is filled by the writer, and the reader finds
    the message in it again. *)
Lemma write_read {A T} to from (c : codec A) bl (pl : nat -> A -> T) R x m b l :
  writes b R to (enc c x) -> reads from c bl pl -> valid c x -> R m -> mem_wf m ->
  heap m !! b = Some (Bytes l) -> length l = length (enc c x) -> short (enc c x) ->
  let m' := set_block b (Bytes (Some <$> enc c x)) m in
  to (Ptr b 0) m = Ret (Ptr b (length (enc c x))) m' /\
  from (Ptr b 0) m' = Ret (pl (next m) x, Ptr b (length (enc c x))) (allocs (bl x) m') /\
  mem_wf m'.
Proof.
  intros Hw Hr Hx HR Hm Hb Hl Hs m'.
  assert (mem_wf m') as Hm' by by apply mem_wf_set_block.
  pose proof (Hw m [] l HR Hb) as H. rewrite decide_True in H by lia.
  rewrite drop_ge, app_nil_r in H by lia. split; [exact H|]. split; [|done].
  pose proof (Hr m' b [] (enc c x) Hm' Hs (lookup_set_block _ _ _)) as Hrd.
  rewrite <- (app_nil_r (enc c x)) in Hrd at 1. by rewrite dec_enc in Hrd.
Qed.

(** Strings and buffers that a reader has put in memory. *)
Lemma str_at_allocs bl m i s : mem_wf m -> bl !! i = Some (Some (enc_cstr s)) -> str_ok s ->
  str_at (allocs bl m) (Ptr (next m + i) 0) s.
Proof. intros. apply str_at_block; [done|]. by apply lookup_allocs. Qed.

Lemma bytes_at_allocs bl m i s : mem_wf m -> bl !! i = Some (Some s) -> blob_ok s ->
  bytes_at (allocs bl m) {| size := Z.of_nat (length s); data := Ptr (next m + i) 0 |} s.
Proof. intros. apply bytes_at_block; [done|]. by apply lookup_allocs. Qed.

(** The first block, without the sum. *)
Lemma str_at_allocs0 bl m s : mem_wf m -> str_ok s ->
  str_at (allocs (Some (enc_cstr s) :: bl) m) (Ptr (next m) 0) s.
Proof. intros. rewrite <- (Nat.add_0_r (next m)). by apply str_at_allocs. Qed.

Lemma bytes_at_allocs0 bl m s : mem_wf m -> blob_ok s ->
  bytes_at (allocs (Some s :: bl) m) {| size := Z.of_nat (length s); data := Ptr (next m) 0 |} s.
Proof. intros. rewrite <- (Nat.add_0_r (next m)). by apply bytes_at_allocs. Qed.

End program.
