(* ===== verification/Copy.v ===== *)
(** [src/qkd/copy.c] and [src/memory_free_utils.c]: deep copies of strings and of
    QoS parameters, and the functions that free the parts of a message.

    A parameter [T **dst] is the pointer stored there, and the pointer stored on
    return is the result.  A struct passed by address to a [free_*] function is an
    option, [None] for a null address. *)

From S2P Require Import Prelude Models Memory Wire Sizes Platform SerializersSpec.

Section copy.
Context {ML : Malloc}.

Definition qkd_copy_str (dst src : ptr) : C mem ptr :=
  let! str_size := qkd_sizeof_str src in
  (if decide (dst <> Null) then free dst else cret tt);;;
  let! dst := malloc str_size in
  memcpy dst src str_size;;;
  cret dst.

Definition qkd_copy_uri (dst src : qkd_uri_t) : C mem qkd_uri_t := qkd_copy_str dst src.

Definition qkd_copy_mimetype (dst src : qkd_mimetype_t) : C mem qkd_mimetype_t :=
  qkd_copy_str dst src.

Definition qkd_copy_qos (dst src : qkd_qos_t) : C mem qkd_qos_t :=
  let! mimetype := qkd_copy_mimetype (metadata_mimetype dst) (metadata_mimetype src) in
  cret {| key_chunk_size := key_chunk_size src; max_bps := max_bps src; min_bps := min_bps src;
          jitter := jitter src; priority := priority src; timeout := timeout src;
          ttl := ttl src; metadata_mimetype := mimetype |}.

Definition free_qkd_bytes (bytes : option qkd_bytes_t) : C mem (option qkd_bytes_t) :=
  match bytes with
  | None => cret None
  | Some d => free (data d);;; cret (Some {| size := size d; data := Null |})
  end.

Definition free_qkd_qos (q : option qkd_qos_t) : C mem (option qkd_qos_t) :=
  match q with
  | None => cret None
  | Some q => free (metadata_mimetype q);;; cret (Some (set_metadata_mimetype q Null))
  end.

Definition free_qkd_open_connect_request (r : option qkd_open_connect_request_t) :
    C mem (option qkd_open_connect_request_t) :=
  match r with
  | None => cret None
  | Some r =>
      free (ocq_source r);;;
      free (ocq_destination r);;;
      let! q := free_qkd_qos (Some (ocq_qos r)) in
      cret (q ← q; Some {| ocq_source := Null; ocq_destination := Null; ocq_qos := q;
                           ocq_key_stream_id := ocq_key_stream_id r |})
  end.

(** Takes the address of a field without a null check. *)
Definition free_qkd_open_connect_response (r : option qkd_open_connect_response_t) :
    C mem (option qkd_open_connect_response_t) :=
  match r with
  | None => cfault NullDeref
  | Some r =>
      let! q := free_qkd_qos (Some (ocr_qos r)) in
      cret (q ← q; Some {| ocr_status := ocr_status r; ocr_qos := q;
                           ocr_key_stream_id := ocr_key_stream_id r |})
  end.

(** Frees nothing: the metadata stays allocated. *)
Definition free_qkd_get_key_request (r : option qkd_get_key_request_t) :
    C mem (option qkd_get_key_request_t) := cret r.

Definition free_qkd_get_key_response (r : option qkd_get_key_response_t) :
    C mem (option qkd_get_key_response_t) :=
  match r with
  | None => cfault NullDeref
  | Some r =>
      let! k := free_qkd_bytes (Some (gkr_key_buffer r)) in
      let! d := free_qkd_bytes (Some (gkr_metadata r)) in
      cret (k ← k; d ← d; Some {| gkr_status := gkr_status r; gkr_index := gkr_index r;
                                  gkr_key_buffer := k; gkr_metadata := d |})
  end.

(** ** Lemmas *)

Context {MT : MallocTotal}.

(** Copying an object into a block that has just been allocated for it. *)
Lemma memcpy_fresh_data m p s n : mem_wf m -> data_at m p s -> n = Z.of_nat (length s) ->
  memcpy (Ptr (next m) 0) p n (alloc (Bytes (replicate (Z.to_nat n) None)) m)
  = Ret tt (alloc (Bytes (Some <$> s)) m).
Proof.
  intros Hm Hp ->. unfold memcpy. erewrite cbind_ret.
  - by apply store_fresh.
  - by eapply load_bytes_data, data_at_extends; [apply extends_alloc|].
Qed.

Lemma dealloc_str_at m p s b : avoids b p -> str_at m p s -> str_at (dealloc b m) p s.
Proof.
  intros Ha (Hs & b' & off & l & rest & -> & Hb & Ho & Hd). split; [done|].
  exists b', off, l, rest. simpl. by rewrite lookup_delete_ne.
Qed.

Lemma qkd_copy_str_null m src s : mem_wf m -> str_at m src s -> short s ->
  qkd_copy_str Null src m = Ret (Ptr (next m) 0) (alloc (Bytes (Some <$> enc_cstr s)) m).
Proof.
  unfold short. intros Hm Hs Hlen. unfold qkd_copy_str.
  erewrite cbind_ret by (apply qkd_sizeof_str_run; [done | lia]).
  erewrite cbind_ret by done. crun malloc_ok.
  by erewrite cbind_ret by (apply memcpy_fresh_data; [done | by apply str_at_data | done]).
Qed.

(** Over an old string: it is freed before the copy is made. *)
Lemma qkd_copy_str_old m b src s : mem_wf m -> is_Some (heap m !! b) -> avoids b src ->
  str_at m src s -> short s ->
  qkd_copy_str (Ptr b 0) src m =
    Ret (Ptr (next m) 0) (alloc (Bytes (Some <$> enc_cstr s)) (dealloc b m)).
Proof.
  unfold short. intros Hm Hb Ha Hs Hlen. unfold qkd_copy_str.
  erewrite cbind_ret by (apply qkd_sizeof_str_run; [done | lia]).
  rewrite decide_True by done. erewrite cbind_ret by by apply free_ok. crun malloc_ok.
  by erewrite cbind_ret by
    (apply (memcpy_fresh_data (dealloc b m));
       [by apply mem_wf_dealloc | by apply str_at_data, dealloc_str_at | done]).
Qed.

Lemma qkd_copy_qos_null m dst src v : mem_wf m -> metadata_mimetype dst = Null ->
  qos_at m src v -> short (metadata_mimetype v) ->
  qkd_copy_qos dst src m =
    Ret (qos_map (fun _ => Ptr (next m) 0) v)
        (alloc (Bytes (Some <$> enc_cstr (metadata_mimetype v))) m).
Proof.
  intros Hm Hd [Hs Hq] Hl. unfold qkd_copy_qos, qkd_copy_mimetype. rewrite Hd.
  erewrite cbind_ret by by apply qkd_copy_str_null. by rewrite Hq.
Qed.

(** Freeing the parts of a message that are blocks of their own. *)
Lemma free_block b m : is_Some (heap m !! b) -> free (Ptr b 0) m = Ret tt (deallocs [b] m).
Proof. apply free_ok. Qed.

Lemma deallocs_live b bs m : b ∉ bs -> is_Some (heap m !! b) -> is_Some (heap (deallocs bs m) !! b).
Proof. intros. by rewrite lookup_deallocs, decide_False. Qed.

Lemma free_qkd_qos_run q b m : metadata_mimetype q = Ptr b 0 -> is_Some (heap m !! b) ->
  free_qkd_qos (Some q) m = Ret (Some (set_metadata_mimetype q Null)) (deallocs [b] m).
Proof. intros E Hb. cbn [free_qkd_qos]. rewrite E. by erewrite cbind_ret by by apply free_block. Qed.

Lemma free_qkd_open_connect_request_run r a b d m :
  ocq_source r = Ptr a 0 -> ocq_destination r = Ptr b 0 ->
  metadata_mimetype (ocq_qos r) = Ptr d 0 -> NoDup [d; b; a] ->
  is_Some (heap m !! a) -> is_Some (heap m !! b) -> is_Some (heap m !! d) ->
  exists x, free_qkd_open_connect_request (Some r) m = Ret x (deallocs [d; b; a] m).
Proof.
  intros Ea Eb Ed [Hd [Hb _]%NoDup_cons]%NoDup_cons La Lb Ld.
  cbn [free_qkd_open_connect_request]. rewrite Ea, Eb. eexists.
  erewrite cbind_ret by by apply free_block.
  erewrite cbind_ret by by apply free_block, deallocs_live.
  erewrite cbind_ret; [done|]. apply (free_qkd_qos_run _ d (deallocs [b; a] m)); [done|].
  by apply deallocs_live.
Qed.

Lemma free_qkd_open_connect_response_run r b m :
  metadata_mimetype (ocr_qos r) = Ptr b 0 -> is_Some (heap m !! b) ->
  exists x, free_qkd_open_connect_response (Some r) m = Ret x (deallocs [b] m).
Proof.
  intros E Hb. eexists. cbn [free_qkd_open_connect_response].
  by erewrite cbind_ret by by eapply free_qkd_qos_run.
Qed.

(** A buffer without data is freed as well: [free(NULL)]. *)
Definition owned (d : qkd_bytes_t) : list nat :=
  match data d with Null => [] | Ptr b _ => [b] end.

Lemma free_qkd_bytes_run d m :
  match data d with Null => True | Ptr b off => off = 0%nat /\ is_Some (heap m !! b) end ->
  free_qkd_bytes (Some d) m =
    Ret (Some {| size := size d; data := Null |}) (deallocs (owned d) m).
Proof.
  intros H. cbn [free_qkd_bytes]. unfold owned. destruct (data d) as [|b off].
  - erewrite cbind_ret by done. by destruct m.
  - destruct H as [-> H]. by erewrite cbind_ret by by apply free_block.
Qed.

Lemma free_qkd_get_key_response_run r m :
  match data (gkr_key_buffer r) with
  | Null => True | Ptr b off => off = 0%nat /\ is_Some (heap m !! b) end ->
  match data (gkr_metadata r) with
  | Null => True
  | Ptr b off => off = 0%nat /\ is_Some (heap m !! b) /\ b ∉ owned (gkr_key_buffer r) end ->
  exists x, free_qkd_get_key_response (Some r) m =
    Ret x (deallocs (owned (gkr_metadata r) ++ owned (gkr_key_buffer r)) m).
Proof.
  intros Hk Hd. eexists. cbn [free_qkd_get_key_response].
  erewrite cbind_ret by by apply free_qkd_bytes_run.
  erewrite cbind_ret; [|apply free_qkd_bytes_run].
  - unfold cret. unfold deallocs at 3. cbn. by rewrite foldr_app.
  - destruct (data (gkr_metadata r)); [done|]. destruct Hd as (-> & ? & ?).
    split; [done | by apply deallocs_live].
Qed.

End copy.
