(* ===== verification/Kms.v ===== *)
(** [src/server_example.c]: the key management server behind the socket server.

    The state is the memory, the generator behind [rand], the randomness behind
    [uuid_generate_random], the clock and the server's context data.  Parameters
    passed by address for input and output are arguments and results.  A loop over
    the linked list has one unit of fuel per live block and one more. *)

From S2P Require Import Prelude Models Memory Wire Sizes Platform Printf SerializersSpec Copy.

Section kms.
Context {ML : Malloc} {LU : Libuuid} {RD : Rand}.

Record kms := {
  k_mem : mem;
  k_rng : rng;
  k_uuid : uuid_source;
  k_clock : Z;
  k_config : server_context_data_example_t;
}.

Definition set_k_mem (m : mem) (s : kms) : kms :=
  {| k_mem := m; k_rng := k_rng s; k_uuid := k_uuid s; k_clock := k_clock s;
     k_config := k_config s |}.

Definition set_k_rng (g : rng) (s : kms) : kms :=
  {| k_mem := k_mem s; k_rng := g; k_uuid := k_uuid s; k_clock := k_clock s;
     k_config := k_config s |}.

Definition set_k_uuid (u : uuid_source) (s : kms) : kms :=
  {| k_mem := k_mem s; k_rng := k_rng s; k_uuid := u; k_clock := k_clock s;
     k_config := k_config s |}.

Definition set_k_config (c : server_context_data_example_t) (s : kms) : kms :=
  {| k_mem := k_mem s; k_rng := k_rng s; k_uuid := k_uuid s; k_clock := k_clock s;
     k_config := c |}.

(** Memory operations, [srand], [rand], [uuid_generate_random] and [time] on the state. *)
Definition on_mem {A} (e : C mem A) : C kms A := zoom k_mem set_k_mem e.
Definition do_srand (seed : Z) : C kms unit := fun s => Ret tt (set_k_rng (srand seed) s).
Definition do_rand : C kms Z := fun s => Ret (rand (k_rng s)).1 (set_k_rng (rand (k_rng s)).2 s).
Definition do_uuid : C kms uuid_t := fun s =>
  Ret (uuid_generate_random (k_uuid s)).1 (set_k_uuid (uuid_generate_random (k_uuid s)).2 s).
Definition time : C kms Z := fun s => Ret (k_clock s) s.

(** ** Key generation *)

(** The loop of [simple_hash] over the bytes at [str]. *)
Fixpoint hash_loop (l : list mbyte) (hash : Z) : Z + fault :=
  match l with
  | [] => inr OutOfBounds
  | None :: _ => inr Uninitialised
  | Some b :: l =>
      if decide (b = x00) then inl hash
      else hash_loop l (wrap32 (wrap32 (wrap32 (Z.shiftl hash 5) + hash) + b2z b))
  end.

Definition simple_hash (str : ptr) : C mem Z :=
  let! l := suffix_at str in
  match hash_loop l 0 with
  | inl h => cret h
  | inr f => cfault f
  end.

(** [for (byte = 0; byte < key_size; ++byte) key[byte] = rand() % 256], [n] bytes to go. *)
Fixpoint fill_random (key : ptr) (byte : Z) (n : nat) : C kms unit :=
  match n with
  | O => cret tt
  | S n =>
      let! r := do_rand in
      on_mem (store_bytes (padd key byte) [Some (z2b (Z.rem r 256))]);;;
      fill_random key (byte + 1) n
  end.

Definition gen_pseudorandom_key (source destination : qkd_uri_t) (key_size index : Z) :
    C kms qkd_key_buffer_t :=
  let seed := 0 in
  let! h := on_mem (simple_hash source) in
  let seed := Z.lxor seed h in
  let! h := on_mem (simple_hash destination) in
  let seed := Z.lxor seed h in
  let seed := Z.lxor seed index in
  let! p := on_mem (malloc key_size) in
  if decide (p = Null) then cret {| size := 0; data := p |}
  else
    do_srand seed;;;
    fill_random p 0 (Z.to_nat key_size);;;
    cret {| size := wrap32 key_size; data := p |}.

(** The loop that masks the key of the second kind, [n] bytes to go. *)
Fixpoint mask_loop (key : ptr) (i : Z) (n : nat) : C mem unit :=
  match n with
  | O => cret tt
  | S n =>
      let! l := load_init (padd key i) 1 in
      let b := le_val l in
      (if Z.rem i 2 =? 0
       then store_bytes (padd key i) [Some (z2b (Z.lor b 0xAA))]
       else store_bytes (padd key i) [Some (z2b (Z.land (Z.shiftr b 1) 0x55))]);;;
      mask_loop key (i + 1) n
  end.

Definition gen_oblivious_pseudorandom_key (source destination : qkd_uri_t) (key_size index : Z)
    (oblivious_key_type : Z) : C kms qkd_key_buffer_t :=
  let seed := 0 in
  let! h := on_mem (simple_hash source) in
  let seed := Z.lxor seed h in
  let! h := on_mem (simple_hash destination) in
  let seed := Z.lxor seed h in
  let seed := Z.lxor seed index in
  let! p := on_mem (malloc key_size) in
  if decide (p = Null) then cret {| size := 0; data := p |}
  else
    do_srand seed;;;
    fill_random p 0 (Z.to_nat key_size);;;
    (if oblivious_key_type =? 2 then on_mem (mask_loop p 0 (Z.to_nat key_size)) else cret tt);;;
    cret {| size := wrap32 key_size; data := p |}.

(** ** The linked list of key streams *)

Definition list_fuel (m : mem) : nat := S (base.size (heap m)).

(** The first loop of [qkd_open_connect]: the key stream of the pair, or the last
    node of the list, null if there is none. *)
Fixpoint find_pair (fuel : nat) (source destination : qkd_uri_t) (ksid_info_list : ptr) :
    C mem (uuid_t + ptr) :=
  match fuel with
  | O => fun _ => NoFuel
  | S fuel =>
      if decide (ksid_info_list = Null) then cret (inr Null) else
      let! n := load_node ksid_info_list in
      let! c1 := strcmp (ksi_source n) source in
      let! c2 := (if c1 =? 0 then strcmp (ksi_destination n) destination else cret 1) in
      if (c1 =? 0) && (c2 =? 0) then cret (inl (uuid_copy (ksi_key_stream_id n))) else
      if decide (ksid_info_next n = Null) then cret (inr ksid_info_list) else
      find_pair fuel source destination (ksid_info_next n)
  end.

(** [while (last_node->ksid_info_next != NULL) last_node = last_node->ksid_info_next] *)
Fixpoint find_last (fuel : nat) (last_node : ptr) : C mem ptr :=
  match fuel with
  | O => fun _ => NoFuel
  | S fuel =>
      let! n := load_node last_node in
      if decide (ksid_info_next n = Null) then cret last_node
      else find_last fuel (ksid_info_next n)
  end.

(** The new node: allocated, then filled in; [load_node] stands for the accesses
    through the pointer [calloc] returned. *)
Definition new_ksid_info (key_stream_id : uuid_t) (q : qkd_qos_t)
    (source destination : qkd_uri_t) : C mem ptr :=
  let! new := calloc_node in
  let! n := load_node new in
  let id := uuid_copy key_stream_id in
  let! q' := qkd_copy_qos (ksi_qos n) q in
  let! s := qkd_copy_uri (ksi_source n) source in
  let! d := qkd_copy_uri (ksi_destination n) destination in
  store_node new {| ksi_key_stream_id := id; ksi_qos := q'; ksi_source := s;
                    ksi_destination := d; ksi_current_index := 0; ksid_info_next := Null |};;;
  cret new.

Definition qkd_open_connect (source destination : qkd_uri_t) (q : qkd_qos_t)
    (key_stream_id : uuid_t) (status : Z) : C kms (qkd_qos_t * uuid_t * Z) :=
  let status := status_code qkd_status_code_successful in
  let! t := time in
  do_srand (wrap32 t);;;
  let! s := cget in
  let ksid_info_list := ksid_info_linked_list (k_config s) in
  if uuid_compare key_stream_id uuid_nil =? 0 then
    let! found := on_mem (find_pair (list_fuel (k_mem s)) source destination ksid_info_list) in
    match found with
    | inl id => cret (q, id, status)
    | inr ksid_info_list =>
        let! key_stream_id := do_uuid in
        let! new_ksid_info := on_mem (new_ksid_info key_stream_id q source destination) in
        (if decide (ksid_info_list = Null) then
           fun s => Ret tt (set_k_config (set_linked_list (k_config s) new_ksid_info) s)
         else
           on_mem (fun m => (
             let! last_node := find_last (list_fuel m) ksid_info_list in
             let! n := load_node last_node in
             store_node last_node (set_ksid_info_next n new_ksid_info)) m));;;
        cret (q, key_stream_id, status)
    end
  else cret (q, key_stream_id, status).

(** The loop of [qkd_get_key]: the node of the key stream, or null. *)
Fixpoint find_ksid (fuel : nat) (key_stream_id : uuid_t) (ksid_info_list : ptr) : C mem ptr :=
  match fuel with
  | O => fun _ => NoFuel
  | S fuel =>
      if decide (ksid_info_list = Null) then cret Null else
      let! n := load_node ksid_info_list in
      if uuid_compare key_stream_id (ksi_key_stream_id n) =? 0 then cret ksid_info_list
      else find_ksid fuel key_stream_id (ksid_info_next n)
  end.

(** The choice of the generator by the key type and role in the metadata. *)
Definition select_key (n : qkd_ksid_info_t) (meta_value : ptr) (key_size index : Z) :
    C kms qkd_key_buffer_t :=
  let! kt := on_mem (load_init meta_value 1) in
  if le_val kt =? key_type_code qkd_key_type_symmetric then
    gen_pseudorandom_key (ksi_source n) (ksi_destination n) key_size index
  else
    let! kr := on_mem (load_init (padd meta_value 1) 1) in
    if le_val kr =? 16 then
      gen_oblivious_pseudorandom_key (ksi_source n) (ksi_destination n) key_size index 1
    else
      gen_oblivious_pseudorandom_key (ksi_source n) (ksi_destination n) key_size index 2.

(** The text [sprintf] writes to [char device_info[SSL3_RT_MAX_PLAIN_LENGTH]]. *)
Definition device_info (config : server_context_data_example_t) : list byte :=
  lit "{'device_info': ['key_rate': " ++ print_d (key_rate config)
  ++ lit ", 'qber': " ++ print_f (qber config) ++ lit "]}".

Definition qkd_get_key (key_stream_id : uuid_t) (index : Z) (key_buffer : qkd_key_buffer_t)
    (metadata : qkd_metadata_t) (status : Z) :
    C kms (Z * qkd_key_buffer_t * qkd_metadata_t * Z) :=
  let! s := cget in
  let config := k_config s in
  let! ksid_info_list :=
    on_mem (find_ksid (list_fuel (k_mem s)) key_stream_id (ksid_info_linked_list config)) in
  if decide (ksid_info_list = Null) then
    cret (index, key_buffer, metadata, status_code qkd_status_code_gk_peer_not_connected)
  else
    let! n := on_mem (load_node ksid_info_list) in
    let key_size := key_chunk_size (ksi_qos n) in
    let meta_value := data metadata in
    let! key_data := select_key n meta_value key_size index in
    let text := device_info config in
    let data_size := size_add (Z.of_nat (length text)) 1 in
    if SSL3_RT_MAX_PLAIN_LENGTH <? data_size then cfault OutOfBounds else
    let! p := on_mem (malloc data_size) in
    let metadata := {| size := wrap32 data_size; data := p |} in
    on_mem (store_bytes (data metadata) (Some <$> text ++ [x00]));;;
    let key_buffer := key_data in
    let! n := on_mem (load_node ksid_info_list) in
    if decide (i32 (ksi_current_index n + 1)) then
      on_mem (store_node ksid_info_list (set_current_index n (ksi_current_index n + 1)));;;
      cret (index, key_buffer, metadata, status_code qkd_status_code_successful)
    else cfault SignedOverflow.

Definition qkd_close (key_stream_id : uuid_t) (status : Z) : C kms Z :=
  cret (status_code qkd_status_code_successful).

End kms.
