(* ===== verification/KmsSpec.v ===== *)
(** Abstract specification of the key management server and the refinement of the
    handlers of [Kms.v] to it.

    The abstract state is the list of key streams in the order of their creation.
    [kms_rep s sg ls] says that the concrete state [s] represents [sg], with the
    nodes and strings of the linked list in the blocks that [ls] names. *)

From S2P Require Import Prelude Models Memory Wire Sizes Platform Printf SerializersSpec Copy Kms.

(** ** Abstract key streams *)

Record stream := {
  st_ksid : uuid_t;
  st_qos : qos (list byte);
  st_source : list byte;
  st_destination : list byte;
  st_index : Z;
}.

Definition stream_ok (st : stream) : Prop :=
  uuid_ok (st_ksid st) /\ qos_ok (st_qos st) /\ short (metadata_mimetype (st_qos st)) /\
  str_ok (st_source st) /\ short (st_source st) /\
  str_ok (st_destination st) /\ short (st_destination st).

Fixpoint find_by_pair (s d : list byte) (sg : list stream) : option stream :=
  match sg with
  | [] => None
  | st :: sg =>
      if decide (st_source st = s /\ st_destination st = d) then Some st else find_by_pair s d sg
  end.

Fixpoint find_by_ksid (id : uuid_t) (sg : list stream) : option stream :=
  match sg with
  | [] => None
  | st :: sg => if decide (id = st_ksid st) then Some st else find_by_ksid id sg
  end.

(** The stream OPEN_CONNECT creates. *)
Definition new_stream (new : uuid_t) (s d : list byte) (q : qos (list byte)) : stream :=
  {| st_ksid := new; st_qos := q; st_source := s; st_destination := d; st_index := 0 |}.

(** OPEN_CONNECT: a nil key stream id asks for the stream of the pair, which is
    created under a fresh id if there is none; any other id is taken as it is. *)
Definition abs_open {LU : Libuuid} (s d : list byte) (q : qos (list byte)) (id : uuid_t)
    (g : uuid_source) (sg : list stream) : uuid_t * uuid_source * list stream :=
  if decide (id = uuid_nil) then
    match find_by_pair s d sg with
    | Some st => (st_ksid st, g, sg)
    | None =>
        let '(new, g') := uuid_generate_random g in
        (new, g', sg ++ [new_stream new s d q])
    end
  else (id, g, sg).

(** GET_KEY counts the keys taken from a stream. *)
Definition bump_index (st : stream) : stream :=
  {| st_ksid := st_ksid st; st_qos := st_qos st; st_source := st_source st;
     st_destination := st_destination st; st_index := st_index st + 1 |}.

Fixpoint abs_take (id : uuid_t) (sg : list stream) : list stream :=
  match sg with
  | [] => []
  | st :: sg => if decide (id = st_ksid st) then bump_index st :: sg else st :: abs_take id sg
  end.

(** ** Abstract keys *)

(** The hash of a string: polynomial in 33, modulo [2 ^ 32]. *)
Definition abs_hash (s : list byte) : Z := foldl (fun h b => wrap32 (33 * h + b2z b)) 0 s.

Definition abs_seed (s d : list byte) (index : Z) : Z :=
  Z.lxor (Z.lxor (abs_hash s) (abs_hash d)) index.

Section keys.
Context {RD : Rand}.

Fixpoint rand_bytes (g : rng) (n : nat) : list byte :=
  match n with
  | O => []
  | S n => z2b (rand g).1 :: rand_bytes (rand g).2 n
  end.

Fixpoint rand_after (g : rng) (n : nat) : rng :=
  match n with O => g | S n => rand_after (rand g).2 n end.

(** The key of a pair at an index: both ends of a stream compute the same. *)
Definition abs_key (s d : list byte) (n : nat) (index : Z) : list byte :=
  rand_bytes (srand (abs_seed s d index)) n.

(** The receiver's view of an oblivious key. *)
Definition mask_byte (i : nat) (b : byte) : byte :=
  if Nat.even i then z2b (Z.lor (b2z b) 0xAA) else z2b (Z.land (Z.shiftr (b2z b) 1) 0x55).

(** The key for the key type and role of the request's metadata. *)
Definition abs_key_for (st : stream) (index : Z) (kt kr : byte) : list byte :=
  let key := abs_key (st_source st) (st_destination st)
               (Z.to_nat (key_chunk_size (st_qos st))) index in
  if decide (kt = x00) then key
  else if decide (kr = x10) then key
  else imap mask_byte key.
End keys.

(** The key type and role that [qkd_get_key] reads from the request's metadata: the
    role only for a key that is not symmetric, neither from bytes that are missing. *)
Definition key_view (md : list byte) : option (byte * byte) :=
  match md with
  | [] => None
  | kt :: md =>
      if decide (kt = x00) then Some (kt, x00)
      else match md with [] => None | kr :: _ => Some (kt, kr) end
  end.

Definition config_ok (c : server_context_data_example_t) : Prop :=
  i32 (key_rate c) /\ float_ok (qber c).

(** ** Representation of the linked list *)

(** The blocks of a stream: its node, mimetype, source and destination. *)
Record slot := { sl_node : nat; sl_mime : nat; sl_src : nat; sl_dst : nat }.

Definition slot_blocks (sl : slot) : list nat := [sl_node sl; sl_mime sl; sl_src sl; sl_dst sl].
Definition foot (ls : list slot) : list nat := ls ≫= slot_blocks.

Definition node_of (st : stream) (sl : slot) (nxt : ptr) : qkd_ksid_info_t :=
  {| ksi_key_stream_id := st_ksid st; ksi_qos := qos_map (fun _ => Ptr (sl_mime sl) 0) (st_qos st);
     ksi_source := Ptr (sl_src sl) 0; ksi_destination := Ptr (sl_dst sl) 0;
     ksi_current_index := st_index st; ksid_info_next := nxt |}.

Definition str_block (m : mem) (b : nat) (s : list byte) : Prop :=
  heap m !! b = Some (Bytes (Some <$> enc_cstr s)).

Definition stream_at (m : mem) (st : stream) (sl : slot) (nxt : ptr) : Prop :=
  heap m !! sl_node sl = Some (Node (node_of st sl nxt)) /\
  str_block m (sl_mime sl) (metadata_mimetype (st_qos st)) /\
  str_block m (sl_src sl) (st_source st) /\
  str_block m (sl_dst sl) (st_destination st).

(** The first node of a list of slots that continues at [nxt]. *)
Definition head_ptr (ls : list slot) (nxt : ptr) : ptr :=
  match ls with [] => nxt | sl :: _ => Ptr (sl_node sl) 0 end.

Fixpoint streams_at (m : mem) (sg : list stream) (ls : list slot) (nxt : ptr) : Prop :=
  match sg, ls with
  | [], [] => True
  | st :: sg, sl :: ls =>
      stream_ok st /\ stream_at m st sl (head_ptr ls nxt) /\ streams_at m sg ls nxt
  | _, _ => False
  end.

Definition last_ptr (ls : list slot) : ptr :=
  match last ls with Some sl => Ptr (sl_node sl) 0 | None => Null end.

(** The concrete state represents the abstract one. *)
Definition kms_rep {LU : Libuuid} {RD : Rand} (s : kms) (sg : list stream) (ls : list slot) : Prop :=
  mem_wf (k_mem s) /\
  ksid_info_linked_list (k_config s) = head_ptr ls Null /\
  streams_at (k_mem s) sg ls Null /\ NoDup (foot ls).

(** Memory outside the list, in the sense of [frame]. *)
Abbreviation mem_frame m m' ls ls' ret := (frame m m' (foot ls) (foot ls') ret).

(** ** Lemmas on the abstract state *)

Lemma foot_app ls ls' : foot (ls ++ ls') = foot ls ++ foot ls'.
Proof. apply bind_app. Qed.

Lemma foot_cons sl ls : foot (sl :: ls) = slot_blocks sl ++ foot ls.
Proof. done. Qed.

Lemma find_by_pair_Some s d sg st : find_by_pair s d sg = Some st ->
  st ∈ sg /\ st_source st = s /\ st_destination st = d.
Proof.
  induction sg as [|st' sg IH]; [done|]. cbn. case_decide as E.
  - intros [= ->]. split; [left | done].
  - intros [? ?]%IH. split; [by right | done].
Qed.

Lemma find_by_ksid_Some id sg st : find_by_ksid id sg = Some st -> st ∈ sg /\ st_ksid st = id.
Proof.
  induction sg as [|st' sg IH]; [done|]. cbn. case_decide as E.
  - intros [= ->]. split; [left | done].
  - intros [? ?]%IH. split; [by right | done].
Qed.

Lemma find_by_pair_app s d sg sg' :
  find_by_pair s d (sg ++ sg') =
    match find_by_pair s d sg with Some st => Some st | None => find_by_pair s d sg' end.
Proof. induction sg as [|st sg IH]; [done|]. cbn. by case_decide. Qed.

(** ** Lemmas on the representation *)

Lemma length_foot ls : length (foot ls) = (4 * length ls)%nat.
Proof. induction ls as [|sl ls IH]; [done|]. rewrite foot_cons, length_app, IH. cbn. lia. Qed.

Lemma streams_at_app m sg1 sg2 ls1 ls2 nxt : length sg1 = length ls1 ->
  streams_at m (sg1 ++ sg2) (ls1 ++ ls2) nxt <->
  streams_at m sg1 ls1 (head_ptr ls2 nxt) /\ streams_at m sg2 ls2 nxt.
Proof.
  revert ls1. induction sg1 as [|st sg1 IH]; intros [|sl ls1] Hlen; try done; [cbn; tauto|].
  cbn. injection Hlen as Hlen. rewrite IH by done.
  replace (head_ptr (ls1 ++ ls2) nxt) with (head_ptr ls1 (head_ptr ls2 nxt)) by by destruct ls1.
  tauto.
Qed.

Lemma streams_at_length m sg ls nxt : streams_at m sg ls nxt -> length sg = length ls.
Proof.
  revert ls. induction sg as [|st sg IH]; intros [|sl ls]; cbn; try done.
  intros (_ & _ & H). by rewrite (IH ls).
Qed.

Lemma streams_at_ok m sg ls nxt : streams_at m sg ls nxt -> Forall stream_ok sg.
Proof.
  revert ls. induction sg as [|st sg IH]; intros [|sl ls]; cbn; try done.
  intros (? & _ & ?). constructor; eauto.
Qed.

(** Only the blocks of the list matter. *)
Lemma streams_at_frame m m' sg ls nxt :
  (forall b, b ∈ foot ls -> heap m' !! b = heap m !! b) ->
  streams_at m sg ls nxt -> streams_at m' sg ls nxt.
Proof.
  revert ls. induction sg as [|st sg IH]; intros [|sl ls] Hf; try done.
  cbn. intros (Hok & (Hn & Hm & Hs & Hd) & Hrest).
  rewrite foot_cons in Hf. setoid_rewrite elem_of_app in Hf. unfold slot_blocks in Hf.
  split_and!; [done| |by apply IH; auto].
  unfold stream_at, str_block in *. rewrite !Hf by (left; set_solver). done.
Qed.

Lemma streams_at_live m sg ls nxt b : streams_at m sg ls nxt -> b ∈ foot ls ->
  is_Some (heap m !! b).
Proof.
  revert ls. induction sg as [|st sg IH]; intros [|sl ls]; cbn [streams_at]; try done;
    [by intros _ ?%elem_of_nil|].
  intros (_ & (Hn & Hm & Hs & Hd) & Hrest). rewrite foot_cons, elem_of_app.
  intros [Hb|Hb]; [|by eapply IH]. unfold str_block in *.
  unfold slot_blocks in Hb. rewrite !elem_of_cons, elem_of_nil in Hb.
  destruct Hb as [-> | [-> | [-> | [-> | []]]]]; eauto.
Qed.

Lemma streams_at_extends m m' sg ls nxt :
  extends m m' -> streams_at m sg ls nxt -> streams_at m' sg ls nxt.
Proof.
  intros He Hst. eapply streams_at_frame; [|done]. intros b Hb.
  destruct (streams_at_live _ _ _ _ _ Hst Hb) as [c Hc]. rewrite Hc. by eapply extends_lookup.
Qed.

(** The linked list determines the streams. *)
Lemma str_block_inj m b s s' : str_block m b s -> str_block m b s' -> s = s'.
Proof.
  unfold str_block. intros H H'. rewrite H in H'. injection H' as E.
  apply (inj (fmap Some)) in E. unfold enc_cstr in E. by apply (inj (.++ [x00])) in E.
Qed.

Lemma stream_at_inj m st st' sl sl' nxt nxt' : sl_node sl = sl_node sl' ->
  stream_at m st sl nxt -> stream_at m st' sl' nxt' -> st = st' /\ sl = sl' /\ nxt = nxt'.
Proof.
  destruct st as [id q src dst ix], st' as [id' q' src' dst' ix'], q, q', sl, sl'.
  cbn. intros -> (Hn & Hm & Hs & Hd) (Hn' & Hm' & Hs' & Hd'). cbn in *.
  pose proof (eq_trans (eq_sym Hn) Hn') as E.
  unfold node_of, qos_map in E. cbn in E. injection E as -> -> -> -> -> -> -> -> -> -> -> -> ->.
  by rewrite (str_block_inj _ _ _ _ Hm Hm'), (str_block_inj _ _ _ _ Hs Hs'),
    (str_block_inj _ _ _ _ Hd Hd').
Qed.

Lemma streams_at_inj m sg : forall ls sg' ls',
  streams_at m sg ls Null -> streams_at m sg' ls' Null -> head_ptr ls Null = head_ptr ls' Null ->
  sg = sg'.
Proof.
  induction sg as [|st sg IH]; intros [|sl ls] [|st' sg'] [|sl' ls']; try done.
  intros (_ & Hst & H) (_ & Hst' & H') [= E].
  destruct (stream_at_inj _ _ _ _ _ _ _ E Hst Hst') as (-> & _ & Hh). f_equal. by eapply IH.
Qed.

(** The list fits in the heap, so that the fuel of the loops is enough. *)
Lemma streams_at_fuel m sg ls nxt : streams_at m sg ls nxt -> NoDup (foot ls) ->
  (length ls < list_fuel m)%nat.
Proof.
  intros Hst Hnd. unfold list_fuel.
  assert (length (foot ls) <= base.size (heap m))%nat as Hle.
  { rewrite <- size_dom, <- (size_list_to_set (C:=gset nat) (foot ls)) by done.
    apply subseteq_size. intros b Hb%elem_of_list_to_set. apply elem_of_dom.
    by eapply streams_at_live. }
  assert (length ls <= length (foot ls))%nat; [|lia].
  clear. induction ls as [|sl ls IH]; [done|]. rewrite foot_cons, length_app. cbn. lia.
Qed.
