(* ===== verification/KmsProofs.v ===== *)
(** The refinement of the handlers of [Kms.v] to the abstract server of [KmsSpec.v]. *)

From S2P Require Import Prelude Models Memory Wire Sizes Platform Printf SerializersSpec Copy Kms.
From S2P Require Import KmsSpec.

Section proofs.
Context {ML : Malloc} {MT : MallocTotal} {LU : Libuuid} {LO : LibuuidOk} {RD : Rand}.

(** ** Strings of the list *)

Lemma str_block_at m b s : str_ok s -> str_block m b s -> str_at m (Ptr b 0) s.
Proof. intros. by apply str_at_block. Qed.

Lemma uuid_compare_eq u v : uuid_ok u -> uuid_ok v ->
  (uuid_compare u v =? 0) = bool_decide (u = v).
Proof.
  intros Hu Hv. pose proof (uuid_compare_ok u v Hu Hv).
  case_bool_decide; [apply Z.eqb_eq | apply Z.eqb_neq]; tauto.
Qed.

Lemma uuid_nil_ok : uuid_ok uuid_nil.
Proof. done. Qed.

(** ** The loops over the list *)

Lemma find_pair_run m src dst s d sg ls fuel :
  str_at m src s -> str_at m dst d -> streams_at m sg ls Null -> (length ls < fuel)%nat ->
  find_pair fuel src dst (head_ptr ls Null) m =
    Ret (match find_by_pair s d sg with
         | Some st => inl (st_ksid st)
         | None => inr (last_ptr ls)
         end) m.
Proof.
  intros Hs Hd. revert ls fuel. induction sg as [|st sg IH]; intros [|sl ls] [|fuel];
    cbn [streams_at length]; try done; try lia.
  intros (Hok & (Hn & _ & Hns & Hnd) & Hrest) Hf. cbn [find_pair head_ptr].
  destruct Hok as (Hu & _ & _ & Hsok & _ & Hdok & _).
  rewrite decide_False by done. erewrite cbind_ret by by apply load_node_ok.
  cbn [node_of ksi_source ksi_destination ksi_key_stream_id ksid_info_next].
  destruct (strcmp_at m (Ptr (sl_src sl) 0) src (st_source st) s) as (z & Hz & Hzs);
    [by apply str_block_at | done |].
  destruct (strcmp_at m (Ptr (sl_dst sl) 0) dst (st_destination st) d) as (z' & Hz' & Hzd);
    [by apply str_block_at | done |].
  erewrite cbind_ret by done.
  assert ((if z =? 0 then strcmp (Ptr (sl_dst sl) 0) dst else cret 1) m
          = Ret (if z =? 0 then z' else 1) m) as Hc2 by (by destruct (z =? 0)).
  erewrite cbind_ret by done. cbn [find_by_pair].
  destruct (Z.eqb_spec z 0) as [Ez|Ez]; cbn [andb].
  - destruct (Z.eqb_spec z' 0) as [Ez'|Ez'].
    + rewrite decide_True by tauto. unfold cret. by rewrite uuid_copy_ok.
    + rewrite (decide_False (P := _ = _ /\ _)) by tauto.
      destruct ls as [|sl' ls]; [by destruct sg|]. apply (IH (sl' :: ls)); [done | simpl in *; lia].
  - rewrite (decide_False (P := _ = _ /\ _)) by tauto.
    destruct ls as [|sl' ls]; [by destruct sg|]. apply (IH (sl' :: ls)); [done | simpl in *; lia].
Qed.

Lemma find_ksid_node fuel id b n m : heap m !! b = Some (Node n) ->
  find_ksid (S fuel) id (Ptr b 0) m =
    if uuid_compare id (ksi_key_stream_id n) =? 0 then Ret (Ptr b 0) m
    else find_ksid fuel id (ksid_info_next n) m.
Proof.
  intros Hn. cbn [find_ksid]. rewrite decide_False by done.
  erewrite cbind_ret by by apply load_node_ok. by destruct (_ =? 0).
Qed.

(** Where the loop of [qkd_get_key] stops. *)
Lemma find_ksid_run m id sg ls fuel :
  uuid_ok id -> streams_at m sg ls Null -> (length ls < fuel)%nat ->
  match find_by_ksid id sg with
  | None => find_ksid fuel id (head_ptr ls Null) m = Ret Null m
  | Some st =>
      exists sg1 sg2 ls1 sl ls2,
        sg = sg1 ++ st :: sg2 /\ ls = ls1 ++ sl :: ls2 /\ length sg1 = length ls1 /\
        find_by_ksid id sg1 = None /\ id = st_ksid st /\
        find_ksid fuel id (head_ptr ls Null) m = Ret (Ptr (sl_node sl) 0) m
  end.
Proof.
  intros Hid. revert ls fuel. induction sg as [|st sg IH]; intros [|sl ls] [|fuel];
    cbn [streams_at length]; try done; try lia.
  intros ((Hu & _) & (Hn & _) & Hrest) Hf. cbn [head_ptr find_by_ksid].
  rewrite (find_ksid_node _ _ _ _ _ Hn). cbn [node_of ksi_key_stream_id ksid_info_next].
  rewrite uuid_compare_eq by done. case_decide as E.
  - rewrite bool_decide_true by done. exists [], sg, [], sl, ls. done.
  - rewrite bool_decide_false by done.
    assert (length ls < fuel)%nat as Hf' by lia. specialize (IH ls fuel Hrest Hf').
    destruct (find_by_ksid id sg) as [st'|]; [|done].
    destruct IH as (sg1 & sg2 & ls1 & sl' & ls2 & -> & -> & Hlen & Hn1 & Hid' & Hrun).
    exists (st :: sg1), sg2, (sl :: ls1), sl', ls2. cbn. rewrite decide_False by done.
    by rewrite Hlen.
Qed.

(** ** Creating a node *)

(** The blocks of a new stream, allocated in the order of the code. *)
Definition new_slot (m : mem) : slot :=
  {| sl_node := next m; sl_mime := S (next m); sl_src := S (S (next m));
     sl_dst := S (S (S (next m))) |}.

Definition alloc_stream (st : stream) (m : mem) : mem :=
  alloc (Bytes (Some <$> enc_cstr (st_destination st)))
    (alloc (Bytes (Some <$> enc_cstr (st_source st)))
       (alloc (Bytes (Some <$> enc_cstr (metadata_mimetype (st_qos st))))
          (alloc (Node (node_of st (new_slot m) Null)) m))).

Lemma set_block_alloc_ne b c c' m : b <> next m ->
  set_block b c (alloc c' m) = alloc c' (set_block b c m).
Proof. intros. unfold set_block, alloc. simpl. by rewrite insert_insert_ne. Qed.

Lemma new_ksid_info_run m id q src dst st :
  mem_wf m -> stream_ok st -> st_index st = 0 -> st_ksid st = id ->
  qos_at m q (st_qos st) -> str_at m src (st_source st) -> str_at m dst (st_destination st) ->
  new_ksid_info id q src dst m = Ret (Ptr (next m) 0) (alloc_stream st m).
Proof.
  intros Hm (Hu & _ & Hqs & _ & Hss & _ & Hds) Hi <- Hq Hs Hd. unfold new_ksid_info.
  erewrite cbind_ret by apply calloc_node_ok.
  erewrite cbind_ret by (apply load_node_ok, lookup_alloc).
  cbn [qkd_ksid_info_zero ksi_qos ksi_source ksi_destination]. rewrite uuid_copy_ok by done.
  assert (extends m (alloc (Node qkd_ksid_info_zero) m)) as He by by apply extends_alloc.
  erewrite cbind_ret.
  2: { apply (qkd_copy_qos_null _ _ _ (st_qos st)); [auto with c_mem|done| |done].
       destruct Hq as [Hqm Hqe]. split; [by eapply str_at_extends | done]. }
  erewrite cbind_ret.
  2: { apply (qkd_copy_str_null _ _ (st_source st)); [auto with c_mem| |done].
       eapply str_at_extends, Hs. etrans; [done|]. auto with c_mem. }
  erewrite cbind_ret.
  2: { apply (qkd_copy_str_null _ _ (st_destination st)); [auto with c_mem| |done].
       eapply str_at_extends, Hd. do 2 (etrans; [|apply extends_alloc; auto with c_mem]). done. }
  erewrite cbind_ret.
  2: { apply (store_node_ok _ _ qkd_ksid_info_zero). do 3 (rewrite lookup_alloc_ne by (cbn; lia)).
       apply lookup_alloc. }
  unfold cret, alloc_stream. cbn [next alloc].
  do 3 (rewrite set_block_alloc_ne by (cbn; lia)). rewrite set_block_alloc.
  by destruct st; cbn in *; subst.
Qed.

Lemma next_alloc_stream st m : next (alloc_stream st m) = (4 + next m)%nat.
Proof. done. Qed.

Lemma mem_wf_alloc_stream st m : mem_wf m -> mem_wf (alloc_stream st m).
Proof. intros. unfold alloc_stream. auto 6 with c_mem. Qed.

Lemma extends_alloc_stream st m : mem_wf m -> extends m (alloc_stream st m).
Proof.
  intros. unfold alloc_stream. repeat (etrans; [|apply extends_alloc; auto with c_mem]). done.
Qed.

Lemma alloc_stream_at st m : mem_wf m -> stream_at (alloc_stream st m) st (new_slot m) Null.
Proof.
  intros Hm. unfold stream_at, str_block, alloc_stream. cbn [sl_node sl_mime sl_src sl_dst new_slot].
  cbn [heap alloc next]. repeat (rewrite lookup_insert_ne by lia || rewrite lookup_insert_eq).
  split_and!; try done;
    repeat (rewrite lookup_insert_ne by (cbn; lia)); by rewrite lookup_insert_eq.
Qed.

(** ** Changing a node *)

(** The stream [st] of the node [sl] becomes [st'] and the list goes on at [ls2']. *)
Lemma streams_at_set m sg1 st st' sg2 sg2' ls1 sl ls2 ls2' nxt nxt' :
  length sg1 = length ls1 ->
  streams_at m (sg1 ++ st :: sg2) (ls1 ++ sl :: ls2) nxt ->
  sl_node sl ∉ foot ls1 -> sl_node sl ∉ foot ls2' -> NoDup (slot_blocks sl) ->
  stream_ok st' -> st_qos st' = st_qos st -> st_source st' = st_source st ->
  st_destination st' = st_destination st ->
  streams_at m sg2' ls2' nxt' ->
  streams_at (set_block (sl_node sl) (Node (node_of st' sl (head_ptr ls2' nxt'))) m)
    (sg1 ++ st' :: sg2') (ls1 ++ sl :: ls2') nxt'.
Proof.
  intros Hlen Hst Hn1 Hn2 Hnd Hok Hq Hs Hd Hrest.
  apply streams_at_app in Hst as [H1 H2]; [|done].
  cbn [streams_at] in H2. destruct H2 as (_ & (_ & Hbm & Hbs & Hbd) & _).
  apply streams_at_app; [done|]. split.
  { eapply streams_at_frame; [|apply H1]. intros b Hb. apply lookup_set_block_ne. by intros ->. }
  cbn [streams_at]. split_and!; [done| |].
  - unfold slot_blocks in Hnd. rewrite !NoDup_cons, !not_elem_of_cons in Hnd.
    unfold stream_at, str_block in *. rewrite lookup_set_block, Hq, Hs, Hd.
    rewrite !lookup_set_block_ne by intuition congruence. done.
  - eapply streams_at_frame; [|apply Hrest]. intros b Hb. apply lookup_set_block_ne. by intros ->.
Qed.

Lemma NoDup_foot_split ls1 sl ls2 : NoDup (foot (ls1 ++ sl :: ls2)) ->
  (sl_node sl ∉ foot ls1) /\ (sl_node sl ∉ foot ls2) /\ NoDup (slot_blocks sl).
Proof.
  rewrite foot_app, foot_cons. intros (_ & H1 & (H2 & H3 & _)%NoDup_app)%NoDup_app.
  split_and!; [|apply H3; left|done].
  intros Hin. apply (H1 _ Hin). apply elem_of_app. left. left.
Qed.

Lemma foot_new_slot m : foot [new_slot m] = seq (next m) 4.
Proof. done. Qed.

Lemma foot_lt m sg ls nxt : mem_wf m -> streams_at m sg ls nxt ->
  forall b, b ∈ foot ls -> (b < next m)%nat.
Proof. intros Hm Hst b Hb. by eapply mem_wf_live, streams_at_live. Qed.

Lemma NoDup_foot_new m sg ls nxt : mem_wf m -> streams_at m sg ls nxt -> NoDup (foot ls) ->
  NoDup (foot (ls ++ [new_slot m])).
Proof.
  intros Hm Hst Hnd. rewrite foot_app, foot_new_slot. apply NoDup_app. split_and!; [done| |].
  - intros b Hb%(foot_lt _ _ _ _ Hm Hst). rewrite elem_of_seq. lia.
  - apply NoDup_ListNoDup, seq_NoDup.
Qed.

Lemma alloc_stream_single st m : mem_wf m -> stream_ok st ->
  streams_at (alloc_stream st m) [st] [new_slot m] Null.
Proof. intros. cbn. split_and!; [done | by apply alloc_stream_at | done]. Qed.

(** A new stream at the end of a list that is not empty: the last node is linked to it. *)
Lemma streams_at_append m sg ls st : mem_wf m -> streams_at m sg ls Null -> NoDup (foot ls) ->
  stream_ok st -> ls <> [] ->
  exists b n,
    last_ptr ls = Ptr b 0 /\ b ∈ foot ls /\ heap (alloc_stream st m) !! b = Some (Node n) /\
    ksid_info_next n = Null /\
    streams_at (set_block b (Node (set_ksid_info_next n (Ptr (next m) 0))) (alloc_stream st m))
      (sg ++ [st]) (ls ++ [new_slot m]) Null.
Proof.
  intros Hm Hst Hnd Hok Hne. pose proof (NoDup_foot_new _ _ _ _ Hm Hst Hnd) as Hnd'.
  pose proof (streams_at_length _ _ _ _ Hst) as Hlen.
  pose proof (streams_at_extends _ _ _ _ _ (extends_alloc_stream st m Hm) Hst) as Hst'.
  destruct (exists_last Hne) as (ls1 & sl & ->).
  destruct (exists_last (l:=sg)) as (sg1 & st1 & ->); [by destruct sg, ls1|].
  rewrite !length_app in Hlen. cbn in Hlen.
  pose proof Hst' as [_ Hl]%streams_at_app; [|lia]. destruct Hl as (Hok1 & (Hn & _) & _).
  exists (sl_node sl), (node_of st1 sl Null). split_and!; [|..|done|].
  - unfold last_ptr. by rewrite last_snoc.
  - rewrite foot_app, foot_cons. apply elem_of_app. right. left.
  - done.
  - rewrite <- !app_assoc in *. cbn [app] in *.
    apply NoDup_foot_split in Hnd' as (H1 & H2 & H3).
    apply (streams_at_set _ sg1 st1 st1 [] [st] ls1 sl [] [new_slot m] Null Null);
      try done; [lia|]. by apply alloc_stream_single.
Qed.

(** ** Memory outside the list *)

Lemma mem_frame_append m ls st : mem_wf m ->
  mem_frame m (alloc_stream st m) ls (ls ++ [new_slot m]) [].
Proof.
  intros Hm. unfold frame. setoid_rewrite foot_app. setoid_rewrite elem_of_app.
  setoid_rewrite foot_new_slot. setoid_rewrite elem_of_seq.
  split_and!; [cbn; lia|..|tauto|apply NoDup_nil_2|by intros b ?%elem_of_nil].
  - intros b Hb _. unfold alloc_stream. by rewrite !lookup_alloc_ne by (cbn; lia).
  - intros b Hb Hn _. unfold alloc_stream. rewrite !lookup_alloc_ne by (cbn; lia). by apply Hm.
  - intros b [?|?]; [by left | right; lia].
Qed.

Lemma mem_frame_set m m' ls ls' ret b c : b ∈ foot ls -> mem_frame m m' ls ls' ret ->
  mem_frame m (set_block b c m') ls ls' ret.
Proof.
  intros Hb (H1 & H2 & H3 & H4 & H5 & H6 & H7). split_and!; [done|..|done|done|done|].
  - intros b' Hb' Hn. rewrite lookup_set_block_ne by congruence. by apply H2.
  - intros b' Hb' Hn Hr. rewrite lookup_set_block_ne; [by apply H3|]. intros ->. by apply Hn, H5.
  - intros b' Hb'. apply H7 in Hb' as (Hn & HF & Hl). do 2 (split; [done|]).
    rewrite lookup_set_block_ne; [done|]. intros ->. by apply HF, H5.
Qed.

(** ** Running memory operations on the state *)

Lemma on_mem_run {A} (e : C mem A) s a m' :
  e (k_mem s) = Ret a m' -> on_mem e s = Ret a (set_k_mem m' s).
Proof. unfold on_mem, zoom. by intros ->. Qed.

Lemma set_k_mem_same s : set_k_mem (k_mem s) s = s.
Proof. by destruct s. Qed.

Lemma on_mem_read {A} (e : C mem A) s a :
  e (k_mem s) = Ret a (k_mem s) -> on_mem e s = Ret a s.
Proof. intros H. by rewrite (on_mem_run _ _ _ _ H), set_k_mem_same. Qed.

Lemma on_mem_fault {A} (e : C mem A) s f : e (k_mem s) = Fault f -> on_mem e s = Fault f.
Proof. unfold on_mem, zoom. by intros ->. Qed.

(** ** OPEN_CONNECT *)

(** What a run that ends in [s'] has done to the parts of the state other than memory. *)
Definition others (s s' : kms) (g : uuid_source) (ls' : list slot) : Prop :=
  k_uuid s' = g /\ k_clock s' = k_clock s /\
  k_config s' = set_linked_list (k_config s) (head_ptr ls' Null).

Lemma set_linked_list_same c p : ksid_info_linked_list c = p -> set_linked_list c p = c.
Proof. intros <-. by destruct c. Qed.

Lemma last_ptr_null ls : last_ptr ls = Null <-> ls = [].
Proof.
  unfold last_ptr. destruct ls as [|sl ls]; [done|].
  destruct (last (sl :: ls)) eqn:E; [done|]. by apply last_None in E.
Qed.

Lemma head_ptr_snoc ls sl : ls <> [] -> head_ptr (ls ++ [sl]) Null = head_ptr ls Null.
Proof. by destruct ls. Qed.

(** Linking a new stream in, at the head of an empty list or behind the last node. *)
Definition link_new (p new : ptr) : C kms unit :=
  if decide (p = Null) then
    fun s => Ret tt (set_k_config (set_linked_list (k_config s) new) s)
  else
    on_mem (fun m => (
      let! last_node := find_last (list_fuel m) p in
      let! n := load_node last_node in
      store_node last_node (set_ksid_info_next n new)) m).

Lemma find_last_here f b n m : heap m !! b = Some (Node n) -> ksid_info_next n = Null ->
  find_last (S f) (Ptr b 0) m = Ret (Ptr b 0) m.
Proof.
  intros Hb Hn. cbn [find_last]. erewrite cbind_ret by by apply load_node_ok.
  by rewrite decide_True.
Qed.

Lemma link_new_run s m sg ls st :
  mem_wf m -> k_mem s = alloc_stream st m ->
  ksid_info_linked_list (k_config s) = head_ptr ls Null ->
  streams_at m sg ls Null -> NoDup (foot ls) -> stream_ok st ->
  exists s', link_new (last_ptr ls) (Ptr (next m) 0) s = Ret tt s' /\
    kms_rep s' (sg ++ [st]) (ls ++ [new_slot m]) /\
    mem_frame m (k_mem s') ls (ls ++ [new_slot m]) [] /\
    others s s' (k_uuid s) (ls ++ [new_slot m]).
Proof.
  intros Hm Hs Hh Hst Hnd Hok. unfold link_new, kms_rep, others.
  pose proof (NoDup_foot_new _ _ _ _ Hm Hst Hnd) as Hnd'.
  pose proof (mem_frame_append m ls st Hm) as Hfr.
  destruct (decide (ls = [])) as [->|Hne].
  - destruct sg; [|done].
    exists (set_k_config (set_linked_list (k_config s) (Ptr (next m) 0)) s).
    cbn [last_ptr last]. rewrite decide_True by done. cbn [k_mem set_k_config]. rewrite Hs.
    split_and!; try done; [by apply mem_wf_alloc_stream | by apply alloc_stream_single].
  - rewrite decide_False by (by rewrite last_ptr_null).
    destruct (streams_at_append m sg ls st Hm Hst Hnd Hok Hne) as (b & n & -> & Hb & Hn & Hnx & Hst').
    set (m' := set_block b (Node (set_ksid_info_next n (Ptr (next m) 0))) (alloc_stream st m)) in *.
    exists (set_k_mem m' s). rewrite (on_mem_run _ _ tt m').
    + cbn. rewrite head_ptr_snoc, set_linked_list_same by done.
      split_and!; try done; [|by apply mem_frame_set].
      apply mem_wf_set_block; [by apply mem_wf_alloc_stream | done].
    + rewrite Hs. unfold list_fuel. erewrite cbind_ret by by apply (find_last_here _ _ n).
      erewrite cbind_ret by by apply load_node_ok. by apply (store_node_ok _ _ n).
Qed.

Lemma qkd_open_connect_run s sg ls src dst q s0 d0 v id st0 :
  kms_rep s sg ls -> uuid_ok id -> str_at (k_mem s) src s0 -> str_at (k_mem s) dst d0 ->
  qos_at (k_mem s) q v -> stream_ok (new_stream uuid_nil s0 d0 v) ->
  let '(id', g', sg') := abs_open s0 d0 v id (k_uuid s) sg in
  exists s' ls',
    qkd_open_connect src dst q id st0 s =
      Ret (q, id', status_code qkd_status_code_successful) s' /\
    kms_rep s' sg' ls' /\ mem_frame (k_mem s) (k_mem s') ls ls' [] /\ others s s' g' ls'.
Proof.
  intros (Hm & Hh & Hst & Hnd) Hid Hs Hd Hq Hok. unfold qkd_open_connect, abs_open.
  erewrite cbind_ret by done. erewrite cbind_ret by done. erewrite cbind_ret by done.
  cbn [k_config k_mem set_k_rng]. rewrite uuid_compare_eq by done. rewrite Hh.
  case_decide as Eid; [rewrite bool_decide_true by done | rewrite bool_decide_false by done].
  2: { do 2 eexists. split; [done|]. unfold kms_rep, others. cbn. rewrite set_linked_list_same by done.
       split_and!; try done. by apply frame_refl. }
  erewrite cbind_ret by (apply on_mem_read, find_pair_run; [done..|by eapply streams_at_fuel]).
  destruct (find_by_pair s0 d0 sg) as [st|] eqn:Ef.
  { do 2 eexists. split; [done|]. unfold kms_rep, others. cbn. rewrite set_linked_list_same by done.
    split_and!; try done. by apply frame_refl. }
  destruct (uuid_generate_random (k_uuid s)) as [new g'] eqn:Eg.
  pose proof (uuid_generate_random_ok (k_uuid s)) as Hnew. rewrite Eg in Hnew. cbn in Hnew.
  set (st := new_stream new s0 d0 v).
  assert (stream_ok st) as Hstok by (destruct Hok as (_ & ?); by split).
  erewrite cbind_ret by (unfold do_uuid; cbn; by rewrite Eg).
  erewrite cbind_ret by (apply on_mem_run, (new_ksid_info_run _ _ _ _ _ st); done).
  destruct (link_new_run (set_k_mem (alloc_stream st (k_mem s)) (set_k_uuid g'
    (set_k_rng (srand (wrap32 (k_clock s))) s))) (k_mem s) sg ls st) as (s' & Hrun & Hrep & Hfr & Ho);
    try done.
  do 2 eexists. split_and!; [|done..]. cbn in Hrun |- *. erewrite cbind_ret by apply Hrun. done.
Qed.

(** ** Keys *)

Lemma hash_step h b : wrap32 (wrap32 (wrap32 (Z.shiftl h 5) + h) + b2z b) = wrap32 (33 * h + b2z b).
Proof.
  unfold wrap32. rewrite Z.shiftl_mul_pow2 by lia.
  rewrite Z.add_mod_idemp_l by lia. rewrite <- Z.add_assoc.
  rewrite Z.add_mod_idemp_l by lia. f_equal. lia.
Qed.

Lemma hash_loop_run s rest h : str_ok s ->
  hash_loop ((Some <$> s ++ [x00]) ++ rest) h =
    inl (foldl (fun h b => wrap32 (33 * h + b2z b)) h s).
Proof.
  revert h. induction s as [|a s IH]; intros h Hs; [done|].
  apply not_elem_of_cons in Hs as [Ha Hs]. cbn.
  rewrite decide_False by congruence. rewrite hash_step. by apply IH.
Qed.

Lemma simple_hash_run m p s : str_at m p s -> simple_hash p m = Ret (abs_hash s) m.
Proof.
  intros (Hs & b & off & l & rest & -> & Hb & Ho & Hd). unfold simple_hash.
  erewrite cbind_ret; [|unfold suffix_at; by rewrite Hb]. by rewrite Hd, hash_loop_run.
Qed.

Lemma z2b_rem r : z2b (Z.rem r 256) = z2b r.
Proof.
  apply b2z_inj. rewrite !b2z_z2b. pose proof (Z.quot_rem' r 256) as E.
  rewrite E at 2. rewrite Z.add_comm, Z.mul_comm, Z.mod_add by lia. done.
Qed.

Lemma set_block_id b c m : heap m !! b = Some c -> set_block b c m = m.
Proof. intros. unfold set_block. destruct m; simpl in *. by rewrite insert_id. Qed.

(** [fill_random] from byte [length pre] on. *)
Lemma fill_random_run n pre s b :
  heap (k_mem s) !! b = Some (Bytes (pre ++ replicate n None)) ->
  fill_random (Ptr b 0) (Z.of_nat (length pre)) n s =
    Ret tt (set_k_rng (rand_after (k_rng s) n)
      (set_k_mem (set_block b (Bytes (pre ++ (Some <$> rand_bytes (k_rng s) n))) (k_mem s)) s)).
Proof.
  revert pre s. induction n as [|n IH]; intros pre s Hb.
  - cbn in *. rewrite set_block_id by done. by destruct s.
  - cbn [fill_random]. erewrite cbind_ret by done. rewrite z2b_rem.
    set (s1 := set_k_rng (rand (k_rng s)).2 s). set (x := z2b (rand (k_rng s)).1).
    erewrite cbind_ret.
    2: { apply (on_mem_run _ s1). unfold padd. rewrite Nat2Z.id, Nat.add_0_l.
         apply (store_bytes_at _ b pre [None] (replicate n None) [Some x]); [apply Hb | done]. }
    replace (Z.of_nat (length pre) + 1) with (Z.of_nat (length (pre ++ [Some x])))
      by (rewrite length_app; simpl; lia).
    rewrite IH.
    2: { cbn. rewrite lookup_insert_eq, <- app_assoc. done. }
    unfold set_k_rng, set_k_mem. cbn. rewrite set_block_twice, <- app_assoc. done.
Qed.

(** The state after a key has been generated into a new block. *)
Definition key_state (g : rng) (key : list byte) (s : kms) : kms :=
  set_k_rng g (set_k_mem (alloc (Bytes (Some <$> key)) (k_mem s)) s).

Definition key_buffer_at (n : Z) (m : mem) : qkd_key_buffer_t :=
  {| size := n; data := Ptr (next m) 0 |}.

Lemma fill_fresh_run g n s :
  fill_random (Ptr (next (k_mem s)) 0) 0 n
    (set_k_rng g (set_k_mem (alloc (Bytes (replicate n None)) (k_mem s)) s))
  = Ret tt (key_state (rand_after g n) (rand_bytes g n) s).
Proof.
  rewrite (fill_random_run n []) by apply lookup_alloc.
  unfold key_state, set_k_rng, set_k_mem. cbn. by rewrite set_block_alloc.
Qed.

Lemma gen_pseudorandom_key_run s src dst s0 d0 n index :
  str_at (k_mem s) src s0 -> str_at (k_mem s) dst d0 -> u32 n ->
  exists g, gen_pseudorandom_key src dst n index s =
    Ret (key_buffer_at n (k_mem s)) (key_state g (abs_key s0 d0 (Z.to_nat n) index) s).
Proof.
  intros Hs Hd Hn. unfold gen_pseudorandom_key.
  erewrite cbind_ret by by apply on_mem_read, simple_hash_run.
  erewrite cbind_ret by by apply on_mem_read, simple_hash_run.
  erewrite cbind_ret by apply on_mem_run, malloc_ok.
  rewrite decide_False by done. erewrite cbind_ret by done.
  erewrite cbind_ret by apply fill_fresh_run.
  unfold cret. rewrite wrap32_small, Z.lxor_0_l by done. by eexists.
Qed.

Lemma mask_even i : (Z.rem (Z.of_nat i) 2 =? 0) = Nat.even i.
Proof.
  rewrite Z.rem_mod_nonneg, <- Zeven_mod by lia.
  induction i as [|i IH]; [done|].
  by rewrite Nat2Z.inj_succ, Z.even_succ, Nat.even_succ, <- Z.negb_even, <- Nat.negb_even, IH.
Qed.

Lemma mask_loop_run l pre m b :
  heap m !! b = Some (Bytes (Some <$> pre ++ l)) ->
  mask_loop (Ptr b 0) (Z.of_nat (length pre)) (length l) m =
    Ret tt (set_block b (Bytes (Some <$> pre ++ imap (fun j => mask_byte (length pre + j)) l)) m).
Proof.
  revert pre m. induction l as [|x l IH]; intros pre m Hb.
  - cbn in *. by rewrite set_block_id.
  - cbn [mask_loop length]. unfold padd. rewrite Nat2Z.id, Nat.add_0_l.
    erewrite cbind_ret.
    2: { rewrite (load_init_reads _ _ _ _ 1 Hb : load_init _ 1 _ = _). reflexivity. }
    cbn [take le_val]. rewrite Z.mul_0_r, Z.add_0_r, mask_even.
    set (y := mask_byte (length pre) x).
    erewrite cbind_ret.
    2: { assert (store_bytes (Ptr b (length (Some <$> pre))) [Some y] m
           = Ret tt (set_block b (Bytes ((Some <$> pre) ++ [Some y] ++ (Some <$> l))) m)) as E.
         { apply (store_bytes_at _ _ _ [Some x]); [|done]. by rewrite Hb, fmap_app. }
         rewrite length_fmap in E. rewrite <- E. subst y. unfold mask_byte. by case_match. }
    replace (Z.of_nat (length pre) + 1) with (Z.of_nat (length (pre ++ [y])))
      by (rewrite length_app; simpl; lia).
    rewrite IH by (by rewrite lookup_set_block, <- app_assoc, fmap_app).
    rewrite set_block_twice, <- app_assoc. cbn [imap app]. rewrite Nat.add_0_r.
    do 6 f_equal. apply imap_ext. intros j z _. rewrite length_app. cbn. f_equal. lia.
Qed.

Lemma length_rand_bytes g n : length (rand_bytes g n) = n.
Proof. revert g. induction n as [|n IH]; intros g; [done|]. cbn. by rewrite IH. Qed.

Lemma length_abs_key s d n index : length (abs_key s d n index) = n.
Proof. apply length_rand_bytes. Qed.

Lemma gen_oblivious_run s src dst s0 d0 n index ty :
  str_at (k_mem s) src s0 -> str_at (k_mem s) dst d0 -> u32 n ->
  exists g, gen_oblivious_pseudorandom_key src dst n index ty s =
    Ret (key_buffer_at n (k_mem s))
      (key_state g (let k := abs_key s0 d0 (Z.to_nat n) index in
                    if ty =? 2 then imap mask_byte k else k) s).
Proof.
  intros Hs Hd Hn. unfold gen_oblivious_pseudorandom_key.
  erewrite cbind_ret by by apply on_mem_read, simple_hash_run.
  erewrite cbind_ret by by apply on_mem_read, simple_hash_run.
  erewrite cbind_ret by apply on_mem_run, malloc_ok.
  rewrite decide_False by done. erewrite cbind_ret by done.
  erewrite cbind_ret by apply fill_fresh_run. rewrite Z.lxor_0_l. cbv zeta.
  destruct (ty =? 2).
  - pose proof (mask_loop_run (abs_key s0 d0 (Z.to_nat n) index) [] _ _ (lookup_alloc _ (k_mem s)))
      as Hmask.
    rewrite length_abs_key in Hmask.
    erewrite cbind_ret by (apply on_mem_run, Hmask).
    unfold cret. rewrite wrap32_small by done. eexists. unfold key_state, set_k_rng, set_k_mem.
    cbn. rewrite set_block_alloc. done.
  - erewrite cbind_ret by done. unfold cret. rewrite wrap32_small by done. by eexists.
Qed.

(** ** GET_KEY *)

Lemma le_val_single x : le_val [x] = b2z x.
Proof. cbn. lia. Qed.

Lemma b2z_eqb x y : (b2z x =? b2z y) = bool_decide (x = y).
Proof.
  case_bool_decide as E; [subst; apply Z.eqb_refl|]. apply Z.eqb_neq. by intros ?%b2z_inj.
Qed.

(** Reading one byte of the metadata. *)
Lemma load_meta m b pre md : heap m !! b = Some (Bytes (Some <$> pre ++ md)) ->
  load_init (Ptr b (length pre)) 1 m =
    match md with [] => Fault OutOfBounds | x :: _ => Ret [x] m end.
Proof.
  intros Hb. rewrite (load_init_reads _ _ _ _ 1 Hb : load_init _ 1 _ = _). by destruct md.
Qed.

Lemma select_key_run s b md st sl nxt index :
  stream_ok st -> stream_at (k_mem s) st sl nxt ->
  heap (k_mem s) !! b = Some (Bytes (Some <$> md)) ->
  match key_view md with
  | None => select_key (node_of st sl nxt) (Ptr b 0) (key_chunk_size (st_qos st)) index s
            = Fault OutOfBounds
  | Some (kt, kr) =>
      exists g, select_key (node_of st sl nxt) (Ptr b 0) (key_chunk_size (st_qos st)) index s =
        Ret (key_buffer_at (key_chunk_size (st_qos st)) (k_mem s))
            (key_state g (abs_key_for st index kt kr) s)
  end.
Proof.
  intros (_ & (Hn & _) & _ & Hs & _ & Hd & _) (_ & _ & Hbs & Hbd) Hb.
  pose proof (str_block_at _ _ _ Hs Hbs) as Hsrc. pose proof (str_block_at _ _ _ Hd Hbd) as Hdst.
  unfold select_key, key_view, abs_key_for. cbn [node_of ksi_source ksi_destination].
  pose proof (load_meta _ _ [] _ Hb) as Hl. cbn [length] in Hl.
  destruct md as [|kt md]; [erewrite cbind_fault; [done | by apply on_mem_fault]|].
  erewrite cbind_ret by by apply on_mem_read.
  rewrite le_val_single. change (key_type_code _) with (b2z x00). rewrite b2z_eqb.
  case_decide as Ekt; [rewrite bool_decide_true by done | rewrite bool_decide_false by done].
  { rewrite decide_True by done. by apply gen_pseudorandom_key_run. }
  pose proof (load_meta _ _ [kt] _ Hb) as Hl2. cbn [length] in Hl2.
  destruct md as [|kr md]; [erewrite cbind_fault; [done | by apply on_mem_fault]|].
  erewrite cbind_ret by by apply on_mem_read.
  rewrite (decide_False (P := kt = x00)) by done.
  rewrite le_val_single. change 16 with (b2z x10). rewrite b2z_eqb.
  case_decide as Ekr; [rewrite bool_decide_true by done | rewrite bool_decide_false by done].
  - by apply (gen_oblivious_run s _ _ _ _ _ index 1 Hsrc Hdst).
  - by apply (gen_oblivious_run s _ _ _ _ _ index 2 Hsrc Hdst).
Qed.

Lemma length_device_info c : config_ok c -> Z.of_nat (length (device_info c)) < 1000.
Proof.
  intros [Hr Hq]. unfold device_info. rewrite !length_app.
  pose proof (length_print_d _ Hr). pose proof (length_print_f _ Hq).
  assert (length (lit "{'device_info': ['key_rate': ") = 29%nat) as -> by done.
  assert (length (lit ", 'qber': ") = 10%nat) as -> by done.
  assert (length (lit "]}") = 2%nat) as -> by done. lia.
Qed.

Lemma abs_take_split id sg1 st sg2 : find_by_ksid id sg1 = None -> id = st_ksid st ->
  abs_take id (sg1 ++ st :: sg2) = sg1 ++ bump_index st :: sg2.
Proof.
  intros Hn ->. induction sg1 as [|st1 sg1 IH]; cbn; [by rewrite decide_True|].
  cbn in Hn. case_decide; [done|]. by rewrite IH.
Qed.

(** The metadata of a response. *)
Definition device_metadata (c : server_context_data_example_t) : list byte :=
  device_info c ++ [x00].

(** The state GET_KEY leaves: a key, the metadata, and the counter of the stream. *)
Definition get_key_mem (m : mem) (key md : list byte) (b : nat) (n : qkd_ksid_info_t) : mem :=
  set_block b (Node n) (alloc (Bytes (Some <$> md)) (alloc (Bytes (Some <$> key)) m)).

Lemma get_key_mem_frame m key md b n ls : mem_wf m ->
  (forall b', b' ∈ foot ls -> (b' < next m)%nat) -> b ∈ foot ls ->
  mem_frame m (get_key_mem m key md b n) ls ls [next m; S (next m)].
Proof.
  intros Hm Hls Hb. apply mem_frame_set; [done|]. split_and!; [cbn; lia|..]; try (by auto).
  - intros b' Hb' _. by rewrite !lookup_alloc_ne by (cbn; lia).
  - intros b' Hb' _ Hr. rewrite !elem_of_cons in Hr.
    rewrite !lookup_alloc_ne by (cbn; tauto). by apply Hm.
  - rewrite !NoDup_cons, !elem_of_cons, !elem_of_nil. split_and!; [lia|tauto|apply NoDup_nil_2].
  - intros b'. rewrite !elem_of_cons, elem_of_nil. intros [->|[->|[]]].
    + split_and!; [done|intros ?%Hls; lia|]. rewrite lookup_alloc_ne by (cbn; lia).
      by rewrite lookup_alloc.
    + split_and!; [lia|intros ?%Hls; lia|]. by erewrite (lookup_alloc _ (alloc _ m)).
Qed.

Definition metadata_buffer (b : nat) (md : list byte) : qkd_metadata_t :=
  {| size := Z.of_nat (length md); data := Ptr b 0 |}.

(** The second half of [qkd_get_key]: the metadata of the response and the counter. *)
Lemma device_metadata_run s m : config_ok (k_config s) -> k_mem s = m -> mem_wf m ->
  let n := size_add (Z.of_nat (length (device_info (k_config s)))) 1 in
  (SSL3_RT_MAX_PLAIN_LENGTH <? n) = false /\
  wrap32 n = Z.of_nat (length (device_metadata (k_config s))) /\
  malloc n m = Ret (Ptr (next m) 0) (alloc (Bytes (replicate (Z.to_nat n) None)) m) /\
  store_bytes (Ptr (next m) 0) (Some <$> device_metadata (k_config s))
    (alloc (Bytes (replicate (Z.to_nat n) None)) m)
  = Ret tt (alloc (Bytes (Some <$> device_metadata (k_config s))) m).
Proof.
  intros Hc _ Hm n. pose proof (length_device_info _ Hc) as Hl. subst n.
  unfold device_metadata. rewrite size_add_small, length_app by lia. cbn [length].
  split_and!.
  - apply Z.ltb_ge. unfold SSL3_RT_MAX_PLAIN_LENGTH. lia.
  - rewrite wrap32_small by (unfold u32; lia). lia.
  - apply malloc_ok.
  - apply store_fresh. rewrite length_app. cbn [length]. lia.
Qed.

(** The key stream is found and the request's metadata can be read. *)
Lemma qkd_get_key_found s sg1 st sg2 ls1 sl ls2 id index kb b md st0 kt kr :
  let sg := sg1 ++ st :: sg2 in let ls := ls1 ++ sl :: ls2 in let m := k_mem s in
  kms_rep s sg ls -> length sg1 = length ls1 -> config_ok (k_config s) ->
  find_ksid (list_fuel m) id (head_ptr ls Null) m = Ret (Ptr (sl_node sl) 0) m ->
  heap m !! b = Some (Bytes (Some <$> md)) -> key_view md = Some (kt, kr) ->
  if decide (i32 (st_index st + 1)) then
    exists s',
      qkd_get_key id index kb (metadata_buffer b md) st0 s =
        Ret (index, key_buffer_at (key_chunk_size (st_qos st)) m,
             metadata_buffer (S (next m)) (device_metadata (k_config s)), 0) s' /\
      kms_rep s' (sg1 ++ bump_index st :: sg2) ls /\
      k_mem s' = get_key_mem m (abs_key_for st index kt kr) (device_metadata (k_config s))
                   (sl_node sl) (node_of (bump_index st) sl (head_ptr ls2 Null)) /\
      others s s' (k_uuid s) ls
  else qkd_get_key id index kb (metadata_buffer b md) st0 s = Fault SignedOverflow.
Proof.
  intros sg ls m (Hm & Hh & Hst & Hnd) Hlen Hc Hfind Hb Hview.
  pose proof Hst as Hst'. apply streams_at_app in Hst' as [_ (Hok & Hat & _)]; [|done].
  pose proof Hat as (Hn & _).
  pose proof (select_key_run s b md st sl (head_ptr ls2 Null) index Hok Hat Hb) as Hsel.
  rewrite Hview in Hsel. destruct Hsel as [g Hsel].
  set (key := abs_key_for st index kt kr) in *.
  assert (extends m (alloc (Bytes (Some <$> key)) m)) as He1 by by apply extends_alloc.
  assert (extends m (alloc (Bytes (Some <$> device_metadata (k_config s)))
    (alloc (Bytes (Some <$> key)) m))) as He2 by (etrans; [done | auto with c_mem]).
  destruct (device_metadata_run (key_state g key s) _ Hc eq_refl) as (H1 & H2 & H3 & H4);
    [cbn; auto with c_mem|].
  unfold qkd_get_key. erewrite cbind_ret by done.
  erewrite cbind_ret by (apply on_mem_read; rewrite Hh; apply Hfind).
  rewrite (decide_False (P := Ptr _ _ = Null)) by done.
  erewrite cbind_ret by by apply on_mem_read, load_node_ok.
  cbn [data metadata_buffer]. erewrite cbind_ret by apply Hsel.
  cbn [k_config key_state set_k_rng set_k_mem] in H1, H2, H3, H4. rewrite H1.
  erewrite cbind_ret by apply on_mem_run, H3.
  erewrite cbind_ret by apply on_mem_run, H4.
  erewrite cbind_ret by (apply on_mem_read, load_node_ok; by eapply extends_lookup).
  cbn [node_of ksi_current_index]. case_decide; [|done].
  erewrite cbind_ret.
  2: { apply on_mem_run. eapply store_node_ok. by eapply extends_lookup. }
  rewrite H2. eexists. split; [done|]. unfold kms_rep, others.
  cbn [k_mem k_config k_uuid k_clock set_k_mem set_k_rng key_state].
  rewrite set_linked_list_same by done. split_and!; try done.
  - apply mem_wf_set_block; [auto with c_mem|]. eexists. by eapply extends_lookup.
  - apply NoDup_foot_split in Hnd as (Hn1 & Hn2 & Hn3).
    eapply (streams_at_set _ sg1 st (bump_index st) sg2 sg2 ls1 sl ls2 ls2 Null Null); try done.
    + by eapply streams_at_extends.
    + apply streams_at_app in Hst as [_ (_ & _ & Hr)]; [|done]. by eapply streams_at_extends.
Qed.

End proofs.
