(* ===== verification/Interfaces.v ===== *)
(** [include/qkd/interfaces.h] and [src/qkd/interfaces.c]: the three calls of the
    application interface, which the server example and the socket client both
    implement, and their [*_struct] forms on messages.

    The interface is a class: [QkdApp S] has the calls, on a program state [S] that
    contains a memory.  In-out and out parameters are arguments and results; a
    struct the caller has initialised with [= {}] passes zeros.  Logging under
    [QKD_LOG_DEBUG] is not compiled in and not modelled. *)

From S2P Require Import Prelude Models Memory Wire Sizes Platform Serializers SerializersSpec.
From S2P Require Import Copy.

(** ** Program states that contain a memory *)
Class HasMem (S : Type) := {
  get_mem : S -> mem;
  set_mem : mem -> S -> S;
}.

Class HasMemOk (S : Type) {HM : HasMem S} : Prop := {
  get_set_mem : forall m s, get_mem (set_mem m s) = m;
  set_get_mem : forall s, set_mem (get_mem s) s = s;
  set_set_mem : forall m m' s, set_mem m (set_mem m' s) = set_mem m s;
}.

(** A memory operation in a program. *)
Definition in_mem {S A} {HM : HasMem S} (e : C mem A) : C S A := zoom get_mem set_mem e.

(** ** The application interface *)
Class QkdApp (S : Type) := {
  app_open_connect : qkd_uri_t -> qkd_uri_t -> qkd_qos_t -> uuid_t -> Z ->
    C S (qkd_qos_t * uuid_t * Z);
  app_get_key : uuid_t -> Z -> qkd_key_buffer_t -> qkd_metadata_t -> Z ->
    C S (Z * qkd_key_buffer_t * qkd_metadata_t * Z);
  app_close : uuid_t -> Z -> C S Z;
}.

Section interfaces.
Context {S : Type} {HM : HasMem S} {APP : QkdApp S} {ML : Malloc}.

Definition qkd_open_connect_struct (r : qkd_open_connect_request_t) :
    C S qkd_open_connect_response_t :=
  let! q := in_mem (qkd_copy_qos qkd_qos_zero (ocq_qos r)) in
  let key_stream_id := ocq_key_stream_id r in
  let! '(q, key_stream_id, status) :=
    app_open_connect (ocq_source r) (ocq_destination r) q key_stream_id 0 in
  cret {| ocr_status := status; ocr_qos := q; ocr_key_stream_id := key_stream_id |}.

Definition qkd_get_key_struct (r : qkd_get_key_request_t) : C S qkd_get_key_response_t :=
  let index := gkq_index r in
  let metadata := gkq_metadata r in
  let! '(index, key_buffer, metadata, status) :=
    app_get_key (gkq_key_stream_id r) index qkd_bytes_zero metadata 0 in
  cret {| gkr_status := status; gkr_index := index; gkr_key_buffer := key_buffer;
          gkr_metadata := metadata |}.

Definition qkd_close_struct (r : qkd_close_request_t) : C S qkd_close_response_t :=
  let! status := app_close (clq_key_stream_id r) 0 in
  cret {| clr_status := status |}.

(** ** Lemmas *)

Context {HMO : HasMemOk S}.

Lemma in_mem_run {A} (e : C mem A) s a m' :
  e (get_mem s) = Ret a m' -> in_mem e s = Ret a (set_mem m' s).
Proof. unfold in_mem, zoom. by intros ->. Qed.

Lemma in_mem_read {A} (e : C mem A) s a :
  e (get_mem s) = Ret a (get_mem s) -> in_mem e s = Ret a s.
Proof. intros H. by rewrite (in_mem_run _ _ _ _ H), set_get_mem. Qed.

Lemma in_mem_fault {A} (e : C mem A) s f : e (get_mem s) = Fault f -> in_mem e s = Fault f.
Proof. unfold in_mem, zoom. by intros ->. Qed.

Lemma in_mem_aborted {A} (e : C mem A) s m' :
  e (get_mem s) = Aborted m' -> in_mem e s = Aborted (set_mem m' s).
Proof. unfold in_mem, zoom. by intros ->. Qed.

End interfaces.

(** ** Messages behind a header

    What [qkd_servlet] does with each response and the client with each request: a
    buffer for the header and the payload is allocated and both are written to it. *)
Section messages.
Context {S : Type} {HM : HasMem S} {ML : Malloc}.

(** The buffer and its size; [payload_size] is a [uint32_t]. *)
Definition pack_message (sv : qkd_service) (n : Z) (write : ptr -> C mem ptr) : C S (Z * ptr) :=
  let header := {| version := QKD_004_VERSION; service := service_code sv;
                   payload_size := wrap32 n |} in
  let message_size := size_add sizeof_header (payload_size header) in
  let! buf := in_mem (malloc message_size) in
  let stream := buf in
  let! stream := in_mem (qkd_header_to_stream header stream) in
  let! stream := in_mem (write stream) in
  cret (message_size, buf).

(** [if (p != NULL) free(p)] *)
Definition free_if (p : ptr) : C mem unit := if decide (p <> Null) then free p else cret tt.

(** A message: a header with the size of the payload, and the payload. *)
Definition header_for (sv : qkd_service) (bs : list byte) : qkd_header_t :=
  {| version := QKD_004_VERSION; service := service_code sv;
     payload_size := Z.of_nat (length bs) |}.

Definition message (sv : qkd_service) (bs : list byte) : list byte :=
  enc header_codec (header_for sv bs) ++ bs.

Lemma length_message sv bs : length (message sv bs) = (8 + length bs)%nat.
Proof. unfold message. by rewrite length_app, length_enc_header. Qed.

Context {HMO : HasMemOk S} {MT : MallocTotal}.

Lemma block_data m b bs : heap m !! b = Some (Bytes (Some <$> bs)) -> data_at m (Ptr b 0) bs.
Proof.
  intros Hb. right. exists b, 0%nat, (Some <$> bs), []. rewrite app_nil_r.
  split_and!; [done..|lia|done].
Qed.

Lemma pack_message_run sv n write bs (R : mem -> Prop) s :
  mem_wf (get_mem s) -> (forall b, heap (get_mem s) !! b = None -> writes b R write bs) ->
  (forall m', extends (get_mem s) m' -> R m') ->
  (forall b, heap (get_mem s) !! b = None -> stable_off b R) ->
  n = Z.of_nat (length bs) -> n < 2 ^ 32 ->
  pack_message sv n write s =
    Ret (Z.of_nat (length (message sv bs)), Ptr (next (get_mem s)) 0)
        (set_mem (alloc (Bytes (Some <$> message sv bs)) (get_mem s)) s).
Proof.
  intros Hm Hw HR Hst Hn Hlt. unfold pack_message, message.
  assert (wrap32 n = n) as -> by (apply wrap32_small; unfold u32; lia).
  cbn [payload_size]. rewrite length_app, length_enc_header.
  unfold sizeof_header. rewrite size_add_small by lia.
  set (m := get_mem s) in *. assert (heap m !! next m = None) as Hnew by by apply Hm.
  erewrite cbind_ret by apply in_mem_run, malloc_ok.
  set (k := Z.to_nat (8 + n)). set (h := header_for sv bs).
  pose proof (writes_seq (next m) R (qkd_header_to_stream h) write (enc header_codec h) bs
    (Hst _ Hnew) (writes_header _ _ h) (Hw _ Hnew)
    (alloc (Bytes (replicate k None)) m) [] (replicate k None)
    (HR _ (extends_alloc _ _ Hm)) (lookup_alloc _ _)) as H.
  rewrite decide_True in H by (rewrite length_replicate, length_app, length_enc_header; lia).
  apply cbind_inv in H as (p & m' & H1 & H2).
  erewrite cbind_ret.
  2: { apply in_mem_run. rewrite get_set_mem. unfold h, header_for in H1. rewrite <- Hn in H1.
       exact H1. }
  erewrite cbind_ret by (apply in_mem_run; rewrite get_set_mem; exact H2). unfold cret.
  rewrite !set_set_mem, set_block_alloc, drop_ge, app_nil_r
    by (rewrite length_replicate, length_app, length_enc_header; lia).
  do 3 f_equal. lia.
Qed.

(** The size of a payload of [2 ^ 32] bytes and more does not fit its field: the buffer is
    too small for the message. *)
Lemma pack_message_overflow sv n write bs (R : mem -> Prop) s :
  mem_wf (get_mem s) -> (forall b, heap (get_mem s) !! b = None -> writes b R write bs) ->
  (forall m', extends (get_mem s) m' -> R m') ->
  (forall b, heap (get_mem s) !! b = None -> stable_off b R) ->
  2 ^ 32 <= Z.of_nat (length bs) -> pack_message sv n write s = Fault OutOfBounds.
Proof.
  intros Hm Hw HR Hst Hbs. unfold pack_message. cbn [payload_size].
  pose proof (wrap32_u32 n) as Hn. unfold u32 in Hn. unfold sizeof_header.
  rewrite size_add_small by lia. set (m := get_mem s) in *.
  assert (heap m !! next m = None) as Hnew by by apply Hm.
  erewrite cbind_ret by apply in_mem_run, malloc_ok.
  set (k := Z.to_nat (8 + wrap32 n)).
  set (h := {| version := _; service := _; payload_size := _ |}).
  pose proof (writes_seq (next m) R (qkd_header_to_stream h) write (enc header_codec h) bs
    (Hst _ Hnew) (writes_header _ _ h) (Hw _ Hnew)
    (alloc (Bytes (replicate k None)) m) [] (replicate k None)
    (HR _ (extends_alloc _ _ Hm)) (lookup_alloc _ _)) as H.
  rewrite decide_False in H by (rewrite length_replicate, length_app, length_enc_header; lia).
  pose proof (writes_header (next m) (fun _ => True) h (alloc (Bytes (replicate k None)) m) []
    (replicate k None) I (lookup_alloc _ _)) as Hh.
  rewrite decide_True in Hh by (rewrite length_replicate, length_enc_header; lia).
  cbn [length] in H, Hh. unfold cbind at 1 in H. rewrite Hh in H.
  erewrite cbind_ret by (apply in_mem_run; rewrite get_set_mem; exact Hh).
  apply cbind_fault, in_mem_fault. by rewrite get_set_mem.
Qed.

End messages.

(** ** What an application promises

    [AppSpec A] is the behaviour of the three calls on an abstract state [A];
    [AppOk] relates a [QkdApp] to it.  [app_rep s a F] says that the program state
    [s] stands for [a] and keeps its data in the blocks [F].  The promise is what
    the socket server is verified against. *)
Inductive gk_result (A : Type) :=
  | GkDenied (status : Z)                         (** a status and nothing else *)
  | GkKey (key md : list byte) (a : A)            (** a key, metadata and a new state *)
  | GkFault (f : fault).                          (** the call is undefined *)
Arguments GkDenied {A} _.
Arguments GkKey {A} _ _ _.
Arguments GkFault {A} _.

Class AppSpec (A : Type) := {
  spec_open : list byte -> list byte -> qos (list byte) -> uuid_t -> A -> uuid_t * A;
  spec_get_key : uuid_t -> Z -> list byte -> A -> gk_result A;
}.

Definition buffer (b : nat) (s : list byte) : qkd_bytes_t :=
  {| size := Z.of_nat (length s); data := Ptr b 0 |}.

(** What the call is given: a decoded request. *)
Definition open_args_ok (s d : list byte) (v : qos (list byte)) : Prop :=
  qos_ok v /\ short (metadata_mimetype v) /\ str_ok s /\ short s /\ str_ok d /\ short d.

Class AppOk (App A : Type) {HM : HasMem App} {APP : QkdApp App} {SP : AppSpec A} := {
  app_rep : App -> A -> list nat -> Prop;
  app_rep_wf : forall s a F, app_rep s a F -> mem_wf (get_mem s);
  app_rep_live : forall s a F b, app_rep s a F -> b ∈ F -> is_Some (heap (get_mem s) !! b);
  app_rep_frame : forall s a F m, app_rep s a F -> mem_wf m ->
    (forall b, b ∈ F -> heap m !! b = heap (get_mem s) !! b) -> app_rep (set_mem m s) a F;
  app_open_ok : forall s a F src dst q s0 d0 v id st0,
    app_rep s a F -> uuid_ok id -> str_at (get_mem s) src s0 -> str_at (get_mem s) dst d0 ->
    qos_at (get_mem s) q v -> open_args_ok s0 d0 v ->
    uuid_ok (spec_open s0 d0 v id a).1 /\
    exists s' F',
      app_open_connect src dst q id st0 s =
        Ret (q, (spec_open s0 d0 v id a).1, status_code qkd_status_code_successful) s' /\
      app_rep s' (spec_open s0 d0 v id a).2 F' /\ frame (get_mem s) (get_mem s') F F' [];
  app_get_key_ok : forall s a F b id index kb md st0,
    app_rep s a F -> uuid_ok id -> heap (get_mem s) !! b = Some (Bytes (Some <$> md)) ->
    match spec_get_key id index md a with
    | GkDenied status =>
        u32 status /\
        app_get_key id index kb (buffer b md) st0 s = Ret (index, kb, buffer b md, status) s
    | GkKey key md' a' =>
        blob_ok key /\ blob_ok md' /\
        exists s' k d,
          app_get_key id index kb (buffer b md) st0 s =
            Ret (index, buffer k key, buffer d md', status_code qkd_status_code_successful) s' /\
          app_rep s' a' F /\ frame (get_mem s) (get_mem s') F F [k; d] /\ k <> d /\
          (next (get_mem s) <= k)%nat /\ (next (get_mem s) <= d)%nat /\
          heap (get_mem s') !! k = Some (Bytes (Some <$> key)) /\
          heap (get_mem s') !! d = Some (Bytes (Some <$> md'))
    | GkFault f => app_get_key id index kb (buffer b md) st0 s = Fault f
    end;
  app_close_ok : forall s a F id st0,
    app_rep s a F -> app_close id st0 s = Ret (status_code qkd_status_code_successful) s;
}.
