(* ===== verification/KmsApp.v ===== *)
(** The key management server of [Kms.v] as an implementation of the application
    interface: the instances of [HasMem], [QkdApp], [AppSpec] and [AppOk]. *)

From S2P Require Import Prelude Models Memory Wire Sizes Platform Printf SerializersSpec Copy Kms.
From S2P Require Import KmsSpec KmsProofs Interfaces.

Section app.
Context {ML : Malloc} {LU : Libuuid} {RD : Rand}.

#[export] Instance kms_mem : HasMem kms := {| get_mem := k_mem; set_mem := set_k_mem |}.

#[export] Instance kms_mem_ok : HasMemOk kms.
Proof. split; [done | by intros [] | done]. Qed.

#[export] Instance kms_app : QkdApp kms := {|
  app_open_connect := qkd_open_connect;
  app_get_key := qkd_get_key;
  app_close := qkd_close;
|}.

(** The abstract server: the source of ids, the text of its metadata, its streams. *)
Record akms := { a_uuid : uuid_source; a_metadata : list byte; a_streams : list stream }.

Definition abs_get_key (id : uuid_t) (index : Z) (md : list byte) (a : akms) : gk_result akms :=
  match find_by_ksid id (a_streams a) with
  | None => GkDenied (status_code qkd_status_code_gk_peer_not_connected)
  | Some st =>
      match key_view md with
      | None => GkFault OutOfBounds
      | Some (kt, kr) =>
          if decide (i32 (st_index st + 1)) then
            GkKey (abs_key_for st index kt kr) (a_metadata a)
              {| a_uuid := a_uuid a; a_metadata := a_metadata a;
                 a_streams := abs_take id (a_streams a) |}
          else GkFault SignedOverflow
      end
  end.

#[export] Instance akms_spec : AppSpec akms := {|
  spec_open s d v id a :=
    let '(id', g, sg) := abs_open s d v id (a_uuid a) (a_streams a) in
    (id', {| a_uuid := g; a_metadata := a_metadata a; a_streams := sg |});
  spec_get_key := abs_get_key;
|}.

Definition akms_rep (s : kms) (a : akms) (F : list nat) : Prop :=
  exists ls, F = foot ls /\ kms_rep s (a_streams a) ls /\ config_ok (k_config s) /\
    k_uuid s = a_uuid a /\ device_metadata (k_config s) = a_metadata a.

(** A state of the server represents one of the abstract server. *)
Lemma akms_rep_inj s a a' F F' : akms_rep s a F -> akms_rep s a' F' -> a = a'.
Proof.
  intros (ls & _ & (_ & Hh & Hst & _) & _ & Hu & Hc) (ls' & _ & (_ & Hh' & Hst' & _) & _ & Hu' & Hc').
  destruct a as [u md sg], a' as [u' md' sg']. cbn in *. subst.
  f_equal. eapply streams_at_inj; [done..|]. by rewrite <- Hh, Hh'.
Qed.

Context {MT : MallocTotal} {LO : LibuuidOk}.

Lemma akms_rep_frame s a F m : akms_rep s a F -> mem_wf m ->
  (forall b, b ∈ F -> heap m !! b = heap (k_mem s) !! b) -> akms_rep (set_k_mem m s) a F.
Proof.
  intros (ls & -> & (Hm & Hh & Hst & Hnd) & Hrest) Hwf Hf. exists ls.
  split; [done|]. split; [|done]. do 2 (split; [done|]). split; [|done].
  by eapply streams_at_frame.
Qed.

Lemma config_others s s' g ls' : others s s' g ls' -> config_ok (k_config s) ->
  config_ok (k_config s') /\ device_metadata (k_config s') = device_metadata (k_config s).
Proof. intros (_ & _ & ->). done. Qed.

Lemma akms_open_ok s a F src dst q s0 d0 v id st0 :
  akms_rep s a F -> uuid_ok id -> str_at (k_mem s) src s0 -> str_at (k_mem s) dst d0 ->
  qos_at (k_mem s) q v -> open_args_ok s0 d0 v ->
  uuid_ok (spec_open s0 d0 v id a).1 /\
  exists s' F',
    qkd_open_connect src dst q id st0 s =
      Ret (q, (spec_open s0 d0 v id a).1, status_code qkd_status_code_successful) s' /\
    akms_rep s' (spec_open s0 d0 v id a).2 F' /\ frame (k_mem s) (k_mem s') F F' [].
Proof.
  intros (ls & -> & Hrep & Hc & Hg & Hmd) Hid Hs Hd Hq Hok.
  assert (uuid_ok (spec_open s0 d0 v id a).1) as Hid'.
  { cbn. unfold abs_open. case_decide; [|done].
    destruct (find_by_pair s0 d0 (a_streams a)) as [st|] eqn:E.
    - apply find_by_pair_Some in E as [Hin _]. destruct Hrep as (_ & _ & Hst & _).
      apply streams_at_ok in Hst. rewrite Forall_forall in Hst. by apply Hst.
    - destruct (uuid_generate_random (a_uuid a)) as [u g] eqn:E2. cbn.
      pose proof (uuid_generate_random_ok (a_uuid a)) as H2. by rewrite E2 in H2. }
  split; [done|]. clear Hid'.
  pose proof (qkd_open_connect_run s _ ls src dst q s0 d0 v id st0 Hrep Hid Hs Hd Hq) as Hrun.
  rewrite Hg in Hrun. cbn.
  destruct (abs_open s0 d0 v id (a_uuid a) (a_streams a)) as [[id' g'] sg'].
  destruct Hrun as (s' & ls' & Hr & Hrep' & Hfr & Ho); [by split|].
  exists s', (foot ls'). split_and!; [done| |done].
  destruct (config_others _ _ _ _ Ho Hc) as [Hc' Hmd']. destruct Ho as (Hu & _).
  exists ls'. do 4 (split; [done|]). by rewrite Hmd'.
Qed.

Lemma length_abs_key_for st index kt kr :
  length (abs_key_for st index kt kr) = Z.to_nat (key_chunk_size (st_qos st)).
Proof.
  unfold abs_key_for. repeat case_decide; rewrite ?length_imap; apply length_abs_key.
Qed.

Lemma stream_ok_size st : stream_ok st -> u32 (key_chunk_size (st_qos st)).
Proof. by intros (_ & (H & _) & _). Qed.

Lemma akms_get_key_ok s a F b id index kb md st0 :
  akms_rep s a F -> uuid_ok id -> heap (k_mem s) !! b = Some (Bytes (Some <$> md)) ->
  match abs_get_key id index md a with
  | GkDenied status =>
      u32 status /\
      qkd_get_key id index kb (buffer b md) st0 s = Ret (index, kb, buffer b md, status) s
  | GkKey key md' a' =>
      blob_ok key /\ blob_ok md' /\
      exists s' k d,
        qkd_get_key id index kb (buffer b md) st0 s =
          Ret (index, buffer k key, buffer d md', status_code qkd_status_code_successful) s' /\
        akms_rep s' a' F /\ frame (k_mem s) (k_mem s') F F [k; d] /\ k <> d /\
        (next (k_mem s) <= k)%nat /\ (next (k_mem s) <= d)%nat /\
        heap (k_mem s') !! k = Some (Bytes (Some <$> key)) /\
        heap (k_mem s') !! d = Some (Bytes (Some <$> md'))
  | GkFault f => qkd_get_key id index kb (buffer b md) st0 s = Fault f
  end.
Proof.
  intros (ls & -> & Hrep & Hc & Hg & Hmd) Hid Hb. unfold abs_get_key.
  pose proof Hrep as (Hm & Hh & Hst & Hnd).
  pose proof (find_ksid_run _ id _ ls _ Hid Hst (streams_at_fuel _ _ _ _ Hst Hnd)) as Hfind.
  destruct (find_by_ksid id (a_streams a)) as [st|] eqn:Ef.
  2: { split; [done|]. unfold qkd_get_key. erewrite cbind_ret by done.
       by erewrite cbind_ret by (apply on_mem_read; rewrite Hh; apply Hfind). }
  destruct Hfind as (sg1 & sg2 & ls1 & sl & ls2 & Hsg & -> & Hlen & Hn1 & Hid' & Hrun).
  rewrite Hsg in *.
  assert (stream_at (k_mem s) st sl (head_ptr ls2 Null) /\ stream_ok st) as [Hat Hok].
  { apply streams_at_app in Hst as [_ (? & ? & _)]; done. }
  destruct (key_view md) as [[kt kr]|] eqn:Ev.
  - pose proof (qkd_get_key_found s sg1 st sg2 ls1 sl ls2 id index kb b md st0 kt kr
      Hrep Hlen Hc Hrun Hb Ev) as Hget.
    case_decide; [|done]. destruct Hget as (s' & Hr & Hrep' & Hm' & Ho).
    pose proof (stream_ok_size _ Hok) as Hsz. pose proof (length_device_info _ Hc) as Hdl.
    assert (blob_ok (a_metadata a)) as Hbl.
    { rewrite <- Hmd. unfold blob_ok, device_metadata. rewrite length_app. cbn [length]. lia. }
    split_and!; [unfold blob_ok, u32 in *; rewrite length_abs_key_for; lia | done |].
    exists s', (next (k_mem s)), (S (next (k_mem s))). rewrite Hm', abs_take_split by done.
    assert (sl_node sl <> next (k_mem s) /\ sl_node sl <> S (next (k_mem s))) as [? ?].
    { destruct Hat as [Hn _]. pose proof (mem_wf_live _ _ Hm (mk_is_Some _ _ Hn)). lia. }
    split_and!; try lia.
    + etrans; [exact Hr|]. unfold buffer, key_buffer_at, metadata_buffer.
      rewrite length_abs_key_for, Z2Nat.id, Hmd by (unfold u32 in *; lia). done.
    + destruct (config_others _ _ _ _ Ho Hc) as [Hc' Hmd']. destruct Ho as (Hu & _).
      exists (ls1 ++ sl :: ls2). do 3 (split; [done|]). split; [by rewrite Hu | by rewrite Hmd'].
    + apply get_key_mem_frame; [done| |].
      { intros b' Hb'. eapply mem_wf_live; [done|]. by eapply streams_at_live. }
      rewrite foot_app, foot_cons.
      apply elem_of_app. right. left.
    + unfold get_key_mem. rewrite lookup_set_block_ne by done.
      rewrite lookup_alloc_ne by (cbn; lia). apply lookup_alloc.
    + unfold get_key_mem. rewrite lookup_set_block_ne, <- Hmd by done. apply lookup_alloc.
  - pose proof (select_key_run s b md st sl (head_ptr ls2 Null) index Hok Hat Hb) as Hsel.
    rewrite Ev in Hsel. unfold qkd_get_key. erewrite cbind_ret by done.
    erewrite cbind_ret by (apply on_mem_read; rewrite Hh; apply Hrun).
    rewrite decide_False by done.
    erewrite cbind_ret by (apply on_mem_read, load_node_ok, Hat). by erewrite cbind_fault.
Qed.

Lemma akms_rep_wf s a F : akms_rep s a F -> mem_wf (k_mem s).
Proof. by intros (ls & -> & (Hm & _) & _). Qed.

Lemma akms_rep_live s a F b : akms_rep s a F -> b ∈ F -> is_Some (heap (k_mem s) !! b).
Proof. intros (ls & -> & (_ & _ & Hst & _) & _) Hb. by eapply streams_at_live. Qed.

#[export] Instance kms_ok : AppOk kms akms := {|
  app_rep := akms_rep;
  app_rep_wf := akms_rep_wf;
  app_rep_live := akms_rep_live;
  app_rep_frame := akms_rep_frame;
  app_open_ok := akms_open_ok;
  app_get_key_ok := akms_get_key_ok;
  app_close_ok _ _ _ _ _ _ := eq_refl;
|}.

End app.
