(* ===== verification/Socket.v ===== *)
(** The transfer functions of [src/qkd/ssl_socket.c], [socket_ssl_recv] and
    [socket_ssl_send], on a connection of OpenSSL and a program with a memory.

    What the functions print is not modelled; [socket_ssl_check_errors], in
    [Errors.v], does nothing else.  [NoFuel] is an endless loop as far as [fuel] reaches. *)

From S2P Require Import Prelude Models Memory Wire Sizes Platform Printf Interfaces.

(** The largest object of automatic storage that fits on the stack. *)
Class Stack := stack_limit : Z.

(** A program with an open connection. *)
Record sess {OS : Openssl} (S : Type) := Sess { s_app : S; s_ssl : ssl }.
Arguments Sess {OS S} _ _.
Arguments s_app {OS S} _.
Arguments s_ssl {OS S} _.

#[export] Instance sess_mem {OS : Openssl} {S} {HM : HasMem S} : HasMem (sess S) := {|
  get_mem w := get_mem (s_app w);
  set_mem m w := Sess (set_mem m (s_app w)) (s_ssl w);
|}.

#[export] Instance sess_mem_ok {OS : Openssl} {S} {HM : HasMem S} {HMO : HasMemOk S} :
  HasMemOk (sess S).
Proof.
  split; [intros m [s c] | intros [s c] | intros m m' [s c]]; cbn;
    by rewrite ?get_set_mem, ?set_get_mem, ?set_set_mem.
Qed.

Section socket.
Context {App : Type} {HM : HasMem App} {ML : Malloc} {OS : Openssl} {ST : Stack}.

Definition EXIT_FAILURE : Z := 1.

(** An operation of the application. *)
Definition in_app {A} (e : C App A) : C (sess App) A :=
  zoom s_app (fun s w => Sess s (s_ssl w)) e.

(** [SSL_read(ssl, buf, num)] and [SSL_write(ssl, buf, num)]. *)
Definition do_read (num : Z) : C (sess App) (Z * list byte) := fun w =>
  Ret (SSL_read (s_ssl w) num).1 (Sess (s_app w) (SSL_read (s_ssl w) num).2).

Definition do_write (l : list byte) : C (sess App) Z := fun w =>
  Ret (SSL_write (s_ssl w) l).1 (Sess (s_app w) (SSL_write (s_ssl w) l).2).

(** [(int) n] of a [size_t]. *)
Definition to_int (n : Z) : Z := as_int (wrap32 n).

(** The loop of [socket_ssl_recv]: each read stores at the start of [buf]. *)
Fixpoint recv_loop (fuel : nat) (buffer_max_size : Z) (buf : list mbyte) (buf_len : Z) :
    C (sess App) (list mbyte * Z) :=
  match fuel with
  | O => fun _ => NoFuel
  | S fuel =>
      if buf_len <? buffer_max_size then
        let! '(ret, bs) := do_read (to_int (buffer_max_size - buf_len)) in
        let buf := overwrite 0 (Some <$> bs) buf in
        let len := wrap64 ret in
        if len =? 0 then cexit EXIT_FAILURE else
        let buf_len := size_add buf_len len in
        if buffer_max_size =? SSL3_RT_MAX_PLAIN_LENGTH then cret (buf, buf_len)
        else recv_loop fuel buffer_max_size buf buf_len
      else cret (buf, buf_len)
  end.

Definition socket_ssl_recv (fuel : nat) (buffer_max_size : Z) : C (sess App) socket_data_t :=
  let buffer_max_size :=
    if buffer_max_size =? 0 then SSL3_RT_MAX_PLAIN_LENGTH else buffer_max_size in
  if stack_limit <? buffer_max_size then cfault StackOverflow else
  let buf := replicate (Z.to_nat buffer_max_size) None in
  let! '(buf, buf_len) := recv_loop fuel buffer_max_size buf 0 in
  let! p := in_mem (malloc buf_len) in
  (if buf_len <=? Z.of_nat (length buf)
   then in_mem (store_bytes p (take (Z.to_nat buf_len) buf))
   else cfault OutOfBounds);;;
  cret {| size := wrap32 buf_len; data := p |}.

(** A size of [2 ^ 31] and more is negative as the [int] passed to [SSL_write],
    which then sends nothing. *)
Definition socket_ssl_send (data_bytes : socket_data_t) : C (sess App) unit :=
  if size data_bytes =? 0 then cret tt else
  let! bs := in_mem (load_init (data data_bytes) (to_int (size data_bytes))) in
  let! len := do_write bs in
  cret tt.

(** ** Lemmas *)

Context {HMO : HasMemOk App} {MT : MallocTotal}.

(** The next read of [n] bytes gives all of [bs] and leaves the connection [c']. *)
Definition delivers (c : ssl) (n : Z) (bs : list byte) (c' : ssl) : Prop :=
  SSL_read c n = ((Z.of_nat (length bs), bs), c').

Lemma to_int_small n : 0 <= n < 2 ^ 31 -> to_int n = n.
Proof.
  intros. unfold to_int, as_int. rewrite wrap32_small by (unfold u32; lia).
  by rewrite (proj2 (Z.ltb_lt _ _)) by lia.
Qed.

Lemma overwrite_all (bs l : list mbyte) : length bs = length l -> overwrite 0 bs l = bs.
Proof.
  intros H. unfold overwrite. cbn. by rewrite H, drop_all, app_nil_r.
Qed.

(** A request of [n] bytes that one read satisfies. *)
Lemma socket_ssl_recv_run fuel n bs w c' :
  (2 <= fuel)%nat -> n = Z.of_nat (length bs) -> 0 < n < 2 ^ 31 -> n <= stack_limit ->
  delivers (s_ssl w) n bs c' ->
  socket_ssl_recv fuel n w =
    Ret {| size := n; data := Ptr (next (get_mem w)) 0 |}
        (Sess (set_mem (alloc (Bytes (Some <$> bs)) (get_mem w)) (s_app w)) c').
Proof.
  intros Hf Hn Hr Hs Hd. unfold socket_ssl_recv.
  rewrite (proj2 (Z.eqb_neq n 0)), (proj2 (Z.ltb_ge _ _)) by lia.
  assert (recv_loop fuel n (replicate (Z.to_nat n) None) 0 w
    = Ret (Some <$> bs, n) (Sess (s_app w) c')) as Hloop.
  { destruct fuel as [|[|fuel]]; [lia..|]. cbn [recv_loop].
    rewrite (proj2 (Z.ltb_lt 0 n)), Z.sub_0_r, to_int_small by lia.
    erewrite cbind_ret by (unfold do_read; by rewrite Hd). rewrite <- Hn. cbn [fst snd]. cbv beta iota zeta.
    rewrite wrap64_small, (proj2 (Z.eqb_neq n 0)), size_add_small, Z.add_0_l by lia.
    rewrite overwrite_all by (rewrite length_fmap, length_replicate; lia).
    rewrite Z.ltb_irrefl. by case_match. }
  erewrite cbind_ret by done. cbv beta iota.
  erewrite cbind_ret by apply in_mem_run, malloc_ok.
  rewrite length_fmap, (proj2 (Z.leb_le _ _)) by lia.
  erewrite cbind_ret.
  2: { apply in_mem_run. cbn. rewrite get_set_mem, take_ge by (rewrite length_fmap; lia).
       apply (store_bytes_at _ _ [] (replicate (Z.to_nat n) None) []).
       - rewrite lookup_alloc, app_nil_r. done.
       - rewrite length_replicate, length_fmap. lia. }
  unfold cret. rewrite wrap32_small by (unfold u32; lia). do 2 f_equal.
  cbn. by rewrite set_set_mem, set_block_alloc, app_nil_r.
Qed.

(** One turn of the loop of [socket_ssl_recv]. *)
Lemma recv_loop_turn fuel n buf len (w : sess App) r bs c' :
  0 <= len < n -> n < 2 ^ 31 -> SSL_read (s_ssl w) (n - len) = ((r, bs), c') ->
  recv_loop (S fuel) n buf len w =
    (if wrap64 r =? 0 then cexit EXIT_FAILURE
     else if n =? SSL3_RT_MAX_PLAIN_LENGTH
     then cret (overwrite 0 (Some <$> bs) buf, size_add len (wrap64 r))
     else recv_loop fuel n (overwrite 0 (Some <$> bs) buf) (size_add len (wrap64 r)))
    (Sess (s_app w) c').
Proof.
  intros Hl Hn Hrd. cbn [recv_loop]. rewrite (proj2 (Z.ltb_lt _ _)), to_int_small by lia.
  erewrite cbind_ret by (unfold do_read; by rewrite Hrd). done.
Qed.

Lemma wrap64_negative r : - 2 ^ 64 <= r < 0 -> wrap64 r = r + 2 ^ 64.
Proof. intros. unfold wrap64. rewrite <- (Z_mod_plus_full _ 1), Z.mod_small; lia. Qed.

(** The size that [socket_ssl_recv] asks for. *)
Definition asked (n : Z) : Z := if n =? 0 then SSL3_RT_MAX_PLAIN_LENGTH else n.

(** A first read without a byte: the peer has closed the connection, or an error. *)
Lemma recv_fails fuel n r (w : sess App) c' :
  (2 <= fuel)%nat -> 0 < asked n < 2 ^ 31 -> asked n <= stack_limit -> - 2 ^ 31 <= r <= 0 ->
  SSL_read (s_ssl w) (asked n) = ((r, []), c') ->
  socket_ssl_recv fuel n w =
    (if r =? 0 then Exit EXIT_FAILURE (Sess (s_app w) c') else Fault OutOfBounds).
Proof.
  intros Hf Hn Hs Hr Hrd. destruct fuel as [|[|fuel]]; [lia..|].
  unfold socket_ssl_recv. fold (asked n). set (size := asked n) in *. rewrite (proj2 (Z.ltb_ge _ _)) by done.
  assert (forall k : list mbyte * Z -> C (sess App) socket_data_t,
    cbind (recv_loop (S (S fuel)) size (replicate (Z.to_nat size) None) 0) k w =
    if r =? 0 then Exit EXIT_FAILURE (Sess (s_app w) c')
    else k (replicate (Z.to_nat size) None, r + 2 ^ 64) (Sess (s_app w) c')) as ->.
  { intros k. unfold cbind. rewrite (recv_loop_turn _ _ _ _ _ r [] c') by (rewrite ?Z.sub_0_r; done || lia).
    destruct (Z.eqb_spec r 0) as [->|Hne]; [done|].
    rewrite wrap64_negative, (proj2 (Z.eqb_neq _ 0)), size_add_small, Z.add_0_l by lia.
    destruct (size =? _); [done|]. cbn [recv_loop]. by rewrite (proj2 (Z.ltb_ge _ _)) by lia. }
  destruct (Z.eqb_spec r 0) as [_|Hne]; [done|]. cbv beta iota.
  erewrite cbind_ret by apply in_mem_run, malloc_ok.
  by rewrite length_replicate, (proj2 (Z.leb_gt _ _)) by lia.
Qed.

Lemma overwrite_start (bs l : list mbyte) : overwrite 0 bs l = bs ++ drop (length bs) l.
Proof. done. Qed.

(** What follows the loop. *)
Lemma recv_returns fuel n buf len (w : sess App) c' :
  0 < n < 2 ^ 31 -> n <= stack_limit -> 0 <= len <= n -> length buf = Z.to_nat n ->
  recv_loop fuel n (replicate (Z.to_nat n) None) 0 w = Ret (buf, len) (Sess (s_app w) c') ->
  socket_ssl_recv fuel n w =
    Ret {| size := len; data := Ptr (next (get_mem w)) 0 |}
      (Sess (set_mem (alloc (Bytes (take (Z.to_nat len) buf)) (get_mem w)) (s_app w)) c').
Proof.
  intros Hr Hs Hl Hbuf Hloop. unfold socket_ssl_recv.
  rewrite (proj2 (Z.eqb_neq n 0)), (proj2 (Z.ltb_ge _ _)) by lia.
  erewrite cbind_ret by exact Hloop. cbv beta iota.
  erewrite cbind_ret by apply in_mem_run, malloc_ok. rewrite (proj2 (Z.leb_le _ _)) by lia.
  erewrite cbind_ret.
  2: { apply in_mem_run. cbn. rewrite get_set_mem.
       apply (store_bytes_at _ _ [] (replicate (Z.to_nat len) None) []).
       - rewrite lookup_alloc, app_nil_r. done.
       - rewrite length_replicate, length_take. lia. }
  unfold cret. rewrite wrap32_small by (unfold u32; lia).
  cbn. by rewrite !set_set_mem, set_block_alloc, app_nil_r.
Qed.

(** Of the size 16384, which also stands for an unknown size, what the first read delivers is
    received. *)
Lemma recv_first_part fuel n l (w : sess App) c1 :
  (1 <= fuel)%nat -> n = 0 \/ n = SSL3_RT_MAX_PLAIN_LENGTH -> SSL3_RT_MAX_PLAIN_LENGTH <= stack_limit ->
  l <> [] -> (length l <= Z.to_nat SSL3_RT_MAX_PLAIN_LENGTH)%nat ->
  delivers (s_ssl w) SSL3_RT_MAX_PLAIN_LENGTH l c1 ->
  socket_ssl_recv fuel n w =
    Ret {| size := Z.of_nat (length l); data := Ptr (next (get_mem w)) 0 |}
      (Sess (set_mem (alloc (Bytes (Some <$> l)) (get_mem w)) (s_app w)) c1).
Proof.
  intros Hf Hn Hs Hne Hl Hd. assert (0 < length l)%nat by (destruct l; [done|cbn; lia]).
  assert (socket_ssl_recv fuel n w = socket_ssl_recv fuel SSL3_RT_MAX_PLAIN_LENGTH w) as ->
    by (destruct Hn as [->| ->]; done).
  set (N := SSL3_RT_MAX_PLAIN_LENGTH) in *. assert (N = 16384) as HN by done.
  set (buf := overwrite 0 (Some <$> l) (replicate (Z.to_nat N) None)).
  assert (length buf = Z.to_nat N) as Hbuf.
  { unfold buf. rewrite overwrite_start, length_app, length_drop, length_fmap, length_replicate. lia. }
  assert (recv_loop fuel N (replicate (Z.to_nat N) None) 0 w =
    Ret (buf, Z.of_nat (length l)) (Sess (s_app w) c1)) as Hloop.
  { destruct fuel as [|fuel]; [lia|].
    rewrite (recv_loop_turn _ _ _ _ _ (Z.of_nat (length l)) l c1) by (rewrite ?Z.sub_0_r; done || lia).
    rewrite wrap64_small, (proj2 (Z.eqb_neq _ 0)), Z.eqb_refl, size_add_small by lia. done. }
  rewrite (recv_returns fuel N buf (Z.of_nat (length l)) w c1) by (done || lia).
  unfold buf. by rewrite overwrite_start, Nat2Z.id, <- (length_fmap Some l), take_app_length.
Qed.

(** A payload [bs] that one read delivers: all of the [n] bytes, or, of an unknown size, those
    that there are. *)
Lemma recv_delivered fuel n bs (w : sess App) c' :
  (2 <= fuel)%nat -> 0 < Z.of_nat (length bs) < 2 ^ 31 -> asked n <= stack_limit ->
  (asked n = Z.of_nat (length bs) \/
   asked n = SSL3_RT_MAX_PLAIN_LENGTH /\ Z.of_nat (length bs) <= SSL3_RT_MAX_PLAIN_LENGTH) ->
  delivers (s_ssl w) (asked n) bs c' ->
  socket_ssl_recv fuel n w =
    Ret {| size := Z.of_nat (length bs); data := Ptr (next (get_mem w)) 0 |}
        (Sess (set_mem (alloc (Bytes (Some <$> bs)) (get_mem w)) (s_app w)) c').
Proof.
  intros Hf Hb Hs Hn Hd. unfold asked in *. destruct (Z.eqb_spec n 0) as [->|Hn0].
  - apply (recv_first_part fuel 0); try done; [lia|by left|intros ->; cbn in Hb; lia|].
    unfold SSL3_RT_MAX_PLAIN_LENGTH in *. lia.
  - destruct Hn as [->|[-> Hle]]; [by apply socket_ssl_recv_run|].
    apply (recv_first_part fuel SSL3_RT_MAX_PLAIN_LENGTH); try done; [lia|by right|intros ->; cbn in Hb; lia|].
    unfold SSL3_RT_MAX_PLAIN_LENGTH in *. lia.
Qed.

(** What sending the bytes [bs], the size of which is kept in 32 bits and passed to
    [SSL_write] as an [int], makes of a connection: of [2 ^ 31] bytes and more not all are
    written, and of fewer than [2 ^ 32] none. *)
Definition transmit (c : ssl) (bs : list byte) : ssl :=
  let n := Z.of_nat (length bs) in
  if wrap32 n =? 0 then c else (SSL_write c (take (Z.to_nat (to_int n)) bs)).2.

Lemma transmit_small c bs : 0 < Z.of_nat (length bs) < 2 ^ 31 ->
  transmit c bs = (SSL_write c bs).2.
Proof.
  intros H. unfold transmit. rewrite wrap32_small by (unfold u32; lia).
  rewrite (proj2 (Z.eqb_neq _ _)), to_int_small, take_ge by lia. done.
Qed.

Lemma to_int_wrap n : to_int (wrap32 n) = to_int n.
Proof. unfold to_int. by rewrite (wrap32_small (wrap32 n)) by apply wrap32_u32. Qed.

Lemma to_int_le n : 0 <= n -> to_int n <= n.
Proof.
  intros H. unfold to_int, as_int. pose proof (Z.mod_le n (2 ^ 32) H ltac:(lia)) as Hle.
  fold (wrap32 n) in Hle. case_match; lia.
Qed.

Lemma load_init_prefix m p bs k : data_at m p bs -> k <= Z.of_nat (length bs) ->
  load_init p k m = Ret (take (Z.to_nat k) bs) m.
Proof.
  intros Hd Hk. unfold load_init. destruct (Z.leb_spec k 0) as [Hz|Hz].
  { unfold load_bytes, cbind, cret. rewrite (proj2 (Z.leb_le k 0)) by lia.
    by rewrite Z2Nat.nonpos by lia. }
  destruct Hd as [->|(b & off & l & rest & -> & Hb & Ho & Hdr)]; [cbn in Hk; lia|].
  pose proof (load_bytes_at m b off l (Some <$> take (Z.to_nat k) bs)
    ((Some <$> drop (Z.to_nat k) bs) ++ rest) Hb) as H.
  rewrite app_assoc, <- fmap_app, take_drop, length_fmap, length_take in H.
  replace (Z.of_nat (Z.to_nat k `min` length bs)) with k in H by lia.
  erewrite cbind_ret by by apply H. by rewrite mapM_Some_fmap.
Qed.

(** Sending a buffer of any size. *)
Lemma socket_ssl_send_any d bs w :
  data_at (get_mem w) (data d) bs -> size d = wrap32 (Z.of_nat (length bs)) ->
  socket_ssl_send d w = Ret tt (Sess (s_app w) (transmit (s_ssl w) bs)).
Proof.
  intros Hd Hs. unfold socket_ssl_send, transmit. rewrite Hs, to_int_wrap.
  destruct (wrap32 _ =? 0); [by destruct w|].
  erewrite cbind_ret by (apply in_mem_read, (load_init_prefix _ _ bs); [done|apply to_int_le; lia]).
  by erewrite cbind_ret by done.
Qed.

(** Sending a buffer all of which has been written. *)
Lemma socket_ssl_send_run d bs w :
  data_at (get_mem w) (data d) bs -> size d = Z.of_nat (length bs) -> 0 < size d < 2 ^ 31 ->
  socket_ssl_send d w = Ret tt (Sess (s_app w) (SSL_write (s_ssl w) bs).2).
Proof.
  intros Hd Hs Hr. unfold socket_ssl_send. rewrite (proj2 (Z.eqb_neq _ 0)), to_int_small by lia.
  erewrite cbind_ret.
  2: { apply in_mem_read. unfold load_init. rewrite Hs.
       erewrite cbind_ret by by apply load_bytes_data. by rewrite mapM_Some_fmap. }
  by erewrite cbind_ret by done.
Qed.

End socket.
