(* ===== verification/Servlet.v ===== *)
(** [src/qkd/ssl_socket_server.c]: [qkd_servlet], which reads one request from a
    connection, has the application answer it and sends the response.

    [fuel] bounds the reads of one message.  The peer's address and the lines
    printed under [QKD_LOG_INFO] are not modelled. *)

From S2P Require Import Prelude Models Memory Wire Sizes Platform Serializers Copy Interfaces.
From S2P Require Import Socket.

Inductive server_status_t := SERVER_FINISHED | SERVER_LISTENING.

Section servlet.
Context {App : Type} {HM : HasMem App} {APP : QkdApp App}.
Context {ML : Malloc} {LU : Libuuid} {OS : Openssl} {ST : Stack}.

(** The branches of the dispatch on [header.service]. *)
Definition serve_open_connect (payload_stream : ptr) : C (sess App) (Z * ptr) :=
  let! '(oc_request, payload_stream) :=
    in_mem (qkd_open_connect_request_from_stream payload_stream) in
  let! oc_response := in_app (qkd_open_connect_struct oc_request) in
  let! n := in_mem (qkd_sizeof_open_connect_response oc_response) in
  let! res := pack_message QKD_SERVICE_OPEN_CONNECT_RESPONSE n
                (qkd_open_connect_response_to_stream oc_response) in
  in_mem (free_qkd_open_connect_request (Some oc_request));;;
  in_mem (free_qkd_open_connect_response (Some oc_response));;;
  cret res.

Definition serve_get_key (payload_stream : ptr) : C (sess App) (Z * ptr) :=
  let! '(gk_request, payload_stream) :=
    in_mem (qkd_get_key_request_from_stream payload_stream) in
  let! gk_response := in_app (qkd_get_key_struct gk_request) in
  let n := qkd_sizeof_get_key_response gk_response in
  let! res := pack_message QKD_SERVICE_GET_KEY_RESPONSE n
                (qkd_get_key_response_to_stream gk_response) in
  in_mem (free_qkd_get_key_request (Some gk_request));;;
  in_mem (free_qkd_get_key_response (Some gk_response));;;
  cret res.

Definition serve_close (payload_stream : ptr) : C (sess App) (Z * ptr) :=
  let! '(cl_request, payload_stream) :=
    in_mem (qkd_close_request_from_stream payload_stream) in
  let! cl_response := in_app (qkd_close_struct cl_request) in
  let n := qkd_sizeof_close_response cl_response in
  pack_message QKD_SERVICE_CLOSE_RESPONSE n (qkd_close_response_to_stream cl_response).

(** No branch taken: the size is that of a header, the buffer is null. *)
Definition serve (sv : Z) (payload_stream : ptr) : C (sess App) (Z * ptr) :=
  if sv =? service_code QKD_SERVICE_OPEN_CONNECT_REQUEST then serve_open_connect payload_stream
  else if sv =? service_code QKD_SERVICE_GET_KEY_REQUEST then serve_get_key payload_stream
  else if sv =? service_code QKD_SERVICE_CLOSE_REQUEST then serve_close payload_stream
  else cret (sizeof_header, Null).

Definition qkd_servlet (fuel : nat) (server_status : server_status_t) :
    C (sess App) server_status_t :=
  let! header_data := socket_ssl_recv fuel sizeof_header in
  let header_stream := data header_data in
  let! '(header, header_stream) := in_mem (qkd_header_from_stream header_stream) in
  in_mem (free_if (data header_data));;;
  if service header =? service_code QKD_SERVICE_CLOSE_SERVER then cret SERVER_FINISHED else
  let! received := socket_ssl_recv fuel (payload_size header) in
  let payload := data received in
  let! '(response_size, response_buf) := serve (service header) payload in
  in_mem (free_if payload);;;
  socket_ssl_send {| size := wrap32 response_size; data := response_buf |};;;
  in_mem (free_if response_buf);;;
  cret server_status.

End servlet.
