(* ===== verification/ServletProofs.v ===== *)
(** What [qkd_servlet] does with a request, for any application that keeps the
    promise [AppOk]: the abstract servlet [abs_serve] and the lemmas by which
    [Servlet.v] refines it.

    A run is followed on states [at_mem m s c]: the program [s] with memory [m] and
    connection [c]. *)

From S2P Require Import Prelude Models Memory Wire Sizes Platform Serializers SerializersSpec.
From S2P Require Import Copy Interfaces Socket Servlet.

(** What the servlet does in answer to a request. *)
Inductive reply (A : Type) :=
  | Reply (msg : list byte) (a : A)   (** [msg] is sent and the application is in [a] *)
  | Undefined (f : fault)             (** the behaviour is undefined *)
  | Killed.                           (** the process is aborted *)
Arguments Reply {A} _ _.
Arguments Undefined {A} _.
Arguments Killed {A}.

Section abstract.
Context {A : Type} {SP : AppSpec A}.

Definition abs_open_connect (body : list byte) (a : A) : reply A :=
  match dec oc_request_codec body with
  | None => Undefined OutOfBounds
  | Some (r, _) =>
      let '(id, a') := spec_open (ocq_source r) (ocq_destination r) (ocq_qos r)
                         (ocq_key_stream_id r) a in
      if decide (Z.of_nat (length (metadata_mimetype (ocq_qos r))) < MIMETYPE_MAX) then
        Reply (message QKD_SERVICE_OPEN_CONNECT_RESPONSE
                 (enc oc_response_codec
                    {| ocr_status := status_code qkd_status_code_successful;
                       ocr_qos := ocq_qos r; ocr_key_stream_id := id |})) a'
      else Killed
  end.

Definition gk_reply (r : get_key_response (list byte)) (a : A) : reply A :=
  Reply (message QKD_SERVICE_GET_KEY_RESPONSE (enc gk_response_codec r)) a.

(** A denied request is answered with its own metadata and no key. *)
Definition abs_serve_get_key (body : list byte) (a : A) : reply A :=
  match dec gk_request_codec body with
  | None => Undefined OutOfBounds
  | Some (r, _) =>
      match spec_get_key (gkq_key_stream_id r) (gkq_index r) (gkq_metadata r) a with
      | GkDenied status =>
          gk_reply {| gkr_status := status; gkr_index := gkq_index r; gkr_key_buffer := [];
                      gkr_metadata := gkq_metadata r |} a
      | GkKey key md a' =>
          gk_reply {| gkr_status := status_code qkd_status_code_successful;
                      gkr_index := gkq_index r; gkr_key_buffer := key; gkr_metadata := md |} a'
      | GkFault f => Undefined f
      end
  end.

Definition abs_close (body : list byte) (a : A) : reply A :=
  match dec cl_request_codec body with
  | None => Undefined OutOfBounds
  | Some (r, _) =>
      Reply (message QKD_SERVICE_CLOSE_RESPONSE
               (enc cl_response_codec
                  {| clr_status := status_code qkd_status_code_successful |})) a
  end.

(** The dispatch on the service; a request for a service that is not served makes
    the program send from a null pointer. *)
Definition abs_serve (sv : Z) (body : list byte) (a : A) : reply A :=
  if sv =? service_code QKD_SERVICE_OPEN_CONNECT_REQUEST then abs_open_connect body a
  else if sv =? service_code QKD_SERVICE_GET_KEY_REQUEST then abs_serve_get_key body a
  else if sv =? service_code QKD_SERVICE_CLOSE_REQUEST then abs_close body a
  else Undefined NullDeref.

(** The size of a payload is computed modulo [2 ^ 32], and with it the size of the buffer of
    the response: the writers leave the buffer of a response that is larger. *)
Definition packed (rp : reply A) : reply A :=
  match rp with
  | Reply msg a =>
      if decide (Z.of_nat (length msg) < 2 ^ 32 + 8) then rp else Undefined OutOfBounds
  | _ => rp
  end.

(** A response that is sent. *)
Definition reply_fits (rp : reply A) : Prop :=
  match rp with Reply msg _ => Z.of_nat (length msg) < 2 ^ 31 | _ => True end.

Lemma packed_reply (rp : reply A) msg a : packed rp = Reply msg a ->
  rp = Reply msg a /\ Z.of_nat (length msg) < 2 ^ 32 + 8.
Proof.
  destruct rp as [msg1 a1| |]; [|done..]. unfold packed. case_decide; [|done]. by intros [= <- <-].
Qed.

Lemma packed_small (rp : reply A) : reply_fits rp -> packed rp = rp.
Proof.
  destruct rp as [msg a| |]; [|done..]. unfold reply_fits, packed. intros H.
  by rewrite decide_True by lia.
Qed.

Lemma packed_gk v (a : A) : payload_fits gk_response_codec v ->
  packed (gk_reply v a) = gk_reply v a.
Proof.
  unfold payload_fits, packed, gk_reply. intros H. rewrite decide_True; [done|].
  rewrite length_message. lia.
Qed.

Lemma packed_gk_overflow v (a : A) : ~ payload_fits gk_response_codec v ->
  packed (gk_reply v a) = Undefined OutOfBounds.
Proof.
  unfold payload_fits, packed, gk_reply. intros H. rewrite decide_False; [done|].
  rewrite length_message. lia.
Qed.

End abstract.

(** ** Blocks that live only while a request is served *)

Lemma deallocs_app bs bs' m : deallocs (bs ++ bs') m = deallocs bs (deallocs bs' m).
Proof. unfold deallocs. cbn. by rewrite foldr_app. Qed.

Lemma lookup_allocs_lt bl m b : (b < next m)%nat -> heap (allocs bl m) !! b = heap m !! b.
Proof.
  revert m. induction bl as [|[s|] bl IH]; intros m Hb; cbn; [done|..].
  - rewrite IH by (cbn; lia). by rewrite lookup_alloc_ne by lia.
  - by rewrite IH by (cbn; lia).
Qed.

(** The blocks that are temporary: those below [next m3] not in the memory [m0].  The blocks
    [keep] are live and not among them. *)
Definition temps (m0 m3 : mem) (T keep : list nat) : Prop :=
  (next m0 <= next m3)%nat /\
  (forall b, (b < next m0)%nat -> heap m3 !! b = heap m0 !! b) /\
  (forall b, (next m0 <= b < next m3)%nat -> b ∈ T \/ b ∈ keep \/ heap m3 !! b = None) /\
  NoDup keep /\
  (forall b, b ∈ keep -> (next m0 <= b < next m3)%nat /\ (b ∉ T) /\ is_Some (heap m3 !! b)).

Lemma no_keep m0 m3 (T : list nat) b : b ∈ [] ->
  (next m0 <= b < next m3)%nat /\ (b ∉ T) /\ is_Some (heap m3 !! b).
Proof. by intros ?%elem_of_nil. Qed.

(** The application runs from [m3], which holds the temporary blocks of the request,
    to [m4]; then a response is allocated and the blocks [T] are freed. *)
Lemma frame_temps m0 m3 m4 F F' ret keep T c :
  mem_wf m4 -> temps m0 m3 T keep -> frame m3 m4 F F' ret ->
  (forall b, b ∈ T -> (next m0 <= b)%nat) -> next m4 ∈ T ->
  (forall b, b ∈ F -> (b < next m0)%nat) -> (forall b, b ∈ ret -> b ∈ T) ->
  frame m0 (deallocs T (alloc c m4)) F F' keep.
Proof.
  intros Hm (Hn & Hold & Htmp & Hnd & Hkeep) (H1 & H2 & H3 & H4 & H5 & _) HT Hc HF Hret.
  split_and!; [cbn; lia|..|done|done|].
  - intros b Hb Hbf. rewrite lookup_deallocs, decide_False by (intros ?%HT; lia).
    rewrite lookup_alloc_ne by lia. rewrite H2 by (done || lia). by apply Hold.
  - intros b Hb Hbf Hk. rewrite lookup_deallocs. case_decide as HbT; [done|].
    rewrite lookup_alloc_ne by congruence.
    destruct (decide (b < next m3)%nat) as [Hlt|Hlt].
    + assert (b ∉ F) as HbF by (intros ?%HF; lia). rewrite H2 by done.
      destruct (Htmp b) as [?|[?|?]]; [lia|done..].
    + apply H3; [lia | done |]. intros ?%Hret. done.
  - intros b [?|?]%H4; [by left | right; lia].
  - intros b (Hlt & HbT & Hl)%Hkeep. assert (b ∉ F) as HbF by (intros ?%HF; lia).
    split; [lia|]. split; [intros [?|?]%H4; [done|lia]|].
    rewrite lookup_deallocs, decide_False, lookup_alloc_ne, H2 by (done || lia). done.
Qed.

(** The blocks of the application are none of the temporary ones. *)
Lemma temps_disjoint m0 m3 m4 F F' ret (T : list nat) b :
  mem_wf m4 -> (next m0 <= next m3)%nat -> frame m3 m4 F F' ret ->
  (forall b, b ∈ T -> (next m0 <= b < next m3)%nat \/ (b = next m4) \/ b ∈ ret) ->
  (forall b, b ∈ F -> (b < next m0)%nat) ->
  (forall b, b ∈ F' -> is_Some (heap m4 !! b)) -> (forall b, b ∈ ret -> b ∉ F') ->
  b ∈ F' -> (b ∉ T) /\ b <> next m4.
Proof.
  intros Hm Hn (H1 & H2 & H3 & H4 & H5 & _) HT HF Hl Hr Hb.
  pose proof (mem_wf_live _ _ Hm (Hl _ Hb)) as Hlt.
  split; [|lia]. intros [?|[->|?]]%HT; [|lia|by apply (Hr b)].
  destruct (H4 _ Hb) as [?%HF|?]; lia.
Qed.

Section runs.
Context {App A : Type} {HM : HasMem App} {HMO : HasMemOk App} {APP : QkdApp App}
  {SP : AppSpec A} {AOK : AppOk App A}.
Context {ML : Malloc} {MT : MallocTotal} {LU : Libuuid} {LO : LibuuidOk}
  {OS : Openssl} {ST : Stack}.

Definition at_mem (m : mem) (s : App) (c : ssl) : sess App := Sess (set_mem m s) c.

Lemma at_mem_run {B} (e : C mem B) m b m' s c :
  e m = Ret b m' -> in_mem e (at_mem m s c) = Ret b (at_mem m' s c).
Proof.
  intros H. erewrite in_mem_run by (cbn; rewrite get_set_mem; done).
  cbn. by rewrite set_set_mem.
Qed.

Lemma at_mem_fault {B} (e : C mem B) m f s c :
  e m = Fault f -> in_mem e (at_mem m s c) = Fault f.
Proof. intros H. apply in_mem_fault. cbn. by rewrite get_set_mem. Qed.

Lemma at_mem_aborted {B} (e : C mem B) m m' s c :
  e m = Aborted m' -> in_mem e (at_mem m s c) = Aborted (at_mem m' s c).
Proof.
  intros H. erewrite in_mem_aborted by (cbn; rewrite get_set_mem; done).
  cbn. by rewrite set_set_mem.
Qed.

Lemma in_app_run {B} (e : C App B) m s c b s' :
  e (set_mem m s) = Ret b s' -> in_app e (at_mem m s c) = Ret b (at_mem (get_mem s') s' c).
Proof. intros H. unfold in_app, zoom, at_mem. cbn. by rewrite H, set_get_mem. Qed.

Lemma in_app_fault {B} (e : C App B) m s c f :
  e (set_mem m s) = Fault f -> in_app e (at_mem m s c) = Fault f.
Proof. intros H. unfold in_app, zoom, at_mem. cbn. by rewrite H. Qed.

Lemma at_mem_get s c : Sess s c = at_mem (get_mem s) s c.
Proof. unfold at_mem. by rewrite set_get_mem. Qed.

Lemma recv_at fuel n bs m s c c' :
  (2 <= fuel)%nat -> n = Z.of_nat (length bs) -> 0 < n < 2 ^ 31 -> n <= stack_limit ->
  delivers c n bs c' ->
  socket_ssl_recv fuel n (at_mem m s c) =
    Ret {| size := n; data := Ptr (next m) 0 |} (at_mem (alloc (Bytes (Some <$> bs)) m) s c').
Proof.
  intros. erewrite socket_ssl_recv_run by done. cbn. unfold at_mem.
  by rewrite get_set_mem, set_set_mem.
Qed.

Lemma send_any_at d bs m s c :
  data_at m (data d) bs -> size d = wrap32 (Z.of_nat (length bs)) ->
  socket_ssl_send d (at_mem m s c) = Ret tt (at_mem m s (transmit c bs)).
Proof. intros. erewrite socket_ssl_send_any; [done| |done]. cbn. by rewrite get_set_mem. Qed.

Lemma send_at d bs m s c :
  data_at m (data d) bs -> size d = Z.of_nat (length bs) -> 0 < size d < 2 ^ 31 ->
  socket_ssl_send d (at_mem m s c) = Ret tt (at_mem m s (SSL_write c bs).2).
Proof. intros. erewrite socket_ssl_send_run; [done| |done|done]. cbn. by rewrite get_set_mem. Qed.

(** A response and its header in a new block. *)
Lemma pack_response_run sv n write bs (R : mem -> Prop) m s c :
  mem_wf m -> (forall b, heap m !! b = None -> writes b R write bs) ->
  (forall m', extends m m' -> R m') -> (forall b, heap m !! b = None -> stable_off b R) ->
  n = Z.of_nat (length bs) -> n < 2 ^ 32 ->
  pack_message sv n write (at_mem m s c) =
    Ret (Z.of_nat (length (message sv bs)), Ptr (next m) 0)
        (at_mem (alloc (Bytes (Some <$> message sv bs)) m) s c).
Proof.
  intros Hm Hw HR Hst Hn Hlt.
  assert (get_mem (at_mem m s c) = m) as E by (cbn; by rewrite get_set_mem).
  rewrite (pack_message_run sv n write bs R) by (rewrite ?E; done). rewrite E.
  cbn. by rewrite set_set_mem.
Qed.

Lemma pack_response_overflow sv n write bs (R : mem -> Prop) m s c :
  mem_wf m -> (forall b, heap m !! b = None -> writes b R write bs) ->
  (forall m', extends m m' -> R m') -> (forall b, heap m !! b = None -> stable_off b R) ->
  2 ^ 32 <= Z.of_nat (length bs) ->
  pack_message sv n write (at_mem m s c) = Fault OutOfBounds.
Proof.
  intros Hm Hw HR Hst Hlt.
  assert (get_mem (at_mem m s c) = m) as E by (cbn; by rewrite get_set_mem).
  by rewrite (pack_message_overflow sv n write bs R) by (rewrite ?E; done).
Qed.

(** ** The servlet around the dispatch *)

(** What follows the dispatch. *)
Definition finish (st : server_status_t) (payload : ptr) (r : Z * ptr) :
    C (sess App) server_status_t :=
  let '(n, b) := r in
  in_mem (free_if payload);;;
  socket_ssl_send {| size := wrap32 n; data := b |};;;
  in_mem (free_if b);;;
  cret st.

(** A request that the peer delivers as its header and its payload, each in one read, as TLS
    does with what fits one record.  The payload has the size that the header gives; for the
    sizes 0 and 16384, which stand for an unknown size, it has any size up to 16384.  (Of a
    payload in several reads the parts lie over each other: [socket_recv_parts].) *)
Definition requests (c : ssl) (h : qkd_header_t) (body : list byte) (c' : ssl) : Prop :=
  header_ok h /\ 0 < Z.of_nat (length body) < 2 ^ 31 /\
  (asked (payload_size h) = Z.of_nat (length body) \/
   asked (payload_size h) = SSL3_RT_MAX_PLAIN_LENGTH /\
   Z.of_nat (length body) <= SSL3_RT_MAX_PLAIN_LENGTH) /\
  asked (payload_size h) <= stack_limit /\ sizeof_header <= stack_limit /\
  exists c1, delivers c sizeof_header (enc header_codec h) c1 /\
             delivers c1 (asked (payload_size h)) body c'.

Lemma requests_sized c h body c' :
  header_ok h -> payload_size h = Z.of_nat (length body) -> 0 < payload_size h < 2 ^ 31 ->
  payload_size h <= stack_limit -> sizeof_header <= stack_limit ->
  (exists c1, delivers c sizeof_header (enc header_codec h) c1 /\
              delivers c1 (payload_size h) body c') ->
  requests c h body c'.
Proof.
  intros Hh Hb Hr Hs Hs8 Hd. assert (asked (payload_size h) = payload_size h) as E.
  { unfold asked. by rewrite (proj2 (Z.eqb_neq _ _)) by lia. }
  unfold requests. rewrite E, <- Hb. split; [done|]. split; [done|]. split; [by left|]. done.
Qed.

Lemma header_ok_valid h : header_ok h -> valid header_codec h.
Proof. intros ((? & ? & ?) & ? & ?). done. Qed.

Lemma read_header fuel h m s c c1 :
  (2 <= fuel)%nat -> mem_wf m -> header_ok h -> sizeof_header <= stack_limit ->
  delivers c sizeof_header (enc header_codec h) c1 ->
  forall B (k : qkd_header_t -> C (sess App) B),
  (let! header_data := socket_ssl_recv fuel sizeof_header in
   let header_stream := data header_data in
   let! '(header, header_stream) := in_mem (qkd_header_from_stream header_stream) in
   in_mem (free_if (data header_data));;; k header) (at_mem m s c) =
  k h (at_mem (bump m) s c1).
Proof.
  intros Hf Hm Hh Hs Hd B k.
  erewrite cbind_ret by (apply (recv_at fuel sizeof_header (enc header_codec h) _ _ _ c1);
    [done|by rewrite length_enc_header|unfold sizeof_header; lia|done|done]).
  cbn [data]. erewrite cbind_ret.
  2: { apply at_mem_run. rewrite (reads_header _ (next m) [] (enc header_codec h)).
       - rewrite <- (app_nil_r (enc header_codec h)) at 1.
         rewrite dec_enc by by apply header_ok_valid. done.
       - by apply mem_wf_alloc.
       - unfold short. rewrite length_enc_header. lia.
       - apply lookup_alloc. }
  cbv beta iota. erewrite cbind_ret.
  2: { apply at_mem_run. unfold free_if. rewrite decide_True by done.
       apply free_ok. cbn [allocs]. by rewrite lookup_alloc. }
  cbn [allocs]. by rewrite dealloc_alloc.
Qed.

Lemma servlet_received fuel st h body m s c c' :
  (2 <= fuel)%nat -> mem_wf m -> requests c h body c' ->
  service h <> service_code QKD_SERVICE_CLOSE_SERVER ->
  qkd_servlet fuel st (at_mem m s c) =
    (let! r := serve (service h) (Ptr (S (next m)) 0) in finish st (Ptr (S (next m)) 0) r)
    (at_mem (alloc (Bytes (Some <$> body)) (bump m)) s c').
Proof.
  intros Hf Hm (Hh & Hlen & Hb & Hs & Hs8 & c1 & Hd & Hd') Hsv. unfold qkd_servlet.
  rewrite (read_header fuel h m s c c1 Hf Hm Hh Hs8 Hd). apply Z.eqb_neq in Hsv as ->.
  erewrite cbind_ret by by apply (recv_delivered fuel (payload_size h) body _ c').
  unfold at_mem. cbn [get_mem sess_mem s_app]. by rewrite get_set_mem, set_set_mem.
Qed.

(** A dispatch that has packed a response: it is sent, and the payload and the
    response are freed. *)
Lemma finish_run st p b msg m s c :
  p <> b -> is_Some (heap m !! p) -> heap m !! b = Some (Bytes (Some <$> msg)) ->
  finish st (Ptr p 0) (Z.of_nat (length msg), Ptr b 0) (at_mem m s c) =
    Ret st (at_mem (deallocs [b; p] m) s (transmit c msg)).
Proof.
  intros Hpb Hp Hb. unfold finish, free_if. rewrite !decide_True by done.
  erewrite cbind_ret by by apply at_mem_run, free_ok.
  assert (heap (dealloc p m) !! b = Some (Bytes (Some <$> msg))) as Hb'
    by (cbn; by rewrite lookup_delete_ne).
  erewrite cbind_ret by by (apply (send_any_at _ msg); [by apply block_data|..]).
  erewrite cbind_ret by (apply at_mem_run, free_ok; rewrite Hb'; done). done.
Qed.

(** ** The branches of the dispatch *)

(** The dispatch in a memory that holds the payload in the block after the header's,
    seen from the memory [m0] before the request: what it returns and leaves behind
    when the payload and the response are freed.  The blocks [keep] stay allocated. *)
Definition served (m0 : mem) (c : ssl) (F keep : list nat) (rp : reply A)
    (o : outcome (sess App) (Z * ptr)) : Prop :=
  match rp with
  | Reply msg a' =>
      exists r m5 s' F',
        o = Ret (Z.of_nat (length msg), Ptr r 0) (at_mem m5 s' c) /\
        S (next m0) <> r /\ is_Some (heap m5 !! S (next m0)) /\
        heap m5 !! r = Some (Bytes (Some <$> msg)) /\
        app_rep (set_mem (deallocs [r; S (next m0)] m5) s') a' F' /\
        frame m0 (deallocs [r; S (next m0)] m5) F F' keep
  | Undefined f => o = Fault f
  | Killed => exists w, o = Aborted w
  end.

(** The memory when the payload has been received. *)
Definition received (body : list byte) (m0 : mem) : mem :=
  alloc (Bytes (Some <$> body)) (bump m0).

Lemma mem_wf_received body m0 : mem_wf m0 -> mem_wf (received body m0).
Proof. intros. unfold received. auto with c_mem. Qed.

(** Whatever the application does, its data are safe from what the servlet frees. *)
Lemma served_rep m0 m3 s' a' F F' ret keep T c0 :
  app_rep s' a' F' -> temps m0 m3 T keep -> frame m3 (get_mem s') F F' ret ->
  (forall b, b ∈ T -> (next m0 <= b < next m3)%nat \/ b = next (get_mem s') \/ b ∈ ret) ->
  next (get_mem s') ∈ T -> (forall b, b ∈ F -> (b < next m0)%nat) ->
  (forall b, b ∈ ret -> b ∈ T /\ (next m3 <= b)%nat /\ b ∉ F') ->
  app_rep (set_mem (deallocs T (alloc c0 (get_mem s'))) s') a' F' /\
  frame m0 (deallocs T (alloc c0 (get_mem s'))) F F' keep.
Proof.
  intros Hrep Htmp Hfr HT Hc HF Hret.
  pose proof (app_rep_wf _ _ _ Hrep) as Hm. pose proof Htmp as (Hn & _). pose proof Hfr as (Hn' & _).
  split.
  - apply app_rep_frame; [done | by apply mem_wf_deallocs, mem_wf_alloc|]. intros b Hb.
    destruct (temps_disjoint m0 m3 (get_mem s') F F' ret T b) as [H1 H2]; try done.
    + intros. by eapply app_rep_live.
    + intros b' Hb'. by apply Hret.
    + by rewrite lookup_deallocs, decide_False, lookup_alloc_ne.
  - apply (frame_temps m0 m3 _ F F' ret); try done.
    + intros b Hb. destruct (HT b Hb) as [?|[?|Hr]]; [lia..|]. apply Hret in Hr as (_ & ? & _). lia.
    + intros b Hb. by apply Hret.
Qed.

Lemma app_rep_older m0 m3 s a F T keep : app_rep (set_mem m0 s) a F -> temps m0 m3 T keep ->
  mem_wf m3 -> app_rep (set_mem m3 s) a F /\ (forall b, b ∈ F -> (b < next m0)%nat).
Proof.
  intros Hrep (_ & Hold & _) Hm3. pose proof (app_rep_wf _ _ _ Hrep) as Hm. rewrite get_set_mem in Hm.
  assert (forall b, b ∈ F -> (b < next m0)%nat) as HF.
  { intros b Hb. apply (app_rep_live _ _ _ b Hrep) in Hb. rewrite get_set_mem in Hb.
    by apply mem_wf_live. }
  split; [|done]. rewrite <- (set_set_mem m3 m0 s). apply app_rep_frame; [done..|].
  intros b Hb. rewrite get_set_mem. by apply Hold, HF.
Qed.

(** CLOSE *)
Lemma serve_close_run m0 s c a F body : app_rep (set_mem m0 s) a F -> short body ->
  served m0 c F [] (abs_close body a)
    (serve_close (Ptr (S (next m0)) 0) (at_mem (received body m0) s c)).
Proof.
  intros Hrep Hbody. pose proof (app_rep_wf _ _ _ Hrep) as Hm. rewrite get_set_mem in Hm.
  unfold serve_close, abs_close.
  pose proof (reads_cl_request _ (S (next m0)) [] body (mem_wf_received body _ Hm) Hbody
    (lookup_alloc _ _)) as Hrd. cbn [length] in Hrd.
  destruct (dec cl_request_codec body) as [[q rest]|].
  2: { cbn. erewrite cbind_fault; [done|]. by apply at_mem_fault. }
  erewrite cbind_ret by by apply at_mem_run. cbn [allocs].
  set (m3 := bump (received body m0)).
  assert (temps m0 m3 [S (S (S (next m0))); S (next m0)] []) as Htmp.
  { split_and!; [cbn; lia|..|apply NoDup_nil_2|by apply no_keep].
    - intros b Hb. cbn. by rewrite lookup_insert_ne by lia.
    - intros b Hb. cbn in *. destruct (decide (b = S (next m0))) as [->|]; [left; by do 2 constructor|].
      right; right. rewrite lookup_insert_ne by lia. apply Hm. lia. }
  assert (mem_wf m3) as Hm3 by by apply mem_wf_bump, mem_wf_received.
  destruct (app_rep_older _ m3 _ _ _ _ _ Hrep Htmp Hm3) as [Hrep3 HF].
  erewrite cbind_ret.
  2: { apply in_app_run. unfold qkd_close_struct. by erewrite cbind_ret by by apply (app_close_ok _ a F). }
  rewrite get_set_mem. cbn [qkd_sizeof_close_response]. unfold served.
  set (v := {| clr_status := status_code qkd_status_code_successful |}).
  erewrite (pack_response_run _ _ _ (enc cl_response_codec v) (fun _ => True)); [|done|..]; try done.
  2: { intros b _. apply writes_cl_response. }
  pose proof (served_rep m0 m3 (set_mem m3 s) a F F [] [] _
    (Bytes (Some <$> message QKD_SERVICE_CLOSE_RESPONSE (enc cl_response_codec v)))
    Hrep3 Htmp) as Hfin.
  rewrite get_set_mem, set_set_mem in Hfin.
  eexists _, _, _, F. split; [done|]. split; [cbn; lia|].
  split; [rewrite lookup_alloc_ne by (cbn; lia); cbn; by rewrite lookup_insert_eq|].
  split; [apply lookup_alloc|]. rewrite set_set_mem. apply Hfin; try done.
  - by apply frame_refl.
  - intros b. rewrite !elem_of_cons, elem_of_nil. cbn. lia.
  - left.
  - by intros b ?%elem_of_nil.
Qed.

(** OPEN_CONNECT: the blocks of the decoded request are the payload's successors, the
    copy of its mimetype the last of them. *)
Definition oc_blocks (q : open_connect_request (list byte)) : list (option (list byte)) :=
  [Some (enc_cstr (ocq_source q)); Some (enc_cstr (ocq_destination q));
   Some (enc_cstr (metadata_mimetype (ocq_qos q))); None;
   Some (enc_cstr (metadata_mimetype (ocq_qos q)))].

Definition oc_struct (n : nat) (q : open_connect_request (list byte)) :
    qkd_open_connect_request_t :=
  {| ocq_source := Ptr n 0; ocq_destination := Ptr (n + 1) 0;
     ocq_qos := qos_map (fun _ => Ptr (n + 2) 0) (ocq_qos q);
     ocq_key_stream_id := ocq_key_stream_id q |}.

Lemma oc_request_short_body body q rest : dec oc_request_codec body = Some (q, rest) ->
  short body -> oc_request_ok q /\ oc_request_short q.
Proof.
  intros Hd Hb. pose proof (dec_length _ _ _ _ Hd) as Hl.
  apply dec_sound in Hd as [_ Hq]. split; [done|].
  destruct Hq as (_ & _ & _ & Hu). cbn in Hu. rewrite length_enc_oc_request in Hl by done.
  unfold oc_request_short, short in *. lia.
Qed.

(** The application answers a decoded OPEN_CONNECT request. *)
Lemma qkd_open_connect_struct_run m s a F q c :
  mem_wf m -> oc_request_ok q -> oc_request_short q ->
  let bl := oc_blocks q in
  app_rep (set_mem (allocs bl m) s) a F ->
  let '(id, a') := spec_open (ocq_source q) (ocq_destination q) (ocq_qos q)
                     (ocq_key_stream_id q) a in
  uuid_ok id /\
  exists s' F',
    in_app (qkd_open_connect_struct (oc_struct (next m) q)) (at_mem (allocs (take 4 bl) m) s c) =
      Ret {| ocr_status := status_code qkd_status_code_successful;
             ocr_qos := qos_map (fun _ => Ptr (next m + 4) 0) (ocq_qos q);
             ocr_key_stream_id := id |} (at_mem (get_mem s') s' c) /\
    app_rep s' a' F' /\ frame (allocs bl m) (get_mem s') F F' [].
Proof.
  intros Hm (Hs & Hd & Hq & Hu) (Ss & Sd & Sm) bl Hrep.
  set (m2 := allocs (take 4 bl) m).
  pose proof (Hmime := proj2 (proj2 (proj2 (proj2 (proj2 (proj2 (proj2 Hq))))))).
  assert (allocs bl m = alloc (Bytes (Some <$> enc_cstr (metadata_mimetype (ocq_qos q)))) m2) as Em
    by done.
  assert (mem_wf m2) as Hm2 by by apply mem_wf_allocs.
  pose proof (app_open_ok (set_mem (allocs bl m) s) a F (Ptr (next m) 0) (Ptr (next m + 1) 0)
    (qos_map (fun _ => Ptr (next m + 4) 0) (ocq_qos q)) (ocq_source q) (ocq_destination q)
    (ocq_qos q) (ocq_key_stream_id q) 0) as Hopen.
  rewrite get_set_mem in Hopen.
  destruct (spec_open (ocq_source q) (ocq_destination q) (ocq_qos q) (ocq_key_stream_id q) a)
    as [id a'] eqn:Espec. cbn [fst snd] in Hopen.
  destruct Hopen as (Hid & s' & F' & Hrun & Hrep' & Hfr); [done|done|..].
  - rewrite <- (Nat.add_0_r (next m)). by apply str_at_allocs.
  - by apply str_at_allocs.
  - split; [|done]. by apply (str_at_allocs bl m 4).
  - done.
  - split; [done|]. exists s', F'. split; [|done]. apply in_app_run. unfold qkd_open_connect_struct.
    erewrite cbind_ret.
    2: { apply in_mem_run. rewrite get_set_mem. apply (qkd_copy_qos_null m2 _ _ (ocq_qos q)).
         - done.
         - done.
         - split; [|done]. by apply (str_at_allocs (take 4 bl) m 2).
         - done. }
    rewrite set_set_mem, <- Em. cbn [oc_struct ocq_source ocq_destination ocq_key_stream_id].
    replace (next m2) with (next m + 4)%nat by (unfold m2; rewrite next_allocs; done).
    by erewrite cbind_ret by done.
Qed.

(** What a message of the application has become of the blocks below [next m3]. *)
Lemma frame_str_at m3 m4 F F' b s : frame m3 m4 F F' [] -> str_at m3 (Ptr b 0) s ->
  (b < next m3)%nat -> b ∉ F -> str_at m4 (Ptr b 0) s.
Proof.
  intros (_ & H & _) (Hs & b' & off & l & rest & [= <- <-] & Hb & Hd) Hlt HF.
  split; [done|]. exists b, 0%nat, l, rest. by rewrite H.
Qed.

(** The blocks freed before and after the response is sent; [n] is the first block of
    the decoded request. *)
Definition oc_parts (n : nat) : list nat := [n + 4; n + 2; n + 1; n]%nat.

Lemma oc_temps m0 body q r : mem_wf m0 ->
  temps m0 (allocs (oc_blocks q) (received body m0))
    (r :: S (next m0) :: oc_parts (S (S (next m0)))) [].
Proof.
  intros Hm. split_and!; [..|apply NoDup_nil_2|by apply no_keep].
  - rewrite next_allocs. cbn. lia.
  - intros b Hb. rewrite lookup_allocs_lt by (cbn; lia). cbn. by rewrite lookup_insert_ne by lia.
  - intros b Hb. rewrite next_allocs in Hb. cbn in Hb. unfold oc_parts.
    assert (b = next m0 \/ b = next m0 + 5 \/ b ∈ [S (next m0); S (S (next m0)) + 4;
      S (S (next m0)) + 2; S (S (next m0)) + 1; S (S (next m0))])%nat as [->|[->|Hin]];
      [rewrite !elem_of_cons, elem_of_nil; lia|right; right..|left; by right];
      cbn; rewrite !lookup_insert_ne by lia; apply Hm; lia.
Qed.

(** The response is packed and the request and the response are freed. *)
Lemma oc_packed m s c q rs v n :
  mem_wf m -> oc_response_at m rs v -> uuid_ok (ocr_key_stream_id v) ->
  short (metadata_mimetype (ocr_qos v)) -> payload_fits oc_response_codec v ->
  metadata_mimetype (ocr_qos rs) = Ptr (n + 4) 0 ->
  (forall b, b ∈ oc_parts n -> is_Some (heap m !! b)) ->
  let msg := message QKD_SERVICE_OPEN_CONNECT_RESPONSE (enc oc_response_codec v) in
  (let! res := pack_message QKD_SERVICE_OPEN_CONNECT_RESPONSE
                 (Z.of_nat (length (enc oc_response_codec v)))
                 (qkd_open_connect_response_to_stream rs) in
   in_mem (free_qkd_open_connect_request (Some (oc_struct n q)));;;
   in_mem (free_qkd_open_connect_response (Some rs));;;
   cret res) (at_mem m s c)
  = Ret (Z.of_nat (length msg), Ptr (next m) 0)
      (at_mem (deallocs (oc_parts n) (alloc (Bytes (Some <$> msg)) m)) s c).
Proof.
  intros Hm Hat Hid Hs Hfit Hp Hlive msg.
  assert (forall b, heap m !! b = None -> qos_avoids b (ocr_qos rs)) as Ha.
  { intros b Hb. eapply str_at_avoids; [|done]. apply Hat. }
  erewrite cbind_ret.
  2: { apply (pack_response_run _ _ _ (enc oc_response_codec v)
         (fun m => oc_response_at m rs v /\ short (metadata_mimetype (ocr_qos v)))); try done.
       - intros b Hb. apply writes_oc_response; auto.
       - intros m' He. split; [|done]. destruct Hat as (? & (? & ?) & ?).
         split_and!; [done| |done]. split; [|done]. by eapply str_at_extends.
       - intros b Hb. apply stable_off_and; [apply oc_response_at_stable; auto | apply stable_off_const]. }
  set (m5 := alloc _ m).
  assert (forall b, b ∈ oc_parts n -> is_Some (heap m5 !! b)) as Hlive5.
  { intros b Hb. pose proof (mem_wf_live _ _ Hm (Hlive _ Hb)). unfold m5.
    rewrite lookup_alloc_ne by lia. by apply Hlive. }
  unfold oc_parts in Hlive5.
  destruct (free_qkd_open_connect_request_run (oc_struct n q) n (n + 1) (n + 2) m5) as [x Hx];
    try done; try (apply Hlive5; rewrite ?elem_of_cons, ?elem_of_nil; tauto).
  { rewrite !NoDup_cons, !elem_of_cons, !elem_of_nil. split_and!; try lia. apply NoDup_nil_2. }
  erewrite cbind_ret by by apply at_mem_run.
  destruct (free_qkd_open_connect_response_run rs (n + 4) (deallocs [n + 2; n + 1; n]%nat m5))
    as [y Hy]; [done| |].
  { apply deallocs_live; [rewrite !elem_of_cons, elem_of_nil; lia | by apply Hlive5; left]. }
  by erewrite cbind_ret by by apply at_mem_run.
Qed.

(** A block of a decoded request is still there when the application returns. *)
Lemma frame_allocs_live m1 bl m4 F F' ret i x :
  mem_wf m1 -> frame (allocs bl m1) m4 F F' ret -> bl !! i = Some (Some x) ->
  (next m1 + i)%nat ∉ F -> heap m4 !! (next m1 + i)%nat = Some (Bytes (Some <$> x)).
Proof.
  intros Hm (_ & H & _) Hi HF. rewrite H; [by apply lookup_allocs| |done].
  rewrite next_allocs. apply lookup_lt_Some in Hi. lia.
Qed.

Lemma payload_live m0 body bl m4 F F' ret :
  frame (allocs bl (received body m0)) m4 F F' ret -> (forall b, b ∈ F -> (b < next m0)%nat) ->
  heap m4 !! S (next m0) = Some (Bytes (Some <$> body)).
Proof.
  intros (_ & H & _) HF. rewrite H.
  - rewrite lookup_allocs_lt by (cbn; lia). cbn. by rewrite lookup_insert_eq.
  - rewrite next_allocs. cbn. lia.
  - intros ?%HF. lia.
Qed.

Lemma served_eq m0 c F keep rp o o' : o = o' -> served m0 c F keep rp o' ->
  served m0 c F keep rp o.
Proof. by intros ->. Qed.

Lemma served_killed m0 c F keep w : served m0 c F keep Killed (Aborted w).
Proof. by exists w. Qed.

(** The answer to an OPEN_CONNECT request that the application has dealt with. *)
Lemma oc_served m0 body q s a F F' c rs v :
  let n1 := S (S (next m0)) in let m1 := received body m0 in let m4 := get_mem s in
  mem_wf m0 -> app_rep s a F' -> frame (allocs (oc_blocks q) m1) m4 F F' [] ->
  (forall b, b ∈ F -> (b < next m0)%nat) ->
  oc_response_at m4 rs v -> uuid_ok (ocr_key_stream_id v) ->
  short (metadata_mimetype (ocr_qos v)) -> payload_fits oc_response_codec v ->
  metadata_mimetype (ocr_qos rs) = Ptr (n1 + 4) 0 ->
  served m0 c F [] (Reply (message QKD_SERVICE_OPEN_CONNECT_RESPONSE (enc oc_response_codec v)) a)
    ((let! res := pack_message QKD_SERVICE_OPEN_CONNECT_RESPONSE
                    (Z.of_nat (length (enc oc_response_codec v)))
                    (qkd_open_connect_response_to_stream rs) in
      in_mem (free_qkd_open_connect_request (Some (oc_struct n1 q)));;;
      in_mem (free_qkd_open_connect_response (Some rs));;;
      cret res) (at_mem m4 s c)).
Proof.
  intros n1 m1 m4 Hm Hrep Hfr HF Hat Hid Hs Hfit Hp.
  assert (mem_wf m1) as Hm1 by by apply mem_wf_received.
  pose proof (app_rep_wf _ _ _ Hrep) as Hm4. fold m4 in Hm4.
  assert (next (allocs (oc_blocks q) m1) = next m0 + 7)%nat as Hn3
    by (rewrite next_allocs; cbn; lia).
  assert (next m0 + 7 <= next m4)%nat as Hn4
    by (pose proof (proj1 Hfr) as Hle; rewrite Hn3 in Hle; done).
  assert (forall i x, oc_blocks q !! i = Some (Some x) -> is_Some (heap m4 !! (n1 + i)%nat))
    as Hlive.
  { intros i x Hi. erewrite (frame_allocs_live m1); [done..|]. intros ?%HF. cbn in *. lia. }
  eapply served_eq.
  { apply (oc_packed m4 s c q rs v n1); try done. intros b.
    unfold oc_parts. rewrite !elem_of_cons, elem_of_nil.
    intros [->|[->|[->|[->|[]]]]]; [by eapply (Hlive 4%nat)|by eapply (Hlive 2%nat)|
      by eapply (Hlive 1%nat)|rewrite <- (Nat.add_0_r n1); by eapply (Hlive 0%nat)]. }
  set (msg := message _ _).
  destruct (served_rep m0 _ s a F F' [] [] (next m4 :: S (next m0) :: oc_parts n1)
    (Bytes (Some <$> msg)) Hrep (oc_temps m0 body q _ Hm) Hfr) as [Hrep5 Hfr5];
    [|left|done|by intros b ?%elem_of_nil|].
  { intros b. unfold oc_parts. rewrite !elem_of_cons, elem_of_nil. fold m1 m4. rewrite Hn3. cbn. lia. }
  exists (next m4), (deallocs (oc_parts n1) (alloc (Bytes (Some <$> msg)) m4)), s, F'.
  split; [done|]. split; [lia|].
  assert ((S (next m0) ∉ oc_parts n1) /\ (next m4 ∉ oc_parts n1)) as [Hp1 Hp2]
    by (unfold oc_parts, n1; rewrite !elem_of_cons, !elem_of_nil; cbn; lia).
  split_and!; [|by rewrite lookup_deallocs, decide_False by done; apply lookup_alloc|done..].
  apply deallocs_live; [done|]. rewrite lookup_alloc_ne by lia.
  erewrite (payload_live m0 body (oc_blocks q) m4 F F' []); done.
Qed.

Lemma serve_open_connect_run m0 s c a F body :
  app_rep (set_mem m0 s) a F -> Z.of_nat (length body) < 2 ^ 31 ->
  served m0 c F [] (packed (abs_open_connect body a))
    (serve_open_connect (Ptr (S (next m0)) 0) (at_mem (received body m0) s c)).
Proof.
  intros Hrep Hlen. pose proof (app_rep_wf _ _ _ Hrep) as Hm. rewrite get_set_mem in Hm.
  assert (short body) as Hbody by (unfold short; lia).
  pose proof (mem_wf_received body _ Hm) as Hm1. unfold serve_open_connect, abs_open_connect.
  pose proof (reads_oc_request _ (S (next m0)) [] body Hm1 Hbody (lookup_alloc _ _)) as Hrd.
  cbn [length] in Hrd. destruct (dec oc_request_codec body) as [[q rest]|] eqn:Hdec.
  2: { cbn. erewrite cbind_fault; [done|]. by apply at_mem_fault. }
  destruct (oc_request_short_body _ _ _ Hdec Hbody) as [Hq Hqs].
  erewrite cbind_ret by by apply at_mem_run. cbv beta iota.
  set (m1 := received body m0) in *. set (m3 := allocs (oc_blocks q) m1).
  assert (mem_wf m3) as Hm3 by by apply mem_wf_allocs.
  destruct (app_rep_older m0 m3 s a F _ _ Hrep (oc_temps m0 body q 0%nat Hm) Hm3) as [Hrep3 HF].
  pose proof (qkd_open_connect_struct_run m1 s a F q c Hm1 Hq Hqs Hrep3) as Hstruct.
  destruct (spec_open _ _ _ _ a) as [id a'].
  destruct Hstruct as (Hid & s' & F' & Hrun & Hrep' & Hfr).
  erewrite cbind_ret by exact Hrun.
  set (v := Build_open_connect_response _ (ocq_qos q) id).
  set (rs := Build_open_connect_response _ _ id).
  assert (oc_response_at (get_mem s') rs v) as Hat.
  { split_and!; [done| |done]. split; [|done]. eapply frame_str_at; [done| |cbn; lia|].
    - apply (str_at_allocs (oc_blocks q) m1 4); [done..|]. apply Hq.
    - intros Hin%HF. cbn in Hin. lia. }
  assert (payload_fits oc_response_codec v) as Hfit.
  { unfold payload_fits. rewrite length_enc_oc_response by done. cbn [ocr_qos v].
    pose proof (dec_length _ _ _ _ Hdec) as Hl. rewrite length_enc_oc_request in Hl by apply Hq. lia. }
  pose proof (qkd_sizeof_open_connect_response_run _ rs v Hat Hid Hfit) as Hsz.
  unfold mimetype_fits in Hsz. cbn [ocr_qos v] in Hsz. case_decide as Hmime.
  2: { erewrite cbind_aborted by by apply at_mem_aborted. apply served_killed. }
  erewrite cbind_ret by by apply at_mem_run.
  rewrite packed_small
    by (unfold reply_fits; rewrite length_message, length_enc_oc_response by done;
        unfold MIMETYPE_MAX in Hsz, Hmime; cbn; lia).
  apply (oc_served m0 body q s' a' F F' c rs v); try done. apply Hqs.
Qed.

(** GET_KEY *)

(** A buffer of the program in a block of its own, or none. *)
Definition in_own_block (m : mem) (d : qkd_bytes_t) : Prop :=
  match data d with
  | Null => True
  | Ptr b off => off = 0%nat /\ is_Some (heap m !! b)
  end.

Lemma in_own_block_avoids m d b : in_own_block m d -> heap m !! b = None -> avoids b (data d).
Proof. unfold in_own_block. destruct (data d); [done|]. intros [_ [x H]] Hb. cbn. congruence. Qed.

Lemma gk_packed m s c q rs v :
  mem_wf m -> gk_response_at m rs v -> payload_fits gk_response_codec v ->
  in_own_block m (gkr_key_buffer rs) -> in_own_block m (gkr_metadata rs) ->
  (forall b, b ∈ owned (gkr_metadata rs) -> b ∉ owned (gkr_key_buffer rs)) ->
  let msg := message QKD_SERVICE_GET_KEY_RESPONSE (enc gk_response_codec v) in
  (let! res := pack_message QKD_SERVICE_GET_KEY_RESPONSE
                 (Z.of_nat (length (enc gk_response_codec v)))
                 (qkd_get_key_response_to_stream rs) in
   in_mem (free_qkd_get_key_request (Some q));;;
   in_mem (free_qkd_get_key_response (Some rs));;;
   cret res) (at_mem m s c)
  = Ret (Z.of_nat (length msg), Ptr (next m) 0)
      (at_mem (deallocs (owned (gkr_metadata rs) ++ owned (gkr_key_buffer rs))
                 (alloc (Bytes (Some <$> msg)) m)) s c).
Proof.
  intros Hm Hat Hfit Hk Hd Hdis msg.
  erewrite cbind_ret.
  2: { apply (pack_response_run _ _ _ (enc gk_response_codec v) (fun m => gk_response_at m rs v));
         try done.
       - intros b Hb. apply writes_gk_response; by eapply in_own_block_avoids.
       - intros m' He. destruct Hat as (? & ? & ? & ?). split_and!; eauto using bytes_at_extends.
       - intros b Hb. apply gk_response_at_stable; by eapply in_own_block_avoids. }
  erewrite cbind_ret by by apply at_mem_run.
  pose proof (extends_alloc (Bytes (Some <$> msg)) _ Hm) as He.
  destruct (free_qkd_get_key_response_run rs (alloc (Bytes (Some <$> msg)) m)) as [x Hx].
  - unfold in_own_block in Hk. destruct (data _); [done|]. destruct Hk as [? [y Hy]].
    split; [done|]. exists y. by eapply extends_lookup.
  - unfold in_own_block in Hd. unfold owned in Hdis at 1. destruct (data (gkr_metadata rs)); [done|].
    destruct Hd as [? [y Hy]]. split_and!; [done| |apply Hdis; left].
    exists y. by eapply extends_lookup.
  - by erewrite cbind_ret by by apply at_mem_run.
Qed.

(** A response that does not fit is written behind the end of its buffer. *)
Lemma gk_overflows m s c n rs v B (k : Z * ptr -> C (sess App) B) :
  mem_wf m -> gk_response_at m rs v -> ~ payload_fits gk_response_codec v ->
  in_own_block m (gkr_key_buffer rs) -> in_own_block m (gkr_metadata rs) ->
  (let! res := pack_message QKD_SERVICE_GET_KEY_RESPONSE n
                 (qkd_get_key_response_to_stream rs) in k res) (at_mem m s c)
  = Fault OutOfBounds.
Proof.
  intros Hm Hat Hfit Hk Hd. apply cbind_fault.
  apply (pack_response_overflow _ _ _ (enc gk_response_codec v) (fun m => gk_response_at m rs v));
    try done.
  - intros b Hb. apply writes_gk_response; by eapply in_own_block_avoids.
  - intros m' He. destruct Hat as (? & ? & ? & ?). split_and!; eauto using bytes_at_extends.
  - intros b Hb. apply gk_response_at_stable; by eapply in_own_block_avoids.
  - unfold payload_fits in Hfit. lia.
Qed.


(** The blocks that a GET_KEY request leaves allocated: its metadata, when the
    response carries another. *)
Definition gk_leak (n0 : nat) (body : list byte) (a : A) : list nat :=
  match dec gk_request_codec body with
  | Some (r, _) =>
      match spec_get_key (gkq_key_stream_id r) (gkq_index r) (gkq_metadata r) a with
      | GkKey _ _ _ => [n0 + 3]%nat
      | _ => []
      end
  | None => []
  end.

(** What the servlet frees: the response, the payload and the parts of the response. *)
Lemma gk_served m0 m3 s a F ret keep c q rs v :
  let m4 := get_mem s in
  let T := next m4 :: S (next m0) :: owned (gkr_metadata rs) ++ owned (gkr_key_buffer rs) in
  app_rep s a F -> frame m3 m4 F F ret -> (forall b, b ∈ F -> (b < next m0)%nat) ->
  temps m0 m3 T keep -> gk_response_at m4 rs v -> payload_fits gk_response_codec v ->
  in_own_block m4 (gkr_key_buffer rs) -> in_own_block m4 (gkr_metadata rs) ->
  (forall b, b ∈ owned (gkr_metadata rs) -> b ∉ owned (gkr_key_buffer rs)) ->
  (forall b, b ∈ owned (gkr_metadata rs) ++ owned (gkr_key_buffer rs) ->
     (S (next m0) < b < next m3)%nat \/ b ∈ ret) ->
  (forall b, b ∈ ret -> b ∈ owned (gkr_metadata rs) ++ owned (gkr_key_buffer rs) /\
     (next m3 <= b < next m4)%nat) ->
  (S (next m0) < next m3)%nat -> is_Some (heap m4 !! S (next m0)) ->
  served m0 c F keep (gk_reply v a)
    ((let! res := pack_message QKD_SERVICE_GET_KEY_RESPONSE
                    (Z.of_nat (length (enc gk_response_codec v)))
                    (qkd_get_key_response_to_stream rs) in
      in_mem (free_qkd_get_key_request (Some q));;;
      in_mem (free_qkd_get_key_response (Some rs));;;
      cret res) (at_mem m4 s c)).
Proof.
  intros m4 T Hrep Hfr HF Htmp Hat Hfit Hk Hd Hdis HT Hret Hp Hpay.
  pose proof (app_rep_wf _ _ _ Hrep) as Hm4. fold m4 in Hm4.
  eapply served_eq; [by apply gk_packed|]. set (msg := message _ _).
  pose proof (proj1 Hfr) as Hn. set (o := owned _ ++ owned _) in *.
  destruct (served_rep m0 m3 s a F F ret keep T (Bytes (Some <$> msg)) Hrep Htmp Hfr)
    as [Hrep5 Hfr5]; [|left|done| |].
  { intros b. unfold T. rewrite !elem_of_cons. fold m4. intros [->|[->|[?|?]%HT]]; auto; lia. }
  { intros b Hb. pose proof (Hret _ Hb) as [? ?].
    split_and!; [by do 2 right | lia | intros ?%HF; lia]. }
  exists (next m4), (deallocs o (alloc (Bytes (Some <$> msg)) m4)), s, F.
  assert ((S (next m0) ∉ o) /\ (next m4 ∉ o)) as [Hp1 Hp2].
  { split; intros [?|Hr]%HT; try lia; apply Hret in Hr as [_ ?]; lia. }
  split; [done|]. split; [lia|].
  split_and!; [|by rewrite lookup_deallocs, decide_False by done; apply lookup_alloc|done..].
  apply deallocs_live; [done|]. by rewrite lookup_alloc_ne by lia.
Qed.

(** The memory of a decoded GET_KEY request, and what of it is temporary. *)
Definition gk_mem (body md : list byte) (m0 : mem) : mem :=
  allocs [None; Some md] (received body m0).

Lemma gk_temps m0 body md T keep : mem_wf m0 -> S (next m0) ∈ T ->
  (next m0 + 3)%nat ∈ T /\ keep = [] \/ ((next m0 + 3)%nat ∉ T) /\ keep = [next m0 + 3]%nat ->
  temps m0 (gk_mem body md m0) T keep.
Proof.
  intros Hm Hp Hk. unfold gk_mem.
  assert (heap (allocs [None; Some md] (received body m0)) !! (next m0 + 3)%nat =
    Some (Bytes (Some <$> md))) as Hmd.
  { replace (next m0 + 3)%nat with (next (received body m0) + 1)%nat by (cbn; lia).
    apply lookup_allocs; [by apply mem_wf_received|done]. }
  split_and!.
  - rewrite next_allocs. cbn. lia.
  - intros b Hb. rewrite lookup_allocs_lt by (cbn; lia). cbn. by rewrite lookup_insert_ne by lia.
  - intros b Hb. rewrite next_allocs in Hb. cbn in Hb.
    assert (b = next m0 \/ b = S (next m0) \/ b = next m0 + 2 \/ b = next m0 + 3)%nat
      as [-> | [-> | [-> | -> ]]] by lia; [right; right|by left|right; right|];
      [..|destruct Hk as [[? _]|[_ ->]]; [by left|right; left; by left]];
      cbn; rewrite !lookup_insert_ne by lia; apply Hm; lia.
  - destruct Hk as [[_ ->]|[_ ->]]; [apply NoDup_nil_2|apply NoDup_singleton].
  - intros b Hb. destruct Hk as [[_ ->]|[HT ->]]; [by apply elem_of_nil in Hb|].
    apply list_elem_of_singleton in Hb as ->. rewrite next_allocs. cbn [received alloc bump next length].
    split; [lia|]. split; [done|]. by rewrite Hmd.
Qed.

(** A denied request: its own metadata is sent back and freed. *)
Lemma gk_denied_served m0 s a F c body md q i status :
  app_rep (set_mem (gk_mem body md m0) s) a F -> mem_wf m0 ->
  (forall b, b ∈ F -> (b < next m0)%nat) -> blob_ok md ->
  let v := {| gkr_status := status; gkr_index := i; gkr_key_buffer := [];
              gkr_metadata := md |} in
  let rs := {| gkr_status := status; gkr_index := i;
               gkr_key_buffer := qkd_bytes_zero;
               gkr_metadata := buffer (S (S (next m0)) + 1) md |} in
  payload_fits gk_response_codec v ->
  served m0 c F [] (gk_reply v a)
    ((let! res := pack_message QKD_SERVICE_GET_KEY_RESPONSE
                    (Z.of_nat (length (enc gk_response_codec v)))
                    (qkd_get_key_response_to_stream rs) in
      in_mem (free_qkd_get_key_request (Some q));;;
      in_mem (free_qkd_get_key_response (Some rs));;;
      cret res) (at_mem (gk_mem body md m0) s c)).
Proof.
  intros Hrep Hm HF Hmd v rs Hfit. set (m3 := gk_mem body md m0) in *.
  pose proof (app_rep_wf _ _ _ Hrep) as Hm3. rewrite get_set_mem in Hm3.
  assert (heap m3 !! (S (S (next m0)) + 1)%nat = Some (Bytes (Some <$> md))) as Hb.
  { apply (lookup_allocs [None; Some md] (received body m0) 1); [|done]. by apply mem_wf_received. }
  pose proof (gk_served m0 m3 (set_mem m3 s) a F [] [] c q rs v) as H.
  rewrite get_set_mem in H. unfold at_mem in *. rewrite set_set_mem in H.
  assert (next m3 = next m0 + 4)%nat as Hn3 by (unfold m3, gk_mem; rewrite next_allocs; cbn; lia).
  apply H; try done.
  - by apply frame_refl.
  - apply gk_temps; [done|by right; left|]. left. split; [|done].
    do 2 right. cbn. rewrite elem_of_cons. left. lia.
  - split_and!; [done..|split_and!; [done..|by left]|]. by apply bytes_at_block.
  - by intros b _ ?%elem_of_nil.
  - intros b. cbn. rewrite elem_of_cons, elem_of_nil. lia.
  - by intros b ?%elem_of_nil.
  - lia.
  - exists (Bytes (Some <$> body)). unfold m3, gk_mem. rewrite lookup_allocs_lt by (cbn; lia).
    cbn. by rewrite lookup_insert_eq.
Qed.

(** A key: the response's buffers are the application's and are freed. *)
Lemma gk_key_served m0 s' a F c body md q i key md' k d :
  let m3 := gk_mem body md m0 in let m4 := get_mem s' in
  app_rep s' a F -> mem_wf m0 -> (forall b, b ∈ F -> (b < next m0)%nat) ->
  frame m3 m4 F F [k; d] -> k <> d -> (next m3 <= k)%nat -> (next m3 <= d)%nat ->
  heap m4 !! k = Some (Bytes (Some <$> key)) -> heap m4 !! d = Some (Bytes (Some <$> md')) ->
  blob_ok key -> blob_ok md' ->
  let v := {| gkr_status := status_code qkd_status_code_successful; gkr_index := i;
              gkr_key_buffer := key; gkr_metadata := md' |} in
  let rs := {| gkr_status := status_code qkd_status_code_successful; gkr_index := i;
               gkr_key_buffer := buffer k key; gkr_metadata := buffer d md' |} in
  payload_fits gk_response_codec v ->
  served m0 c F [next m0 + 3]%nat (gk_reply v a)
    ((let! res := pack_message QKD_SERVICE_GET_KEY_RESPONSE
                    (Z.of_nat (length (enc gk_response_codec v)))
                    (qkd_get_key_response_to_stream rs) in
      in_mem (free_qkd_get_key_request (Some q));;;
      in_mem (free_qkd_get_key_response (Some rs));;;
      cret res) (at_mem m4 s' c)).
Proof.
  intros m3 m4 Hrep Hm HF Hfr Hkd Hk3 Hd3 Hk Hd Hbk Hbd v rs Hfit.
  pose proof (app_rep_wf _ _ _ Hrep) as Hm4. fold m4 in Hm4.
  assert (next m3 = next m0 + 4)%nat as Hn3 by (unfold m3, gk_mem; rewrite next_allocs; cbn; lia).
  pose proof (mem_wf_live _ _ Hm4 (mk_is_Some _ _ Hk)). pose proof (mem_wf_live _ _ Hm4 (mk_is_Some _ _ Hd)).
  apply (gk_served m0 m3 s' a F [k; d]); try done.
  - pose proof (proj1 Hfr) as Hn4. apply gk_temps; [done|by right; left|]. right. split; [|done].
    cbn. fold m4. rewrite !elem_of_cons, elem_of_nil. lia.
  - split_and!; [done..|by apply bytes_at_block|by apply bytes_at_block].
  - intros b. cbn. rewrite !elem_of_cons, !elem_of_nil. intros [->|[]] [?|[]]. done.
  - intros b. cbn. rewrite !elem_of_cons, !elem_of_nil. tauto.
  - intros b. cbn. rewrite !elem_of_cons, !elem_of_nil.
    intros [->|[->|[]]]; (split; [tauto|done]).
  - lia.
  - eexists. by apply (payload_live m0 body [None; Some md] m4 F F [k; d]).
Qed.

Lemma qkd_get_key_struct_run q m s c index kb md status s' :
  app_get_key (gkq_key_stream_id q) (gkq_index q) qkd_bytes_zero (gkq_metadata q) 0 (set_mem m s)
    = Ret (index, kb, md, status) s' ->
  in_app (qkd_get_key_struct q) (at_mem m s c) =
    Ret (@Build_get_key_response qkd_bytes_t status index kb md) (at_mem (get_mem s') s' c).
Proof.
  intros H. apply in_app_run. unfold qkd_get_key_struct. by erewrite cbind_ret by exact H.
Qed.

Lemma serve_get_key_run m0 s c a F body :
  app_rep (set_mem m0 s) a F -> Z.of_nat (length body) < 2 ^ 31 ->
  served m0 c F (gk_leak (next m0) body a) (packed (abs_serve_get_key body a))
    (serve_get_key (Ptr (S (next m0)) 0) (at_mem (received body m0) s c)).
Proof.
  intros Hrep Hlen. pose proof (app_rep_wf _ _ _ Hrep) as Hm. rewrite get_set_mem in Hm.
  assert (short body) as Hbody by (unfold short; lia).
  pose proof (mem_wf_received body _ Hm) as Hm1.
  unfold serve_get_key, abs_serve_get_key, gk_leak.
  pose proof (reads_gk_request _ (S (next m0)) [] body Hm1 Hbody (lookup_alloc _ _)) as Hrd.
  cbn [length] in Hrd. destruct (dec gk_request_codec body) as [[q rest]|] eqn:Hdec.
  2: { cbn. erewrite cbind_fault; [done|]. by apply at_mem_fault. }
  pose proof (dec_sound _ _ _ _ Hdec) as [_ (Hid & Hi & Hmd)]. cbn in Hid, Hmd.
  erewrite cbind_ret by by apply at_mem_run. cbv beta iota.
  change (allocs [None; Some (gkq_metadata q)] (received body m0))
    with (gk_mem body (gkq_metadata q) m0). set (m3 := gk_mem body (gkq_metadata q) m0).
  assert (mem_wf m3) as Hm3 by by apply mem_wf_allocs.
  assert (temps m0 m3 [S (next m0)] [(next m0 + 3)%nat]) as Htmp.
  { apply gk_temps; [done|by left|]. right. split; [|done]. rewrite elem_of_cons, elem_of_nil. lia. }
  destruct (app_rep_older m0 m3 s a F _ _ Hrep Htmp Hm3) as [Hrep3 HF].
  assert (heap m3 !! (S (S (next m0)) + 1)%nat = Some (Bytes (Some <$> gkq_metadata q))) as Hb
    by by apply (lookup_allocs [None; Some (gkq_metadata q)] (received body m0) 1).
  pose proof (app_get_key_ok (set_mem m3 s) a F (S (S (next m0)) + 1) (gkq_key_stream_id q)
    (gkq_index q) qkd_bytes_zero (gkq_metadata q) 0 Hrep3 Hid) as Hget.
  rewrite get_set_mem in Hget. specialize (Hget Hb).
  destruct (spec_get_key _ _ _ a) as [status|key md' a'|f].
  - destruct Hget as [_ Hrun]. erewrite cbind_ret by (apply qkd_get_key_struct_run; exact Hrun).
    rewrite get_set_mem. unfold at_mem at 1. rewrite set_set_mem.
    set (v := Build_get_key_response status (gkq_index q) [] (gkq_metadata q)).
    assert (gk_response_at m3 (Build_get_key_response status (gkq_index q) qkd_bytes_zero
      (buffer (S (S (next m0)) + 1) (gkq_metadata q))) v) as Hat
      by (split_and!; [done..|split_and!; [done..|by left]|by apply bytes_at_block]).
    destruct (decide (Z.of_nat (length (enc gk_response_codec v)) < 2 ^ 32)) as [Hfit|Hfit].
    + rewrite (packed_gk v) by done.
      rewrite (qkd_sizeof_get_key_response_run m3 _ v) by done. by apply gk_denied_served.
    + rewrite (packed_gk_overflow v) by done. by apply (gk_overflows m3 s c _ _ v).
  - destruct Hget as (Hbk & Hbd & s' & k & d & Hrun & Hrep' & Hfr & Hkd & Hk3 & Hd3 & Hk & Hd).
    erewrite cbind_ret by (apply qkd_get_key_struct_run; exact Hrun).
    set (v := Build_get_key_response (status_code qkd_status_code_successful) (gkq_index q) key md').
    assert (gk_response_at (get_mem s') (Build_get_key_response (status_code qkd_status_code_successful)
      (gkq_index q) (buffer k key) (buffer d md')) v) as Hat
      by (split_and!; [done..|by apply bytes_at_block|by apply bytes_at_block]).
    destruct (decide (Z.of_nat (length (enc gk_response_codec v)) < 2 ^ 32)) as [Hfit|Hfit].
    + rewrite (packed_gk v) by done. rewrite (qkd_sizeof_get_key_response_run (get_mem s') _ v) by done.
      by apply (gk_key_served m0 s' a' F c body (gkq_metadata q)).
    + rewrite (packed_gk_overflow v) by done. apply (gk_overflows _ s' c _ _ v); try done.
      by eapply app_rep_wf.
  - unfold served. erewrite cbind_fault; [done|]. apply in_app_fault. unfold qkd_get_key_struct.
    cbn [gkq_index gkq_key_stream_id gkq_metadata]. by erewrite cbind_fault by exact Hget.
Qed.

(** ** The whole servlet *)

(** What a run of the servlet from [s] comes to; the blocks [keep] are leaked. *)
Definition replies (st : server_status_t) (s : App) (c : ssl) (F keep : list nat) (rp : reply A)
    (o : outcome (sess App) server_status_t) : Prop :=
  match rp with
  | Reply msg a' =>
      exists s' F',
        o = Ret st (Sess s' (transmit c msg)) /\ app_rep s' a' F' /\
        frame (get_mem s) (get_mem s') F F' keep
  | Undefined f => o = Fault f
  | Killed => exists w, o = Aborted w
  end.

Definition positive_message (rp : reply A) : Prop :=
  match rp with Reply msg _ => (0 < length msg)%nat | _ => True end.

Lemma servlet_served fuel st s c a F keep h body c' rp :
  (2 <= fuel)%nat -> app_rep s a F -> requests c h body c' ->
  service h <> service_code QKD_SERVICE_CLOSE_SERVER ->
  served (get_mem s) c' F keep rp
    (serve (service h) (Ptr (S (next (get_mem s))) 0) (at_mem (received body (get_mem s)) s c')) ->
  replies st s c' F keep rp (qkd_servlet fuel st (Sess s c)).
Proof.
  intros Hf Hrep Hreq Hsv Hserved. rewrite at_mem_get.
  rewrite (servlet_received fuel st h body _ s c c') by (done || by eapply app_rep_wf).
  fold (received body (get_mem s)). destruct rp as [msg a'|f|]; cbn in *.
  - destruct Hserved as (r & m5 & s' & F' & Heq & Hpr & Hp & Hr & Hrep' & Hfr).
    erewrite cbind_ret by exact Heq. rewrite (finish_run _ _ _ msg) by done.
    exists (set_mem (deallocs [r; S (next (get_mem s))] m5) s'), F'.
    by rewrite get_set_mem.
  - by apply cbind_fault.
  - destruct Hserved as [w Hw]. exists w. by apply cbind_aborted.
Qed.

(** A service that is not served: 8 bytes are sent from a null pointer. *)
Lemma finish_null st p m s c : is_Some (heap m !! p) ->
  finish st (Ptr p 0) (sizeof_header, Null) (at_mem m s c) = Fault NullDeref.
Proof.
  intros Hp. unfold finish, free_if. rewrite decide_True by done.
  by erewrite cbind_ret by by apply at_mem_run, free_ok.
Qed.

(** The blocks that a request leaks. *)
Definition serve_leak (n0 : nat) (sv : Z) (body : list byte) (a : A) : list nat :=
  if sv =? service_code QKD_SERVICE_GET_KEY_REQUEST then gk_leak n0 body a else [].

(** The request is a GET_KEY and a key is given. *)
Definition grants (sv : Z) (body : list byte) (a : A) : bool :=
  (sv =? service_code QKD_SERVICE_GET_KEY_REQUEST) &&
  match dec gk_request_codec body with
  | Some (r, _) =>
      match spec_get_key (gkq_key_stream_id r) (gkq_index r) (gkq_metadata r) a with
      | GkKey _ _ _ => true
      | _ => false
      end
  | None => false
  end.

Lemma length_serve_leak n0 sv body a :
  length (serve_leak n0 sv body a) = Nat.b2n (grants sv body a).
Proof.
  unfold serve_leak, grants, gk_leak. destruct (sv =? _); [|done]. cbn [andb].
  destruct (dec _ _) as [[r l]|]; [|done]. by destruct (spec_get_key _ _ _ a).
Qed.

Lemma positive_abs_serve sv body a : positive_message (abs_serve sv body a).
Proof.
  unfold abs_serve, abs_open_connect, abs_serve_get_key, abs_close, gk_reply.
  repeat case_match; unfold positive_message; rewrite ?length_message; try done; lia.
Qed.

Definition known_service (sv : Z) : Prop :=
  sv = service_code QKD_SERVICE_OPEN_CONNECT_REQUEST \/
  sv = service_code QKD_SERVICE_GET_KEY_REQUEST \/ sv = service_code QKD_SERVICE_CLOSE_REQUEST.

#[export] Instance known_service_dec sv : Decision (known_service sv).
Proof. unfold known_service. apply _. Defined.

Lemma serve_run sv m0 s c a F body :
  app_rep (set_mem m0 s) a F -> Z.of_nat (length body) < 2 ^ 31 -> known_service sv ->
  served m0 c F (serve_leak (next m0) sv body a) (packed (abs_serve sv body a))
    (serve sv (Ptr (S (next m0)) 0) (at_mem (received body m0) s c)).
Proof.
  intros Hrep Hlen [->|[->| ->]].
  - by apply serve_open_connect_run.
  - by apply serve_get_key_run.
  - change (abs_serve _ body a) with (abs_close body a). rewrite packed_small.
    + apply serve_close_run; [done | unfold short; lia].
    + unfold abs_close. by destruct (dec cl_request_codec body) as [[q r]|].
Qed.

Lemma serve_unknown sv p body (a : A) : ~ known_service sv ->
  serve sv p = cret (sizeof_header, Null) /\ abs_serve sv body a = Undefined NullDeref.
Proof.
  intros Hn. unfold serve, abs_serve.
  do 3 (rewrite (proj2 (Z.eqb_neq _ _)) by (intros ->; apply Hn; unfold known_service; tauto)).
  done.
Qed.

(** The servlet on a request that is delivered, whatever its service and payload, and
    whatever the size of the response. *)
Lemma servlet_replies fuel st (s : App) c (a : A) F h body c' :
  (2 <= fuel)%nat -> app_rep s a F -> requests c h body c' ->
  service h <> service_code QKD_SERVICE_CLOSE_SERVER ->
  replies st s c' F (serve_leak (next (get_mem s)) (service h) body a)
    (packed (abs_serve (service h) body a)) (qkd_servlet fuel st (Sess s c)).
Proof.
  intros Hf Hrep Hreq Hsv.
  pose proof (Hrep0 := Hrep). rewrite <- (set_get_mem s) in Hrep0.
  assert (Z.of_nat (length body) < 2 ^ 31) as Hlen by apply Hreq.
  destruct (decide (known_service (service h))) as [Hk|Hk].
  - apply (servlet_served fuel st s c a F _ h body c'); try done. by apply serve_run.
  - destruct (serve_unknown _ (Ptr (S (next (get_mem s))) 0) body a Hk) as [Hs ->].
    cbn. rewrite at_mem_get, (servlet_received fuel st h body _ s c c')
      by (done || by eapply app_rep_wf).
    rewrite Hs. erewrite cbind_ret by done. apply finish_null. cbn. by rewrite lookup_insert_eq.
Qed.

End runs.
