(* ===== verification/Errors.v ===== *)
(** The reports of OpenSSL's errors in [src/qkd/ssl_socket.c]: [socket_ssl_check_errors] and
    [log_ssl].

    OpenSSL keeps the errors of its calls in a queue, the class [SslErrors].  Both functions
    only read this queue and print to the standard error: they touch neither the connection
    nor the program's memory, which is why [Socket.v] and [Setup.v] leave their calls out. *)

From S2P Require Import Prelude Models Memory Platform Printf.

(** What [SSL_get_error] returns. *)
Definition SSL_ERROR_SSL : Z := 1.
Definition SSL_ERROR_WANT_READ : Z := 2.
Definition SSL_ERROR_WANT_WRITE : Z := 3.
Definition SSL_ERROR_SYSCALL : Z := 5.
Definition SSL_ERROR_ZERO_RETURN : Z := 6.

Class SslErrors {OS : Openssl} := {
  errors : Type;
  SSL_get_error : ssl -> Z -> errors -> Z;
  (** the code, or 0, and the state after it *)
  ERR_get_error : errors -> Z * errors;
  (** the text of a code; [None] is a null pointer *)
  ERR_error_string : Z -> option (list byte);
  (** what is printed, and the state after it *)
  ERR_print_errors_fp : errors -> list byte * errors;
}.

(** Documented: [ERR_get_error] returns the earliest error and removes it, and 0 when there is
    none; [ERR_print_errors_fp] prints a line for each error, the earliest first, and empties
    the queue; [ERR_error_string] returns a string. *)
Class SslErrorsOk {OS : Openssl} {SE : SslErrors} := {
  error_queue : errors -> list Z;
  error_line : Z -> list byte;
  error_queue_codes : forall e, 0 ∉ error_queue e;
  ERR_get_error_none : forall e, error_queue e = [] ->
    (ERR_get_error e).1 = 0 /\ error_queue (ERR_get_error e).2 = [];
  ERR_get_error_first : forall e c q, error_queue e = c :: q ->
    (ERR_get_error e).1 = c /\ error_queue (ERR_get_error e).2 = q;
  ERR_print_errors_all : forall e,
    (ERR_print_errors_fp e).1 = concat (error_line <$> error_queue e) /\
    error_queue (ERR_print_errors_fp e).2 = [];
  ERR_error_string_some : forall c, is_Some (ERR_error_string c);
}.

Section errors.
Context {OS : Openssl} {SE : SslErrors}.

(** The errors of OpenSSL and what has been printed to the standard error. *)
Record report := { rp_errors : errors; rp_stderr : list byte }.

Definition get_error : C report Z := fun s =>
  Ret (ERR_get_error (rp_errors s)).1
    {| rp_errors := (ERR_get_error (rp_errors s)).2; rp_stderr := rp_stderr s |}.

Definition print_errors : C report unit := fun s =>
  Ret tt {| rp_errors := (ERR_print_errors_fp (rp_errors s)).2;
            rp_stderr := rp_stderr s ++ (ERR_print_errors_fp (rp_errors s)).1 |}.

(** [len] is an [int]: the size read or written, or what the call returned instead. *)
Definition socket_ssl_check_errors (c : ssl) (len : Z) : C report unit :=
  if len <? 0 then
    let! s := cget in
    let err := SSL_get_error c len (rp_errors s) in
    if (err =? SSL_ERROR_WANT_WRITE) || (err =? SSL_ERROR_WANT_READ) then cret tt
    else print_errors
  else cret tt.

(** [fuel] bounds the turns of the loop. *)
Fixpoint log_ssl (fuel : nat) : C report unit :=
  match fuel with
  | O => fun _ => NoFuel
  | S fuel =>
      let! err := get_error in
      if err =? 0 then cret tt else
      match ERR_error_string err with
      | None => cret tt
      | Some err_msg => print_errors;;; log_ssl fuel
      end
  end.

(** ** Lemmas *)

Context {SO : SslErrorsOk}.

Lemma get_error_run e out c q : error_queue e = c :: q ->
  exists e', get_error {| rp_errors := e; rp_stderr := out |} =
      Ret c {| rp_errors := e'; rp_stderr := out |} /\ error_queue e' = q /\ c <> 0.
Proof.
  intros Hq. destruct (ERR_get_error_first e c q Hq) as [H1 H2].
  exists (ERR_get_error e).2. unfold get_error. cbn. rewrite H1. split; [done|]. split; [done|].
  intros ->. apply (error_queue_codes e). rewrite Hq. by left.
Qed.

Lemma get_error_none e out : error_queue e = [] ->
  exists e', get_error {| rp_errors := e; rp_stderr := out |} =
      Ret 0 {| rp_errors := e'; rp_stderr := out |} /\ error_queue e' = [].
Proof.
  intros Hq. destruct (ERR_get_error_none e Hq) as [H1 H2].
  exists (ERR_get_error e).2. unfold get_error. cbn. by rewrite H1.
Qed.

Lemma print_errors_run e out :
  exists e', print_errors {| rp_errors := e; rp_stderr := out |} =
      Ret tt {| rp_errors := e'; rp_stderr := out ++ concat (error_line <$> error_queue e) |} /\
    error_queue e' = [].
Proof.
  destruct (ERR_print_errors_all e) as [H1 H2].
  exists (ERR_print_errors_fp e).2. unfold print_errors. cbn. by rewrite H1.
Qed.

(** The loop makes at most two turns: the first removes an error and prints the others. *)
Lemma log_ssl_run fuel e out : (2 <= fuel)%nat ->
  exists e', log_ssl fuel {| rp_errors := e; rp_stderr := out |} =
      Ret tt {| rp_errors := e';
                rp_stderr := out ++ concat (error_line <$> tail (error_queue e)) |} /\
    error_queue e' = [].
Proof.
  intros Hf. destruct fuel as [|[|fuel]]; [lia..|]. destruct (error_queue e) as [|c q] eqn:Hq.
  - destruct (get_error_none e out Hq) as (e1 & H1 & He1). exists e1. cbn [log_ssl].
    erewrite cbind_ret by exact H1. cbn. by rewrite app_nil_r.
  - destruct (get_error_run e out c q Hq) as (e1 & H1 & He1 & Hc). cbn [log_ssl].
    erewrite cbind_ret by exact H1. rewrite (proj2 (Z.eqb_neq _ _)) by done.
    destruct (ERR_error_string_some c) as [msg ->].
    destruct (print_errors_run e1 out) as (e2 & H2 & He2). erewrite cbind_ret by exact H2.
    destruct (get_error_none e2 (out ++ concat (error_line <$> error_queue e1)) He2) as (e3 & H3 & He3).
    exists e3.
    erewrite cbind_ret by exact H3. cbn [tail]. by rewrite He1.
Qed.

Lemma check_errors_run c len e out :
  exists e', socket_ssl_check_errors c len {| rp_errors := e; rp_stderr := out |} =
      Ret tt {| rp_errors := e';
                rp_stderr := out ++
                  (if decide (len < 0 /\ SSL_get_error c len e <> SSL_ERROR_WANT_READ /\
                              SSL_get_error c len e <> SSL_ERROR_WANT_WRITE)
                   then concat (error_line <$> error_queue e) else []) |}.
Proof.
  unfold socket_ssl_check_errors. destruct (Z.ltb_spec len 0) as [Hlt|Hge].
  - erewrite cbind_ret by done. cbn [rp_errors].
    destruct (Z.eqb_spec (SSL_get_error c len e) SSL_ERROR_WANT_WRITE) as [Hw|Hw];
      [|destruct (Z.eqb_spec (SSL_get_error c len e) SSL_ERROR_WANT_READ) as [Hr|Hr]]; cbn [orb].
    + exists e. rewrite decide_False by tauto. by rewrite app_nil_r.
    + exists e. rewrite decide_False by tauto. by rewrite app_nil_r.
    + rewrite decide_True by done. destruct (print_errors_run e out) as (e' & H & _). by exists e'.
  - exists e. rewrite decide_False by lia. by rewrite app_nil_r.
Qed.

End errors.

(** An instance to run the functions with: the queue itself, and codes in decimal. *)
Module ConcreteErrors.
Definition queue {OS : Openssl} : SslErrors := {|
  errors := list positive;
  SSL_get_error _ _ q := match q with [] => SSL_ERROR_SYSCALL | _ => SSL_ERROR_SSL end;
  ERR_get_error q := match q with [] => (0, []) | c :: q => (Zpos c, q) end;
  ERR_error_string c := Some (print_d c);
  ERR_print_errors_fp q := (concat ((fun c => print_d (Zpos c) ++ [x0a]) <$> q), []);
|}.

Definition queue_ok {OS : Openssl} : @SslErrorsOk OS queue.
Proof.
  refine (@Build_SslErrorsOk OS queue (fun q => Zpos <$> q) (fun c => print_d c ++ [x0a]) _ _ _ _ _).
  - intros q Hin. apply list_elem_of_fmap in Hin as (c & H & _). done.
  - intros [|c q] H; done.
  - intros [|c q] c' q' H; [done|]. cbn in *. by injection H as -> ->.
  - intros q. split; [|done]. cbn. f_equal. by rewrite <- list_fmap_compose.
  - intros c. by eexists.
Defined.
End ConcreteErrors.
