(* ===== verification/Setup.v ===== *)
(** The other half of [src/qkd/ssl_socket.c]: TLS contexts, connections, and the loop of
    the server.

    OpenSSL's contexts and the sockets of the operating system are parameters, the class
    [Tls]: operations on a state [env] that return what the C function returns.  A file
    name is [None] for a null pointer.  What is printed is not modelled. *)

From S2P Require Import Prelude Models Memory Wire Sizes Platform Printf Serializers Copy.
From S2P Require Import Interfaces Socket Servlet.

Inductive role_t := ROLE_CLIENT | ROLE_SERVER.

#[export] Instance role_eq_dec : EqDecision role_t.
Proof. solve_decision. Defined.

Abbreviation path := (option (list byte)).

Definition SSL_VERIFY_NONE : Z := 0.
Definition SSL_VERIFY_PEER : Z := 1.
Definition SSL_VERIFY_FAIL_IF_NO_PEER_CERT : Z := 2.

Class Tls {OS : Openssl} := {
  env : Type;
  SSL_CTX : Type;
  (** contexts; [SSL_CTX_new] of the method for the role *)
  SSL_CTX_new : role_t -> env -> option SSL_CTX * env;
  SSL_CTX_set_ecdh_auto : option SSL_CTX -> Z -> env -> Z * env;
  SSL_CTX_set_max_proto_version : option SSL_CTX -> Z -> env -> Z * env;
  SSL_CTX_set_cipher_list : SSL_CTX -> list byte -> env -> Z * env;
  SSL_CTX_use_certificate_file : SSL_CTX -> list byte -> env -> Z * env;
  SSL_CTX_use_PrivateKey_file : SSL_CTX -> list byte -> env -> Z * env;
  SSL_CTX_check_private_key : SSL_CTX -> env -> Z * env;
  SSL_CTX_load_verify_locations : SSL_CTX -> list byte -> env -> Z * env;
  SSL_CTX_set_verify : SSL_CTX -> Z -> env -> unit * env;
  SSL_CTX_free : SSL_CTX -> env -> unit * env;
  (** the mode that [SSL_CTX_set_verify] sets *)
  SSL_CTX_get_verify_mode : SSL_CTX -> env -> Z;
  (** connections *)
  SSL_new : SSL_CTX -> env -> option ssl * env;
  SSL_set_fd : ssl -> Z -> env -> ssl * env;
  SSL_connect : ssl -> env -> (Z * ssl) * env;
  (** sockets: [socket], [connect], [setsockopt(SO_REUSEADDR)], [bind], [listen] *)
  socket : env -> Z * env;
  connect : Z -> list byte -> Z -> env -> Z * env;
  setsockopt : Z -> env -> Z * env;
  bind : Z -> list byte -> Z -> env -> Z * env;
  listen : Z -> Z -> env -> Z * env;
  getuid : env -> Z * env;
  (** the server's side of a connection, and the end of one *)
  accept : Z -> env -> Z * env;
  SSL_accept : ssl -> env -> (Z * ssl) * env;
  SSL_shutdown : ssl -> env -> Z * env;
  SSL_free : ssl -> env -> unit * env;
  close : Z -> env -> Z * env;
}.

(** Documented: the verification mode is the one last set. *)
Class TlsOk {OS : Openssl} {TLS : Tls} : Prop :=
  verify_mode_set : forall ctx mode e,
    SSL_CTX_get_verify_mode ctx (SSL_CTX_set_verify ctx mode e).2 = mode.

Section setup.
Context {OS : Openssl} {TLS : Tls}.

(** A call of a library function. *)
Definition call {A} (f : env -> A * env) : C env A := fun e => Ret (f e).1 (f e).2.

(** [SSL_CTX_free(ctx); exit(EXIT_FAILURE);] *)
Definition fail_context {A} (ctx : SSL_CTX) : C env A :=
  call (SSL_CTX_free ctx);;; cexit EXIT_FAILURE.

Definition socket_ssl_context_load_certs (ctx : SSL_CTX) (cert_file key_file : path) :
    C env unit :=
  match cert_file, key_file with
  | Some cert_file, Some key_file =>
      let! r := call (SSL_CTX_use_certificate_file ctx cert_file) in
      if r <=? 0 then fail_context ctx else
      let! r := call (SSL_CTX_use_PrivateKey_file ctx key_file) in
      if r <=? 0 then fail_context ctx else
      let! r := call (SSL_CTX_check_private_key ctx) in
      if r =? 0 then fail_context ctx else
      cret tt
  | _, _ => cret tt
  end.

Definition socket_ssl_context_load_peer_CA (ctx : SSL_CTX) (peer_ca_file : path) (role : role_t) :
    C env unit :=
  match peer_ca_file with
  | None => call (SSL_CTX_set_verify ctx SSL_VERIFY_NONE)
  | Some peer_ca_file =>
      let! r := call (SSL_CTX_load_verify_locations ctx peer_ca_file) in
      if r <=? 0 then fail_context ctx else
      call (SSL_CTX_set_verify ctx
        (if decide (role = ROLE_CLIENT) then SSL_VERIFY_PEER
         else Z.lor SSL_VERIFY_PEER SSL_VERIFY_FAIL_IF_NO_PEER_CERT))
  end.

(** ["HIGH"] *)
Definition cipher_list : list byte := [x48; x49; x47; x48].

Definition socket_ssl_context_create (role : role_t) (cert_pem key_pem peer_ca_pem : path)
    (max_proto_version : Z) : C env SSL_CTX :=
  (if decide (role = ROLE_SERVER) then
     match cert_pem, key_pem with
     | Some _, Some _ => cret tt
     | _, _ => cexit EXIT_FAILURE
     end
   else cret tt);;;
  let! ctx := call (SSL_CTX_new role) in
  (if decide (role = ROLE_SERVER) then call (SSL_CTX_set_ecdh_auto ctx 1) else cret 0);;;
  call (SSL_CTX_set_max_proto_version ctx max_proto_version);;;
  match ctx with
  | None => cexit EXIT_FAILURE
  | Some ctx =>
      let! r := call (SSL_CTX_set_cipher_list ctx cipher_list) in
      if r <=? 0 then fail_context ctx else
      socket_ssl_context_load_certs ctx cert_pem key_pem;;;
      socket_ssl_context_load_peer_CA ctx peer_ca_pem role;;;
      cret ctx
  end.

Definition socket_ssl_init (ctx : SSL_CTX) (socket : Z) : C env ssl :=
  let! ssl_socket := call (SSL_new ctx) in
  match ssl_socket with
  | None => fail_context ctx
  | Some ssl_socket => call (SSL_set_fd ssl_socket socket)
  end.

Definition socket_create_connection (host : list byte) (port : Z) : C env Z :=
  let! s := call socket in
  if s <? 0 then cexit EXIT_FAILURE else
  let! r := call (connect s host port) in
  if r =? 0 then cret s else cexit EXIT_FAILURE.

Definition socket_client_init (host : list byte) (port : Z) (cert_pem key_pem peer_ca_pem : path)
    (max_proto_version : Z) : C env ssl :=
  let! s := socket_create_connection host port in
  let! ctx := socket_ssl_context_create ROLE_CLIENT cert_pem key_pem peer_ca_pem
                max_proto_version in
  let! ssl_socket := socket_ssl_init ctx s in
  let! '(err, ssl_socket) := call (SSL_connect ssl_socket) in
  if err <=? 0 then cexit EXIT_FAILURE else cret ssl_socket.

Definition socket_create_server (host : list byte) (port : Z) : C env Z :=
  let! server_socket := call socket in
  let! r := call (setsockopt server_socket) in
  if r <? 0 then cexit EXIT_FAILURE else
  let! r := call (bind server_socket host port) in
  if negb (r =? 0) then cexit EXIT_FAILURE else
  let! r := call (listen server_socket 10) in
  if negb (r =? 0) then cexit EXIT_FAILURE else
  cret server_socket.

(** ** The loop of the server *)

Context {App : Type}.

Definition on_env {A} (e : C env A) : C (env * App) A := zoom fst (fun e s => (e, s.2)) e.
Definition on_app {A} (e : C App A) : C (env * App) A := zoom snd (fun a s => (s.1, a)) e.

(** The servlet on a connection. *)
Definition on_connection {A} (e : C (sess App) A) (c : ssl) : C App (A * ssl) := fun s =>
  match e (Sess s c) with
  | Ret a w => Ret (a, s_ssl w) (s_app w)
  | Exit n w => Exit n (s_app w)
  | Aborted w => Aborted (s_app w)
  | Fault f => Fault f
  | NoFuel => NoFuel
  end.

(** The first [turns] turns of the loop.  The result is the status after them and, for
    each turn, the connection as the servlet leaves it.  With the status
    [SERVER_LISTENING] the loop goes on with the next client. *)
Fixpoint serve_loop (turns : nat) (servlet : server_status_t -> C (sess App) server_status_t)
    (ctx : SSL_CTX) (server_socket : Z) (server_status : server_status_t) :
    C (env * App) (server_status_t * list ssl) :=
  match server_status, turns with
  | SERVER_FINISHED, _ | SERVER_LISTENING, O => cret (server_status, [])
  | SERVER_LISTENING, S turns =>
      let! client_socket := on_env (call (accept server_socket)) in
      let! ssl_socket := on_env (socket_ssl_init ctx client_socket) in
      let! '(r, ssl_socket) := on_env (call (SSL_accept ssl_socket)) in
      let! '(server_status, ssl_socket) :=
        (if r =? -1 then cret (server_status, ssl_socket)
         else on_app (on_connection (servlet server_status) ssl_socket)) in
      on_env (call (SSL_shutdown ssl_socket));;;
      on_env (call (SSL_free ssl_socket));;;
      on_env (call (close client_socket));;;
      let! '(server_status, l) := serve_loop turns servlet ctx server_socket server_status in
      cret (server_status, ssl_socket :: l)
  end.

(** What comes before the loop: the check of the port, the context, the socket. *)
Definition socket_server_setup (host : list byte) (port : Z) (cert_pem key_pem ca_pem : path)
    (max_proto_version : Z) : C env (SSL_CTX * Z) :=
  let! refused := (if port <? 1024 then let! u := call getuid in cret (negb (u =? 0))
                   else cret false) in
  if refused then cexit 0 else
  let! ctx := socket_ssl_context_create ROLE_SERVER cert_pem key_pem ca_pem max_proto_version in
  let! server_socket := socket_create_server host port in
  cret (ctx, server_socket).

(** [socket_server_init] up to the given turn of its loop, and to its end if the loop
    ends before. *)
Definition socket_server_init (turns : nat) (host : list byte) (port : Z)
    (cert_pem key_pem ca_pem : path) (max_proto_version : Z)
    (servlet : server_status_t -> C (sess App) server_status_t) :
    C (env * App) (server_status_t * list ssl) :=
  let! '(ctx, server_socket) :=
    on_env (socket_server_setup host port cert_pem key_pem ca_pem max_proto_version) in
  let! '(server_status, l) := serve_loop turns servlet ctx server_socket SERVER_LISTENING in
  match server_status with
  | SERVER_LISTENING => cret (server_status, l)
  | SERVER_FINISHED =>
      on_env (call (close server_socket));;;
      on_env (call (SSL_CTX_free ctx));;;
      cret (server_status, l)
  end.

(** [qkd_socket_server_init] of [ssl_socket_server.c]; [fuel] as for [qkd_servlet]. *)
Definition qkd_socket_server_init {HM : HasMem App} {APP : QkdApp App} {ML : Malloc}
    {LU : Libuuid} {ST : Stack} (turns fuel : nat) (host : list byte) (port : Z)
    (cert_pem key_pem ca_pem : path) (max_proto_version : Z) :
    C (env * App) (server_status_t * list ssl) :=
  socket_server_init turns host port cert_pem key_pem ca_pem max_proto_version
    (qkd_servlet fuel).

(** What comes after the loop when it ends. *)
Definition server_closed (ctx : SSL_CTX) (server_socket : Z) (st : server_status_t) (e : env) : env :=
  match st with
  | SERVER_LISTENING => e
  | SERVER_FINISHED => (SSL_CTX_free ctx (close server_socket e).2).2
  end.

Lemma socket_server_init_run turns host port cert_pem key_pem ca_pem proto servlet ctx sock e e1 e2
    s st l s' :
  socket_server_setup host port cert_pem key_pem ca_pem proto e = Ret (ctx, sock) e1 ->
  serve_loop turns servlet ctx sock SERVER_LISTENING (e1, s) = Ret (st, l) (e2, s') ->
  socket_server_init turns host port cert_pem key_pem ca_pem proto servlet (e, s) =
    Ret (st, l) (server_closed ctx sock st e2, s').
Proof.
  intros Hsetup Hloop. unfold socket_server_init.
  erewrite cbind_ret by (unfold on_env, zoom; cbn [fst snd]; rewrite Hsetup; done).
  cbv beta iota. erewrite cbind_ret by exact Hloop. by destruct st.
Qed.

(** ** The loop on given connections *)

(** A client of the server: its connection when the handshake is over, and what
    [SSL_accept] returned for it. *)
Record client := { cl_ssl : ssl; cl_accept : Z }.

(** The loop on the connections of [clients], in the order in which they are accepted. *)
Fixpoint serve_clients (servlet : server_status_t -> C (sess App) server_status_t)
    (clients : list client) (server_status : server_status_t) :
    C App (server_status_t * list ssl) :=
  match server_status, clients with
  | SERVER_FINISHED, _ | SERVER_LISTENING, [] => cret (server_status, [])
  | SERVER_LISTENING, c :: clients =>
      let! '(server_status, ssl_socket) :=
        (if cl_accept c =? -1 then cret (server_status, cl_ssl c)
         else on_connection (servlet server_status) (cl_ssl c)) in
      let! '(server_status, l) := serve_clients servlet clients server_status in
      cret (server_status, ssl_socket :: l)
  end.

(** The loop goes on with the clients that follow. *)
Lemma serve_clients_app servlet cls cls' st st1 s l s1 :
  serve_clients servlet cls st s = Ret (st1, l) s1 -> st1 = SERVER_LISTENING ->
  serve_clients servlet (cls ++ cls') st s =
    (let! '(st', l') := serve_clients servlet cls' SERVER_LISTENING in cret (st', l ++ l')) s1.
Proof.
  revert st s l. induction cls as [|c cls IH]; intros st s l H ->.
  - destruct st; [discriminate H|]. injection H as <- <-. unfold cbind. cbn [app].
    by destruct (serve_clients servlet cls' _ s) as [[st' l'] ?| | | |].
  - destruct st; [discriminate H|]. cbn [app serve_clients] in *.
    apply cbind_inv in H as ([st2 c2] & s2 & H1 & H2). erewrite cbind_ret by exact H1. cbv beta iota.
    apply cbind_inv in H2 as ([st3 l3] & s3 & H2 & [= -> <- <-]).
    unfold cbind at 1. rewrite (IH st2 s2 l3 H2 eq_refl). unfold cbind.
    by destruct (serve_clients servlet cls' _ s3) as [[st' l'] ?| | | |].
Qed.

(** The library hands out the connections of [clients], whatever the servlet leaves of
    those before. *)
Fixpoint hands_out (ctx : SSL_CTX) (server_socket : Z) (clients : list client) (e : env) : Prop :=
  match clients with
  | [] => True
  | c :: clients =>
      exists client_socket c0 e1 e2 e3,
        accept server_socket e = (client_socket, e1) /\
        socket_ssl_init ctx client_socket e1 = Ret c0 e2 /\
        SSL_accept c0 e2 = ((cl_accept c, cl_ssl c), e3) /\
        forall c', hands_out ctx server_socket clients
                     (close client_socket (SSL_free c' (SSL_shutdown c' e3).2).2).2
  end.

Lemma on_env_run {A} (f : C env A) e s a e' : f e = Ret a e' ->
  on_env f (e, s) = Ret a (e', s).
Proof. unfold on_env, zoom. cbn [fst snd]. by intros ->. Qed.

(** The turns of the code's loop are those of the loop on the connections handed out. *)
Lemma serve_loop_clients servlet ctx server_socket clients : forall st e s,
  hands_out ctx server_socket clients e ->
  exists e',
    serve_loop (length clients) servlet ctx server_socket st (e, s) =
    match serve_clients servlet clients st s with
    | Ret r s' => Ret r (e', s')
    | Exit n s' => Exit n (e', s')
    | Aborted s' => Aborted (e', s')
    | Fault f => Fault f
    | NoFuel => NoFuel
    end.
Proof.
  induction clients as [|c clients IH]; intros st e s Ho; (destruct st; [by exists e|]).
  { by exists e. }
  destruct Ho as (fd & c0 & e1 & e2 & e3 & H1 & H2 & H3 & Ho).
  cbn [serve_loop serve_clients length]. unfold cbind at 1 2 3, on_env, call, zoom.
  cbn [fst snd]. rewrite H1. cbn [fst snd]. rewrite H2. cbn [fst snd]. rewrite H3. cbn [fst snd].
  destruct (cl_accept c =? -1).
  - destruct (IH SERVER_LISTENING _ s (Ho (cl_ssl c))) as [e' H]. exists e'.
    unfold cbind, cret. cbn [fst snd]. rewrite H.
    by destruct (serve_clients servlet clients SERVER_LISTENING s) as [[] ?| | | |].
  - unfold on_app, zoom, cbind, cret. cbn [fst snd].
    destruct (on_connection (servlet SERVER_LISTENING) (cl_ssl c) s) as [[st1 c1] s1| | | |];
      [|by eexists..].
    destruct (IH st1 _ s1 (Ho c1)) as [e' H]. exists e'. cbn [fst snd]. rewrite H.
    by destruct (serve_clients servlet clients st1 s1) as [[] ?| | | |].
Qed.

End setup.
