(* ===== verification/Run.v ===== *)
(** Runs of the server: the loop of [Setup.v] over [qkd_servlet] refines runs of the
    abstract server, and the key management server's streams in such runs. *)

From S2P Require Import Prelude Models Memory Wire Sizes Platform Printf Serializers.
From S2P Require Import SerializersSpec Copy Kms KmsSpec KmsProofs Interfaces KmsApp Socket.
From S2P Require Import Servlet ServletProofs Setup.

(** What a client does: fail in the TLS handshake, send a request, shut the server down,
    send nothing more before its header or behind the header [h] so that [SSL_read] returns
    [r <= 0], or name a payload in its header that is larger than the server's stack. *)
Inductive event :=
  | Refused
  | Asks (h : qkd_header_t) (body : list byte)
  | Shuts (h : qkd_header_t)
  | Drops (h : option qkd_header_t) (r : Z)
  | Floods (h : qkd_header_t).

Section runs.
Context {A : Type} {SP : AppSpec A}.

(** A run of the abstract server: the responses, if any, to the clients served, the status
    and the state.  [None]: some client sends no request, or one that has no response that
    fits its buffer. *)
Fixpoint abs_run (evs : list event) (a : A) :
    option (list (option (list byte)) * server_status_t * A) :=
  match evs with
  | [] => Some ([], SERVER_LISTENING, a)
  | Refused :: evs => '(out, st, a') ← abs_run evs a; Some (None :: out, st, a')
  | Shuts _ :: _ => Some ([None], SERVER_FINISHED, a)
  | Asks h body :: evs =>
      match packed (abs_serve (service h) body a) with
      | Reply msg a1 => '(out, st, a') ← abs_run evs a1; Some (Some msg :: out, st, a')
      | _ => None
      end
  | (Drops _ _ | Floods _) :: _ => None
  end.

(** The keys that are given in a run. *)
Fixpoint granted (evs : list event) (a : A) : nat :=
  match evs with
  | [] | (Shuts _ | Drops _ _ | Floods _) :: _ => 0
  | Refused :: evs => granted evs a
  | Asks h body :: evs =>
      match abs_serve (service h) body a with
      | Reply _ a1 => Nat.b2n (grants (service h) body a) + granted evs a1
      | _ => 0
      end
  end%nat.

Context {App : Type} {HM : HasMem App} {HMO : HasMemOk App} {APP : QkdApp App}
  {AOK : AppOk App A}.
Context {ML : Malloc} {MT : MallocTotal} {LU : Libuuid} {LO : LibuuidOk}
  {OS : Openssl} {ST : Stack}.

(** The client [c] does [e], after which its connection is [c1]. *)
Definition presents (c : client) (e : event) (c1 : ssl) : Prop :=
  match e with
  | Refused => cl_accept c = -1 /\ c1 = cl_ssl c
  | Asks h body =>
      cl_accept c <> -1 /\ service h <> service_code QKD_SERVICE_CLOSE_SERVER /\
      requests (cl_ssl c) h body c1
  | Shuts h =>
      cl_accept c <> -1 /\ service h = service_code QKD_SERVICE_CLOSE_SERVER /\
      header_ok h /\ sizeof_header <= stack_limit /\
      delivers (cl_ssl c) sizeof_header (enc header_codec h) c1
  | Drops None r =>
      cl_accept c <> -1 /\ sizeof_header <= stack_limit /\ - 2 ^ 31 <= r <= 0 /\
      SSL_read (cl_ssl c) sizeof_header = ((r, []), c1)
  | Drops (Some h) r =>
      cl_accept c <> -1 /\ service h <> service_code QKD_SERVICE_CLOSE_SERVER /\
      header_ok h /\ sizeof_header <= stack_limit /\ - 2 ^ 31 <= r <= 0 /\
      asked (payload_size h) < 2 ^ 31 /\ asked (payload_size h) <= stack_limit /\
      exists c0, delivers (cl_ssl c) sizeof_header (enc header_codec h) c0 /\
                 SSL_read c0 (asked (payload_size h)) = ((r, []), c1)
  | Floods h =>
      cl_accept c <> -1 /\ service h <> service_code QKD_SERVICE_CLOSE_SERVER /\
      header_ok h /\ sizeof_header <= stack_limit /\ payload_size h <> 0 /\
      stack_limit < payload_size h /\
      delivers (cl_ssl c) sizeof_header (enc header_codec h) c1
  end.

(** How the program ends, if it does, at a client that does [e] when the state is [a]. *)
Definition ends_at {S B} (e : event) (a : A) (o : outcome S B) : Prop :=
  match e with
  | Asks h body =>
      match packed (abs_serve (service h) body a) with
      | Reply _ _ => False
      | Undefined f => o = Fault f
      | Killed => exists w, o = Aborted w
      end
  | Drops _ r => if r =? 0 then exists w, o = Exit EXIT_FAILURE w else o = Fault OutOfBounds
  | Floods _ => o = Fault StackOverflow
  | Refused | Shuts _ => False
  end.

(** The connection when the server has sent its answer, or what it sends of one that has
    [2 ^ 31] bytes or more. *)
Definition answered (c : ssl) (out : option (list byte)) : ssl :=
  match out with Some msg => transmit c msg | None => c end.

(** A request of [CLOSE_SERVER], from whoever sends it, ends the server; only the
    connection and the allocation counter change. *)
Lemma servlet_close_server_run fuel st (s : App) c h c1 :
  (2 <= fuel)%nat -> mem_wf (get_mem s) -> header_ok h -> sizeof_header <= stack_limit ->
  service h = service_code QKD_SERVICE_CLOSE_SERVER ->
  delivers c sizeof_header (enc header_codec h) c1 ->
  qkd_servlet fuel st (Sess s c) =
    Ret SERVER_FINISHED (Sess (set_mem (bump (get_mem s)) s) c1).
Proof.
  intros Hf Hm Hh Hs Hsv Hd. rewrite at_mem_get. unfold qkd_servlet.
  rewrite (read_header fuel h _ s c c1 Hf Hm Hh Hs Hd), Hsv. done.
Qed.

Lemma bump_rep (s : App) (a : A) F : app_rep s a F ->
  app_rep (set_mem (bump (get_mem s)) s) a F.
Proof.
  intros Hrep. apply app_rep_frame; [done| |done]. by eapply mem_wf_bump, app_rep_wf.
Qed.

Lemma on_connection_run {B} (e : C (sess App) B) c s b s' c' :
  e (Sess s c) = Ret b (Sess s' c') -> on_connection e c s = Ret (b, c') s'.
Proof. unfold on_connection. by intros ->. Qed.

(** One request. *)
Lemma servlet_responds fuel st (s : App) c (a : A) F h body c1 msg a' :
  (2 <= fuel)%nat -> app_rep s a F -> requests c h body c1 ->
  service h <> service_code QKD_SERVICE_CLOSE_SERVER ->
  packed (abs_serve (service h) body a) = Reply msg a' ->
  exists s' F', qkd_servlet fuel st (Sess s c) = Ret st (Sess s' (transmit c1 msg)) /\
    app_rep s' a' F' /\
    frame (get_mem s) (get_mem s') F F' (serve_leak (next (get_mem s)) (service h) body a).
Proof.
  intros Hf Hrep Hreq Hsv Hr.
  pose proof (servlet_replies fuel st s c a F h body c1 Hf Hrep Hreq Hsv) as H.
  rewrite Hr in H. destruct H as (s' & F' & H). by exists s', F'.
Qed.

(** One request with a response that [SSL_write] takes as it is. *)
Lemma servlet_step fuel st (s : App) c (a : A) F h body c1 msg a' :
  (2 <= fuel)%nat -> app_rep s a F -> requests c h body c1 ->
  service h <> service_code QKD_SERVICE_CLOSE_SERVER ->
  abs_serve (service h) body a = Reply msg a' -> Z.of_nat (length msg) < 2 ^ 31 ->
  exists s' F', qkd_servlet fuel st (Sess s c) = Ret st (Sess s' (SSL_write c1 msg).2) /\
    app_rep s' a' F' /\
    frame (get_mem s) (get_mem s') F F' (serve_leak (next (get_mem s)) (service h) body a).
Proof.
  intros Hf Hrep Hreq Hsv Hr Hlen.
  pose proof (positive_abs_serve (service h) body a) as Hpos. rewrite Hr in Hpos. cbn in Hpos.
  rewrite <- transmit_small by lia. eapply servlet_responds; [done..|].
  by rewrite Hr, packed_small.
Qed.

(** A servlet that returns has sent what [transmit] says of the response of the abstract
    server. *)
Lemma servlet_sent fuel st (s : App) c (a : A) F h body c1 st' w :
  (2 <= fuel)%nat -> app_rep s a F -> requests c h body c1 ->
  service h <> service_code QKD_SERVICE_CLOSE_SERVER ->
  qkd_servlet fuel st (Sess s c) = Ret st' w ->
  st' = st /\ exists msg a' F',
    abs_serve (service h) body a = Reply msg a' /\ Z.of_nat (length msg) < 2 ^ 32 + 8 /\
    0 < Z.of_nat (length msg) /\ s_ssl w = transmit c1 msg /\ app_rep (s_app w) a' F'.
Proof.
  intros Hf Hrep Hreq Hsv Hrun.
  pose proof (servlet_replies fuel st s c a F h body c1 Hf Hrep Hreq Hsv) as H.
  pose proof (positive_abs_serve (service h) body a) as Hpos. rewrite Hrun in H.
  destruct (abs_serve (service h) body a) as [msg a'|f|]; [|done|by destruct H].
  unfold packed in H. case_decide as Hlen; [|done]. destruct H as (s' & F' & [= -> ->] & H2 & _).
  cbn in Hpos. split; [done|]. exists msg, a', F'. split_and!; try done. lia.
Qed.

Lemma frame_bump m F : mem_wf m -> frame m (bump m) F F [].
Proof.
  intros Hm. pose proof (frame_refl m F Hm) as (_ & H2 & H3 & H4 & H5 & H6 & H7).
  split; [cbn; lia|]. split; [done|]. split; [by intros b Hb _ _; apply Hm; cbn in *; lia|].
  split; [by left|done].
Qed.

(** The loop refines the run of the abstract server, and leaks a block for each key that is
    given. *)
Lemma serve_clients_run fuel clients evs conns (s : App) (a : A) F out st a' :
  (2 <= fuel)%nat -> app_rep s a F -> Forall3 presents clients evs conns ->
  abs_run evs a = Some (out, st, a') ->
  exists s' F' L,
    serve_clients (qkd_servlet fuel) clients SERVER_LISTENING s =
      Ret (st, zip_with answered conns out) s' /\ app_rep s' a' F' /\
    frame (get_mem s) (get_mem s') F F' L /\ length L = granted evs a.
Proof.
  intros Hf Hrep Hp. revert s a F out Hrep.
  induction Hp as [|c e c1 clients evs conns He Hp IH]; intros s a F out Hrep Hrun.
  { injection Hrun as <- <- <-. exists s, F, []. split_and!; try done.
    by eapply frame_refl, app_rep_wf. }
  cbn [serve_clients]. destruct e as [|h body|h|h r|h]; cbn [abs_run] in Hrun; [| | |done..].
  - destruct He as [Hacc ->].
    destruct (abs_run evs a) as [[[out' st'] a1]|] eqn:E; [|done]. injection Hrun as <- <- <-.
    destruct (IH s a F out' Hrep E) as (s' & F' & L & H & Hrest). exists s', F', L. split; [|done].
    rewrite Hacc. erewrite cbind_ret by done. cbv beta iota. by erewrite cbind_ret by exact H.
  - destruct He as (Hacc & Hsv & Hreq). rewrite (proj2 (Z.eqb_neq _ _)) by done.
    destruct (packed (abs_serve (service h) body a)) as [msg a1| |] eqn:Epacked; [|done..].
    pose proof (packed_reply _ _ _ Epacked) as [Eserve _].
    destruct (abs_run evs a1) as [[[out' st'] a2]|] eqn:E; [|done]. injection Hrun as <- <- <-.
    destruct (servlet_responds fuel SERVER_LISTENING s (cl_ssl c) a F h body c1 msg a1)
      as (s1 & F1 & H1 & Hrep1 & Hfr1); try done.
    destruct (IH s1 a1 F1 out' Hrep1 E) as (s' & F' & L & H & Hrep' & Hfr & HL).
    exists s', F', (serve_leak (next (get_mem s)) (service h) body a ++ L).
    split; [|split; [done|split; [exact (frame_trans _ _ _ _ _ _ _ _ (app_rep_wf _ _ _ Hrep1) Hfr1 Hfr)|]]].
    2: { cbn [granted]. by rewrite Eserve, length_app, length_serve_leak, HL. }
    erewrite cbind_ret by (by apply on_connection_run). cbv beta iota.
    by erewrite cbind_ret by exact H.
  - destruct He as (Hacc & Hsv & Hh & Hs & Hd). rewrite (proj2 (Z.eqb_neq _ _)) by done.
    injection Hrun as <- <- <-. exists (set_mem (bump (get_mem s)) s), F, [].
    split; [|split; [by apply bump_rep|split; [|done]]].
    2: { rewrite get_set_mem. by eapply frame_bump, app_rep_wf. }
    erewrite cbind_ret by (apply on_connection_run,
      (servlet_close_server_run fuel SERVER_LISTENING s (cl_ssl c) h c1);
      try done; by eapply app_rep_wf).
    cbv beta iota. destruct clients; (erewrite cbind_ret by done); by destruct conns.
Qed.

(** The end of a run: a request for the shutdown was served. *)
Lemma abs_run_finished evs (a : A) out st a' :
  abs_run evs a = Some (out, st, a') ->
  st = SERVER_FINISHED <-> exists h, Shuts h ∈ evs.
Proof.
  assert (forall e, (forall h, e <> Shuts h) -> forall evs,
    (exists h, Shuts h ∈ e :: evs) <-> (exists h, Shuts h ∈ evs)) as Hskip.
  { intros e He l. split; intros [h Hh]; exists h; [|by right].
    apply elem_of_cons in Hh as [Heq|]; [by destruct (He h)|done]. }
  revert a out a'. induction evs as [|[|h body|h|h r|h] evs IH]; intros a out a' H;
    cbn [abs_run] in H; [| | | |done..].
  - injection H as _ <- _. split; [done|]. intros [h Hh]. by apply not_elem_of_nil in Hh.
  - destruct (abs_run evs a) as [[[o st1] a1]|] eqn:E; [|done]. injection H as _ -> ->.
    rewrite Hskip by done. by eapply IH.
  - destruct (packed _) as [msg a1| |]; [|done..].
    destruct (abs_run evs a1) as [[[o st1] a2]|] eqn:E; [|done]. injection H as _ -> ->.
    rewrite Hskip by done. by eapply IH.
  - injection H as _ <- _. split; [|done]. intros _. exists h. by left.
Qed.

(** A run that is not one of the abstract server comes to a client at which the program
    ends, after others that were all served. *)
Definition fatal (e : event) (a : A) : Prop :=
  match e with
  | Asks h body => forall msg a', packed (abs_serve (service h) body a) <> Reply msg a'
  | Drops _ _ | Floods _ => True
  | Refused | Shuts _ => False
  end.

Lemma abs_run_stops evs (a : A) : abs_run evs a = None ->
  exists evs1 e evs2 out a1, evs = evs1 ++ e :: evs2 /\
    abs_run evs1 a = Some (out, SERVER_LISTENING, a1) /\ fatal e a1.
Proof.
  revert a. induction evs as [|e evs IH]; intros a H; [done|].
  destruct e as [|h body|h|h r|h]; cbn [abs_run] in H; [| |done|by eexists [], _, _, [], a..].
  - destruct (abs_run evs a) as [[[o st1] a1]|] eqn:E; [done|].
    destruct (IH a E) as (evs1 & e & evs2 & out & a1 & -> & H1 & H2).
    exists (Refused :: evs1), e, evs2, (None :: out), a1. cbn [abs_run]. by rewrite H1.
  - destruct (packed (abs_serve (service h) body a)) as [msg a1|f|] eqn:Es.
    2,3: eexists [], _, _, [], a; split_and!; [done..|]; cbn; by rewrite Es.
    destruct (abs_run evs a1) as [[[o st1] a2]|] eqn:E; [done|].
    destruct (IH a1 E) as (evs1 & e & evs2 & out & a2 & -> & H1 & H2).
    exists (Asks h body :: evs1), e, evs2, (Some msg :: out), a2. cbn [abs_run].
    by rewrite Es, H1.
Qed.

(** What such an end makes of the program that comes behind. *)
Lemma ends_cbind {S B B'} e0 (a : A) (e : C S B) (k : B -> C S B') s :
  ends_at e0 a (e s) -> ends_at e0 a (cbind e k s).
Proof.
  destruct e0 as [|h body|h|h r|h]; cbn; [done| |done| |apply cbind_fault].
  - destruct (packed _); [done|apply cbind_fault|]. intros [w Hw]. exists w. by apply cbind_aborted.
  - case_match; [|apply cbind_fault]. intros [w Hw]. exists w. by apply cbind_exit.
Qed.

Lemma ends_on_connection e (a : A) (f : C (sess App) server_status_t) c s :
  ends_at e a (f (Sess s c)) -> ends_at e a (on_connection f c s).
Proof.
  unfold on_connection. destruct e as [|h body|h|h r|h]; cbn; [done| |done| |by intros ->].
  - destruct (packed _); [done|by intros ->|]. intros [w ->]. by eexists.
  - case_match; [|by intros ->]. intros [w ->]. by eexists.
Qed.

(** The servlet and the loop end at such a client. *)
Lemma servlet_ends fuel st (s : App) (a : A) F c e c1 :
  (2 <= fuel)%nat -> app_rep s a F -> presents c e c1 -> fatal e a ->
  cl_accept c <> -1 /\ ends_at e a (qkd_servlet fuel st (Sess s (cl_ssl c))).
Proof.
  intros Hf Hrep Hp He. pose proof (app_rep_wf _ _ _ Hrep) as Hm.
  destruct e as [|h body|h|[h|] r|h]; cbn in Hp, He; try done.
  - destruct Hp as (Hacc & Hsv & Hreq). split; [done|].
    pose proof (servlet_replies fuel st s (cl_ssl c) a F h body c1 Hf Hrep Hreq Hsv) as H.
    cbn. destruct (packed _) as [msg a'| |]; [by destruct (He msg a')|done..].
  - destruct Hp as (Hacc & Hsv & Hh & Hs & Hr & Hsz & Hst & c0 & Hd & Hrd). split; [done|].
    rewrite at_mem_get. unfold qkd_servlet.
    rewrite (read_header fuel h _ s (cl_ssl c) c0 Hf Hm Hh Hs Hd), (proj2 (Z.eqb_neq _ _)) by done.
    apply ends_cbind. cbn. rewrite (recv_fails fuel _ r _ c1); [|done| |done..].
    + by destruct (r =? 0); [eexists|].
    + destruct Hh as (_ & _ & Hu). unfold u32, asked, SSL3_RT_MAX_PLAIN_LENGTH in *. case_match; lia.
  - destruct Hp as (Hacc & Hs & Hr & Hrd). split; [done|]. unfold qkd_servlet.
    apply ends_cbind. cbn. rewrite (recv_fails fuel _ r _ c1) by done.
    by destruct (r =? 0); [eexists|].
  - destruct Hp as (Hacc & Hsv & Hh & Hs & Hn & Hbig & Hd). split; [done|]. cbn.
    rewrite at_mem_get. unfold qkd_servlet.
    rewrite (read_header fuel h _ s (cl_ssl c) c1 Hf Hm Hh Hs Hd), (proj2 (Z.eqb_neq _ _)) by done.
    apply cbind_fault. unfold socket_ssl_recv.
    by rewrite (proj2 (Z.eqb_neq _ 0)), (proj2 (Z.ltb_lt _ _)) by done.
Qed.

Lemma serve_clients_ends fuel clients evs conns (s : App) (a : A) F :
  (2 <= fuel)%nat -> app_rep s a F -> Forall3 presents clients evs conns ->
  abs_run evs a = None ->
  exists evs1 e evs2 out a1, evs = evs1 ++ e :: evs2 /\
    abs_run evs1 a = Some (out, SERVER_LISTENING, a1) /\
    ends_at e a1 (serve_clients (qkd_servlet fuel) clients SERVER_LISTENING s).
Proof.
  intros Hf Hrep Hp Hnone.
  destruct (abs_run_stops _ _ Hnone) as (evs1 & e & evs2 & out & a1 & -> & Hrun & He).
  exists evs1, e, evs2, out, a1. split; [done|]. split; [done|].
  apply Forall3_app_inv_m in Hp as (cls1 & cls2 & conns1 & conns2 & -> & -> & Hp1 & Hp2).
  destruct (serve_clients_run fuel cls1 evs1 conns1 s a F _ _ _ Hf Hrep Hp1 Hrun)
    as (s1 & F1 & L & Hserve & Hrep1 & _).
  rewrite (serve_clients_app _ _ _ _ _ _ _ _ Hserve eq_refl). apply ends_cbind.
  inversion Hp2 as [|c e' c1 cls l cs Hc Hp3]; subst.
  destruct (servlet_ends fuel SERVER_LISTENING s1 a1 F1 c e c1 Hf Hrep1 Hc He) as [Hacc Hend].
  cbn [serve_clients]. rewrite (proj2 (Z.eqb_neq _ _)) by done.
  by apply ends_cbind, ends_on_connection.
Qed.

(** The whole of [qkd_socket_server_init]: setup, loop and, after a shutdown, the end. *)
Lemma qkd_server_run {TLS : Tls} fuel host port cert_pem key_pem ca_pem proto e ctx sock e1
    clients evs conns (s : App) (a : A) F out st a' :
  (2 <= fuel)%nat -> app_rep s a F ->
  socket_server_setup host port cert_pem key_pem ca_pem proto e = Ret (ctx, sock) e1 ->
  hands_out ctx sock clients e1 -> Forall3 presents clients evs conns ->
  abs_run evs a = Some (out, st, a') ->
  exists e' s' F',
    qkd_socket_server_init (length clients) fuel host port cert_pem key_pem ca_pem proto (e, s) =
      Ret (st, zip_with answered conns out) (e', s') /\
    app_rep s' a' F' /\
    (st = SERVER_FINISHED -> exists e2, e' = (SSL_CTX_free ctx (close sock e2).2).2) /\
    exists L, frame (get_mem s) (get_mem s') F F' L /\ length L = granted evs a.
Proof.
  intros Hf Hrep Hsetup Ho Hp Hrun.
  destruct (serve_clients_run fuel clients evs conns s a F out st a' Hf Hrep Hp Hrun)
    as (s' & F' & L & Hserve & Hrep' & Hfr & HL).
  destruct (serve_loop_clients (qkd_servlet fuel) ctx sock clients SERVER_LISTENING e1 s Ho)
    as (e2 & Hloop). rewrite Hserve in Hloop.
  eexists _, s', F'.
  split; [by eapply socket_server_init_run|].
  split; [done|]. split; [intros ->; by exists e2|by exists L].
Qed.

(** The server ends with its loop. *)
Lemma qkd_server_ends {TLS : Tls} fuel host port cert_pem key_pem ca_pem proto e ctx sock e1
    clients evs conns (s : App) (a : A) F :
  (2 <= fuel)%nat -> app_rep s a F ->
  socket_server_setup host port cert_pem key_pem ca_pem proto e = Ret (ctx, sock) e1 ->
  hands_out ctx sock clients e1 -> Forall3 presents clients evs conns ->
  abs_run evs a = None ->
  exists evs1 ev evs2 out a1, evs = evs1 ++ ev :: evs2 /\
    abs_run evs1 a = Some (out, SERVER_LISTENING, a1) /\
    ends_at ev a1
      (qkd_socket_server_init (length clients) fuel host port cert_pem key_pem ca_pem proto (e, s)).
Proof.
  intros Hf Hrep Hsetup Ho Hp Hnone.
  destruct (serve_clients_ends fuel clients evs conns s a F Hf Hrep Hp Hnone)
    as (evs1 & ev & evs2 & out & a1 & Hevs & Hrun & Hend).
  exists evs1, ev, evs2, out, a1. split; [done|]. split; [done|].
  destruct (serve_loop_clients (qkd_servlet fuel) ctx sock clients SERVER_LISTENING e1 s Ho)
    as (e2 & Hloop).
  unfold qkd_socket_server_init, socket_server_init.
  erewrite cbind_ret by (unfold on_env, zoom; cbn [fst snd]; rewrite Hsetup; done).
  cbv beta iota. apply ends_cbind. rewrite Hloop.
  destruct ev as [|h body|h|h r|h]; cbn in *; [done| |done| |by rewrite Hend].
  - destruct (packed _); [done|by rewrite Hend|]. destruct Hend as [w ->]. by eexists.
  - destruct (r =? 0); [|by rewrite Hend]. destruct Hend as [w ->]. by eexists.
Qed.

End runs.

(** ** Streams in runs of the key management server *)

Section streams.
Context {LU : Libuuid} {RD : Rand}.

Definition pair_of (st : stream) : list byte * list byte := (st_source st, st_destination st).

(** The key stream id of a pair of applications. *)
Definition ksid_of (s d : list byte) (a : akms) : option uuid_t :=
  st_ksid <$> find_by_pair s d (a_streams a).

(** At most one stream joins two applications. *)
Definition pairs_unique (a : akms) : Prop := NoDup (pair_of <$> a_streams a).

Lemma pairs_take id sg : pair_of <$> abs_take id sg = pair_of <$> sg.
Proof. induction sg as [|st sg IH]; [done|]. cbn. case_decide; [done|]. cbn. by rewrite IH. Qed.

Lemma ksids_take id s d sg :
  st_ksid <$> find_by_pair s d (abs_take id sg) = st_ksid <$> find_by_pair s d sg.
Proof.
  induction sg as [|st sg IH]; [done|]. cbn. case_decide; cbn; by case_decide.
Qed.

Lemma find_by_pair_None s d sg : find_by_pair s d sg = None -> (s, d) ∉ pair_of <$> sg.
Proof.
  induction sg as [|st sg IH]; cbn; [intros _; apply not_elem_of_nil|].
  case_decide as E; [done|]. intros H. apply not_elem_of_cons. split; [|by apply IH].
  unfold pair_of. intros [= -> ->]. by apply E.
Qed.

(** What a request that is answered does to the streams: nothing, or a key is taken
    from one, or one is added for a pair that has none. *)
Inductive streams_step : list stream -> list stream -> Prop :=
  | step_same sg : streams_step sg sg
  | step_take id sg : streams_step sg (abs_take id sg)
  | step_add sg st : find_by_pair (st_source st) (st_destination st) sg = None ->
      streams_step sg (sg ++ [st]).

Lemma abs_serve_step sv body (a : akms) msg a' : abs_serve sv body a = Reply msg a' ->
  streams_step (a_streams a) (a_streams a').
Proof.
  unfold abs_serve. case_match; [|case_match; [|case_match; [|done]]].
  - unfold abs_open_connect. destruct (dec oc_request_codec body) as [[q r]|]; [|done].
    cbn. destruct (abs_open _ _ _ _ _ _) as [[id g] sg] eqn:E. case_decide; [|done].
    intros [= _ <-]. cbn. unfold abs_open in E.
    case_decide; [|injection E as <- <- <-; constructor].
    destruct (find_by_pair _ _ _) eqn:Ef; [injection E as <- <- <-; constructor|].
    destruct (uuid_generate_random _) as [new g']. injection E as <- <- <-. by constructor.
  - unfold abs_serve_get_key, gk_reply. destruct (dec gk_request_codec body) as [[q r]|]; [|done].
    cbn. unfold abs_get_key. destruct (find_by_ksid _ _); [|intros [= _ <-]; constructor].
    destruct (key_view _) as [[kt kr]|]; [|done]. case_decide; [|done].
    intros [= _ <-]. constructor.
  - unfold abs_close. destruct (dec cl_request_codec body) as [[q r]|]; [|done].
    intros [= _ <-]. constructor.
Qed.

Lemma streams_step_unique sg sg' : streams_step sg sg' ->
  NoDup (pair_of <$> sg) -> NoDup (pair_of <$> sg').
Proof.
  intros [| |sg0 st Hf] Hnd; [done|by rewrite pairs_take|].
  rewrite fmap_app. apply NoDup_app. split_and!; [done| |apply NoDup_singleton].
  intros p Hp Hin. apply list_elem_of_singleton in Hin as ->.
  by apply (find_by_pair_None _ _ _ Hf).
Qed.

Lemma streams_step_ksid sg sg' s d id : streams_step sg sg' ->
  st_ksid <$> find_by_pair s d sg = Some id -> st_ksid <$> find_by_pair s d sg' = Some id.
Proof.
  intros [| |sg0 st Hf] H; [done|by rewrite ksids_take|].
  rewrite find_by_pair_app. by destruct (find_by_pair s d sg0).
Qed.

(** Invariants of single requests are invariants of runs. *)
Lemma abs_run_invariant (P : akms -> Prop) :
  (forall sv body a msg a', abs_serve sv body a = Reply msg a' -> P a -> P a') ->
  forall evs a out st a', abs_run evs a = Some (out, st, a') -> P a -> P a'.
Proof.
  intros HP evs. induction evs as [|e evs IH]; intros a out st a' Hrun Ha.
  { by injection Hrun as <- <- <-. }
  destruct e as [|h body|h|h r|h]; cbn [abs_run] in Hrun; [| | |done..].
  - destruct (abs_run evs a) as [[[o s] a1]|] eqn:E; [|done]. injection Hrun as <- <- <-. eauto.
  - destruct (packed _) as [msg a1| |] eqn:Es; [|done..]. apply packed_reply in Es as [Es _].
    destruct (abs_run evs a1) as [[[o s] a2]|] eqn:E; [|done]. injection Hrun as <- <- <-. eauto.
  - by injection Hrun as <- <- <-.
Qed.

Lemma abs_run_unique evs (a : akms) out st a' : abs_run evs a = Some (out, st, a') ->
  pairs_unique a -> pairs_unique a'.
Proof.
  apply abs_run_invariant. intros sv body a1 msg a2 H.
  by apply streams_step_unique, (abs_serve_step sv body a1 msg).
Qed.

Lemma abs_run_ksid evs (a : akms) out st a' s d id : abs_run evs a = Some (out, st, a') ->
  ksid_of s d a = Some id -> ksid_of s d a' = Some id.
Proof.
  apply (abs_run_invariant (fun a => ksid_of s d a = Some id)). intros sv body a1 msg a2 H.
  by apply streams_step_ksid, (abs_serve_step sv body a1 msg).
Qed.

(** Two states of one key stream: the keys it gives are the same. *)
Definition same_stream (st st' : stream) : Prop :=
  st_ksid st' = st_ksid st /\ st_qos st' = st_qos st /\ st_source st' = st_source st /\
  st_destination st' = st_destination st.

#[export] Instance same_stream_preorder : PreOrder same_stream.
Proof.
  split; [by intros st|]. intros x y z (H1 & H2 & H3 & H4) (H5 & H6 & H7 & H8).
  unfold same_stream. by rewrite H5, H6, H7, H8.
Qed.

Lemma same_stream_key st st' index kt kr : same_stream st st' ->
  abs_key_for st' index kt kr = abs_key_for st index kt kr.
Proof. intros (_ & Hq & Hs & Hd). unfold abs_key_for. by rewrite Hq, Hs, Hd. Qed.

Lemma find_by_ksid_take id id' sg st : find_by_ksid id sg = Some st ->
  exists st', find_by_ksid id (abs_take id' sg) = Some st' /\ same_stream st st'.
Proof.
  induction sg as [|st0 sg IH]; [done|]. cbn [find_by_ksid abs_take].
  destruct (decide (id' = st_ksid st0)) as [->|Hne]; cbn [find_by_ksid bump_index st_ksid].
  - case_decide; [|by exists st]. intros [= ->]. by exists (bump_index st).
  - case_decide; [intros [= ->]; by exists st|exact IH].
Qed.

Lemma find_by_ksid_elem st sg : st ∈ sg -> exists st', find_by_ksid (st_ksid st) sg = Some st'.
Proof.
  intros Hin. induction sg as [|st0 sg IH]; [by apply not_elem_of_nil in Hin|]. cbn.
  case_decide as Hd; [by eexists|]. apply elem_of_cons in Hin as [->|Hin]; [done|]. by apply IH.
Qed.

(** A stream that a client knows stays what it is. *)
Lemma streams_step_find sg sg' id st : streams_step sg sg' -> find_by_ksid id sg = Some st ->
  exists st', find_by_ksid id sg' = Some st' /\ same_stream st st'.
Proof.
  intros [| |sg0 st0 Hf] H; [by exists st|by apply find_by_ksid_take|].
  exists st. split; [|done]. clear Hf. induction sg0 as [|st1 sg0 IH]; [done|]. cbn in *.
  case_decide; [done|]. by apply IH.
Qed.

Lemma abs_run_find evs (a : akms) out st0 a' id st : abs_run evs a = Some (out, st0, a') ->
  find_by_ksid id (a_streams a) = Some st ->
  exists st', find_by_ksid id (a_streams a') = Some st' /\ same_stream st st'.
Proof.
  intros Hrun H.
  refine (abs_run_invariant (fun a => exists st', find_by_ksid id (a_streams a) = Some st' /\
    same_stream st st') _ evs a out st0 a' Hrun _); [|by exists st].
  intros sv body a1 msg a2 Hserve (st1 & Hst1 & Hsame).
  destruct (streams_step_find _ _ id st1 (abs_serve_step sv body a1 msg a2 Hserve) Hst1)
    as (st2 & Hst2 & Hsame2). exists st2. split; [done|]. by etrans.
Qed.

(** A stream that was opened without an id is known, and is found again. *)
Lemma spec_open_known s d q (a : akms) id a' : spec_open s d q uuid_nil a = (id, a') ->
  ksid_of s d a' = Some id /\ exists st, find_by_ksid id (a_streams a') = Some st.
Proof.
  cbn [spec_open akms_spec]. unfold abs_open, ksid_of. rewrite decide_True by done.
  destruct (find_by_pair s d (a_streams a)) as [st|] eqn:E.
  - intros [= <- <-]. cbn [a_streams]. rewrite E. split; [done|].
    apply find_by_pair_Some in E as [Hin _]. by apply find_by_ksid_elem.
  - destruct (uuid_generate_random (a_uuid a)) as [new g]. intros [= <- <-]. cbn [a_streams].
    split.
    + rewrite find_by_pair_app, E. cbn. by rewrite decide_True.
    + apply (find_by_ksid_elem (new_stream new s d q)). apply elem_of_app. right. by left.
Qed.

Lemma spec_open_again s d q (a : akms) id : ksid_of s d a = Some id ->
  spec_open s d q uuid_nil a = (id, a).
Proof.
  unfold ksid_of. cbn [spec_open akms_spec]. unfold abs_open. rewrite decide_True by done.
  destruct (find_by_pair s d (a_streams a)) as [st|]; [|done]. intros [= <-]. by destruct a.
Qed.

(** Opened again under the id that it has. *)
Lemma spec_open_under s d q (a : akms) id : ksid_of s d a = Some id ->
  spec_open s d q id a = (id, a).
Proof.
  intros H. destruct (decide (id = uuid_nil)) as [->|Hne]; [by apply spec_open_again|].
  cbn [spec_open akms_spec]. unfold abs_open. rewrite decide_False by done. by destruct a.
Qed.

Lemma abs_run_app {A} {SP : AppSpec A} evs1 evs2 (a : A) out a' :
  abs_run (evs1 ++ evs2) a = Some (out, SERVER_LISTENING, a') ->
  exists o1 o2 a1, abs_run evs1 a = Some (o1, SERVER_LISTENING, a1) /\
    abs_run evs2 a1 = Some (o2, SERVER_LISTENING, a') /\ out = o1 ++ o2.
Proof.
  revert a out. induction evs1 as [|e evs1 IH]; intros a out H; [by exists [], out, a|].
  destruct e as [|h body|h|h r|h]; cbn [abs_run app] in *; [| |done..].
  - destruct (abs_run (evs1 ++ evs2) a) as [[[o s] a2]|] eqn:E; [|done]. injection H as <- -> ->.
    destruct (IH _ _ E) as (o1 & o2 & a1 & -> & H2 & ->). by exists (None :: o1), o2, a1.
  - destruct (packed _) as [msg a2| |]; [|done..].
    destruct (abs_run (evs1 ++ evs2) a2) as [[[o s] a3]|] eqn:E; [|done]. injection H as <- -> ->.
    destruct (IH _ _ E) as (o1 & o2 & a1 & -> & H2 & ->). by exists (Some msg :: o1), o2, a1.
Qed.

(** The id of an opened stream is one. *)
Lemma abs_open_id_ok {LO : LibuuidOk} s d v id g sg : Forall stream_ok sg -> uuid_ok id ->
  uuid_ok (abs_open s d v id g sg).1.1.
Proof.
  intros Hsg Hid. unfold abs_open. case_decide; [|done].
  destruct (find_by_pair s d sg) as [st|] eqn:E.
  - apply find_by_pair_Some in E as [Hin _]. rewrite Forall_forall in Hsg. by apply Hsg.
  - pose proof (uuid_generate_random_ok g) as H2. by destruct (uuid_generate_random g).
Qed.

(** The response to an OPEN_CONNECT request. *)
Definition oc_reply (q : open_connect_request (list byte)) (id : uuid_t) : list byte :=
  message QKD_SERVICE_OPEN_CONNECT_RESPONSE
    (enc oc_response_codec {| ocr_status := status_code qkd_status_code_successful;
                              ocr_qos := ocq_qos q; ocr_key_stream_id := id |}).

(** A request that leaves the id to the server is answered with the id of the pair. *)
Lemma open_reply body q r (a : akms) msg a' :
  dec oc_request_codec body = Some (q, r) -> ocq_key_stream_id q = uuid_nil ->
  abs_open_connect body a = Reply msg a' ->
  exists id, msg = oc_reply q id /\ ksid_of (ocq_source q) (ocq_destination q) a' = Some id /\
    (forall id', ksid_of (ocq_source q) (ocq_destination q) a = Some id' -> id = id').
Proof.
  intros Hdec Hnil. unfold abs_open_connect, ksid_of. rewrite Hdec. cbn.
  unfold abs_open. rewrite decide_True by done.
  destruct (find_by_pair _ _ (a_streams a)) as [st|] eqn:Ef.
  - case_decide; [|done]. intros [= <- <-]. cbn. rewrite Ef. exists (st_ksid st).
    split_and!; [done..|]. by intros id' [= <-].
  - destruct (uuid_generate_random _) as [new g]. case_decide; [|done]. intros [= <- <-].
    exists new. split_and!; [done| |done]. cbn. rewrite find_by_pair_app, Ef. cbn.
    by rewrite decide_True.
Qed.

End streams.
