(* ===== verification/Answers.v ===== *)
(** What the key management server sends: which requests it answers, and that every
    answer can be read by the client that asked. *)

From S2P Require Import Prelude Models Memory Wire Sizes Platform Printf Serializers SerializersSpec.
From S2P Require Import Copy Kms KmsSpec KmsProofs Interfaces KmsApp Socket Servlet ServletProofs.
From S2P Require Import Setup Run.

(** The bytes [msg] are a header of the service [sv] and a payload of the size that the
    header gives, which is exactly one message of the codec: [v]. *)
Definition reads_as {A} (c : codec A) (sv : qkd_service) (msg : list byte) (v : A) : Prop :=
  exists h bs, dec header_codec msg = Some (h, bs) /\ version h = QKD_004_VERSION /\
    service h = service_code sv /\ payload_size h = Z.of_nat (length bs) /\ dec c bs = Some (v, []).

(** The answer to a request of the service [sv] with the body [body]. *)
Definition response_to (sv : Z) (body msg : list byte) : Prop :=
  (sv = service_code QKD_SERVICE_OPEN_CONNECT_REQUEST /\
   exists q r v, dec oc_request_codec body = Some (q, r) /\
     reads_as oc_response_codec QKD_SERVICE_OPEN_CONNECT_RESPONSE msg v /\
     ocr_qos v = ocq_qos q /\ ocr_status v = status_code qkd_status_code_successful) \/
  (sv = service_code QKD_SERVICE_GET_KEY_REQUEST /\
   exists q r v, dec gk_request_codec body = Some (q, r) /\
     reads_as gk_response_codec QKD_SERVICE_GET_KEY_RESPONSE msg v /\
     gkr_index v = gkq_index q /\
     (gkr_status v <> status_code qkd_status_code_successful -> gkr_key_buffer v = [])) \/
  (sv = service_code QKD_SERVICE_CLOSE_REQUEST /\
   reads_as cl_response_codec QKD_SERVICE_CLOSE_RESPONSE msg
     {| clr_status := status_code qkd_status_code_successful |}).

Section answers.
Context {LU : Libuuid} {LO : LibuuidOk} {RD : Rand}.

(** The requests that a server in state [a] answers: an OPEN_CONNECT with a mimetype that
    fits; a GET_KEY that names no stream, or one of which the counter is below its last
    value, with the metadata of the key type and a key that fits a message; a CLOSE. *)
Definition answerable (sv : Z) (body : list byte) (a : akms) : Prop :=
  (sv = service_code QKD_SERVICE_OPEN_CONNECT_REQUEST /\
   exists q, body = enc oc_request_codec q /\ oc_request_ok q /\
     Z.of_nat (length (metadata_mimetype (ocq_qos q))) < MIMETYPE_MAX) \/
  (sv = service_code QKD_SERVICE_GET_KEY_REQUEST /\
   exists q, body = enc gk_request_codec q /\ gk_request_ok q /\
     match find_by_ksid (gkq_key_stream_id q) (a_streams a) with
     | None => Z.of_nat (length (gkq_metadata q)) + 24 < 2 ^ 31
     | Some st =>
         is_Some (key_view (gkq_metadata q)) /\ i32 (st_index st + 1) /\
         key_chunk_size (st_qos st) + Z.of_nat (length (a_metadata a)) + 24 < 2 ^ 31
     end) \/
  (sv = service_code QKD_SERVICE_CLOSE_REQUEST /\
   exists id, body = enc cl_request_codec {| clq_key_stream_id := id |} /\ uuid_ok id).

Lemma message_reads {A} (c : codec A) sv v : valid c v -> Z.of_nat (length (enc c v)) < 2 ^ 32 ->
  reads_as c sv (message sv (enc c v)) v.
Proof.
  intros Hv Hlen. exists (header_for sv (enc c v)), (enc c v). split.
  - unfold message. apply dec_enc, header_ok_valid. split; [split_and!; decided|].
    split; [by destruct sv; decided|]. unfold u32. cbn. lia.
  - split_and!; [done..|]. pose proof (dec_enc c v [] Hv) as H. by rewrite app_nil_r in H.
Qed.

Lemma reply_inj {A} (msg msg' : list byte) (a a' : A) : Reply msg a = Reply msg' a' -> msg' = msg.
Proof. by intros [= -> _]. Qed.

Lemma message_shorter sv bs : Z.of_nat (length (message sv bs)) < 2 ^ 32 + 8 ->
  Z.of_nat (length bs) < 2 ^ 32.
Proof. rewrite length_message. lia. Qed.

Lemma abs_open_connect_response body (a : akms) msg a' : Forall stream_ok (a_streams a) ->
  abs_open_connect body a = Reply msg a' -> Z.of_nat (length msg) < 2 ^ 32 + 8 ->
  response_to (service_code QKD_SERVICE_OPEN_CONNECT_REQUEST) body msg.
Proof.
  intros Hsg H Hlen. left. split; [done|]. unfold abs_open_connect in H.
  destruct (dec oc_request_codec body) as [[q r]|] eqn:Hdec; [|done].
  pose proof (proj2 (dec_sound _ _ _ _ Hdec)) as (_ & _ & Hq & Hid).
  destruct (spec_open _ _ _ _ a) as [id a1] eqn:Ho. case_decide; [|done]. apply reply_inj in H as ->.
  assert (uuid_ok id) as Hid'.
  { pose proof (abs_open_id_ok (ocq_source q) (ocq_destination q) (ocq_qos q)
      (ocq_key_stream_id q) (a_uuid a) _ Hsg Hid) as Hi. cbn [spec_open akms_spec] in Ho.
    destruct (abs_open _ _ _ _ _ _) as [[i g] sg]. injection Ho as <- _. exact Hi. }
  set (v := {| ocr_status := _; ocr_qos := _; ocr_key_stream_id := id |}) in *. exists q, r, v. split; [done|].
  split; [|done]. apply (message_reads oc_response_codec _ v); [|by eapply message_shorter].
  split; [by vm_compute|by split].
Qed.

Lemma abs_get_key_response body (a : akms) msg a' :
  Z.of_nat (length (a_metadata a)) < 2 ^ 32 -> Forall stream_ok (a_streams a) ->
  abs_serve_get_key body a = Reply msg a' -> Z.of_nat (length msg) < 2 ^ 32 + 8 ->
  response_to (service_code QKD_SERVICE_GET_KEY_REQUEST) body msg.
Proof.
  intros Hmd Hsg H Hlen. right. left. split; [done|]. unfold abs_serve_get_key, gk_reply in H.
  destruct (dec gk_request_codec body) as [[q r]|] eqn:Hdec; [|done].
  pose proof (proj2 (dec_sound _ _ _ _ Hdec)) as (_ & Hi & Hb).
  cbn [spec_get_key akms_spec] in H. unfold abs_get_key in H.
  destruct (find_by_ksid _ _) as [st|] eqn:Hst.
  - destruct (key_view _) as [[kt kr]|]; [|done]. case_decide; [|done]. apply reply_inj in H as ->.
    set (v := Build_get_key_response _ _ _ _) in *. exists q, r, v. split; [done|].
    split; [|done]. apply (message_reads gk_response_codec _ v); [|by eapply message_shorter].
    apply find_by_ksid_Some in Hst as [Hin _].
    rewrite Forall_forall in Hsg. pose proof (stream_ok_size _ (Hsg _ Hin)) as Hsz.
    split; [by vm_compute|]. split; [done|]. split; [|done]. unfold u32 in Hsz. cbn.
    unfold blob_ok. rewrite length_abs_key_for. lia.
  - apply reply_inj in H as ->. set (v := Build_get_key_response _ _ _ _) in *. exists q, r, v.
    split; [done|].
    split; [|done]. apply (message_reads gk_response_codec _ v); [|by eapply message_shorter].
    split_and!; done.
Qed.

Lemma abs_serve_response sv body (a : akms) msg a' :
  Z.of_nat (length (a_metadata a)) < 2 ^ 32 -> Forall stream_ok (a_streams a) ->
  abs_serve sv body a = Reply msg a' -> Z.of_nat (length msg) < 2 ^ 32 + 8 -> response_to sv body msg.
Proof.
  intros Hmd Hsg. unfold abs_serve.
  destruct (Z.eqb_spec sv (service_code QKD_SERVICE_OPEN_CONNECT_REQUEST)) as [->|_];
    [by apply abs_open_connect_response|].
  destruct (Z.eqb_spec sv (service_code QKD_SERVICE_GET_KEY_REQUEST)) as [->|_];
    [by apply abs_get_key_response|].
  destruct (Z.eqb_spec sv (service_code QKD_SERVICE_CLOSE_REQUEST)) as [->|_]; [|done].
  unfold abs_close. destruct (dec cl_request_codec body) as [[q r]|]; [|done].
  intros H Hlen. apply reply_inj in H as ->. right. right. split; [done|].
  apply (message_reads cl_response_codec); by vm_compute.
Qed.

(** Answerable requests are answered. *)
Lemma abs_serve_answers sv body (a : akms) : answerable sv body a ->
  Forall stream_ok (a_streams a) -> Z.of_nat (length body) < 2 ^ 31 - 32 ->
  exists msg a', abs_serve sv body a = Reply msg a' /\ Z.of_nat (length msg) < 2 ^ 31.
Proof.
  intros [(-> & q & -> & Hq & Hm)|[(-> & q & -> & Hq & Hst)|(-> & id & -> & Hid)]] Hsg Hlen.
  - change (abs_serve _ ?b a) with (abs_open_connect b a). unfold abs_open_connect.
    pose proof (dec_enc oc_request_codec q [] Hq) as Hdec. rewrite app_nil_r in Hdec. rewrite Hdec.
    cbn [spec_open akms_spec]. pose proof (abs_open_id_ok (ocq_source q) (ocq_destination q)
      (ocq_qos q) (ocq_key_stream_id q) (a_uuid a) _ Hsg (proj2 (proj2 (proj2 Hq)))) as Hid.
    destruct (abs_open _ _ _ _ _ _) as [[id g] sg]. rewrite decide_True by done.
    do 2 eexists. split; [done|]. rewrite length_message, length_enc_oc_response by done.
    rewrite length_enc_oc_request in Hlen by apply Hq. cbn. lia.
  - change (abs_serve _ ?b a) with (abs_serve_get_key b a). unfold abs_serve_get_key, gk_reply.
    pose proof (dec_enc gk_request_codec q [] Hq) as Hdec. rewrite app_nil_r in Hdec. rewrite Hdec.
    cbn [spec_get_key akms_spec]. unfold abs_get_key.
    destruct (find_by_ksid _ _) as [st|] eqn:Ef.
    + apply find_by_ksid_Some in Ef as [Hin _]. rewrite Forall_forall in Hsg.
      pose proof (stream_ok_size _ (Hsg _ Hin)) as Hu. unfold u32 in Hu.
      destruct Hst as ([[kt kr] ->] & Hi & Hsz). rewrite decide_True by done.
      do 2 eexists. split; [done|]. rewrite length_message, length_enc_gk_response. cbn.
      rewrite length_abs_key_for. lia.
    + do 2 eexists. split; [done|]. rewrite length_message, length_enc_gk_response. cbn. lia.
  - change (abs_serve _ ?b a) with (abs_close b a). unfold abs_close.
    pose proof (dec_enc cl_request_codec {| clq_key_stream_id := id |} [] Hid) as Hdec.
    rewrite app_nil_r in Hdec. rewrite Hdec. do 2 eexists. split; [done|]. by vm_compute.
Qed.

(** The streams and the metadata of a server that is represented. *)
Lemma akms_rep_ok {ML : Malloc} {MT : MallocTotal} (s : kms) (a : akms) F : app_rep s a F ->
  Forall stream_ok (a_streams a) /\ Z.of_nat (length (a_metadata a)) < 2 ^ 32.
Proof.
  intros (ls & _ & (_ & _ & Hst & _) & Hc & _ & Hmd). split; [by eapply streams_at_ok|].
  rewrite <- Hmd. pose proof (length_device_info _ Hc). unfold device_metadata. rewrite length_app.
  cbn [length]. lia.
Qed.

End answers.
