(* ===== verification/ServerMain.v ===== *)
(** [main] of [src/server_example.c]: the key management server behind the socket server. *)

From S2P Require Import Prelude Models Memory Wire Sizes Platform Printf Serializers SerializersSpec.
From S2P Require Import Copy Kms KmsSpec KmsProofs Interfaces KmsApp Socket Servlet ServletProofs.
From S2P Require Import Setup Run.

Section main.
Context {ML : Malloc} {LU : Libuuid} {RD : Rand} {OS : Openssl} {TLS : Tls} {ST : Stack}.

(** The constant [0.49f], of 24 bits. *)
Definition float_0_49 : float_t := {| float_man := 16441672; float_exp := -25 |}.

(** [database] is where the literal ["database_file.db"] is. *)
Definition main_config (database : ptr) (node_uuid : uuid_t) : server_context_data_example_t :=
  {| key_rate := 32768; qber := float_0_49; example_db_name := database; node_uuid := node_uuid;
     ksid_info_linked_list := Null |}.

Definition server_cert : list byte := lit "../ssl/127.0.0.1.pem".
Definition server_key : list byte := lit "../ssl/127.0.0.1.key".

(** [main], up to the given turn of the loop of the server.  The first result is what it
    returns, [None] while the loop goes on; the second is the connections that it served.
    The server's context is an automatic variable of [main]. *)
Definition main (turns fuel : nat) (database : ptr) : C (env * kms) (option Z * list ssl) :=
  let! uuid := on_app do_uuid in
  on_app (fun s => cput (set_k_config (main_config database uuid) s) s);;;
  let! '(server_status, l) :=
    qkd_socket_server_init turns fuel (lit "127.0.0.1") 25575 (Some server_cert) (Some server_key)
      None 0 in
  cret (match server_status with SERVER_FINISHED => Some 0 | SERVER_LISTENING => None end, l).

Context {MT : MallocTotal} {LO : LibuuidOk}.

(** The abstract server that [main] starts: no streams, and the source of ids when the
    node's own id has been drawn. *)
Definition akms_fresh (g : uuid_source) (database : ptr) : akms :=
  let '(id, g) := uuid_generate_random g in
  {| a_uuid := g; a_metadata := device_metadata (main_config database id); a_streams := [] |}.

(** The state in which the loop of the server starts. *)
Definition kms_fresh (database : ptr) (s : kms) : kms :=
  let '(id, g) := uuid_generate_random (k_uuid s) in
  set_k_config (main_config database id) (set_k_uuid g s).

Lemma kms_fresh_rep database s : mem_wf (k_mem s) ->
  app_rep (kms_fresh database s) (akms_fresh (k_uuid s) database) [].
Proof.
  intros Hm. unfold kms_fresh, akms_fresh. destruct (uuid_generate_random (k_uuid s)) as [id g].
  exists []. split_and!; [done| |by vm_compute|done|done].
  split_and!; [exact Hm|done|done|apply NoDup_nil_2].
Qed.

Lemma main_starts turns fuel database e s :
  main turns fuel database (e, s) =
    (let! '(server_status, l) :=
       qkd_socket_server_init turns fuel (lit "127.0.0.1") 25575 (Some server_cert)
         (Some server_key) None 0 in
     cret (match server_status with SERVER_FINISHED => Some 0 | SERVER_LISTENING => None end, l))
      (e, kms_fresh database s).
Proof.
  unfold main, kms_fresh, cbind, on_app, zoom, do_uuid, cput. cbn [fst snd].
  by destruct (uuid_generate_random (k_uuid s)).
Qed.

End main.
