(* ===== verification/KeyFile.v ===== *)
(** [src/write_key_to_file.c]: a key written to a file as text.

    The file is [None] when [fopen] returns null, and otherwise its contents, to which
    the program appends.  The array [sindex] is a list of eleven bytes. *)

From S2P Require Import Prelude Models Memory Wire Sizes Platform Printf SerializersSpec.

(** ** Operations *)

(** The loop of [number_of_digits]; a [uint32_t] is zero after ten divisions. *)
Fixpoint digits_loop (fuel : nat) (n digits : Z) : option Z :=
  if n =? 0 then Some digits
  else match fuel with
       | O => None
       | S fuel => digits_loop fuel (n / 10) (digits + 1)
       end.

Definition number_of_digits (n : Z) : option Z :=
  if n =? 0 then Some 1 else digits_loop 10 n 0.

Record key_file := { kf_mem : mem; kf_file : option (list byte) }.

Definition kf_on_mem {A} (e : C mem A) : C key_file A :=
  zoom kf_mem (fun m s => {| kf_mem := m; kf_file := kf_file s |}) e.

(** [fputs], [fputc] and [fwrite] of bytes that have been written. *)
Definition fput (l : list byte) : C key_file unit := fun s =>
  match kf_file s with
  | None => Fault NullDeref
  | Some f => Ret tt {| kf_mem := kf_mem s; kf_file := Some (f ++ l) |}
  end.

(** [sprintf(sindex, "%d", index)] *)
Definition sindex_size : nat := 11.

Definition sprintf_sindex (index : Z) : list mbyte + fault :=
  let text := print_d (as_int index) ++ [x00] in
  if decide (length text <= sindex_size)%nat
  then inl ((Some <$> text) ++ replicate (sindex_size - length text) None)
  else inr OutOfBounds.

(** [fwrite(sindex, sizeof(char), n, key_file)] *)
Definition fwrite_sindex (sindex : list mbyte) (n : Z) : C key_file unit :=
  if Z.of_nat (length sindex) <? n then cfault OutOfBounds else
  match mapM (M:=option) id (take (Z.to_nat n) sindex) with
  | None => cfault Uninitialised
  | Some l => fput l
  end.

(** [(byte & (1 << bit)) ? '1' : '0'] *)
Definition bit_char (b : byte) (bit : Z) : byte :=
  if Z.land (b2z b) (Z.shiftl 1 bit) =? 0 then x30 else x31.

(** [for (int bit = 7; bit >= 0; --bit)], [n] bits to go. *)
Fixpoint write_bits (b : byte) (n : nat) : C key_file unit :=
  match n with
  | O => cret tt
  | S n => fput [bit_char b (Z.of_nat n)];;; write_bits b n
  end.

(** The loop over the bytes of the key, [n] to go. *)
Fixpoint write_key_bytes (p : ptr) (key_byte : Z) (n : nat) : C key_file unit :=
  match n with
  | O => cret tt
  | S n =>
      let! l := kf_on_mem (load_init (padd p key_byte) 1) in
      write_bits (hd x00 l) 8;;;
      write_key_bytes p (key_byte + 1) n
  end.

Definition write_key_to_file_bit_format (r : qkd_get_key_response_t) : C key_file unit :=
  fput (lit "Index: ");;;
  match sprintf_sindex (gkr_index r), number_of_digits (gkr_index r) with
  | inr f, _ => cfault f
  | inl sindex, None => fun _ => NoFuel
  | inl sindex, Some n =>
      fwrite_sindex sindex n;;;
      fput (x0a :: lit "Key: ");;;
      write_key_bytes (data (gkr_key_buffer r)) 0 (Z.to_nat (size (gkr_key_buffer r)));;;
      fput [x0a; x0a]
  end.

(** ** What is written *)

(** The bits of a byte, most significant first, as characters. *)
Definition byte_bits (b : byte) : list byte :=
  (fun i => if Z.testbit (b2z b) (Z.of_nat i) then x31 else x30) <$> rev (seq 0 8).

Definition key_text (index : Z) (key : list byte) : list byte :=
  lit "Index: " ++ print_u index ++ x0a :: lit "Key: " ++ (key ≫= byte_bits) ++ [x0a; x0a].

(** ** Lemmas *)

Lemma bit_char_testbit b i : 0 <= i ->
  bit_char b i = if Z.testbit (b2z b) i then x31 else x30.
Proof.
  intros Hi. unfold bit_char. rewrite Z.shiftl_1_l.
  destruct (Z.testbit (b2z b) i) eqn:E.
  - rewrite (proj2 (Z.eqb_neq _ _)); [done|]. intros H0.
    assert (Z.testbit (Z.land (b2z b) (2 ^ i)) i = false) as H by by rewrite H0, Z.bits_0.
    by rewrite Z.land_spec, E, Z.pow2_bits_true in H.
  - assert (Z.land (b2z b) (2 ^ i) = 0) as ->; [|done]. apply Z.bits_inj_0. intros k.
    rewrite Z.land_spec. destruct (decide (k = i)) as [->|]; [by rewrite E|].
    by rewrite Z.pow2_bits_false, andb_false_r.
Qed.

Lemma fput_run l s f : kf_file s = Some f ->
  fput l s = Ret tt {| kf_mem := kf_mem s; kf_file := Some (f ++ l) |}.
Proof. unfold fput. by intros ->. Qed.

Lemma write_bits_run b n m f :
  write_bits b n {| kf_mem := m; kf_file := Some f |} =
    Ret tt {| kf_mem := m; kf_file := Some (f ++
      ((fun i => if Z.testbit (b2z b) (Z.of_nat i) then x31 else x30) <$> rev (seq 0 n))) |}.
Proof.
  revert f. induction n as [|n IH]; intros f; [by rewrite app_nil_r|].
  cbn [write_bits]. erewrite cbind_ret by by apply fput_run. cbn [kf_mem].
  rewrite IH, bit_char_testbit by lia.
  rewrite seq_S, rev_app_distr. cbn [rev app fmap list_fmap Nat.add]. by rewrite <- app_assoc.
Qed.

Lemma write_key_bytes_run b pre key rest m f :
  heap m !! b = Some (Bytes ((Some <$> pre ++ key) ++ rest)) ->
  write_key_bytes (Ptr b 0) (Z.of_nat (length pre)) (length key)
    {| kf_mem := m; kf_file := Some f |} =
    Ret tt {| kf_mem := m; kf_file := Some (f ++ (key ≫= byte_bits)) |}.
Proof.
  revert pre f. induction key as [|x key IH]; intros pre f Hb; [by rewrite app_nil_r|].
  cbn [write_key_bytes length]. unfold padd. rewrite Nat2Z.id, Nat.add_0_l.
  erewrite cbind_ret.
  2: { unfold kf_on_mem, zoom. cbn [kf_mem]. unfold load_init.
       change 1 with (Z.of_nat (length [Some x])).
       erewrite cbind_ret;
         [|apply (load_bytes_at m b (length pre) ((Some <$> pre ++ x :: key) ++ rest) [Some x]
             ((Some <$> key) ++ rest));
         [exact Hb| |rewrite length_app, length_fmap, length_app; lia]].
       - done.
       - rewrite fmap_app, <- app_assoc, <- (length_fmap Some pre). by rewrite drop_prefix. }
  cbn [kf_file hd]. erewrite cbind_ret by apply write_bits_run.
  rewrite (cons_middle x pre key), app_assoc in Hb.
  specialize (IH (pre ++ [x]) (f ++ byte_bits x) Hb).
  rewrite length_app, Nat2Z.inj_add in IH. cbn [length] in IH. 
  etrans; [exact IH|]. cbn [mbind list_bind]. by rewrite <- app_assoc.
Qed.

Lemma digits_loop_length fuel fuel2 n d acc :
  0 < n < 10 ^ Z.of_nat fuel -> n < 2 ^ Z.of_nat fuel2 ->
  digits_loop fuel n d = Some (d + Z.of_nat (length (digits_aux fuel2 n acc)) - Z.of_nat (length acc)).
Proof.
  revert fuel2 n d acc. induction fuel as [|fuel IH]; intros fuel2 n d acc Hn H2; [cbn in Hn; lia|].
  destruct fuel2 as [|fuel2]; [cbn in H2; lia|].
  rewrite Nat2Z.inj_succ, Z.pow_succ_r in Hn, H2 by lia.
  cbn [digits_loop digits_aux]. rewrite (proj2 (Z.eqb_neq n 0)) by lia.
  destruct (Z.ltb_spec n 10) as [Hlt|Hge].
  - rewrite Z.div_small by lia. destruct fuel; cbn [digits_loop Z.eqb length]; f_equal; lia.
  - rewrite (IH fuel2 (n / 10) (d + 1) (digit (n mod 10) :: acc)).
    + cbn [length]. f_equal. lia.
    + split; [apply Z.div_str_pos; lia | apply Z.div_lt_upper_bound; lia].
    + apply Z.div_lt_upper_bound; [lia|]. lia.
Qed.

Lemma number_of_digits_length n : u32 n ->
  number_of_digits n = Some (Z.of_nat (length (print_u n))).
Proof.
  intros Hn. unfold u32 in Hn. unfold number_of_digits.
  destruct (Z.eqb_spec n 0) as [->|]; [done|]. unfold print_u.
  pose proof (log2_fuel n). rewrite (digits_loop_length 10 (S (Z.to_nat (Z.log2 n))) n 0 []).
  - f_equal. cbn [length]. lia.
  - assert (2 ^ 32 < 10 ^ Z.of_nat 10) by done. lia.
  - lia.
Qed.

Lemma sindex_run index : 0 <= index < 2 ^ 31 ->
  exists sindex, sprintf_sindex index = inl sindex /\
    forall s, fwrite_sindex sindex (Z.of_nat (length (print_u index))) s = fput (print_u index) s.
Proof.
  intros Hi. pose proof (length_print_u index 10 ltac:(cbn; lia) ltac:(lia)) as Hl.
  unfold sprintf_sindex, as_int. rewrite (proj2 (Z.ltb_lt _ _)) by lia.
  unfold print_d. rewrite (proj2 (Z.ltb_ge _ _)) by lia.
  rewrite decide_True by (unfold sindex_size; rewrite length_app; cbn [length]; lia).
  eexists. split; [done|]. intros s. unfold fwrite_sindex.
  rewrite (proj2 (Z.ltb_ge _ _)) by (rewrite length_app, length_fmap, length_app; lia).
  rewrite Nat2Z.id, fmap_app, <- app_assoc, <- (length_fmap Some (print_u index)), take_prefix.
  by rewrite mapM_Some_fmap.
Qed.

Lemma mapM_cons_head (x : byte) (l : list mbyte) :
  mapM (M:=option) id (Some x :: l) = l' ← mapM (M:=option) id l; Some (x :: l').
Proof. done. Qed.

(** An index of [2 ^ 31] and more is negative for [%d]. *)
Lemma sindex_negative index n : 2 ^ 31 <= index < 2 ^ 32 -> 1 <= n ->
  match sprintf_sindex index with
  | inr f => f = OutOfBounds
  | inl sindex => forall s,
      (exists f, fwrite_sindex sindex n s = Fault f) \/
      (exists l, fwrite_sindex sindex n s = fput (x2d :: l) s)
  end.
Proof.
  intros Hi Hn. unfold sprintf_sindex, as_int. rewrite (proj2 (Z.ltb_ge _ _)) by lia.
  unfold print_d. rewrite (proj2 (Z.ltb_lt _ _)) by lia.
  case_decide as Hlen; [|done]. intros s. unfold fwrite_sindex.
  set (r := replicate _ _). clearbody r. case_match; [left; by eexists|].
  generalize (print_u (- (index - 2 ^ 32))). intros t.
  change ((Some <$> (x2d :: t) ++ [x00]) ++ r) with (Some x2d :: ((Some <$> t ++ [x00]) ++ r)).
  generalize ((Some <$> t ++ [x00]) ++ r). intros l.
  destruct (Z.to_nat n) as [|k] eqn:Ek; [lia|]. cbn [take]. rewrite mapM_cons_head.
  destruct (mapM id (take k l)) as [l'|]; [right; by exists l'|left; by eexists].
Qed.

Lemma length_print_u_pos n : 0 <= n -> (0 < length (print_u n))%nat.
Proof. intros Hn. destruct (print_u_spec n Hn) as (_ & Hne & _). destruct (print_u n); [done|simpl; lia]. Qed.

(** The whole text, for an index that [%d] prints as it is. *)
Lemma write_key_run m r key f :
  0 <= gkr_index r < 2 ^ 31 -> bytes_at m (gkr_key_buffer r) key ->
  match data (gkr_key_buffer r) with Null => True | Ptr _ off => off = 0%nat end ->
  write_key_to_file_bit_format r {| kf_mem := m; kf_file := Some f |} =
    Ret tt {| kf_mem := m; kf_file := Some (f ++ key_text (gkr_index r) key) |}.
Proof.
  intros Hi (_ & Hs & Hd) Hoff.
  assert (forall g, write_key_bytes (data (gkr_key_buffer r)) 0 (length key)
    {| kf_mem := m; kf_file := Some g |} =
    Ret tt {| kf_mem := m; kf_file := Some (g ++ (key ≫= byte_bits)) |}) as Hkey.
  { intros g. destruct Hd as [->|(b & off & l & rest & E & Hb & _ & Hd)]; [by rewrite app_nil_r|].
    rewrite E in *. subst off. apply (write_key_bytes_run b [] key rest). rewrite Hb. do 2 f_equal.
    exact Hd. }
  unfold write_key_to_file_bit_format.
  erewrite cbind_ret by by apply fput_run.
  destruct (sindex_run _ Hi) as (sindex & -> & Hw).
  rewrite number_of_digits_length by (unfold u32; lia).
  erewrite cbind_ret by (rewrite Hw; by apply fput_run).
  erewrite cbind_ret by by apply fput_run. cbn [kf_mem]. rewrite Hs, Nat2Z.id.
  erewrite cbind_ret by apply Hkey.
  erewrite fput_run by done. unfold key_text. cbn [kf_mem]. rewrite <- !app_assoc. done.
Qed.
