(* ===== verification/Uuid.v ===== *)
(** Key stream ids as text: [uuid_parse] and [uuid_unparse] of libuuid, a parameter of the
    client programs and of the printing functions.  The instance at the end, the format
    of RFC 4122, is used to run the model on concrete inputs. *)

From S2P Require Import Prelude Models Memory Platform Printf.

(** [UUID_STR_LEN], the length of the text with its terminator. *)
Definition UUID_STR_LEN : Z := 37.

Class UuidText := {
  (** [uuid_parse(in, uu)]: what it stores at [uu], or [None] when it returns -1 *)
  uuid_parse : list byte -> option uuid_t;
  (** what [uuid_unparse] and [uuid_unparse_lower] write, without the terminator *)
  uuid_unparse : uuid_t -> list byte;
  uuid_unparse_lower : uuid_t -> list byte;
}.

(** Documented: the text has 36 characters and is read back as the id. *)
Class UuidTextOk {UT : UuidText} : Prop := {
  uuid_parse_ok : forall s u, uuid_parse s = Some u -> uuid_ok u;
  uuid_unparse_ok : forall u, uuid_ok u ->
    length (uuid_unparse u) = 36%nat /\ str_ok (uuid_unparse u);
  uuid_parse_unparse : forall u, uuid_ok u -> uuid_parse (uuid_unparse u) = Some u;
  uuid_unparse_lower_ok : forall u, uuid_ok u ->
    length (uuid_unparse_lower u) = 36%nat /\ str_ok (uuid_unparse_lower u);
  uuid_parse_nil : uuid_parse (lit "00000000-0000-0000-0000-000000000000") = Some uuid_nil;
  uuid_parse_unparse_lower : forall u, uuid_ok u -> uuid_parse (uuid_unparse_lower u) = Some u;
}.

(** ** The instance *)

Module ConcreteUuid.

Definition hex_char (n : Z) : byte := if n <? 10 then z2b (48 + n) else z2b (87 + n).

Definition hex_value (b : byte) : option Z :=
  let n := b2z b in
  if decide (48 <= n < 58) then Some (n - 48)
  else if decide (97 <= n < 103) then Some (n - 87)
  else if decide (65 <= n < 71) then Some (n - 55)
  else None.

Definition hex_byte (b : byte) : list byte := [hex_char (b2z b / 16); hex_char (b2z b mod 16)].

(** [n] bytes in hexadecimal, and what follows. *)
Fixpoint read_hex (n : nat) (l : list byte) : option (list byte * list byte) :=
  match n, l with
  | O, _ => Some ([], l)
  | S n, h :: k :: l =>
      x ← hex_value h; y ← hex_value k;
      '(u, r) ← read_hex n l; Some (z2b (16 * x + y) :: u, r)
  | S _, _ => None
  end.

(** Groups of bytes of the given sizes, with hyphens between them. *)
Fixpoint write_groups (gs : list nat) (u : uuid_t) : list byte :=
  match gs with
  | [] => []
  | [g] => take g u ≫= hex_byte
  | g :: gs => (take g u ≫= hex_byte) ++ x2d :: write_groups gs (drop g u)
  end.

Fixpoint read_groups (gs : list nat) (l : list byte) : option uuid_t :=
  match gs with
  | [] => match l with [] => Some [] | _ => None end
  | [g] => '(u, r) ← read_hex g l; match r with [] => Some u | _ => None end
  | g :: gs =>
      '(u, r) ← read_hex g l;
      match r with
      | c :: r => if decide (c = x2d) then v ← read_groups gs r; Some (u ++ v) else None
      | [] => None
      end
  end.

Definition groups : list nat := [4; 2; 2; 2; 6]%nat.

Definition text : UuidText := {|
  uuid_parse := read_groups groups;
  uuid_unparse := write_groups groups;
  uuid_unparse_lower := write_groups groups;
|}.

Lemma hex_value_char n : 0 <= n < 16 -> hex_value (hex_char n) = Some n.
Proof.
  intros Hn. unfold hex_char. destruct (Z.ltb_spec n 10).
  - unfold hex_value. rewrite b2z_z2b, Z.mod_small by lia. rewrite decide_True by lia. f_equal. lia.
  - unfold hex_value. rewrite b2z_z2b, Z.mod_small by lia.
    rewrite decide_False, decide_True by lia. f_equal. lia.
Qed.

Lemma read_hex_bytes u r : read_hex (length u) ((u ≫= hex_byte) ++ r) = Some (u, r).
Proof.
  induction u as [|b u IH]; [done|].
  cbn [mbind list_bind length app hex_byte read_hex]. pose proof (b2z_range b).
  pose proof (Z.div_mod (b2z b) 16). pose proof (Z.mod_pos_bound (b2z b) 16).
  assert (0 <= b2z b / 16 < 16) by (split; [apply Z.div_pos|apply Z.div_lt_upper_bound]; lia).
  rewrite !hex_value_char by lia.
  cbn. rewrite IH. cbn. do 3 f_equal. rewrite <- (z2b_b2z b) at 3. f_equal. lia.
Qed.

Lemma length_read_hex n l u r : read_hex n l = Some (u, r) -> length u = n.
Proof.
  revert l u. induction n as [|n IH]; intros l u; [by intros [= <- <-]|].
  destruct l as [|h [|k l]]; [done..|]. cbn [read_hex].
  destruct (hex_value h), (hex_value k); [|done..]. cbn.
  destruct (read_hex n l) as [[v r']|] eqn:E; [|done]. intros [= <- <-]. cbn. f_equal. by eapply IH.
Qed.

(** The recursive case of the two functions. *)
Lemma read_groups_cons g g' gs l :
  read_groups (g :: g' :: gs) l =
    '(u, r) ← read_hex g l;
    match r with
    | c :: r => if decide (c = x2d) then v ← read_groups (g' :: gs) r; Some (u ++ v) else None
    | [] => None
    end.
Proof. done. Qed.

Lemma write_groups_cons g g' gs u :
  write_groups (g :: g' :: gs) u =
    (take g u ≫= hex_byte) ++ x2d :: write_groups (g' :: gs) (drop g u).
Proof. done. Qed.

Lemma read_groups_length gs l u : read_groups gs l = Some u -> length u = sum_list gs.
Proof.
  revert l u. induction gs as [|g [|g' gs] IH]; intros l u.
  - by destruct l; intros [= <-].
  - cbn. destruct (read_hex g l) as [[v r]|] eqn:E; [|done]. apply length_read_hex in E. cbn.
    destruct r; [|done]. intros [= <-]. lia.
  - rewrite read_groups_cons. destruct (read_hex g l) as [[v [|c r]]|] eqn:E; [done| |done].
    apply length_read_hex in E. cbn [mbind option_bind]. case_decide; [|done].
    destruct (read_groups (g' :: gs) r) as [w|] eqn:E'; [|done]. intros [= <-].
    rewrite length_app, (IH _ _ E'), E. done.
Qed.

Lemma read_write_groups gs u : length u = sum_list gs ->
  read_groups gs (write_groups gs u) = Some u.
Proof.
  revert u. induction gs as [|g gs IH]; intros u Hu; [by destruct u|].
  change (length u = g + sum_list gs)%nat in Hu.
  assert (length (take g u) = g) as Hg by (rewrite length_take; lia).
  pose proof (read_hex_bytes (take g u)) as Hr. rewrite Hg in Hr.
  destruct gs as [|g' gs].
  - cbn [read_groups write_groups]. rewrite <- (app_nil_r (_ ≫= _)), Hr. cbn in *.
    by rewrite take_ge by lia.
  - rewrite write_groups_cons, read_groups_cons, Hr. cbn [mbind option_bind].
    rewrite decide_True by done. rewrite IH by (rewrite length_drop; lia). cbn.
    by rewrite take_drop.
Qed.

Lemma hex_char_nz n : 0 <= n < 16 -> hex_char n <> x00.
Proof. intros Hn H. apply hex_value_char in Hn. rewrite H in Hn. done. Qed.

Lemma hex_bytes_ok u : length (u ≫= hex_byte) = (2 * length u)%nat /\ str_ok (u ≫= hex_byte).
Proof.
  induction u as [|b u [IH1 IH2]]; [split; [done|apply not_elem_of_nil]|].
  cbn [mbind list_bind hex_byte app length]. split; [cbn; lia|].
  pose proof (b2z_range b). unfold str_ok in *. rewrite !not_elem_of_cons. split_and!; [..|done].
  - apply not_eq_sym, hex_char_nz. split; [apply Z.div_pos|apply Z.div_lt_upper_bound]; lia.
  - apply not_eq_sym, hex_char_nz, Z.mod_pos_bound. lia.
Qed.

Lemma write_groups_ok gs u : length u = sum_list gs ->
  length (write_groups gs u) = pred (2 * sum_list gs + length gs) /\
  str_ok (write_groups gs u).
Proof.
  revert u. induction gs as [|g gs IH]; intros u Hu; [split; [done|apply not_elem_of_nil]|].
  change (length u = g + sum_list gs)%nat in Hu.
  change (sum_list (g :: gs)) with (g + sum_list gs)%nat.
  destruct (hex_bytes_ok (take g u)) as [H1 H2]. rewrite length_take_le in H1 by lia.
  destruct gs as [|g' gs].
  - cbn [write_groups]. split; [|done]. rewrite H1. cbn. lia.
  - rewrite write_groups_cons. destruct (IH (drop g u)) as [H3 H4]; [rewrite length_drop; lia|].
    split; [|unfold str_ok; rewrite not_elem_of_app, not_elem_of_cons; by split_and!].
    rewrite length_app, H1. cbn [length] in *. rewrite H3. lia.
Qed.

Lemma text_ok : @UuidTextOk text.
Proof.
  assert (forall u, uuid_ok u ->
    length (write_groups groups u) = 36%nat /\ str_ok (write_groups groups u)) as H.
  { intros u Hu. destruct (write_groups_ok groups u Hu) as [H1 H2]. split; [|done].
    cbn -[write_groups] in H1. lia. }
  split; cbn -[read_groups write_groups]; try exact H.
  - intros s u Hs. by apply read_groups_length in Hs.
  - intros u Hu. by apply read_write_groups.
  - by vm_compute.
  - intros u Hu. by apply read_write_groups.
Qed.

End ConcreteUuid.
