(* ===== verification/Printing.v ===== *)
(** [src/qkd/utils.c]: the structs of the interface as text, for the log.

    The state is that of [KeyFile.v]: the memory, which is only read, and the file that
    is written to.  [fprintf] is the sequence of the pieces of its format. *)

From S2P Require Import Prelude Models Memory Wire Sizes Platform Printf SerializersSpec KeyFile Uuid.

(** ** Conversions that read memory *)

(** The characters that [%s] prints from the bytes at its argument: those before the first
    null, of which a precision makes it read no more than so many. *)
Fixpoint text_at (prec : option nat) (l : list mbyte) : list byte + fault :=
  match prec with
  | Some O => inl []
  | _ =>
      match l with
      | [] => inr OutOfBounds
      | None :: _ => inr Uninitialised
      | Some b :: l =>
          if decide (b = x00) then inl []
          else match text_at (pred <$> prec) l with
               | inl t => inl (b :: t)
               | inr f => inr f
               end
      end
  end.

(** [%s] with a precision or without; a precision of 0 reads nothing. *)
Definition fput_s (prec : option nat) (p : ptr) : C key_file unit :=
  if decide (prec = Some O) then fput [] else
  let! l := kf_on_mem (suffix_at p) in
  match text_at prec l with
  | inl t => fput t
  | inr f => cfault f
  end.

(** [%.*s]; a negative precision is no precision. *)
Definition fput_star_s (prec : Z) (p : ptr) : C key_file unit :=
  fput_s (if prec <? 0 then None else Some (Z.to_nat prec)) p.

(** [i++] for an [int]. *)
Definition int_succ (i : Z) : C key_file Z :=
  if decide (i32 (i + 1)) then cret (i + 1) else cfault SignedOverflow.

(** The byte [data[i]]. *)
Definition byte_at (p : ptr) (i : Z) : C key_file byte :=
  let! l := kf_on_mem (load_init (padd p i) 1) in cret (hd x00 l).

(** ** Operations *)

(** The loop of [qkd_fprintf_bytes], [n] bytes to go. *)
Fixpoint bytes_loop (data_b : ptr) (group_size i : Z) (n : nat) : C key_file unit :=
  match n with
  | O => cret tt
  | S n =>
      (if (0 <? group_size) && (Z.rem i group_size =? 0) then fput [x0a] else cret tt);;;
      let! b := byte_at data_b i in
      fput (print_02X b ++ lit " ");;;
      let! i := int_succ i in
      bytes_loop data_b group_size i n
  end.

Definition qkd_fprintf_bytes (d : qkd_bytes_t) (group_size : Z) : C key_file unit :=
  fput (lit "Data (" ++ print_u (size d) ++ lit " bytes): ");;;
  bytes_loop (data d) group_size 0 (Z.to_nat (size d));;;
  fput [x0a].

Definition qkd_fprintf_qos (q : qkd_qos_t) : C key_file unit :=
  fput (lit "[" ++ print_u (key_chunk_size q) ++ lit ", " ++ print_u (max_bps q) ++ lit ", "
        ++ print_u (min_bps q) ++ lit ", " ++ print_u (jitter q) ++ lit ", "
        ++ print_u (priority q) ++ lit ", " ++ print_u (timeout q) ++ lit ", "
        ++ print_u (ttl q) ++ lit ", '");;;
  fput_s None (metadata_mimetype q);;;
  fput (lit "']").

Definition qkd_fprintf_uuid {UT : UuidText} (uuid : uuid_t) : C key_file unit :=
  fput (lit "'" ++ uuid_unparse_lower uuid ++ lit "'").

(** The loop of [qkd_fprintf_key_buffer], from the second byte. *)
Fixpoint key_buffer_loop (p : ptr) (i : Z) (n : nat) : C key_file unit :=
  match n with
  | O => cret tt
  | S n =>
      let! b := byte_at p i in
      fput (lit ", " ++ print_u (b2z b));;;
      let! i := int_succ i in
      key_buffer_loop p i n
  end.

Definition qkd_fprintf_key_buffer (key_buffer : qkd_key_buffer_t) : C key_file unit :=
  if size key_buffer <? 1 then fput (lit "[]") else
  let! b := byte_at (data key_buffer) 0 in
  fput (lit "[" ++ print_u (b2z b));;;
  key_buffer_loop (data key_buffer) 1 (Z.to_nat (size key_buffer - 1));;;
  fput (lit "]").

Section printing.
Context {UT : UuidText}.

Definition qkd_fprintf_oc_request (r : qkd_open_connect_request_t) : C key_file unit :=
  fput (lit "{'source': '");;;
  fput_s None (ocq_source r);;;
  fput (lit "', 'destination': '");;;
  fput_s None (ocq_destination r);;;
  fput (lit "', 'qos': ");;;
  qkd_fprintf_qos (ocq_qos r);;;
  fput (lit ", 'key_stream_id': ");;;
  qkd_fprintf_uuid (ocq_key_stream_id r);;;
  fput (lit "}").

Definition qkd_fprintf_oc_response (r : qkd_open_connect_response_t) : C key_file unit :=
  fput (lit "{'status': " ++ print_d (as_int (ocr_status r)) ++ lit ", 'qos': ");;;
  qkd_fprintf_qos (ocr_qos r);;;
  fput (lit ", 'key_stream_id': ");;;
  qkd_fprintf_uuid (ocr_key_stream_id r);;;
  fput (lit "}").

Definition qkd_fprintf_gk_request (r : qkd_get_key_request_t) : C key_file unit :=
  fput (lit "{'key_stream_id': ");;;
  qkd_fprintf_uuid (gkq_key_stream_id r);;;
  fput (lit ",  'index': " ++ print_u (gkq_index r) ++ lit ", 'metadata': ");;;
  fput_star_s (as_int (size (gkq_metadata r))) (data (gkq_metadata r));;;
  fput (lit "}").

Definition qkd_fprintf_gk_response (r : qkd_get_key_response_t) : C key_file unit :=
  fput (lit "{'status': " ++ print_d (as_int (gkr_status r)) ++ lit ", 'index': "
        ++ print_u (gkr_index r) ++ lit ", 'key_buffer': ");;;
  qkd_fprintf_key_buffer (gkr_key_buffer r);;;
  fput (lit ", 'metadata': ");;;
  fput_star_s (as_int (size (gkr_metadata r))) (data (gkr_metadata r));;;
  fput (lit "}").

Definition qkd_fprintf_cl_request (r : qkd_close_request_t) : C key_file unit :=
  fput (lit "{'key_stream_id': ");;;
  qkd_fprintf_uuid (clq_key_stream_id r);;;
  fput (lit "}").

Definition qkd_fprintf_cl_response (r : qkd_close_response_t) : C key_file unit :=
  fput (lit "{'status': " ++ print_d (as_int (clr_status r)) ++ lit "}").

Definition qkd_fprintf_header (h : qkd_header_t) : C key_file unit :=
  fput (lit "{'version': [" ++ print_u (major (version h)) ++ lit ", "
        ++ print_u (minor (version h)) ++ lit ", " ++ print_u (micro (version h))
        ++ lit "], 'service': " ++ print_u (service h) ++ lit ", 'payload_size': "
        ++ print_u (payload_size h) ++ lit "}").

End printing.

(** ** What is printed *)

(** The bytes before the first null. *)
Fixpoint until_nul (l : list byte) : list byte :=
  match l with
  | [] => []
  | b :: l => if decide (b = x00) then [] else b :: until_nul l
  end.

Definition quoted (s : list byte) : list byte := lit "'" ++ s ++ lit "'".

(** A line starts before every [group_size]-th byte, the first being byte [i]. *)
Fixpoint hex_text (group_size i : Z) (l : list byte) : list byte :=
  match l with
  | [] => []
  | b :: l =>
      (if (0 <? group_size) && (Z.rem i group_size =? 0) then [x0a] else [])
      ++ print_02X b ++ lit " " ++ hex_text group_size (i + 1) l
  end.

Definition bytes_text (l : list byte) (group_size : Z) : list byte :=
  lit "Data (" ++ print_u (Z.of_nat (length l)) ++ lit " bytes): " ++ hex_text group_size 0 l ++ [x0a].

Definition key_buffer_text (l : list byte) : list byte :=
  match l with
  | [] => lit "[]"
  | b :: l => lit "[" ++ print_u (b2z b) ++ (l ≫= fun b => lit ", " ++ print_u (b2z b)) ++ lit "]"
  end.

Definition qos_text (q : qos (list byte)) : list byte :=
  lit "[" ++ print_u (key_chunk_size q) ++ lit ", " ++ print_u (max_bps q) ++ lit ", "
  ++ print_u (min_bps q) ++ lit ", " ++ print_u (jitter q) ++ lit ", " ++ print_u (priority q)
  ++ lit ", " ++ print_u (timeout q) ++ lit ", " ++ print_u (ttl q) ++ lit ", "
  ++ quoted (metadata_mimetype q) ++ lit "]".

Section texts.
Context {UT : UuidText}.

Definition oc_request_text (r : open_connect_request (list byte)) : list byte :=
  lit "{'source': " ++ quoted (ocq_source r) ++ lit ", 'destination': " ++ quoted (ocq_destination r)
  ++ lit ", 'qos': " ++ qos_text (ocq_qos r) ++ lit ", 'key_stream_id': "
  ++ quoted (uuid_unparse_lower (ocq_key_stream_id r)) ++ lit "}".

Definition oc_response_text (r : open_connect_response (list byte)) : list byte :=
  lit "{'status': " ++ print_d (as_int (ocr_status r)) ++ lit ", 'qos': " ++ qos_text (ocr_qos r)
  ++ lit ", 'key_stream_id': " ++ quoted (uuid_unparse_lower (ocr_key_stream_id r)) ++ lit "}".

Definition gk_request_text (r : get_key_request (list byte)) : list byte :=
  lit "{'key_stream_id': " ++ quoted (uuid_unparse_lower (gkq_key_stream_id r))
  ++ lit ",  'index': " ++ print_u (gkq_index r) ++ lit ", 'metadata': "
  ++ until_nul (gkq_metadata r) ++ lit "}".

Definition gk_response_text (r : get_key_response (list byte)) : list byte :=
  lit "{'status': " ++ print_d (as_int (gkr_status r)) ++ lit ", 'index': " ++ print_u (gkr_index r)
  ++ lit ", 'key_buffer': " ++ key_buffer_text (gkr_key_buffer r) ++ lit ", 'metadata': "
  ++ until_nul (gkr_metadata r) ++ lit "}".

End texts.

(** Reading a key back: the numbers up to the closing bracket, [acc] being the one that
    has begun. *)
Fixpoint read_numbers (l : list byte) (acc : option Z) : option (list byte) :=
  match l with
  | [] => None
  | c :: l =>
      if decide (is_digit c) then read_numbers l (Some (10 * default 0 acc + digit_value c))
      else if decide (c = x2c) then
        match acc, l with
        | Some n, _ :: l => key ← read_numbers l None; Some (z2b n :: key)
        | _, _ => None
        end
      else if decide (c = x5d) then n ← acc; Some [z2b n]
      else None
  end.

Definition read_key_buffer (l : list byte) : option (list byte) :=
  match l with
  | b :: l => if decide (b = x5b) then
                if decide (l = [x5d]) then Some [] else read_numbers l None
              else None
  | [] => None
  end.

(** ** Lemmas *)

(** The indices of the buffer are values of [int]. *)
Definition int_sized (s : list byte) : Prop := Z.of_nat (length s) < 2 ^ 31.

(** [f] appends [text] to the file and changes nothing else. *)
Definition printed (f : C key_file unit) (m : mem) (text : list byte) : Prop :=
  forall t, f {| kf_mem := m; kf_file := Some t |} =
    Ret tt {| kf_mem := m; kf_file := Some (t ++ text) |}.

Lemma printed_fput l m : printed (fput l) m l.
Proof. intros t. done. Qed.

Lemma printed_ret m : printed (cret tt) m [].
Proof. intros t. by rewrite app_nil_r. Qed.

Lemma printed_seq f g m l k : printed f m l -> printed g m k -> printed (f;;; g) m (l ++ k).
Proof. intros Hf Hg t. erewrite cbind_ret by apply Hf. by rewrite Hg, <- app_assoc. Qed.

(** An action that changes nothing comes first. *)
Lemma printed_bind {A} (e : C key_file A) g m x l :
  (forall t, e {| kf_mem := m; kf_file := Some t |} = Ret x {| kf_mem := m; kf_file := Some t |}) ->
  printed (g x) m l -> printed (let! a := e in g a) m l.
Proof. intros He Hg t. erewrite cbind_ret by apply He. apply Hg. Qed.

Lemma printed_eq f m l k : l = k -> printed f m l -> printed f m k.
Proof. by intros ->. Qed.

Lemma text_at_string s rest : str_ok s -> text_at None ((Some <$> s ++ [x00]) ++ rest) = inl s.
Proof.
  induction s as [|b s IH]; [done|]. unfold str_ok. rewrite not_elem_of_cons. intros [Hb Hs].
  cbn. rewrite decide_False by done. cbn in IH. by rewrite IH.
Qed.

Lemma text_at_prec s rest : text_at (Some (length s)) ((Some <$> s) ++ rest) = inl (until_nul s).
Proof.
  induction s as [|b s IH]; [by destruct rest|]. cbn. case_decide; [done|]. cbn in IH. by rewrite IH.
Qed.

Lemma printed_string m p s : str_at m p s -> printed (fput_s None p) m s.
Proof.
  intros (Hok & b & off & l & rest & -> & Hb & Ho & Hd). unfold fput_s. rewrite decide_False by done.
  eapply printed_bind.
  - intros t. unfold kf_on_mem, zoom, suffix_at. cbn [kf_mem]. by rewrite Hb.
  - rewrite Hd, text_at_string by done. apply printed_fput.
Qed.

Lemma printed_metadata m d s : bytes_at m d s -> int_sized s ->
  printed (fput_star_s (as_int (size d)) (data d)) m (until_nul s).
Proof.
  intros (_ & Hz & Hd) Hs. unfold int_sized in Hs. unfold fput_star_s, as_int.
  rewrite Hz, (proj2 (Z.ltb_lt _ (2 ^ 31)) Hs), (proj2 (Z.ltb_ge _ 0)) by lia. rewrite Nat2Z.id.
  unfold fput_s. destruct Hd as [->|(b & off & l & rest & -> & Hb & Ho & Hd)].
  { apply printed_fput. }
  case_decide as E; [injection E as E; destruct s; [apply printed_fput|done]|].
  eapply printed_bind.
  - intros t. unfold kf_on_mem, zoom, suffix_at. cbn [kf_mem]. by rewrite Hb.
  - rewrite Hd, text_at_prec. apply printed_fput.
Qed.

(** The bytes [key] behind [pre] in the buffer at [p]. *)
Lemma byte_at_run m p pre x key t : data_at m p (pre ++ x :: key) ->
  byte_at p (Z.of_nat (length pre)) {| kf_mem := m; kf_file := Some t |} =
    Ret x {| kf_mem := m; kf_file := Some t |}.
Proof.
  intros [H|(b & off & l & rest & -> & Hb & Ho & Hd)]; [by destruct pre|].
  assert (load_bytes (padd (Ptr b off) (Z.of_nat (length pre))) (Z.of_nat (length [Some x])) m =
    Ret [Some x] m) as Hl.
  { unfold padd. rewrite Nat2Z.id. apply (load_bytes_at m b _ l _ ((Some <$> key) ++ rest)); [done| |].
    - rewrite <- drop_drop, Hd, fmap_app, <- app_assoc, <- (length_fmap Some pre). by rewrite drop_prefix.
    - apply (f_equal length) in Hd.
      rewrite length_drop, !length_app, length_fmap, length_app in Hd. cbn in Hd. lia. }
  change (Z.of_nat (length [Some x])) with 1 in Hl.
  unfold byte_at, kf_on_mem, load_init, cbind, zoom. cbn [kf_mem]. by rewrite Hl.
Qed.

Lemma int_succ_run i t m : i + 1 < 2 ^ 31 -> 0 <= i ->
  int_succ i {| kf_mem := m; kf_file := Some t |} = Ret (i + 1) {| kf_mem := m; kf_file := Some t |}.
Proof. intros H1 H2. unfold int_succ. rewrite decide_True by (unfold i32; lia). done. Qed.

Lemma printed_hex m p group pre key : data_at m p (pre ++ key) -> int_sized (pre ++ key) ->
  printed (bytes_loop p group (Z.of_nat (length pre)) (length key)) m
    (hex_text group (Z.of_nat (length pre)) key).
Proof.
  revert pre. induction key as [|x key IH]; intros pre Hp Hs; [apply printed_ret|].
  cbn [bytes_loop length hex_text]. apply printed_seq; [case_match; [apply printed_fput|apply printed_ret]|].
  eapply printed_bind; [intros t; by eapply byte_at_run|]. cbv beta.
  rewrite (app_assoc (print_02X x)). apply printed_seq; [apply printed_fput|].
  eapply printed_bind.
  { intros t. unfold int_sized in Hs. rewrite length_app in Hs. cbn in Hs. apply int_succ_run; lia. }
  rewrite (cons_middle x pre key), app_assoc in Hp, Hs. specialize (IH (pre ++ [x]) Hp Hs).
  rewrite length_app, Nat2Z.inj_add in IH. exact IH.
Qed.

Lemma printed_numbers m p pre key : data_at m p (pre ++ key) -> int_sized (pre ++ key) ->
  printed (key_buffer_loop p (Z.of_nat (length pre)) (length key)) m
    (key ≫= fun b => lit ", " ++ print_u (b2z b)).
Proof.
  revert pre. induction key as [|x key IH]; intros pre Hp Hs; [apply printed_ret|].
  cbn [key_buffer_loop length mbind list_bind].
  eapply printed_bind; [intros t; by eapply byte_at_run|]. cbv beta.
  apply printed_seq; [apply printed_fput|].
  eapply printed_bind.
  { intros t. unfold int_sized in Hs. rewrite length_app in Hs. cbn in Hs. apply int_succ_run; lia. }
  rewrite (cons_middle x pre key), app_assoc in Hp, Hs. specialize (IH (pre ++ [x]) Hp Hs).
  rewrite length_app, Nat2Z.inj_add in IH. exact IH.
Qed.

Create HintDb c_print.

(** Runs a printing function piece by piece: the first goal is the sum of the texts. *)
Ltac print_pieces :=
  repeat first
    [ exact (printed_fput _ _)
    | apply printed_string; eassumption
    | apply printed_metadata; eassumption
    | solve [eauto with c_print nocore]
    | eapply printed_seq ].

Lemma printed_key_buffer m d key : bytes_at m d key -> int_sized key ->
  printed (qkd_fprintf_key_buffer d) m (key_buffer_text key).
Proof.
  intros (_ & Hz & Hd) Hs. unfold qkd_fprintf_key_buffer. rewrite Hz.
  destruct key as [|x key]; [apply printed_fput|]. cbn [length].
  rewrite (proj2 (Z.ltb_ge _ _)) by lia.
  eapply printed_bind; [intros t; by apply (byte_at_run m _ [] x key)|]. cbv beta.
  replace (Z.to_nat (Z.of_nat (S (length key)) - 1)) with (length key) by lia.
  eapply printed_eq; [|eapply printed_seq; [apply printed_fput|eapply printed_seq;
    [by apply (printed_numbers m _ [x])|apply printed_fput]]].
  cbn [key_buffer_text]. by rewrite <- !app_assoc.
Qed.

Lemma printed_bytes m d l group : bytes_at m d l -> int_sized l ->
  printed (qkd_fprintf_bytes d group) m (bytes_text l group).
Proof.
  intros (_ & Hz & Hd) Hs. unfold qkd_fprintf_bytes. rewrite Hz, Nat2Z.id.
  eapply printed_eq; [|eapply printed_seq; [apply printed_fput|eapply printed_seq;
    [by apply (printed_hex m _ group [])|apply printed_fput]]].
  unfold bytes_text. by rewrite <- !app_assoc.
Qed.

Lemma printed_qos m q v : qos_at m q v -> printed (qkd_fprintf_qos q) m (qos_text v).
Proof.
  intros [Hm Hq]. rewrite Hq. unfold qkd_fprintf_qos.
  eapply printed_eq; [|print_pieces]. cbn [qos_map metadata_mimetype key_chunk_size max_bps min_bps
    jitter priority timeout ttl]. unfold qos_text, quoted. by rewrite <- !app_assoc.
Qed.

Lemma printed_uuid {UT : UuidText} m u :
  printed (qkd_fprintf_uuid u) m (quoted (uuid_unparse_lower u)).
Proof. apply printed_fput. Qed.

#[export] Hint Resolve printed_key_buffer printed_qos printed_uuid : c_print.

(** ** Reading keys back *)

Lemma read_digits ds r acc : Forall is_digit ds -> ds <> [] ->
  read_numbers (ds ++ r) acc =
    read_numbers r (Some (fold_left (fun a b => 10 * a + digit_value b) ds (default 0 acc))).
Proof.
  intros Hd Hne. revert acc Hne. induction Hd as [|c ds Hc Hd IH]; intros acc Hne; [done|].
  cbn [app read_numbers fold_left]. rewrite decide_True by done.
  destruct ds as [|c' ds]; [done|]. by rewrite IH.
Qed.

Lemma read_number b r : read_numbers (print_u (b2z b) ++ r) None = read_numbers r (Some (b2z b)).
Proof.
  pose proof (b2z_range b). destruct (print_u_spec (b2z b)) as (Hd & Hne & Hv); [lia|].
  rewrite read_digits by done. cbn [default]. unfold parse_u in Hv. by rewrite Hv.
Qed.

Lemma read_key_rest b key :
  read_numbers ((key ≫= fun b => lit ", " ++ print_u (b2z b)) ++ lit "]") (Some (b2z b)) =
    Some (b :: key).
Proof.
  revert b. induction key as [|x key IH]; intros b.
  - cbn. by rewrite z2b_b2z.
  - cbn [mbind list_bind]. rewrite <- !app_assoc.
    change (lit ", " ++ print_u (b2z x) ++ (key ≫= fun b => lit ", " ++ print_u (b2z b)) ++ lit "]")
      with (x2c :: x20 :: print_u (b2z x) ++ (key ≫= fun b => lit ", " ++ print_u (b2z b)) ++ lit "]").
    cbn [read_numbers]. rewrite decide_False by (unfold is_digit; vm_compute; intuition congruence).
    rewrite decide_True by done. rewrite read_number, IH. cbn. by rewrite z2b_b2z.
Qed.

Lemma read_key_buffer_text key : read_key_buffer (key_buffer_text key) = Some key.
Proof.
  destruct key as [|b key]; [done|]. cbn [key_buffer_text].
  change (lit "[" ++ ?l) with (x5b :: l). cbn [read_key_buffer]. rewrite decide_True by done.
  rewrite decide_False.
  - rewrite read_number. apply read_key_rest.
  - pose proof (b2z_range b). destruct (print_u_spec (b2z b)) as (Hd & Hne & _); [lia|].
    destruct (print_u (b2z b)) as [|c ds]; [done|]. intros [= -> _].
    apply Forall_inv in Hd. by destruct Hd.
Qed.
