(* ===== verification/Client.v ===== *)
(** [src/qkd/ssl_socket_client.c]: the application interface over the network.  Each call
    opens a connection, sends a request behind its header and reads the response.

    The state is the program's memory and the environment of [Setup.v].  The connection
    is not closed and not freed, as in the code. *)

From S2P Require Import Prelude Models Memory Wire Sizes Platform Serializers SerializersSpec.
From S2P Require Import Copy Interfaces Socket Servlet ServletProofs Setup.

(** [qkd_client_context_data_t] *)
Record qkd_client_context_data_t := {
  host : list byte;
  port : Z;
  cert_pem : path;
  key_pem : path;
  peer_ca_pem : path;
  max_proto_version : Z;
}.

Record client_state {OS : Openssl} {TLS : Tls} := { cl_mem : mem; cl_env : env }.

Section client.
Context {ML : Malloc} {LU : Libuuid} {OS : Openssl} {TLS : Tls} {ST : Stack}.

#[export] Instance client_mem : HasMem client_state :=
  {| get_mem := cl_mem; set_mem m s := {| cl_mem := m; cl_env := cl_env s |} |}.

#[export] Instance client_mem_ok : HasMemOk client_state.
Proof. by split; [|intros []|]. Qed.

Definition in_env {A} (e : C env A) : C client_state A :=
  zoom cl_env (fun e s => {| cl_mem := cl_mem s; cl_env := e |}) e.

(** [fuel] bounds the reads of a message. *)
Context (fuel : nat) (cfg : qkd_client_context_data_t).

Definition client_perform_request (request_data : socket_data_t) : C client_state socket_data_t :=
  let! ssl_socket := in_env (socket_client_init (host cfg) (port cfg) (cert_pem cfg) (key_pem cfg)
                               (peer_ca_pem cfg) (max_proto_version cfg)) in
  let! '(response, ssl_socket) := on_connection (
    socket_ssl_send request_data;;;
    let! header_data := socket_ssl_recv fuel sizeof_header in
    let header_stream := data header_data in
    let! '(header, header_stream) := in_mem (qkd_header_from_stream header_stream) in
    socket_ssl_recv fuel (payload_size header)) ssl_socket in
  cret response.

(** A request packed by [pack_message] is sent and freed. *)
Definition perform_packed (request_size : Z) (request_buf : ptr) : C client_state socket_data_t :=
  let! response_data :=
    client_perform_request {| size := wrap32 request_size; data := request_buf |} in
  in_mem (free_if request_buf);;;
  cret response_data.

Definition qkd_open_connect (source destination : qkd_uri_t) (q : qkd_qos_t)
    (key_stream_id : uuid_t) (status : Z) : C client_state (qkd_qos_t * uuid_t * Z) :=
  let oc_request := {| ocq_source := source; ocq_destination := destination; ocq_qos := q;
                       ocq_key_stream_id := uuid_copy key_stream_id |} in
  let! n := in_mem (qkd_sizeof_open_connect_request oc_request) in
  let! '(request_size, request_buf) :=
    pack_message QKD_SERVICE_OPEN_CONNECT_REQUEST n
      (qkd_open_connect_request_to_stream oc_request) in
  let! response_data := perform_packed request_size request_buf in
  let! '(response, response_stream) :=
    in_mem (qkd_open_connect_response_from_stream (data response_data)) in
  let status := ocr_status response in
  let key_stream_id := uuid_copy (ocr_key_stream_id response) in
  let! q := in_mem (qkd_copy_qos q (ocr_qos response)) in
  in_mem (free_if (data response_data));;;
  cret (q, key_stream_id, status).

Definition qkd_get_key (key_stream_id : uuid_t) (index : Z) (key_buffer : qkd_key_buffer_t)
    (metadata : qkd_metadata_t) (status : Z) :
    C client_state (Z * qkd_key_buffer_t * qkd_metadata_t * Z) :=
  let gk_request := {| gkq_key_stream_id := uuid_copy key_stream_id; gkq_index := index;
                       gkq_metadata := metadata |} in
  let! '(request_size, request_buf) :=
    pack_message QKD_SERVICE_GET_KEY_REQUEST (qkd_sizeof_get_key_request gk_request)
      (qkd_get_key_request_to_stream gk_request) in
  let! response_data := perform_packed request_size request_buf in
  let! '(response, response_stream) :=
    in_mem (qkd_get_key_response_from_stream (data response_data)) in
  in_mem (free_if (data response_data));;;
  cret (gkr_index response, gkr_key_buffer response, gkr_metadata response, gkr_status response).

Definition qkd_close (key_stream_id : uuid_t) (status : Z) : C client_state Z :=
  let cl_request := {| clq_key_stream_id := uuid_copy key_stream_id |} in
  let! '(request_size, request_buf) :=
    pack_message QKD_SERVICE_CLOSE_REQUEST (qkd_sizeof_close_request cl_request)
      (qkd_close_request_to_stream cl_request) in
  let! response_data := perform_packed request_size request_buf in
  let! '(response, response_stream) :=
    in_mem (qkd_close_response_from_stream (data response_data)) in
  in_mem (free_if (data response_data));;;
  cret (clr_status response).

(** The client as an implementation of the application interface. *)
#[export] Instance client_app : QkdApp client_state := {|
  app_open_connect := qkd_open_connect;
  app_get_key := qkd_get_key;
  app_close := qkd_close;
|}.

(** ** Lemmas *)

Context {MT : MallocTotal} {LO : LibuuidOk}.

Lemma in_client_mem {A} (f : C mem A) m e a m' : f m = Ret a m' ->
  in_mem f {| cl_mem := m; cl_env := e |} = Ret a {| cl_mem := m'; cl_env := e |}.
Proof. intros H. exact (in_mem_run f {| cl_mem := m; cl_env := e |} a m' H). Qed.

(** The next connection of the client, to a peer that answers the message [req] with the
    message [h] and [body], each part in one read. *)
Definition answers (e : env) (req : list byte) (h : qkd_header_t) (body : list byte)
    (e' : env) : Prop :=
  exists c c' c1,
    socket_client_init (host cfg) (port cfg) (cert_pem cfg) (key_pem cfg) (peer_ca_pem cfg)
      (max_proto_version cfg) e = Ret c e' /\
    delivers (SSL_write c req).2 sizeof_header (enc header_codec h) c1 /\
    delivers c1 (payload_size h) body c' /\
    header_ok h /\ payload_size h = Z.of_nat (length body) /\ 0 < payload_size h < 2 ^ 31 /\
    payload_size h <= stack_limit /\ sizeof_header <= stack_limit.

(** The blocks of a call: the request, which is freed, the header of the response, which
    is not, and the payload. *)
Lemma perform_packed_run req h body m e e' :
  (2 <= fuel)%nat -> mem_wf m -> answers e req h body e' -> 0 < Z.of_nat (length req) < 2 ^ 31 ->
  let m1 := alloc (Bytes (Some <$> req)) m in
  perform_packed (Z.of_nat (length req)) (Ptr (next m) 0) {| cl_mem := m1; cl_env := e |} =
    Ret {| size := payload_size h; data := Ptr (2 + next m) 0 |}
        {| cl_mem := dealloc (next m) (alloc (Bytes (Some <$> body))
                       (alloc (Bytes (Some <$> enc header_codec h)) m1)); cl_env := e' |}.
Proof.
  intros Hf Hm (c & c' & c1 & Hinit & Hd & Hd' & Hh & Hb & Hr & Hs & Hs8) Hreq m1.
  unfold perform_packed, client_perform_request.
  rewrite wrap32_small by (unfold u32; lia).
  set (s := {| cl_mem := m1; cl_env := e' |}).
  rewrite cbind_assoc.
  erewrite cbind_ret by (unfold in_env, zoom; cbn [cl_env]; rewrite Hinit; done).
  rewrite cbind_assoc. fold s.
  erewrite cbind_ret.
  2: { unfold on_connection. rewrite at_mem_get. cbn [get_mem client_mem cl_mem s].
       erewrite cbind_ret by (apply (send_at _ req); [apply block_data, lookup_alloc|done|done]).
       erewrite cbind_ret by (apply (recv_at fuel sizeof_header (enc header_codec h) _ _ _ c1);
         [done|done|unfold sizeof_header; lia|done|done]).
       cbn [data]. erewrite cbind_ret.
       2: { apply at_mem_run. rewrite (reads_header _ (next m1) [] (enc header_codec h)).
            - rewrite <- (app_nil_r (enc header_codec h)) at 1.
              rewrite dec_enc by by apply header_ok_valid. done.
            - by do 2 apply mem_wf_alloc.
            - unfold short. rewrite length_enc_header. lia.
            - apply lookup_alloc. }
       cbv beta iota. rewrite (recv_at fuel (payload_size h) body _ _ _ c') by done. done. }
  cbv beta iota. cbn [allocs]. unfold at_mem. cbn [set_mem client_mem s_app s_ssl].
  erewrite cbind_ret by done. unfold free_if. rewrite decide_True by done.
  erewrite cbind_ret; [|apply in_mem_run, free_ok; cbn [get_mem client_mem cl_mem];
    unfold m1; rewrite !lookup_alloc_ne by (cbn; lia); by rewrite lookup_alloc]. done.
Qed.

(** The memory when the response [body] has been received and the request freed. *)
Definition replied (req : list byte) (h : qkd_header_t) (body : list byte) (m : mem) : mem :=
  dealloc (next m) (alloc (Bytes (Some <$> body))
    (alloc (Bytes (Some <$> enc header_codec h)) (alloc (Bytes (Some <$> req)) m))).

Lemma mem_wf_replied req h body m : mem_wf m -> mem_wf (replied req h body m).
Proof. intros. unfold replied. auto 6 with c_mem. Qed.

Lemma replied_body req h body m :
  heap (replied req h body m) !! (2 + next m)%nat = Some (Bytes (Some <$> body)).
Proof. unfold replied. cbn. rewrite lookup_delete_ne by lia. by rewrite lookup_insert_eq. Qed.

Lemma replied_old req h body m b : (b < next m)%nat ->
  heap (replied req h body m) !! b = heap m !! b.
Proof.
  intros Hb. unfold replied. cbn. rewrite lookup_delete_ne by lia.
  by rewrite !lookup_insert_ne by lia.
Qed.

(** What a call leaves behind besides what it returns: memory as it was, and the header
    of the response, which nobody frees. *)
Definition leaves (m m' : mem) (h : qkd_header_t) (returned : list nat) : Prop :=
  (forall b, (b < next m)%nat -> heap m' !! b = heap m !! b) /\
  heap m' !! S (next m) = Some (Bytes (Some <$> enc header_codec h)) /\
  (forall b, (next m <= b)%nat -> b <> S (next m) -> b ∉ returned -> heap m' !! b = None).

(** The end of a call: the response's blocks are read and the payload is freed. *)
Definition after_call (req : list byte) (h : qkd_header_t) (body : list byte)
    (bl : list (option (list byte))) (m : mem) : mem :=
  dealloc (2 + next m) (allocs bl (replied req h body m)).

Lemma after_call_lookup req h body bl m i x : mem_wf m -> bl !! i = Some (Some x) ->
  heap (after_call req h body bl m) !! (3 + next m + i)%nat = Some (Bytes (Some <$> x)).
Proof.
  intros Hm Hi. unfold after_call. cbn [dealloc heap]. rewrite lookup_delete_ne by lia.
  apply (lookup_allocs bl (replied req h body m)); [by apply mem_wf_replied|done].
Qed.

Lemma after_call_leaves req h body bl m : mem_wf m ->
  leaves m (after_call req h body bl m) h (seq (3 + next m) (length bl)).
Proof.
  intros Hm. unfold after_call.
  assert (next (replied req h body m) = 3 + next m)%nat as Hn by done.
  split_and!.
  - intros b Hb. cbn [dealloc heap]. rewrite lookup_delete_ne by lia.
    rewrite lookup_allocs_lt by lia. by apply replied_old.
  - cbn [dealloc heap]. rewrite lookup_delete_ne by lia. rewrite lookup_allocs_lt by lia.
    unfold replied. cbn [dealloc heap]. rewrite lookup_delete_ne by lia.
    rewrite lookup_alloc_ne by (cbn; lia). apply lookup_alloc.
  - intros b Hb Hne Hbl. cbn [dealloc heap]. rewrite elem_of_seq in Hbl.
    destruct (decide (b = 2 + next m)%nat) as [->|]; [apply lookup_delete_eq|].
    rewrite lookup_delete_ne by done.
    destruct (decide (b = next m)) as [->|].
    + rewrite lookup_allocs_lt by lia. unfold replied. cbn [dealloc heap]. apply lookup_delete_eq.
    + apply mem_wf_allocs; [by apply mem_wf_replied|]. rewrite next_allocs. lia.
Qed.

(** Reading the response and freeing its payload, or reading out of its bounds. *)
Lemma read_response {T V} (from : ptr -> C mem (T * ptr)) (cd : codec V) bl pl req h body m e :
  reads from cd bl pl -> mem_wf m -> short body ->
  match dec cd body with
  | Some (v, rest) =>
      in_mem (from (Ptr (2 + next m) 0)) {| cl_mem := replied req h body m; cl_env := e |} =
        Ret (pl (3 + next m)%nat v, Ptr (2 + next m) (length (enc cd v)))
          {| cl_mem := allocs (bl v) (replied req h body m); cl_env := e |} /\
      in_mem (free_if (Ptr (2 + next m) 0))
        {| cl_mem := allocs (bl v) (replied req h body m); cl_env := e |} =
        Ret tt {| cl_mem := after_call req h body (bl v) m; cl_env := e |}
  | None =>
      in_mem (from (Ptr (2 + next m) 0)) {| cl_mem := replied req h body m; cl_env := e |} =
        Fault OutOfBounds
  end.
Proof.
  intros Hr Hm Hs.
  pose proof (Hr _ _ [] body (mem_wf_replied req h body m Hm) Hs (replied_body req h body m)) as H.
  destruct (dec cd body) as [[v rest]|].
  - split; [by apply in_client_mem|].
    apply in_client_mem. unfold free_if. rewrite decide_True by done.
    apply free_ok. rewrite lookup_allocs_lt by (cbn; lia). by rewrite replied_body.
  - by apply (in_mem_fault _ {| cl_mem := replied req h body m; cl_env := e |}).
Qed.

Lemma client_pack sv n write bs (R : mem -> Prop) m e :
  mem_wf m -> (forall b, heap m !! b = None -> writes b R write bs) ->
  (forall m', extends m m' -> R m') -> (forall b, heap m !! b = None -> stable_off b R) ->
  n = Z.of_nat (length bs) -> n < 2 ^ 32 ->
  pack_message sv n write {| cl_mem := m; cl_env := e |} =
    Ret (Z.of_nat (length (message sv bs)), Ptr (next m) 0)
        {| cl_mem := alloc (Bytes (Some <$> message sv bs)) m; cl_env := e |}.
Proof.
  intros Hm Hw HR Hst Hn Hlt.
  exact (pack_message_run sv n write bs R {| cl_mem := m; cl_env := e |} Hm Hw HR Hst Hn Hlt).
Qed.

Lemma answers_short req h body e e' : answers e req h body e' -> short body.
Proof. intros (? & ? & ? & _ & _ & _ & _ & ? & ? & _). unfold short. lia. Qed.

(** GET_KEY: the call returns what the response says, in two new blocks. *)
Definition gk_message (q : get_key_request (list byte)) : list byte :=
  message QKD_SERVICE_GET_KEY_REQUEST (enc gk_request_codec q).

(** The request is packed, and the call goes on with its exchange for a response. *)
Lemma client_get_key_packs q b kb st0 m e :
  mem_wf m -> uuid_ok (gkq_key_stream_id q) ->
  heap m !! b = Some (Bytes (Some <$> gkq_metadata q)) ->
  Z.of_nat (length (gk_message q)) < 2 ^ 31 ->
  qkd_get_key (gkq_key_stream_id q) (gkq_index q) kb (buffer b (gkq_metadata q)) st0
      {| cl_mem := m; cl_env := e |} =
    (let! response_data := perform_packed (Z.of_nat (length (gk_message q))) (Ptr (next m) 0) in
     let! '(response, response_stream) :=
       in_mem (qkd_get_key_response_from_stream (data response_data)) in
     in_mem (free_if (data response_data));;;
     cret (gkr_index response, gkr_key_buffer response, gkr_metadata response, gkr_status response))
    {| cl_mem := alloc (Bytes (Some <$> gk_message q)) m; cl_env := e |}.
Proof.
  intros Hm Hid Hb Hlen. unfold qkd_get_key. rewrite uuid_copy_ok by done.
  set (r := Build_get_key_request _ _ _).
  assert (24 + Z.of_nat (length (gkq_metadata q)) + 8 < 2 ^ 31) as Hlen'.
  { unfold gk_message in Hlen. rewrite length_message, length_enc_gk_request in Hlen by done. lia. }
  assert (gk_request_at m r q) as Hat.
  { split_and!; [done..|]. apply bytes_at_block; [unfold blob_ok; lia|done]. }
  assert (payload_fits gk_request_codec q) as Hfit
    by (unfold payload_fits; rewrite length_enc_gk_request by done; lia).
  rewrite (qkd_sizeof_get_key_request_run m r q Hat Hid Hfit).
  erewrite cbind_ret.
  2: { apply (client_pack _ _ _ (enc gk_request_codec q) (fun m => gk_request_at m r q)); try done.
       - intros b' Hb'. apply writes_gk_request; [|done]. cbn. congruence.
       - intros m' He. destruct Hat as (? & ? & ?). split_and!; eauto using bytes_at_extends.
       - intros b' Hb'. apply gk_request_at_stable. cbn. congruence. }
  done.
Qed.

Lemma client_get_key_run q b kb st0 m e h body e' :
  (2 <= fuel)%nat -> mem_wf m -> uuid_ok (gkq_key_stream_id q) ->
  heap m !! b = Some (Bytes (Some <$> gkq_metadata q)) ->
  Z.of_nat (length (gk_message q)) < 2 ^ 31 -> answers e (gk_message q) h body e' ->
  qkd_get_key (gkq_key_stream_id q) (gkq_index q) kb (buffer b (gkq_metadata q)) st0
      {| cl_mem := m; cl_env := e |} =
    match dec gk_response_codec body with
    | Some (v, rest) =>
        Ret (gkr_index v, buffer (3 + next m) (gkr_key_buffer v),
             buffer (3 + next m + 1) (gkr_metadata v), gkr_status v)
          {| cl_mem := after_call (gk_message q) h body
               [Some (gkr_key_buffer v); Some (gkr_metadata v)] m; cl_env := e' |}
    | None => Fault OutOfBounds
    end.
Proof.
  intros Hf Hm Hid Hb Hlen Hans. rewrite (client_get_key_packs q b kb st0 m e) by done.
  assert (0 < Z.of_nat (length (gk_message q)) < 2 ^ 31) as Hreq
    by (split; [unfold gk_message; rewrite length_message; lia|done]).
  erewrite cbind_ret by (apply (perform_packed_run (gk_message q) h body m e e'); done).
  cbn [data]. fold (replied (gk_message q) h body m).
  pose proof (read_response _ _ _ _ (gk_message q) h body m e' reads_gk_response Hm
    (answers_short _ _ _ _ _ Hans)) as H.
  destruct (dec gk_response_codec body) as [[v rest]|]; [|by apply cbind_fault].
  destruct H as [H1 H2]. erewrite cbind_ret by exact H1. cbv beta iota.
  by erewrite cbind_ret by exact H2.
Qed.

(** CLOSE *)
Definition cl_message (id : uuid_t) : list byte :=
  message QKD_SERVICE_CLOSE_REQUEST (enc cl_request_codec {| clq_key_stream_id := id |}).

Lemma length_cl_message id : uuid_ok id -> length (cl_message id) = 24%nat.
Proof.
  intros Hid. unfold cl_message. rewrite length_message.
  change (8 + length id = 24)%nat. by rewrite Hid.
Qed.

Lemma client_close_run id st0 m e h body e' :
  (2 <= fuel)%nat -> mem_wf m -> uuid_ok id -> answers e (cl_message id) h body e' ->
  qkd_close id st0 {| cl_mem := m; cl_env := e |} =
    match dec cl_response_codec body with
    | Some (v, rest) =>
        Ret (clr_status v) {| cl_mem := after_call (cl_message id) h body [] m; cl_env := e' |}
    | None => Fault OutOfBounds
    end.
Proof.
  intros Hf Hm Hid Hans. unfold qkd_close. rewrite uuid_copy_ok by done.
  set (r := {| clq_key_stream_id := id |}).
  erewrite cbind_ret.
  2: { apply (client_pack _ _ _ (enc cl_request_codec r) (fun _ => True)); try done.
       - intros b' _. by apply writes_cl_request.
       - change (16 = Z.of_nat (length id)). by rewrite Hid. }
  cbv beta iota. fold (cl_message id).
  erewrite cbind_ret by (apply (perform_packed_run (cl_message id) h body m e e'); try done;
    rewrite length_cl_message by done; lia).
  cbn [data]. fold (replied (cl_message id) h body m).
  pose proof (read_response _ _ _ _ (cl_message id) h body m e' reads_cl_response Hm
    (answers_short _ _ _ _ _ Hans)) as H.
  destruct (dec cl_response_codec body) as [[v rest]|]; [|by apply cbind_fault].
  destruct H as [H1 H2]. erewrite cbind_ret by exact H1. cbv beta iota.
  by erewrite cbind_ret by exact H2.
Qed.

(** OPEN_CONNECT: the caller's mimetype is replaced by a copy of the response's. *)
Definition oc_message (q : open_connect_request (list byte)) : list byte :=
  message QKD_SERVICE_OPEN_CONNECT_REQUEST (enc oc_request_codec q).

Definition after_open (req : list byte) (h : qkd_header_t) (body : list byte) (bq : nat)
    (mime : list byte) (m : mem) : mem :=
  dealloc (2 + next m) (alloc (Bytes (Some <$> enc_cstr mime))
    (dealloc bq (allocs [Some (enc_cstr mime); None] (replied req h body m)))).

Lemma client_open_packed q r m e :
  mem_wf m -> oc_request_at m r q -> uuid_ok (ocq_key_stream_id q) ->
  Z.of_nat (length (oc_message q)) < 2 ^ 31 ->
  pack_message QKD_SERVICE_OPEN_CONNECT_REQUEST (Z.of_nat (length (enc oc_request_codec q)))
      (qkd_open_connect_request_to_stream r) {| cl_mem := m; cl_env := e |} =
    Ret (Z.of_nat (length (oc_message q)), Ptr (next m) 0)
        {| cl_mem := alloc (Bytes (Some <$> oc_message q)) m; cl_env := e |}.
Proof.
  intros Hm Hat Hid Hlen.
  assert (forall b, heap m !! b = None -> oc_request_avoids b r) as Ha.
  { intros b Hb. destruct Hat as (? & ? & (? & _) & _).
    split_and!; by eapply str_at_avoids. }
  assert (oc_request_short q /\ Z.of_nat (length (enc oc_request_codec q)) < 2 ^ 31) as [Hs Hl].
  { unfold oc_message in Hlen. rewrite length_message in Hlen. split; [|lia].
    rewrite length_enc_oc_request in Hlen by done. unfold oc_request_short, short. lia. }
  apply (client_pack _ _ _ (enc oc_request_codec q)
    (fun m => oc_request_at m r q /\ oc_request_short q)); try done; [..|lia].
  - intros b Hb. apply writes_oc_request; auto.
  - intros m' He. split; [|done]. destruct Hat as (? & ? & (? & ?) & ?).
    split_and!; try done; [by eapply str_at_extends..|]. split; [by eapply str_at_extends|done].
  - intros b Hb. apply stable_off_and; [apply oc_request_at_stable; auto|apply stable_off_const].
Qed.

(** The last step before the payload is freed. *)
Lemma client_copy_qos req h body qs bq v s m :
  mem_wf m -> metadata_mimetype qs = Ptr bq 0 -> str_at m (Ptr bq 0) s ->
  str_ok (metadata_mimetype v) -> short (metadata_mimetype v) ->
  let m2 := allocs [Some (enc_cstr (metadata_mimetype v)); None] (replied req h body m) in
  qkd_copy_qos qs (qos_map (fun _ => Ptr (3 + next m) 0) v) m2 =
    Ret (qos_map (fun _ => Ptr (5 + next m) 0) v)
      (alloc (Bytes (Some <$> enc_cstr (metadata_mimetype v))) (dealloc bq m2)).
Proof.
  intros Hm Hq (_ & b & off & l & rest & [= <- <-] & Hb & _) Hok Hs m2.
  pose proof (mem_wf_live _ _ Hm (mk_is_Some _ _ Hb)) as Hlt.
  unfold qkd_copy_qos, qkd_copy_mimetype. rewrite Hq.
  erewrite cbind_ret; [done|].
  apply (qkd_copy_str_old m2 bq (Ptr (3 + next m) 0) (metadata_mimetype v)).
  - by apply mem_wf_allocs, mem_wf_replied.
  - exists (Bytes l). unfold m2. rewrite lookup_allocs_lt by (cbn; lia). by rewrite replied_old.
  - cbn. lia.
  - by apply (str_at_allocs0 _ (replied req h body m)); [apply mem_wf_replied|].
  - done.
Qed.

Lemma client_open_connect_run q src dst qs bq st0 m e h body e' :
  (2 <= fuel)%nat -> mem_wf m -> uuid_ok (ocq_key_stream_id q) ->
  str_at m src (ocq_source q) -> str_at m dst (ocq_destination q) -> qos_at m qs (ocq_qos q) ->
  metadata_mimetype qs = Ptr bq 0 -> mimetype_fits (ocq_qos q) ->
  Z.of_nat (length (oc_message q)) < 2 ^ 31 -> answers e (oc_message q) h body e' ->
  qkd_open_connect src dst qs (ocq_key_stream_id q) st0 {| cl_mem := m; cl_env := e |} =
    match dec oc_response_codec body with
    | Some (v, rest) =>
        Ret (qos_map (fun _ => Ptr (5 + next m) 0) (ocr_qos v), ocr_key_stream_id v, ocr_status v)
          {| cl_mem := after_open (oc_message q) h body bq (metadata_mimetype (ocr_qos v)) m;
             cl_env := e' |}
    | None => Fault OutOfBounds
    end.
Proof.
  intros Hf Hm Hid Hsrc Hdst Hq Hbq Hmime Hlen Hans. unfold qkd_open_connect.
  rewrite uuid_copy_ok by done. set (r := Build_open_connect_request _ _ _ _).
  assert (oc_request_at m r q) as Hat by by split_and!.
  assert (payload_fits oc_request_codec q) as Hfit.
  { unfold payload_fits. unfold oc_message in Hlen. rewrite length_message in Hlen. lia. }
  pose proof (qkd_sizeof_open_connect_request_run m r q Hat Hid Hfit) as Hsz.
  rewrite decide_True in Hsz by done.
  erewrite cbind_ret by by apply in_client_mem.
  erewrite cbind_ret by by apply client_open_packed. cbv beta iota.
  erewrite cbind_ret by (apply (perform_packed_run (oc_message q) h body m e e'); try done;
    unfold oc_message; rewrite length_message; unfold oc_message in Hlen;
    rewrite length_message in Hlen; lia).
  cbn [data]. fold (replied (oc_message q) h body m).
  pose proof (read_response _ _ _ _ (oc_message q) h body m e' reads_oc_response Hm
    (answers_short _ _ _ _ _ Hans)) as H.
  destruct (dec oc_response_codec body) as [[v rest]|] eqn:Hdec; [|by apply cbind_fault].
  destruct H as [H1 _]. erewrite cbind_ret by exact H1. cbv beta iota.
  destruct Hq as [Hqs _]. rewrite Hbq in Hqs.
  pose proof Hqs as (_ & b & off & l & r' & [= <- <-] & Hb & _).
  pose proof (mem_wf_live _ _ Hm (mk_is_Some _ _ Hb)) as Hlt.
  pose proof (dec_sound _ _ _ _ Hdec) as [_ (_ & Hv & Hu)].
  pose proof (dec_length _ _ _ _ Hdec) as Hdl. rewrite length_enc_oc_response in Hdl by exact Hu.
  pose proof (answers_short _ _ _ _ _ Hans) as Hbs.
  erewrite cbind_ret.
  2: { apply in_client_mem. apply (client_copy_qos _ _ _ _ bq _ (metadata_mimetype (ocq_qos q)));
         try done; [apply Hv|unfold short in *; lia]. }
  rewrite uuid_copy_ok by exact Hu.
  erewrite cbind_ret; [done|]. apply in_client_mem. unfold free_if. rewrite decide_True by done.
  apply free_ok. cbn [data]. rewrite lookup_alloc_ne by (cbn; lia).
  cbn [dealloc heap]. rewrite lookup_delete_ne by lia. rewrite lookup_allocs_lt by (cbn; lia).
  by rewrite replied_body.
Qed.

End client.
