(* ===== verification/Remote.v ===== *)
(** The socket client against a key management server: what each call of [Client.v]
    returns when the peer of its connection is the abstract server in a given state.
    The calls on structs, which the client programs make, come last. *)

From S2P Require Import Prelude Models Memory Wire Sizes Platform Printf Serializers SerializersSpec.
From S2P Require Import Copy Kms KmsSpec KmsProofs Interfaces KmsApp Socket Servlet ServletProofs.
From S2P Require Import Setup Run Client.

Lemma message_inj sv sv' bs bs' : message sv bs = message sv' bs' -> bs = bs'.
Proof. by intros [_ ?]%app_inj_1. Qed.

Lemma message_header_inj sv sv' bs bs' : message sv bs = message sv' bs' ->
  enc header_codec (header_for sv bs) = enc header_codec (header_for sv' bs').
Proof. by intros [? _]%app_inj_1. Qed.

Lemma reply_message_inj {A} sv sv' bs bs' (a a' : A) :
  Reply (message sv bs) a = Reply (message sv' bs') a' -> bs = bs' /\ a = a'.
Proof.
  intros H. assert (forall (x y : list byte) (b c : A), Reply x b = Reply y c -> x = y /\ b = c) as Hr
    by by intros ? ? ? ? [=].
  apply Hr in H as [Hm Ha]. split; [by eapply message_inj|done].
Qed.

Section remote.
Context {ML : Malloc} {MT : MallocTotal} {LU : Libuuid} {LO : LibuuidOk} {RD : Rand}
  {OS : Openssl} {TLS : Tls} {ST : Stack}.

(** The peer of the next connection is a key management server in state [a], which
    answers the request [body] of the service [sv] as [abs_serve] says and goes to [a']. *)
Definition peer_serves (cfg : qkd_client_context_data_t) (e : env) (sv sv' : qkd_service)
    (body : list byte) (a a' : akms) (e' : env) : Prop :=
  exists bs, abs_serve (service_code sv) body a = Reply (message sv' bs) a' /\
    answers cfg e (message sv body) (header_for sv' bs) bs e'.

(** The status, key and metadata of the specification of GET_KEY in state [a], and the
    next state. *)
Definition gk_returns (q : get_key_request (list byte)) (a : akms) (status : Z)
    (key md : list byte) (a' : akms) : Prop :=
  match abs_get_key (gkq_key_stream_id q) (gkq_index q) (gkq_metadata q) a with
  | GkKey key' md' a1 => status = 0 /\ key = key' /\ md = md' /\ a' = a1
  | GkDenied status' => status = status' /\ key = [] /\ md = gkq_metadata q /\ a' = a
  | GkFault _ => False
  end.

(** The response to a GET_KEY request, and what it says of [abs_get_key]. *)
Lemma gk_reply_decoded q (a a' : akms) bs :
  match abs_get_key (gkq_key_stream_id q) (gkq_index q) (gkq_metadata q) a with
  | GkDenied status =>
      gk_reply {| gkr_status := status; gkr_index := gkq_index q; gkr_key_buffer := [];
                  gkr_metadata := gkq_metadata q |} a
  | GkKey key md a' =>
      gk_reply {| gkr_status := status_code qkd_status_code_successful;
                  gkr_index := gkq_index q; gkr_key_buffer := key; gkr_metadata := md |} a'
  | GkFault f => Undefined f
  end = Reply (message QKD_SERVICE_GET_KEY_RESPONSE bs) a' ->
  0 <= gkq_index q < 256 ^ Z.of_nat 4 -> blob_ok (gkq_metadata q) ->
  Z.of_nat (length bs) < 2 ^ 31 ->
  exists status key md,
    let v := {| gkr_status := status; gkr_index := gkq_index q; gkr_key_buffer := key;
                gkr_metadata := md |} in
    bs = enc gk_response_codec v /\ gk_response_ok v /\
    gk_returns q a status key md a'.
Proof.
  unfold gk_reply, gk_returns. intros Hserve Hi Hmd Hbs. unfold abs_get_key in *.
  destruct (find_by_ksid _ _) as [st|].
  - destruct (key_view _) as [[kt kr]|]; [|done]. case_decide; [|done].
    apply reply_message_inj in Hserve as [<- <-].
    eexists _, _, _. split; [done|]. split; [|done]. rewrite length_enc_gk_response in Hbs.
    cbn in Hbs. split_and!; cbn; unfold blob_ok; lia.
  - apply reply_message_inj in Hserve as [<- <-].
    eexists _, _, _. split; [done|]. split; [|done]. split_and!; cbn; try done; lia.
Qed.

(** GET_KEY: the blocks of the key and the metadata are read from the response. *)
Lemma remote_get_key_run fuel cfg q b kb st0 m e e' a a' :
  (2 <= fuel)%nat -> mem_wf m -> gk_request_ok q ->
  heap m !! b = Some (Bytes (Some <$> gkq_metadata q)) ->
  Z.of_nat (length (gk_message q)) < 2 ^ 31 ->
  peer_serves cfg e QKD_SERVICE_GET_KEY_REQUEST QKD_SERVICE_GET_KEY_RESPONSE
    (enc gk_request_codec q) a a' e' ->
  exists status key md bs, gk_returns q a status key md a' /\ blob_ok key /\
    Client.qkd_get_key fuel cfg (gkq_key_stream_id q) (gkq_index q) kb
        (buffer b (gkq_metadata q)) st0 {| cl_mem := m; cl_env := e |} =
      Ret (gkq_index q, buffer (3 + next m) key, buffer (3 + next m + 1) md, status)
        {| cl_mem := after_call (gk_message q) (header_for QKD_SERVICE_GET_KEY_RESPONSE bs) bs
             [Some key; Some md] m; cl_env := e' |}.
Proof.
  intros Hf Hm Hq Hb Hlen (bs & Hserve & Hans).
  pose proof Hq as (Hid & Hi & Hmd). cbn in Hid, Hi, Hmd.
  assert (Z.of_nat (length bs) < 2 ^ 31) as Hbs.
  { destruct Hans as (? & ? & ? & _ & _ & _ & _ & _ & Hl & _). apply Hl. }
  pose proof (client_get_key_run fuel cfg q b kb st0 m e _ bs e' Hf Hm Hid Hb Hlen Hans) as Hrun.
  change (abs_serve_get_key (enc gk_request_codec q) a =
    Reply (message QKD_SERVICE_GET_KEY_RESPONSE bs) a') in Hserve.
  unfold abs_serve_get_key in Hserve.
  pose proof (dec_enc gk_request_codec q [] Hq) as Hdec. rewrite app_nil_r in Hdec.
  rewrite Hdec in Hserve. cbn [spec_get_key akms_spec] in Hserve.
  destruct (gk_reply_decoded q a a' bs Hserve Hi Hmd Hbs) as (status & key & md & Hdr & Hok & Hspec).
  pose proof (dec_enc gk_response_codec _ [] Hok) as Hdec'. rewrite app_nil_r, <- Hdr in Hdec'.
  rewrite Hdec' in Hrun. exists status, key, md, bs. split; [exact Hspec|]. split; [apply Hok|exact Hrun].
Qed.

(** OPEN_CONNECT: the caller's mimetype is replaced. *)
Lemma remote_open_run fuel cfg q src dst qs bq st0 m e e' a a' :
  (2 <= fuel)%nat -> mem_wf m -> oc_request_ok q ->
  str_at m src (ocq_source q) -> str_at m dst (ocq_destination q) -> qos_at m qs (ocq_qos q) ->
  metadata_mimetype qs = Ptr bq 0 -> Z.of_nat (length (oc_message q)) < 2 ^ 31 ->
  Forall stream_ok (a_streams a) ->
  peer_serves cfg e QKD_SERVICE_OPEN_CONNECT_REQUEST QKD_SERVICE_OPEN_CONNECT_RESPONSE
    (enc oc_request_codec q) a a' e' ->
  exists id bs,
    spec_open (ocq_source q) (ocq_destination q) (ocq_qos q) (ocq_key_stream_id q) a = (id, a') /\
    uuid_ok id /\
    Client.qkd_open_connect fuel cfg src dst qs (ocq_key_stream_id q) st0
        {| cl_mem := m; cl_env := e |} =
      Ret (qos_map (fun _ => Ptr (5 + next m) 0) (ocq_qos q), id,
           status_code qkd_status_code_successful)
        {| cl_mem := after_open (oc_message q) (header_for QKD_SERVICE_OPEN_CONNECT_RESPONSE bs) bs bq
             (metadata_mimetype (ocq_qos q)) m; cl_env := e' |}.
Proof.
  intros Hf Hm Hq Hsrc Hdst Hqs Hbq Hlen Hsg (bs & Hserve & Hans).
  pose proof Hq as (_ & _ & Hv & Hid). cbn in Hid.
  change (abs_open_connect (enc oc_request_codec q) a =
    Reply (message QKD_SERVICE_OPEN_CONNECT_RESPONSE bs) a') in Hserve.
  unfold abs_open_connect in Hserve.
  pose proof (dec_enc oc_request_codec q [] Hq) as Hdec. rewrite app_nil_r in Hdec.
  rewrite Hdec in Hserve. cbn [spec_open akms_spec] in *.
  pose proof (abs_open_id_ok (ocq_source q) (ocq_destination q) (ocq_qos q) (ocq_key_stream_id q)
    (a_uuid a) _ Hsg Hid) as Hid'.
  destruct (abs_open _ _ _ _ _ _) as [[id g] sg]. cbn in Hid'. case_decide as Hmime; [|done].
  apply reply_message_inj in Hserve as [Hbs <-]. exists id, bs. split; [done|]. split; [done|].
  pose proof (client_open_connect_run fuel cfg q src dst qs bq st0 m e _ _ e' Hf Hm Hid Hsrc Hdst
    Hqs Hbq Hmime Hlen Hans) as Hrun.
  set (v := {| ocr_status := _; ocr_qos := ocq_qos q; ocr_key_stream_id := id |}) in *.
  assert (oc_response_ok v) as Hok by (split; [by vm_compute|]; split; [exact Hv|exact Hid']).
  pose proof (dec_enc oc_response_codec v [] Hok) as Hdr. rewrite app_nil_r, Hbs in Hdr.
  rewrite Hdr in Hrun. exact Hrun.
Qed.

(** The state of a server that has answered OPEN_CONNECT. *)
Lemma peer_opens cfg e q a a' e' : Z.of_nat (length (oc_message q)) < 2 ^ 31 ->
  peer_serves cfg e QKD_SERVICE_OPEN_CONNECT_REQUEST QKD_SERVICE_OPEN_CONNECT_RESPONSE
    (enc oc_request_codec q) a a' e' ->
  oc_request_ok q ->
  (spec_open (ocq_source q) (ocq_destination q) (ocq_qos q) (ocq_key_stream_id q) a).2 = a'.
Proof.
  intros Hlen (bs & Hserve & _) Hq.
  change (abs_open_connect (enc oc_request_codec q) a =
    Reply (message QKD_SERVICE_OPEN_CONNECT_RESPONSE bs) a') in Hserve.
  unfold abs_open_connect in Hserve.
  pose proof (dec_enc oc_request_codec q [] Hq) as Hdec. rewrite app_nil_r in Hdec.
  rewrite Hdec in Hserve. destruct (spec_open _ _ _ _ a) as [id a1]. case_decide; [|done].
  by apply reply_message_inj in Hserve as [_ <-].
Qed.

(** CLOSE changes nothing at the server. *)
Lemma remote_close_run fuel cfg id st0 m e e' (a a' : akms) :
  (2 <= fuel)%nat -> mem_wf m -> uuid_ok id ->
  peer_serves cfg e QKD_SERVICE_CLOSE_REQUEST QKD_SERVICE_CLOSE_RESPONSE
    (enc cl_request_codec {| clq_key_stream_id := id |}) a a' e' ->
  a' = a /\ exists bs,
    Client.qkd_close fuel cfg id st0 {| cl_mem := m; cl_env := e |} =
      Ret (status_code qkd_status_code_successful)
        {| cl_mem := after_call (cl_message id) (header_for QKD_SERVICE_CLOSE_RESPONSE bs) bs [] m;
           cl_env := e' |}.
Proof.
  intros Hf Hm Hid (bs & Hserve & Hans).
  change (abs_close (enc cl_request_codec {| clq_key_stream_id := id |}) a =
    Reply (message QKD_SERVICE_CLOSE_RESPONSE bs) a') in Hserve.
  unfold abs_close in Hserve.
  pose proof (dec_enc cl_request_codec {| clq_key_stream_id := id |} [] Hid) as Hdec.
  rewrite app_nil_r in Hdec. rewrite Hdec in Hserve.
  apply reply_message_inj in Hserve as [Hbs <-]. split; [done|]. exists bs.
  pose proof (client_close_run fuel cfg id st0 m e _ bs e' Hf Hm Hid Hans) as Hrun.
  pose proof (dec_enc cl_response_codec
    {| clr_status := status_code qkd_status_code_successful |} [] ltac:(by vm_compute)) as Hdr.
  rewrite app_nil_r, Hbs in Hdr. by rewrite Hdr in Hrun.
Qed.

(** A granted key: that of the stream, for the type and role that were asked for. *)
Lemma gk_returns_stream q (a a' : akms) status key md st kt kr :
  gk_returns q a status key md a' -> find_by_ksid (gkq_key_stream_id q) (a_streams a) = Some st ->
  key_view (gkq_metadata q) = Some (kt, kr) ->
  status = 0 /\ key = abs_key_for st (gkq_index q) kt kr /\
  a_streams a' = abs_take (gkq_key_stream_id q) (a_streams a).
Proof.
  unfold gk_returns, abs_get_key. intros H Hst Hv. rewrite Hst, Hv in H.
  destruct (decide _); [|done]. by destruct H as (-> & -> & _ & ->).
Qed.

(** ** The memory after a call *)

Lemma old_extends m m' : mem_wf m -> (next m <= next m')%nat ->
  (forall b, (b < next m)%nat -> heap m' !! b = heap m !! b) -> extends m m'.
Proof.
  intros Hm Hn Hb. split; [|done]. apply map_subseteq_spec. intros b c H.
  rewrite Hb; [done|]. by eapply mem_wf_live.
Qed.

Lemma after_call_kept req h body bl m : mem_wf m ->
  mem_wf (after_call req h body bl m) /\ extends m (after_call req h body bl m).
Proof.
  intros Hm. split.
  - unfold after_call. apply mem_wf_dealloc, mem_wf_allocs, mem_wf_replied, Hm.
  - destruct (after_call_leaves req h body bl m Hm) as [Hold _].
    apply old_extends; [done| |exact Hold]. unfold after_call. cbn [dealloc next].
    rewrite next_allocs. cbn. lia.
Qed.

Lemma after_open_at req h body bq mime m : mem_wf m -> (bq < next m)%nat -> str_ok mime ->
  str_at (after_open req h body bq mime m) (Ptr (5 + next m) 0) mime /\
  heap (after_open req h body bq mime m) !! bq = None /\
  (forall b, (b < next m)%nat -> b <> bq ->
     heap (after_open req h body bq mime m) !! b = heap m !! b) /\
  mem_wf (after_open req h body bq mime m) /\
  (next m <= next (after_open req h body bq mime m))%nat.
Proof.
  intros Hm Hlt Hok. unfold after_open. split_and!.
  - apply str_at_block; [done|]. cbn [dealloc heap]. rewrite lookup_delete_ne by lia.
    apply lookup_alloc.
  - cbn. rewrite lookup_delete_ne, lookup_insert_ne by lia. apply lookup_delete_eq.
  - intros b' Hb' Hne. cbn [dealloc heap]. rewrite lookup_delete_ne by lia.
    rewrite lookup_alloc_ne by (cbn; lia). cbn [dealloc heap]. rewrite lookup_delete_ne by done.
    rewrite lookup_allocs_lt by (cbn; lia). by apply replied_old.
  - apply mem_wf_dealloc, mem_wf_alloc, mem_wf_dealloc, mem_wf_allocs, mem_wf_replied, Hm.
  - cbn. lia.
Qed.

(** ** The calls on structs *)

Lemma remote_get_key_struct fuel cfg q b m e e' a a' :
  (2 <= fuel)%nat -> mem_wf m -> gk_request_ok q ->
  heap m !! b = Some (Bytes (Some <$> gkq_metadata q)) ->
  Z.of_nat (length (gk_message q)) < 2 ^ 31 ->
  peer_serves cfg e QKD_SERVICE_GET_KEY_REQUEST QKD_SERVICE_GET_KEY_RESPONSE
    (enc gk_request_codec q) a a' e' ->
  exists status key md m', gk_returns q a status key md a' /\ blob_ok key /\
    qkd_get_key_struct (APP := client_app fuel cfg)
        {| gkq_key_stream_id := gkq_key_stream_id q; gkq_index := gkq_index q;
           gkq_metadata := buffer b (gkq_metadata q) |} {| cl_mem := m; cl_env := e |} =
      Ret {| gkr_status := status; gkr_index := gkq_index q;
             gkr_key_buffer := buffer (3 + next m) key;
             gkr_metadata := buffer (4 + next m) md |} {| cl_mem := m'; cl_env := e' |} /\
    mem_wf m' /\ extends m m' /\
    heap m' !! (3 + next m)%nat = Some (Bytes (Some <$> key)) /\
    heap m' !! (4 + next m)%nat = Some (Bytes (Some <$> md)).
Proof.
  intros Hf Hm Hq Hb Hlen Hp.
  destruct (remote_get_key_run fuel cfg q b qkd_bytes_zero 0 m e e' a a' Hf Hm Hq Hb Hlen Hp)
    as (status & key & md & bs & Hspec & Hk & Hrun).
  exists status, key, md. eexists. split; [exact Hspec|]. split; [exact Hk|].
  replace (3 + next m + 1)%nat with (4 + next m)%nat in Hrun by lia.
  split; [unfold qkd_get_key_struct; cbn [app_get_key client_app]; cbn [gkq_key_stream_id gkq_index
    gkq_metadata]; erewrite cbind_ret by exact Hrun; done|].
  destruct (after_call_kept (gk_message q) (header_for QKD_SERVICE_GET_KEY_RESPONSE bs) bs
    [Some key; Some md] m Hm) as [H1 H2].
  split; [exact H1|]. split; [exact H2|]. split.
  - rewrite <- (Nat.add_0_r (3 + next m)). by apply after_call_lookup.
  - replace (4 + next m)%nat with (3 + next m + 1)%nat by lia. by apply after_call_lookup.
Qed.

Lemma remote_open_struct fuel cfg q r m e e' a a' :
  (2 <= fuel)%nat -> mem_wf m -> oc_request_ok q -> oc_request_at m r q ->
  Z.of_nat (length (oc_message q)) < 2 ^ 31 -> Forall stream_ok (a_streams a) ->
  peer_serves cfg e QKD_SERVICE_OPEN_CONNECT_REQUEST QKD_SERVICE_OPEN_CONNECT_RESPONSE
    (enc oc_request_codec q) a a' e' ->
  exists id m',
    spec_open (ocq_source q) (ocq_destination q) (ocq_qos q) (ocq_key_stream_id q) a = (id, a') /\
    uuid_ok id /\
    qkd_open_connect_struct (APP := client_app fuel cfg) r {| cl_mem := m; cl_env := e |} =
      Ret {| ocr_status := status_code qkd_status_code_successful;
             ocr_qos := qos_map (fun _ => Ptr (6 + next m) 0) (ocq_qos q);
             ocr_key_stream_id := id |} {| cl_mem := m'; cl_env := e' |} /\
    mem_wf m' /\ extends m m' /\ str_at m' (Ptr (6 + next m) 0) (metadata_mimetype (ocq_qos q)).
Proof.
  intros Hf Hm Hq (Hs & Hd & [Hqs Hqm] & Hid) Hlen Hsg Hp.
  set (mime := metadata_mimetype (ocq_qos q)) in *.
  assert (short mime) as Hshort.
  { unfold oc_message in Hlen. rewrite length_message, length_enc_oc_request in Hlen by apply Hq.
    fold mime in Hlen. unfold short. lia. }
  set (m1 := alloc (Bytes (Some <$> enc_cstr mime)) m).
  pose proof (qkd_copy_qos_null m qkd_qos_zero (ocq_qos r) (ocq_qos q) Hm eq_refl (conj Hqs Hqm) Hshort)
    as Hcopy.
  assert (mem_wf m1) as Hm1 by by apply mem_wf_alloc.
  assert (extends m m1) as He1 by by apply extends_alloc.
  assert (str_at m1 (Ptr (next m) 0) mime) as Hmime
    by (apply str_at_block; [by eapply str_at_ok|apply lookup_alloc]).
  destruct (remote_open_run fuel cfg q (ocq_source r) (ocq_destination r)
    (qos_map (fun _ => Ptr (next m) 0) (ocq_qos q)) (next m) 0 m1 e e' a a') as
    (id & bs & Hspec & Hok & Hrun); try done; [by eapply str_at_extends..|].
  exists id. eexists. split; [exact Hspec|]. split; [exact Hok|].
  split.
  { unfold qkd_open_connect_struct. erewrite cbind_ret by by apply in_client_mem.
    cbn [app_open_connect client_app]. rewrite Hid. by erewrite cbind_ret by exact Hrun. }
  destruct (after_open_at (oc_message q) (header_for QKD_SERVICE_OPEN_CONNECT_RESPONSE bs) bs (next m)
    mime m1 Hm1) as (H1 & _ & H2 & H3 & H4); [cbn; lia|by eapply str_at_ok|].
  split; [exact H3|]. split; [|exact H1]. apply old_extends; [done|cbn in *; lia|].
  intros b Hb. rewrite H2 by (cbn; lia). unfold m1. by rewrite lookup_alloc_ne by lia.
Qed.

Lemma remote_close_struct fuel cfg id m e e' (a a' : akms) :
  (2 <= fuel)%nat -> mem_wf m -> uuid_ok id ->
  peer_serves cfg e QKD_SERVICE_CLOSE_REQUEST QKD_SERVICE_CLOSE_RESPONSE
    (enc cl_request_codec {| clq_key_stream_id := id |}) a a' e' ->
  a' = a /\ exists m',
    qkd_close_struct (APP := client_app fuel cfg) {| clq_key_stream_id := id |}
        {| cl_mem := m; cl_env := e |} =
      Ret {| clr_status := status_code qkd_status_code_successful |}
        {| cl_mem := m'; cl_env := e' |} /\
    mem_wf m' /\ extends m m'.
Proof.
  intros Hf Hm Hid Hp. destruct (remote_close_run fuel cfg id 0 m e e' a a' Hf Hm Hid Hp)
    as [-> [bs Hrun]].
  split; [done|]. eexists. split; [unfold qkd_close_struct; cbn [app_close client_app
    clq_key_stream_id]; erewrite cbind_ret by exact Hrun; done|].
  by apply after_call_kept.
Qed.

End remote.
