(* ===== verification/Network.v ===== *)
(** The client and the server on the two ends of a connection: the peer that the theorems
    on the client ask for is the program's own server. *)

From S2P Require Import Prelude Models Memory Wire Sizes Platform Printf Serializers SerializersSpec.
From S2P Require Import Copy Kms KmsSpec KmsProofs Interfaces KmsApp Socket Servlet ServletProofs.
From S2P Require Import Setup Run Answers Client Remote.

Definition response_service (sv : qkd_service) : qkd_service :=
  match sv with
  | QKD_SERVICE_OPEN_CONNECT_REQUEST => QKD_SERVICE_OPEN_CONNECT_RESPONSE
  | QKD_SERVICE_GET_KEY_REQUEST => QKD_SERVICE_GET_KEY_RESPONSE
  | QKD_SERVICE_CLOSE_REQUEST => QKD_SERVICE_CLOSE_RESPONSE
  | _ => QKD_SERVICE_ERROR
  end.

Lemma reads_as_message {A} (c : codec A) sv msg v : reads_as c sv msg v ->
  msg = message sv (enc c v).
Proof.
  intros (h & bs & Hh & Hv & Hs & Hp & Hb). apply dec_sound in Hb as [-> _].
  apply dec_sound in Hh as [-> _]. rewrite app_nil_r in *. unfold message, header_for.
  rewrite <- Hv, <- Hs, <- Hp. by destruct h.
Qed.

Lemma response_message sv body msg : response_to (service_code sv) body msg ->
  exists bs, msg = message (response_service sv) bs /\ (0 < length bs)%nat.
Proof.
  intros [(Hsv & q & r & v & _ & H & _)|[(Hsv & q & r & v & _ & H & _)|(Hsv & H)]];
    apply reads_as_message in H as ->; destruct sv; try done; eexists; (split; [done|]);
    cbn; rewrite ?length_app, ?length_be_bytes; lia.
Qed.

(** The client writes [req] on its end [c] of a connection, and the server answers by a write
    that takes its end from [cs] to [cs'].  What it wrote, if it was a message, arrives at the
    client in two reads, of the header and of the payload, which fits the client's stack. *)
Definition answer_arrives {OS : Openssl} {ST : Stack} (c : ssl) (req : list byte) (cs cs' : ssl) :
    Prop :=
  forall sv bs, cs' = (SSL_write cs (message sv bs)).2 ->
    Z.of_nat (length bs) <= stack_limit /\
    exists c1 c2, delivers (SSL_write c req).2 sizeof_header (enc header_codec (header_for sv bs)) c1 /\
      delivers c1 (Z.of_nat (length bs)) bs c2.

(** The same for a connection of TLS, of which no more is known than this: a message of at
    most 2 ^ 14 bytes, which one [SSL_write] sends as one record, is what the two reads of the
    client give.  A larger message comes in several records, and what the client makes of it
    ([socket_recv_parts]) is left open. *)
Definition connected {OS : Openssl} {ST : Stack} (c : ssl) (req : list byte) (cs cs' : ssl) : Prop :=
  forall sv bs, cs' = (SSL_write cs (message sv bs)).2 ->
    Z.of_nat (length (message sv bs)) <= SSL3_RT_MAX_PLAIN_LENGTH ->
    exists c1 c2, delivers (SSL_write c req).2 sizeof_header (enc header_codec (header_for sv bs)) c1 /\
      delivers c1 (Z.of_nat (length bs)) bs c2.

Lemma arrives_connected {OS : Openssl} {ST : Stack} c req cs cs' :
  answer_arrives c req cs cs' -> connected c req cs cs'.
Proof. intros H sv bs Hw _. by destruct (H sv bs Hw). Qed.

Section network.
Context {ML : Malloc} {MT : MallocTotal} {LU : Libuuid} {LO : LibuuidOk} {RD : Rand}
  {OS : Openssl} {TLS : Tls} {ST : Stack}.

(** An answer of the abstract server that the client reads in two reads. *)
Lemma answer_peer cfg e e' c c1 c2 sv body bs (a a' : akms) :
  socket_client_init (host cfg) (port cfg) (cert_pem cfg) (key_pem cfg) (peer_ca_pem cfg)
    (max_proto_version cfg) e = Ret c e' ->
  sizeof_header <= stack_limit -> 0 < Z.of_nat (length bs) < 2 ^ 31 ->
  Z.of_nat (length bs) <= stack_limit ->
  delivers (SSL_write c (message sv body)).2 sizeof_header
    (enc header_codec (header_for (response_service sv) bs)) c1 ->
  delivers c1 (Z.of_nat (length bs)) bs c2 ->
  abs_serve (service_code sv) body a = Reply (message (response_service sv) bs) a' ->
  peer_serves cfg e sv (response_service sv) body a a' e'.
Proof.
  intros Hinit Hs8 Hbs Hst H1 H2 Hs. exists bs. split; [done|]. exists c, c2, c1.
  split; [done|]. split; [done|]. split; [done|].
  split; [|done]. split; [split_and!; decided|]. split; [by destruct sv; decided|].
  unfold u32. cbn. lia.
Qed.

(** One call: the servlet answers the request that the client writes, and when what it has
    written arrives, it is the peer that the client's theorems ask for. *)
Lemma servlet_serves fuel st (s : kms) (a : akms) F cfg e e' c sv body cs cs1 :
  (2 <= fuel)%nat -> app_rep s a F -> answerable (service_code sv) body a ->
  Z.of_nat (length body) < 2 ^ 31 - 32 ->
  socket_client_init (host cfg) (port cfg) (cert_pem cfg) (key_pem cfg) (peer_ca_pem cfg)
    (max_proto_version cfg) e = Ret c e' ->
  requests cs (header_for sv body) body cs1 ->
  exists s' cs2 a' F', qkd_servlet fuel st (Sess s cs) = Ret st (Sess s' cs2) /\
    app_rep s' a' F' /\
    (answer_arrives c (message sv body) cs1 cs2 ->
     peer_serves cfg e sv (response_service sv) body a a' e').
Proof.
  intros Hf Hrep Ha Hlen Hinit Hreq. destruct (akms_rep_ok s a F Hrep) as [Hsg Hmd].
  destruct (abs_serve_answers _ _ _ Ha Hsg Hlen) as (msg & a' & Hs & Hm).
  assert (service (header_for sv body) <> service_code QKD_SERVICE_CLOSE_SERVER) as Hsv
    by (cbn; destruct Ha as [[-> _]|[[-> _]|[-> _]]]; done).
  destruct (servlet_step fuel st s cs a F (header_for sv body) body cs1 msg a')
    as (s1 & F' & Heq & Hrep' & _); try done.
  exists s1, (SSL_write cs1 msg).2, a', F'. split; [done|]. split; [done|]. intros Hc.
  destruct (response_message sv body msg) as (bs & -> & Hpos);
    [eapply abs_serve_response; [exact Hmd|exact Hsg|exact Hs|lia]|].
  destruct (Hc _ _ eq_refl) as (Hfit & c1 & c2 & H1 & H2). rewrite length_message in Hm.
  apply (answer_peer cfg e e' c c1 c2 sv body bs); try done; [apply Hreq|lia].
Qed.

End network.
