(* ===== verification/ClientApi.v ===== *)
(** [src/client_api.c]: the shared library that gives the three calls to other languages,
    with key stream ids as text.

    [openConnect], [getKey] and [close] call the struct forms of [Interfaces.v] on the
    socket client.  Host and file names are passed on and used only by the library calls
    of [Setup.v]; they are the contents of the strings.  Addresses of automatic variables,
    which are never null, are not compared with null. *)

From S2P Require Import Prelude Models Memory Wire Sizes Platform Printf Serializers SerializersSpec.
From S2P Require Import Copy Interfaces Socket Servlet Setup Uuid Client.

(** An automatic variable whose address is taken: a block that lives until its function
    returns. *)
Definition local_bytes (l : list byte) : C mem ptr := fun m =>
  Ret (Ptr (next m) 0) (alloc (Bytes (Some <$> l)) m).

Definition end_local (p : ptr) : C mem unit := fun m =>
  match p with Null => Ret tt m | Ptr b _ => Ret tt (dealloc b m) end.

(** [strdup] of a string literal. *)
Definition strdup {ML : Malloc} (s : list byte) : C mem ptr :=
  let! p := malloc (Z.of_nat (length s) + 1) in
  if decide (p = Null) then cret Null
  else store_bytes p (Some <$> enc_cstr s);;; cret p.

(** The characters of the string at [p], as [uuid_parse] reads them. *)
Definition read_str (p : ptr) : C mem (list byte) :=
  let! n := strlen p in load_init p n.

(** [int] values converted to [uint16_t]. *)
Definition wrap16 (z : Z) : Z := z mod 2 ^ 16.

Definition nil_text : list byte := lit "00000000-0000-0000-0000-000000000000".

(** [qkd_get_key_response_t error_response = {};] *)
Definition qkd_get_key_response_zero : qkd_get_key_response_t :=
  {| gkr_status := 0; gkr_index := 0; gkr_key_buffer := qkd_bytes_zero;
     gkr_metadata := qkd_bytes_zero |}.

Section api.
Context {ML : Malloc} {LU : Libuuid} {UT : UuidText} {OS : Openssl} {TLS : Tls} {ST : Stack}.

(** [fuel] bounds the reads of a message; [application_json] is where the string literal
    ["application/json"] of the program is. *)
Context (fuel : nat) (application_json : ptr).

(** [qkd_client_context_data_t cfg = {host, port, certPem, keyPem, NULL, 0};] *)
Definition api_context (certPem keyPem : path) (host : list byte) (port : Z) :
    qkd_client_context_data_t :=
  {| host := host; port := wrap16 port; cert_pem := certPem; key_pem := keyPem;
     peer_ca_pem := None; max_proto_version := 0 |}.

Definition openConnect (certPem keyPem : path) (host : list byte) (port : Z)
    (myUuid peerUuid ksid : ptr) (keyLength : Z) : C client_state ptr :=
  let cfg := api_context certPem keyPem host port in
  let q := {| key_chunk_size := wrap32 keyLength; max_bps := 32; min_bps := 32; jitter := 0;
              priority := 0; timeout := 0; ttl := 0; metadata_mimetype := application_json |} in
  let! ksid := (if decide (ksid = Null) then in_mem (strdup nil_text) else cret ksid) in
  if decide (ksid = Null) then cret Null else
  let! text := in_mem (read_str ksid) in
  match uuid_parse text with
  | None => in_mem (free ksid);;; cret Null
  | Some key_stream_id =>
      let oc_request := {| ocq_source := myUuid; ocq_destination := peerUuid; ocq_qos := q;
                           ocq_key_stream_id := key_stream_id |} in
      let! oc_response := qkd_open_connect_struct (APP := client_app fuel cfg) oc_request in
      let! result_key_stream_id := in_mem (malloc (UUID_STR_LEN + 1)) in
      in_mem (store_bytes result_key_stream_id
                (Some <$> enc_cstr (uuid_unparse (ocr_key_stream_id oc_response))));;;
      cret result_key_stream_id
  end.

Definition getKey (certPem keyPem : path) (host : list byte) (port keyType index : Z)
    (ksid : ptr) : C client_state qkd_get_key_response_t :=
  let cfg := api_context certPem keyPem host port in
  let! key_info := in_mem (local_bytes [z2b (key_type_code qkd_key_type_symmetric);
                                        z2b (key_role_code qkd_key_type_role_default)]) in
  let! text := in_mem (read_str ksid) in
  let! gk_response :=
    match uuid_parse text with
    | None => cret qkd_get_key_response_zero
    | Some key_stream_id =>
        qkd_get_key_struct (APP := client_app fuel cfg)
          {| gkq_key_stream_id := key_stream_id; gkq_index := wrap32 index;
             gkq_metadata := {| size := 2; data := key_info |} |}
    end in
  in_mem (end_local key_info);;;
  cret gk_response.

(** The result of [uuid_parse] is not looked at: where it fails the id stays nil. *)
Definition close (certPem keyPem : path) (host : list byte) (port : Z) (ksid : ptr) :
    C client_state qkd_close_response_t :=
  let cfg := api_context certPem keyPem host port in
  let! text := in_mem (read_str ksid) in
  let key_stream_id := default uuid_nil (uuid_parse text) in
  qkd_close_struct (APP := client_app fuel cfg) {| clq_key_stream_id := key_stream_id |}.

End api.

(** ** Lemmas *)

Lemma read_str_run m p s : str_at m p s -> read_str p m = Ret s m.
Proof.
  intros Hs. unfold read_str. erewrite cbind_ret by by apply strlen_at.
  unfold load_init. erewrite cbind_ret; [by rewrite mapM_Some_fmap|].
  apply load_bytes_data. destruct Hs as (_ & b & off & l & rest & -> & Hb & Ho & Hd).
  right. exists b, off, l, (Some x00 :: rest). split_and!; try done.
  rewrite Hd, fmap_app, <- app_assoc. done.
Qed.

Lemma strdup_run {ML : Malloc} {MT : MallocTotal} s m : 
  strdup s m = Ret (Ptr (next m) 0) (alloc (Bytes (Some <$> enc_cstr s)) m).
Proof.
  unfold strdup. erewrite cbind_ret by apply malloc_ok. rewrite decide_False by done.
  erewrite cbind_ret; [done|]. apply store_fresh. unfold enc_cstr. rewrite length_app. cbn. lia.
Qed.
