(* ===== verification/ApiProofs.v ===== *)
(** The functions of [ClientApi.v] against a key management server, over the network. *)

From S2P Require Import Prelude Models Memory Wire Sizes Platform Printf Serializers SerializersSpec.
From S2P Require Import Copy Kms KmsSpec KmsProofs Interfaces KmsApp Socket Servlet ServletProofs.
From S2P Require Import Setup Run Uuid Client Remote ClientApi.

(** The request of [openConnect]. *)
Definition api_request (src dst : list byte) (keyLength : Z) (id : uuid_t) :
    open_connect_request (list byte) :=
  {| ocq_source := src; ocq_destination := dst;
     ocq_qos := {| key_chunk_size := wrap32 keyLength; max_bps := 32; min_bps := 32; jitter := 0;
                   priority := 0; timeout := 0; ttl := 0;
                   metadata_mimetype := lit "application/json" |};
     ocq_key_stream_id := id |}.

(** The request of [getKey], whatever key type it is given. *)
Definition api_key_request (id : uuid_t) (index : Z) : get_key_request (list byte) :=
  {| gkq_key_stream_id := id; gkq_index := wrap32 index; gkq_metadata := [x00; x00] |}.

Section api.
Context {ML : Malloc} {MT : MallocTotal} {LU : Libuuid} {LO : LibuuidOk} {RD : Rand}
  {UT : UuidText} {UO : UuidTextOk} {OS : Openssl} {TLS : Tls} {ST : Stack}.

(** The id that a caller's text stands for; a null pointer leaves it to the server. *)
Definition names_ksid (m : mem) (ksid : ptr) (id : uuid_t) : Prop :=
  match ksid with
  | Null => id = uuid_nil
  | _ => exists t, str_at m ksid t /\ uuid_parse t = Some id
  end.

Lemma names_ksid_ok m ksid id : names_ksid m ksid id -> uuid_ok id.
Proof.
  destruct ksid; cbn; [by intros ->|]. intros (t & _ & H). by eapply uuid_parse_ok.
Qed.

Lemma api_request_ok m src dst s0 d0 keyLength id :
  str_at m src s0 -> str_at m dst d0 -> uuid_ok id -> oc_request_ok (api_request s0 d0 keyLength id).
Proof.
  intros Hs Hd Hid. pose proof (wrap32_u32 keyLength) as Hl. unfold u32 in Hl.
  split; [by eapply str_at_ok|]. split; [by eapply str_at_ok|]. split; [|exact Hid].
  split; [exact Hl|]. do 6 (split; [by vm_compute|]). unfold valid, str_codec. decided.
Qed.

Lemma api_qos_at m p keyLength : str_at m p (lit "application/json") ->
  qos_at m (qos_map (fun _ => p) (ocq_qos (api_request [] [] keyLength [])))
    (ocq_qos (api_request [] [] keyLength [])).
Proof. by split. Qed.

(** Writing the text of an id to the new string. *)
Lemma unparse_run id m : uuid_ok id -> mem_wf m ->
  let m' := alloc (Bytes ((Some <$> enc_cstr (uuid_unparse id)) ++ [None])) m in
  (let! p := malloc (UUID_STR_LEN + 1) in
   store_bytes p (Some <$> enc_cstr (uuid_unparse id));;; cret p) m = Ret (Ptr (next m) 0) m' /\
  str_at m' (Ptr (next m) 0) (uuid_unparse id).
Proof.
  intros Hid Hm m'. destruct (uuid_unparse_ok id Hid) as [Hl Hok]. split.
  - erewrite cbind_ret by apply malloc_ok. erewrite cbind_ret; [done|].
    change (Z.to_nat (UUID_STR_LEN + 1)) with (37 + 1)%nat. rewrite replicate_add.
    rewrite (store_bytes_at _ _ [] (replicate 37 None) [None]).
    + by rewrite set_block_alloc.
    + by rewrite lookup_alloc.
    + unfold enc_cstr. rewrite length_replicate, length_fmap, length_app, Hl. done.
  - split; [done|]. eexists _, 0%nat, _, [None]. split; [done|]. split; [apply lookup_alloc|].
    split; [lia|]. done.
Qed.

(** [openConnect]: the text of the id that the server's application gives. *)
Lemma openConnect_run fuel aj certPem keyPem host port src dst s0 d0 ksid id keyLength m e e' a a' :
  (2 <= fuel)%nat -> mem_wf m -> str_at m aj (lit "application/json") ->
  str_at m src s0 -> str_at m dst d0 -> names_ksid m ksid id ->
  let q := api_request s0 d0 keyLength id in
  Z.of_nat (length (oc_message q)) < 2 ^ 31 -> Forall stream_ok (a_streams a) ->
  peer_serves (api_context certPem keyPem host port) e QKD_SERVICE_OPEN_CONNECT_REQUEST
    QKD_SERVICE_OPEN_CONNECT_RESPONSE (enc oc_request_codec q) a a' e' ->
  exists id' p m', spec_open s0 d0 (ocq_qos q) id a = (id', a') /\ uuid_ok id' /\
    openConnect fuel aj certPem keyPem host port src dst ksid keyLength
        {| cl_mem := m; cl_env := e |} = Ret p {| cl_mem := m'; cl_env := e' |} /\
    mem_wf m' /\ extends m m' /\ str_at m' p (uuid_unparse id').
Proof.
  intros Hf Hm Haj Hs Hd Hk q Hlen Hsg Hp. unfold openConnect.
  pose proof (names_ksid_ok _ _ _ Hk) as Hid.
  (* the text of the id, duplicated where it is not given *)
  assert (exists ks m1 t, (if decide (ksid = Null) then in_mem (strdup nil_text) else cret ksid)
      {| cl_mem := m; cl_env := e |} = Ret ks {| cl_mem := m1; cl_env := e |} /\ ks <> Null /\
      str_at m1 ks t /\ uuid_parse t = Some id /\ mem_wf m1 /\ extends m m1)
    as (ks & m1 & t & Hks & Hnn & Ht & Hparse & Hm1 & He1).
  { destruct ksid as [|b off]; cbn [names_ksid] in Hk.
    - subst id. exists (Ptr (next m) 0), (alloc (Bytes (Some <$> enc_cstr nil_text)) m), nil_text.
      rewrite decide_True by done. split; [apply in_client_mem, strdup_run|]. split; [done|].
      split; [apply str_at_block; [decided|apply lookup_alloc]|].
      split; [apply uuid_parse_nil|]. split; [by apply mem_wf_alloc|by apply extends_alloc].
    - destruct Hk as (t & Ht & Hparse). exists (Ptr b off), m, t.
      rewrite decide_False by done. by split_and!. }
  erewrite cbind_ret by exact Hks. rewrite decide_False by done.
  erewrite cbind_ret by by apply in_client_mem, read_str_run. cbv beta. rewrite Hparse.
  set (r := Build_open_connect_request _ _ _ _).
  assert (oc_request_at m1 r q) as Hr.
  { split_and!; [by eapply str_at_extends..|split; [by eapply str_at_extends|done]|done]. }
  destruct (remote_open_struct fuel (api_context certPem keyPem host port) q r m1 e e' a a')
    as (id' & m2 & Hspec & Hid' & Hrun & Hm2 & He2 & _); try done; [by eapply api_request_ok|].
  erewrite cbind_ret by exact Hrun. cbn [ocr_key_stream_id].
  destruct (unparse_run id' m2 Hid' Hm2) as [Hu Hstr].
  exists id', (Ptr (next m2) 0). eexists. split; [exact Hspec|]. split; [done|].
  split; [|split; [|split; [|exact Hstr]]].
  - unfold cbind in Hu |- *. unfold in_mem, zoom. cbn [get_mem client_mem cl_mem].
    destruct (malloc _ m2) as [p m3| | | |]; [|done..]. cbn.
    destruct (store_bytes _ _ m3) as [[] m4| | | |]; [|done..]. by injection Hu as <- <-.
  - by apply mem_wf_alloc.
  - etrans; [exact He1|]. etrans; [exact He2|]. by apply extends_alloc.
Qed.

(** The end of an automatic variable leaves what was there before it. *)
Lemma end_local_extends c m m' : mem_wf m -> extends (alloc c m) m' ->
  extends m (dealloc (next m) m').
Proof.
  intros Hm [Hs Hn]. cbn in Hn. split; [|cbn; lia]. cbn [dealloc heap].
  apply map_subseteq_spec. intros b x Hb. pose proof (mem_wf_live _ _ Hm (mk_is_Some _ _ Hb)).
  rewrite lookup_delete_ne by lia. rewrite map_subseteq_spec in Hs. apply Hs.
  by rewrite lookup_alloc_ne by lia.
Qed.

(** [getKey] makes the call on structs, with the two bytes of the key type and the role in a
    block of their own. *)
Lemma getKey_calls fuel certPem keyPem host port keyType ksid t id index m e :
  mem_wf m -> str_at m ksid t -> uuid_parse t = Some id ->
  let q := api_key_request id index in
  getKey fuel certPem keyPem host port keyType index ksid {| cl_mem := m; cl_env := e |} =
    (let! gk_response := qkd_get_key_struct
       (APP := client_app fuel (api_context certPem keyPem host port))
       {| gkq_key_stream_id := gkq_key_stream_id q; gkq_index := gkq_index q;
          gkq_metadata := buffer (next m) (gkq_metadata q) |} in
     in_mem (end_local (Ptr (next m) 0));;;
     cret gk_response)
    {| cl_mem := alloc (Bytes (Some <$> [x00; x00])) m; cl_env := e |}.
Proof.
  intros Hm Ht Hparse q. unfold getKey.
  erewrite cbind_ret by (apply in_client_mem; reflexivity).
  erewrite cbind_ret.
  2: { apply in_client_mem, read_str_run. eapply str_at_extends; [|exact Ht]. by apply extends_alloc. }
  cbv beta. by rewrite Hparse.
Qed.

Lemma api_key_request_fits id index : uuid_ok id ->
  gk_request_ok (api_key_request id index) /\
  Z.of_nat (length (gk_message (api_key_request id index))) < 2 ^ 31.
Proof.
  intros Hid. split.
  - pose proof (wrap32_u32 index) as Hi. split; [exact Hid|]. split; [exact Hi|done].
  - unfold gk_message. rewrite length_message, length_enc_gk_request by done. cbn. lia.
Qed.

(** [getKey]: what the specification gives for a symmetric key. *)
Lemma getKey_run fuel certPem keyPem host port keyType ksid t id index m e e' a a' :
  (2 <= fuel)%nat -> mem_wf m -> str_at m ksid t -> uuid_parse t = Some id ->
  peer_serves (api_context certPem keyPem host port) e QKD_SERVICE_GET_KEY_REQUEST
    QKD_SERVICE_GET_KEY_RESPONSE (enc gk_request_codec (api_key_request id index)) a a' e' ->
  exists status key md b c m', gk_returns (api_key_request id index) a status key md a' /\
    blob_ok key /\
    getKey fuel certPem keyPem host port keyType index ksid {| cl_mem := m; cl_env := e |} =
      Ret {| gkr_status := status; gkr_index := wrap32 index; gkr_key_buffer := buffer b key;
             gkr_metadata := buffer c md |} {| cl_mem := m'; cl_env := e' |} /\
    mem_wf m' /\ extends m m' /\ heap m' !! b = Some (Bytes (Some <$> key)) /\
    heap m' !! c = Some (Bytes (Some <$> md)).
Proof.
  intros Hf Hm Ht Hparse Hp. pose proof (uuid_parse_ok _ _ Hparse) as Hid.
  set (q := api_key_request id index) in *. set (m1 := alloc (Bytes (Some <$> [x00; x00])) m).
  destruct (api_key_request_fits id index Hid) as [Hq Hlen].
  assert (mem_wf m1) as Hm1 by by apply mem_wf_alloc.
  destruct (remote_get_key_struct fuel (api_context certPem keyPem host port) q (next m) m1 e e' a a'
    Hf Hm1 Hq (lookup_alloc _ _) Hlen Hp)
    as (status & key & md & m2 & Hspec & Hk & Hrun & Hm2 & He2 & Hkey & Hmd).
  exists status, key, md, (3 + next m1)%nat, (4 + next m1)%nat, (dealloc (next m) m2).
  split; [exact Hspec|]. split; [exact Hk|]. split.
  - rewrite (getKey_calls fuel certPem keyPem host port keyType ksid t id index m e) by done.
    by erewrite cbind_ret by exact Hrun.
  - split; [by apply mem_wf_dealloc|]. split; [by eapply end_local_extends|].
    cbn [dealloc heap]. by rewrite !lookup_delete_ne by (cbn; lia).
Qed.

(** [close]: the server answers with success and changes nothing. *)
Lemma close_run fuel certPem keyPem host port ksid t m e e' (a a' : akms) :
  (2 <= fuel)%nat -> mem_wf m -> str_at m ksid t ->
  peer_serves (api_context certPem keyPem host port) e QKD_SERVICE_CLOSE_REQUEST
    QKD_SERVICE_CLOSE_RESPONSE
    (enc cl_request_codec {| clq_key_stream_id := default uuid_nil (uuid_parse t) |}) a a' e' ->
  a' = a /\ exists m',
    close fuel certPem keyPem host port ksid {| cl_mem := m; cl_env := e |} =
      Ret {| clr_status := status_code qkd_status_code_successful |}
        {| cl_mem := m'; cl_env := e' |} /\ mem_wf m' /\ extends m m'.
Proof.
  intros Hf Hm Ht Hp. unfold close.
  assert (uuid_ok (default uuid_nil (uuid_parse t))) as Hid.
  { destruct (uuid_parse t) eqn:E; [by eapply uuid_parse_ok|done]. }
  destruct (remote_close_struct fuel (api_context certPem keyPem host port) _ m e e' a a' Hf Hm Hid Hp)
    as [-> (m' & Hrun & Hkeep)].
  split; [done|]. exists m'. split; [|done].
  by erewrite cbind_ret by by apply in_client_mem, read_str_run.
Qed.

(** What a granted symmetric key is. *)
Lemma gk_returns_key id index (a a' : akms) status key md st :
  gk_returns (api_key_request id index) a status key md a' ->
  find_by_ksid id (a_streams a) = Some st ->
  status = 0 /\ key = abs_key_for st (wrap32 index) x00 x00 /\
  a_streams a' = abs_take id (a_streams a).
Proof.
  intros H Hst. by apply (gk_returns_stream (api_key_request id index) a a' status key md st x00 x00).
Qed.

(** ** Texts that are not ids *)

Lemma openConnect_malformed fuel aj certPem keyPem host port src dst b t keyLength m e :
  mem_wf m -> str_at m (Ptr b 0) t -> uuid_parse t = None ->
  openConnect fuel aj certPem keyPem host port src dst (Ptr b 0) keyLength
    {| cl_mem := m; cl_env := e |} = Ret Null {| cl_mem := dealloc b m; cl_env := e |}.
Proof.
  intros Hm Ht Hparse. unfold openConnect. erewrite cbind_ret by done.
  rewrite decide_False by done.
  erewrite cbind_ret by by apply in_client_mem, read_str_run. cbv beta. rewrite Hparse.
  destruct Ht as (_ & b' & off & l & rest & [= <- <-] & Hb & _).
  by erewrite cbind_ret by (apply in_client_mem, free_ok; by eexists).
Qed.

Lemma getKey_malformed fuel certPem keyPem host port keyType index ksid t m e :
  mem_wf m -> str_at m ksid t -> uuid_parse t = None ->
  exists m', getKey fuel certPem keyPem host port keyType index ksid
      {| cl_mem := m; cl_env := e |} = Ret qkd_get_key_response_zero {| cl_mem := m'; cl_env := e |} /\
    heap m' = heap m.
Proof.
  intros Hm Ht Hparse. unfold getKey. set (m1 := alloc (Bytes (Some <$> [x00; x00])) m).
  exists (dealloc (next m) m1). split.
  - erewrite cbind_ret by (apply in_client_mem; reflexivity). fold m1.
    erewrite cbind_ret.
    2: { apply in_client_mem, read_str_run. eapply str_at_extends; [|exact Ht].
         by apply extends_alloc. }
    cbv beta. rewrite Hparse. by erewrite cbind_ret by done.
  - cbn. rewrite delete_insert_id; [done|]. by apply Hm.
Qed.

End api.
