(* ===== verification/Kept.v ===== *)
(** What a program keeps in a call over the network, whatever its peer sends: a small logic
    of the runs that return, in which the memory before a call is not touched, and the call
    of [getKey] in it. *)

From S2P Require Import Prelude Models Memory Wire Sizes Platform Printf Serializers SerializersSpec.
From S2P Require Import Copy Kms KmsSpec Interfaces Socket Servlet ServletProofs.
From S2P Require Import Setup Uuid Client ClientApi ApiProofs.

(** A memory is a program state. *)
#[export] Instance mem_mem : HasMem mem := {| get_mem m := m; set_mem m _ := m |}.

#[export] Instance mem_mem_ok : HasMemOk mem.
Proof. by split. Qed.

(** Whenever [e] returns, from a memory that has the blocks of [m0], these are as they were,
    and the result is one of [Q]. *)
Definition keeps {S A} {HM : HasMem S} (m0 : mem) (e : C S A) (Q : A -> Prop) : Prop :=
  forall s a s', mem_wf (get_mem s) -> extends m0 (get_mem s) -> e s = Ret a s' ->
    mem_wf (get_mem s') /\ extends m0 (get_mem s') /\ Q a.

(** A pointer to what is not in [m0]. *)
Definition newer (m0 : mem) (p : ptr) : Prop :=
  match p with Null => True | Ptr b _ => (next m0 <= b)%nat end.

Definition anything {A} : A -> Prop := fun _ => True.

Section rules.
Context {S : Type} {HM : HasMem S} (m0 : mem).

Lemma keeps_ret {A} (a : A) (Q : A -> Prop) : Q a -> keeps m0 (cret (S := S) a) Q.
Proof. intros HQ s b s' Hm He [= <- <-]. done. Qed.

Lemma keeps_bind {A B} (e : C S A) (k : A -> C S B) P Q :
  keeps m0 e P -> (forall a, P a -> keeps m0 (k a) Q) -> keeps m0 (cbind e k) Q.
Proof.
  intros He Hk s b s' Hm Hx (a & s1 & H1 & H2)%cbind_inv.
  destruct (He _ _ _ Hm Hx H1) as (Hm1 & Hx1 & Ha). by eapply Hk.
Qed.

Lemma keeps_weaken {A} (e : C S A) (P Q : A -> Prop) :
  keeps m0 e P -> (forall a, P a -> Q a) -> keeps m0 e Q.
Proof. intros He HPQ s a s' Hm Hx H. destruct (He _ _ _ Hm Hx H) as (? & ? & ?). auto. Qed.

(** What does not change the memory. *)
Lemma keeps_same {A} (e : C S A) :
  (forall s a s', e s = Ret a s' -> get_mem s' = get_mem s) -> keeps m0 e anything.
Proof. intros He s a s' Hm Hx H. by rewrite (He _ _ _ H). Qed.

Lemma keeps_never {A} (e : C S A) Q : (forall s, never_returns (e s)) -> keeps m0 e Q.
Proof. intros He s a s' _ _ H. by destruct (He s a s'). Qed.

Context {HMO : HasMemOk S}.

Lemma keeps_in_mem {A} (f : C mem A) Q : keeps m0 f Q -> keeps m0 (in_mem (S := S) f) Q.
Proof.
  intros Hf s a s' Hm Hx H. unfold in_mem, zoom in H.
  destruct (f (get_mem s)) as [b m| | | |] eqn:E; [|done..]. injection H as -> <-.
  rewrite get_set_mem. by apply (Hf _ _ _ Hm Hx).
Qed.

Lemma keeps_bind_mem {A B} (f : C mem A) (k : A -> C S B) P Q :
  keeps m0 f P -> (forall a, P a -> keeps m0 (k a) Q) -> keeps m0 (cbind (in_mem f) k) Q.
Proof. intros Hf. by apply keeps_bind, keeps_in_mem. Qed.

End rules.

(** ** Operations on memory *)

Section memory.
Context {ML : Malloc} (m0 : mem) (Hm0 : mem_wf m0).

Lemma keeps_malloc n : keeps m0 (malloc n) (newer m0).
Proof.
  intros m p m' Hm Hx. unfold malloc. cbn [get_mem mem_mem] in *. destruct (malloc_succeeds _ _); intros [= <- <-].
  - split; [by apply mem_wf_alloc|]. split; [etrans; [exact Hx|by apply extends_alloc]|]. apply Hx.
  - split; [by apply mem_wf_bump|]. split; [etrans; [exact Hx|apply extends_bump]|done].
Qed.

Lemma keeps_load_bytes p n : keeps m0 (load_bytes p n) anything.
Proof.
  apply keeps_same. intros m l m'. unfold load_bytes. repeat case_match; by intros [=].
Qed.

Lemma keeps_load_init p n : keeps m0 (load_init p n) anything.
Proof.
  apply keeps_same. intros m l m' (bs & m1 & H1 & H2)%cbind_inv.
  assert (m1 = m) as -> by (unfold load_bytes in H1; repeat case_match; by simplify_eq).
  destruct (mapM id bs); [by injection H2 as _ <-|done].
Qed.

(** Outside of [m0] it may change. *)
Lemma newer_block b m c : extends m0 m -> (next m0 <= b)%nat -> is_Some (heap m !! b) ->
  mem_wf m -> extends m0 (set_block b c m) /\ extends m0 (dealloc b m).
Proof.
  intros [Hs Hn] Hb Hl Hm. split; (split; [|cbn; done]); apply map_subseteq_spec; intros b' x Hx;
    pose proof (mem_wf_live _ _ Hm0 (mk_is_Some _ _ Hx)); rewrite map_subseteq_spec in Hs; cbn.
  - rewrite lookup_insert_ne by lia. by apply Hs.
  - rewrite lookup_delete_ne by lia. by apply Hs.
Qed.

Lemma keeps_store_bytes p bs : newer m0 p -> keeps m0 (store_bytes p bs) anything.
Proof.
  intros Hp m [] m' Hm Hx H. unfold store_bytes in H. destruct bs as [|x bs]; [by injection H as <-|].
  destruct p as [|b off]; [done|]. destruct (heap m !! b) as [[l|]|] eqn:E; [|done..].
  case_match; [|done]. injection H as <-. cbn [get_mem mem_mem] in *.
  split; [by eapply mem_wf_set_block|]. split; [by apply newer_block|done].
Qed.

Lemma keeps_free p : newer m0 p -> keeps m0 (free p) anything.
Proof.
  intros Hp m [] m' Hm Hx H. unfold free in H. destruct p as [|b [|off]]; [by injection H as <-| |].
  - destruct (heap m !! b) as [c|] eqn:E; [|done]. injection H as <-. cbn [get_mem mem_mem] in *.
    split; [by apply mem_wf_dealloc|]. split; [by apply (newer_block b m c)|done].
  - by destruct (heap m !! b).
Qed.

Lemma keeps_free_if p : newer m0 p -> keeps m0 (free_if p) anything.
Proof. intros Hp. unfold free_if. case_decide; [by apply keeps_free|by apply keeps_ret]. Qed.

Lemma keeps_memcpy dst src n : newer m0 dst -> keeps m0 (memcpy dst src n) anything.
Proof.
  intros Hp. eapply keeps_bind; [apply keeps_load_bytes|]. intros bs _. by apply keeps_store_bytes.
Qed.

(** The readers of a response with a key. *)
Lemma keeps_uint32 p : keeps m0 (qkd_uint32_from_stream p) anything.
Proof. eapply keeps_bind; [apply keeps_load_init|]. intros l _. by apply keeps_ret. Qed.

Lemma keeps_header p : keeps m0 (qkd_header_from_stream p) anything.
Proof. eapply keeps_bind; [apply keeps_load_init|]. intros l _. by apply keeps_ret. Qed.

Lemma keeps_bytes_data p : keeps m0 (qkd_bytes_data_from_stream p) anything.
Proof.
  eapply keeps_bind; [apply keeps_uint32|]. intros [sz stream] _.
  eapply keeps_bind; [apply keeps_malloc|]. intros q Hq.
  eapply keeps_bind; [by apply keeps_memcpy|]. intros [] _. by apply keeps_ret.
Qed.

Lemma keeps_get_key_response p : keeps m0 (qkd_get_key_response_from_stream p) anything.
Proof.
  do 2 (eapply keeps_bind; [apply keeps_uint32|]; intros [? ?] _).
  do 2 (eapply keeps_bind; [apply keeps_bytes_data|]; intros [? ?] _). by apply keeps_ret.
Qed.

End memory.

(** ** Transfers *)

Section transfers.
Context {ML : Malloc} {LU : Libuuid} {OS : Openssl} {ST : Stack}.
Context {App : Type} {HM : HasMem App} {HMO : HasMemOk App} (m0 : mem) (Hm0 : mem_wf m0).

Lemma keeps_send d : keeps m0 (socket_ssl_send (App := App) d) anything.
Proof.
  unfold socket_ssl_send. case_match; [by apply keeps_ret|].
  eapply keeps_bind_mem; [exact _|apply keeps_load_init|]. intros bs _.
  eapply keeps_bind; [|intros len _; by apply keeps_ret].
  apply keeps_same. unfold do_write. intros s a s' Hw. by simplify_eq/=.
Qed.

Lemma keeps_recv_loop fuel n buf len : keeps m0 (recv_loop (App := App) fuel n buf len) anything.
Proof.
  revert buf len. induction fuel as [|fuel IH]; intros buf len; cbn [recv_loop]; [by apply keeps_never|].
  case_match; [|by apply keeps_ret].
  apply (keeps_bind _ _ _ anything);
    [apply keeps_same; unfold do_read; intros s a s' Hw; by simplify_eq/=|].
  intros [ret bs] _. cbv zeta. case_match; [by apply keeps_never|].
  case_match; [by apply keeps_ret|apply IH].
Qed.

Lemma keeps_recv fuel n :
  keeps m0 (socket_ssl_recv (App := App) fuel n) (fun d => newer m0 (data d)).
Proof.
  unfold socket_ssl_recv. cbv zeta. destruct (stack_limit <? _); [by apply keeps_never|].
  eapply keeps_bind; [apply keeps_recv_loop|]. intros [buf len] _.
  eapply keeps_bind_mem; [exact _|apply keeps_malloc|]. intros p Hp.
  apply (keeps_bind _ _ _ anything); [|intros [] _; by apply keeps_ret].
  case_match; [|by apply keeps_never]. apply keeps_in_mem; [exact _|by apply keeps_store_bytes].
Qed.

Lemma keeps_on_connection {A} (f : C (sess App) A) Q c :
  keeps m0 f Q -> keeps m0 (on_connection f c) (fun r => Q r.1).
Proof.
  intros Hf s [a c'] s' Hm Hx H. unfold on_connection in H.
  destruct (f (Sess s c)) as [b w| | | |] eqn:E; [|done..]. injection H as -> _ <-.
  exact (Hf (Sess s c) a w Hm Hx E).
Qed.

End transfers.

(** ** Calls of the client *)

Section client.
Context {ML : Malloc} {MT : MallocTotal} {LU : Libuuid} {LO : LibuuidOk} {UT : UuidText}
  {UO : UuidTextOk} {OS : Openssl} {TLS : Tls} {ST : Stack}.

Lemma keeps_perform_packed fuel cfg n p m0 : mem_wf m0 -> newer m0 p ->
  keeps m0 (perform_packed fuel cfg n p) (fun d => newer m0 (data d)).
Proof.
  intros Hm0 Hp. unfold perform_packed.
  apply (keeps_bind _ _ _ (fun d => newer m0 (data d))).
  - unfold client_perform_request. apply (keeps_bind _ _ _ anything).
    + apply keeps_same. intros s c s' H. unfold in_env, zoom in H.
      destruct (socket_client_init _ _ _ _ _ _ (cl_env s)); [by injection H as _ <-|done..].
    + intros c _. apply (keeps_bind _ _ _ (fun r => newer m0 (data r.1))); [|intros [r c'] Hr; by apply keeps_ret].
      apply (keeps_on_connection m0 _ (fun d => newer m0 (data d))).
      eapply keeps_bind; [by apply keeps_send|]. intros [] _.
      eapply keeps_bind; [by apply keeps_recv|]. intros d _.
      eapply keeps_bind_mem; [exact _|apply keeps_header|]. intros [h stream] _.
      by apply keeps_recv.
  - intros d Hd. eapply keeps_bind_mem; [exact _|by apply keeps_free_if|].
    intros [] _. by apply keeps_ret.
Qed.

(** A call of [getKey] that returns has left the memory of the program as it was. *)
Lemma getKey_keeps fuel certPem keyPem host port keyType ksid t id index m e r s :
  mem_wf m -> str_at m ksid t -> uuid_parse t = Some id ->
  getKey fuel certPem keyPem host port keyType index ksid {| cl_mem := m; cl_env := e |} = Ret r s ->
  mem_wf (cl_mem s) /\ extends m (cl_mem s).
Proof.
  intros Hm Ht Hparse Hrun. pose proof (uuid_parse_ok _ _ Hparse) as Hid.
  destruct (api_key_request_fits id index Hid) as [_ Hlen].
  rewrite (getKey_calls fuel certPem keyPem host port keyType ksid t id index m e) in Hrun by done.
  set (m1 := alloc (Bytes (Some <$> [x00; x00])) m) in *.
  assert (mem_wf m1) as Hm1 by by apply mem_wf_alloc.
  apply cbind_inv in Hrun as (r1 & s1 & H1 & H2). unfold qkd_get_key_struct in H1.
  apply cbind_inv in H1 as ([[[i k] md] st] & s2 & H1 & [= _ ->]).
  cbn [app_get_key client_app gkq_key_stream_id gkq_index gkq_metadata] in H1.
  pose proof (client_get_key_packs fuel (api_context certPem keyPem host port)
    (api_key_request id index) (next m) qkd_bytes_zero 0 m1 e Hm1 Hid (lookup_alloc _ _) Hlen) as Hpack.
  pose proof (eq_trans (eq_sym Hpack) H1) as H.
  match type of H with ?call _ = _ => assert (keeps m1 call anything) as Hkeep end.
  { eapply keeps_bind; [apply keeps_perform_packed; [done|cbn; lia]|]. intros d Hd.
    eapply keeps_bind_mem; [exact _|by apply keeps_get_key_response|]. intros [resp stream] _.
    eapply keeps_bind_mem; [exact _|by apply keeps_free_if|]. intros [] _. by apply keeps_ret. }
  pose proof (fun Hw Hx => Hkeep _ _ _ Hw Hx H) as Hout.
  destruct Hout as (Hm2 & He2 & _); [by apply mem_wf_alloc|by apply extends_alloc|].
  apply cbind_inv in H2 as ([] & s3 & H2 & [= _ ->]).
  cbn in H2. injection H2 as <-. cbn [cl_mem].
  split; [by apply mem_wf_dealloc|by eapply end_local_extends].
Qed.

End client.
