(* ===== verification/World.v ===== *)
(** The whole system: the key management server, the programs that use the client library,
    and any other clients of the server, as a step relation.  The programs are those of
    [ClientApi.v] and the server is the servlet of [Servlet.v] over [Kms.v]; a step is one
    connection, which the server serves before it accepts the next, or the work of a program
    on memory of its own, such as writing down an id that another has told it. *)

From S2P Require Import Prelude Models Memory Wire Sizes Platform Printf Serializers SerializersSpec.
From S2P Require Import Copy Kms KmsSpec KmsProofs Interfaces KmsApp Socket Servlet ServletProofs.
From S2P Require Import Setup Run Answers Uuid Client Remote Network ClientApi ApiProofs Kept.

Section world.
Context {ML : Malloc} {MT : MallocTotal} {LU : Libuuid} {LO : LibuuidOk} {RD : Rand}
  {UT : UuidText} {UO : UuidTextOk} {OS : Openssl} {TLS : Tls} {ST : Stack}.

(** ** Programs *)

(** A program that uses the library: its certificate and key, the server it calls, and
    where its strings are in its memory. *)
Record party := {
  pa_cert : path;
  pa_key : path;
  pa_host : list byte;
  pa_port : Z;
  pa_source : ptr;
  pa_destination : ptr;
  pa_json : ptr;
  pa_state : client_state;
}.

Definition party_context (p : party) : qkd_client_context_data_t :=
  api_context (pa_cert p) (pa_key p) (pa_host p) (pa_port p).

(** It has the names of the two applications. *)
Definition party_ready (p : party) (s0 d0 : list byte) : Prop :=
  mem_wf (cl_mem (pa_state p)) /\ str_at (cl_mem (pa_state p)) (pa_json p) (lit "application/json") /\
  str_at (cl_mem (pa_state p)) (pa_source p) s0 /\
  str_at (cl_mem (pa_state p)) (pa_destination p) d0.

(** It opens its stream with the text of an id, or with a null pointer for none. *)
Definition party_open_as (fuel : nat) (p : party) (ksid : ptr) (keyLength : Z) :
    outcome client_state ptr :=
  openConnect fuel (pa_json p) (pa_cert p) (pa_key p) (pa_host p) (pa_port p) (pa_source p)
    (pa_destination p) ksid keyLength (pa_state p).

Definition party_open (fuel : nat) (p : party) (keyLength : Z) : outcome client_state ptr :=
  party_open_as fuel p Null keyLength.

Definition party_key (fuel : nat) (p : party) (keyType index : Z) (ksid : ptr) (s : client_state) :
    outcome client_state qkd_get_key_response_t :=
  getKey fuel (pa_cert p) (pa_key p) (pa_host p) (pa_port p) keyType index ksid s.

Definition party_close (fuel : nat) (p : party) (ksid : ptr) :
    outcome client_state qkd_close_response_t :=
  ClientApi.close fuel (pa_cert p) (pa_key p) (pa_host p) (pa_port p) ksid (pa_state p).

(** A party later in its program. *)
Definition party_at (p : party) (s : client_state) : party :=
  {| pa_cert := pa_cert p; pa_key := pa_key p; pa_host := pa_host p; pa_port := pa_port p;
     pa_source := pa_source p; pa_destination := pa_destination p; pa_json := pa_json p;
     pa_state := s |}.

(** What a program has got: the text of the id of its stream, and the responses to its calls
    of [getKey], each as the index, the status and the contents of the key's buffer. *)
Record agent := {
  ag_party : party;
  ag_source : list byte;
  ag_destination : list byte;
  ag_ksid : option ptr;
  ag_keys : list (Z * Z * list mbyte);
}.

(** A program after a call that left it in the state [s]: with the text [ksid], and with one
    more response. *)
Definition agent_with (ag : agent) (ksid : option ptr) (keys : list (Z * Z * list mbyte))
    (s : client_state) : agent :=
  {| ag_party := party_at (ag_party ag) s; ag_source := ag_source ag;
     ag_destination := ag_destination ag; ag_ksid := ksid; ag_keys := keys |}.

Definition opened (ag : agent) (ksid : ptr) (s : client_state) : agent :=
  agent_with ag (Some ksid) (ag_keys ag) s.

Definition given_key (ag : agent) (index : Z) (r : qkd_get_key_response_t) (key : list mbyte)
    (s : client_state) : agent :=
  agent_with ag (ag_ksid ag) ((wrap32 index, gkr_status r, key) :: ag_keys ag) s.

(** The same program later, with what it had got. *)
Definition later (ag : agent) (s : client_state) : agent :=
  agent_with ag (ag_ksid ag) (ag_keys ag) s.

Record world := { w_server : kms; w_agents : list agent }.

(** ** Steps *)

(** A program asks [sv] with the payload [body] on its next connection, of which the other
    end is the server's connection of [cl]: the servlet receives the request and returns, and
    what it has written comes to the client as [link] says. *)
Definition call_served_by (link : ssl -> list byte -> ssl -> ssl -> Prop) (fuel : nat) (cl : client)
    (cfg : qkd_client_context_data_t) (e e' : env) (srv srv' : kms) (sv : qkd_service)
    (body : list byte) : Prop :=
  cl_accept cl <> -1 /\
  exists c cs1 cs2 status,
    socket_client_init (host cfg) (port cfg) (cert_pem cfg) (key_pem cfg) (peer_ca_pem cfg)
      (max_proto_version cfg) e = Ret c e' /\
    requests (cl_ssl cl) (header_for sv body) body cs1 /\
    qkd_servlet fuel SERVER_LISTENING (Sess srv (cl_ssl cl)) = Ret status (Sess srv' cs2) /\
    link c (message sv body) cs1 cs2.

(** The call with an answer that arrives, of whatever size. *)
Definition call_served (fuel : nat) (cfg : qkd_client_context_data_t) (e e' : env)
    (srv srv' : kms) (sv : qkd_service) (body : list byte) : Prop :=
  exists cl, call_served_by answer_arrives fuel cl cfg e e' srv srv' sv body.

(** A quarter of what a payload can hold: a bound on messages and keys, under which every
    response is sent. *)
Definition modest : Z := 2 ^ 30.

(** A request within the bound. *)
Definition modest_request (sv : Z) (body : list byte) : Prop :=
  Z.of_nat (length body) < modest /\
  (sv = service_code QKD_SERVICE_OPEN_CONNECT_REQUEST -> forall q rest,
     dec oc_request_codec body = Some (q, rest) -> key_chunk_size (ocq_qos q) < modest).

Definition open_request_body (s d : list byte) (keyLength : Z) (id : uuid_t) : list byte :=
  enc oc_request_codec (api_request s d keyLength id).

Definition key_request_body (id : uuid_t) (index : Z) : list byte :=
  enc gk_request_codec (api_key_request id index).

Definition close_request_body (id : uuid_t) : list byte :=
  enc cl_request_codec {| clq_key_stream_id := id |}.

(** The ids that a program opens its stream with: none, or one that it has been told by a
    program with the same two applications. *)
Definition told (ags : list agent) (ag : agent) (id : uuid_t) : Prop :=
  id = uuid_nil \/
  exists j ag' p t, ags !! j = Some ag' /\ ag_source ag' = ag_source ag /\
    ag_destination ag' = ag_destination ag /\ ag_ksid ag' = Some p /\
    str_at (cl_mem (pa_state (ag_party ag'))) p t /\ uuid_parse t = Some id.

(** A step of the system: a program opens its stream, asks for a key or closes the stream
    by a call of the library that returns, or works on new memory of its own; or some other
    client fails in the handshake, or has a request served, whatever it is.  (This is also
    what a call of the library that does not return is for the server.)  A response of more
    than one record reaches the program in several reads, and whatever [getKey] then returns
    is what it has got.  The list is that of the server's connections in the step, one or
    none. *)
Inductive world_serves (fuel : nat) : list client -> world -> world -> Prop :=
  | step_open cl srv srv' ags i ag ksid0 id keyLength ksid s :
      ags !! i = Some ag -> told ags ag id ->
      names_ksid (cl_mem (pa_state (ag_party ag))) ksid0 id ->
      Z.of_nat (length (open_request_body (ag_source ag) (ag_destination ag) keyLength id)) < modest ->
      call_served_by connected fuel cl (party_context (ag_party ag)) (cl_env (pa_state (ag_party ag))) (cl_env s)
        srv srv' QKD_SERVICE_OPEN_CONNECT_REQUEST
        (open_request_body (ag_source ag) (ag_destination ag) keyLength id) ->
      party_open_as fuel (ag_party ag) ksid0 keyLength = Ret ksid s ->
      world_serves fuel [cl] {| w_server := srv; w_agents := ags |}
        {| w_server := srv'; w_agents := <[i := opened ag ksid s]> ags |}
  | step_key cl srv srv' ags i ag ksid t id keyType index r key s :
      ags !! i = Some ag -> ag_ksid ag = Some ksid ->
      str_at (cl_mem (pa_state (ag_party ag))) ksid t -> uuid_parse t = Some id ->
      call_served_by connected fuel cl (party_context (ag_party ag)) (cl_env (pa_state (ag_party ag))) (cl_env s)
        srv srv' QKD_SERVICE_GET_KEY_REQUEST (key_request_body id index) ->
      party_key fuel (ag_party ag) keyType index ksid (pa_state (ag_party ag)) = Ret r s ->
      load_bytes (data (gkr_key_buffer r)) (size (gkr_key_buffer r)) (cl_mem s) = Ret key (cl_mem s) ->
      world_serves fuel [cl] {| w_server := srv; w_agents := ags |}
        {| w_server := srv'; w_agents := <[i := given_key ag index r key s]> ags |}
  | step_close cl srv srv' ags i ag ksid t id r s :
      ags !! i = Some ag -> ag_ksid ag = Some ksid ->
      str_at (cl_mem (pa_state (ag_party ag))) ksid t -> uuid_parse t = Some id ->
      call_served_by connected fuel cl (party_context (ag_party ag)) (cl_env (pa_state (ag_party ag))) (cl_env s)
        srv srv' QKD_SERVICE_CLOSE_REQUEST (close_request_body id) ->
      party_close fuel (ag_party ag) ksid = Ret r s ->
      world_serves fuel [cl] {| w_server := srv; w_agents := ags |}
        {| w_server := srv'; w_agents := <[i := later ag s]> ags |}
  | step_local srv ags i ag s :
      ags !! i = Some ag -> mem_wf (cl_mem s) ->
      extends (cl_mem (pa_state (ag_party ag))) (cl_mem s) ->
      world_serves fuel [] {| w_server := srv; w_agents := ags |}
        {| w_server := srv; w_agents := <[i := later ag s]> ags |}
  | step_refused cl w : cl_accept cl = -1 -> world_serves fuel [cl] w w
  | step_other cl srv srv' ags h body cs1 cs2 status :
      cl_accept cl <> -1 -> requests (cl_ssl cl) h body cs1 ->
      service h <> service_code QKD_SERVICE_CLOSE_SERVER ->
      qkd_servlet fuel SERVER_LISTENING (Sess srv (cl_ssl cl)) = Ret status (Sess srv' cs2) ->
      world_serves fuel [cl] {| w_server := srv; w_agents := ags |}
        {| w_server := srv'; w_agents := ags |}.

Definition world_step (fuel : nat) (w w' : world) : Prop := exists cls, world_serves fuel cls w w'.

(** A run of the system, with the server's connections in their order. *)
Inductive world_run (fuel : nat) : list client -> world -> world -> Prop :=
  | run_nil w : world_run fuel [] w w
  | run_step cls cls' w w1 w' :
      world_serves fuel cls w w1 -> world_run fuel cls' w1 w' -> world_run fuel (cls ++ cls') w w'.

Lemma world_runs fuel w w' : rtc (world_step fuel) w w' <-> exists cls, world_run fuel cls w w'.
Proof.
  split.
  - induction 1 as [w|w w1 w' [cls Hstep] _ [cls' Hrun]]; [by exists []; constructor|].
    exists (cls ++ cls'). by econstructor.
  - intros [cls Hrun]. induction Hrun as [w|cls cls' w w1 w' Hstep _ IH]; [done|].
    eapply rtc_l; [by exists cls|done].
Qed.

(** A program that has done nothing yet. *)
Definition agent_initial (ag : agent) : Prop :=
  party_ready (ag_party ag) (ag_source ag) (ag_destination ag) /\ ag_ksid ag = None /\ ag_keys ag = [].

(** The server has just started and the programs have done nothing yet. *)
Definition world_initial (w : world) : Prop :=
  (exists (a : akms) F, app_rep (w_server w) a F /\ a_streams a = []) /\
  Forall agent_initial (w_agents w).

(** The network between a program and the server: the program gets a connection, its request
    arrives, and what the servlet writes in answer arrives as TLS has it. *)
Definition network_delivers (fuel : nat) (cfg : qkd_client_context_data_t) (e e' : env)
    (srv : kms) (sv : qkd_service) (body : list byte) : Prop :=
  exists c cs cs1,
    socket_client_init (host cfg) (port cfg) (cert_pem cfg) (key_pem cfg) (peer_ca_pem cfg)
      (max_proto_version cfg) e = Ret c e' /\
    requests cs (header_for sv body) body cs1 /\
    forall status srv' cs2,
      qkd_servlet fuel SERVER_LISTENING (Sess srv cs) = Ret status (Sess srv' cs2) ->
      connected c (message sv body) cs1 cs2.

(** ** What the server keeps *)

Definition modest_streams (a : akms) : Prop :=
  Forall (fun st => key_chunk_size (st_qos st) < modest) (a_streams a).

Lemma akms_rep_metadata (srv : kms) (a : akms) F : app_rep srv a F ->
  Z.of_nat (length (a_metadata a)) <= 1000.
Proof.
  intros (ls & _ & _ & Hc & _ & <-). pose proof (length_device_info _ Hc).
  unfold device_metadata. rewrite length_app. cbn [length]. lia.
Qed.

(** The response to a request within the bound fits a message. *)
Lemma modest_fits sv body (srv : kms) (a : akms) F : app_rep srv a F -> modest_streams a ->
  modest_request sv body -> reply_fits (abs_serve sv body a).
Proof.
  intros Hrep Hsg [Hlen _]. destruct (akms_rep_ok srv a F Hrep) as [Hok _].
  pose proof (akms_rep_metadata srv a F Hrep) as Hmd. unfold modest in Hlen.
  unfold abs_serve, abs_open_connect, abs_serve_get_key, abs_close, gk_reply.
  case_match; [|case_match; [|case_match; [|done]]].
  - destruct (dec oc_request_codec body) as [[q r]|] eqn:Hd; [|done].
    pose proof (dec_length _ _ _ _ Hd) as Hl. apply dec_sound in Hd as (_ & _ & _ & _ & Hid).
    cbn [spec_open akms_spec]. pose proof (abs_open_id_ok (ocq_source q) (ocq_destination q)
      (ocq_qos q) (ocq_key_stream_id q) (a_uuid a) _ Hok Hid) as Hid'.
    destruct (abs_open _ _ _ _ _ _) as [[id g] sg]. case_decide; [|done]. unfold reply_fits.
    rewrite length_message, length_enc_oc_response by done. unfold MIMETYPE_MAX in *. cbn. lia.
  - destruct (dec gk_request_codec body) as [[q r]|] eqn:Hd; [|done].
    pose proof (dec_length _ _ _ _ Hd) as Hl. apply dec_sound in Hd as (_ & Hid & _).
    cbn [spec_get_key akms_spec]. unfold abs_get_key. rewrite length_enc_gk_request in Hl by done.
    destruct (find_by_ksid _ _) as [st|] eqn:Ef.
    + destruct (key_view _) as [[kt kr]|]; [|done]. case_decide; [|done]. unfold reply_fits.
      apply find_by_ksid_Some in Ef as [Hin _]. unfold modest_streams in Hsg.
      rewrite Forall_forall in Hsg. pose proof (Hsg _ Hin) as Hsz. cbn beta in Hsz. unfold modest in Hsz.
      rewrite length_message, length_enc_gk_response. cbn. rewrite length_abs_key_for. lia.
    + unfold reply_fits. rewrite length_message, length_enc_gk_response. cbn. lia.
  - destruct (dec cl_request_codec body) as [[q r]|]; [|done]. by vm_compute.
Qed.

Lemma take_modest id sg : Forall (fun st => key_chunk_size (st_qos st) < modest) sg ->
  Forall (fun st => key_chunk_size (st_qos st) < modest) (abs_take id sg).
Proof.
  induction 1 as [|st sg Hst Hsg IH]; [constructor|]. cbn. case_decide; by constructor.
Qed.

Lemma abs_serve_modest sv body (a : akms) msg a' : modest_request sv body -> modest_streams a ->
  abs_serve sv body a = Reply msg a' -> modest_streams a'.
Proof.
  intros [_ Hreq] Hsg. unfold abs_serve, abs_open_connect, abs_serve_get_key, abs_close, gk_reply.
  case_match eqn:E; [|case_match; [|case_match; [|done]]].
  - apply Z.eqb_eq in E. destruct (dec oc_request_codec body) as [[q r]|] eqn:Hd; [|done].
    specialize (Hreq E q r eq_refl). cbn [spec_open akms_spec].
    destruct (abs_open _ _ _ _ _ _) as [[id g] sg] eqn:Eo. case_decide; [|done].
    intros [= _ <-]. unfold modest_streams in *. cbn [a_streams]. unfold abs_open in Eo.
    case_decide; [|by injection Eo as <- <- <-].
    destruct (find_by_pair _ _ _); [by injection Eo as <- <- <-|].
    destruct (uuid_generate_random _) as [new g']. injection Eo as <- <- <-.
    apply Forall_app. split; [done|]. by repeat constructor.
  - destruct (dec gk_request_codec body) as [[q r]|]; [|done].
    cbn [spec_get_key akms_spec]. unfold abs_get_key.
    destruct (find_by_ksid _ _); [|by intros [= _ <-]].
    destruct (key_view _) as [[kt kr]|]; [|done]. case_decide; [|done].
    intros [= _ <-]. by apply take_modest.
  - destruct (dec cl_request_codec body) as [[q r]|]; [|done]. by intros [= _ <-].
Qed.

(** The responses of the services, but for those with a key, are short, and so are those
    with a key of a stream with short keys. *)
Definition record_fits (a : akms) (st : stream) : Prop :=
  24 + key_chunk_size (st_qos st) + Z.of_nat (length (a_metadata a)) <= SSL3_RT_MAX_PLAIN_LENGTH.

Lemma reply_short sv body (a : akms) msg a' : Forall stream_ok (a_streams a) ->
  service_code sv = service_code QKD_SERVICE_OPEN_CONNECT_REQUEST \/
  service_code sv = service_code QKD_SERVICE_CLOSE_REQUEST ->
  abs_serve (service_code sv) body a = Reply msg a' ->
  Z.of_nat (length msg) <= SSL3_RT_MAX_PLAIN_LENGTH.
Proof.
  intros Hok [->| ->]; unfold SSL3_RT_MAX_PLAIN_LENGTH.
  - change (abs_serve _ body a) with (abs_open_connect body a). unfold abs_open_connect.
    destruct (dec oc_request_codec body) as [[q r]|] eqn:Hd; [|done].
    apply dec_sound in Hd as (_ & _ & _ & _ & Hid).
    cbn [spec_open akms_spec]. pose proof (abs_open_id_ok (ocq_source q) (ocq_destination q)
      (ocq_qos q) (ocq_key_stream_id q) (a_uuid a) _ Hok Hid) as Hid'.
    destruct (abs_open _ _ _ _ _ _) as [[id g] sg]. case_decide; [|done]. intros ->%reply_inj.
    rewrite length_message, length_enc_oc_response by done. unfold MIMETYPE_MAX in *. cbn. lia.
  - change (abs_serve _ body a) with (abs_close body a). unfold abs_close.
    destruct (dec cl_request_codec body) as [[q r]|]; [|done]. by intros ->%reply_inj.
Qed.

Lemma key_reply_short id index (a : akms) msg a' st : Forall stream_ok (a_streams a) ->
  uuid_ok id -> find_by_ksid id (a_streams a) = Some st -> record_fits a st ->
  abs_serve (service_code QKD_SERVICE_GET_KEY_REQUEST) (key_request_body id index) a = Reply msg a' ->
  Z.of_nat (length msg) <= SSL3_RT_MAX_PLAIN_LENGTH.
Proof.
  intros Hok Hid Hst Hfit. destruct (api_key_request_fits id index Hid) as [Hq _].
  change (abs_serve _ ?b a) with (abs_serve_get_key b a). unfold abs_serve_get_key, key_request_body.
  pose proof (dec_enc gk_request_codec _ [] Hq) as Hdec. rewrite app_nil_r in Hdec. rewrite Hdec.
  cbn [spec_get_key akms_spec]. unfold abs_get_key. cbn [gkq_key_stream_id api_key_request].
  rewrite Hst. cbn [key_view gkq_metadata]. case_decide; [|done]. intros ->%reply_inj.
  apply find_by_ksid_Some in Hst as [Hin _]. rewrite Forall_forall in Hok.
  pose proof (stream_ok_size _ (Hok _ Hin)) as Hu. unfold u32 in Hu. unfold record_fits in Hfit.
  rewrite length_message, length_enc_gk_response. cbn. rewrite length_abs_key_for. lia.
Qed.

(** What a request that is answered does to the server. *)
Definition state_step (a a' : akms) : Prop :=
  streams_step (a_streams a) (a_streams a') /\ a_metadata a' = a_metadata a.

Lemma abs_serve_state sv body (a : akms) msg a' : abs_serve sv body a = Reply msg a' ->
  state_step a a'.
Proof.
  intros H. split; [by eapply abs_serve_step|]. revert H.
  unfold abs_serve, abs_open_connect, abs_serve_get_key, abs_close, gk_reply.
  case_match; [|case_match; [|case_match; [|done]]].
  - destruct (dec oc_request_codec body) as [[q r]|]; [|done]. cbn [spec_open akms_spec].
    destruct (abs_open _ _ _ _ _ _) as [[id g] sg]. case_decide; [|done]. by intros [= _ <-].
  - destruct (dec gk_request_codec body) as [[q r]|]; [|done]. cbn [spec_get_key akms_spec].
    unfold abs_get_key. destruct (find_by_ksid _ _); [|by intros [= _ <-]].
    destruct (key_view _) as [[kt kr]|]; [|done]. case_decide; [|done]. by intros [= _ <-].
  - destruct (dec cl_request_codec body) as [[q r]|]; [|done]. by intros [= _ <-].
Qed.

(** The server's end of a call of the library: the abstract server's response is sent. *)
Lemma call_server link fuel cl cfg e e' (srv srv' : kms) sv body (a : akms) F :
  (2 <= fuel)%nat -> app_rep srv a F -> known_service (service_code sv) ->
  call_served_by link fuel cl cfg e e' srv srv' sv body ->
  exists c cs1 bs a' F',
    let msg := message (response_service sv) bs in
    socket_client_init (host cfg) (port cfg) (cert_pem cfg) (key_pem cfg) (peer_ca_pem cfg)
      (max_proto_version cfg) e = Ret c e' /\
    sizeof_header <= stack_limit /\ link c (message sv body) cs1 (transmit cs1 msg) /\
    abs_serve (service_code sv) body a = Reply msg a' /\ 0 < Z.of_nat (length bs) /\
    app_rep srv' a' F' /\ state_step a a'.
Proof.
  intros Hf Hrep Hk (_ & c & cs1 & cs2 & status & Hinit & Hreq & Hrun & Hc).
  assert (service (header_for sv body) <> service_code QKD_SERVICE_CLOSE_SERVER) as Hsv
    by (cbn; by destruct Hk as [->|[->| ->]]).
  destruct (servlet_sent fuel SERVER_LISTENING srv (cl_ssl cl) a F (header_for sv body) body cs1 status
    (Sess srv' cs2) Hf Hrep Hreq Hsv Hrun) as (-> & msg & a' & F' & Hs & Hm & Hpos & Hcs & Hrep').
  cbn [s_ssl s_app service header_for] in *. subst cs2.
  destruct (akms_rep_ok srv a F Hrep) as [Hok Hmd].
  destruct (response_message sv body msg) as (bs & -> & Hbs);
    [eapply abs_serve_response; [exact Hmd|exact Hok|exact Hs|lia]|].
  exists c, cs1, bs, a', F'. split_and!; [done|apply Hreq|done|done|lia|done|by eapply abs_serve_state].
Qed.

(** A response of one record is what the client's theorems ask for. *)
Lemma call_peer fuel cl cfg e e' (srv srv' : kms) sv body (a : akms) F :
  (2 <= fuel)%nat -> SSL3_RT_MAX_PLAIN_LENGTH <= stack_limit -> app_rep srv a F ->
  known_service (service_code sv) ->
  call_served_by connected fuel cl cfg e e' srv srv' sv body ->
  exists msg a' F', abs_serve (service_code sv) body a = Reply msg a' /\ app_rep srv' a' F' /\
    state_step a a' /\
    (Z.of_nat (length msg) <= SSL3_RT_MAX_PLAIN_LENGTH ->
     peer_serves cfg e sv (response_service sv) body a a' e').
Proof.
  intros Hf Hstack Hrep Hk Hcall.
  destruct (call_server connected fuel cl cfg e e' srv srv' sv body a F Hf Hrep Hk Hcall)
    as (c & cs1 & bs & a' & F' & Hinit & Hs8 & Hc & Hs & Hpos & Hrep' & Hst).
  exists (message (response_service sv) bs), a', F'. split; [done|]. split; [done|]. split; [done|].
  intros Hlen. pose proof Hlen as Hlen'. rewrite length_message in Hlen'.
  unfold SSL3_RT_MAX_PLAIN_LENGTH in Hlen', Hstack.
  rewrite transmit_small in Hc by (rewrite length_message; lia).
  destruct (Hc _ _ eq_refl Hlen) as (c1 & c2 & H1 & H2).
  apply (answer_peer cfg e e' c c1 c2 sv body bs); try done; lia.
Qed.

(** So is one that arrives, when with the bound on requests and keys it is sent. *)
Lemma modest_call_peer fuel cfg e e' (srv srv' : kms) sv body (a : akms) F :
  (2 <= fuel)%nat -> app_rep srv a F -> modest_streams a ->
  modest_request (service_code sv) body -> known_service (service_code sv) ->
  call_served fuel cfg e e' srv srv' sv body ->
  exists a' F', peer_serves cfg e sv (response_service sv) body a a' e' /\
    app_rep srv' a' F' /\ modest_streams a' /\ streams_step (a_streams a) (a_streams a').
Proof.
  intros Hf Hrep Hsg Hmod Hk [cl Hcall].
  destruct (call_server answer_arrives fuel cl cfg e e' srv srv' sv body a F Hf Hrep Hk Hcall)
    as (c & cs1 & bs & a' & F' & Hinit & Hs8 & Hc & Hs & Hpos & Hrep' & Hst).
  pose proof (modest_fits _ _ _ _ _ Hrep Hsg Hmod) as Hfit. rewrite Hs in Hfit.
  unfold reply_fits in Hfit.
  pose proof Hfit as Hlen. rewrite length_message in Hlen.
  rewrite transmit_small in Hc by (rewrite length_message; lia).
  destruct (Hc _ _ eq_refl) as (Hbs & c1 & c2 & H1 & H2). exists a', F'.
  split; [|split; [done|split; [by eapply abs_serve_modest|apply Hst]]].
  apply (answer_peer cfg e e' c c1 c2 sv body bs); try done; lia.
Qed.

(** ** The invariant *)

(** The responses to [getKey] are the keys of one stream, all with success. *)
Definition keys_of (st : stream) (keys : list (Z * Z * list mbyte)) : Prop :=
  Forall (fun k => k.1.2 = status_code qkd_status_code_successful /\
                   k.2 = Some <$> abs_key_for st k.1.1 x00 x00) keys.

(** A program that has opened its stream has the text of the id that the server knows the
    pair by, and keys of that stream, if its responses fit one record. *)
Definition agent_ok (a : akms) (ag : agent) : Prop :=
  party_ready (ag_party ag) (ag_source ag) (ag_destination ag) /\
  match ag_ksid ag with
  | None => ag_keys ag = []
  | Some ksid =>
      exists id st, str_at (cl_mem (pa_state (ag_party ag))) ksid (uuid_unparse id) /\
        uuid_ok id /\ ksid_of (ag_source ag) (ag_destination ag) a = Some id /\
        find_by_ksid id (a_streams a) = Some st /\ (record_fits a st -> keys_of st (ag_keys ag))
  end.

Definition world_ok (w : world) : Prop :=
  exists a F, app_rep (w_server w) a F /\ pairs_unique a /\
    Forall (agent_ok a) (w_agents w).

Lemma same_stream_fits (a a' : akms) st st' : a_metadata a' = a_metadata a -> same_stream st st' ->
  record_fits a' st' -> record_fits a st.
Proof. unfold record_fits. intros -> (_ & -> & _). done. Qed.

(** A request of anyone leaves a program what it has. *)
Lemma agent_ok_step (a a' : akms) ag : state_step a a' -> agent_ok a ag -> agent_ok a' ag.
Proof.
  intros [Hstep Hmd] [Hready H]. split; [done|]. destruct (ag_ksid ag) as [ksid|]; [|done].
  destruct H as (id & st & Hstr & Hid & Hk & Hst & Hkeys).
  destruct (streams_step_find _ _ _ _ Hstep Hst) as (st' & Hst' & Hsame).
  exists id, st'. split_and!; try done; [by eapply streams_step_ksid|].
  intros Hfit. eapply Forall_impl; [apply Hkeys; by eapply same_stream_fits|].
  intros k [Hs ->]. split; [done|]. f_equal. symmetry. by apply same_stream_key.
Qed.

(** A program goes on with a memory that has all that it had. *)
Lemma party_ready_at p s d st : party_ready p s d -> mem_wf (cl_mem st) ->
  extends (cl_mem (pa_state p)) (cl_mem st) -> party_ready (party_at p st) s d.
Proof.
  intros (_ & Hj & Hs & Hd) Hm He. split; [done|].
  split_and!; cbn; by eapply str_at_extends.
Qed.

Lemma str_at_inj m p t t' : str_at m p t -> str_at m p t' -> t = t'.
Proof.
  intros H%read_str_run H'%read_str_run. pose proof (eq_trans (eq_sym H) H') as E. by injection E.
Qed.

Lemma bytes_at_inj m d s s' : bytes_at m d s -> bytes_at m d s' -> s = s'.
Proof.
  intros (_ & Hl & H%load_bytes_data) (_ & Hl' & H'%load_bytes_data).
  rewrite <- Hl' in H'. rewrite <- Hl in H.
  pose proof (eq_trans (eq_sym H) H') as E. injection E as E. by apply (inj (fmap Some)) in E.
Qed.

(** ** The steps of the programs *)

(** No id, or the id of the stream that the server has for a pair. *)
Definition known_id (a : akms) (s d : list byte) (id : uuid_t) : Prop :=
  id = uuid_nil \/
  ksid_of s d a = Some id /\ exists st, find_by_ksid id (a_streams a) = Some st.

(** What a program that is told an id is told. *)
Lemma told_known (a : akms) ags ag id : Forall (agent_ok a) ags -> told ags ag id ->
  known_id a (ag_source ag) (ag_destination ag) id.
Proof.
  intros Hags [->|(j & ag' & p & t & Hj & Es & Ed & Hp & Ht & Hparse)]; [by left|right].
  pose proof (Forall_lookup_1 _ _ _ _ Hags Hj) as [_ H]. rewrite Hp in H.
  destruct H as (id' & st & Hstr & Hid & Hk & Hst & _). pose proof (str_at_inj _ _ _ _ Ht Hstr) as ->.
  rewrite uuid_parse_unparse in Hparse by done. injection Hparse as <-. rewrite <- Es, <- Ed.
  split; [done|by exists st].
Qed.

(** The stream that is opened is the one that the server knows the pair by. *)
Lemma spec_open_told s d q id id' (a a' : akms) :
  known_id a s d id -> spec_open s d q id a = (id', a') ->
  ksid_of s d a' = Some id' /\ (exists st, find_by_ksid id' (a_streams a') = Some st) /\
  forall id0, ksid_of s d a = Some id0 -> id' = id0 /\ a' = a.
Proof.
  intros [->|[Hk Hst]] Hspec.
  - destruct (spec_open_known _ _ _ _ _ _ Hspec) as [Hk Hst]. split; [done|]. split; [done|].
    intros id0 Hk0. pose proof (spec_open_again s d q a id0 Hk0) as E.
    pose proof (eq_trans (eq_sym Hspec) E) as E'. by injection E' as -> ->.
  - pose proof (eq_trans (eq_sym Hspec) (spec_open_under s d q a id Hk)) as E. injection E as -> ->.
    split; [done|]. split; [done|]. intros id0 Hk0. rewrite Hk in Hk0. by injection Hk0 as ->.
Qed.

Lemma open_agent fuel ags ag ksid0 id0 keyLength ksid s (a a' : akms) :
  (2 <= fuel)%nat -> Forall stream_ok (a_streams a) -> Forall (agent_ok a) ags -> agent_ok a ag ->
  told ags ag id0 -> names_ksid (cl_mem (pa_state (ag_party ag))) ksid0 id0 ->
  Z.of_nat (length (open_request_body (ag_source ag) (ag_destination ag) keyLength id0)) < modest ->
  peer_serves (party_context (ag_party ag)) (cl_env (pa_state (ag_party ag)))
    QKD_SERVICE_OPEN_CONNECT_REQUEST QKD_SERVICE_OPEN_CONNECT_RESPONSE
    (open_request_body (ag_source ag) (ag_destination ag) keyLength id0)
    a a' (cl_env s) ->
  party_open_as fuel (ag_party ag) ksid0 keyLength = Ret ksid s ->
  agent_ok a' (opened ag ksid s).
Proof.
  intros Hf Hok Hags [Hready H] Htold Hname Hmod Hp Hopen.
  pose proof Hready as (Hm & Hj & Hs & Hd). apply (told_known a) in Htold; [|done].
  destruct ag as [p s0 d0 ks keys]. cbn [ag_party ag_source ag_destination ag_ksid ag_keys] in *.
  unfold party_open_as in Hopen. destruct (pa_state p) as [m e] eqn:Ep. cbn [cl_mem cl_env] in *.
  destruct (openConnect_run fuel (pa_json p) (pa_cert p) (pa_key p) (pa_host p) (pa_port p)
    (pa_source p) (pa_destination p) s0 d0 ksid0 id0 keyLength m e (cl_env s) a a')
    as (id & q & m1 & Hspec & Hid & Hrun & Hm1 & He & Hstr); try done.
  { unfold oc_message. rewrite length_message. unfold open_request_body, modest in Hmod. lia. }
  pose proof (eq_trans (eq_sym Hopen) Hrun) as E. injection E as -> ->.
  split; [apply (party_ready_at p); [done|done|by rewrite Ep]|]. cbn.
  destruct (spec_open_told _ _ _ _ _ _ _ Htold Hspec) as (Hk & (st & Hst) & Hsame).
  exists id, st. split_and!; try done. destruct ks as [ks|]; [|subst keys; constructor].
  destruct H as (id1 & st1 & _ & _ & Hk1 & Hst1 & Hkeys). destruct (Hsame id1 Hk1) as [-> ->].
  rewrite Hst1 in Hst. by injection Hst as ->.
Qed.

Lemma key_agent fuel ag ksid t id keyType index r key s (a a' : akms) :
  (2 <= fuel)%nat -> agent_ok a ag -> ag_ksid ag = Some ksid ->
  str_at (cl_mem (pa_state (ag_party ag))) ksid t -> uuid_parse t = Some id ->
  (forall st, find_by_ksid id (a_streams a) = Some st -> record_fits a st ->
   peer_serves (party_context (ag_party ag)) (cl_env (pa_state (ag_party ag)))
     QKD_SERVICE_GET_KEY_REQUEST QKD_SERVICE_GET_KEY_RESPONSE (key_request_body id index) a a' (cl_env s)) ->
  state_step a a' ->
  party_key fuel (ag_party ag) keyType index ksid (pa_state (ag_party ag)) = Ret r s ->
  load_bytes (data (gkr_key_buffer r)) (size (gkr_key_buffer r)) (cl_mem s) = Ret key (cl_mem s) ->
  agent_ok a' (given_key ag index r key s).
Proof.
  destruct s as [ms es]. intros Hf Hag Hks Ht Hparse Hp Hstep Hget Hkey.
  destruct Hag as [Hready H]. rewrite Hks in H.
  destruct H as (id0 & st & Hstr & Hid & Hk & Hst & Hkeys).
  pose proof (str_at_inj _ _ _ _ Ht Hstr) as ->. rewrite uuid_parse_unparse in Hparse by done.
  injection Hparse as <-. destruct Hstep as [Hstep Hmd].
  destruct (streams_step_find _ _ _ _ Hstep Hst) as (st' & Hst' & Hsame).
  pose proof Hready as (Hm & _). unfold party_key in Hget.
  destruct (pa_state (ag_party ag)) as [m e] eqn:Ep. cbn [cl_mem cl_env] in *.
  destruct (getKey_keeps fuel _ _ _ _ keyType ksid _ id0 index m e r _ Hm Hstr
    (uuid_parse_unparse id0 Hid) Hget) as [Hm2 He]. cbn [cl_mem] in Hm2, He.
  split; [apply (party_ready_at (ag_party ag)); [done|done|by rewrite Ep]|]. cbn. rewrite Hks.
  exists id0, st'. split_and!; try done; [by eapply str_at_extends|by eapply streams_step_ksid|].
  intros Hfit. pose proof (same_stream_fits _ _ _ _ Hmd Hsame Hfit) as Hfit0.
  destruct (getKey_run fuel (pa_cert (ag_party ag)) (pa_key (ag_party ag)) (pa_host (ag_party ag))
    (pa_port (ag_party ag)) keyType ksid (uuid_unparse id0) id0 index m e es a a' Hf Hm Hstr
    (uuid_parse_unparse id0 Hid) (Hp st Hst Hfit0))
    as (status & k & md & b & c & m2 & Hret & Hblob & Hrun & _ & _ & Hb & _).
  pose proof (eq_trans (eq_sym Hget) Hrun) as E. injection E as -> ->. cbn in Hkey |- *.
  destruct (gk_returns_key _ _ _ _ _ _ _ _ Hret Hst) as (-> & -> & _).
  assert (key = Some <$> abs_key_for st (wrap32 index) x00 x00) as ->.
  { pose proof (load_bytes_data m2 (Ptr b 0) _ (block_data _ _ _ Hb)) as E.
    pose proof (eq_trans (eq_sym Hkey) E) as E'. by injection E'. }
  constructor; [|eapply Forall_impl; [by apply Hkeys|intros k [Hs ->]]]; cbn;
    by rewrite (same_stream_key _ _ _ _ _ Hsame).
Qed.

Lemma close_agent fuel ag ksid t id r s (a a' : akms) :
  (2 <= fuel)%nat -> agent_ok a ag -> ag_ksid ag = Some ksid ->
  str_at (cl_mem (pa_state (ag_party ag))) ksid t -> uuid_parse t = Some id ->
  peer_serves (party_context (ag_party ag)) (cl_env (pa_state (ag_party ag)))
    QKD_SERVICE_CLOSE_REQUEST QKD_SERVICE_CLOSE_RESPONSE (close_request_body id) a a' (cl_env s) ->
  party_close fuel (ag_party ag) ksid = Ret r s ->
  agent_ok a' (later ag s).
Proof.
  intros Hf [Hready H] Hks Ht Hparse Hp Hclose. rewrite Hks in H. pose proof Hready as (Hm & _).
  unfold party_close in Hclose.
  destruct (pa_state (ag_party ag)) as [m e] eqn:Ep. cbn [cl_mem cl_env] in *.
  destruct (close_run fuel (pa_cert (ag_party ag)) (pa_key (ag_party ag)) (pa_host (ag_party ag))
    (pa_port (ag_party ag)) ksid t m e (cl_env s) a a' Hf Hm Ht)
    as (-> & m1 & Hrun & Hm1 & He); [by rewrite Hparse|].
  pose proof (eq_trans (eq_sym Hclose) Hrun) as E. injection E as _ ->.
  split; [apply (party_ready_at (ag_party ag)); [done|done|by rewrite Ep]|].
  cbn. rewrite Hks.
  destruct H as (id0 & st & Hstr & Hrest). exists id0, st. split; [by eapply str_at_extends|done].
Qed.

(** ** The invariant is preserved *)

Lemma agents_step (a a' : akms) ags i ag ag' : state_step a a' ->
  Forall (agent_ok a) ags -> ags !! i = Some ag -> (agent_ok a ag -> agent_ok a' ag') ->
  Forall (agent_ok a') (<[i := ag']> ags).
Proof.
  intros Hstep Hags Hi Hag. apply Forall_insert.
  - eapply Forall_impl; [exact Hags|]. intros x. by apply agent_ok_step.
  - apply Hag. by eapply Forall_lookup_1.
Qed.

(** What a request does to the server, whoever makes it. *)
Lemma server_step (a a' : akms) : state_step a a' -> pairs_unique a -> pairs_unique a'.
Proof. intros [Hstep _]. by apply streams_step_unique. Qed.

Lemma key_request_modest id index : uuid_ok id ->
  modest_request (service_code QKD_SERVICE_GET_KEY_REQUEST) (key_request_body id index).
Proof.
  intros Hid. split; [|done]. unfold key_request_body. rewrite length_enc_gk_request by done. by vm_compute.
Qed.

Lemma oc_request_modest q : oc_request_ok q -> Z.of_nat (length (enc oc_request_codec q)) < modest ->
  key_chunk_size (ocq_qos q) < modest ->
  modest_request (service_code QKD_SERVICE_OPEN_CONNECT_REQUEST) (enc oc_request_codec q).
Proof.
  intros Hq Hlen Hsz. split; [done|]. intros _ q' rest. pose proof (dec_enc oc_request_codec q [] Hq) as H.
  rewrite app_nil_r in H. rewrite H. by intros [= <- _].
Qed.

Lemma close_request_modest id : uuid_ok id ->
  modest_request (service_code QKD_SERVICE_CLOSE_REQUEST) (close_request_body id).
Proof. intros Hid. split; [|done]. cbn. rewrite Hid. by vm_compute. Qed.

Lemma world_serves_ok fuel cls w w' : (2 <= fuel)%nat -> SSL3_RT_MAX_PLAIN_LENGTH <= stack_limit ->
  world_ok w -> world_serves fuel cls w w' -> world_ok w'.
Proof.
  intros Hf Hstack (a & F & Hrep & Hu & Hags) Hstep. destruct (akms_rep_ok _ a F Hrep) as [Hok _].
  destruct Hstep as [cl srv srv' ags i ag ksid0 id keyLength ksid s Hi Htold Hname Hmod Hcall Hopen
    |cl srv srv' ags i ag ksid t id keyType index r key s Hi Hks Ht Hp Hcall Hget Hkey
    |cl srv srv' ags i ag ksid t id r s Hi Hks Ht Hp Hcall Hclose
    |srv ags i ag s Hi Hm He
    |cl w Hacc
    |cl srv srv' ags h body cs1 cs2 status Hacc Hreq Hsv Hrun]; cbn [w_server w_agents] in *.
  - destruct (call_peer fuel _ _ _ _ _ _ _ _ a F Hf Hstack Hrep ltac:(by left) Hcall)
      as (msg & a' & F' & Hs & Hrep' & Hst & Hpeer).
    pose proof (reply_short _ _ _ _ _ Hok ltac:(by left) Hs) as Hlen.
    exists a', F'. split_and!; [done|by eapply server_step|].
    eapply agents_step; [done..|]. intros. by eapply (open_agent fuel ags); try apply Hpeer.
  - destruct (call_peer fuel _ _ _ _ _ _ _ _ a F Hf Hstack Hrep ltac:(by right; left) Hcall)
      as (msg & a' & F' & Hs & Hrep' & Hst & Hpeer).
    exists a', F'. split_and!; [done|by eapply server_step|].
    eapply agents_step; [done..|]. intros Hag. eapply key_agent; try done.
    intros st Hfind Hfit. apply Hpeer. eapply key_reply_short; try done. by eapply uuid_parse_ok.
  - destruct (call_peer fuel _ _ _ _ _ _ _ _ a F Hf Hstack Hrep ltac:(by right; right) Hcall)
      as (msg & a' & F' & Hs & Hrep' & Hst & Hpeer).
    pose proof (reply_short _ _ _ _ _ Hok ltac:(by right) Hs) as Hlen.
    exists a', F'. split_and!; [done|by eapply server_step|].
    eapply agents_step; [done..|]. intros. eapply close_agent; try done. by apply Hpeer.
  - exists a, F. split_and!; try done. eapply agents_step; [by repeat constructor|done|done|].
    intros [Hready H]. split; [by apply (party_ready_at (ag_party ag))|]. cbn.
    destruct (ag_ksid ag) as [ksid|]; [|done]. destruct H as (id & st & Hstr & Hrest).
    exists id, st. split; [by eapply str_at_extends|done].
  - by exists a, F.
  - destruct (servlet_sent fuel SERVER_LISTENING srv (cl_ssl cl) a F h body cs1 status (Sess srv' cs2))
      as (_ & msg & a' & F' & Hs & _ & _ & _ & Hrep'); try done.
    apply abs_serve_state in Hs. exists a', F'. split_and!; [done|by eapply server_step|].
    eapply Forall_impl; [exact Hags|]. intros x. by apply agent_ok_step.
Qed.

Lemma world_reachable fuel w w' : (2 <= fuel)%nat -> SSL3_RT_MAX_PLAIN_LENGTH <= stack_limit ->
  world_ok w -> rtc (world_step fuel) w w' -> world_ok w'.
Proof.
  intros Hf Hstack Hw Hr. induction Hr as [w|w w1 w' [cls Hstep] Hr IH]; [done|].
  apply IH. by eapply world_serves_ok.
Qed.

(** ** The server's part of a run *)

(** The servlet returns in the status in which it was called, and the loop goes on. *)
Lemma served_in_loop fuel cl h body cs1 status cs2 (srv srv' : kms) (a : akms) F :
  (2 <= fuel)%nat -> app_rep srv a F -> cl_accept cl <> -1 -> requests (cl_ssl cl) h body cs1 ->
  service h <> service_code QKD_SERVICE_CLOSE_SERVER ->
  qkd_servlet fuel SERVER_LISTENING (Sess srv (cl_ssl cl)) = Ret status (Sess srv' cs2) ->
  serve_clients (qkd_servlet fuel) [cl] SERVER_LISTENING srv = Ret (SERVER_LISTENING, [cs2]) srv'.
Proof.
  intros Hf Hrep Hacc Hreq Hsv Hrun.
  destruct (servlet_sent fuel SERVER_LISTENING srv (cl_ssl cl) a F h body cs1 status (Sess srv' cs2)
    Hf Hrep Hreq Hsv Hrun) as [-> _].
  cbn [serve_clients]. rewrite (proj2 (Z.eqb_neq _ _)) by done.
  by erewrite cbind_ret by by apply on_connection_run.
Qed.

(** The connections of a step or a run are served by the loop of the server, which represents
    a state of the abstract server all the time. *)
Definition server_ok (srv : kms) : Prop := exists (a : akms) F, app_rep srv a F.

Lemma call_in_loop fuel cl cfg e e' (srv srv' : kms) sv body :
  (2 <= fuel)%nat -> server_ok srv -> known_service (service_code sv) ->
  call_served_by connected fuel cl cfg e e' srv srv' sv body ->
  server_ok srv' /\ exists l,
    serve_clients (qkd_servlet fuel) [cl] SERVER_LISTENING srv = Ret (SERVER_LISTENING, l) srv'.
Proof.
  intros Hf (a & F & Hrep) Hk Hcall. split.
  - destruct (call_server connected fuel cl cfg e e' srv srv' sv body a F Hf Hrep Hk Hcall)
      as (c & cs1 & bs & a' & F' & _ & _ & _ & _ & _ & Hrep' & _). by exists a', F'.
  - destruct Hcall as (Hacc & c & cs1 & cs2 & status & _ & Hreq & Hrun & _). exists [cs2].
    eapply served_in_loop; [done..| |exact Hrun]. cbn. by destruct Hk as [->|[->| ->]].
Qed.

Lemma world_serves_loop fuel cls w w' : (2 <= fuel)%nat -> server_ok (w_server w) ->
  world_serves fuel cls w w' ->
  server_ok (w_server w') /\ exists l,
    serve_clients (qkd_servlet fuel) cls SERVER_LISTENING (w_server w) =
      Ret (SERVER_LISTENING, l) (w_server w').
Proof.
  intros Hf Hok Hstep. destruct Hstep as [| | | |cl w Hacc|cl srv srv' ags h body cs1 cs2 status Hacc
    Hreq Hsv Hrun]; cbn [w_server] in *.
  - by eapply call_in_loop; [..|eassumption]; try (by left).
  - by eapply call_in_loop; [..|eassumption]; try (by right; left).
  - by eapply call_in_loop; [..|eassumption]; try (by right; right).
  - split; [done|by exists []].
  - split; [done|]. exists [cl_ssl cl]. cbn [serve_clients]. by rewrite Hacc.
  - destruct Hok as (a & F & Hrep). split.
    + destruct (servlet_sent fuel SERVER_LISTENING srv (cl_ssl cl) a F h body cs1 status (Sess srv' cs2))
        as (_ & msg & a' & F' & _ & _ & _ & _ & Hrep'); try done. by exists a', F'.
    + eexists. by eapply served_in_loop.
Qed.

Lemma world_run_loop fuel cls w w' : (2 <= fuel)%nat -> server_ok (w_server w) ->
  world_run fuel cls w w' ->
  server_ok (w_server w') /\ exists l,
    serve_clients (qkd_servlet fuel) cls SERVER_LISTENING (w_server w) =
      Ret (SERVER_LISTENING, l) (w_server w').
Proof.
  intros Hf Hw Hr. induction Hr as [w|cls cls' w w1 w' Hstep _ IH]; [split; [done|by exists []]|].
  destruct (world_serves_loop fuel cls w w1 Hf Hw Hstep) as [Hok1 [l H]].
  destruct (IH Hok1) as [Hok' [l' H']]. split; [done|]. exists (l ++ l').
  rewrite (serve_clients_app _ _ _ _ _ _ _ _ H eq_refl). by erewrite cbind_ret by exact H'.
Qed.

(** Two programs of one pair hold the text of one id and keys of one stream. *)
Lemma world_ok_agree w i j ag ag' : world_ok w ->
  w_agents w !! i = Some ag -> w_agents w !! j = Some ag' ->
  ag_source ag = ag_source ag' -> ag_destination ag = ag_destination ag' ->
  forall p p', ag_ksid ag = Some p -> ag_ksid ag' = Some p' ->
  exists (a : akms) F t id st, app_rep (w_server w) a F /\ pairs_unique a /\
    str_at (cl_mem (pa_state (ag_party ag))) p t /\
    str_at (cl_mem (pa_state (ag_party ag'))) p' t /\ uuid_parse t = Some id /\
    ksid_of (ag_source ag) (ag_destination ag) a = Some id /\
    find_by_ksid id (a_streams a) = Some st /\
    (record_fits a st -> keys_of st (ag_keys ag) /\ keys_of st (ag_keys ag')).
Proof.
  intros (a & F & Hrep & Hu & Hags) Hi Hj Es Ed p p' Hp Hp'.
  pose proof (Forall_lookup_1 _ _ _ _ Hags Hi) as [_ H].
  pose proof (Forall_lookup_1 _ _ _ _ Hags Hj) as [_ H'].
  rewrite Hp in H. rewrite Hp', <- Es, <- Ed in H'.
  destruct H as (id & st & Hstr & Hid & Hk & Hst & Hkeys).
  destruct H' as (id' & st' & Hstr' & _ & Hk' & Hst' & Hkeys').
  rewrite Hk in Hk'. injection Hk' as <-. rewrite Hst in Hst'. injection Hst' as <-.
  exists a, F, (uuid_unparse id), id, st. split_and!; try done; [by apply uuid_parse_unparse|].
  intros Hfit. by split; [apply Hkeys|apply Hkeys'].
Qed.

Lemma world_initial_ok w : world_initial w -> world_ok w.
Proof.
  intros [(a & F & Hrep & Ha) Hags]. exists a, F. unfold pairs_unique. rewrite Ha.
  split_and!; [done|constructor|].
  eapply Forall_impl; [exact Hags|]. intros ag (Hr & Hk & Hks). split; [done|]. by rewrite Hk.
Qed.

(** ** Requests are served *)

(** A call that the network carries is served, in the way of the abstract server, when the
    answer is one record. *)
Lemma answerable_known sv body (a : akms) : answerable sv body a -> known_service sv.
Proof. intros [[-> _]|[[-> _]|[-> _]]]; unfold known_service; tauto. Qed.

Lemma network_serves fuel cfg e e' (srv : kms) sv body (a : akms) F :
  (2 <= fuel)%nat -> SSL3_RT_MAX_PLAIN_LENGTH <= stack_limit -> app_rep srv a F ->
  answerable (service_code sv) body a -> Z.of_nat (length body) < 2 ^ 31 - 32 ->
  (forall msg a', abs_serve (service_code sv) body a = Reply msg a' ->
     Z.of_nat (length msg) <= SSL3_RT_MAX_PLAIN_LENGTH) ->
  network_delivers fuel cfg e e' srv sv body ->
  exists cl srv' msg a' F', call_served_by connected fuel cl cfg e e' srv srv' sv body /\
    abs_serve (service_code sv) body a = Reply msg a' /\ app_rep srv' a' F' /\
    peer_serves cfg e sv (response_service sv) body a a' e'.
Proof.
  intros Hf Hstack Hrep Ha Hlen Hfit (c & cs & cs1 & Hinit & Hreq & Hc).
  destruct (servlet_serves fuel SERVER_LISTENING srv a F cfg e e' c sv body cs cs1)
    as (srv1 & cs2 & a1 & F1 & Hrun & _ & _); try done.
  assert (call_served_by connected fuel {| cl_ssl := cs; cl_accept := 1 |} cfg e e' srv srv1 sv body)
    as Hcall by (split; [done|]; exists c, cs1, cs2, SERVER_LISTENING; split_and!; [done..|by eapply Hc]).
  destruct (call_peer fuel _ _ _ _ _ _ _ _ a F Hf Hstack Hrep (answerable_known _ _ _ Ha) Hcall)
    as (msg & a' & F' & Hs & Hrep' & _ & Hpeer).
  exists {| cl_ssl := cs; cl_accept := 1 |}, srv1, msg, a', F'.
  split_and!; [done..|]. by eapply Hpeer, Hfit.
Qed.

(** The program's call of [openConnect] is served and returns. *)
Lemma open_enabled fuel srv ags i ag ksid0 id0 keyLength e' (a : akms) F :
  (2 <= fuel)%nat -> SSL3_RT_MAX_PLAIN_LENGTH <= stack_limit ->
  app_rep srv a F -> known_id a (ag_source ag) (ag_destination ag) id0 ->
  ags !! i = Some ag ->
  told ags ag id0 -> names_ksid (cl_mem (pa_state (ag_party ag))) ksid0 id0 ->
  party_ready (ag_party ag) (ag_source ag) (ag_destination ag) ->
  Z.of_nat (length (open_request_body (ag_source ag) (ag_destination ag) keyLength id0)) < modest ->
  network_delivers fuel (party_context (ag_party ag)) (cl_env (pa_state (ag_party ag))) e' srv
    QKD_SERVICE_OPEN_CONNECT_REQUEST
    (open_request_body (ag_source ag) (ag_destination ag) keyLength id0) ->
  exists srv' msg a' F' ksid s id,
    world_step fuel {| w_server := srv; w_agents := ags |}
      {| w_server := srv'; w_agents := <[i := opened ag ksid s]> ags |} /\
    abs_serve (service_code QKD_SERVICE_OPEN_CONNECT_REQUEST)
      (open_request_body (ag_source ag) (ag_destination ag) keyLength id0) a = Reply msg a' /\
    app_rep srv' a' F' /\ cl_env s = e' /\ ksid_of (ag_source ag) (ag_destination ag) a' = Some id /\
    uuid_ok id /\ str_at (cl_mem s) ksid (uuid_unparse id) /\ mem_wf (cl_mem s).
Proof.
  intros Hf Hstack Hrep Hknown Hi Htold Hname (Hm & Hj & Hs & Hd) Hmod Hnet.
  destruct (akms_rep_ok _ a F Hrep) as [Hok _].
  pose proof Hmod as Hlen. unfold modest in Hlen.
  pose proof (api_request_ok _ _ _ _ _ keyLength id0 Hs Hd (names_ksid_ok _ _ _ Hname)) as Hq.
  destruct (network_serves fuel _ _ _ srv QKD_SERVICE_OPEN_CONNECT_REQUEST
    (open_request_body (ag_source ag) (ag_destination ag) keyLength id0) a F Hf Hstack Hrep
    ltac:(left; split; [done|]; eexists; split; [done|]; split; [exact Hq|done]) ltac:(lia)
    (fun msg a' => reply_short QKD_SERVICE_OPEN_CONNECT_REQUEST _ a msg a' Hok ltac:(by left)) Hnet)
    as (cl & srv' & msg & a' & F' & Hcall & Hserve & Hrep' & Hpeer).
  destruct (pa_state (ag_party ag)) as [m e] eqn:Ep. cbn [cl_mem cl_env] in *.
  destruct (openConnect_run fuel (pa_json (ag_party ag)) (pa_cert (ag_party ag)) (pa_key (ag_party ag))
    (pa_host (ag_party ag)) (pa_port (ag_party ag)) (pa_source (ag_party ag))
    (pa_destination (ag_party ag)) (ag_source ag) (ag_destination ag) ksid0 id0 keyLength m e e' a a')
    as (id & q & m1 & Hspec & Hid & Hrun & Hm1 & _ & Hstr); try done.
  { unfold oc_message. rewrite length_message. unfold open_request_body in Hlen. lia. }
  exists srv', msg, a', F', q. eexists. exists id.
  split; [exists [cl]; eapply step_open; [done|exact Htold|by rewrite Ep|done| |
    unfold party_open_as; rewrite Ep; exact Hrun];
    by rewrite Ep|].
  split_and!; try done. by apply (spec_open_told _ _ _ _ _ _ _ Hknown Hspec).
Qed.

(** [getKey] for a known stream is served, while the counter of the stream is below its last
    value. *)
Lemma key_enabled fuel srv ags i ag ksid id st (keyType : Z) index e' (a : akms) F :
  (2 <= fuel)%nat -> SSL3_RT_MAX_PLAIN_LENGTH <= stack_limit ->
  app_rep srv a F -> ags !! i = Some ag ->
  mem_wf (cl_mem (pa_state (ag_party ag))) -> ag_ksid ag = Some ksid -> uuid_ok id ->
  str_at (cl_mem (pa_state (ag_party ag))) ksid (uuid_unparse id) ->
  find_by_ksid id (a_streams a) = Some st -> i32 (st_index st + 1) ->
  record_fits a st ->
  network_delivers fuel (party_context (ag_party ag)) (cl_env (pa_state (ag_party ag))) e' srv
    QKD_SERVICE_GET_KEY_REQUEST (key_request_body id index) ->
  exists srv' msg a' F' r s,
    let key := Some <$> abs_key_for st (wrap32 index) x00 x00 in
    world_step fuel {| w_server := srv; w_agents := ags |}
      {| w_server := srv'; w_agents := <[i := given_key ag index r key s]> ags |} /\
    abs_serve (service_code QKD_SERVICE_GET_KEY_REQUEST) (key_request_body id index) a = Reply msg a' /\
    app_rep srv' a' F' /\ cl_env s = e' /\ gkr_status r = status_code qkd_status_code_successful.
Proof.
  intros Hf Hstack Hrep Hi Hm Hks Hid Hstr Hst Hcount Hsz Hnet.
  destruct (akms_rep_ok _ a F Hrep) as [Hok _].
  pose proof (key_request_modest id index Hid) as [Hlen _]. unfold modest in Hlen.
  assert (gk_request_ok (api_key_request id index)) as Hq.
  { pose proof (wrap32_u32 index) as H. split; [exact Hid|]. split; [exact H|done]. }
  assert (answerable (service_code QKD_SERVICE_GET_KEY_REQUEST) (key_request_body id index) a) as Ha.
  { right; left. split; [done|]. exists (api_key_request id index). split; [done|].
    split; [exact Hq|]. cbn [gkq_key_stream_id api_key_request]. rewrite Hst. split; [by eexists|].
    split; [done|]. unfold record_fits, SSL3_RT_MAX_PLAIN_LENGTH in Hsz. lia. }
  destruct (network_serves fuel _ _ _ srv _ _ a F Hf Hstack Hrep Ha ltac:(lia)
    (fun msg a' => key_reply_short id index a msg a' st Hok Hid Hst Hsz) Hnet)
    as (cl & srv' & msg & a' & F' & Hcall & Hserve & Hrep' & Hpeer).
  destruct (pa_state (ag_party ag)) as [m e] eqn:Ep. cbn [cl_mem cl_env] in *.
  destruct (getKey_run fuel (pa_cert (ag_party ag)) (pa_key (ag_party ag)) (pa_host (ag_party ag))
    (pa_port (ag_party ag)) keyType ksid (uuid_unparse id) id index m e e' a a' Hf Hm Hstr
    (uuid_parse_unparse id Hid) Hpeer)
    as (status & k & md & b & c & m2 & Hret & Hblob & Hrun & _ & _ & Hb & _).
  destruct (gk_returns_key _ _ _ _ _ _ _ _ Hret Hst) as (-> & -> & Htake).
  exists srv', msg, a', F'. eexists. exists {| cl_mem := m2; cl_env := e' |}. cbn zeta.
  split; [|split; [exact Hserve|split; [exact Hrep'|split; [done|]]]].
  - exists [cl]. eapply (step_key fuel cl srv srv' ags i ag ksid (uuid_unparse id) id keyType index);
      [exact Hi|exact Hks|by rewrite Ep|by apply uuid_parse_unparse|by rewrite Ep
      |unfold party_key; rewrite Ep; exact Hrun|exact (load_bytes_data m2 (Ptr b 0) _ (block_data _ _ _ Hb))].
  - done.
Qed.

(** [close] is always served. *)
Lemma close_enabled fuel srv ags i ag ksid id e' (a : akms) F :
  (2 <= fuel)%nat -> SSL3_RT_MAX_PLAIN_LENGTH <= stack_limit ->
  app_rep srv a F -> ags !! i = Some ag ->
  mem_wf (cl_mem (pa_state (ag_party ag))) -> ag_ksid ag = Some ksid -> uuid_ok id ->
  str_at (cl_mem (pa_state (ag_party ag))) ksid (uuid_unparse id) ->
  network_delivers fuel (party_context (ag_party ag)) (cl_env (pa_state (ag_party ag))) e' srv
    QKD_SERVICE_CLOSE_REQUEST (close_request_body id) ->
  exists srv' F' s,
    world_step fuel {| w_server := srv; w_agents := ags |}
      {| w_server := srv'; w_agents := <[i := later ag s]> ags |} /\
    app_rep srv' a F' /\ cl_env s = e'.
Proof.
  intros Hf Hstack Hrep Hi Hm Hks Hid Hstr Hnet. destruct (akms_rep_ok _ a F Hrep) as [Hok _].
  pose proof (close_request_modest id Hid) as [Hlen _]. unfold modest in Hlen.
  destruct (network_serves fuel _ _ _ srv QKD_SERVICE_CLOSE_REQUEST (close_request_body id) a F Hf Hstack
    Hrep ltac:(right; right; split; [done|]; by exists id) ltac:(lia)
    (fun msg a' => reply_short QKD_SERVICE_CLOSE_REQUEST _ a msg a' Hok ltac:(by right)) Hnet)
    as (cl & srv' & msg & a' & F' & Hcall & Hserve & Hrep' & Hpeer).
  destruct (pa_state (ag_party ag)) as [m e] eqn:Ep. cbn [cl_mem cl_env] in *.
  destruct (close_run fuel (pa_cert (ag_party ag)) (pa_key (ag_party ag)) (pa_host (ag_party ag))
    (pa_port (ag_party ag)) ksid (uuid_unparse id) m e e' a a' Hf Hm Hstr)
    as (-> & m1 & Hrun & _); [by rewrite uuid_parse_unparse|].
  exists srv', F', {| cl_mem := m1; cl_env := e' |}. split; [|done].
  exists [cl]. eapply (step_close fuel cl srv srv' ags i ag ksid (uuid_unparse id) id);
    [exact Hi|exact Hks|by rewrite Ep|by apply uuid_parse_unparse|by rewrite Ep
    |unfold party_close; rewrite Ep; exact Hrun].
Qed.

End world.
