(* ===== verification/ClientExample.v ===== *)
(** [src/client_example.c]: a program that opens both ends of a key stream, takes a key at
    each end, writes the two keys to files and closes the stream.

    The state is that of the socket client and the files.  A file is its contents, or
    [None] where it cannot be opened; a file that does not exist has no contents.  The
    string literals of the program are at addresses that are parameters. *)

From S2P Require Import Prelude Models Memory Wire Sizes Platform Printf Serializers SerializersSpec.
From S2P Require Import Copy Interfaces Socket Servlet Setup KeyFile Uuid Client ClientApi.

Definition files : Type := list byte -> option (list byte).

Definition set_file (name : list byte) (f : option (list byte)) (fs : files) : files :=
  fun n => if decide (n = name) then f else fs n.

Record example_state {OS : Openssl} {TLS : Tls} := { ex_client : client_state; ex_files : files }.

(** ["../ssl/127.0.0.1.pem"], ["../ssl/127.0.0.1.key"], ["127.0.0.1"] *)
Definition example_cert : list byte := lit "../ssl/127.0.0.1.pem".
Definition example_key : list byte := lit "../ssl/127.0.0.1.key".
Definition example_host : list byte := lit "127.0.0.1".

Definition source_text : list byte := lit "qkd//app1@aaaaaaaa-aaaa-aaaa-aaaa-aaaaaaaaaaaa".
Definition destination_text : list byte := lit "qkd//app2@bbbbbbbb-bbbb-bbbb-bbbb-bbbbbbbbbbbb".

Section example.
Context {ML : Malloc} {LU : Libuuid} {UT : UuidText} {OS : Openssl} {TLS : Tls} {ST : Stack}.

Definition on_client {A} (e : C client_state A) : C example_state A :=
  zoom ex_client (fun c s => {| ex_client := c; ex_files := ex_files s |}) e.

(** [write_key_to_file_bit_format(r, name)]: opened, written and closed. *)
Definition write_key_file (r : qkd_get_key_response_t) (name : list byte) : C example_state unit :=
  zoom (fun s => {| kf_mem := cl_mem (ex_client s); kf_file := ex_files s name |})
    (fun k s => {| ex_client := {| cl_mem := kf_mem k; cl_env := cl_env (ex_client s) |};
                   ex_files := set_file name (kf_file k) (ex_files s) |})
    (write_key_to_file_bit_format r).

(** [fuel] bounds the reads of a message. *)
Context (fuel : nat) (source destination application_json : ptr).

Definition example_context : qkd_client_context_data_t :=
  {| host := example_host; port := 25575; cert_pem := Some example_cert;
     key_pem := Some example_key; peer_ca_pem := None; max_proto_version := 0 |}.

Definition example_open (key_stream_id : uuid_t) : C example_state qkd_open_connect_response_t :=
  let q := {| key_chunk_size := 8192; max_bps := 32; min_bps := 32; jitter := 0; priority := 0;
              timeout := 0; ttl := 0; metadata_mimetype := application_json |} in
  on_client (qkd_open_connect_struct (APP := client_app fuel example_context)
    {| ocq_source := source; ocq_destination := destination; ocq_qos := q;
       ocq_key_stream_id := key_stream_id |}).

Definition example_get_key (key_stream_id : uuid_t) (index : Z) (key_info : ptr) :
    C example_state qkd_get_key_response_t :=
  on_client (qkd_get_key_struct (APP := client_app fuel example_context)
    {| gkq_key_stream_id := uuid_copy key_stream_id; gkq_index := wrap32 index;
       gkq_metadata := {| size := 2; data := key_info |} |}).

Definition example_close (key_stream_id : uuid_t) : C example_state qkd_close_response_t :=
  on_client (qkd_close_struct (APP := client_app fuel example_context)
    {| clq_key_stream_id := uuid_copy key_stream_id |}).

(** The body of the loop over the index. *)
Definition example_keys (keyType index : Z) (ksid ksid_ : uuid_t) : C example_state unit :=
  let '(requested_key_type, requested_key_role, requested_key_role_) :=
    if keyType =? 1 then (x01, x10, x11) else (x00, x10, x11) in
  let! key_info := on_client (in_mem (local_bytes [requested_key_type; requested_key_role])) in
  let! key_info_ := on_client (in_mem (local_bytes [requested_key_type; requested_key_role_])) in
  let! gk_response := example_get_key ksid index key_info in
  write_key_file gk_response (lit "test.key");;;
  let! gk_response_ := example_get_key ksid_ index key_info_ in
  write_key_file gk_response_ (lit "test_.key");;;
  on_client (in_mem (end_local key_info_));;;
  on_client (in_mem (end_local key_info)).

(** [for (index = 0; index < 1; ++index)], with fuel for [n] tests. *)
Fixpoint example_loop (n : nat) (keyType index : Z) (ksid ksid_ : uuid_t) : C example_state unit :=
  match n with
  | O => fun _ => NoFuel
  | S n =>
      if index <? 1 then
        example_keys keyType index ksid ksid_;;; example_loop n keyType (index + 1) ksid ksid_
      else cret tt
  end.

Definition getKey (keyType : Z) : C example_state unit :=
  let key_stream_id := default uuid_nil (uuid_parse nil_text) in
  let! oc_response := example_open key_stream_id in
  let! oc_response_ := example_open (ocr_key_stream_id oc_response) in
  example_loop 2 keyType 0 (ocr_key_stream_id oc_response) (ocr_key_stream_id oc_response_);;;
  let! cl_response := example_close (ocr_key_stream_id oc_response) in
  let! cl_response_ := example_close (ocr_key_stream_id oc_response_) in
  cret tt.

Definition main : C example_state Z := getKey 1;;; cret 0.

End example.
