(* ===== verification/Scenario.v ===== *)
(** Concrete states and messages on which the theorems are instantiated: a server that
    has just started, with the libraries of [Platform.Concrete]. *)

From S2P Require Import Prelude Models Memory Wire Sizes Platform Printf SerializersSpec Copy Kms.
From S2P Require Import KmsSpec KmsProofs Interfaces KmsApp Socket Servlet ServletProofs Setup.
From S2P Require Import Run Uuid Client Remote Network.

#[export] Existing Instance Concrete.malloc_all.
#[export] Existing Instance Concrete.malloc_all_total.
#[export] Existing Instance Concrete.libuuid.
#[export] Existing Instance Concrete.libuuid_ok.
#[export] Existing Instance Concrete.lcg.
#[export] Existing Instance Concrete.tls.
#[export] Existing Instance ConcreteUuid.text.
#[export] Existing Instance ConcreteUuid.text_ok.

(** A stack of 8 MiB. *)
#[export] Instance stack_8m : Stack := 8388608.

Definition mem0 : mem := {| heap := ∅; next := 0 |}.

Definition config0 : server_context_data_example_t :=
  {| key_rate := 1000; qber := {| float_man := 3; float_exp := -6 |}; example_db_name := Null;
     node_uuid := uuid_nil; ksid_info_linked_list := Null |}.

Definition kms0 : kms :=
  {| k_mem := mem0; k_rng := (0 : Z); k_uuid := 0%nat; k_clock := 1700000000; k_config := config0 |}.

Definition akms_of (n : nat) (sg : list stream) : akms :=
  {| a_uuid := n; a_metadata := device_metadata config0; a_streams := sg |}.

Definition akms0 : akms := akms_of 0 [].

Lemma kms0_rep : app_rep kms0 akms0 [].
Proof.
  exists []. split_and!; [done| |by vm_compute|done|done].
  split_and!; [by intros b _ | done | done | apply NoDup_nil_2].
Qed.

(** A request for 8-byte keys between two applications, under [id]. *)
Definition qos0 : qos (list byte) :=
  {| key_chunk_size := 8; max_bps := 100; min_bps := 1; jitter := 0; priority := 0;
     timeout := 1000; ttl := 10; metadata_mimetype := lit "application/json" |}.

Definition open0 (id : uuid_t) : open_connect_request (list byte) :=
  {| ocq_source := lit "qkd://alice"; ocq_destination := lit "qkd://bob"; ocq_qos := qos0;
     ocq_key_stream_id := id |}.

Definition header0 (sv : Z) (body : list byte) : qkd_header_t :=
  {| version := QKD_004_VERSION; service := sv; payload_size := Z.of_nat (length body) |}.

(** A connection on which a peer has sent a header and a payload. *)
Definition conn (sv : Z) (body : list byte) : ssl :=
  {| Concrete.incoming := [enc header_codec (header0 sv body); body]; Concrete.outgoing := [] |}.

Definition drained : ssl := {| Concrete.incoming := []; Concrete.outgoing := [] |}.

(** A library with one context, whose state is its verification mode, in which every
    operation succeeds and every connection is [c]. *)
Definition one_context_to (c : ssl) : @Tls Concrete.tls := {|
  env := Z;
  SSL_CTX := unit;
  SSL_CTX_new _ e := (Some tt, e);
  SSL_CTX_set_ecdh_auto _ _ e := (1, e);
  SSL_CTX_set_max_proto_version _ _ e := (1, e);
  SSL_CTX_set_cipher_list _ _ e := (1, e);
  SSL_CTX_use_certificate_file _ _ e := (1, e);
  SSL_CTX_use_PrivateKey_file _ _ e := (1, e);
  SSL_CTX_check_private_key _ e := (1, e);
  SSL_CTX_load_verify_locations _ _ e := (1, e);
  SSL_CTX_set_verify _ mode _ := (tt, mode);
  SSL_CTX_free _ e := (tt, e);
  SSL_CTX_get_verify_mode _ e := e;
  SSL_new _ e := (Some c, e);
  SSL_set_fd c _ e := (c, e);
  SSL_connect c e := ((1, c), e);
  socket e := (3, e);
  connect _ _ _ e := (0, e);
  setsockopt _ e := (0, e);
  bind _ _ _ e := (0, e);
  listen _ _ e := (0, e);
  getuid e := (1000, e);
  accept _ e := (4, e);
  SSL_accept c e := ((1, c), e);
  SSL_shutdown _ e := (1, e);
  SSL_free _ e := (tt, e);
  close _ e := (0, e);
|}.

Definition one_context : @Tls Concrete.tls := one_context_to drained.

Lemma one_context_ok : @TlsOk _ one_context.
Proof. done. Qed.

(** ** A client of scripted connections *)

(** A peer that answers with the message [bs] of the service [sv]. *)
Definition replying (sv : qkd_service) (bs : list byte) : ssl :=
  {| Concrete.incoming := [enc header_codec (header_for sv bs); bs]; Concrete.outgoing := [] |}.

(** A library whose state is the list of the connections that are made, one after the
    other; every other operation succeeds. *)
Definition connections : @Tls Concrete.tls := {|
  env := list ssl;
  SSL_CTX := unit;
  SSL_CTX_new _ e := (Some tt, e);
  SSL_CTX_set_ecdh_auto _ _ e := (1, e);
  SSL_CTX_set_max_proto_version _ _ e := (1, e);
  SSL_CTX_set_cipher_list _ _ e := (1, e);
  SSL_CTX_use_certificate_file _ _ e := (1, e);
  SSL_CTX_use_PrivateKey_file _ _ e := (1, e);
  SSL_CTX_check_private_key _ e := (1, e);
  SSL_CTX_load_verify_locations _ _ e := (1, e);
  SSL_CTX_set_verify _ _ e := (tt, e);
  SSL_CTX_free _ e := (tt, e);
  SSL_CTX_get_verify_mode _ _ := 0;
  SSL_new _ e := (Some (hd drained e), tl e);
  SSL_set_fd c _ e := (c, e);
  SSL_connect c e := ((1, c), e);
  socket e := (3, e);
  connect _ _ _ e := (0, e);
  setsockopt _ e := (0, e);
  bind _ _ _ e := (0, e);
  listen _ _ e := (0, e);
  getuid e := (1000, e);
  accept _ e := (4, e);
  SSL_accept c e := ((1, c), e);
  SSL_shutdown _ e := (1, e);
  SSL_free _ e := (tt, e);
  close _ e := (0, e);
|}.

Lemma replying_answers (cfg : qkd_client_context_data_t) sv bs req rest :
  0 < Z.of_nat (length bs) < 2 ^ 20 ->
  answers (TLS := connections) cfg (replying sv bs :: rest) req (header_for sv bs) bs rest.
Proof.
  intros Hb. exists (replying sv bs),
    {| Concrete.incoming := []; Concrete.outgoing := [req] |},
    {| Concrete.incoming := [bs]; Concrete.outgoing := [req] |}.
  split; [by destruct cfg as [? ? [|] [|] [|] ?]|]. split; [done|]. split.
  - unfold delivers. cbn [SSL_read Concrete.tls Concrete.incoming payload_size header_for].
    rewrite Nat2Z.id, take_ge, drop_ge by lia. done.
  - assert (header_ok (header_for sv bs)) as Hh.
    { split; [split_and!; decided|]. split; [by destruct sv; decided|].
      unfold u32. change (0 <= Z.of_nat (length bs) < 2 ^ 32). lia. }
    change (payload_size (header_for sv bs)) with (Z.of_nat (length bs)).
    change stack_limit with 8388608. change sizeof_header with 8.
    split; [exact Hh|]. split; [done|]. lia.
Qed.

(** The server has written the message [bs] and it arrives at the client. *)
Lemma answer_written c req sv bs : Z.of_nat (length bs) <= stack_limit ->
  (exists c1 c2,
     delivers (SSL_write c req).2 sizeof_header (enc header_codec (header_for sv bs)) c1 /\
     delivers c1 (Z.of_nat (length bs)) bs c2) ->
  answer_arrives c req drained (SSL_write drained (message sv bs)).2.
Proof.
  intros Hbs Hd sv' bs' H. assert (message sv bs = message sv' bs') as E
    by exact (f_equal (fun c => hd [] (Concrete.outgoing c)) H).
  rewrite <- (message_header_inj _ _ _ _ E). by apply message_inj in E as <-.
Qed.
