(* ===== verification/CodecTheorems.v ===== *)
(** The serializers, the sizes and the copies: properties of [Serializers.v], [Sizes.v]
    and [Copy.v] against the wire format of [Wire.v]. *)

From S2P Require Import Prelude Models Memory Wire Sizes Platform Printf Serializers.
From S2P Require Import SerializersSpec Copy Scenario.

(** ** Reading messages *)

(** C16: the readers of requests decode the wire format.  From any initialised bytes,
    [qkd_header_from_stream] and the three [qkd_*_request_from_stream] return the
    message that the abstract decoder finds, advance the cursor by the size of its
    encoding and put each string or buffer in a new block of its own; bytes that the
    decoder rejects, a string without terminator or a buffer longer than what is left,
    are read out of bounds: the functions do not check the size of what was received. *)
Theorem requests_from_stream {ML : Malloc} {MT : MallocTotal} {LU : Libuuid} {LO : LibuuidOk} :
  reads qkd_header_from_stream header_codec (fun _ => []) (fun _ h => h) /\
  reads qkd_open_connect_request_from_stream oc_request_codec
    (fun v => [Some (enc_cstr (ocq_source v)); Some (enc_cstr (ocq_destination v));
               Some (enc_cstr (metadata_mimetype (ocq_qos v))); None])
    (fun n v => {| ocq_source := Ptr n 0; ocq_destination := Ptr (n + 1) 0;
                   ocq_qos := qos_map (fun _ => Ptr (n + 2) 0) (ocq_qos v);
                   ocq_key_stream_id := ocq_key_stream_id v |}) /\
  reads qkd_get_key_request_from_stream gk_request_codec (fun v => [None; Some (gkq_metadata v)])
    (fun n v => {| gkq_key_stream_id := gkq_key_stream_id v; gkq_index := gkq_index v;
                   gkq_metadata := {| size := Z.of_nat (length (gkq_metadata v));
                                      data := Ptr (n + 1) 0 |} |}) /\
  reads qkd_close_request_from_stream cl_request_codec (fun _ => [None]) (fun _ v => v).
Proof.
  split_and!; [apply reads_header | apply reads_oc_request | apply reads_gk_request |
               apply reads_cl_request].
Qed.

(** A block with the encoding of a message. *)
Definition wire_mem (bs : list byte) : mem := alloc (Bytes (Some <$> bs)) mem0.

Lemma mem0_wf : mem_wf mem0.
Proof. by intros b _. Qed.

Lemma requests_from_stream_witness :
  let v := {| clq_key_stream_id := Concrete.seq_uuid 4 |} in
  qkd_close_request_from_stream (Ptr 0 0) (wire_mem (enc cl_request_codec v)) =
    Ret (v, Ptr 0 16) (bump (wire_mem (enc cl_request_codec v))).
Proof.
  intros v. destruct requests_from_stream as (_ & _ & _ & H).
  apply (H _ 0%nat [] (enc cl_request_codec v)).
  - apply mem_wf_alloc, mem0_wf.
  - by vm_compute.
  - apply lookup_alloc.
Defined.

(** C24: the readers of responses decode the wire format, in the same way. *)
Theorem responses_from_stream {ML : Malloc} {MT : MallocTotal} {LU : Libuuid} {LO : LibuuidOk} :
  reads qkd_open_connect_response_from_stream oc_response_codec
    (fun v => [Some (enc_cstr (metadata_mimetype (ocr_qos v))); None])
    (fun n v => {| ocr_status := ocr_status v;
                   ocr_qos := qos_map (fun _ => Ptr n 0) (ocr_qos v);
                   ocr_key_stream_id := ocr_key_stream_id v |}) /\
  reads qkd_get_key_response_from_stream gk_response_codec
    (fun v => [Some (gkr_key_buffer v); Some (gkr_metadata v)])
    (fun n v => {| gkr_status := gkr_status v; gkr_index := gkr_index v;
                   gkr_key_buffer := {| size := Z.of_nat (length (gkr_key_buffer v));
                                        data := Ptr n 0 |};
                   gkr_metadata := {| size := Z.of_nat (length (gkr_metadata v));
                                      data := Ptr (n + 1) 0 |} |}) /\
  reads qkd_close_response_from_stream cl_response_codec (fun _ => []) (fun _ v => v).
Proof.
  split_and!; [apply reads_oc_response | apply reads_gk_response | apply reads_cl_response].
Qed.

Lemma responses_from_stream_witness :
  qkd_close_response_from_stream (Ptr 0 0) (wire_mem [x00; x00; x01; x02; x99]) =
    Ret ({| clr_status := 258 |}, Ptr 0 4) (wire_mem [x00; x00; x01; x02; x99]).
Proof.
  destruct responses_from_stream as (_ & _ & H).
  apply (H (wire_mem [x00; x00; x01; x02; x99]) 0%nat [] [x00; x00; x01; x02; x99]).
  - apply mem_wf_alloc, mem0_wf.
  - by vm_compute.
  - apply lookup_alloc.
Defined.

(** ** Writing messages *)

(** C23: the writers produce the wire format.  Given a struct in memory that stands for
    the message [v], and a cursor into another block, each [qkd_*_to_stream] stores
    exactly the encoding of [v] there, moves the cursor behind it and changes nothing
    else; where the block has no room for the encoding it is written out of bounds. *)
Theorem to_stream_writes {ML : Malloc} {MT : MallocTotal} {LU : Libuuid} {LO : LibuuidOk} b :
  (forall R h, writes b R (qkd_header_to_stream h) (enc header_codec h)) /\
  (forall r v, oc_request_avoids b r -> uuid_ok (ocq_key_stream_id v) ->
    writes b (fun m => oc_request_at m r v /\ oc_request_short v)
      (qkd_open_connect_request_to_stream r) (enc oc_request_codec v)) /\
  (forall r v, qos_avoids b (ocr_qos r) -> uuid_ok (ocr_key_stream_id v) ->
    writes b (fun m => oc_response_at m r v /\ short (metadata_mimetype (ocr_qos v)))
      (qkd_open_connect_response_to_stream r) (enc oc_response_codec v)) /\
  (forall r v, avoids b (data (gkq_metadata r)) -> uuid_ok (gkq_key_stream_id v) ->
    writes b (fun m => gk_request_at m r v)
      (qkd_get_key_request_to_stream r) (enc gk_request_codec v)) /\
  (forall r v, avoids b (data (gkr_key_buffer r)) -> avoids b (data (gkr_metadata r)) ->
    writes b (fun m => gk_response_at m r v)
      (qkd_get_key_response_to_stream r) (enc gk_response_codec v)) /\
  (forall R v, cl_request_ok v ->
    writes b R (qkd_close_request_to_stream v) (enc cl_request_codec v)) /\
  (forall R v, writes b R (qkd_close_response_to_stream v) (enc cl_response_codec v)).
Proof.
  split_and!; intros; auto using writes_header, writes_oc_request, writes_oc_response,
    writes_gk_request, writes_gk_response, writes_cl_request, writes_cl_response.
Qed.

Lemma to_stream_writes_witness :
  qkd_close_request_to_stream {| clq_key_stream_id := Concrete.seq_uuid 4 |} (Ptr 0 0)
    (alloc (Bytes (replicate 15 None)) mem0) = Fault OutOfBounds.
Proof.
  destruct (to_stream_writes 0) as (_ & _ & _ & _ & _ & H & _).
  apply (H (fun _ => True) {| clq_key_stream_id := Concrete.seq_uuid 4 |} eq_refl
           (alloc (Bytes (replicate 15 None)) mem0) [] (replicate 15 None) I).
  apply lookup_alloc.
Defined.

(** ** Round trips *)

(** Writing the message of [r] to the block [b] and reading it back gives a struct
    [r'] that stands for the same message, with the cursor at the same place. *)
Definition transports {T A} (to : T -> ptr -> C mem ptr) (from : ptr -> C mem (T * ptr))
    (at_ : mem -> T -> A -> Prop) (b : nat) (m : mem) (r : T) (v : A) : Prop :=
  exists p m' r' m'',
    to r (Ptr b 0) m = Ret p m' /\ from (Ptr b 0) m' = Ret (r', p) m'' /\ at_ m'' r' v.

(** A block for the encoding of [v]. *)
Definition room {A} (c : codec A) (v : A) (b : nat) (m : mem) : Prop :=
  mem_wf m /\ short (enc c v) /\
  exists l, heap m !! b = Some (Bytes l) /\ length l = length (enc c v).

Section roundtrips.
Context {ML : Malloc} {MT : MallocTotal} {LU : Libuuid} {LO : LibuuidOk}.

Lemma transports_oc_request b m r v : room oc_request_codec v b m -> oc_request_ok v ->
  oc_request_avoids b r -> oc_request_at m r v -> oc_request_short v ->
  transports qkd_open_connect_request_to_stream qkd_open_connect_request_from_stream
    oc_request_at b m r v.
Proof.
  intros (Hm & Hs & l & Hb & Hl) (Hv1 & Hv2 & Hv3 & Hv4) Ha Hat Hsh.
  edestruct (write_read _ _ _ _ _ _ v m b l (writes_oc_request b r v Ha Hv4) reads_oc_request)
    as (H1 & H2 & Hm'); try done.
  do 4 eexists. split; [exact H1|]. split; [exact H2|].
  split_and!; [|by apply (str_at_allocs _ (set_block _ _ _) 1)|
    split; [apply (str_at_allocs _ (set_block _ _ _) 2); [done..|apply Hv3]|done]|done].
  by apply (str_at_allocs0 _ (set_block _ _ _)).
Qed.

Lemma transports_oc_response b m r v : room oc_response_codec v b m -> oc_response_ok v ->
  qos_avoids b (ocr_qos r) -> oc_response_at m r v -> short (metadata_mimetype (ocr_qos v)) ->
  transports qkd_open_connect_response_to_stream qkd_open_connect_response_from_stream
    oc_response_at b m r v.
Proof.
  intros (Hm & Hs & l & Hb & Hl) (Hv1 & Hv2 & Hv3) Ha Hat Hsh.
  edestruct (write_read _ _ _ _ _ _ v m b l (writes_oc_response b r v Ha Hv3) reads_oc_response)
    as (H1 & H2 & Hm'); try done.
  do 4 eexists. split; [exact H1|]. split; [exact H2|].
  split_and!; [done| |done]. split; [|done].
  apply (str_at_allocs0 _ (set_block _ _ _)); [done|apply Hv2].
Qed.

Lemma transports_gk_request b m r v : room gk_request_codec v b m -> gk_request_ok v ->
  avoids b (data (gkq_metadata r)) -> gk_request_at m r v ->
  transports qkd_get_key_request_to_stream qkd_get_key_request_from_stream
    gk_request_at b m r v.
Proof.
  intros (Hm & Hs & l & Hb & Hl) (Hv1 & Hv2 & Hv3) Ha Hat.
  edestruct (write_read _ _ _ _ _ _ v m b l (writes_gk_request b r v Ha Hv1) reads_gk_request)
    as (H1 & H2 & Hm'); try done.
  do 4 eexists. split; [exact H1|]. split; [exact H2|].
  split_and!; [done..|by apply (bytes_at_allocs _ (set_block _ _ _) 1)].
Qed.

Lemma transports_gk_response b m r v : room gk_response_codec v b m -> gk_response_ok v ->
  avoids b (data (gkr_key_buffer r)) -> avoids b (data (gkr_metadata r)) ->
  gk_response_at m r v ->
  transports qkd_get_key_response_to_stream qkd_get_key_response_from_stream
    gk_response_at b m r v.
Proof.
  intros (Hm & Hs & l & Hb & Hl) (Hv1 & Hv2 & Hv3 & Hv4) Ha Ha' Hat.
  edestruct (write_read _ _ _ _ _ _ v m b l (writes_gk_response b r v Ha Ha') reads_gk_response)
    as (H1 & H2 & Hm'); try done.
  do 4 eexists. split; [exact H1|]. split; [exact H2|].
  split_and!; [done..| |by apply (bytes_at_allocs _ (set_block _ _ _) 1)].
  by apply (bytes_at_allocs0 _ (set_block _ _ _)).
Qed.

End roundtrips.

(** C12: writing a message and reading it back is the identity on messages.  For each
    request and response, a struct that stands for a well-formed message, written into a
    buffer of the size of its encoding, is read back as a struct that stands for the
    same message; the reader stops where the writer stopped. *)
Theorem messages_roundtrip {ML : Malloc} {MT : MallocTotal} {LU : Libuuid} {LO : LibuuidOk} b m :
  (forall r v, room oc_request_codec v b m -> oc_request_ok v ->
    oc_request_avoids b r -> oc_request_at m r v -> oc_request_short v ->
    transports qkd_open_connect_request_to_stream qkd_open_connect_request_from_stream
      oc_request_at b m r v) /\
  (forall r v, room oc_response_codec v b m -> oc_response_ok v ->
    qos_avoids b (ocr_qos r) -> oc_response_at m r v -> short (metadata_mimetype (ocr_qos v)) ->
    transports qkd_open_connect_response_to_stream qkd_open_connect_response_from_stream
      oc_response_at b m r v) /\
  (forall r v, room gk_request_codec v b m -> gk_request_ok v ->
    avoids b (data (gkq_metadata r)) -> gk_request_at m r v ->
    transports qkd_get_key_request_to_stream qkd_get_key_request_from_stream
      gk_request_at b m r v) /\
  (forall r v, room gk_response_codec v b m -> gk_response_ok v ->
    avoids b (data (gkr_key_buffer r)) -> avoids b (data (gkr_metadata r)) ->
    gk_response_at m r v ->
    transports qkd_get_key_response_to_stream qkd_get_key_response_from_stream
      gk_response_at b m r v).
Proof.
  split_and!; intros;
    auto using transports_oc_request, transports_oc_response, transports_gk_request,
      transports_gk_response.
Qed.

(** A GET_KEY request with metadata in block 0 and room for its encoding in block 1. *)
Definition gk0 : get_key_request (list byte) :=
  {| gkq_key_stream_id := Concrete.seq_uuid 7; gkq_index := 5; gkq_metadata := [x01; x10] |}.

Definition gk0_mem : mem :=
  alloc (Bytes (replicate 26 None)) (alloc (Bytes (Some <$> gkq_metadata gk0)) mem0).

Definition gk0_struct : qkd_get_key_request_t :=
  {| gkq_key_stream_id := Concrete.seq_uuid 7; gkq_index := 5;
     gkq_metadata := {| size := 2; data := Ptr 0 0 |} |}.

Lemma gk0_at : gk_request_at gk0_mem gk0_struct gk0.
Proof.
  split_and!; [done..|]. apply (bytes_at_block gk0_mem 0 [x01; x10]); [by vm_compute|done].
Qed.

Lemma messages_roundtrip_witness :
  transports qkd_get_key_request_to_stream qkd_get_key_request_from_stream gk_request_at
    1 gk0_mem gk0_struct gk0.
Proof.
  destruct (messages_roundtrip 1 gk0_mem) as (_ & _ & H & _). apply H.
  - split_and!; [by do 2 apply mem_wf_alloc; apply mem0_wf|by vm_compute|].
    eexists. by split.
  - split_and!; by vm_compute.
  - done.
  - apply gk0_at.
Defined.

(** ** Sizes *)

(** C26: the functions of [sizes.c] compute the length of the encoding.  For every message
    whose encoding fits the 32-bit payload size, [qkd_sizeof_*] returns exactly the
    number of bytes that the writer of the message produces; OPEN_CONNECT messages with
    a mimetype of [MIMETYPE_MAX] bytes or more before its terminator abort instead (255 and
    the terminator fit). *)
Theorem sizes_are_lengths {LU : Libuuid} m :
  (forall r v, oc_request_at m r v -> uuid_ok (ocq_key_stream_id v) ->
    payload_fits oc_request_codec v ->
    qkd_sizeof_open_connect_request r m =
      if decide (mimetype_fits (ocq_qos v))
      then Ret (Z.of_nat (length (enc oc_request_codec v))) m else Aborted m) /\
  (forall r v, oc_response_at m r v -> uuid_ok (ocr_key_stream_id v) ->
    payload_fits oc_response_codec v ->
    qkd_sizeof_open_connect_response r m =
      if decide (mimetype_fits (ocr_qos v))
      then Ret (Z.of_nat (length (enc oc_response_codec v))) m else Aborted m) /\
  (forall r v, gk_request_at m r v -> uuid_ok (gkq_key_stream_id v) ->
    payload_fits gk_request_codec v ->
    qkd_sizeof_get_key_request r = Z.of_nat (length (enc gk_request_codec v))) /\
  (forall r v, gk_response_at m r v -> payload_fits gk_response_codec v ->
    qkd_sizeof_get_key_response r = Z.of_nat (length (enc gk_response_codec v))) /\
  (forall r, uuid_ok (clq_key_stream_id r) ->
    qkd_sizeof_close_request r = Z.of_nat (length (enc cl_request_codec r))) /\
  (forall r, qkd_sizeof_close_response r = Z.of_nat (length (enc cl_response_codec r))).
Proof.
  split_and!; intros; eauto using qkd_sizeof_open_connect_request_run,
    qkd_sizeof_open_connect_response_run, qkd_sizeof_get_key_request_run,
    qkd_sizeof_get_key_response_run.
  cbn. by match goal with H : uuid_ok _ |- _ => rewrite H end.
Qed.

Lemma sizes_are_lengths_witness : qkd_sizeof_get_key_request gk0_struct = 26.
Proof.
  destruct (sizes_are_lengths gk0_mem) as (_ & _ & H & _).
  etrans; [apply (H gk0_struct gk0); [apply gk0_at|done|by vm_compute]|done].
Defined.

(** [qkd_sizeof_bytes] adds an [int] to a [uint32_t], so that for a buffer of
    [2 ^ 32 - 4] bytes or more the size wraps around to less than four: a GET_KEY
    response with such a key gets a buffer of at most twelve bytes besides the metadata,
    and writing the response into it runs out of bounds. *)
Theorem sizeof_bytes_wraps {ML : Malloc} {MT : MallocTotal} {LU : Libuuid} {LO : LibuuidOk}
    m r v b pre rest :
  gk_response_at m r v -> 2 ^ 32 - 4 <= Z.of_nat (length (gkr_key_buffer v)) ->
  Z.of_nat (length (gkr_metadata v)) < 2 ^ 32 - 4 ->
  avoids b (data (gkr_key_buffer r)) -> avoids b (data (gkr_metadata r)) ->
  heap m !! b = Some (Bytes (pre ++ rest)) ->
  Z.of_nat (length rest) = qkd_sizeof_get_key_response r ->
  qkd_sizeof_key_buffer (gkr_key_buffer r) < 4 /\
  qkd_get_key_response_to_stream r (Ptr b (length pre)) m = Fault OutOfBounds.
Proof.
  intros Hat Hk Hd Ha Ha' Hb Hl. pose proof Hat as (_ & _ & (Hkb & Hks & _) & (_ & Hds & _)).
  unfold blob_ok in Hkb.
  assert (qkd_sizeof_key_buffer (gkr_key_buffer r) =
    Z.of_nat (length (gkr_key_buffer v)) + 4 - 2 ^ 32) as E.
  { unfold qkd_sizeof_key_buffer, qkd_sizeof_bytes, wrap32, sizeof_uint32. rewrite Hks.
    rewrite <- (Z_mod_plus_full _ (-1)), Z.mod_small by lia. lia. }
  split; [lia|]. rewrite (writes_gk_response b r v Ha Ha' m pre rest Hat Hb), decide_False; [done|].
  rewrite length_enc_gk_response. unfold qkd_sizeof_get_key_response in Hl. rewrite E in Hl.
  unfold qkd_sizeof_metadata, qkd_sizeof_bytes in Hl.
  rewrite Hds, wrap32_small in Hl by (unfold sizeof_uint32, u32; lia).
  revert Hl. size_arith. lia.
Qed.

(** A key of [n] zero bytes in block 0, no metadata, and [k] bytes for the response. *)
Definition big_response (n : nat) : get_key_response (list byte) :=
  {| gkr_status := 0; gkr_index := 0; gkr_key_buffer := replicate n x00; gkr_metadata := [] |}.

Definition big_struct (n : nat) : qkd_get_key_response_t :=
  {| gkr_status := 0; gkr_index := 0;
     gkr_key_buffer := {| size := Z.of_nat n; data := Ptr 0 0 |};
     gkr_metadata := {| size := 0; data := Null |} |}.

Definition big_mem (n k : nat) : mem :=
  alloc (Bytes (replicate k None)) (alloc (Bytes (Some <$> replicate n x00)) mem0).

Lemma big_response_at n k : Z.of_nat n < 2 ^ 32 ->
  gk_response_at (big_mem n k) (big_struct n) (big_response n).
Proof.
  intros Hn. split_and!; [done..| |split_and!; [done..|by left]].
  unfold big_struct, big_response. cbn [gkr_key_buffer].
  replace (Z.of_nat n) with (Z.of_nat (length (replicate n x00))) by by rewrite length_replicate.
  apply bytes_at_block; [unfold blob_ok; by rewrite length_replicate|done].
Qed.

Lemma big_size n : 2 ^ 32 - 4 <= Z.of_nat n < 2 ^ 32 ->
  qkd_sizeof_get_key_response (big_struct n) = 12 + (Z.of_nat n + 4 - 2 ^ 32).
Proof.
  intros Hn. unfold qkd_sizeof_get_key_response, big_struct, qkd_sizeof_key_buffer,
    qkd_sizeof_metadata, qkd_sizeof_bytes, sizeof_uint32. cbn [gkr_key_buffer gkr_metadata size].
  replace (wrap32 (4 + Z.of_nat n)) with (Z.of_nat n + 4 - 2 ^ 32).
  - rewrite (wrap32_small (4 + 0)) by (unfold u32; lia).
    size_arith. lia.
  - unfold wrap32. rewrite <- (Z_mod_plus_full _ (-1)), Z.mod_small by lia. lia.
Qed.

Lemma sizeof_bytes_wraps_witness :
  exists n, qkd_sizeof_key_buffer (gkr_key_buffer (big_struct n)) < 4 /\
    qkd_get_key_response_to_stream (big_struct n) (Ptr 1 0) (big_mem n 12) = Fault OutOfBounds.
Proof.
  exists (Z.to_nat (2 ^ 32 - 4)).
  assert (exists n, n = Z.to_nat (2 ^ 32 - 4)) as [n Hn] by (eexists; reflexivity).
  rewrite <- Hn. assert (Z.of_nat n = 2 ^ 32 - 4) as Hz by lia. clear Hn.
  apply (sizeof_bytes_wraps (big_mem n 12) (big_struct n) (big_response n) 1 [] (replicate 12 None)).
  - apply big_response_at. lia.
  - cbn [big_response gkr_key_buffer]. rewrite length_replicate. lia.
  - cbn. lia.
  - done.
  - done.
  - done.
  - rewrite big_size by lia. rewrite Hz. done.
Defined.

(** ** Copies *)

(** C34: [qkd_copy_str] makes a deep copy.  The string goes to a new block, in which it
    stays whatever happens to the source afterwards; a string that was at [*dst] is
    freed first, and nothing else changes. *)
Theorem qkd_copy_str_deep {ML : Malloc} {MT : MallocTotal} m dst src s :
  mem_wf m -> str_at m src s -> short s ->
  match dst with
  | Null => True
  | Ptr b off => off = 0%nat /\ is_Some (heap m !! b) /\ avoids b src
  end ->
  exists p m',
    qkd_copy_str dst src m = Ret p m' /\ str_at m' p s /\
    (forall b c, p <> Ptr b 0 -> str_at (set_block b c m') p s) /\
    (forall b, (b < next m)%nat -> avoids b dst -> heap m' !! b = heap m !! b) /\
    (forall b, ~ avoids b dst -> heap m' !! b = None).
Proof.
  intros Hm Hs Hlen Hdst.
  set (m1 := match dst with Null => m | Ptr b _ => dealloc b m end).
  assert (mem_wf m1) as Hm1 by (unfold m1; destruct dst; auto with c_mem).
  assert (next m1 = next m) as Hn by (unfold m1; by destruct dst).
  exists (Ptr (next m) 0), (alloc (Bytes (Some <$> enc_cstr s)) m1).
  assert (str_at (alloc (Bytes (Some <$> enc_cstr s)) m1) (Ptr (next m) 0) s) as Hat.
  { apply str_at_block; [by eapply str_at_ok|]. rewrite <- Hn. apply lookup_alloc. }
  split_and!; [|done|..].
  - subst m1. destruct dst as [|b off]; [by apply qkd_copy_str_null|].
    destruct Hdst as (-> & Hb & Ha). by apply (qkd_copy_str_old m).
  - intros b c Hb. apply str_at_stable; [|done]. cbn. congruence.
  - intros b Hb Ha. rewrite lookup_alloc_ne by lia. subst m1. destruct dst as [|b' off]; [done|].
    cbn in *. by rewrite lookup_delete_ne.
  - intros b Hb. subst m1. destruct dst as [|b' off]; [done|]. cbn in *.
    destruct (decide (b' = b)) as [->|]; [|done]. destruct Hdst as (_ & Hl & _).
    apply (mem_wf_live _ _ Hm) in Hl. rewrite lookup_insert_ne by lia. apply lookup_delete_eq.
Qed.

(** [dst] in block 0 and [src] in block 1. *)
Definition two_strings (s t : list byte) : mem :=
  alloc (Bytes (Some <$> enc_cstr t)) (alloc (Bytes (Some <$> enc_cstr s)) mem0).

Lemma qkd_copy_str_deep_witness :
  exists p m', qkd_copy_str (Ptr 0 0) (Ptr 1 0) (two_strings (lit "old") (lit "new")) = Ret p m' /\
    str_at m' p (lit "new").
Proof.
  destruct (qkd_copy_str_deep (two_strings (lit "old") (lit "new")) (Ptr 0 0) (Ptr 1 0) (lit "new"))
    as (p & m' & H & Hs & _).
  - do 2 apply mem_wf_alloc. apply mem0_wf.
  - apply str_at_block; [decided|done].
  - by vm_compute.
  - split_and!; [done|eexists; reflexivity|done].
  - by exists p, m'.
Defined.

(** [qkd_copy_str] of a string onto itself reads it after it has been freed: the
    destination is freed before the source is copied. *)
Theorem qkd_copy_str_alias {ML : Malloc} {MT : MallocTotal} m b s :
  mem_wf m -> str_at m (Ptr b 0) s -> short s ->
  qkd_copy_str (Ptr b 0) (Ptr b 0) m = Fault UseAfterFree.
Proof.
  intros Hm Hs Hlen. pose proof Hs as (_ & b' & off & l & rest & [= <- <-] & Hb & _).
  unfold short in Hlen. unfold qkd_copy_str.
  erewrite cbind_ret by (apply qkd_sizeof_str_run; [done | lia]).
  rewrite decide_True by done. erewrite cbind_ret by by apply free_ok. crun malloc_ok.
  erewrite cbind_fault; [done|]. unfold memcpy. erewrite cbind_fault; [done|].
  unfold load_bytes. rewrite length_enc_cstr, (proj2 (Z.leb_gt _ _)) by lia.
  pose proof (mem_wf_live _ _ Hm (mk_is_Some _ _ Hb)).
  cbn. rewrite lookup_insert_ne by (cbn; lia). by rewrite lookup_delete_eq.
Qed.

Lemma qkd_copy_str_alias_witness :
  qkd_copy_str (Ptr 0 0) (Ptr 0 0) (wire_mem (enc_cstr (lit "id"))) = Fault UseAfterFree.
Proof.
  apply (qkd_copy_str_alias _ _ (lit "id")).
  - apply mem_wf_alloc, mem0_wf.
  - apply str_at_block; [decided|done].
  - by vm_compute.
Defined.

(** The functions of [memory_free_utils.c] may be called again on the same message:
    what they free they set to null, so that the second call frees nothing and no block
    is freed twice. *)
Theorem free_twice {ML : Malloc} m x m' :
  (forall r, free_qkd_open_connect_request r m = Ret x m' ->
     free_qkd_open_connect_request x m' = Ret x m') /\
  (forall r y, free_qkd_open_connect_response (Some r) m = Ret y m' ->
     free_qkd_open_connect_response y m' = Ret y m') /\
  (forall r y, free_qkd_get_key_response (Some r) m = Ret y m' ->
     free_qkd_get_key_response y m' = Ret y m').
Proof.
  split_and!.
  - intros [r|]; cbn; [|by intros [= <- <-]].
    intros (? & m1 & _ & (? & m2 & _ & (? & m3 & H & [= <- <-])%cbind_inv)%cbind_inv)%cbind_inv.
    apply cbind_inv in H as (? & m4 & _ & [= <- <-]). done.
  - intros r y. cbn.
    intros (? & m1 & H & [= <- <-])%cbind_inv. apply cbind_inv in H as (? & m2 & _ & [= <- <-]).
    done.
  - intros r y. cbn.
    intros (? & m1 & H & (? & m2 & H' & [= <- <-])%cbind_inv)%cbind_inv.
    apply cbind_inv in H as (? & ? & _ & [= <- <-]), H' as (? & ? & _ & [= <- <-]). done.
Qed.

Lemma free_twice_witness :
  let r := {| ocr_status := 0; ocr_qos := set_metadata_mimetype qkd_qos_zero (Ptr 0 0);
              ocr_key_stream_id := uuid_nil |} in
  exists y m', free_qkd_open_connect_response (Some r) (wire_mem (enc_cstr [])) = Ret y m' /\
    free_qkd_open_connect_response y m' = Ret y m'.
Proof.
  intros r. eexists _, _. split; [by vm_compute|].
  apply (free_twice (wire_mem (enc_cstr [])) None) with (r := r). by vm_compute.
Defined.
