(* ===== verification/KmsTheorems.v ===== *)
(** The key management server: properties of the handlers of [Kms.v]. *)

From S2P Require Import Prelude Models Memory Wire Sizes Platform Printf SerializersSpec Copy Kms.
From S2P Require Import KmsSpec KmsProofs Interfaces KmsApp Scenario.

(** ** The handlers implement the abstract server *)

Section handlers.
Context {ML : Malloc} {LU : Libuuid} {RD : Rand} {MT : MallocTotal} {LO : LibuuidOk}.

(** C8: OPEN_CONNECT implements its specification [abs_open].  A nil key stream id gets
    the id of the stream of the pair, and where there is none a new stream at the end of
    the list, with copies of its strings in blocks of its own and a fresh id; any other
    id is given back as it is.  The status is always success and memory outside the list
    of streams is unchanged. *)
Theorem open_connect_refines s a F src dst q s0 d0 v id st0 :
  akms_rep s a F -> uuid_ok id -> str_at (k_mem s) src s0 -> str_at (k_mem s) dst d0 ->
  qos_at (k_mem s) q v -> open_args_ok s0 d0 v ->
  exists s' F',
    qkd_open_connect src dst q id st0 s =
      Ret (q, (abs_open s0 d0 v id (a_uuid a) (a_streams a)).1.1,
           status_code qkd_status_code_successful) s' /\
    akms_rep s' {| a_uuid := (abs_open s0 d0 v id (a_uuid a) (a_streams a)).1.2;
                   a_metadata := a_metadata a;
                   a_streams := (abs_open s0 d0 v id (a_uuid a) (a_streams a)).2 |} F' /\
    frame (k_mem s) (k_mem s') F F' [].
Proof.
  intros Hrep Hid Hs Hd Hq Hok.
  destruct (akms_open_ok s a F src dst q s0 d0 v id st0) as (_ & s' & F' & H); try done.
  exists s', F'. cbn in H. by destruct (abs_open _ _ _ _ _ _) as [[id' g] sg].
Qed.

(** C7: GET_KEY implements its specification [abs_get_key] on every branch.  An unknown
    key stream id is denied and changes nothing.  A known one is granted: the key of the
    stream at the index, for the key type and role of the metadata, and the description
    of the device are returned in two new blocks, the stream's counter goes up by one
    and no other memory changes.  Metadata too short for the type or role is read out
    of bounds, and a counter at its maximum overflows. *)
Theorem get_key_refines s a F b id index kb md st0 :
  akms_rep s a F -> uuid_ok id -> heap (k_mem s) !! b = Some (Bytes (Some <$> md)) ->
  match abs_get_key id index md a with
  | GkDenied status =>
      qkd_get_key id index kb (buffer b md) st0 s = Ret (index, kb, buffer b md, status) s
  | GkKey key md' a' =>
      exists s' k d,
        qkd_get_key id index kb (buffer b md) st0 s =
          Ret (index, buffer k key, buffer d md', status_code qkd_status_code_successful) s' /\
        akms_rep s' a' F /\ frame (k_mem s) (k_mem s') F F [k; d] /\ k <> d /\
        heap (k_mem s') !! k = Some (Bytes (Some <$> key)) /\
        heap (k_mem s') !! d = Some (Bytes (Some <$> md'))
  | GkFault f => qkd_get_key id index kb (buffer b md) st0 s = Fault f
  end.
Proof.
  intros Hrep Hid Hb. pose proof (akms_get_key_ok s a F b id index kb md st0 Hrep Hid Hb) as H.
  destruct (abs_get_key id index md a); [by destruct H| |done].
  destruct H as (_ & _ & s' & k & d & H1 & H2 & H3 & H4 & _ & _ & H5 & H6).
  by exists s', k, d.
Qed.

End handlers.

(** A server with the stream of [open0], and metadata in block 4. *)
Definition stream0 : stream :=
  {| st_ksid := Concrete.seq_uuid 0; st_qos := qos0; st_source := lit "qkd://alice";
     st_destination := lit "qkd://bob"; st_index := 0 |}.

Definition slot0 : slot := {| sl_node := 0; sl_mime := 1; sl_src := 2; sl_dst := 3 |}.

(** [stream0] with [n] keys taken and [md] in the block behind it. *)
Definition kms1 (n : Z) (md : list byte) : kms :=
  let st := {| st_ksid := st_ksid stream0; st_qos := qos0; st_source := st_source stream0;
               st_destination := st_destination stream0; st_index := n |} in
  {| k_mem := alloc (Bytes (Some <$> md))
       (alloc (Bytes (Some <$> enc_cstr (st_destination st)))
       (alloc (Bytes (Some <$> enc_cstr (st_source st)))
       (alloc (Bytes (Some <$> enc_cstr (metadata_mimetype qos0)))
       (alloc (Node (node_of st slot0 Null)) mem0))));
     k_rng := (0 : Z); k_uuid := 1%nat; k_clock := 1700000000;
     k_config := set_linked_list config0 (Ptr 0 0) |}.

Definition akms1 (n : Z) : akms :=
  {| a_uuid := 1%nat; a_metadata := device_metadata config0;
     a_streams := [{| st_ksid := st_ksid stream0; st_qos := qos0; st_source := st_source stream0;
                      st_destination := st_destination stream0; st_index := n |}] |}.

Lemma kms1_rep n md : akms_rep (kms1 n md) (akms1 n) [0; 1; 2; 3]%nat.
Proof.
  exists [slot0]. split; [done|]. split; [|split_and!; by vm_compute].
  split_and!; [|done| |].
  - do 5 apply mem_wf_alloc. by intros b _.
  - split_and!; [|split_and!; reflexivity|done].
    unfold stream_ok. split_and!; try (by vm_compute); decided.
  - decided.
Qed.

Lemma open_connect_refines_witness :
  exists s' F',
    qkd_open_connect (Ptr 2 0) (Ptr 3 0) (qos_map (fun _ => Ptr 1 0) qos0) uuid_nil 0 (kms1 0 []) =
      Ret (qos_map (fun _ => Ptr 1 0) qos0, st_ksid stream0, 0) s' /\
    frame (k_mem (kms1 0 [])) (k_mem s') [0; 1; 2; 3]%nat F' [].
Proof.
  destruct (open_connect_refines (kms1 0 []) (akms1 0) [0; 1; 2; 3]%nat (Ptr 2 0) (Ptr 3 0)
    (qos_map (fun _ => Ptr 1 0) qos0) (st_source stream0) (st_destination stream0) qos0 uuid_nil 0)
    as (s' & F' & H & _ & Hf).
  - apply kms1_rep.
  - done.
  - apply str_at_block; [decided|done].
  - apply str_at_block; [decided|done].
  - split; [|done]. apply str_at_block; [decided|done].
  - split_and!; try (by vm_compute); decided.
  - exists s', F'. split; [exact H|done].
Defined.

Lemma get_key_refines_witness :
  exists s' k d,
    qkd_get_key (st_ksid stream0) 7 qkd_bytes_zero (buffer 4 [x00]) 0 (kms1 0 [x00]) =
      Ret (7, buffer k (abs_key (lit "qkd://alice") (lit "qkd://bob") 8 7),
           buffer d (device_metadata config0), 0) s'.
Proof.
  pose proof (get_key_refines (kms1 0 [x00]) (akms1 0) [0; 1; 2; 3]%nat 4 (st_ksid stream0) 7
    qkd_bytes_zero [x00] 0 (kms1_rep 0 [x00]) eq_refl eq_refl) as H.
  destruct H as (s' & k & d & H & _). exists s', k, d. exact H.
Defined.

(** ** Keys *)

Section keys.
Context {ML : Malloc} {LU : Libuuid} {RD : Rand} {MT : MallocTotal} {LO : LibuuidOk}.

(** What GET_KEY for a stream gives on a server that represents [a]: the key. *)
Definition grants (s : kms) (b : nat) (id : uuid_t) (index : Z) (md key : list byte) : Prop :=
  exists s' k d md',
    qkd_get_key id index qkd_bytes_zero (buffer b md) 0 s =
      Ret (index, buffer k key, buffer d md', status_code qkd_status_code_successful) s' /\
    heap (k_mem s') !! k = Some (Bytes (Some <$> key)).

(** A stream [st] of the server [s] under [id], not used up, asked for with the metadata
    [md] in block [b], of type [kt] and role [kr]. *)
Definition asks (s : kms) (st : stream) (b : nat) (id : uuid_t) (md : list byte)
    (kt kr : byte) : Prop :=
  exists a F, akms_rep s a F /\ uuid_ok id /\ find_by_ksid id (a_streams a) = Some st /\
    st_index st < 2 ^ 31 - 1 /\ - 2 ^ 31 <= st_index st /\
    heap (k_mem s) !! b = Some (Bytes (Some <$> md)) /\ key_view md = Some (kt, kr).

Lemma asks_granted s st b id md kt kr index : asks s st b id md kt kr ->
  grants s b id index md (abs_key_for st index kt kr).
Proof.
  intros (a & F & Hrep & Hid & Hst & Hi & Hi' & Hb & Hv).
  pose proof (akms_get_key_ok s a F b id index qkd_bytes_zero md 0 Hrep Hid Hb) as H.
  unfold abs_get_key in H. rewrite Hst, Hv in H.
  rewrite decide_True in H by (unfold i32; lia).
  destruct H as (_ & _ & s' & k & d & H1 & _ & _ & _ & _ & _ & H5 & _).
  by exists s', k, d, (a_metadata a).
Qed.

(** C21: the two ends of a stream get the same key.  Two GET_KEY requests for symmetric
    keys at the same index return the same key bytes on any two servers, or at any two
    times on one, whose streams join the same applications with the same key size: it
    does not depend on the time, on the state of the generator, on the keys taken
    before, on other streams or on the key stream id. *)
Theorem symmetric_keys_agree s1 st1 b1 id1 md1 kr1 s2 st2 b2 id2 md2 kr2 index :
  asks s1 st1 b1 id1 md1 x00 kr1 -> asks s2 st2 b2 id2 md2 x00 kr2 ->
  st_source st1 = st_source st2 -> st_destination st1 = st_destination st2 ->
  key_chunk_size (st_qos st1) = key_chunk_size (st_qos st2) ->
  exists key, Z.of_nat (length key) = key_chunk_size (st_qos st1) /\
    grants s1 b1 id1 index md1 key /\ grants s2 b2 id2 index md2 key.
Proof.
  intros H1 H2 Hs Hd Hn.
  assert (abs_key_for st1 index x00 kr1 = abs_key_for st2 index x00 kr2) as E
    by (unfold abs_key_for; by rewrite Hs, Hd, Hn).
  exists (abs_key_for st1 index x00 kr1). split_and!.
  - rewrite length_abs_key_for. destruct H1 as (a & F & (ls & _ & (_ & _ & Hst & _) & _) & _ & Hf & _).
    apply streams_at_ok in Hst. rewrite Forall_forall in Hst.
    apply find_by_ksid_Some in Hf as [Hin _]. apply Hst, stream_ok_size in Hin.
    unfold u32 in Hin. lia.
  - by apply asks_granted.
  - rewrite E. by apply asks_granted.
Qed.

(** C22: the two views of an oblivious key.  At the same index the sender (role [0x10])
    gets the bytes [k] of the symmetric key, and the receiver the bytes that [k]
    determines: in even places [k] with every other bit set, in odd places every other
    bit of [k], shifted. *)
Theorem oblivious_views s1 st b1 id1 md1 s2 b2 id2 md2 kt kr index :
  asks s1 st b1 id1 md1 kt x10 -> asks s2 st b2 id2 md2 kt kr -> kt <> x00 -> kr <> x10 ->
  exists key, grants s1 b1 id1 index md1 key /\ grants s2 b2 id2 index md2 (imap mask_byte key) /\
    key = abs_key_for st index x00 kr.
Proof.
  intros H1 H2 Hkt Hkr. exists (abs_key_for st index x00 kr).
  apply (asks_granted _ _ _ _ _ _ _ index) in H1, H2. revert H1 H2.
  unfold abs_key_for. rewrite !(decide_False (P := kt = x00)) by done.
  rewrite (decide_False (P := kr = x10)), !decide_True by done. by intros ? ?.
Qed.

(** The generator behind the keys depends on the applications only through their
    hashes, and not on their order: source and destination swapped give the same key,
    and for an application and itself the key depends on the index alone. *)
Theorem key_seed_symmetric s src dst s0 d0 n index :
  str_at (k_mem s) src s0 -> str_at (k_mem s) dst d0 -> u32 n ->
  (exists s1 s2,
     gen_pseudorandom_key src dst n index s = Ret (key_buffer_at n (k_mem s)) s1 /\
     gen_pseudorandom_key dst src n index s = Ret (key_buffer_at n (k_mem s)) s2 /\
     k_mem s1 = k_mem s2) /\
  (exists s3, gen_pseudorandom_key src src n index s = Ret (key_buffer_at n (k_mem s)) s3 /\
     heap (k_mem s3) !! next (k_mem s) =
       Some (Bytes (Some <$> rand_bytes (srand index) (Z.to_nat n)))).
Proof.
  intros Hs Hd Hn.
  destruct (gen_pseudorandom_key_run s src dst s0 d0 n index Hs Hd Hn) as [g1 H1].
  destruct (gen_pseudorandom_key_run s dst src d0 s0 n index Hd Hs Hn) as [g2 H2].
  destruct (gen_pseudorandom_key_run s src src s0 s0 n index Hs Hs Hn) as [g3 H3].
  assert (abs_key s0 d0 (Z.to_nat n) index = abs_key d0 s0 (Z.to_nat n) index) as E.
  { unfold abs_key, abs_seed. by rewrite (Z.lxor_comm (abs_hash s0)). }
  split.
  - rewrite E in H1. by eexists _, _.
  - eexists. split; [exact H3|]. unfold abs_key, abs_seed.
    rewrite Z.lxor_nilpotent, Z.lxor_0_l. apply lookup_alloc.
Qed.

End keys.

(** [stream0] with [n] keys taken, as [kms1 n md] holds it. *)
Definition stream1 (n : Z) : stream :=
  {| st_ksid := st_ksid stream0; st_qos := qos0; st_source := st_source stream0;
     st_destination := st_destination stream0; st_index := n |}.

Lemma asks1 n md kt kr : - 2 ^ 31 <= n < 2 ^ 31 - 1 -> key_view md = Some (kt, kr) ->
  asks (kms1 n md) (stream1 n) 4 (st_ksid stream0) md kt kr.
Proof.
  intros Hn Hv. exists (akms1 n), [0; 1; 2; 3]%nat. split; [apply kms1_rep|].
  split_and!; try done; cbn; lia.
Qed.

Lemma symmetric_keys_agree_witness :
  exists key, Z.of_nat (length key) = 8 /\
    grants (kms1 0 [x00]) 4 (st_ksid stream0) 7 [x00] key /\
    grants (kms1 41 [x00; x11]) 4 (st_ksid stream0) 7 [x00; x11] key.
Proof.
  apply (symmetric_keys_agree (kms1 0 [x00]) (stream1 0) 4 (st_ksid stream0) [x00] x00
    (kms1 41 [x00; x11]) (stream1 41) 4 (st_ksid stream0) [x00; x11] x00); try done;
    by apply asks1.
Defined.

Lemma oblivious_views_witness :
  exists key, grants (kms1 0 [x01; x10]) 4 (st_ksid stream0) 7 [x01; x10] key /\
    grants (kms1 0 [x01; x11]) 4 (st_ksid stream0) 7 [x01; x11] (imap mask_byte key).
Proof.
  destruct (oblivious_views (kms1 0 [x01; x10]) (stream1 0) 4 (st_ksid stream0) [x01; x10]
    (kms1 0 [x01; x11]) 4 (st_ksid stream0) [x01; x11] x01 x11 7) as (key & H1 & H2 & _);
    try done; try by apply asks1.
  by exists key.
Defined.

Lemma key_seed_symmetric_witness :
  exists s3, gen_pseudorandom_key (Ptr 2 0) (Ptr 2 0) 8 7 (kms1 0 []) =
    Ret (key_buffer_at 8 (k_mem (kms1 0 []))) s3.
Proof.
  destruct (key_seed_symmetric (kms1 0 []) (Ptr 2 0) (Ptr 3 0) (lit "qkd://alice") (lit "qkd://bob")
    8 7) as [_ (s3 & H & _)].
  - apply str_at_block; [decided|done].
  - apply str_at_block; [decided|done].
  - decided.
  - by exists s3.
Defined.

(** The value of a string as a polynomial at 33, highest power first. *)
Fixpoint polynomial (s : list byte) : Z :=
  match s with
  | [] => 0
  | b :: s => b2z b * 33 ^ Z.of_nat (length s) + polynomial s
  end.

Lemma abs_hash_polynomial s h : 
  foldl (fun h b => wrap32 (33 * h + b2z b)) (wrap32 h) s =
    wrap32 (h * 33 ^ Z.of_nat (length s) + polynomial s).
Proof.
  revert h. induction s as [|b s IH]; intros h; [cbn; f_equal; lia|].
  cbn [foldl length polynomial].
  assert (wrap32 (33 * wrap32 h + b2z b) = wrap32 (33 * h + b2z b)) as ->.
  { unfold wrap32. rewrite <- Z.add_mod_idemp_l, Z.mul_mod_idemp_r, Z.add_mod_idemp_l by lia. done. }
  rewrite IH, Nat2Z.inj_succ, Z.pow_succ_r by lia. f_equal. ring.
Qed.

(** C35: [simple_hash] is the polynomial of the bytes at 33, modulo [2 ^ 32]: the sum of
    [s_i * 33 ^ (n - 1 - i)] over the [n] bytes of the string. *)
Theorem simple_hash_polynomial m p s :
  str_at m p s -> simple_hash p m = Ret (polynomial s mod 2 ^ 32) m.
Proof.
  intros Hs. rewrite (simple_hash_run _ _ _ Hs). do 2 f_equal.
  apply (abs_hash_polynomial s 0).
Qed.

Lemma simple_hash_polynomial_witness :
  simple_hash (Ptr 2 0) (k_mem (kms1 0 [])) =
    Ret (polynomial (lit "qkd://alice") mod 2 ^ 32) (k_mem (kms1 0 [])).
Proof. apply simple_hash_polynomial, str_at_block; [decided|done]. Defined.

(** ** Limits of the handlers *)

(** [qkd_get_key] reads the key type from the request's metadata without looking at
    their size: for a known key stream and a request without metadata it reads out of
    bounds, and also for the role of a key that is not symmetric. *)
Theorem get_key_short_metadata {ML : Malloc} {LU : Libuuid} {RD : Rand} {MT : MallocTotal}
    {LO : LibuuidOk} s a F b id index kb md st0 st :
  akms_rep s a F -> uuid_ok id -> heap (k_mem s) !! b = Some (Bytes (Some <$> md)) ->
  find_by_ksid id (a_streams a) = Some st ->
  md = [] \/ (exists kt, md = [kt] /\ kt <> x00) ->
  qkd_get_key id index kb (buffer b md) st0 s = Fault OutOfBounds.
Proof.
  intros Hrep Hid Hb Hst Hmd. pose proof (akms_get_key_ok s a F b id index kb md st0 Hrep Hid Hb) as H.
  unfold abs_get_key in H. rewrite Hst in H.
  assert (key_view md = None) as Hv.
  { destruct Hmd as [->|(kt & -> & Hkt)]; [done|]. cbn. by rewrite decide_False. }
  by rewrite Hv in H.
Qed.

Lemma get_key_short_metadata_witness :
  qkd_get_key (st_ksid stream0) 7 qkd_bytes_zero (buffer 4 [x01]) 0 (kms1 0 [x01])
  = Fault OutOfBounds.
Proof.
  apply (get_key_short_metadata (kms1 0 [x01]) (akms1 0) [0; 1; 2; 3]%nat 4 _ 7 _ _ _ (stream1 0)).
  - apply kms1_rep.
  - done.
  - done.
  - done.
  - right. by exists x01.
Defined.

(** The counter of a key stream is an [int]: after [2 ^ 31 - 1] keys the next
    GET_KEY overflows it. *)
Theorem get_key_counter_overflow {ML : Malloc} {LU : Libuuid} {RD : Rand} {MT : MallocTotal}
    {LO : LibuuidOk} s a F b id index kb md st0 st v :
  akms_rep s a F -> uuid_ok id -> heap (k_mem s) !! b = Some (Bytes (Some <$> md)) ->
  find_by_ksid id (a_streams a) = Some st -> key_view md = Some v ->
  st_index st = 2 ^ 31 - 1 ->
  qkd_get_key id index kb (buffer b md) st0 s = Fault SignedOverflow.
Proof.
  intros Hrep Hid Hb Hst Hv Hi. destruct v as [kt kr].
  pose proof (akms_get_key_ok s a F b id index kb md st0 Hrep Hid Hb) as H.
  unfold abs_get_key in H. rewrite Hst, Hv, decide_False in H; [done|].
  rewrite Hi. unfold i32. lia.
Qed.

Lemma get_key_counter_overflow_witness :
  qkd_get_key (st_ksid stream0) 7 qkd_bytes_zero (buffer 4 [x00]) 0 (kms1 (2 ^ 31 - 1) [x00])
  = Fault SignedOverflow.
Proof.
  apply (get_key_counter_overflow (kms1 (2 ^ 31 - 1) [x00]) (akms1 (2 ^ 31 - 1)) [0; 1; 2; 3]%nat
    4 _ 7 _ _ _ (stream1 (2 ^ 31 - 1)) (x00, x00)); try done.
  apply kms1_rep.
Defined.

(** Where memory runs out for the key, the generator draws no random bytes. *)
Lemma gen_key_out_of_memory {ML : Malloc} {RD : Rand} {LU : Libuuid} s src dst s0 d0 n index :
  str_at (k_mem s) src s0 -> str_at (k_mem s) dst d0 ->
  malloc_succeeds (next (k_mem s)) n = false ->
  gen_pseudorandom_key src dst n index s =
    Ret {| size := 0; data := Null |} (set_k_mem (bump (k_mem s)) s).
Proof.
  intros Hs Hd Hn. unfold gen_pseudorandom_key.
  do 2 (erewrite cbind_ret by by apply on_mem_read, simple_hash_run).
  erewrite cbind_ret by (apply on_mem_run; unfold malloc; by rewrite Hn).
  by rewrite decide_True.
Qed.

(** GET_KEY reports success when there is no memory for the key.  If the allocation
    of a symmetric key fails and that of the metadata succeeds, the status is success,
    the key is an empty buffer at the null pointer, and the stream's counter goes up. *)
Theorem get_key_out_of_memory {ML : Malloc} {LU : Libuuid} {RD : Rand} {LO : LibuuidOk}
    s a F b id index kb md st0 st :
  akms_rep s a F -> uuid_ok id -> heap (k_mem s) !! b = Some (Bytes (Some <$> x00 :: md)) ->
  find_by_ksid id (a_streams a) = Some st -> i32 (st_index st + 1) ->
  malloc_succeeds (next (k_mem s)) (key_chunk_size (st_qos st)) = false ->
  malloc_succeeds (S (next (k_mem s))) (Z.of_nat (length (a_metadata a))) = true ->
  exists s',
    qkd_get_key id index kb (buffer b (x00 :: md)) st0 s =
      Ret (index, {| size := 0; data := Null |}, buffer (S (next (k_mem s))) (a_metadata a),
           status_code qkd_status_code_successful) s' /\
    k_rng s' = k_rng s /\ heap (k_mem s') !! next (k_mem s) = None.
Proof.
  intros (ls & -> & (Hm & Hh & Hst & Hnd) & Hc & _ & Hmd) Hid Hb Hf Hi Hk Hd.
  pose proof (find_ksid_run _ id _ ls _ Hid Hst (streams_at_fuel _ _ _ _ Hst Hnd)) as Hfind.
  rewrite Hf in Hfind. destruct Hfind as (sg1 & sg2 & ls1 & sl & ls2 & Hsg & -> & Hlen & _ & _ & Hrun).
  rewrite Hsg in Hst. apply streams_at_app in Hst as [_ (Hok & Hat & _)]; [|done].
  pose proof Hat as (Hn & _ & Hs & Hdst). pose proof Hok as (_ & _ & _ & Hso & _ & Hdo & _).
  pose proof (mem_wf_live _ _ Hm (mk_is_Some _ _ Hn)) as Hlt.
  unfold qkd_get_key. erewrite cbind_ret by done.
  erewrite cbind_ret by (apply on_mem_read; rewrite Hh; apply Hrun).
  rewrite (decide_False (P := Ptr _ _ = Null)) by done.
  erewrite cbind_ret by by apply on_mem_read, load_node_ok.
  erewrite cbind_ret.
  2: { unfold select_key. erewrite cbind_ret by
         (apply on_mem_read; apply (load_meta _ b [] (x00 :: md)); done).
       rewrite le_val_single. change (b2z x00 =? _) with true. cbv iota.
       apply (gen_key_out_of_memory _ _ _ (st_source st) (st_destination st));
         [by apply str_block_at..|done]. }
  pose proof (length_device_info _ Hc) as Hl.
  assert (size_add (Z.of_nat (length (device_info (k_config s)))) 1 = Z.of_nat (length (a_metadata a)))
    as -> by (rewrite size_add_small, <- Hmd by lia; unfold device_metadata; rewrite length_app;
              cbn [length]; lia).
  assert (Z.of_nat (length (a_metadata a)) < 1001) as Hl'
    by (rewrite <- Hmd; unfold device_metadata; rewrite length_app; cbn [length]; lia).
  rewrite (proj2 (Z.ltb_ge _ _)) by (unfold SSL3_RT_MAX_PLAIN_LENGTH; lia).
  erewrite cbind_ret by (apply on_mem_run; unfold malloc; cbn; by rewrite Hd).
  erewrite cbind_ret.
  2: { apply on_mem_run. cbn [data k_mem set_k_mem].
       fold (device_metadata (k_config s)). rewrite Hmd.
       apply (store_fresh (bump (k_mem s)) _ (a_metadata a)). done. }
  assert (forall c, heap (alloc c (bump (k_mem s))) !! sl_node sl = heap (k_mem s) !! sl_node sl)
    as Hkeep by (intros c; rewrite lookup_alloc_ne by (cbn; lia); done).
  erewrite cbind_ret by (apply on_mem_read, load_node_ok; cbn [k_mem set_k_mem];
    rewrite Hkeep; exact Hn).
  cbn [node_of ksi_current_index]. rewrite decide_True by done.
  erewrite cbind_ret.
  2: { apply on_mem_run. eapply store_node_ok. cbn [k_mem set_k_mem]. rewrite Hkeep. exact Hn. }
  unfold cret. rewrite wrap32_small by (unfold u32; lia). eexists. split; [done|]. split; [done|].
  cbn. rewrite !lookup_insert_ne by lia. apply Hm. lia.
Qed.

Lemma get_key_out_of_memory_witness :
  let s := kms1 0 [x00] in
  let once : Malloc := fun k _ => negb (Nat.eqb k 5) in
  exists s', @qkd_get_key once _ _ (st_ksid stream0) 7 qkd_bytes_zero (buffer 4 [x00]) 0 s =
    Ret (7, {| size := 0; data := Null |}, buffer 6 (device_metadata config0), 0) s'.
Proof.
  intros s once.
  destruct (@get_key_out_of_memory once _ _ _ s (akms1 0) [0; 1; 2; 3]%nat 4 (st_ksid stream0) 7
    qkd_bytes_zero [] 0 (stream1 0)) as (s' & H & _).
  - apply kms1_rep.
  - done.
  - done.
  - done.
  - decided.
  - done.
  - done.
  - exists s'. exact H.
Defined.
