(* ===== verification/ServerTheorems.v ===== *)
(** The socket server: what a peer gets for a request, and what it can do to the server. *)

From S2P Require Import Prelude Models Memory Wire Sizes Platform Printf Serializers.
From S2P Require Import SerializersSpec Copy Kms KmsSpec KmsProofs Interfaces KmsApp Socket.
From S2P Require Import Servlet ServletProofs Setup Run Answers ServerMain Scenario KmsTheorems.

(** ** Serving requests *)

(** C1: the socket server implements the abstract server.  For every request that the peer
    delivers as a header and a payload, in one read each, whatever bytes the payload
    consists of, [qkd_servlet] sends exactly the response of the specification behind its
    header, leaves the application in the state of the specification, changes no other
    memory and leaks nothing but the metadata of a GET_KEY request that is granted; a
    payload that is not the encoding of a request is read out of bounds, a mimetype of
    [MIMETYPE_MAX] bytes or more aborts the process and an unknown service makes it send
    from a null pointer.  Responses of any size are covered: of a message of [2 ^ 31]
    bytes or more [transmit] says what is sent, and one whose payload has [2 ^ 32] bytes
    or more is written out of bounds. *)
Theorem servlet_refines {App A : Type} {HM : HasMem App} {HMO : HasMemOk App}
    {APP : QkdApp App} {SP : AppSpec A} {AOK : AppOk App A} {ML : Malloc} {MT : MallocTotal}
    {LU : Libuuid} {LO : LibuuidOk} {OS : Openssl} {ST : Stack}
    fuel st (s : App) c (a : A) F h body c' :
  (2 <= fuel)%nat -> app_rep s a F -> requests c h body c' ->
  service h <> service_code QKD_SERVICE_CLOSE_SERVER ->
  replies st s c' F (serve_leak (next (get_mem s)) (service h) body a)
    (packed (abs_serve (service h) body a)) (qkd_servlet fuel st (Sess s c)).
Proof.
  apply servlet_replies.
Qed.

Lemma servlet_refines_witness :
  let body := enc oc_request_codec (open0 uuid_nil) in
  replies SERVER_LISTENING kms0 drained [] []
    (packed (abs_serve 2 body akms0)) (qkd_servlet 2 SERVER_LISTENING (Sess kms0 (conn 2 body))).
Proof.
  intros body.
  apply (servlet_refines 2 SERVER_LISTENING kms0 (conn 2 body) akms0 [] (header0 2 body) body drained).
  - lia.
  - exact kms0_rep.
  - apply requests_sized; [split_and!; by vm_compute|..|eexists; split; vm_compute; reflexivity];
      by vm_compute.
  - done.
Defined.

(** ** Runs of the server *)

(** C3: the server refines runs of the abstract server.  When the setup succeeds and any
    sequence of clients arrives that fail in the handshake, deliver a request of any kind
    (its header and its payload in one read each), drop the connection, name too large a
    payload, or shut the server down, [qkd_socket_server_init] serves them in the order of
    acceptance, sends each the message of the specification for the state that the clients
    before it left, and leaves the loop exactly when a client has asked for the shutdown,
    whereupon it closes its socket and frees its context.  It changes no memory but the
    application's and leaks one block for each key that is given.  Where the abstract
    server does not answer, the program ends at the first such client, after the ones
    before it were served: at a request with the undefined behaviour that the
    specification names or by [abort], at a closed connection with [EXIT_FAILURE], at a
    failing read and at a payload that is too large with an access out of the bounds of
    the stack. *)
Theorem server_loop_refines {App A : Type} {HM : HasMem App} {HMO : HasMemOk App}
    {APP : QkdApp App} {SP : AppSpec A} {AOK : AppOk App A} {ML : Malloc} {MT : MallocTotal}
    {LU : Libuuid} {LO : LibuuidOk} {OS : Openssl} {ST : Stack} {TLS : Tls}
    fuel host port cert_pem key_pem ca_pem proto e ctx sock e1
    clients evs conns (s : App) (a : A) F :
  (2 <= fuel)%nat -> app_rep s a F ->
  socket_server_setup host port cert_pem key_pem ca_pem proto e = Ret (ctx, sock) e1 ->
  hands_out ctx sock clients e1 -> Forall3 presents clients evs conns ->
  let o :=
    qkd_socket_server_init (length clients) fuel host port cert_pem key_pem ca_pem proto (e, s) in
  match abs_run evs a with
  | Some (out, st, a') => exists e' s' F',
      o = Ret (st, zip_with answered conns out) (e', s') /\
      app_rep s' a' F' /\
      (st = SERVER_FINISHED <-> exists h, Shuts h ∈ evs) /\
      (st = SERVER_FINISHED -> exists e2, e' = (SSL_CTX_free ctx (close sock e2).2).2) /\
      exists L, frame (get_mem s) (get_mem s') F F' L /\ length L = granted evs a
  | None => exists evs1 ev evs2 out a1, evs = evs1 ++ ev :: evs2 /\
      abs_run evs1 a = Some (out, SERVER_LISTENING, a1) /\ ends_at ev a1 o
  end.
Proof.
  intros Hf Hrep Hsetup Ho Hp o. destruct (abs_run evs a) as [[[out st] a']|] eqn:Hrun.
  - destruct (qkd_server_run fuel host port cert_pem key_pem ca_pem proto e ctx sock e1 clients evs
      conns s a F out st a') as (e' & s' & F' & H1 & H2 & H3 & H4); try done.
    pose proof (abs_run_finished _ _ _ _ _ Hrun) as Hst. by exists e', s', F'.
  - by eapply qkd_server_ends.
Qed.

(** Two clients: one that fails in the handshake, one that asks for a stream. *)
Definition client0 (ret : Z) (c : ssl) : client := {| cl_ssl := c; cl_accept := ret |}.

Definition body0 : list byte := enc oc_request_codec (open0 uuid_nil).

Lemma requests0 sv body : u8 sv -> 0 < Z.of_nat (length body) < 2 ^ 20 ->
  requests (conn sv body) (header0 sv body) body drained.
Proof.
  intros Hsv Hb. apply requests_sized; try (cbn; lia).
  - split_and!; [decided..|done|unfold u32; cbn; lia].
  - unfold stack_limit, stack_8m. cbn. lia.
  - by vm_compute.
  - exists {| Concrete.incoming := [body]; Concrete.outgoing := [] |}. split.
    + unfold delivers. cbn -[enc]. rewrite length_take, length_enc_header. cbn -[enc].
      done.
    + unfold delivers. cbn [SSL_read Concrete.tls Concrete.incoming payload_size header0].
      rewrite Nat2Z.id, take_ge, drop_ge by lia. done.
Qed.

Section kms_runs.
Context {ML : Malloc} {MT : MallocTotal} {LU : Libuuid} {LO : LibuuidOk} {RD : Rand}
  {OS : Openssl} {ST : Stack}.

(** C9: the server program runs as the abstract server does from no streams.  When its
    address can be bound and its certificate and key are loaded, [main] draws its own id,
    and serves any clients that fail in the handshake, ask for anything, drop the connection
    or shut the server down with the messages of the abstract server that starts without streams and with the
    metadata of the program's key rate and error rate.  It returns, with 0, exactly when
    a client has asked for the shutdown; at most one stream joins two applications then.
    It ends otherwise only at a client that the abstract server does not answer, in the way
    that [ends_at] says. *)
Theorem server_main_runs {TLS : Tls} fuel database e ctx sock e1 clients evs conns (s : kms) :
  (2 <= fuel)%nat -> mem_wf (k_mem s) ->
  socket_server_setup (lit "127.0.0.1") 25575 (Some server_cert) (Some server_key) None 0 e =
    Ret (ctx, sock) e1 ->
  hands_out ctx sock clients e1 -> Forall3 presents clients evs conns ->
  let a := akms_fresh (k_uuid s) database in
  let o := main (length clients) fuel database (e, s) in
  match abs_run evs a with
  | Some (out, st, a') => exists r e' s' F',
      o = Ret (r, zip_with answered conns out) (e', s') /\
      app_rep s' a' F' /\ pairs_unique a' /\ (r = Some 0 <-> exists h, Shuts h ∈ evs) /\
      (r = None <-> st = SERVER_LISTENING)
  | None => exists evs1 ev evs2 out a1, evs = evs1 ++ ev :: evs2 /\
      abs_run evs1 a = Some (out, SERVER_LISTENING, a1) /\ ends_at ev a1 o
  end.
Proof.
  intros Hf Hm Hsetup Ho Hp a o. pose proof (kms_fresh_rep database s Hm) as Hrep.
  subst o. rewrite main_starts. destruct (abs_run evs a) as [[[out st] a']|] eqn:Hrun.
  - destruct (qkd_server_run fuel _ _ _ _ _ _ e ctx sock e1 clients evs conns (kms_fresh database s)
      a [] out st a' Hf Hrep Hsetup Ho Hp Hrun) as (e' & s' & F' & H1 & H2 & _).
    pose proof (abs_run_finished _ _ _ _ _ Hrun) as Hst.
    erewrite cbind_ret by exact H1. eexists _, e', s', F'.
    split; [reflexivity|]. split; [done|]. split; [|rewrite <- Hst; by destruct st].
    eapply abs_run_unique; [exact Hrun|]. unfold a, akms_fresh.
    destruct (uuid_generate_random _). apply NoDup_nil_2.
  - destruct (qkd_server_ends fuel _ _ _ _ _ _ e ctx sock e1 clients evs conns (kms_fresh database s)
      a [] Hf Hrep Hsetup Ho Hp Hrun) as (evs1 & ev & evs2 & out & a1 & H1 & H2 & H3).
    exists evs1, ev, evs2, out, a1. split_and!; [done..|]. by apply ends_cbind.
Qed.

End kms_runs.

Section kms_streams.
Context {ML : Malloc} {MT : MallocTotal} {LU : Libuuid} {LO : LibuuidOk} {RD : Rand}
  {OS : Openssl} {ST : Stack}.

(** The two ends of a stream get the same key stream id.  When two clients ask with
    OPEN_CONNECT, without an id of their own, for a stream between the same
    applications, the server answers both with one id, whatever other clients do in
    between (keys taken, streams opened, CLOSE requests) and whatever QoS either asks
    for; each is told the QoS it asked for. *)
Theorem peers_get_same_ksid fuel clients conns (s : kms) (a : akms) F h1 body1 q1 r1 evs
    h2 body2 q2 r2 out a' :
  (2 <= fuel)%nat -> app_rep s a F ->
  Forall3 presents clients (Asks h1 body1 :: evs ++ [Asks h2 body2]) conns ->
  service h1 = service_code QKD_SERVICE_OPEN_CONNECT_REQUEST ->
  service h2 = service_code QKD_SERVICE_OPEN_CONNECT_REQUEST ->
  dec oc_request_codec body1 = Some (q1, r1) -> dec oc_request_codec body2 = Some (q2, r2) ->
  ocq_key_stream_id q1 = uuid_nil -> ocq_key_stream_id q2 = uuid_nil ->
  ocq_source q1 = ocq_source q2 -> ocq_destination q1 = ocq_destination q2 ->
  abs_run (Asks h1 body1 :: evs ++ [Asks h2 body2]) a = Some (out, SERVER_LISTENING, a') ->
  exists id mid s' F',
    out = Some (oc_reply q1 id) :: mid ++ [Some (oc_reply q2 id)] /\
    serve_clients (qkd_servlet fuel) clients SERVER_LISTENING s =
      Ret (SERVER_LISTENING, zip_with answered conns out) s' /\ app_rep s' a' F'.
Proof.
  intros Hf Hrep Hp H1 H2 Hd1 Hd2 Hn1 Hn2 Hs Hd Hrun.
  destruct (serve_clients_run fuel clients _ conns s a F out _ a' Hf Hrep Hp Hrun)
    as (s' & F' & L & Hserve & Hrep' & _).
  apply (abs_run_app [Asks h1 body1]) in Hrun as (o1 & o2 & a1 & R1 & R2 & ->).
  apply abs_run_app in R2 as (o3 & o4 & a2 & R2 & R3 & ->).
  cbn -[packed] in R1, R3. unfold abs_serve in R1, R3. rewrite H1 in R1. rewrite H2 in R3.
  cbn -[packed] in R1, R3.
  destruct (packed (abs_open_connect body1 a)) as [m1 b1| |] eqn:E1; [|done..].
  destruct (packed (abs_open_connect body2 a2)) as [m2 b2| |] eqn:E2; [|done..].
  apply packed_reply in E1 as [E1 _]. apply packed_reply in E2 as [E2 _].
  injection R1 as <- ->. injection R3 as <- ->.
  destruct (open_reply _ _ _ _ _ _ Hd1 Hn1 E1) as (id & -> & Hk1 & _).
  destruct (open_reply _ _ _ _ _ _ Hd2 Hn2 E2) as (id2 & -> & _ & Hk2).
  assert (id2 = id) as -> by (apply Hk2; rewrite <- Hs, <- Hd; by eapply abs_run_ksid).
  by exists id, o3, s', F'.
Qed.

(** C17: no run of the server makes a second stream for two applications.  Started with
    at most one stream for each pair, the server has at most one after any clients have
    been served; the linked list holds exactly these streams, each in blocks of its own. *)
Theorem streams_stay_unique fuel clients evs conns (s : kms) (a : akms) F out st a' :
  (2 <= fuel)%nat -> app_rep s a F -> Forall3 presents clients evs conns ->
  pairs_unique a -> abs_run evs a = Some (out, st, a') ->
  exists l s' ls, serve_clients (qkd_servlet fuel) clients SERVER_LISTENING s = Ret (st, l) s' /\
    kms_rep s' (a_streams a') ls /\ NoDup (pair_of <$> a_streams a').
Proof.
  intros Hf Hrep Hp Hu Hrun.
  destruct (serve_clients_run fuel clients _ conns s a F out _ a' Hf Hrep Hp Hrun)
    as (s' & F' & L & Hserve & (ls & _ & Hkms & _) & _).
  eexists _, s', ls. split; [exact Hserve|]. split; [done|]. by eapply abs_run_unique.
Qed.

(** C18: the memory of the server in any run.  After any clients have been served, the blocks
    that are live are as many as before, four more for each stream that was opened in between
    and one more for each key that was given: the metadata of a granted GET_KEY request is
    never freed, and nothing else is lost. *)
Theorem server_memory fuel clients evs conns (s : kms) (a : akms) F out st a' :
  (2 <= fuel)%nat -> app_rep s a F -> Forall3 presents clients evs conns ->
  abs_run evs a = Some (out, st, a') ->
  exists l s', serve_clients (qkd_servlet fuel) clients SERVER_LISTENING s = Ret (st, l) s' /\
    (base.size (heap (k_mem s')) + 4 * length (a_streams a) =
     base.size (heap (k_mem s)) + 4 * length (a_streams a') + granted evs a)%nat.
Proof.
  intros Hf Hrep Hp Hrun.
  destruct (serve_clients_run fuel clients _ conns s a F out _ a' Hf Hrep Hp Hrun)
    as (s' & F' & L & Hserve & Hrep' & Hfr & HL).
  eexists _, s'. split; [exact Hserve|]. pose proof (app_rep_wf _ _ _ Hrep) as Hm.
  destruct Hrep as (ls & -> & (_ & _ & Hst & Hnd) & _), Hrep' as (ls' & -> & (_ & _ & Hst' & Hnd') & _).
  pose proof (frame_size _ _ _ _ _ Hm Hfr Hnd Hnd'
    (fun b => streams_at_live _ _ _ _ b Hst) (fun b => streams_at_live _ _ _ _ b Hst')) as Hsz.
  rewrite !length_foot, <- (streams_at_length _ _ _ _ Hst), <- (streams_at_length _ _ _ _ Hst'), HL in Hsz.
  exact Hsz.
Qed.

End kms_streams.

(** Three clients, two of which open the same stream. *)
Definition clients0 : list client :=
  [client0 1 (conn 2 body0); client0 (-1) drained; client0 1 (conn 2 body0)].

Definition events0 : list event :=
  Asks (header0 2 body0) body0 :: [Refused] ++ [Asks (header0 2 body0) body0].

Definition out0 : list (option (list byte)) :=
  let r := oc_reply (open0 uuid_nil) (Concrete.seq_uuid 0) in [Some r; None; Some r].

Definition akms_opened : akms :=
  akms_of 1 [new_stream (Concrete.seq_uuid 0) (lit "qkd://alice") (lit "qkd://bob") qos0].

Lemma clients0_present : Forall3 presents clients0 events0 [drained; drained; drained].
Proof. repeat constructor; try done; (apply requests0; [decided|by vm_compute]). Qed.

Lemma run0 : abs_run events0 akms0 = Some (out0, SERVER_LISTENING, akms_opened).
Proof. evaluated. Qed.

Lemma dec_body0 : dec oc_request_codec body0 = Some (open0 uuid_nil, []).
Proof. evaluated. Qed.

(** The same client again and again, from a library that hands it out. *)
Lemma hands_out_same c n e :
  @hands_out _ (one_context_to c) tt 3 (replicate n (client0 1 c)) e.
Proof.
  induction n as [|n IH]; [exact I|]. cbn [replicate hands_out].
  exists 4, c, e, e, e. do 3 (split; [reflexivity|]). intros c'. exact IH.
Qed.

(** A request for a service that there is not. *)
Definition odd_body : list byte := [x00].

(** The runs of the two programs with two such clients. *)
Definition twice : list event := replicate 2 (Asks (header0 2 body0) body0).

Lemma run_twice :
  abs_run twice akms0 = Some (replicate 2 (Some (oc_reply (open0 uuid_nil) (Concrete.seq_uuid 0))),
    SERVER_LISTENING, akms_opened).
Proof. evaluated. Qed.

Lemma server_loop_refines_witness :
  (exists e' s' F',
    qkd_socket_server_init (TLS := one_context_to (conn 2 body0)) 2 2 [x61] 25575 (Some [x62])
        (Some [x63]) None 0 (0, kms0) =
      Ret (SERVER_LISTENING, zip_with answered [drained; drained]
        [Some (oc_reply (open0 uuid_nil) (Concrete.seq_uuid 0));
         Some (oc_reply (open0 uuid_nil) (Concrete.seq_uuid 0))]) (e', s') /\
    app_rep s' akms_opened F') /\
  qkd_socket_server_init (TLS := one_context_to (conn 9 odd_body)) 1 2 [x61] 25575 (Some [x62])
    (Some [x63]) None 0 (0, kms0) = Fault NullDeref.
Proof.
  split.
  - pose proof (server_loop_refines (TLS := one_context_to (conn 2 body0)) 2 [x61] 25575
      (Some [x62]) (Some [x63]) None 0 0 tt 3 0 (replicate 2 (client0 1 (conn 2 body0)))
      twice [drained; drained] kms0 akms0 [] ltac:(lia) kms0_rep eq_refl (hands_out_same _ 2 0)) as H.
    cbv zeta in H. rewrite run_twice in H.
    destruct H as (e' & s' & F' & Hrun & Hrep & _);
      [repeat constructor; try done; (apply requests0; [decided|by vm_compute])|].
    exists e', s', F'. split; [exact Hrun|exact Hrep].
  - pose proof (server_loop_refines (TLS := one_context_to (conn 9 odd_body)) 2 [x61] 25575
      (Some [x62]) (Some [x63]) None 0 0 tt 3 0 (replicate 1 (client0 1 (conn 9 odd_body)))
      [Asks (header0 9 odd_body) odd_body] [drained] kms0 akms0 []
      ltac:(lia) kms0_rep eq_refl (hands_out_same _ 1 0)) as H.
    destruct H as (evs1 & ev & evs2 & out & a1 & Hevs & Hrun & Hend);
      [repeat constructor; try done; (apply requests0; [decided|by vm_compute])|].
    destruct evs1 as [|e0 evs1]; [|by destruct evs1]. injection Hevs as <- <-.
    injection Hrun as _ <-. exact Hend.
Defined.

(** Before [main], nothing is allocated; the first id is the server's own. *)
Definition akms_main : akms :=
  {| a_uuid := 2%nat; a_metadata := device_metadata (main_config Null (Concrete.seq_uuid 0));
     a_streams := [new_stream (Concrete.seq_uuid 1) (lit "qkd://alice") (lit "qkd://bob") qos0] |}.

Lemma run_twice_main :
  abs_run twice (akms_fresh (k_uuid kms0) Null) =
    Some (replicate 2 (Some (oc_reply (open0 uuid_nil) (Concrete.seq_uuid 1))), SERVER_LISTENING,
      akms_main).
Proof. evaluated. Qed.

Lemma server_main_runs_witness :
  (exists e' s' F',
    main (TLS := one_context_to (conn 2 body0)) 2 2 Null (0, kms0) =
      Ret (None, zip_with answered [drained; drained]
        [Some (oc_reply (open0 uuid_nil) (Concrete.seq_uuid 1));
         Some (oc_reply (open0 uuid_nil) (Concrete.seq_uuid 1))]) (e', s') /\
    app_rep s' akms_main F') /\
  (exists w, main (TLS := one_context_to drained) 1 2 Null (0, kms0) = Exit EXIT_FAILURE w).
Proof.
  assert (mem_wf (k_mem kms0)) as Hm by by intros b _. split.
  - pose proof (server_main_runs (TLS := one_context_to (conn 2 body0)) 2 Null 0 tt 3 0
      (replicate 2 (client0 1 (conn 2 body0))) twice
      [drained; drained] kms0 ltac:(lia) Hm eq_refl (hands_out_same _ 2 0)) as H.
    cbv zeta in H. rewrite run_twice_main in H.
    destruct H as (r & e' & s' & F' & Hrun & Hrep & _ & _ & Hr);
      [repeat constructor; try done; (apply requests0; [decided|by vm_compute])|].
    exists e', s', F'. split; [|exact Hrep]. rewrite (proj2 Hr eq_refl) in Hrun. exact Hrun.
  - pose proof (server_main_runs (TLS := one_context_to drained) 2 Null 0 tt 3 0
      [client0 1 drained] [Drops None 0] [drained] kms0 ltac:(lia) Hm eq_refl
      (hands_out_same _ 1 0)) as H.
    destruct H as (evs1 & ev & evs2 & out & a1 & Hevs & _ & Hend);
      [repeat constructor; by vm_compute|].
    destruct evs1 as [|e0 evs1]; [|by destruct evs1]. injection Hevs as <- <-. exact Hend.
Defined.

Lemma peers_get_same_ksid_witness :
  exists id mid s', out0 = Some (oc_reply (open0 uuid_nil) id) :: mid ++
      [Some (oc_reply (open0 uuid_nil) id)] /\
    serve_clients (qkd_servlet 2) clients0 SERVER_LISTENING kms0 =
      Ret (SERVER_LISTENING, zip_with answered [drained; drained; drained] out0) s'.
Proof.
  destruct (peers_get_same_ksid 2 clients0 [drained; drained; drained] kms0 akms0 []
    (header0 2 body0) body0 (open0 uuid_nil) [] [Refused] (header0 2 body0) body0 (open0 uuid_nil) []
    out0 akms_opened) as (id & mid & s' & F' & H1 & H2 & _);
    [lia|apply kms0_rep|apply clients0_present|done|done|apply dec_body0|apply dec_body0|
     done|done|done|done|apply run0|].
  exists id, mid, s'. by split.
Defined.

Lemma streams_stay_unique_witness :
  exists l s' ls, serve_clients (qkd_servlet 2) clients0 SERVER_LISTENING kms0 =
      Ret (SERVER_LISTENING, l) s' /\ kms_rep s' (a_streams akms_opened) ls /\
      NoDup (pair_of <$> a_streams akms_opened).
Proof.
  apply (streams_stay_unique 2 clients0 events0 [drained; drained; drained] kms0 akms0 [] out0).
  - lia.
  - apply kms0_rep.
  - apply clients0_present.
  - apply NoDup_nil_2.
  - apply run0.
Defined.

(** ** Answers of the key management server *)

Section answers.
Context {ML : Malloc} {MT : MallocTotal} {LU : Libuuid} {LO : LibuuidOk} {RD : Rand}
  {OS : Openssl} {ST : Stack}.

(** C13: the requests that are answered.  Let the payload of a request have fewer than
    [2 ^ 31 - 32] bytes, and be one of: an OPEN_CONNECT request with a mimetype of fewer than
    [MIMETYPE_MAX] bytes before its terminator; a GET_KEY request for an id that no stream
    has; a GET_KEY request for a stream whose counter is below its last value, with the bytes
    of the key type (and of the role, if the type is not symmetric) in its metadata, when the
    size of the stream's keys, that of the server's metadata and 24 make less than [2 ^ 31];
    a CLOSE request.  When it is received, in one read for the header and one for the
    payload, [qkd_servlet] returns, its status unchanged, having sent the answer to that
    request; the application is again in a state of the abstract server. *)
Theorem requests_answered fuel st (s : kms) c (a : akms) F h body c' :
  (2 <= fuel)%nat -> app_rep s a F -> requests c h body c' -> answerable (service h) body a ->
  Z.of_nat (length body) < 2 ^ 31 - 32 ->
  exists msg s' a' F', qkd_servlet fuel st (Sess s c) = Ret st (Sess s' (SSL_write c' msg).2) /\
    response_to (service h) body msg /\ app_rep s' a' F'.
Proof.
  intros Hf Hrep Hreq Ha Hlen. destruct (akms_rep_ok s a F Hrep) as [Hsg Hmd].
  destruct (abs_serve_answers _ _ _ Ha Hsg Hlen) as (msg & a' & Hs & Hm).
  assert (service h <> service_code QKD_SERVICE_CLOSE_SERVER) as Hsv
    by (destruct Ha as [[-> _]|[[-> _]|[-> _]]]; done).
  destruct (servlet_step fuel st s c a F h body c' msg a') as (s' & F' & Hrun & Hrep' & _); try done.
  exists msg, s', a', F'. split_and!; [done| |done].
  eapply abs_serve_response; [exact Hmd|exact Hsg|eassumption|lia].
Qed.

(** C15: whatever the server sends is an answer that the client can read.  When
    [qkd_servlet] returns for a request that a peer delivers, of any service and with any
    payload, it has sent one message: a header of the version 2.1.1, of the service that
    responds to the one asked for and with the exact size of the payload, and a payload
    that is one encoded response, with the QoS or the index of the request, and without a
    key unless the status is success.  A message that does not fit the [int] of [SSL_write]
    is not sent as a whole. *)
Theorem answers_well_formed fuel st (s : kms) c (a : akms) F h body c' st' w :
  (2 <= fuel)%nat -> app_rep s a F -> requests c h body c' ->
  service h <> service_code QKD_SERVICE_CLOSE_SERVER ->
  qkd_servlet fuel st (Sess s c) = Ret st' w ->
  st' = st /\ exists msg, s_ssl w = transmit c' msg /\
    (Z.of_nat (length msg) < 2 ^ 31 -> s_ssl w = (SSL_write c' msg).2) /\
    response_to (service h) body msg.
Proof.
  intros Hf Hrep Hreq Hsv Hrun. destruct (akms_rep_ok s a F Hrep) as [Hsg Hmd].
  destruct (servlet_sent fuel st s c a F h body c' st' w Hf Hrep Hreq Hsv Hrun)
    as (-> & msg & a' & F' & E & Hlen & Hpos & -> & _).
  split; [done|]. exists msg. split; [done|]. split; [intros; apply transmit_small; lia|].
  eapply abs_serve_response; [exact Hmd|exact Hsg|exact E|lia].
Qed.

(** C19: how large a key can be.  For a GET_KEY request of a stream with the key size that a
    client has asked for in OPEN_CONNECT, the message of the response has [n] bytes: 24, the
    key and the metadata of the server.  Up to [2 ^ 31] it is sent.  From there on
    [qkd_servlet] generates the key and counts it, but its size is negative as an [int], and
    nothing of the response is sent; at [2 ^ 32] and up to seven bytes more, not more than
    those seven bytes; beyond, the response is written out of the bounds of its buffer. *)
Theorem key_sizes fuel st (s : kms) c (a : akms) F h q c' str kt kr :
  (2 <= fuel)%nat -> app_rep s a F -> requests c h (enc gk_request_codec q) c' ->
  service h = service_code QKD_SERVICE_GET_KEY_REQUEST -> gk_request_ok q ->
  find_by_ksid (gkq_key_stream_id q) (a_streams a) = Some str ->
  key_view (gkq_metadata q) = Some (kt, kr) -> i32 (st_index str + 1) ->
  let n := 24 + key_chunk_size (st_qos str) + Z.of_nat (length (a_metadata a)) in
  let bs := enc gk_response_codec
    {| gkr_status := status_code qkd_status_code_successful; gkr_index := gkq_index q;
       gkr_key_buffer := abs_key_for str (gkq_index q) kt kr; gkr_metadata := a_metadata a |} in
  let msg := message QKD_SERVICE_GET_KEY_RESPONSE bs in
  Z.of_nat (length msg) = n /\
  (n < 2 ^ 32 + 8 -> exists s' c2 F',
     qkd_servlet fuel st (Sess s c) = Ret st (Sess s' c2) /\
     app_rep s' {| a_uuid := a_uuid a; a_metadata := a_metadata a;
                   a_streams := abs_take (gkq_key_stream_id q) (a_streams a) |} F' /\
     (n < 2 ^ 31 -> c2 = (SSL_write c' msg).2) /\
     (2 ^ 31 <= n < 2 ^ 32 -> c2 = (SSL_write c' []).2) /\
     (n = 2 ^ 32 -> c2 = c') /\
     (2 ^ 32 < n -> c2 = (SSL_write c' (take (Z.to_nat (n - 2 ^ 32)) msg)).2)) /\
  (2 ^ 32 + 8 <= n -> qkd_servlet fuel st (Sess s c) = Fault OutOfBounds).
Proof.
  intros Hf Hrep Hreq Hsv Hq Hst Hv Hi n bs msg.
  destruct (akms_rep_ok s a F Hrep) as [Hsg _].
  assert (Z.of_nat (length msg) = n) as Hn.
  { unfold msg, bs. rewrite length_message, length_enc_gk_response. cbn.
    apply find_by_ksid_Some in Hst as [Hin _]. rewrite Forall_forall in Hsg.
    pose proof (stream_ok_size _ (Hsg _ Hin)) as Hu. unfold u32 in Hu.
    rewrite length_abs_key_for. unfold n. lia. }
  assert (0 < n) as Hpos by (rewrite <- Hn; unfold msg; rewrite length_message; lia).
  pose proof (servlet_replies fuel st s c a F h _ c' Hf Hrep Hreq ltac:(by rewrite Hsv)) as H.
  rewrite Hsv in H. change (abs_serve _ ?b a) with (abs_serve_get_key b a) in H.
  unfold abs_serve_get_key in H. pose proof (dec_enc gk_request_codec q [] Hq) as Hdec.
  rewrite app_nil_r in Hdec. rewrite Hdec in H. cbn [spec_get_key akms_spec] in H.
  unfold abs_get_key in H. rewrite Hst, Hv, decide_True in H by done.
  unfold gk_reply, packed in H. fold bs msg in H. rewrite Hn in H. split; [done|]. split; intros Hlen.
  - rewrite decide_True in H by done. destruct H as (s' & F' & H1 & H2 & _).
    exists s', (transmit c' msg), F'. split; [done|]. split; [done|].
    split; [intros; apply transmit_small; lia|]. unfold transmit. rewrite Hn.
    unfold to_int, as_int, wrap32. split_and!; intros Hr.
    + rewrite Z.mod_small by lia. rewrite (proj2 (Z.eqb_neq _ _)), (proj2 (Z.ltb_ge _ _)) by lia.
      by rewrite Z2Nat.nonpos by lia.
    + by rewrite Hr.
    + assert (n mod 2 ^ 32 = n - 2 ^ 32) as ->.
      { replace n with (n - 2 ^ 32 + 1 * 2 ^ 32) at 1 by lia.
        by rewrite Z.mod_add, Z.mod_small by lia. }
      rewrite (proj2 (Z.eqb_neq _ _)), (proj2 (Z.ltb_lt _ _)) by lia. done.
  - by rewrite decide_False in H by lia.
Qed.

End answers.

(** A request for the key 7 of the stream of [kms1]. *)
Definition key_query : get_key_request (list byte) :=
  {| gkq_key_stream_id := Concrete.seq_uuid 0; gkq_index := 7; gkq_metadata := [x00; x10] |}.

Definition key_body : list byte := enc gk_request_codec key_query.

Lemma key_answerable : answerable 4 key_body (akms1 0).
Proof.
  right. left. split; [done|]. exists key_query. split; [done|].
  split; [split_and!; decided|]. split; [by eexists|]. split; [decided|by vm_compute].
Qed.

Lemma key_requests : requests (conn 4 key_body) (header0 4 key_body) key_body drained.
Proof. apply requests0; [decided|by vm_compute]. Qed.

Lemma requests_answered_witness :
  exists msg s', qkd_servlet 2 SERVER_LISTENING (Sess (kms1 0 []) (conn 4 key_body)) =
      Ret SERVER_LISTENING (Sess s' {| Concrete.incoming := []; Concrete.outgoing := [msg] |}) /\
    response_to 4 key_body msg.
Proof.
  destruct (requests_answered 2 SERVER_LISTENING (kms1 0 []) (conn 4 key_body) (akms1 0)
    [0; 1; 2; 3]%nat (header0 4 key_body) key_body drained) as (msg & s' & a' & F' & H1 & H2 & _).
  - lia.
  - apply kms1_rep.
  - exact key_requests.
  - apply key_answerable.
  - by vm_compute.
  - exists msg, s'. split; [exact H1|exact H2].
Defined.

(** The servlet returns on this request. *)
Lemma key_answered : exists w,
  qkd_servlet 2 SERVER_LISTENING (Sess (kms1 0 []) (conn 4 key_body)) = Ret SERVER_LISTENING w.
Proof.
  pose proof (proj1 (akms_rep_ok _ _ _ (kms1_rep 0 []))) as Hsg.
  destruct (abs_serve_answers 4 key_body (akms1 0) key_answerable Hsg ltac:(by vm_compute))
    as (msg & a' & Hs & Hm).
  destruct (servlet_step 2 SERVER_LISTENING (kms1 0 []) (conn 4 key_body) (akms1 0) [0; 1; 2; 3]%nat
    (header0 4 key_body) key_body drained msg a') as (s' & F' & H & _);
    [lia|apply kms1_rep|exact key_requests|done|exact Hs|exact Hm|].
  eexists. exact H.
Qed.

(** Two clients take the key. *)
Definition key_clients : list client := replicate 2 (client0 1 (conn 4 key_body)).

Definition key_events : list event := replicate 2 (Asks (header0 4 key_body) key_body).

Definition key_out : list (option (list byte)) :=
  match abs_run key_events (akms1 0) with Some (out, _, _) => out | None => [] end.

Lemma server_memory_witness :
  exists l s', serve_clients (qkd_servlet 2) key_clients SERVER_LISTENING (kms1 0 []) =
      Ret (SERVER_LISTENING, l) s' /\
    base.size (heap (k_mem (kms1 0 []))) = 5%nat /\ base.size (heap (k_mem s')) = 7%nat.
Proof.
  destruct (server_memory 2 key_clients key_events [drained; drained] (kms1 0 []) (akms1 0)
    [0; 1; 2; 3]%nat key_out SERVER_LISTENING (akms1 2)) as (l & s' & Hrun & Hsz).
  - lia.
  - apply kms1_rep.
  - do 2 (apply Forall3_cons; [split; [done|]; split; [done|exact key_requests]|]). apply Forall3_nil.
  - evaluated.
  - exists l, s'. split; [exact Hrun|].
    assert (granted key_events (akms1 0) = 2%nat) as Hg by evaluated. rewrite Hg in Hsz.
    assert (base.size (heap (k_mem (kms1 0 []))) = 5%nat) as H5 by evaluated. rewrite H5 in Hsz.
    split; [exact H5|]. cbn [length a_streams akms1 akms_of] in Hsz. lia.
Defined.

Lemma answers_well_formed_witness :
  exists w msg, qkd_servlet 2 SERVER_LISTENING (Sess (kms1 0 []) (conn 4 key_body)) =
      Ret SERVER_LISTENING w /\
    s_ssl w = transmit drained msg /\ response_to 4 key_body msg.
Proof.
  destruct key_answered as [w Hw]. exists w.
  destruct (answers_well_formed 2 SERVER_LISTENING (kms1 0 []) (conn 4 key_body) (akms1 0)
    [0; 1; 2; 3]%nat (header0 4 key_body) key_body drained SERVER_LISTENING w) as [_ (msg & H1 & _ & H2)].
  - lia.
  - apply kms1_rep.
  - exact key_requests.
  - discriminate.
  - exact Hw.
  - exists msg. split; [exact Hw|]. split; [exact H1|exact H2].
Defined.

(** A server with a stream of keys of [2 ^ 31] bytes. *)
Definition vast_open : open_connect_request (list byte) :=
  {| ocq_source := lit "qkd://alice"; ocq_destination := lit "qkd://bob";
     ocq_qos := {| key_chunk_size := 2 ^ 31; max_bps := 0; min_bps := 0; jitter := 0; priority := 0;
                   timeout := 0; ttl := 0; metadata_mimetype := lit "application/json" |};
     ocq_key_stream_id := uuid_nil |}.

Definition vast_akms : akms :=
  akms_of 1 [new_stream (Concrete.seq_uuid 0) (lit "qkd://alice") (lit "qkd://bob")
    (ocq_qos vast_open)].

Lemma vast_rep : exists s F, app_rep s vast_akms F.
Proof.
  destruct (servlet_step 2 SERVER_LISTENING kms0 (conn 2 (enc oc_request_codec vast_open)) akms0 []
    (header0 2 (enc oc_request_codec vast_open)) (enc oc_request_codec vast_open) drained
    (oc_reply vast_open (Concrete.seq_uuid 0)) vast_akms) as (s & F & _ & Hrep & _).
  - lia.
  - exact kms0_rep.
  - apply requests0; [decided|by vm_compute].
  - discriminate.
  - evaluated.
  - by vm_compute.
  - by exists s, F.
Qed.

Lemma key_sizes_witness : exists s s',
  qkd_servlet 2 SERVER_LISTENING (Sess s (conn 4 key_body)) =
    Ret SERVER_LISTENING (Sess s' (SSL_write drained []).2).
Proof.
  destruct vast_rep as (s & F & Hrep). exists s.
  destruct (key_sizes 2 SERVER_LISTENING s (conn 4 key_body) vast_akms F (header0 4 key_body) key_query
    drained (new_stream (Concrete.seq_uuid 0) (lit "qkd://alice") (lit "qkd://bob") (ocq_qos vast_open))
    x00 x00) as (_ & H & _).
  - lia.
  - exact Hrep.
  - exact key_requests.
  - reflexivity.
  - split_and!; decided.
  - reflexivity.
  - reflexivity.
  - decided.
  - destruct H as (s' & c2 & F' & Hrun & _ & _ & Hc & _); [by vm_compute|].
    exists s'. rewrite <- Hc by (split; by vm_compute). exact Hrun.
Defined.

(** ** What any peer can do *)

(** Any peer that completes the handshake can stop the server: a header with the
    service [CLOSE_SERVER], whatever its version and size, makes the servlet return
    [SERVER_FINISHED] without an answer, and the loop accepts no further client. *)
Theorem close_server_from_anyone {App : Type} {HM : HasMem App} {HMO : HasMemOk App}
    {APP : QkdApp App} {ML : Malloc} {MT : MallocTotal}
    {LU : Libuuid} {OS : Openssl} {ST : Stack} fuel (s : App) c clients h c1 :
  (2 <= fuel)%nat -> mem_wf (get_mem s) -> header_ok h -> sizeof_header <= stack_limit ->
  service h = service_code QKD_SERVICE_CLOSE_SERVER -> cl_accept c <> -1 ->
  delivers (cl_ssl c) sizeof_header (enc header_codec h) c1 ->
  serve_clients (qkd_servlet fuel) (c :: clients) SERVER_LISTENING s =
    Ret (SERVER_FINISHED, [c1]) (set_mem (bump (get_mem s)) s).
Proof.
  intros Hf Hm Hh Hs Hsv Hacc Hd. cbn [serve_clients]. rewrite (proj2 (Z.eqb_neq _ _)) by done.
  erewrite cbind_ret by (apply on_connection_run, (servlet_close_server_run fuel SERVER_LISTENING s
    (cl_ssl c) h c1); done).
  cbv beta iota. by destruct clients.
Qed.

Definition empty_record : ssl := {| Concrete.incoming := [[]]; Concrete.outgoing := [] |}.

Lemma close_server_from_anyone_witness :
  serve_clients (qkd_servlet 2) [client0 1 (conn 255 []); client0 1 (conn 2 body0)] SERVER_LISTENING
    kms0 =
  Ret (SERVER_FINISHED, [empty_record]) (set_mem (bump (get_mem kms0)) kms0).
Proof.
  apply (close_server_from_anyone 2 kms0 (client0 1 (conn 255 [])) [client0 1 (conn 2 body0)]
    (header0 255 []) empty_record).
  - lia.
  - by intros b _.
  - split_and!; decided.
  - by vm_compute.
  - done.
  - done.
  - by vm_compute.
Defined.

(** A mimetype is sent back to the client that names it, and one that is too long
    aborts the whole server: for an OPEN_CONNECT request that is well formed and has a
    mimetype of [MIMETYPE_MAX] bytes or more, [qkd_servlet] ends in [abort], so that one
    client ends the service for all. *)
Theorem long_mimetype_aborts {App A : Type} {HM : HasMem App} {HMO : HasMemOk App}
    {APP : QkdApp App} {SP : AppSpec A} {AOK : AppOk App A} {ML : Malloc} {MT : MallocTotal}
    {LU : Libuuid} {LO : LibuuidOk} {OS : Openssl} {ST : Stack}
    fuel st (s : App) c (a : A) F h q c' :
  (2 <= fuel)%nat -> app_rep s a F -> requests c h (enc oc_request_codec q) c' ->
  service h = service_code QKD_SERVICE_OPEN_CONNECT_REQUEST -> oc_request_ok q ->
  MIMETYPE_MAX <= Z.of_nat (length (metadata_mimetype (ocq_qos q))) ->
  exists w, qkd_servlet fuel st (Sess s c) = Aborted w.
Proof.
  intros Hf Hrep Hreq Hsv Hq Hlong. pose proof (Hrep0 := Hrep). rewrite <- (set_get_mem s) in Hrep0.
  set (body := enc oc_request_codec q) in *.
  assert (Z.of_nat (length body) < 2 ^ 31) as Hlen by apply Hreq.
  assert (abs_serve (service h) body a = Killed) as E.
  { pose proof (dec_enc oc_request_codec q [] Hq) as Hdec. rewrite app_nil_r in Hdec.
    fold body in Hdec. rewrite Hsv. unfold abs_serve. rewrite Z.eqb_refl.
    unfold abs_open_connect. rewrite Hdec.
    destruct (spec_open _ _ _ _ a) as [id a']. rewrite decide_False by lia. done. }
  pose proof (servlet_replies fuel st s c a F h body c' Hf Hrep Hreq ltac:(by rewrite Hsv)) as H.
  by rewrite E in H.
Qed.

(** A request with a mimetype of 256 bytes. *)
Definition long_open : open_connect_request (list byte) :=
  {| ocq_source := lit "a"; ocq_destination := lit "b";
     ocq_qos := {| key_chunk_size := 8; max_bps := 0; min_bps := 0; jitter := 0; priority := 0;
                   timeout := 0; ttl := 0; metadata_mimetype := replicate 256 x61 |};
     ocq_key_stream_id := uuid_nil |}.

Lemma long_mimetype_aborts_witness :
  exists w, qkd_servlet 2 SERVER_LISTENING (Sess kms0 (conn 2 (enc oc_request_codec long_open)))
    = Aborted w.
Proof.
  apply (long_mimetype_aborts 2 SERVER_LISTENING kms0 _ akms0 []
    (header0 2 (enc oc_request_codec long_open)) long_open drained).
  - lia.
  - apply kms0_rep.
  - apply requests0; [decided|by vm_compute].
  - done.
  - split_and!; try (by vm_compute); decided.
  - by vm_compute.
Defined.

(** A request for a service that is not one of the three is not answered with an
    error: the process sends the eight bytes of a header from a null pointer. *)
Theorem unknown_service_null {App : Type} {HM : HasMem App} {HMO : HasMemOk App}
    {APP : QkdApp App} {ML : Malloc} {MT : MallocTotal} {LU : Libuuid} {OS : Openssl} {ST : Stack}
    fuel st (s : App) c h body c' :
  (2 <= fuel)%nat -> mem_wf (get_mem s) -> requests c h body c' ->
  ~ known_service (service h) -> service h <> service_code QKD_SERVICE_CLOSE_SERVER ->
  qkd_servlet fuel st (Sess s c) = Fault NullDeref.
Proof.
  intros Hf Hm Hreq Hk Hsv. rewrite at_mem_get, (servlet_received fuel st h body _ s c c') by done.
  unfold serve. do 3 (rewrite (proj2 (Z.eqb_neq _ _))
    by (intros E; apply Hk; rewrite E; unfold known_service; tauto)).
  erewrite cbind_ret by done. apply finish_null. cbn. by rewrite lookup_insert_eq.
Qed.

Lemma unknown_service_null_witness :
  qkd_servlet 2 SERVER_LISTENING (Sess kms0 (conn 6 [x00])) = Fault NullDeref.
Proof.
  apply (unknown_service_null 2 SERVER_LISTENING kms0 _ (header0 6 [x00]) [x00] drained).
  - lia.
  - by intros b _.
  - apply requests0; [decided|by vm_compute].
  - decided.
  - done.
Defined.

(** ** A leak *)

Definition gk_body : list byte :=
  enc gk_request_codec {| gkq_key_stream_id := Concrete.seq_uuid 0; gkq_index := 7;
                          gkq_metadata := [x00; x10] |}.

(** What a run of the servlet leaves in the heap. *)
Definition block_after (o : outcome (sess kms) server_status_t) (b : nat) : option cell :=
  match o with Ret _ w => heap (k_mem (s_app w)) !! b | _ => None end.

(** A granted GET_KEY request leaves its metadata allocated, in the fourth block after
    the memory before it, and nothing else: [free_qkd_get_key_request] frees nothing. *)
Lemma get_key_leaks_metadata :
  let o := qkd_servlet 2 SERVER_LISTENING (Sess (kms1 0 []) (conn 4 gk_body)) in
  block_after o 8 = Some (Bytes (Some <$> [x00; x10])) /\
  Forall (fun b => block_after o b = None) [5; 6; 7; 9; 10; 11; 12; 13]%nat.
Proof. split; [by vm_compute | repeat constructor; by vm_compute]. Qed.
