(* ===== verification/SocketTheorems.v ===== *)
(** The transfer functions of [Socket.v] and the setup of [Setup.v]: what is received,
    what goes wrong on the network, and how the peers are verified. *)

From S2P Require Import Prelude Models Memory Wire Sizes Platform Printf Serializers.
From S2P Require Import SerializersSpec Copy Kms KmsSpec Interfaces KmsApp Socket Servlet.
From S2P Require Import ServletProofs Errors Setup Run Kept Scenario CodecTheorems.

Section transfer.
Context {App : Type} {HM : HasMem App} {HMO : HasMemOk App} {ML : Malloc} {MT : MallocTotal}
  {OS : Openssl} {ST : Stack}.

(** C27: a message that one read delivers is received as it was sent.  [socket_ssl_recv]
    for [n] bytes, of which [SSL_read] delivers all, returns a new block with exactly
    these bytes; sending the buffer writes exactly these bytes to the connection. *)
Theorem socket_transfer fuel n bs (w : sess App) c' :
  (2 <= fuel)%nat -> n = Z.of_nat (length bs) -> 0 < n < 2 ^ 31 -> n <= stack_limit ->
  delivers (s_ssl w) n bs c' ->
  exists w', socket_ssl_recv fuel n w = Ret {| size := n; data := Ptr (next (get_mem w)) 0 |} w' /\
    get_mem w' = alloc (Bytes (Some <$> bs)) (get_mem w) /\ s_ssl w' = c' /\
    socket_ssl_send {| size := n; data := Ptr (next (get_mem w)) 0 |} w' =
      Ret tt (Sess (s_app w') (SSL_write c' bs).2).
Proof.
  intros Hf Hn Hr Hs Hd. eexists. split; [by apply (socket_ssl_recv_run fuel n bs)|].
  split; [cbn; by rewrite get_set_mem|]. split; [done|].
  apply (socket_ssl_send_run _ bs); [|done..]. apply block_data. cbn [get_mem sess_mem s_app].
  rewrite get_set_mem. apply lookup_alloc.
Qed.

(** The [n] bytes that are asked for arrive in the given parts, one in each read. *)
Fixpoint arrives (c : ssl) (n : Z) (parts : list (list byte)) (c' : ssl) : Prop :=
  match parts with
  | [] => n = 0 /\ c' = c
  | l :: parts =>
      l <> [] /\ exists c1, delivers c n l c1 /\ arrives c1 (n - Z.of_nat (length l)) parts c'
  end.

(** What the buffer holds after the reads: each part from its start, over the one before. *)
Definition overlaid (n : nat) (parts : list (list byte)) : list mbyte :=
  foldl (fun buf l => overwrite 0 (Some <$> l) buf) (replicate n None) parts.

Lemma arrives_length c n parts c' : arrives c n parts c' -> n = Z.of_nat (length (concat parts)).
Proof.
  revert c n. induction parts as [|l parts IH]; intros c n; cbn; [by intros [-> _]|].
  intros (_ & c1 & _ & H%IH). rewrite length_app. lia.
Qed.

Lemma part_length (l : list byte) parts : l ∈ parts -> (length l <= length (concat parts))%nat.
Proof.
  induction parts as [|l' parts IH]; [by intros ?%elem_of_nil|]. cbn. rewrite length_app.
  intros [->|?%IH]%elem_of_cons; lia.
Qed.

Lemma recv_loop_arrives fuel n buf len parts (w : sess App) c' :
  (length parts < fuel)%nat -> 0 <= len <= n -> n < 2 ^ 31 -> n <> SSL3_RT_MAX_PLAIN_LENGTH ->
  arrives (s_ssl w) (n - len) parts c' ->
  recv_loop fuel n buf len w =
    Ret (foldl (fun buf l => overwrite 0 (Some <$> l) buf) buf parts, n) (Sess (s_app w) c').
Proof.
  revert fuel buf len w. induction parts as [|l parts IH]; intros fuel buf len w Hf Hl Hn Hne.
  - intros [H0 ->]. destruct fuel as [|fuel]; [cbn in Hf; lia|]. cbn [recv_loop].
    rewrite (proj2 (Z.ltb_ge _ _)) by lia. destruct w. unfold cret. cbn. do 2 f_equal. lia.
  - cbn [length arrives] in *. intros (Hne0 & c1 & Hd & Harr).
    assert (0 < length l)%nat by (destruct l; [done|cbn; lia]).
    pose proof (arrives_length _ _ _ _ Harr) as Hlen. destruct fuel as [|fuel]; [lia|].
    rewrite (recv_loop_turn _ _ _ _ _ (Z.of_nat (length l)) l c1) by (done || lia).
    rewrite wrap64_small, (proj2 (Z.eqb_neq _ 0)), (proj2 (Z.eqb_neq n _)) by lia.
    rewrite size_add_small by lia.
    apply (IH fuel _ _ (Sess (s_app w) c1)); try lia. cbn.
    by replace (n - (len + Z.of_nat (length l))) with (n - len - Z.of_nat (length l)) by lia.
Qed.

Lemma length_overlaid n parts : (forall l, l ∈ parts -> (length l <= n)%nat) ->
  length (overlaid n parts) = n.
Proof.
  unfold overlaid. intros Hp. assert (length (replicate n (None : mbyte)) = n) as Hr
    by apply length_replicate. revert Hr. generalize (replicate n (None : mbyte)) as buf.
  induction parts as [|l parts IH]; intros buf Hbuf; [done|]. cbn. apply IH.
  - intros l' Hl'. apply Hp. by right.
  - rewrite overwrite_start, length_app, length_drop, length_fmap.
    pose proof (Hp l ltac:(by left)). lia.
Qed.

(** Beyond every part nothing is written. *)
Lemma overlaid_beyond n parts i : (i < n)%nat -> (forall l, l ∈ parts -> (length l <= i)%nat) ->
  overlaid n parts !! i = Some None.
Proof.
  unfold overlaid. intros Hi Hp. assert (replicate n (None : mbyte) !! i = Some None) as Hr
    by by apply lookup_replicate_2. revert Hr. generalize (replicate n (None : mbyte)) as buf.
  induction parts as [|l parts IH]; intros buf Hbuf; [done|]. cbn. apply IH.
  - intros l' Hl'. apply Hp. by right.
  - pose proof (Hp l ltac:(by left)). rewrite overwrite_start, lookup_app_r, lookup_drop, length_fmap
      by (rewrite length_fmap; lia). by replace (length l + (i - length l))%nat with i by lia.
Qed.

(** C36: what [socket_ssl_recv] makes of a message that arrives in any number of parts.  It
    returns a buffer of the size that was asked for in which each part lies over the ones
    before it, from the first byte on; this is the message exactly when it arrives in one
    part, and otherwise its last byte is one that was never written. *)
Theorem socket_recv_parts fuel n parts (w : sess App) c' :
  (length parts < fuel)%nat -> 0 < n < 2 ^ 31 -> n <= stack_limit ->
  n <> SSL3_RT_MAX_PLAIN_LENGTH -> arrives (s_ssl w) n parts c' ->
  let buf := overlaid (Z.to_nat n) parts in
  (exists w', socket_ssl_recv fuel n w = Ret {| size := n; data := Ptr (next (get_mem w)) 0 |} w' /\
     get_mem w' = alloc (Bytes buf) (get_mem w) /\ s_ssl w' = c') /\
  (buf = Some <$> concat parts <-> length parts = 1%nat) /\
  (length parts <> 1%nat -> last buf = Some None).
Proof.
  intros Hf Hr Hs Hne Harr buf. pose proof (arrives_length _ _ _ _ Harr) as Hlen.
  assert (forall l, l ∈ parts -> (length l <= Z.to_nat n)%nat) as Hle.
  { intros l (i & Hl)%list_elem_of_lookup. rewrite Hlen, Nat2Z.id. clear -Hl.
    revert i Hl. induction parts as [|l' parts IH]; intros [|i] Hl; try done; cbn in *;
      rewrite length_app; [injection Hl as ->; lia|]. apply IH in Hl. lia. }
  assert (length buf = Z.to_nat n) as Hbuf by by apply length_overlaid.
  assert (length parts <> 1%nat -> last buf = Some None) as Hlast.
  { intros H1. rewrite last_lookup, Hbuf. apply overlaid_beyond; [lia|].
    destruct parts as [|l1 [|l2 parts]]; [cbn in Hlen; lia|done|].
    destruct Harr as (Hn1 & c1 & _ & Hn2 & _). cbn in Hlen. rewrite !length_app in Hlen.
    assert (0 < length l1)%nat by (destruct l1; [done|cbn; lia]).
    assert (0 < length l2)%nat by (destruct l2; [done|cbn; lia]).
    intros l Hl. rewrite !elem_of_cons in Hl. destruct Hl as [->|[->|Hl]]; [lia|lia|].
    apply part_length in Hl. lia. }
  split; [|split; [split|done]].
  - eexists. split.
    + apply (recv_returns fuel n buf n w c'); [done|done|lia|done|].
      apply (recv_loop_arrives fuel n _ 0 parts w c'); [lia..|done|by rewrite Z.sub_0_r].
    + cbn. rewrite get_set_mem, take_ge by lia. done.
  - intros Heq. destruct (decide (length parts = 1%nat)) as [|H1]; [done|].
    specialize (Hlast H1). rewrite Heq, fmap_last in Hlast. by destruct (last (concat parts)).
  - intros H1. destruct parts as [|l [|]]; [done| |done]. unfold buf, overlaid. cbn in *.
    rewrite overwrite_start, drop_ge; rewrite ?app_nil_r in *; [done|].
    rewrite length_fmap, length_replicate. lia.
Qed.

(** The size 16384, which also stands for an unknown size: only the first part is received,
    and with its own length. *)
Theorem socket_recv_first_part fuel n l (w : sess App) c1 :
  (1 <= fuel)%nat -> n = 0 \/ n = SSL3_RT_MAX_PLAIN_LENGTH -> SSL3_RT_MAX_PLAIN_LENGTH <= stack_limit ->
  l <> [] -> (length l <= Z.to_nat SSL3_RT_MAX_PLAIN_LENGTH)%nat ->
  delivers (s_ssl w) SSL3_RT_MAX_PLAIN_LENGTH l c1 ->
  socket_ssl_recv fuel n w =
    Ret {| size := Z.of_nat (length l); data := Ptr (next (get_mem w)) 0 |}
      (Sess (set_mem (alloc (Bytes (Some <$> l)) (get_mem w)) (s_app w)) c1).
Proof. intros. by eapply recv_first_part. Qed.

(** C37: an error of [SSL_read] is taken for a length.  When the first read gives a negative
    result, it becomes a [size_t] close to [2 ^ 64], which ends the loop and is the size that
    is allocated and copied from the buffer on the stack, out of its bounds.  When [len]
    bytes have been received before (of a size other than 16384, for which there is only one
    read), the result [r] is added to them: if the sum is negative the loop ends with such a
    size too, and otherwise it goes on from [len + r]. *)
Theorem socket_recv_error fuel n r (w : sess App) c' :
  (1 < fuel)%nat -> 0 < n < 2 ^ 31 -> - 2 ^ 31 <= r < 0 ->
  (n <= stack_limit -> SSL_read (s_ssl w) n = ((r, []), c') ->
   socket_ssl_recv fuel n w = Fault OutOfBounds) /\
  (forall buf len, 0 < len < n -> n <> SSL3_RT_MAX_PLAIN_LENGTH ->
   SSL_read (s_ssl w) (n - len) = ((r, []), c') ->
   recv_loop fuel n buf len w =
     if len + r <? 0 then Ret (buf, 2 ^ 64 + (len + r)) (Sess (s_app w) c')
     else recv_loop (pred fuel) n buf (len + r) (Sess (s_app w) c')).
Proof.
  intros Hf Hn Hr. split.
  - intros Hs Hrd. assert ((n =? 0) = false) as Hn0 by lia.
    rewrite (recv_fails fuel n r w c') by (unfold asked; rewrite ?Hn0; done || lia).
    by rewrite (proj2 (Z.eqb_neq _ _)) by lia.
  - intros buf len Hl Hne Hrd. destruct fuel as [|[|fuel]]; [lia..|].
    rewrite (recv_loop_turn _ _ _ _ _ r [] c') by (done || lia).
    rewrite wrap64_negative, (proj2 (Z.eqb_neq _ 0)), (proj2 (Z.eqb_neq n _)) by lia.
    unfold size_add, wrap64. destruct (Z.ltb_spec (len + r) 0) as [H|H].
    + rewrite Z.mod_small by lia. cbn [recv_loop pred]. rewrite (proj2 (Z.ltb_ge _ _)) by lia.
      unfold cret. do 2 f_equal. lia.
    + rewrite <- (Z_mod_plus_full _ (-1)), Z.mod_small by lia. cbn [pred]. f_equal. lia.
Qed.

(** C28: the loop of [socket_ssl_recv] ends when no read fails.  On a connection that keeps
    to the contract of [SSL_read] each turn receives a byte or is the last, so that [n + 1]
    turns are enough for [n] bytes: with that much fuel the loop returns or, when the peer
    has closed the connection, leaves the process.  (An error in between decreases the length
    received so far, and the loop goes back: [socket_recv_error].) *)
Theorem socket_recv_terminates {OK : OpensslOk} fuel n buf len (w : sess App) :
  (forall c k, 0 <= (SSL_read c k).1.1) ->
  0 <= len <= n -> n < 2 ^ 31 -> (Z.to_nat (n - len) < fuel)%nat ->
  (exists r w', recv_loop fuel n buf len w = Ret r w') \/
  (exists w', recv_loop fuel n buf len w = Exit EXIT_FAILURE w').
Proof.
  intros Herr. revert buf len w. induction fuel as [|fuel IH]; intros buf len w Hl Hn Hf; [lia|].
  destruct (decide (len < n)) as [Hlt|Hge].
  2: { left. cbn [recv_loop]. rewrite (proj2 (Z.ltb_ge _ _)) by lia. by do 2 eexists. }
  destruct (SSL_read (s_ssl w) (n - len)) as [[r bs] c'] eqn:Hrd.
  pose proof (SSL_read_count (s_ssl w) (n - len)) as Hc. pose proof (Herr (s_ssl w) (n - len)) as Hr.
  rewrite Hrd in Hc, Hr. cbn in Hc, Hr.
  rewrite (recv_loop_turn _ _ _ _ _ r bs c') by (done || lia).
  destruct (decide (r = 0)) as [->|Hr0]; [right; by eexists|].
  rewrite wrap64_small, (proj2 (Z.eqb_neq _ 0)), size_add_small by lia.
  case_match; [left; by do 2 eexists|]. apply IH; lia.
Qed.

End transfer.

(** The transfer functions are run on a memory and nothing else: [Kept.mem_mem]. *)

Definition records (l : list (list byte)) : ssl :=
  {| Concrete.incoming := l; Concrete.outgoing := [] |}.

Lemma socket_transfer_witness :
  exists w', socket_ssl_recv 2 2 (Sess mem0 (records [[x01; x02]])) =
      Ret {| size := 2; data := Ptr 0 0 |} w' /\
    get_mem w' = wire_mem [x01; x02].
Proof.
  destruct (socket_transfer 2 2 [x01; x02] (Sess mem0 (records [[x01; x02]])) drained)
    as (w' & H1 & H2 & _); [lia|done|lia|by vm_compute|done|].
  exists w'. by split.
Defined.

Lemma socket_recv_parts_witness :
  exists w', socket_ssl_recv 4 4 (Sess mem0 (records [[x01; x02]; [x03]; [x04]])) =
      Ret {| size := 4; data := Ptr 0 0 |} w' /\
    get_mem w' = alloc (Bytes [Some x04; Some x02; None; None]) mem0.
Proof.
  destruct (socket_recv_parts 4 4 [[x01; x02]; [x03]; [x04]]
    (Sess mem0 (records [[x01; x02]; [x03]; [x04]])) drained) as ((w' & H1 & H2 & _) & _).
  - cbn. lia.
  - lia.
  - by vm_compute.
  - done.
  - split; [done|]. exists (records [[x03]; [x04]]). split; [done|].
    split; [done|]. exists (records [[x04]]). split; [done|].
    split; [done|]. exists drained. by split.
  - exists w'. split; [exact H1|exact H2].
Defined.

Lemma socket_recv_first_part_witness :
  socket_ssl_recv 1 16384 (Sess mem0 (records [[x01]; [x02]])) =
    Ret {| size := 1; data := Ptr 0 0 |}
      (Sess (alloc (Bytes [Some x01]) mem0) (records [[x02]])).
Proof.
  pose proof (socket_recv_first_part 1 16384 [x01] (Sess mem0 (records [[x01]; [x02]]))
    (records [[x02]]) ltac:(lia) ltac:(by right) ltac:(by vm_compute) ltac:(done)
    ltac:(by vm_compute; lia) ltac:(done)) as H. exact H.
Defined.

Lemma socket_recv_error_witness :
  let w := @Sess Concrete.scripted mem mem0 [(-1, [])] in
  socket_ssl_recv (OS := Concrete.scripted) 2 8 w = Fault OutOfBounds /\
  recv_loop (OS := Concrete.scripted) 2 8 (replicate 8 None) 5 w =
    recv_loop (OS := Concrete.scripted) 1 8 (replicate 8 None) 4 (@Sess Concrete.scripted mem mem0 []).
Proof.
  destruct (socket_recv_error (OS := Concrete.scripted) 2 8 (-1)
    (@Sess Concrete.scripted mem mem0 [(-1, [])]) []) as [H1 H2]; try lia.
  split; [apply H1; by vm_compute|]. by apply (H2 (replicate 8 None) 5).
Defined.

Lemma socket_recv_terminates_witness :
  let w := Sess mem0 (records [[x01]; [x02; x03]; [x04]]) in
  (exists r w', recv_loop 9 8 (replicate 8 None) 0 w = Ret r w') \/
  (exists w', recv_loop 9 8 (replicate 8 None) 0 w = Exit EXIT_FAILURE w').
Proof.
  apply (socket_recv_terminates (OK := Concrete.tls_ok) 9 8); try lia.
  intros [[|r rs] out] k; cbn; lia.
Defined.

(** ** What the network does to the server *)

Section network.
Context {App : Type} {HM : HasMem App} {HMO : HasMemOk App} {APP : QkdApp App} {ML : Malloc}
  {LU : Libuuid} {OS : Openssl} {ST : Stack}.

(** C38: a client that closes its connection stops the server.  When the first read of a
    request finds the connection closed, [socket_ssl_recv] leaves the process with
    [EXIT_FAILURE]: the clients that wait are not served. *)
Theorem disconnect_exits fuel c clients (s : App) c1 :
  (1 <= fuel)%nat -> sizeof_header <= stack_limit -> cl_accept c <> -1 ->
  SSL_read (cl_ssl c) sizeof_header = ((0, []), c1) ->
  serve_clients (qkd_servlet fuel) (c :: clients) SERVER_LISTENING s = Exit EXIT_FAILURE s.
Proof.
  intros Hf Hs Hacc Hrd. cbn [serve_clients]. rewrite (proj2 (Z.eqb_neq _ _)) by done.
  apply cbind_exit. unfold on_connection.
  assert (qkd_servlet fuel SERVER_LISTENING (Sess s (cl_ssl c)) = Exit EXIT_FAILURE (Sess s c1))
    as ->; [|done].
  apply cbind_exit. unfold socket_ssl_recv.
  rewrite (proj2 (Z.eqb_neq _ 0)), (proj2 (Z.ltb_ge _ _)) by (unfold sizeof_header in *; lia).
  apply cbind_exit. destruct fuel as [|fuel]; [lia|].
  by rewrite (recv_loop_turn _ _ _ _ _ 0 [] c1) by (done || (unfold sizeof_header; lia)).
Qed.

(** C40: the size in a request's header is the size of an array on the stack.  Whatever
    service a client names, other than [CLOSE_SERVER], a size beyond the stack overflows
    it before a byte of the payload is read. *)
Theorem oversized_request_overflows_stack {MT : MallocTotal} fuel st (s : App) c h c1 :
  (2 <= fuel)%nat -> mem_wf (get_mem s) -> header_ok h -> sizeof_header <= stack_limit ->
  delivers c sizeof_header (enc header_codec h) c1 ->
  service h <> service_code QKD_SERVICE_CLOSE_SERVER ->
  payload_size h <> 0 -> stack_limit < payload_size h ->
  qkd_servlet fuel st (Sess s c) = Fault StackOverflow.
Proof.
  intros Hf Hm Hh Hs Hd Hsv Hn Hbig. rewrite at_mem_get. unfold qkd_servlet.
  rewrite (read_header fuel h _ s c c1 Hf Hm Hh Hs Hd), (proj2 (Z.eqb_neq _ _)) by done.
  erewrite cbind_fault; [done|]. unfold socket_ssl_recv.
  by rewrite (proj2 (Z.eqb_neq _ 0)), (proj2 (Z.ltb_lt _ _)) by done.
Qed.

End network.

Lemma disconnect_exits_witness :
  serve_clients (qkd_servlet 1) [{| cl_ssl := drained; cl_accept := 1 |}] SERVER_LISTENING kms0
  = Exit EXIT_FAILURE kms0.
Proof.
  apply (disconnect_exits 1 {| cl_ssl := drained; cl_accept := 1 |} [] kms0 drained);
    try lia; by vm_compute.
Defined.

Definition big_header : qkd_header_t :=
  {| version := QKD_004_VERSION; service := 4; payload_size := 2 ^ 24 |}.

Lemma oversized_request_overflows_stack_witness :
  qkd_servlet 2 SERVER_LISTENING (Sess kms0 (records [enc header_codec big_header])) =
    Fault StackOverflow.
Proof.
  apply (oversized_request_overflows_stack 2 SERVER_LISTENING kms0 _ big_header drained); try lia.
  - by intros b _.
  - split_and!; decided.
  - by vm_compute.
  - by vm_compute.
  - done.
  - done.
  - by vm_compute.
Defined.

(** ** Reports of errors *)

(** C39: what the reports of errors print.  [log_ssl] ends after at most two turns of its loop
    and empties OpenSSL's queue, but it never prints the earliest error: asking for it in the
    condition of the loop removes it before the rest is printed.  [socket_ssl_check_errors]
    prints all of them, when the length is negative and the reason is not that the call is to
    be repeated, and otherwise nothing. *)
Theorem error_reports {OS : Openssl} {SE : SslErrors} {SO : SslErrorsOk} fuel (c : ssl) len e out :
  (2 <= fuel)%nat ->
  (exists e', log_ssl fuel {| rp_errors := e; rp_stderr := out |} =
      Ret tt {| rp_errors := e';
                rp_stderr := out ++ concat (error_line <$> tail (error_queue e)) |} /\
    error_queue e' = []) /\
  (exists e', socket_ssl_check_errors c len {| rp_errors := e; rp_stderr := out |} =
      Ret tt {| rp_errors := e';
                rp_stderr := out ++
                  (if decide (len < 0 /\ SSL_get_error c len e <> SSL_ERROR_WANT_READ /\
                              SSL_get_error c len e <> SSL_ERROR_WANT_WRITE)
                   then concat (error_line <$> error_queue e) else []) |}).
Proof.
  intros Hf. split; [by apply log_ssl_run|apply check_errors_run].
Qed.

(** Two errors, of which [log_ssl] prints the second. *)
Lemma error_reports_witness :
  log_ssl (SE := ConcreteErrors.queue) 2
      (Build_report (SE := ConcreteErrors.queue) [10%positive; 20%positive] []) =
    Ret tt (Build_report (SE := ConcreteErrors.queue) [] (lit "20" ++ [x0a])).
Proof.
  destruct (error_reports (SE := ConcreteErrors.queue) (SO := ConcreteErrors.queue_ok) 2 drained (-1)
    [10%positive; 20%positive] []) as [(e' & Hrun & He) _]; [lia|].
  apply fmap_nil_inv in He as ->. exact Hrun.
Defined.

(** ** Verification of the peers *)

Section contexts.
Context {OS : Openssl} {TLS : Tls}.

(** The verification mode for a role and a file of certification authorities. *)
Definition expected_mode (role : role_t) (peer_ca_pem : path) : Z :=
  match peer_ca_pem, role with
  | None, _ => SSL_VERIFY_NONE
  | Some _, ROLE_CLIENT => SSL_VERIFY_PEER
  | Some _, ROLE_SERVER => Z.lor SSL_VERIFY_PEER SSL_VERIFY_FAIL_IF_NO_PEER_CERT
  end.

Lemma load_peer_CA_mode {OK : TlsOk} ctx ca role e u e' :
  socket_ssl_context_load_peer_CA ctx ca role e = Ret u e' ->
  SSL_CTX_get_verify_mode ctx e' = expected_mode role ca.
Proof.
  unfold socket_ssl_context_load_peer_CA, call. destruct ca as [ca|].
  - intros (r & e1 & _ & H)%cbind_inv. case_match.
    + apply cbind_inv in H as (? & ? & _ & H). done.
    + injection H as _ <-. rewrite verify_mode_set. by destruct role.
  - intros [= _ <-]. by rewrite verify_mode_set.
Qed.

(** C29: a TLS context verifies the peer exactly when certification authorities are
    given.  A context that [socket_ssl_context_create] returns asks a server for its
    certificate, and a client for its certificate without exception, if a file of
    authorities was named; without one it verifies nothing, so that a client accepts any
    server.  A server context is only made with a certificate and a key. *)
Theorem context_verification {OK : TlsOk} role cert_pem key_pem peer_ca_pem proto e ctx e' :
  socket_ssl_context_create role cert_pem key_pem peer_ca_pem proto e = Ret ctx e' ->
  SSL_CTX_get_verify_mode ctx e' = expected_mode role peer_ca_pem /\
  (role = ROLE_SERVER -> is_Some cert_pem /\ is_Some key_pem).
Proof.
  unfold socket_ssl_context_create. intros (u & e1 & H1 & H)%cbind_inv.
  apply cbind_inv in H as (octx & e2 & _ & H). apply cbind_inv in H as (? & e3 & _ & H).
  apply cbind_inv in H as (? & e4 & _ & H). split.
  - destruct octx as [c|]; [|done]. apply cbind_inv in H as (r & e5 & _ & H). case_match.
    { by apply cbind_inv in H as (? & ? & _ & H). }
    apply cbind_inv in H as (? & e6 & _ & H). apply cbind_inv in H as (? & e7 & H7 & H).
    injection H as -> ->. by eapply load_peer_CA_mode.
  - intros ->. rewrite decide_True in H1 by done. by destruct cert_pem, key_pem.
Qed.

(** A server without a certificate or without a key leaves the process before it
    makes a context or a socket. *)
Theorem server_needs_certificate host port cert_pem key_pem ca_pem proto e :
  1024 <= port -> cert_pem = None \/ key_pem = None ->
  socket_server_setup host port cert_pem key_pem ca_pem proto e = Exit EXIT_FAILURE e.
Proof.
  intros Hp Hc. unfold socket_server_setup. rewrite (proj2 (Z.ltb_ge _ _)) by lia.
  erewrite cbind_ret by done. cbv iota. apply cbind_exit. unfold socket_ssl_context_create.
  apply cbind_exit. rewrite decide_True by done. destruct Hc as [-> | ->]; [done | by destruct cert_pem].
Qed.

End contexts.

Lemma context_verification_witness :
  @SSL_CTX_get_verify_mode _ one_context tt 3 = 3.
Proof.
  destruct (@context_verification _ one_context one_context_ok ROLE_SERVER (Some [x61]) (Some [x62])
    (Some [x63]) 0 0 tt 3) as [H _]; [by vm_compute|exact H].
Defined.

Lemma server_needs_certificate_witness :
  @socket_server_setup _ one_context [x61] 25575 (Some [x61]) None None 0 7 = Exit EXIT_FAILURE 7.
Proof. apply (@server_needs_certificate _ one_context); [lia|by right]. Defined.
