(* ===== verification/FileTheorems.v ===== *)
(** The text of a key file: properties of [KeyFile.v]. *)

From S2P Require Import Prelude Models Memory Wire Sizes Platform Printf SerializersSpec KeyFile.
From S2P Require Import Scenario.

(** The byte that eight bits, most significant first, stand for. *)
Definition bits_byte (l : list byte) : byte :=
  z2b (foldl (fun n c => 2 * n + if decide (c = x31) then 1 else 0) 0 l).

Lemma bits_byte_bits b : bits_byte (byte_bits b) = b.
Proof. by destruct b. Qed.

(** The keys in a text of bits. *)
Fixpoint parse_bits (n : nat) (l : list byte) : list byte :=
  match n with O => [] | S n => bits_byte (take 8 l) :: parse_bits n (drop 8 l) end.

Lemma length_byte_bits b : length (byte_bits b) = 8%nat.
Proof. done. Qed.

Lemma parse_key_bits key rest : parse_bits (length key) ((key ≫= byte_bits) ++ rest) = key.
Proof.
  induction key as [|b key IH]; [done|]. cbn [length parse_bits mbind list_bind].
  rewrite <- app_assoc, <- (length_byte_bits b), take_prefix, drop_prefix.
  by rewrite bits_byte_bits, IH.
Qed.

(** C30: [write_key_to_file_bit_format] appends the index in decimal and the key in bits.
    For an index below [2 ^ 31] and a key in memory the file ends with [key_text], from
    which the index and the key can be read back: the digits denote the index, and the
    bits, eight to a byte and the most significant first, the key. *)
Theorem key_file_written m r key f :
  0 <= gkr_index r < 2 ^ 31 -> bytes_at m (gkr_key_buffer r) key ->
  match data (gkr_key_buffer r) with Null => True | Ptr _ off => off = 0%nat end ->
  write_key_to_file_bit_format r {| kf_mem := m; kf_file := Some f |} =
    Ret tt {| kf_mem := m; kf_file := Some (f ++ key_text (gkr_index r) key) |} /\
  parse_u (print_u (gkr_index r)) = gkr_index r /\
  parse_bits (length key) ((key ≫= byte_bits) ++ [x0a; x0a]) = key.
Proof.
  intros Hi Hk Hoff. split_and!; [by apply write_key_run|by apply print_u_spec; lia|apply parse_key_bits].
Qed.

Definition file0 : key_file := {| kf_mem := alloc (Bytes [Some xa5]) mem0; kf_file := Some [] |}.

Definition response_at (index : Z) : qkd_get_key_response_t :=
  {| gkr_status := 0; gkr_index := index; gkr_key_buffer := {| size := 1; data := Ptr 0 0 |};
     gkr_metadata := qkd_bytes_zero |}.

Lemma key_file_written_witness :
  write_key_to_file_bit_format (response_at 120) file0 =
    Ret tt {| kf_mem := kf_mem file0; kf_file := Some (lit "Index: 120" ++ x0a ::
      lit "Key: 10100101" ++ [x0a; x0a]) |}.
Proof.
  destruct (key_file_written (kf_mem file0) (response_at 120) [xa5] []) as [H _].
  - cbn. lia.
  - apply (bytes_at_block _ 0 [xa5]); [by vm_compute|done].
  - done.
  - exact H.
Defined.

(** An index of [2 ^ 31] or more is never written.  The conversion [%d] takes it for
    a negative number: the text overflows [sindex], or bytes of [sindex] that were never
    written are used, or the file gets a minus sign in place of the index. *)
Theorem key_file_negative_index r s f :
  2 ^ 31 <= gkr_index r < 2 ^ 32 -> kf_file s = Some f ->
  (exists e, write_key_to_file_bit_format r s = Fault e) \/
  (exists l, write_key_to_file_bit_format r s =
    (fput (x0a :: lit "Key: ");;;
     write_key_bytes (data (gkr_key_buffer r)) 0 (Z.to_nat (size (gkr_key_buffer r)));;;
     fput [x0a; x0a])
    {| kf_mem := kf_mem s; kf_file := Some (f ++ lit "Index: -" ++ l) |}).
Proof.
  intros Hi Hf. unfold write_key_to_file_bit_format.
  erewrite !cbind_ret by by apply fput_run.
  rewrite number_of_digits_length by (unfold u32; lia).
  pose proof (length_print_u_pos (gkr_index r) ltac:(lia)) as Hpos.
  pose proof (sindex_negative (gkr_index r) (Z.of_nat (length (print_u (gkr_index r)))) Hi
    ltac:(lia)) as H.
  destruct (sprintf_sindex (gkr_index r)) as [sindex|e]; [|left; by exists e].
  destruct (H {| kf_mem := kf_mem s; kf_file := Some (f ++ lit "Index: ") |})
    as [[e He]|[l Hl]].
  - left. exists e. by apply cbind_fault.
  - right. exists l.
    erewrite cbind_ret by (rewrite Hl; by apply fput_run). cbn [kf_mem].
    by rewrite <- app_assoc.
Qed.

Lemma key_file_negative_index_witness :
  (exists e, write_key_to_file_bit_format (response_at (2 ^ 32 - 12345678)) file0 = Fault e) \/
  (exists l, write_key_to_file_bit_format (response_at (2 ^ 32 - 12345678)) file0 =
    (fput (x0a :: lit "Key: ");;;
     write_key_bytes (Ptr 0 0) 0 1;;; fput [x0a; x0a])
    {| kf_mem := kf_mem file0; kf_file := Some (lit "Index: -" ++ l) |}).
Proof.
  apply (key_file_negative_index (response_at (2 ^ 32 - 12345678)) file0 []); [cbn; lia|done].
Defined.
