(* ===== verification/ClientTheorems.v ===== *)
(** The socket client: a call over the network is a call of the server's application. *)

From S2P Require Import Prelude Models Memory Wire Sizes Platform Printf Serializers.
From S2P Require Import SerializersSpec Copy Kms KmsSpec KmsProofs Interfaces KmsApp Socket.
From S2P Require Import Servlet ServletProofs Setup Run Answers Client Remote Network Scenario.
From S2P Require Import CodecTheorems KmsTheorems.
From S2P Require Import ServerTheorems SocketTheorems.

Section remote.
Context {ML : Malloc} {MT : MallocTotal} {LU : Libuuid} {LO : LibuuidOk} {RD : Rand}
  {OS : Openssl} {TLS : Tls} {ST : Stack}.

(** C10: GET_KEY over the network gives what the server's application gives.  When the
    client's next connection is to a server in state [a], [qkd_get_key] of
    [ssl_socket_client.c] returns the index, the key, the metadata and the status that
    the specification of GET_KEY gives in [a], in two new blocks; a denied request gives
    its own metadata and an empty key.  The caller's memory is unchanged, and of what
    the call allocates only the header of the response is not freed. *)
Theorem remote_get_key fuel cfg q b kb st0 m e e' a a' :
  (2 <= fuel)%nat -> mem_wf m -> gk_request_ok q ->
  heap m !! b = Some (Bytes (Some <$> gkq_metadata q)) ->
  Z.of_nat (length (gk_message q)) < 2 ^ 31 ->
  peer_serves cfg e QKD_SERVICE_GET_KEY_REQUEST QKD_SERVICE_GET_KEY_RESPONSE
    (enc gk_request_codec q) a a' e' ->
  exists status key md m' h,
    gk_returns q a status key md a' /\
    Client.qkd_get_key fuel cfg (gkq_key_stream_id q) (gkq_index q) kb
        (buffer b (gkq_metadata q)) st0 {| cl_mem := m; cl_env := e |} =
      Ret (gkq_index q, buffer (3 + next m) key, buffer (3 + next m + 1) md, status)
        {| cl_mem := m'; cl_env := e' |} /\
    heap m' !! (3 + next m)%nat = Some (Bytes (Some <$> key)) /\
    heap m' !! (3 + next m + 1)%nat = Some (Bytes (Some <$> md)) /\
    leaves m m' h [3 + next m; 4 + next m]%nat.
Proof.
  intros Hf Hm Hq Hb Hlen Hp.
  destruct (remote_get_key_run fuel cfg q b kb st0 m e e' a a' Hf Hm Hq Hb Hlen Hp)
    as (status & key & md & bs & Hspec & _ & Hrun).
  exists status, key, md. eexists _, _. split; [exact Hspec|]. split; [exact Hrun|]. split_and!.
  - rewrite <- (Nat.add_0_r (3 + next m)). by apply after_call_lookup.
  - by apply after_call_lookup.
  - by apply after_call_leaves.
Qed.

(** C11: OPEN_CONNECT over the network gives what the server's application gives: the id
    of [abs_open] in the server's state, the QoS that was asked for and success.  The
    caller's mimetype, a string in a block of its own, is freed and replaced by a copy;
    the copy of the response's mimetype and the response's header stay allocated. *)
Theorem remote_open_connect fuel cfg q src dst qs bq st0 m e e' a a' :
  (2 <= fuel)%nat -> mem_wf m -> oc_request_ok q ->
  str_at m src (ocq_source q) -> str_at m dst (ocq_destination q) -> qos_at m qs (ocq_qos q) ->
  metadata_mimetype qs = Ptr bq 0 -> Z.of_nat (length (oc_message q)) < 2 ^ 31 ->
  Forall stream_ok (a_streams a) ->
  peer_serves cfg e QKD_SERVICE_OPEN_CONNECT_REQUEST QKD_SERVICE_OPEN_CONNECT_RESPONSE
    (enc oc_request_codec q) a a' e' ->
  exists id m',
    spec_open (ocq_source q) (ocq_destination q) (ocq_qos q) (ocq_key_stream_id q) a = (id, a') /\
    Client.qkd_open_connect fuel cfg src dst qs (ocq_key_stream_id q) st0
        {| cl_mem := m; cl_env := e |} =
      Ret (qos_map (fun _ => Ptr (5 + next m) 0) (ocq_qos q), id,
           status_code qkd_status_code_successful) {| cl_mem := m'; cl_env := e' |} /\
    str_at m' (Ptr (5 + next m) 0) (metadata_mimetype (ocq_qos q)) /\
    heap m' !! bq = None /\
    (forall b, (b < next m)%nat -> b <> bq -> heap m' !! b = heap m !! b).
Proof.
  intros Hf Hm Hq Hsrc Hdst Hqs Hbq Hlen Hsg Hp.
  destruct (remote_open_run fuel cfg q src dst qs bq st0 m e e' a a') as (id & bs & Hspec & _ & Hrun);
    try done.
  destruct Hqs as [Hqs _]. rewrite Hbq in Hqs.
  pose proof Hqs as (Hmok & b & off & l & r' & [= <- <-] & Hb & _).
  destruct (after_open_at (oc_message q) (header_for QKD_SERVICE_OPEN_CONNECT_RESPONSE bs) bs bq
    (metadata_mimetype (ocq_qos q)) m) as (H1 & H2 & H3 & _);
    [done|by apply (mem_wf_live _ _ Hm (mk_is_Some _ _ Hb))|done|].
  exists id. eexists. by split_and!.
Qed.

(** CLOSE over the network gives the success that the server always gives, changes
    nothing at the server, and of the client's memory only adds: the caller's blocks are
    unchanged, and only the header of the response stays allocated. *)
Theorem remote_close fuel cfg id st0 m e e' (a a' : akms) :
  (2 <= fuel)%nat -> mem_wf m -> uuid_ok id ->
  peer_serves cfg e QKD_SERVICE_CLOSE_REQUEST QKD_SERVICE_CLOSE_RESPONSE
    (enc cl_request_codec {| clq_key_stream_id := id |}) a a' e' ->
  a' = a /\ exists m' h,
    Client.qkd_close fuel cfg id st0 {| cl_mem := m; cl_env := e |} =
      Ret (status_code qkd_status_code_successful) {| cl_mem := m'; cl_env := e' |} /\
    leaves m m' h [].
Proof.
  intros Hf Hm Hid Hp.
  destruct (remote_close_run fuel cfg id st0 m e e' a a' Hf Hm Hid Hp) as [-> [bs Hrun]].
  split; [done|]. eexists _, _. split; [exact Hrun|]. by apply (after_call_leaves _ _ _ []).
Qed.

(** C5: a key goes from the server to the client through all of the code.  A server in a state
    that holds the stream, with keys left that fit a message, is sent a GET_KEY request by
    [qkd_get_key] of the client.  [qkd_servlet] returns, with the streams of the
    specification: one more key is taken; and when what it has written on its end of the
    connection arrives at the client's, header and payload in one read each, the client
    returns with success the key of the stream for the index and for the type and role of
    its metadata, in a new block. *)
Theorem key_through_server fuel status (s : kms) (a : akms) F cfg q kt kr b kb st0 m e e' c cs cs1 st :
  (2 <= fuel)%nat -> mem_wf m -> gk_request_ok q ->
  heap m !! b = Some (Bytes (Some <$> gkq_metadata q)) ->
  Z.of_nat (length (gk_message q)) < 2 ^ 31 - 32 -> app_rep s a F ->
  find_by_ksid (gkq_key_stream_id q) (a_streams a) = Some st ->
  key_view (gkq_metadata q) = Some (kt, kr) -> i32 (st_index st + 1) ->
  key_chunk_size (st_qos st) + Z.of_nat (length (a_metadata a)) + 24 < 2 ^ 31 ->
  socket_client_init (host cfg) (port cfg) (cert_pem cfg) (key_pem cfg) (peer_ca_pem cfg)
    (max_proto_version cfg) e = Ret c e' ->
  let body := enc gk_request_codec q in
  requests cs (header_for QKD_SERVICE_GET_KEY_REQUEST body) body cs1 ->
  exists s' cs2 a' F', qkd_servlet fuel status (Sess s cs) = Ret status (Sess s' cs2) /\
    app_rep s' a' F' /\
    (answer_arrives c (gk_message q) cs1 cs2 ->
     a_streams a' = abs_take (gkq_key_stream_id q) (a_streams a) /\
     exists m' md,
       Client.qkd_get_key fuel cfg (gkq_key_stream_id q) (gkq_index q) kb
           (buffer b (gkq_metadata q)) st0 {| cl_mem := m; cl_env := e |} =
         Ret (gkq_index q, buffer (3 + next m) (abs_key_for st (gkq_index q) kt kr), md, 0)
           {| cl_mem := m'; cl_env := e' |} /\
       heap m' !! (3 + next m)%nat = Some (Bytes (Some <$> abs_key_for st (gkq_index q) kt kr)) /\
       extends m m').
Proof.
  intros Hf Hm Hq Hb Hlen Hrep Hst Hv Hi Hfit Hinit body Hreq.
  assert (Z.of_nat (length body) < 2 ^ 31 - 32) as Hbody.
  { unfold gk_message in Hlen. rewrite length_message in Hlen. fold body in Hlen. lia. }
  assert (answerable (service_code QKD_SERVICE_GET_KEY_REQUEST) body a) as Ha.
  { right. left. split; [done|]. exists q. split; [done|]. split; [done|]. rewrite Hst.
    split; [by eexists|done]. }
  destruct (servlet_serves fuel status s a F cfg e e' c QKD_SERVICE_GET_KEY_REQUEST body cs cs1)
    as (s' & cs2 & a' & F' & Hrun & Hrep' & Hpeer); try done.
  exists s', cs2, a', F'. split; [done|]. split; [done|]. intros Hc. specialize (Hpeer Hc).
  destruct (remote_get_key_run fuel cfg q b kb st0 m e e' a a' Hf Hm Hq Hb) as
    (code & key & md & bs & Hspec & _ & Hcall); [lia|exact Hpeer|].
  destruct (gk_returns_stream _ _ _ _ _ _ _ _ _ Hspec Hst Hv) as (-> & -> & Htake).
  split; [done|]. eexists _, _. split; [exact Hcall|]. split.
  - rewrite <- (Nat.add_0_r (3 + next m)). by apply after_call_lookup.
  - by apply after_call_kept.
Qed.

(** A response that is not one is read out of bounds by the client as well: bytes
    that the format of the response rejects, from whoever the peer is. *)
Theorem malformed_response_oob fuel cfg q b kb st0 m e h body e' :
  (2 <= fuel)%nat -> mem_wf m -> uuid_ok (gkq_key_stream_id q) ->
  heap m !! b = Some (Bytes (Some <$> gkq_metadata q)) ->
  Z.of_nat (length (gk_message q)) < 2 ^ 31 -> answers cfg e (gk_message q) h body e' ->
  dec gk_response_codec body = None ->
  Client.qkd_get_key fuel cfg (gkq_key_stream_id q) (gkq_index q) kb
      (buffer b (gkq_metadata q)) st0 {| cl_mem := m; cl_env := e |} = Fault OutOfBounds.
Proof.
  intros Hf Hm Hid Hb Hlen Hans Hdec.
  rewrite (client_get_key_run fuel cfg q b kb st0 m e h body e' Hf Hm Hid Hb Hlen Hans).
  by rewrite Hdec.
Qed.

End remote.

(** A client whose next connection is to the server of [akms1]. *)
Definition cfg0 : qkd_client_context_data_t :=
  {| host := lit "127.0.0.1"; port := 25575; cert_pem := None; key_pem := None;
     peer_ca_pem := None; max_proto_version := 0 |}.

Definition gk_query : get_key_request (list byte) :=
  {| gkq_key_stream_id := st_ksid stream0; gkq_index := 7; gkq_metadata := [x00; x10] |}.

Definition gk_answer : list byte :=
  enc gk_response_codec
    {| gkr_status := 0; gkr_index := 7;
       gkr_key_buffer := abs_key (lit "qkd://alice") (lit "qkd://bob") 8 7;
       gkr_metadata := device_metadata config0 |}.

(** The library with a connection on which the messages [h] and [bs] arrive. *)
Definition peer_of (sv : qkd_service) (bs : list byte) : @Tls Concrete.tls :=
  one_context_to (records [enc header_codec (header_for sv bs); bs]).

(** A client of [peer_of sv bs] with memory [m]. *)
Definition caller (sv : qkd_service) (bs : list byte) (m : mem) : @client_state _ (peer_of sv bs) :=
  @Build_client_state _ (peer_of sv bs) m 0.

Lemma peer_answers sv bs req : 0 < Z.of_nat (length bs) < 2 ^ 20 ->
  @answers _ (peer_of sv bs) _ cfg0 0 req (header_for sv bs) bs 0.
Proof.
  intros Hb. exists (records [enc header_codec (header_for sv bs); bs]),
    {| Concrete.incoming := []; Concrete.outgoing := [req] |},
    {| Concrete.incoming := [bs]; Concrete.outgoing := [req] |}.
  split; [done|]. split; [done|]. split.
  - unfold delivers. cbn [SSL_read Concrete.tls Concrete.incoming payload_size header_for].
    rewrite Nat2Z.id, take_ge, drop_ge by lia. done.
  - assert (header_ok (header_for sv bs)) as Hh.
    { split; [split_and!; decided|]. split; [by destruct sv; decided|].
      unfold u32. change (0 <= Z.of_nat (length bs) < 2 ^ 32). lia. }
    change (payload_size (header_for sv bs)) with (Z.of_nat (length bs)).
    change stack_limit with 8388608. change sizeof_header with 8.
    split; [exact Hh|]. split; [done|]. lia.
Qed.

Lemma remote_get_key_witness :
  exists m' h,
    Client.qkd_get_key (TLS := peer_of QKD_SERVICE_GET_KEY_RESPONSE gk_answer) 2 cfg0
        (st_ksid stream0) 7 qkd_bytes_zero (buffer 0 [x00; x10]) 0
        (caller QKD_SERVICE_GET_KEY_RESPONSE gk_answer (wire_mem [x00; x10])) =
      Ret (7, buffer 4 (abs_key (lit "qkd://alice") (lit "qkd://bob") 8 7),
           buffer 5 (device_metadata config0), 0)
        (caller QKD_SERVICE_GET_KEY_RESPONSE gk_answer m') /\
    leaves (wire_mem [x00; x10]) m' h [4; 5]%nat.
Proof.
  destruct (remote_get_key (TLS := peer_of QKD_SERVICE_GET_KEY_RESPONSE gk_answer) 2 cfg0 gk_query
    0 qkd_bytes_zero 0 (wire_mem [x00; x10]) 0 0 (akms1 0) (akms1 1))
    as (status & key & md & m' & h & Hspec & Hrun & _ & _ & Hl).
  - lia.
  - apply mem_wf_alloc. by intros b _.
  - split_and!; decided.
  - done.
  - by vm_compute.
  - exists gk_answer. split; [evaluated|]. apply peer_answers. by vm_compute.
  - exists m', h. destruct Hspec as (-> & -> & -> & _). split; [exact Hrun|exact Hl].
Defined.

(** The server of [kms1] on the other end: it answers with [gk_answer]. *)
Definition server_end : ssl := conn 4 (enc gk_request_codec gk_query).

Lemma server_end_requests :
  requests server_end (header_for QKD_SERVICE_GET_KEY_REQUEST (enc gk_request_codec gk_query))
    (enc gk_request_codec gk_query) drained.
Proof. apply (requests0 4); [decided|by vm_compute]. Qed.

Lemma server_end_answers : exists s', qkd_servlet 2 SERVER_LISTENING (Sess (kms1 0 []) server_end) =
  Ret SERVER_LISTENING (Sess s'
    (SSL_write drained (message QKD_SERVICE_GET_KEY_RESPONSE gk_answer)).2).
Proof.
  destruct (servlet_step 2 SERVER_LISTENING (kms1 0 []) server_end (akms1 0) [0; 1; 2; 3]%nat
    (header_for QKD_SERVICE_GET_KEY_REQUEST (enc gk_request_codec gk_query))
    (enc gk_request_codec gk_query) drained (message QKD_SERVICE_GET_KEY_RESPONSE gk_answer)
    (akms1 1)) as (s' & F' & H & _);
    [lia|apply kms1_rep|exact server_end_requests|discriminate|evaluated|by vm_compute|].
  exists s'. exact H.
Qed.

Lemma answer_comes :
  answer_arrives (records [enc header_codec (header_for QKD_SERVICE_GET_KEY_RESPONSE gk_answer); gk_answer])
    (gk_message gk_query) drained
    (SSL_write drained (message QKD_SERVICE_GET_KEY_RESPONSE gk_answer)).2.
Proof.
  apply answer_written; [by vm_compute|]. do 2 eexists. split; vm_compute; reflexivity.
Qed.

Lemma key_through_server_witness :
  exists s' cs2 m' md,
    qkd_servlet 2 SERVER_LISTENING (Sess (kms1 0 []) server_end) =
      Ret SERVER_LISTENING (Sess s' cs2) /\
    Client.qkd_get_key (TLS := peer_of QKD_SERVICE_GET_KEY_RESPONSE gk_answer) 2 cfg0
        (st_ksid stream0) 7 qkd_bytes_zero (buffer 0 [x00; x10]) 0
        (caller QKD_SERVICE_GET_KEY_RESPONSE gk_answer (wire_mem [x00; x10])) =
      Ret (7, buffer 4 (abs_key_for stream0 7 x00 x00), md, 0)
        (caller QKD_SERVICE_GET_KEY_RESPONSE gk_answer m').
Proof.
  destruct server_end_answers as (s1 & H1).
  destruct (key_through_server (TLS := peer_of QKD_SERVICE_GET_KEY_RESPONSE gk_answer) 2
    SERVER_LISTENING (kms1 0 []) (akms1 0) [0; 1; 2; 3]%nat cfg0 gk_query x00 x00 0 qkd_bytes_zero 0
    (wire_mem [x00; x10]) 0 0
    (records [enc header_codec (header_for QKD_SERVICE_GET_KEY_RESPONSE gk_answer); gk_answer])
    server_end drained stream0) as (s' & cs2 & a' & F' & Hrun & _ & Hc).
  - lia.
  - apply mem_wf_alloc. by intros b _.
  - split_and!; decided.
  - reflexivity.
  - by vm_compute.
  - apply kms1_rep.
  - reflexivity.
  - reflexivity.
  - decided.
  - by vm_compute.
  - reflexivity.
  - exact server_end_requests.
  - pose proof (eq_trans (eq_sym H1) Hrun) as E.
    assert ((SSL_write drained (message QKD_SERVICE_GET_KEY_RESPONSE gk_answer)).2 = cs2) as Ecs
      by exact (f_equal (fun o => match o with Ret _ w => s_ssl w | _ => drained end) E).
    rewrite <- Ecs in Hc. destruct (Hc answer_comes) as (_ & m' & md & Hcall & _).
    exists s', cs2, m', md. split; [exact Hrun|exact Hcall].
Defined.

(** Alice, whose strings are in blocks 0 to 2, opens the stream of [akms1] by its pair. *)
Definition alice_mem : mem :=
  alloc (Bytes (Some <$> enc_cstr (metadata_mimetype qos0)))
    (alloc (Bytes (Some <$> enc_cstr (lit "qkd://bob")))
      (alloc (Bytes (Some <$> enc_cstr (lit "qkd://alice"))) mem0)).

Definition oc_answer : list byte :=
  enc oc_response_codec {| ocr_status := 0; ocr_qos := qos0; ocr_key_stream_id := st_ksid stream0 |}.

Lemma remote_open_connect_witness :
  exists m',
    Client.qkd_open_connect (TLS := peer_of QKD_SERVICE_OPEN_CONNECT_RESPONSE oc_answer) 2 cfg0
        (Ptr 0 0) (Ptr 1 0) (qos_map (fun _ => Ptr 2 0) qos0) uuid_nil 0
        (caller QKD_SERVICE_OPEN_CONNECT_RESPONSE oc_answer alice_mem) =
      Ret (qos_map (fun _ => Ptr 8 0) qos0, st_ksid stream0, 0)
        (caller QKD_SERVICE_OPEN_CONNECT_RESPONSE oc_answer m') /\
    str_at m' (Ptr 8 0) (lit "application/json") /\ heap m' !! 2%nat = None.
Proof.
  destruct (remote_open_connect (TLS := peer_of QKD_SERVICE_OPEN_CONNECT_RESPONSE oc_answer) 2 cfg0
    (open0 uuid_nil) (Ptr 0 0) (Ptr 1 0) (qos_map (fun _ => Ptr 2 0) qos0) 2 0 alice_mem 0 0
    (akms1 0) (akms1 0)) as (id & m' & Hspec & Hrun & Hstr & Hfreed & _).
  - lia.
  - do 3 apply mem_wf_alloc. by intros b _.
  - split_and!; try (by vm_compute); decided.
  - apply str_at_block; [decided|done].
  - apply str_at_block; [decided|done].
  - split; [|done]. apply str_at_block; [decided|done].
  - done.
  - by vm_compute.
  - repeat constructor; try (by vm_compute); decided.
  - exists oc_answer. split; [evaluated|]. apply peer_answers. by vm_compute.
  - exists m'. assert (st_ksid stream0 = id) as -> by exact (f_equal fst Hspec).
    split; [exact Hrun|]. split; [exact Hstr|exact Hfreed].
Defined.

Lemma remote_close_witness :
  exists m' h,
    Client.qkd_close (TLS := peer_of QKD_SERVICE_CLOSE_RESPONSE (be_bytes 4 0)) 2 cfg0
        (st_ksid stream0) 1
        (caller QKD_SERVICE_CLOSE_RESPONSE (be_bytes 4 0) mem0) =
      Ret 0 (caller QKD_SERVICE_CLOSE_RESPONSE (be_bytes 4 0) m') /\ leaves mem0 m' h [].
Proof.
  destruct (remote_close (TLS := peer_of QKD_SERVICE_CLOSE_RESPONSE (be_bytes 4 0)) 2 cfg0
    (st_ksid stream0) 1 mem0 0 0 (akms1 0) (akms1 0)) as (_ & m' & h & Hrun & Hl).
  - lia.
  - by intros b _.
  - done.
  - exists (be_bytes 4 0). split; [evaluated|]. apply peer_answers. by vm_compute.
  - exists m', h. by split.
Defined.

Lemma malformed_response_oob_witness :
  Client.qkd_get_key (TLS := peer_of QKD_SERVICE_GET_KEY_RESPONSE [x00]) 2 cfg0
      (st_ksid stream0) 7 qkd_bytes_zero (buffer 0 [x00; x10]) 0
      (caller QKD_SERVICE_GET_KEY_RESPONSE [x00] (wire_mem [x00; x10])) = Fault OutOfBounds.
Proof.
  apply (malformed_response_oob (TLS := peer_of QKD_SERVICE_GET_KEY_RESPONSE [x00]) 2 cfg0 gk_query
    0 qkd_bytes_zero 0 (wire_mem [x00; x10]) 0 (header_for QKD_SERVICE_GET_KEY_RESPONSE [x00])
    [x00] 0).
  - lia.
  - apply mem_wf_alloc. by intros b _.
  - done.
  - done.
  - by vm_compute.
  - apply peer_answers. by vm_compute.
  - by vm_compute.
Defined.
