(* ===== verification/ApiTheorems.v ===== *)
(** The client library of [ClientApi.v]: its calls over the network, and the keys that the
    two ends of a stream get through it. *)

From S2P Require Import Prelude Models Memory Wire Sizes Platform Printf Serializers SerializersSpec.
From S2P Require Import Copy Kms KmsSpec KmsProofs Interfaces KmsApp Socket Servlet ServletProofs.
From S2P Require Import Setup Run Uuid Client Remote Network ClientApi ApiProofs World Scenario.
From S2P Require Import KmsTheorems.

Section api.
Context {ML : Malloc} {MT : MallocTotal} {LU : Libuuid} {LO : LibuuidOk} {RD : Rand}
  {UT : UuidText} {UO : UuidTextOk} {OS : Openssl} {TLS : Tls} {ST : Stack}.

(** C25: [openConnect] gives the text of the key stream id.  When the client's next
    connection is to a server in state [a], [openConnect] with the text of an id, or a
    null pointer for none, returns a new string: the text of the id that OPEN_CONNECT
    gives in [a] for the request of the library.  The text is read back as this id, and
    the caller's memory is unchanged. *)
Theorem openConnect_serves fuel aj certPem keyPem host port src dst s0 d0 ksid id keyLength m e e'
    a a' :
  (2 <= fuel)%nat -> mem_wf m -> str_at m aj (lit "application/json") ->
  str_at m src s0 -> str_at m dst d0 -> names_ksid m ksid id ->
  let q := api_request s0 d0 keyLength id in
  Z.of_nat (length (oc_message q)) < 2 ^ 31 -> Forall stream_ok (a_streams a) ->
  peer_serves (api_context certPem keyPem host port) e QKD_SERVICE_OPEN_CONNECT_REQUEST
    QKD_SERVICE_OPEN_CONNECT_RESPONSE (enc oc_request_codec q) a a' e' ->
  exists id' p m', spec_open s0 d0 (ocq_qos q) id a = (id', a') /\
    openConnect fuel aj certPem keyPem host port src dst ksid keyLength
        {| cl_mem := m; cl_env := e |} = Ret p {| cl_mem := m'; cl_env := e' |} /\
    str_at m' p (uuid_unparse id') /\ uuid_parse (uuid_unparse id') = Some id' /\ extends m m'.
Proof.
  intros Hf Hm Haj Hs Hd Hk q Hlen Hsg Hp.
  destruct (openConnect_run fuel aj certPem keyPem host port src dst s0 d0 ksid id keyLength m e e' a a')
    as (id' & p & m' & Hspec & Hid' & Hrun & _ & He & Hstr); try done.
  exists id', p, m'. pose proof (uuid_parse_unparse id' Hid'). by split_and!.
Qed.

(** [getKey] does not look at the key type it is given.  Whatever the type, the
    server is asked for a symmetric key with the default role, and the response is what
    the specification gives for that; for a known stream, the symmetric key. *)
Theorem getKey_ignores_key_type fuel certPem keyPem host port ksid t id index m e e' a a' :
  (2 <= fuel)%nat -> mem_wf m -> str_at m ksid t -> uuid_parse t = Some id ->
  peer_serves (api_context certPem keyPem host port) e QKD_SERVICE_GET_KEY_REQUEST
    QKD_SERVICE_GET_KEY_RESPONSE (enc gk_request_codec (api_key_request id index)) a a' e' ->
  exists r m', (forall keyType,
      getKey fuel certPem keyPem host port keyType index ksid {| cl_mem := m; cl_env := e |} =
        Ret r {| cl_mem := m'; cl_env := e' |}) /\
    extends m m' /\ gkr_index r = wrap32 index /\
    exists key md, bytes_at m' (gkr_key_buffer r) key /\
      gk_returns (api_key_request id index) a (gkr_status r) key md a' /\
      forall st, find_by_ksid id (a_streams a) = Some st ->
        key = abs_key_for st (wrap32 index) x00 x00.
Proof.
  intros Hf Hm Ht Hparse Hp.
  destruct (getKey_run fuel certPem keyPem host port 0 ksid t id index m e e' a a' Hf Hm Ht Hparse Hp)
    as (status & key & md & b & c & m' & Hspec & Hk & Hrun & _ & He & Hkey & _).
  eexists _, m'. split; [intros keyType; exact Hrun|]. split; [done|]. split; [done|].
  exists key, md. split; [|split; [exact Hspec|]].
  - by apply bytes_at_block.
  - intros st Hst. by eapply gk_returns_key.
Qed.

(** C31: what the library does with a text that is not an id.  [openConnect] frees the
    caller's string and returns null; [getKey] returns an empty response with the status
    of success; neither opens a connection.  [close] goes on with the nil id: where a
    server answers, it reports the success of closing a stream that was not named. *)
Theorem malformed_ksid fuel aj certPem keyPem host port src dst b t keyLength keyType index m e e'
    (a a' : akms) :
  (2 <= fuel)%nat -> mem_wf m -> str_at m (Ptr b 0) t -> uuid_parse t = None ->
  openConnect fuel aj certPem keyPem host port src dst (Ptr b 0) keyLength
    {| cl_mem := m; cl_env := e |} = Ret Null {| cl_mem := dealloc b m; cl_env := e |} /\
  (exists m', getKey fuel certPem keyPem host port keyType index (Ptr b 0)
      {| cl_mem := m; cl_env := e |} =
        Ret qkd_get_key_response_zero {| cl_mem := m'; cl_env := e |} /\
      heap m' = heap m /\
      gkr_status qkd_get_key_response_zero = status_code qkd_status_code_successful) /\
  (peer_serves (api_context certPem keyPem host port) e QKD_SERVICE_CLOSE_REQUEST
      QKD_SERVICE_CLOSE_RESPONSE (enc cl_request_codec {| clq_key_stream_id := uuid_nil |}) a a' e' ->
   exists m', close fuel certPem keyPem host port (Ptr b 0) {| cl_mem := m; cl_env := e |} =
     Ret {| clr_status := status_code qkd_status_code_successful |}
       {| cl_mem := m'; cl_env := e' |}).
Proof.
  intros Hf Hm Ht Hparse. split_and!.
  - by eapply openConnect_malformed.
  - destruct (getKey_malformed fuel certPem keyPem host port keyType index (Ptr b 0) t m e Hm Ht
      Hparse) as (m' & Hrun & Hh). by exists m'.
  - intros Hp. destruct (close_run fuel certPem keyPem host port (Ptr b 0) t m e e' a a' Hf Hm Ht)
      as (_ & m' & Hrun & _); [by rewrite Hparse|]. by exists m'.
Qed.

(** ** The two ends of a stream *)

(** One party after the other: it opens the stream without an id and then asks for the
    key at the index. *)
Definition gets_key (fuel : nat) (p : party) (keyLength keyType index : Z) (id : uuid_t)
    (key : list byte) : Prop :=
  exists ksid s r s', party_open fuel p keyLength = Ret ksid s /\
    str_at (cl_mem s) ksid (uuid_unparse id) /\
    party_key fuel p keyType index ksid s = Ret r s' /\
    gkr_status r = status_code qkd_status_code_successful /\
    bytes_at (cl_mem s') (gkr_key_buffer r) key.

Lemma party_gets_key fuel p s0 d0 keyLength keyType index a a1 e1 a2 a3 e3 id st :
  (2 <= fuel)%nat -> party_ready p s0 d0 ->
  let q := api_request s0 d0 keyLength uuid_nil in
  Z.of_nat (length (oc_message q)) < 2 ^ 31 -> Forall stream_ok (a_streams a) ->
  peer_serves (party_context p) (cl_env (pa_state p)) QKD_SERVICE_OPEN_CONNECT_REQUEST
    QKD_SERVICE_OPEN_CONNECT_RESPONSE (enc oc_request_codec q) a a1 e1 ->
  spec_open s0 d0 (ocq_qos q) uuid_nil a = (id, a1) ->
  peer_serves (party_context p) e1 QKD_SERVICE_GET_KEY_REQUEST QKD_SERVICE_GET_KEY_RESPONSE
    (enc gk_request_codec (api_key_request id index)) a2 a3 e3 ->
  find_by_ksid id (a_streams a2) = Some st ->
  gets_key fuel p keyLength keyType index id (abs_key_for st (wrap32 index) x00 x00) /\
  a_streams a3 = abs_take id (a_streams a2).
Proof.
  intros Hf (Hm & Hj & Hs & Hd) q Hlen Hsg Hp1 Hspec Hp2 Hst.
  unfold gets_key, party_open, party_open_as, party_key.
  destruct (pa_state p) as [m e] eqn:Ep. cbn [cl_mem cl_env] in *.
  destruct (openConnect_run fuel (pa_json p) (pa_cert p) (pa_key p) (pa_host p) (pa_port p)
    (pa_source p) (pa_destination p) s0 d0 Null uuid_nil keyLength m e e1 a a1)
    as (id' & ksid & m1 & Hspec' & Hid & Hopen & Hm1 & _ & Hstr); try done.
  pose proof (eq_trans (eq_sym Hspec) Hspec') as E. injection E as <-.
  destruct (getKey_run fuel (pa_cert p) (pa_key p) (pa_host p) (pa_port p) keyType ksid
    (uuid_unparse id) id index m1 e1 e3 a2 a3 Hf Hm1 Hstr (uuid_parse_unparse id Hid) Hp2)
    as (status & key & md & b & c & m2 & Hret & Hblob & Hkey & _ & _ & Hb & _).
  destruct (gk_returns_key _ _ _ _ _ _ _ _ Hret Hst) as (-> & -> & Htake).
  split; [|done]. do 4 eexists. split; [exact Hopen|]. split; [exact Hstr|].
  split; [exact Hkey|]. split; [done|]. by apply bytes_at_block.
Qed.

(** C6: through the whole system, from the library over the network to the key
    management server and back, the two ends of a stream get the same key.  Alice and
    Bob each call [openConnect] with the same two applications and no id, and each
    [getKey] with the text that they were given and the same index; the server answers
    them, in that order, and any requests of other clients in between.  Then both have
    the text of one id and, with the status of success, the same key, of the size that the
    stream was opened with. *)
Theorem api_peers_get_same_key fuel alice bob s0 d0 lenA lenB typeA typeB index
    a a1 b1 a2 b2 a3 b3 a4 evs1 evs2 evs3 o1 o2 o3 eA eB eA' eB' :
  (2 <= fuel)%nat -> party_ready alice s0 d0 -> party_ready bob s0 d0 ->
  let qA := api_request s0 d0 lenA uuid_nil in
  let qB := api_request s0 d0 lenB uuid_nil in
  let id := (spec_open s0 d0 (ocq_qos qA) uuid_nil a).1 in
  Z.of_nat (length (oc_message qA)) < 2 ^ 31 -> Z.of_nat (length (oc_message qB)) < 2 ^ 31 ->
  Forall stream_ok (a_streams a) -> Forall stream_ok (a_streams b1) ->
  peer_serves (party_context alice) (cl_env (pa_state alice)) QKD_SERVICE_OPEN_CONNECT_REQUEST
    QKD_SERVICE_OPEN_CONNECT_RESPONSE (enc oc_request_codec qA) a a1 eA ->
  abs_run evs1 a1 = Some (o1, SERVER_LISTENING, b1) ->
  peer_serves (party_context bob) (cl_env (pa_state bob)) QKD_SERVICE_OPEN_CONNECT_REQUEST
    QKD_SERVICE_OPEN_CONNECT_RESPONSE (enc oc_request_codec qB) b1 a2 eB ->
  abs_run evs2 a2 = Some (o2, SERVER_LISTENING, b2) ->
  peer_serves (party_context alice) eA QKD_SERVICE_GET_KEY_REQUEST QKD_SERVICE_GET_KEY_RESPONSE
    (enc gk_request_codec (api_key_request id index)) b2 a3 eA' ->
  abs_run evs3 a3 = Some (o3, SERVER_LISTENING, b3) ->
  peer_serves (party_context bob) eB QKD_SERVICE_GET_KEY_REQUEST QKD_SERVICE_GET_KEY_RESPONSE
    (enc gk_request_codec (api_key_request id index)) b3 a4 eB' ->
  exists key st, gets_key fuel alice lenA typeA index id key /\
    gets_key fuel bob lenB typeB index id key /\
    find_by_ksid id (a_streams a1) = Some st /\
    length key = Z.to_nat (key_chunk_size (st_qos st)).
Proof.
  intros Hf HA HB qA qB id HlA HlB Hsa Hsb P1 R1 P2 R2 P3 R3 P4.
  destruct (spec_open s0 d0 (ocq_qos qA) uuid_nil a) as [idA aA] eqn:EA. cbn [fst] in id. subst id.
  pose proof HA as (_ & _ & Hs0 & Hd0).
  assert (forall n, oc_request_ok (api_request s0 d0 n uuid_nil)) as Hq
    by (intros n; by eapply api_request_ok).
  pose proof (eq_trans (eq_sym (f_equal snd EA)) (peer_opens _ _ _ _ _ _ HlA P1 (Hq lenA))) as E1.
  cbn [snd] in E1. subst aA.
  destruct (spec_open_known _ _ _ _ _ _ EA) as (Hk & st & Hst).
  pose proof (abs_run_ksid _ _ _ _ _ _ _ _ R1 Hk) as Hk1.
  destruct (abs_run_find _ _ _ _ _ _ _ R1 Hst) as (st1 & Hst1 & Hs1).
  assert (spec_open s0 d0 (ocq_qos qB) uuid_nil b1 = (idA, b1)) as EB by by apply spec_open_again.
  pose proof (eq_trans (eq_sym (f_equal snd EB)) (peer_opens _ _ _ _ _ _ HlB P2 (Hq lenB))) as E2.
  cbn [snd] in E2. subst a2.
  destruct (abs_run_find _ _ _ _ _ _ _ R2 Hst1) as (st2 & Hst2 & Hs2).
  destruct (party_gets_key fuel alice s0 d0 lenA typeA index a a1 eA b2 a3 eA' idA st2)
    as [KA HA3]; try done.
  destruct (find_by_ksid_take idA idA (a_streams b2) st2 Hst2) as (st3 & Hst3 & Hs3).
  rewrite <- HA3 in Hst3. destruct (abs_run_find _ _ _ _ _ _ _ R3 Hst3) as (st4 & Hst4 & Hs4).
  destruct (party_gets_key fuel bob s0 d0 lenB typeB index b1 b1 eB b3 a4 eB' idA st4)
    as [KB _]; try done.
  rewrite (same_stream_key st st2) in KA by by etrans.
  rewrite (same_stream_key st st4) in KB by (etrans; [exact Hs1|]; etrans; [exact Hs2|]; by etrans).
  exists (abs_key_for st (wrap32 index) x00 x00), st. split_and!; try done.
  apply length_abs_key_for.
Qed.

End api.

(** ** Concrete runs *)

(** A party at [host] whose memory holds its strings in blocks 0 to 2. *)
Definition party_mem : mem :=
  alloc (Bytes (Some <$> enc_cstr (lit "application/json")))
    (alloc (Bytes (Some <$> enc_cstr (lit "qkd://bob")))
      (alloc (Bytes (Some <$> enc_cstr (lit "qkd://alice"))) mem0)).

Lemma party_mem_wf : mem_wf party_mem.
Proof. do 3 apply mem_wf_alloc. by intros b _. Qed.

(** A program in which the connections [e] are made in turn. *)
Definition program (m : mem) (e : list ssl) : @client_state _ connections :=
  @Build_client_state _ connections m e.

Definition party0 (e : list ssl) : @party _ connections :=
  @Build_party _ connections None None (lit "127.0.0.1") 25575 (Ptr 0 0) (Ptr 1 0) (Ptr 2 0)
    (program party_mem e).

Lemma party0_ready e : @party_ready _ connections (party0 e) (lit "qkd://alice") (lit "qkd://bob").
Proof.
  split; [exact party_mem_wf|]. split_and!; (apply str_at_block; [decided|done]).
Qed.

Definition oc_reply0 : list byte :=
  enc oc_response_codec {| ocr_status := 0; ocr_qos := ocq_qos (api_request [] [] 8 []);
                           ocr_key_stream_id := Concrete.seq_uuid 0 |}.

Definition gk_reply0 : list byte :=
  enc gk_response_codec
    {| gkr_status := 0; gkr_index := 7;
       gkr_key_buffer := abs_key (lit "qkd://alice") (lit "qkd://bob") 8 7;
       gkr_metadata := device_metadata config0 |}.

(** The servers's answers to one party. *)
Definition session0 : list ssl :=
  [replying QKD_SERVICE_OPEN_CONNECT_RESPONSE oc_reply0;
   replying QKD_SERVICE_GET_KEY_RESPONSE gk_reply0].

(** The server of [akms0] when the stream is open and [n] keys are taken from it. *)
Definition akms_taken (n : Z) : akms :=
  akms_of 1 [{| st_ksid := Concrete.seq_uuid 0; st_qos := ocq_qos (api_request [] [] 8 []);
                st_source := lit "qkd://alice"; st_destination := lit "qkd://bob";
                st_index := n |}].

Definition request0 : open_connect_request (list byte) :=
  api_request (lit "qkd://alice") (lit "qkd://bob") 8 uuid_nil.

Lemma serves_open (cfg : qkd_client_context_data_t) a rest :
  abs_serve (service_code QKD_SERVICE_OPEN_CONNECT_REQUEST) (enc oc_request_codec request0) a =
    Reply (message QKD_SERVICE_OPEN_CONNECT_RESPONSE oc_reply0) (akms_taken 0) ->
  peer_serves (TLS := connections) cfg
    (replying QKD_SERVICE_OPEN_CONNECT_RESPONSE oc_reply0 :: rest)
    QKD_SERVICE_OPEN_CONNECT_REQUEST QKD_SERVICE_OPEN_CONNECT_RESPONSE
    (enc oc_request_codec request0) a (akms_taken 0) rest.
Proof.
  intros H. exists oc_reply0. split; [exact H|]. apply replying_answers. by vm_compute.
Qed.

Lemma serves_key (cfg : qkd_client_context_data_t) n n' :
  abs_serve (service_code QKD_SERVICE_GET_KEY_REQUEST)
    (enc gk_request_codec (api_key_request (Concrete.seq_uuid 0) 7)) (akms_taken n) =
    Reply (message QKD_SERVICE_GET_KEY_RESPONSE gk_reply0) (akms_taken n') ->
  peer_serves (TLS := connections) cfg [replying QKD_SERVICE_GET_KEY_RESPONSE gk_reply0]
    QKD_SERVICE_GET_KEY_REQUEST QKD_SERVICE_GET_KEY_RESPONSE
    (enc gk_request_codec (api_key_request (Concrete.seq_uuid 0) 7)) (akms_taken n) (akms_taken n') [].
Proof.
  intros H. exists gk_reply0. split; [exact H|]. apply replying_answers. by vm_compute.
Qed.

Lemma akms_taken_ok n : Forall stream_ok (a_streams (akms_taken n)).
Proof. repeat constructor; try (by vm_compute); decided. Qed.

Lemma openConnect_serves_witness :
  exists p m',
    openConnect (TLS := connections) 2 (Ptr 2 0) None None (lit "127.0.0.1") 25575 (Ptr 0 0) (Ptr 1 0)
        Null 8 (program party_mem session0) = Ret p (program m' (drop 1 session0)) /\
    str_at m' p (lit "00000000-0000-0000-0000-000000000001").
Proof.
  destruct (openConnect_serves (TLS := connections) 2 (Ptr 2 0) None None (lit "127.0.0.1") 25575
    (Ptr 0 0) (Ptr 1 0) (lit "qkd://alice") (lit "qkd://bob") Null uuid_nil 8 party_mem session0
    (drop 1 session0) akms0 (akms_taken 0)) as (id & p & m' & Hspec & Hrun & Hstr & _).
  - lia.
  - exact party_mem_wf.
  - apply str_at_block; [decided|done].
  - apply str_at_block; [decided|done].
  - apply str_at_block; [decided|done].
  - done.
  - by vm_compute.
  - constructor.
  - apply serves_open. evaluated.
  - exists p, m'. split; [exact Hrun|].
    assert (id = Concrete.seq_uuid 0) as -> by exact (eq_sym (f_equal fst Hspec)). exact Hstr.
Defined.

(** A program with the text of the id of the stream in block 0. *)
Definition ksid_mem (t : list byte) : mem := alloc (Bytes (Some <$> enc_cstr t)) mem0.

Lemma ksid_mem_wf t : mem_wf (ksid_mem t).
Proof. apply mem_wf_alloc. by intros b _. Qed.

Lemma getKey_ignores_key_type_witness :
  exists r m', (forall keyType,
      getKey (TLS := connections) 2 None None (lit "127.0.0.1") 25575 keyType 7 (Ptr 0 0)
          (program (ksid_mem (uuid_unparse (Concrete.seq_uuid 0))) (drop 1 session0)) =
        Ret r (program m' [])) /\
    bytes_at m' (gkr_key_buffer r) (abs_key (lit "qkd://alice") (lit "qkd://bob") 8 7).
Proof.
  destruct (getKey_ignores_key_type (TLS := connections) 2 None None (lit "127.0.0.1") 25575 (Ptr 0 0)
    (uuid_unparse (Concrete.seq_uuid 0)) (Concrete.seq_uuid 0) 7
    (ksid_mem (uuid_unparse (Concrete.seq_uuid 0))) (drop 1 session0) [] (akms_taken 0) (akms_taken 1))
    as (r & m' & Hrun & _ & _ & key & md & Hkey & _ & Hst).
  - lia.
  - apply ksid_mem_wf.
  - apply str_at_block; [decided|done].
  - by vm_compute.
  - apply serves_key. evaluated.
  - exists r, m'. split; [exact Hrun|].
    rewrite (Hst (hd stream0 (a_streams (akms_taken 0))) eq_refl) in Hkey. exact Hkey.
Defined.

Definition close_reply0 : list byte := enc cl_response_codec {| clr_status := 0 |}.

Lemma malformed_ksid_witness :
  openConnect (TLS := connections) 2 Null None None (lit "127.0.0.1") 25575 Null Null (Ptr 0 0) 8
      (program (ksid_mem (lit "stream 1")) []) =
    Ret Null (program (dealloc 0 (ksid_mem (lit "stream 1"))) []) /\
  exists m', close (TLS := connections) 2 None None (lit "127.0.0.1") 25575 (Ptr 0 0)
      (program (ksid_mem (lit "stream 1")) [replying QKD_SERVICE_CLOSE_RESPONSE close_reply0]) =
    Ret {| clr_status := 0 |} (program m' []).
Proof.
  split.
  - destruct (malformed_ksid (TLS := connections) 2 Null None None (lit "127.0.0.1") 25575 Null Null 0
      (lit "stream 1") 8 0 0 (ksid_mem (lit "stream 1")) [] [] akms0 akms0) as [H _];
      [lia|apply ksid_mem_wf|apply str_at_block; [decided|done]|by vm_compute|exact H].
  - destruct (malformed_ksid (TLS := connections) 2 Null None None (lit "127.0.0.1") 25575 Null Null 0
      (lit "stream 1") 8 0 0 (ksid_mem (lit "stream 1"))
      [replying QKD_SERVICE_CLOSE_RESPONSE close_reply0] [] akms0 akms0) as (_ & _ & H);
      [lia|apply ksid_mem_wf|apply str_at_block; [decided|done]|by vm_compute|].
    apply H. exists close_reply0. split; [evaluated|]. apply replying_answers. by vm_compute.
Defined.

Lemma api_peers_get_same_key_witness :
  exists key, length key = 8%nat /\
    gets_key 2 (party0 session0) 8 0 7 (Concrete.seq_uuid 0) key /\
    gets_key 2 (party0 session0) 8 1 7 (Concrete.seq_uuid 0) key.
Proof.
  destruct (api_peers_get_same_key (TLS := connections) 2 (party0 session0) (party0 session0)
    (lit "qkd://alice") (lit "qkd://bob") 8 8 0 1 7
    akms0 (akms_taken 0) (akms_taken 0) (akms_taken 0) (akms_taken 0) (akms_taken 1) (akms_taken 1)
    (akms_taken 2) [] [] [] [] [] [] (drop 1 session0) (drop 1 session0) [] [])
    as (key & st & HA & HB & Hst & Hlen).
  - lia.
  - apply party0_ready.
  - apply party0_ready.
  - by vm_compute.
  - by vm_compute.
  - constructor.
  - apply akms_taken_ok.
  - apply serves_open. evaluated.
  - done.
  - apply serves_open. evaluated.
  - done.
  - apply serves_key. evaluated.
  - done.
  - apply serves_key. evaluated.
  - exists key. split; [|by split]. injection Hst as <-. exact Hlen.
Defined.
