(* ===== verification/WorldTheorems.v ===== *)
(** The system of [World.v]: what holds in every state that it reaches, and that the calls of
    its programs are served. *)

From S2P Require Import Prelude Models Memory Wire Sizes Platform Printf Serializers SerializersSpec.
From S2P Require Import Copy Kms KmsSpec KmsProofs Interfaces KmsApp Socket Servlet ServletProofs.
From S2P Require Import Setup Run Answers ServerMain Uuid Client Remote Network ClientApi ApiProofs World.
From S2P Require Import Scenario KmsTheorems ServerTheorems ApiTheorems.

Section world.
Context {ML : Malloc} {MT : MallocTotal} {LU : Libuuid} {LO : LibuuidOk} {RD : Rand}
  {UT : UuidText} {UO : UuidTextOk} {OS : Openssl} {TLS : Tls} {ST : Stack}.

(** C2: agreement in the whole system.  Start the server and any number of programs that use
    the client library, and let them open their streams, with no id or with the id that
    another program of the same two applications tells them, ask for keys and close, in any
    order and among any requests of other clients, whatever sizes of keys they ask for.  A
    request, of a program or of another client, is received in one read for the header and
    one for the payload; of a response this is only known when it fits one record of TLS, and
    a call that gets a larger one may return anything.  In every state that is reached, the
    server has at most one stream for a pair, and two programs with the same two applications
    that have opened their stream hold the text of one id, the server's for the pair.  When
    the keys of its stream fit a record, every call of [getKey] of the two has reported
    success, and for equal indices they have got equal keys: those of the stream.  Memory
    suffices, and a record fits the stack. *)
Theorem programs_agree fuel w0 w i j ag ag' p p' :
  (2 <= fuel)%nat -> SSL3_RT_MAX_PLAIN_LENGTH <= stack_limit ->
  world_initial w0 -> rtc (world_step fuel) w0 w ->
  w_agents w !! i = Some ag -> w_agents w !! j = Some ag' ->
  ag_source ag = ag_source ag' -> ag_destination ag = ag_destination ag' ->
  ag_ksid ag = Some p -> ag_ksid ag' = Some p' ->
  exists (a : akms) F t id st, app_rep (w_server w) a F /\ pairs_unique a /\
    str_at (cl_mem (pa_state (ag_party ag))) p t /\
    str_at (cl_mem (pa_state (ag_party ag'))) p' t /\ uuid_parse t = Some id /\
    ksid_of (ag_source ag) (ag_destination ag) a = Some id /\
    find_by_ksid id (a_streams a) = Some st /\
    (record_fits a st -> forall index status key status' key',
       (index, status, key) ∈ ag_keys ag -> (index, status', key') ∈ ag_keys ag' ->
       status = status_code qkd_status_code_successful /\ status' = status /\
       key = Some <$> abs_key_for st index x00 x00 /\ key' = key).
Proof.
  intros Hf Hstack Hw0 Hr Hi Hj Es Ed Hp Hp'.
  pose proof (world_reachable fuel w0 w Hf Hstack (world_initial_ok w0 Hw0) Hr) as Hok.
  destruct (world_ok_agree w i j ag ag' Hok Hi Hj Es Ed p p' Hp Hp')
    as (a & F & t & id & st & Hrep & Hu & Ht & Ht' & Hparse & Hk & Hst & Hkeys).
  exists a, F, t, id, st. do 7 (split; [done|]).
  intros Hfit index status key status' key' H H'. destruct (Hkeys Hfit) as [Hks Hks'].
  unfold keys_of in *. rewrite Forall_forall in Hks, Hks'.
  destruct (Hks _ H) as [Hs Hv], (Hks' _ H') as [Hs' Hv']. cbn in *. by subst.
Qed.


(** C4: the runs of the system are runs of the server program.  Let [main] of the server be
    started and succeed in its setup, while programs that have done nothing yet are there.
    Whatever run the system makes from there, when [main] gets its connections in the order in
    which they are made, its loop serves all of them, is in the state that the run gives the
    server, and goes on; and a client that then asks for the shutdown ends it with 0.  The
    run starts as [programs_agree] and [calls_served] suppose. *)
Theorem main_serves_world fuel database e (s : kms) ctx sock e1 ags cls w :
  (2 <= fuel)%nat -> mem_wf (k_mem s) -> Forall agent_initial ags ->
  socket_server_setup (lit "127.0.0.1") 25575 (Some server_cert) (Some server_key) None 0 e =
    Ret (ctx, sock) e1 ->
  let w0 := {| w_server := kms_fresh database s; w_agents := ags |} in
  world_run fuel cls w0 w ->
  world_initial w0 /\ rtc (world_step fuel) w0 w /\
  (hands_out ctx sock cls e1 -> exists l e',
     main (length cls) fuel database (e, s) = Ret (None, l) (e', w_server w)) /\
  (forall cl h c1, presents cl (Shuts h) c1 -> hands_out ctx sock (cls ++ [cl]) e1 ->
     exists l e', main (length (cls ++ [cl])) fuel database (e, s) =
       Ret (Some 0, l) (e', set_mem (bump (get_mem (w_server w))) (w_server w))).
Proof.
  intros Hf Hm Hags Hsetup w0 Hrun.
  assert (world_initial w0) as Hw0.
  { split; [|exact Hags]. eexists _, []. split; [by apply kms_fresh_rep|].
    unfold akms_fresh. by destruct (uuid_generate_random _). }
  assert (server_ok (w_server w0)) as Hok by (destruct Hw0 as [(a & F & Hrep & _) _]; by exists a, F).
  destruct (world_run_loop fuel cls w0 w Hf Hok Hrun) as [(a & F & Hrep) [l Hserve]].
  cbn [w_server w0] in Hserve.
  split; [done|]. split; [apply world_runs; by exists cls|]. split.
  - intros Ho. rewrite main_starts.
    destruct (serve_loop_clients (qkd_servlet fuel) ctx sock cls SERVER_LISTENING e1
      (kms_fresh database s) Ho) as (e2 & Hloop). rewrite Hserve in Hloop.
    eexists l, _. by erewrite cbind_ret by by eapply socket_server_init_run.
  - intros cl h c1 (Hacc & Hsv & Hh & Hst & Hd) Ho. rewrite main_starts.
    destruct (serve_loop_clients (qkd_servlet fuel) ctx sock (cls ++ [cl]) SERVER_LISTENING e1
      (kms_fresh database s) Ho) as (e2 & Hloop).
    rewrite (serve_clients_app _ _ _ _ _ _ _ _ Hserve eq_refl) in Hloop.
    pose proof (servlet_close_server_run fuel SERVER_LISTENING (w_server w) (cl_ssl cl) h c1 Hf
      (app_rep_wf _ _ _ Hrep) Hh Hst Hsv Hd) as Hclose.
    cbn [serve_clients] in Hloop. rewrite (proj2 (Z.eqb_neq _ _)) in Hloop by done.
    unfold cbind at 1 2 in Hloop. rewrite (on_connection_run _ _ _ _ _ _ Hclose) in Hloop.
    unfold cbind, cret in Hloop.
    eexists _, _. by erewrite cbind_ret by by eapply socket_server_init_run.
Qed.

End world.

(** ** A concrete run *)

(** The two ends of a connection: the client's has the reply [bs], which the server writes on
    the other. *)
Lemma arrives0 req sv bs : 0 < Z.of_nat (length bs) < 2 ^ 20 ->
  answer_arrives (replying sv bs) req drained (SSL_write drained (message sv bs)).2.
Proof.
  intros Hbs. apply answer_written; change stack_limit with 8388608; [lia|].
  exists {| Concrete.incoming := [bs]; Concrete.outgoing := [req] |},
    {| Concrete.incoming := []; Concrete.outgoing := [req] |}.
  split; [done|]. unfold delivers. cbn [SSL_read Concrete.tls Concrete.incoming].
  rewrite Nat2Z.id, take_ge, drop_ge by lia. done.
Qed.

Lemma connections_init (cfg : qkd_client_context_data_t) c rest :
  socket_client_init (TLS := connections) (host cfg) (port cfg) (cert_pem cfg) (key_pem cfg)
    (peer_ca_pem cfg) (max_proto_version cfg) (c :: rest) = Ret c rest.
Proof. by destruct cfg as [? ? [|] [|] [|] ?]. Qed.

Lemma known_not_close sv body : known_service (service_code sv) ->
  service (header_for sv body) <> service_code QKD_SERVICE_CLOSE_SERVER.
Proof. cbn. by intros [->|[->| ->]]. Qed.

Lemma delivers0 cfg rest srv sv body bs (a a' : akms) F :
  app_rep srv a F -> known_service (service_code sv) ->
  abs_serve (service_code sv) body a = Reply (message (response_service sv) bs) a' ->
  0 < Z.of_nat (length body) < 2 ^ 20 -> 0 < Z.of_nat (length bs) < 2 ^ 20 ->
  network_delivers (TLS := connections) 2 cfg (replying (response_service sv) bs :: rest) rest srv sv
    body.
Proof.
  intros Hrep Hk Hs Hb Hbs.
  pose proof (requests0 (service_code sv) body ltac:(by destruct sv; decided) Hb) as Hreq.
  exists (replying (response_service sv) bs), (conn (service_code sv) body), drained.
  split; [apply connections_init|]. split; [exact Hreq|]. intros status srv' cs2 Hrun.
  destruct (servlet_sent 2 SERVER_LISTENING srv (conn (service_code sv) body) a F (header_for sv body)
    body drained status (Sess srv' cs2) ltac:(lia) Hrep Hreq (known_not_close sv body Hk) Hrun)
    as (_ & msg & a1 & F' & Hserve & _ & _ & Hcs & _). cbn [s_ssl] in Hcs. subst cs2.
  pose proof (eq_trans (eq_sym Hs) Hserve) as E. apply reply_inj in E as ->.
  rewrite transmit_small by (rewrite length_message; lia). by apply arrives_connected, arrives0.
Qed.

(** A call that the server serves as [abs_serve] says. *)
Lemma call0 cfg rest srv sv body bs (a a' : akms) F :
  app_rep srv a F -> known_service (service_code sv) ->
  abs_serve (service_code sv) body a = Reply (message (response_service sv) bs) a' ->
  0 < Z.of_nat (length body) < 2 ^ 20 -> 0 < Z.of_nat (length bs) < 2 ^ 20 ->
  exists srv' F',
    call_served (TLS := connections) 2 cfg (replying (response_service sv) bs :: rest) rest srv srv' sv
      body /\ app_rep srv' a' F'.
Proof.
  intros Hrep Hk Hs Hb Hbs.
  pose proof (requests0 (service_code sv) body ltac:(by destruct sv; decided) Hb) as Hreq.
  destruct (servlet_step 2 SERVER_LISTENING srv (conn (service_code sv) body) a F (header_for sv body)
    body drained (message (response_service sv) bs) a' ltac:(lia) Hrep Hreq (known_not_close sv body Hk)
    Hs ltac:(rewrite length_message; lia)) as (srv' & F' & Hrun & Hrep' & _).
  exists srv', F'. split; [|exact Hrep'].
  exists {| cl_ssl := conn (service_code sv) body; cl_accept := 1 |}. split; [done|].
  exists (replying (response_service sv) bs), drained,
    (SSL_write drained (message (response_service sv) bs)).2, SERVER_LISTENING.
  split; [apply connections_init|]. split; [exact Hreq|]. split; [exact Hrun|]. by apply arrives0.
Qed.

Lemma stack0 : SSL3_RT_MAX_PLAIN_LENGTH <= stack_limit.
Proof. by vm_compute. Qed.

(** Alice and Bob, and a client that asks for the stream of the two with keys of its own
    size. *)
Definition agent0 (e : list ssl) : agent (TLS := connections) :=
  Build_agent (TLS := connections) (party0 e) (lit "qkd://alice") (lit "qkd://bob") None [].

Definition world0 : world (TLS := connections) :=
  Build_world (TLS := connections) kms0 [agent0 session0; agent0 session0].

Lemma world0_initial : world_initial (TLS := connections) world0.
Proof.
  split; [exists akms0, []; split; [exact kms0_rep|done]|].
  do 2 (apply Forall_cons; split; [split; [apply party0_ready|done]|]). constructor.
Qed.

Definition eve_body : list byte := enc oc_request_codec (open0 uuid_nil).

Definition open_body0 (id : uuid_t) : list byte :=
  open_request_body (lit "qkd://alice") (lit "qkd://bob") 8 id.

Lemma reply_state {A} (msg msg' : list byte) (a a' : A) : Reply msg a = Reply msg' a' -> a = a'.
Proof. by intros [= _ ->]. Qed.

Lemma ksid_taken :
  ksid_of (lit "qkd://alice") (lit "qkd://bob") (akms_taken 0) = Some (Concrete.seq_uuid 0).
Proof. evaluated. Qed.

Lemma ksid_taken2 :
  ksid_of (lit "qkd://alice") (lit "qkd://bob") (akms_taken 2) = Some (Concrete.seq_uuid 0).
Proof. evaluated. Qed.

(** One of the two, in the state [m] of its memory, opens the stream of a server in state
    [a], with an id it has been told or with none. *)
Lemma opens0 srv ags i m ksid0 id0 (a : akms) F :
  let ag := later (agent0 session0) (program m session0) in
  app_rep srv a F -> ags !! i = Some ag ->
  party_ready (ag_party ag) (lit "qkd://alice") (lit "qkd://bob") ->
  known_id a (lit "qkd://alice") (lit "qkd://bob") id0 -> told ags ag id0 -> names_ksid m ksid0 id0 ->
  0 < Z.of_nat (length (open_body0 id0)) < 2 ^ 20 ->
  abs_serve (service_code QKD_SERVICE_OPEN_CONNECT_REQUEST) (open_body0 id0) a =
    Reply (message QKD_SERVICE_OPEN_CONNECT_RESPONSE oc_reply0) (akms_taken 0) ->
  exists srv' F' ksid s,
    world_step (TLS := connections) 2 (Build_world (TLS := connections) srv ags)
      (Build_world (TLS := connections) srv' (<[i := opened ag ksid s]> ags)) /\
    app_rep srv' (akms_taken 0) F' /\ cl_env s = drop 1 session0 /\ mem_wf (cl_mem s) /\
    str_at (cl_mem s) ksid (uuid_unparse (Concrete.seq_uuid 0)).
Proof.
  intros ag Hrep Hi Hready Hknown Htold Hname Hlen Hs.
  assert (Z.of_nat (length (open_body0 id0)) < modest) as Hmod by (unfold modest; lia).
  pose proof (delivers0 (party_context (ag_party ag)) (drop 1 session0) srv
    QKD_SERVICE_OPEN_CONNECT_REQUEST (open_body0 id0) oc_reply0 a (akms_taken 0) F
    Hrep (or_introl eq_refl) Hs Hlen ltac:(by vm_compute)) as Hnet.
  destruct (open_enabled (TLS := connections) 2 srv ags i ag ksid0 id0 8 (drop 1 session0) a F
    ltac:(lia) stack0 Hrep Hknown Hi Htold Hname Hready Hmod Hnet)
    as (srv' & msg & a' & F' & ksid & s & id & Hstep & Hs' & Hrep' & He & Hk & _ & Hstr & Hm).
  pose proof (eq_trans (eq_sym Hs) Hs') as E. apply reply_state in E as <-.
  exists srv', F', ksid, s. split_and!; try done.
  pose proof (eq_trans (eq_sym ksid_taken) Hk) as Eid. apply (inj Some) in Eid as <-. exact Hstr.
Qed.

(** One that has opened it takes the key at index 7. *)
Lemma takes0 srv ags i (ag : agent (TLS := connections)) ksid n F :
  app_rep srv (akms_taken n) F -> ags !! i = Some ag -> ag_ksid ag = Some ksid ->
  cl_env (pa_state (ag_party ag)) = drop 1 session0 -> mem_wf (cl_mem (pa_state (ag_party ag))) ->
  str_at (cl_mem (pa_state (ag_party ag))) ksid (uuid_unparse (Concrete.seq_uuid 0)) ->
  i32 (n + 1) ->
  abs_serve (service_code QKD_SERVICE_GET_KEY_REQUEST) (key_request_body (Concrete.seq_uuid 0) 7)
    (akms_taken n) = Reply (message QKD_SERVICE_GET_KEY_RESPONSE gk_reply0) (akms_taken (n + 1)) ->
  exists srv' F' r key s,
    world_step (TLS := connections) 2 (Build_world (TLS := connections) srv ags)
      (Build_world (TLS := connections) srv' (<[i := given_key ag 7 r key s]> ags)) /\
    app_rep srv' (akms_taken (n + 1)) F' /\ gkr_status r = 0.
Proof.
  intros Hrep Hi Hks He Hm Hstr Hn Hs.
  pose proof (delivers0 (party_context (ag_party ag)) [] srv QKD_SERVICE_GET_KEY_REQUEST
    (key_request_body (Concrete.seq_uuid 0) 7) gk_reply0 (akms_taken n) (akms_taken (n + 1)) F
    Hrep (or_intror (or_introl eq_refl)) Hs ltac:(by vm_compute) ltac:(by vm_compute)) as Hnet.
  change (replying _ gk_reply0 :: []) with (drop 1 session0) in Hnet. rewrite <- He in Hnet.
  destruct (key_enabled (TLS := connections) 2 srv ags i ag ksid (Concrete.seq_uuid 0)
    (hd stream0 (a_streams (akms_taken n))) 0 7 [] (akms_taken n) F ltac:(lia) stack0 Hrep
    Hi Hm Hks eq_refl Hstr eq_refl Hn ltac:(by vm_compute) Hnet)
    as (srv' & msg & a' & F' & r & s & Hstep & Hs' & Hrep' & _ & Hr).
  pose proof (eq_trans (eq_sym Hs) Hs') as E. apply reply_state in E as <-.
  eexists srv', F', r, _, s. split; [exact Hstep|]. by split.
Qed.

(** The other client. *)
Lemma eve0 srv (ags : list (agent (TLS := connections))) F : app_rep srv (akms_taken 0) F ->
  exists srv' F',
    world_step (TLS := connections) 2 (Build_world (TLS := connections) srv ags)
      (Build_world (TLS := connections) srv' ags) /\ app_rep srv' (akms_taken 0) F'.
Proof.
  intros Hrep.
  pose proof (requests0 (service_code QKD_SERVICE_OPEN_CONNECT_REQUEST) eve_body ltac:(decided)
    ltac:(by vm_compute)) as Hreq.
  destruct (servlet_step 2 SERVER_LISTENING srv _ (akms_taken 0) F _ eve_body drained
    (oc_reply (open0 uuid_nil) (Concrete.seq_uuid 0)) (akms_taken 0) ltac:(lia) Hrep Hreq
    ltac:(by vm_compute) ltac:(evaluated) ltac:(by vm_compute)) as (srv' & F' & Hrun & Hrep' & _).
  exists srv', F'. split; [|done].
  eexists. by eapply (step_other (TLS := connections) 2 {| cl_ssl := conn 2 eve_body; cl_accept := 1 |}).
Qed.

(** Bob's memory when he has written down the id that Alice has told him. *)
Definition told_mem : mem :=
  alloc (Bytes (Some <$> enc_cstr (uuid_unparse (Concrete.seq_uuid 0)))) party_mem.

Lemma told_mem_extends : extends party_mem told_mem.
Proof. apply extends_alloc, party_mem_wf. Qed.

Lemma told_mem_wf : mem_wf told_mem.
Proof. apply mem_wf_alloc, party_mem_wf. Qed.

Lemma told_names : names_ksid told_mem (Ptr 3 0) (Concrete.seq_uuid 0).
Proof.
  exists (uuid_unparse (Concrete.seq_uuid 0)). split; [|by apply uuid_parse_unparse].
  apply str_at_block; [decided|done].
Qed.

Lemma known_taken :
  known_id (akms_taken 0) (lit "qkd://alice") (lit "qkd://bob") (Concrete.seq_uuid 0).
Proof. right. split; [exact ksid_taken|]. by eexists. Qed.

(** Alice opens the stream and tells Bob its id, the other client asks for it, Bob opens it
    with the id, and both take the key. *)
Lemma world0_runs : exists w F ag ag' p p' key key',
  app_rep (w_server w) (akms_taken 2) F /\
  rtc (world_step (TLS := connections) 2) world0 w /\
  w_agents w !! 0%nat = Some ag /\ w_agents w !! 1%nat = Some ag' /\
  ag_ksid ag = Some p /\ ag_ksid ag' = Some p' /\
  ag_source ag = lit "qkd://alice" /\ ag_destination ag = lit "qkd://bob" /\
  ag_source ag' = ag_source ag /\ ag_destination ag' = ag_destination ag /\
  ag_keys ag = [(7, 0, key)] /\ ag_keys ag' = [(7, 0, key')].
Proof.
  destruct (opens0 kms0 (w_agents world0) 0 party_mem Null uuid_nil akms0 [] kms0_rep
    eq_refl (party0_ready session0) ltac:(by left) ltac:(by left) eq_refl ltac:(by vm_compute)
    ltac:(evaluated)) as (srv1 & F1 & p & s1 & H1 & R1 & E1 & M1 & T1).
  set (ags1 := <[0%nat := opened _ p s1]> (w_agents world0)) in *.
  destruct (eve0 srv1 ags1 F1 R1) as (srv2 & F2 & H2 & R2).
  assert (world_step (TLS := connections) 2 (Build_world (TLS := connections) srv2 ags1)
    (Build_world (TLS := connections) srv2
      (<[1%nat := later (agent0 session0) (program told_mem session0)]> ags1))) as HL.
  { exists []. apply step_local; [done|exact told_mem_wf|exact told_mem_extends]. }
  set (ags2 := <[1%nat := later (agent0 session0) (program told_mem session0)]> ags1) in *.
  destruct (opens0 srv2 ags2 1 told_mem (Ptr 3 0) (Concrete.seq_uuid 0) (akms_taken 0) F2 R2
    eq_refl) as (srv3 & F3 & p' & s3 & H3 & R3 & E3 & M3 & T3).
  { by apply party_ready_at; [apply (party0_ready session0)|exact told_mem_wf|exact told_mem_extends]. }
  { exact known_taken. }
  { right. eexists 0%nat, _, p, _. split; [reflexivity|]. split_and!; [done..|exact T1|].
    by apply uuid_parse_unparse. }
  { exact told_names. }
  { by vm_compute. }
  { evaluated. }
  set (ags3 := <[1%nat := opened _ p' s3]> ags2) in *.
  destruct (takes0 srv3 ags3 0 _ p 0 F3 R3 eq_refl eq_refl E1 M1 T1
    ltac:(decided) ltac:(evaluated)) as (srv4 & F4 & r & key & s4 & H4 & R4 & K4).
  set (ags4 := <[0%nat := given_key _ 7 r key s4]> ags3) in *.
  destruct (takes0 srv4 ags4 1 _ p' 1 F4 R4 eq_refl eq_refl E3 M3 T3
    ltac:(decided) ltac:(evaluated)) as (srv5 & F5 & r' & key' & s5 & H5 & R5 & K5).
  eexists (Build_world (TLS := connections) srv5 _), F5, _, _, p, p', key, key'. split; [exact R5|].
  split.
  { do 5 (eapply rtc_l; [eassumption|]). eapply rtc_l; [exact H5|]. apply rtc_refl. }
  split; [reflexivity|]. split; [reflexivity|]. cbn. by rewrite K4, K5.
Qed.

Lemma programs_agree_witness : exists w ag ag',
  rtc (world_step (TLS := connections) 2) world0 w /\
  w_agents w !! 0%nat = Some ag /\ w_agents w !! 1%nat = Some ag' /\
  ag_keys ag = [(7, 0, Some <$> abs_key (lit "qkd://alice") (lit "qkd://bob") 8 7)] /\
  ag_keys ag' = ag_keys ag.
Proof.
  destruct world0_runs
    as (w & F & ag & ag' & p & p' & key & key' & R & Hr & Ha & Hb & Hp & Hp' & Es & Ed & Es' & Ed' & K & K').
  destruct (programs_agree (TLS := connections) 2 world0 w 0 1 ag ag' p p')
    as (a & F' & t & id & st & Hrep & _ & _ & _ & _ & Hk & Hst & Hkeys);
    [lia|exact stack0|exact world0_initial|exact Hr|exact Ha|exact Hb|by symmetry|by symmetry|exact Hp|exact Hp'|].
  pose proof (akms_rep_inj _ _ _ _ _ R Hrep) as <-. rewrite Es, Ed in Hk.
  pose proof (eq_trans (eq_sym ksid_taken2) Hk) as E. apply (inj Some) in E as <-.
  assert (st = hd stream0 (a_streams (akms_taken 2))) as -> by (revert Hst; vm_compute; congruence).
  destruct (Hkeys ltac:(by vm_compute) 7 0 key 0 key') as (_ & _ & E & E');
    [rewrite K; by left|rewrite K'; by left|].
  exists w, ag, ag'. rewrite K, K', E', E. by split_and!.
Defined.


(** The other client's connection to the server, and that of one who shuts it down. *)
Definition eve_client : client := {| cl_ssl := conn 2 eve_body; cl_accept := 1 |}.

Definition shut_client : client :=
  {| cl_ssl := {| Concrete.incoming := [enc header_codec (header_for QKD_SERVICE_CLOSE_SERVER [])];
                  Concrete.outgoing := [] |};
     cl_accept := 1 |}.

Definition server_env : list ssl := [cl_ssl eve_client; cl_ssl shut_client].

Lemma server_env_hands_out : hands_out (TLS := connections) tt 3 [eve_client; shut_client] server_env.
Proof. do 2 (eexists _, _, _, _, _; do 3 (split; [reflexivity|]); intros ?). done. Qed.

Lemma eve_served_by_main : exists srv,
  world_serves (TLS := connections) 2 [eve_client]
    (Build_world (TLS := connections) (kms_fresh Null kms0) [agent0 session0])
    (Build_world (TLS := connections) srv [agent0 session0]).
Proof.
  pose proof (requests0 (service_code QKD_SERVICE_OPEN_CONNECT_REQUEST) eve_body ltac:(decided)
    ltac:(by vm_compute)) as Hreq.
  destruct (servlet_step 2 SERVER_LISTENING (kms_fresh Null kms0) _ (akms_fresh (k_uuid kms0) Null) [] _
    eve_body drained (oc_reply (open0 uuid_nil) (Concrete.seq_uuid 1)) akms_main ltac:(lia)
    (kms_fresh_rep Null kms0 ltac:(by intros b _)) Hreq
    ltac:(by vm_compute) ltac:(evaluated) ltac:(by vm_compute)) as (srv & F & Hrun & _).
  exists srv. by eapply (step_other (TLS := connections) 2 eve_client).
Qed.

Lemma main_serves_world_witness : exists l e' srv,
  main (TLS := connections) 2 2 Null (server_env, kms0) = Ret (Some 0, l) (e', srv).
Proof.
  destruct eve_served_by_main as (srv & Hstep).
  destruct (main_serves_world (TLS := connections) 2 Null server_env kms0 tt 3 server_env
    [agent0 session0] [eve_client] (Build_world (TLS := connections) srv [agent0 session0]))
    as (_ & _ & _ & Hshut).
  - lia.
  - by intros b _.
  - apply Forall_cons. split; [split; [apply party0_ready|done]|constructor].
  - reflexivity.
  - exact (run_step (TLS := connections) 2 [eve_client] [] _ _ _ Hstep (run_nil (TLS := connections) 2 _)).
  - destruct (Hshut shut_client (header_for QKD_SERVICE_CLOSE_SERVER []) drained) as (l & e' & Hrun).
    + split; [done|]. split; [done|]. split; [split; [split_and!; decided|split; decided]|].
      split; [by vm_compute|]. vm_compute. reflexivity.
    + exact server_env_hands_out.
    + exists l, e'. eexists. exact Hrun.
Defined.
