(* ===== verification/ExampleTheorems.v ===== *)
(** The two example programs as a whole: the client of [ClientExample.v] against the abstract
    server, and against the server itself. *)

From S2P Require Import Prelude Models Memory Wire Sizes Platform Printf Serializers SerializersSpec.
From S2P Require Import Copy Kms KmsSpec KmsProofs Interfaces KmsApp Socket Servlet ServletProofs.
From S2P Require Import Setup Run Answers KeyFile Uuid Client Remote Network ClientApi ApiProofs.
From S2P Require Import World ClientExample Scenario ServerTheorems WorldTheorems.

(** The requests of the client. *)
Definition example_request (id : uuid_t) : open_connect_request (list byte) :=
  {| ocq_source := source_text; ocq_destination := destination_text;
     ocq_qos := {| key_chunk_size := 8192; max_bps := 32; min_bps := 32; jitter := 0;
                   priority := 0; timeout := 0; ttl := 0;
                   metadata_mimetype := lit "application/json" |};
     ocq_key_stream_id := id |}.

Definition example_key_request (id : uuid_t) (kt kr : byte) : get_key_request (list byte) :=
  {| gkq_key_stream_id := id; gkq_index := 0; gkq_metadata := [kt; kr] |}.

Definition example_type (keyType : Z) : byte := if keyType =? 1 then x01 else x00.

Section example.
Context {ML : Malloc} {MT : MallocTotal} {LU : Libuuid} {LO : LibuuidOk} {RD : Rand}
  {UT : UuidText} {UO : UuidTextOk} {OS : Openssl} {TLS : Tls} {ST : Stack}.

(** The program between two calls. *)
Definition at_point (m : mem) (e : env) (fs : files) : example_state :=
  {| ex_client := {| cl_mem := m; cl_env := e |}; ex_files := fs |}.

Lemma on_client_run {A} (f : C client_state A) m e fs x m' e' :
  f {| cl_mem := m; cl_env := e |} = Ret x {| cl_mem := m'; cl_env := e' |} ->
  on_client f (at_point m e fs) = Ret x (at_point m' e' fs).
Proof. unfold on_client, zoom, at_point. cbn [ex_client ex_files]. by intros ->. Qed.

Lemma write_key_file_run index b key r name m e fs f :
  0 <= index < 2 ^ 31 -> gkr_index r = index -> gkr_key_buffer r = buffer b key -> blob_ok key ->
  heap m !! b = Some (Bytes (Some <$> key)) -> fs name = Some f ->
  write_key_file r name (at_point m e fs) =
    Ret tt (at_point m e (set_file name (Some (f ++ key_text index key)) fs)).
Proof.
  intros Hi Hr Hb Hk Hm Hf. unfold write_key_file, zoom, at_point. cbn [ex_client ex_files cl_mem].
  rewrite Hf, (write_key_run m r key f).
  - by rewrite Hr.
  - by rewrite Hr.
  - rewrite Hb. by apply bytes_at_block.
  - by rewrite Hb.
Qed.

Lemma example_request_ok id : uuid_ok id -> oc_request_ok (example_request id).
Proof.
  intros Hid. split; [unfold valid, str_codec; decided|]. split; [unfold valid, str_codec; decided|].
  split; [|exact Hid]. do 7 (split; [by vm_compute|]). unfold valid, str_codec. decided.
Qed.

Lemma example_message_short id : uuid_ok id -> Z.of_nat (length (oc_message (example_request id))) < 2 ^ 31.
Proof.
  intros Hid. unfold oc_message. rewrite length_message, length_enc_oc_request by done. by vm_compute.
Qed.

(** OPEN_CONNECT from the example. *)
Lemma example_open_run fuel src dst aj id m e e' fs a a' :
  (2 <= fuel)%nat -> mem_wf m -> str_at m src source_text -> str_at m dst destination_text ->
  str_at m aj (lit "application/json") -> uuid_ok id -> Forall stream_ok (a_streams a) ->
  peer_serves example_context e QKD_SERVICE_OPEN_CONNECT_REQUEST QKD_SERVICE_OPEN_CONNECT_RESPONSE
    (enc oc_request_codec (example_request id)) a a' e' ->
  exists id' r m', spec_open source_text destination_text (ocq_qos (example_request id)) id a = (id', a')
    /\ uuid_ok id' /\ ocr_key_stream_id r = id' /\
    example_open fuel src dst aj id (at_point m e fs) = Ret r (at_point m' e' fs) /\
    mem_wf m' /\ extends m m'.
Proof.
  intros Hf Hm Hs Hd Hj Hid Hsg Hp. unfold example_open. set (r := Build_open_connect_request _ _ _ _).
  assert (oc_request_at m r (example_request id)) as Hr by by split_and!.
  destruct (remote_open_struct fuel example_context (example_request id) r m e e' a a')
    as (id' & m' & Hspec & Hid' & Hrun & Hm' & He' & _);
    try done; [by apply example_request_ok|by apply example_message_short|].
  exists id'. eexists. exists m'. split; [exact Hspec|]. split; [done|].
  split; [|split; [by apply on_client_run|done]]. done.
Qed.

(** GET_KEY from the example, and the key in its file. *)
Lemma example_get_key_run fuel id kt kr v b m e e' fs a a' st name f :
  (2 <= fuel)%nat -> mem_wf m -> uuid_ok id -> key_view [kt; kr] = Some v ->
  heap m !! b = Some (Bytes (Some <$> [kt; kr])) ->
  find_by_ksid id (a_streams a) = Some st -> fs name = Some f ->
  peer_serves example_context e QKD_SERVICE_GET_KEY_REQUEST QKD_SERVICE_GET_KEY_RESPONSE
    (enc gk_request_codec (example_key_request id kt kr)) a a' e' ->
  exists m',
    (let! r := example_get_key fuel id 0 (Ptr b 0) in write_key_file r name) (at_point m e fs) =
      Ret tt (at_point m' e' (set_file name (Some (f ++ key_text 0 (abs_key_for st 0 v.1 v.2))) fs)) /\
    mem_wf m' /\ extends m m' /\ a_streams a' = abs_take id (a_streams a).
Proof.
  intros Hf Hm Hid Hv Hb Hst Hfs Hp. destruct v as [kt' kr']. set (q := example_key_request id kt kr) in *.
  assert (gk_request_ok q) as Hq by (split; [exact Hid|]; split; [by vm_compute|done]).
  assert (Z.of_nat (length (gk_message q)) < 2 ^ 31) as Hlen.
  { unfold gk_message. rewrite length_message, length_enc_gk_request by done. by vm_compute. }
  destruct (remote_get_key_struct fuel example_context q b m e e' a a' Hf Hm Hq Hb Hlen Hp)
    as (status & key & md & m' & Hret & Hk & Hrun & Hm' & He' & Hkey & _).
  destruct (gk_returns_stream _ _ _ _ _ _ _ _ _ Hret Hst Hv) as (-> & -> & Htake).
  exists m'. split; [|done]. erewrite cbind_ret.
  2: { unfold example_get_key. rewrite uuid_copy_ok by done. by apply on_client_run. }
  by apply (write_key_file_run 0 (3 + next m)).
Qed.

(** The two keys. *)
Definition example_texts (st : stream) (keyType : Z) (f f_ : list byte) (fs : files) : files :=
  let key := abs_key_for st 0 x00 x00 in
  set_file (lit "test_.key")
    (Some (f_ ++ key_text 0 (if keyType =? 1 then imap mask_byte key else key)))
    (set_file (lit "test.key") (Some (f ++ key_text 0 key)) fs).

Lemma cbind_cont {S A B D} (e : C S A) (k : A -> C S B) (k' : B -> C S D) s x s' :
  (let! a := e in k a) s = Ret x s' -> (let! a := e in let! b := k a in k' b) s = k' x s'.
Proof. intros H. rewrite <- cbind_assoc. by erewrite cbind_ret by exact H. Qed.

Lemma example_keys_run fuel keyType id m e2 e3 e4 fs a2 a3 a4 st f f_ :
  (2 <= fuel)%nat -> mem_wf m -> uuid_ok id -> find_by_ksid id (a_streams a2) = Some st ->
  fs (lit "test.key") = Some f -> fs (lit "test_.key") = Some f_ ->
  peer_serves example_context e2 QKD_SERVICE_GET_KEY_REQUEST QKD_SERVICE_GET_KEY_RESPONSE
    (enc gk_request_codec (example_key_request id (example_type keyType) x10)) a2 a3 e3 ->
  peer_serves example_context e3 QKD_SERVICE_GET_KEY_REQUEST QKD_SERVICE_GET_KEY_RESPONSE
    (enc gk_request_codec (example_key_request id (example_type keyType) x11)) a3 a4 e4 ->
  exists m', example_keys fuel keyType 0 id id (at_point m e2 fs) =
      Ret tt (at_point m' e4 (example_texts st keyType f f_ fs)) /\ mem_wf m' /\ extends m m'.
Proof.
  intros Hf Hm Hid Hst Hff Hff_ P3 P4. unfold example_keys, example_texts.
  set (kt := example_type keyType) in *.
  assert ((if keyType =? 1 then (x01, x10, x11) else (x00, x10, x11)) = (kt, x10, x11)) as ->
    by (unfold kt, example_type; by case_match).
  cbv beta iota. set (m1 := alloc (Bytes (Some <$> [kt; x10])) m).
  set (m2 := alloc (Bytes (Some <$> [kt; x11])) m1).
  assert (mem_wf m1) as Hm1 by by apply mem_wf_alloc.
  assert (mem_wf m2) as Hm2 by by apply mem_wf_alloc.
  assert (extends m1 m2) as He2 by by apply extends_alloc.
  erewrite cbind_ret by (apply on_client_run, in_client_mem; reflexivity). fold m1. cbv beta.
  erewrite cbind_ret by (apply on_client_run, in_client_mem; reflexivity). fold m2. cbv beta.
  assert (exists v, key_view [kt; x10] = Some v /\
    abs_key_for st 0 v.1 v.2 = abs_key_for st 0 x00 x00) as (v & Hv & Hkv).
  { unfold kt, example_type. case_match; eexists; (split; [done|]); done. }
  assert (exists v, key_view [kt; x11] = Some v /\ abs_key_for st 0 v.1 v.2 =
    if keyType =? 1 then imap mask_byte (abs_key_for st 0 x00 x00) else abs_key_for st 0 x00 x00)
    as (v' & Hv' & Hkv').
  { unfold kt, example_type. case_match; eexists; (split; [done|]); done. }
  destruct (example_get_key_run fuel id kt x10 v (next m) m2 e2 e3 fs a2 a3 st (lit "test.key") f)
    as (m3 & R3 & Hm3 & He3 & Htake); try done.
  { rewrite (extends_lookup _ _ _ _ He2 (lookup_alloc _ _)). done. }
  erewrite cbind_cont by exact R3. cbv beta. rewrite Hkv.
  destruct (find_by_ksid_take id id (a_streams a2) st Hst) as (st' & Hst' & Hsame).
  rewrite <- Htake in Hst'.
  destruct (example_get_key_run fuel id kt x11 v' (next m1) m3 e3 e4
    (set_file (lit "test.key") (Some (f ++ key_text 0 (abs_key_for st 0 x00 x00))) fs) a3 a4 st'
    (lit "test_.key") f_) as (m4 & R4 & Hm4 & He4 & _); try done.
  { eapply extends_lookup; [exact He3|apply lookup_alloc]. }
  erewrite cbind_cont by exact R4. cbv beta. rewrite (same_stream_key st st') by done. rewrite Hkv'.
  erewrite cbind_ret by (apply on_client_run, in_client_mem; reflexivity). cbv beta.
  eexists. split; [apply on_client_run, in_client_mem; reflexivity|].
  split; [by do 2 apply mem_wf_dealloc|].
  eapply (end_local_extends (Bytes (Some <$> [kt; x10]))); [done|]. fold m1.
  eapply (end_local_extends (Bytes (Some <$> [kt; x11]))); [done|]. fold m2. by etrans.
Qed.

Lemma example_close_run fuel id m e e' fs (a a' : akms) :
  (2 <= fuel)%nat -> mem_wf m -> uuid_ok id ->
  peer_serves example_context e QKD_SERVICE_CLOSE_REQUEST QKD_SERVICE_CLOSE_RESPONSE
    (enc cl_request_codec {| clq_key_stream_id := id |}) a a' e' ->
  exists r m', example_close fuel id (at_point m e fs) = Ret r (at_point m' e' fs) /\
    mem_wf m' /\ extends m m'.
Proof.
  intros Hf Hm Hid Hp.
  destruct (remote_close_struct fuel example_context id m e e' a a' Hf Hm Hid Hp)
    as (_ & m' & Hrun & Hm' & He).
  eexists. exists m'. split; [|done]. unfold example_close. rewrite uuid_copy_ok by done.
  by apply on_client_run.
Qed.

(** The six connections of the program, each to the server in the state that the one
    before it left. *)
Definition example_served (keyType : Z) (id : uuid_t) (e0 e6 : env) (a a1 : akms) : Prop :=
  let kt := example_type keyType in
  let cl_body := enc cl_request_codec {| clq_key_stream_id := id |} in
  exists e1 e2 e3 e4 e5 a2 a3 a4 a5 a6,
    peer_serves example_context e0 QKD_SERVICE_OPEN_CONNECT_REQUEST QKD_SERVICE_OPEN_CONNECT_RESPONSE
      (enc oc_request_codec (example_request uuid_nil)) a a1 e1 /\
    peer_serves example_context e1 QKD_SERVICE_OPEN_CONNECT_REQUEST QKD_SERVICE_OPEN_CONNECT_RESPONSE
      (enc oc_request_codec (example_request id)) a1 a2 e2 /\
    peer_serves example_context e2 QKD_SERVICE_GET_KEY_REQUEST QKD_SERVICE_GET_KEY_RESPONSE
      (enc gk_request_codec (example_key_request id kt x10)) a2 a3 e3 /\
    peer_serves example_context e3 QKD_SERVICE_GET_KEY_REQUEST QKD_SERVICE_GET_KEY_RESPONSE
      (enc gk_request_codec (example_key_request id kt x11)) a3 a4 e4 /\
    peer_serves example_context e4 QKD_SERVICE_CLOSE_REQUEST QKD_SERVICE_CLOSE_RESPONSE cl_body
      a4 a5 e5 /\
    peer_serves example_context e5 QKD_SERVICE_CLOSE_REQUEST QKD_SERVICE_CLOSE_RESPONSE cl_body
      a5 a6 e6.

Lemma example_run fuel src dst aj keyType m e0 e6 fs f f_ a a1 id :
  (2 <= fuel)%nat -> mem_wf m -> str_at m src source_text -> str_at m dst destination_text ->
  str_at m aj (lit "application/json") ->
  fs (lit "test.key") = Some f -> fs (lit "test_.key") = Some f_ ->
  Forall stream_ok (a_streams a) -> Forall stream_ok (a_streams a1) ->
  ksid_of source_text destination_text a1 = Some id ->
  example_served keyType id e0 e6 a a1 ->
  exists st m', find_by_ksid id (a_streams a1) = Some st /\
    getKey fuel src dst aj keyType (at_point m e0 fs) =
      Ret tt (at_point m' e6 (example_texts st keyType f f_ fs)) /\ extends m m' /\
    (keyType = 1 -> main fuel src dst aj (at_point m e0 fs) =
      Ret 0 (at_point m' e6 (example_texts st keyType f f_ fs))).
Proof.
  intros Hf Hm Hs Hd Hj Hff Hff_ Hsg Hsg1 Hid
    (e1 & e2 & e3 & e4 & e5 & a2 & a3 & a4 & a5 & a6 & P1 & P2 & P3 & P4 & P5 & P6).
  cut (exists st m', find_by_ksid id (a_streams a1) = Some st /\
    getKey fuel src dst aj keyType (at_point m e0 fs) =
      Ret tt (at_point m' e6 (example_texts st keyType f f_ fs)) /\ extends m m').
  { intros (st & m' & Hst & Hrun & He). exists st, m'. split_and!; [done..|]. intros ->.
    unfold main. by erewrite cbind_ret by exact Hrun. }
  unfold getKey, nil_text. rewrite uuid_parse_nil. cbn [default].
  destruct (example_open_run fuel src dst aj uuid_nil m e0 e1 fs a a1)
    as (id' & r & m1 & Hspec & Hok & Hr & R1 & Hm1 & X1); try done.
  destruct (spec_open_known _ _ _ _ _ _ Hspec) as (Hk & st & Hst).
  pose proof (eq_trans (eq_sym Hid) Hk) as [= <-].
  erewrite cbind_ret by exact R1. cbv beta. rewrite Hr.
  destruct (example_open_run fuel src dst aj id m1 e1 e2 fs a1 a2)
    as (id2 & r2 & m2 & Hspec2 & _ & Hr2 & R2 & Hm2 & X2); try done; [by eapply str_at_extends..|].
  rewrite (spec_open_under _ _ _ _ _ Hid) in Hspec2. injection Hspec2 as <- <-.
  erewrite cbind_ret by exact R2. cbv beta. rewrite Hr2.
  destruct (example_keys_run fuel keyType id m2 e2 e3 e4 fs a1 a3 a4 st f f_)
    as (m3 & R3 & Hm3 & X3); try done.
  erewrite cbind_ret.
  2: { cbn [example_loop Z.ltb Z.compare]. erewrite cbind_ret by exact R3. done. }
  destruct (example_close_run fuel id m3 e4 e5 (example_texts st keyType f f_ fs) a4 a5)
    as (r5 & m4 & R5 & Hm4 & X4); try done.
  destruct (example_close_run fuel id m4 e5 e6 (example_texts st keyType f f_ fs) a5 a6)
    as (r6 & m5 & R6 & _ & X5); try done.
  exists st, m5. split; [done|]. split.
  - cbv beta. erewrite cbind_ret by exact R5. cbv beta. by erewrite cbind_ret by exact R6.
  - etrans; [exact X1|]. etrans; [exact X2|]. etrans; [exact X3|]. by etrans.
Qed.

(** The example writes the keys of the two ends of one stream.  When its six
    connections are to the server, the first in state [a], [getKey] opens a stream without
    an id, opens it again under the id it was given, and appends to ["test.key"] the text
    of the key of the stream at index 0 and to ["test_.key"] the text of the key of the
    other end: the same key for a symmetric key (type 0), the masked key for an oblivious
    one (type 1).  It returns, and its own memory is unchanged; [main] does this for the
    oblivious key and ends with 0. *)
Theorem example_writes_keys fuel src dst aj keyType m e0 e6 fs f f_ a a1 id :
  (2 <= fuel)%nat -> mem_wf m -> str_at m src source_text -> str_at m dst destination_text ->
  str_at m aj (lit "application/json") ->
  fs (lit "test.key") = Some f -> fs (lit "test_.key") = Some f_ ->
  Forall stream_ok (a_streams a) -> Forall stream_ok (a_streams a1) ->
  ksid_of source_text destination_text a1 = Some id ->
  example_served keyType id e0 e6 a a1 ->
  exists st m', find_by_ksid id (a_streams a1) = Some st /\
    getKey fuel src dst aj keyType (at_point m e0 fs) =
      Ret tt (at_point m' e6 (example_texts st keyType f f_ fs)) /\ extends m m' /\
    (keyType = 1 -> main fuel src dst aj (at_point m e0 fs) =
      Ret 0 (at_point m' e6 (example_texts st keyType f f_ fs))).
Proof. apply example_run. Qed.

(** The six connections of the program to the server itself: the servlet serves each in the
    state that the one before it left, and what it writes arrives. *)
Definition example_calls (fuel : nat) (keyType : Z) (id : uuid_t) (e0 e6 : env) (srv0 srv6 : kms) :
    Prop :=
  let kt := example_type keyType in
  let call := call_served fuel example_context in
  exists e1 e2 e3 e4 e5 srv1 srv2 srv3 srv4 srv5,
    call e0 e1 srv0 srv1 QKD_SERVICE_OPEN_CONNECT_REQUEST
      (enc oc_request_codec (example_request uuid_nil)) /\
    call e1 e2 srv1 srv2 QKD_SERVICE_OPEN_CONNECT_REQUEST (enc oc_request_codec (example_request id)) /\
    call e2 e3 srv2 srv3 QKD_SERVICE_GET_KEY_REQUEST
      (enc gk_request_codec (example_key_request id kt x10)) /\
    call e3 e4 srv3 srv4 QKD_SERVICE_GET_KEY_REQUEST
      (enc gk_request_codec (example_key_request id kt x11)) /\
    call e4 e5 srv4 srv5 QKD_SERVICE_CLOSE_REQUEST (close_request_body id) /\
    call e5 e6 srv5 srv6 QKD_SERVICE_CLOSE_REQUEST (close_request_body id).

Lemma example_open_modest id : uuid_ok id ->
  modest_request (service_code QKD_SERVICE_OPEN_CONNECT_REQUEST)
    (enc oc_request_codec (example_request id)).
Proof.
  intros Hid. apply oc_request_modest; [by apply example_request_ok| |by vm_compute].
  rewrite length_enc_oc_request by done. by vm_compute.
Qed.

Lemma example_key_modest id kt kr : uuid_ok id ->
  modest_request (service_code QKD_SERVICE_GET_KEY_REQUEST)
    (enc gk_request_codec (example_key_request id kt kr)).
Proof. intros Hid. split; [|done]. rewrite length_enc_gk_request by done. by vm_compute. Qed.

(** Connections to the server are connections to the abstract server. *)
Lemma example_calls_served fuel keyType id e0 e6 (srv0 srv6 : kms) (a a1 : akms) F :
  (2 <= fuel)%nat -> app_rep srv0 a F -> modest_streams a ->
  spec_open source_text destination_text (ocq_qos (example_request uuid_nil)) uuid_nil a = (id, a1) ->
  example_calls fuel keyType id e0 e6 srv0 srv6 ->
  example_served keyType id e0 e6 a a1 /\ Forall stream_ok (a_streams a1) /\
  exists a6 F6, app_rep srv6 a6 F6.
Proof.
  intros Hf R0 S0 Hspec (e1 & e2 & e3 & e4 & e5 & s1 & s2 & s3 & s4 & s5 & C1 & C2 & C3 & C4 & C5 & C6).
  destruct (akms_rep_ok srv0 a F R0) as [Hok _].
  assert (uuid_ok id) as Hid.
  { cbn [spec_open akms_spec] in Hspec.
    pose proof (abs_open_id_ok source_text destination_text (ocq_qos (example_request uuid_nil)) uuid_nil
      (a_uuid a) _ Hok eq_refl) as H. destruct (abs_open _ _ _ _ _ _) as [[i g] sg].
    by injection Hspec as -> _. }
  destruct (modest_call_peer fuel _ _ _ _ _ _ _ a F Hf R0 S0 (example_open_modest uuid_nil eq_refl)
    ltac:(by left) C1) as (b1 & F1 & P1 & R1 & S1 & _).
  pose proof (eq_trans (eq_sym (f_equal snd Hspec)) (peer_opens _ _ _ _ _ _
    (example_message_short uuid_nil eq_refl) P1 (example_request_ok uuid_nil eq_refl))) as Hb.
  cbn [snd] in Hb. subst b1.
  destruct (modest_call_peer fuel _ _ _ _ _ _ _ _ _ Hf R1 S1 (example_open_modest _ Hid)
    ltac:(by left) C2) as (a2 & F2 & P2 & R2 & S2 & _).
  destruct (modest_call_peer fuel _ _ _ _ _ _ _ _ _ Hf R2 S2 (example_key_modest _ _ _ Hid)
    ltac:(by right; left) C3) as (a3 & F3 & P3 & R3 & S3 & _).
  destruct (modest_call_peer fuel _ _ _ _ _ _ _ _ _ Hf R3 S3 (example_key_modest _ _ _ Hid)
    ltac:(by right; left) C4) as (a4 & F4 & P4 & R4 & S4 & _).
  destruct (modest_call_peer fuel _ _ _ _ _ _ _ _ _ Hf R4 S4 (close_request_modest _ Hid)
    ltac:(by right; right) C5) as (a5 & F5 & P5 & R5 & S5 & _).
  destruct (modest_call_peer fuel _ _ _ _ _ _ _ _ _ Hf R5 S5 (close_request_modest _ Hid)
    ltac:(by right; right) C6) as (a6 & F6 & P6 & R6 & _).
  split; [|split; [by destruct (akms_rep_ok s1 a1 F1 R1)|by exists a6, F6]].
  by exists e1, e2, e3, e4, e5, a2, a3, a4, a5, a6.
Qed.

(** C20: the two example programs together.  When the six connections of the client example
    are to the key management server, whose servlet receives each request and whose answers
    arrive, the client opens a stream, opens it again under the id that the server gave, and
    appends to its two files the keys of the two ends at index 0; [main] returns 0.  The
    server goes on with a state that represents one of the abstract server. *)
Theorem example_through_server fuel src dst aj keyType m e0 e6 fs f f_ (srv0 srv6 : kms)
    (a a1 : akms) F id :
  (2 <= fuel)%nat -> mem_wf m -> str_at m src source_text -> str_at m dst destination_text ->
  str_at m aj (lit "application/json") ->
  fs (lit "test.key") = Some f -> fs (lit "test_.key") = Some f_ ->
  app_rep srv0 a F -> modest_streams a ->
  spec_open source_text destination_text (ocq_qos (example_request uuid_nil)) uuid_nil a = (id, a1) ->
  example_calls fuel keyType id e0 e6 srv0 srv6 ->
  (exists st m', find_by_ksid id (a_streams a1) = Some st /\
     getKey fuel src dst aj keyType (at_point m e0 fs) =
       Ret tt (at_point m' e6 (example_texts st keyType f f_ fs)) /\ extends m m' /\
     (keyType = 1 -> main fuel src dst aj (at_point m e0 fs) =
       Ret 0 (at_point m' e6 (example_texts st keyType f f_ fs)))) /\
  (exists a6 F6, app_rep srv6 a6 F6).
Proof.
  intros Hf Hm Hs Hd Hj Hff Hff_ Hrep Hsg Hspec Hcalls.
  destruct (example_calls_served fuel keyType id e0 e6 srv0 srv6 a a1 F Hf Hrep Hsg Hspec Hcalls)
    as (Hserved & Hok1 & H6).
  split; [|exact H6].
  apply (example_run fuel src dst aj keyType m e0 e6 fs f f_ a a1 id); try done.
  - by destruct (akms_rep_ok srv0 a F Hrep).
  - by apply (spec_open_known _ _ _ _ _ _ Hspec).
Qed.

End example.

(** ** A concrete run *)

Definition example_mem : mem :=
  alloc (Bytes (Some <$> enc_cstr (lit "application/json")))
    (alloc (Bytes (Some <$> enc_cstr destination_text))
      (alloc (Bytes (Some <$> enc_cstr source_text)) mem0)).

Lemma example_mem_wf : mem_wf example_mem.
Proof. do 3 apply mem_wf_alloc. by intros b _. Qed.

(** The two files exist and are empty. *)
Definition example_files : files := fun _ => Some [].

(** A server at which the stream of the two applications is open already, with keys of
    8 bytes, and has given [n] keys. *)
Definition example_server (n : Z) : akms :=
  akms_of 1 [{| st_ksid := Concrete.seq_uuid 0; st_qos := qos0;
                st_source := source_text; st_destination := destination_text; st_index := n |}].

Lemma example_server_ok n : Forall stream_ok (a_streams (example_server n)).
Proof. repeat constructor; try (by vm_compute); decided. Qed.

Definition example_key0 : list byte := abs_key source_text destination_text 8 0.

Definition example_reply (key : list byte) : list byte :=
  enc gk_response_codec {| gkr_status := 0; gkr_index := 0; gkr_key_buffer := key;
                           gkr_metadata := device_metadata config0 |}.

Definition example_open_reply : list byte :=
  enc oc_response_codec {| ocr_status := 0; ocr_qos := ocq_qos (example_request []);
                           ocr_key_stream_id := Concrete.seq_uuid 0 |}.

Definition example_close_reply : list byte := enc cl_response_codec {| clr_status := 0 |}.

Definition example_session : list ssl :=
  [replying QKD_SERVICE_OPEN_CONNECT_RESPONSE example_open_reply;
   replying QKD_SERVICE_OPEN_CONNECT_RESPONSE example_open_reply;
   replying QKD_SERVICE_GET_KEY_RESPONSE (example_reply example_key0);
   replying QKD_SERVICE_GET_KEY_RESPONSE (example_reply (imap mask_byte example_key0));
   replying QKD_SERVICE_CLOSE_RESPONSE example_close_reply;
   replying QKD_SERVICE_CLOSE_RESPONSE example_close_reply].

Lemma example_session_served :
  example_served (TLS := connections) 1 (Concrete.seq_uuid 0) example_session [] (example_server 0)
    (example_server 0).
Proof.
  exists (drop 1 example_session), (drop 2 example_session), (drop 3 example_session),
    (drop 4 example_session), (drop 5 example_session), (example_server 0), (example_server 1),
    (example_server 2), (example_server 2), (example_server 2).
  split_and!; eexists; (split; [|apply replying_answers; by vm_compute]); evaluated.
Qed.

Definition example_start : @example_state _ connections :=
  @at_point _ connections example_mem example_session example_files.

Lemma example_writes_keys_witness :
  exists st m', length (abs_key_for st 0 x00 x00) = 8%nat /\
    main (TLS := connections) 2 (Ptr 0 0) (Ptr 1 0) (Ptr 2 0) example_start =
      Ret 0 (@at_point _ connections m' [] (example_texts st 1 [] [] example_files)).
Proof.
  destruct (example_writes_keys (TLS := connections) 2 (Ptr 0 0) (Ptr 1 0) (Ptr 2 0) 1 example_mem
    example_session [] example_files [] [] (example_server 0) (example_server 0) (Concrete.seq_uuid 0))
    as (st & m' & Hst & _ & _ & Hrun).
  - lia.
  - exact example_mem_wf.
  - apply str_at_block; [decided|done].
  - apply str_at_block; [decided|done].
  - apply str_at_block; [decided|done].
  - done.
  - done.
  - exact (example_server_ok 0).
  - exact (example_server_ok 0).
  - done.
  - exact example_session_served.
  - exists st, m'. split; [|by apply Hrun]. injection Hst as <-. apply length_abs_key_for.
Defined.

(** The server after some client has opened the stream of the two applications with keys of
    8 bytes. *)
Definition example_other : list byte :=
  enc oc_request_codec {| ocq_source := source_text; ocq_destination := destination_text;
                          ocq_qos := qos0; ocq_key_stream_id := uuid_nil |}.

Lemma example_server_runs : exists srv F, app_rep srv (example_server 0) F.
Proof.
  pose proof (requests0 (service_code QKD_SERVICE_OPEN_CONNECT_REQUEST) example_other ltac:(decided)
    ltac:(by vm_compute)) as Hreq.
  destruct (servlet_step 2 SERVER_LISTENING kms0 _ akms0 [] _ example_other drained
    (message QKD_SERVICE_OPEN_CONNECT_RESPONSE (enc oc_response_codec
       {| ocr_status := 0; ocr_qos := qos0; ocr_key_stream_id := Concrete.seq_uuid 0 |}))
    (example_server 0) ltac:(lia) kms0_rep Hreq ltac:(by vm_compute) ltac:(evaluated)
    ltac:(by vm_compute)) as (srv & F & _ & Hrep & _).
  by exists srv, F.
Qed.

Lemma example_session_called srv0 F0 : app_rep srv0 (example_server 0) F0 ->
  exists srv6, example_calls (TLS := connections) 2 1 (Concrete.seq_uuid 0) example_session [] srv0 srv6.
Proof.
  intros R0. set (id := Concrete.seq_uuid 0).
  destruct (call0 example_context (drop 1 example_session) srv0 QKD_SERVICE_OPEN_CONNECT_REQUEST
    (enc oc_request_codec (example_request uuid_nil)) example_open_reply (example_server 0)
    (example_server 0) F0 R0 ltac:(by left) ltac:(evaluated) ltac:(by vm_compute) ltac:(by vm_compute))
    as (s1 & F1 & C1 & R1).
  destruct (call0 example_context (drop 2 example_session) s1 QKD_SERVICE_OPEN_CONNECT_REQUEST
    (enc oc_request_codec (example_request id)) example_open_reply (example_server 0)
    (example_server 0) F1 R1 ltac:(by left) ltac:(evaluated) ltac:(by vm_compute) ltac:(by vm_compute))
    as (s2 & F2 & C2 & R2).
  destruct (call0 example_context (drop 3 example_session) s2 QKD_SERVICE_GET_KEY_REQUEST
    (enc gk_request_codec (example_key_request id x01 x10)) (example_reply example_key0)
    (example_server 0) (example_server 1) F2 R2 ltac:(by right; left) ltac:(evaluated)
    ltac:(by vm_compute) ltac:(by vm_compute)) as (s3 & F3 & C3 & R3).
  destruct (call0 example_context (drop 4 example_session) s3 QKD_SERVICE_GET_KEY_REQUEST
    (enc gk_request_codec (example_key_request id x01 x11)) (example_reply (imap mask_byte example_key0))
    (example_server 1) (example_server 2) F3 R3 ltac:(by right; left) ltac:(evaluated)
    ltac:(by vm_compute) ltac:(by vm_compute)) as (s4 & F4 & C4 & R4).
  destruct (call0 example_context (drop 5 example_session) s4 QKD_SERVICE_CLOSE_REQUEST
    (close_request_body id) example_close_reply (example_server 2) (example_server 2) F4 R4
    ltac:(by right; right) ltac:(evaluated) ltac:(by vm_compute) ltac:(by vm_compute))
    as (s5 & F5 & C5 & R5).
  destruct (call0 example_context [] s5 QKD_SERVICE_CLOSE_REQUEST
    (close_request_body id) example_close_reply (example_server 2) (example_server 2) F5 R5
    ltac:(by right; right) ltac:(evaluated) ltac:(by vm_compute) ltac:(by vm_compute))
    as (s6 & F6 & C6 & _).
  exists s6, (drop 1 example_session), (drop 2 example_session), (drop 3 example_session),
    (drop 4 example_session), (drop 5 example_session), s1, s2, s3, s4, s5.
  by split_and!.
Qed.

Lemma example_through_server_witness :
  exists (srv0 : kms) F st m', app_rep srv0 (example_server 0) F /\
    length (abs_key_for st 0 x00 x00) = 8%nat /\
    main (TLS := connections) 2 (Ptr 0 0) (Ptr 1 0) (Ptr 2 0) example_start =
      Ret 0 (@at_point _ connections m' [] (example_texts st 1 [] [] example_files)).
Proof.
  destruct example_server_runs as (srv0 & F & R0).
  destruct (example_session_called srv0 F R0) as (srv6 & Hcalls).
  destruct (example_through_server (TLS := connections) 2 (Ptr 0 0) (Ptr 1 0) (Ptr 2 0) 1 example_mem
    example_session [] example_files [] [] srv0 srv6 (example_server 0) (example_server 0) F
    (Concrete.seq_uuid 0)) as [(st & m' & Hst & _ & _ & Hrun) _].
  - lia.
  - exact example_mem_wf.
  - apply str_at_block; [decided|done].
  - apply str_at_block; [decided|done].
  - apply str_at_block; [decided|done].
  - done.
  - done.
  - exact R0.
  - by repeat constructor.
  - evaluated.
  - exact Hcalls.
  - exists srv0, F, st, m'. split; [exact R0|]. split; [|by apply Hrun].
    injection Hst as <-. apply length_abs_key_for.
Defined.
