(* ===== verification/PrintTheorems.v ===== *)
(** The texts of the log: what the functions of [Printing.v] write, and that a key can be
    read back from its text. *)

From S2P Require Import Prelude Models Memory Wire Sizes Platform Printf SerializersSpec KeyFile Uuid.
From S2P Require Import Printing Scenario.

Section printing.
Context {UT : UuidText}.

(** C33: the structs are printed as their texts.  Each printing function, on a struct
    that holds a message, appends the text of the message to the file and changes
    nothing else: numbers in decimal, a status above [INT_MAX] as a negative one, strings
    in quotes and unescaped, keys as lists of decimals, and of the metadata the bytes up
    to the first null. *)
Theorem structs_printed m :
  (forall r v, oc_request_at m r v -> printed (qkd_fprintf_oc_request r) m (oc_request_text v)) /\
  (forall r v, oc_response_at m r v -> printed (qkd_fprintf_oc_response r) m (oc_response_text v)) /\
  (forall r v, gk_request_at m r v -> int_sized (gkq_metadata v) ->
     printed (qkd_fprintf_gk_request r) m (gk_request_text v)) /\
  (forall r v, gk_response_at m r v -> int_sized (gkr_key_buffer v) -> int_sized (gkr_metadata v) ->
     printed (qkd_fprintf_gk_response r) m (gk_response_text v)) /\
  (forall id, printed (qkd_fprintf_cl_request {| clq_key_stream_id := id |}) m
     (lit "{'key_stream_id': " ++ quoted (uuid_unparse_lower id) ++ lit "}")) /\
  (forall st, printed (qkd_fprintf_cl_response {| clr_status := st |}) m
     (lit "{'status': " ++ print_d (as_int st) ++ lit "}")) /\
  (forall d l group, bytes_at m d l -> int_sized l ->
     printed (qkd_fprintf_bytes d group) m (bytes_text l group)).
Proof.
  split_and!.
  - intros r v (Hs & Hd & Hq & Hid). eapply printed_eq; [|unfold qkd_fprintf_oc_request; print_pieces].
    unfold oc_request_text, quoted. rewrite Hid, <- !app_assoc. reflexivity.
  - intros r v (Hs & Hq & Hid). eapply printed_eq; [|unfold qkd_fprintf_oc_response; print_pieces].
    unfold oc_response_text, quoted. rewrite Hid, Hs, <- !app_assoc. reflexivity.
  - intros r v (Hid & Hi & Hmd) Hs. eapply printed_eq; [|unfold qkd_fprintf_gk_request; print_pieces].
    unfold gk_request_text, quoted. rewrite Hid, Hi, <- !app_assoc. reflexivity.
  - intros r v (Hst & Hi & Hk & Hmd) Hks Hms.
    eapply printed_eq; [|unfold qkd_fprintf_gk_response; print_pieces].
    unfold gk_response_text, quoted. rewrite Hst, Hi, <- !app_assoc. reflexivity.
  - intros id. eapply printed_eq; [|unfold qkd_fprintf_cl_request; print_pieces]. done.
  - intros st. apply printed_fput.
  - intros d l group. apply printed_bytes.
Qed.

End printing.

(** A response to GET_KEY with the key 1, 255, 0 and, as metadata, a key type and a role. *)
Definition print_mem : mem :=
  alloc (Bytes (Some <$> [x00; x10])) (alloc (Bytes (Some <$> [x01; xff; x00])) mem0).

Definition print_response : qkd_get_key_response_t :=
  {| gkr_status := 2 ^ 32 - 1; gkr_index := 7; gkr_key_buffer := {| size := 3; data := Ptr 0 0 |};
     gkr_metadata := {| size := 2; data := Ptr 1 0 |} |}.

Lemma print_key_at : bytes_at print_mem {| size := 3; data := Ptr 0 0 |} [x01; xff; x00].
Proof.
  split; [decided|]. split; [done|]. right. exists 0%nat, 0%nat, (Some <$> [x01; xff; x00]), [].
  split_and!; try done. cbn. lia.
Qed.

Lemma structs_printed_witness :
  qkd_fprintf_gk_response print_response {| kf_mem := print_mem; kf_file := Some [] |} =
    Ret tt {| kf_mem := print_mem; kf_file := Some
      (lit "{'status': -1, 'index': 7, 'key_buffer': [1, 255, 0], 'metadata': }") |}.
Proof.
  destruct (structs_printed print_mem) as (_ & _ & _ & H & _).
  rewrite (H print_response {| gkr_status := 2 ^ 32 - 1; gkr_index := 7;
    gkr_key_buffer := [x01; xff; x00]; gkr_metadata := [x00; x10] |}).
  - reflexivity.
  - split; [done|]. split; [done|]. split; [exact print_key_at|].
    split; [decided|]. split; [done|]. right. exists 1%nat, 0%nat, (Some <$> [x00; x10]), [].
    split_and!; try done. cbn. lia.
  - by vm_compute.
  - by vm_compute.
Defined.

(** C32: a key can be read back from the log.  What [qkd_fprintf_key_buffer] appends for a
    buffer determines its bytes: a reader of lists of numbers gets them back, so that two
    buffers with the same text are equal, and the log gives away the key. *)
Theorem printed_key_read_back m d key t :
  bytes_at m d key -> int_sized key ->
  exists text, qkd_fprintf_key_buffer d {| kf_mem := m; kf_file := Some t |} =
      Ret tt {| kf_mem := m; kf_file := Some (t ++ text) |} /\
    read_key_buffer text = Some key /\ (size d = 0 -> text = lit "[]").
Proof.
  intros Hd Hs. exists (key_buffer_text key). split; [by apply printed_key_buffer|].
  split; [apply read_key_buffer_text|]. destruct Hd as (_ & Hz & _). rewrite Hz.
  by destruct key.
Qed.

Lemma printed_key_read_back_witness :
  exists text, qkd_fprintf_key_buffer {| size := 3; data := Ptr 0 0 |}
      {| kf_mem := print_mem; kf_file := Some [] |} =
      Ret tt {| kf_mem := print_mem; kf_file := Some text |} /\
    read_key_buffer text = Some [x01; xff; x00].
Proof.
  destruct (printed_key_read_back print_mem {| size := 3; data := Ptr 0 0 |} [x01; xff; x00] [])
    as (text & H1 & H2 & _); [exact print_key_at|by vm_compute|]. by exists text.
Defined.
